(* ===== verification/_CoqProject ===== *)
-Q . S2P
Prelude.v
Pages.v
Regs.v
Process.v
Log.v
Syscalls.v
SyscallsSpec.v
Memory.v
MemorySpec.v
Branch.v
Target.v
TargetSpec.v
LogSpec.v
Cflow.v
CflowSpec.v
Engine.v
EngineSpec.v
ProgressSpec.v
TerminationSpec.v
Stubs.v
Native.v
StubsSpec.v
RoundSpec.v
SysRoundSpec.v
CallSpec.v
SimSpec.v
RunSpec.v
SetupSpec.v
StartSpec.v
EndSpec.v
Elf.v
Stack.v
StackSpec.v
Loader.v
LoaderSpec.v
BinarySpec.v
ImageSpec.v
ElfSpec.v
MainSpec.v
Maps.v
MapsSpec.v
LogMapSpec.v
Demo.v
Witnesses.v
LoadWitnesses.v
RoundWitness.v
SysWitness.v
SimWitness.v
MainWitness.v
