(* ===== verification/Prelude.v ===== *)
(** * dryadalis in Rocq

    dryadalis is a dynamic binary instrumentation engine for x86-64 ELF programs.  It maps a
    program into its own process, finds the end of each basic block, writes a jump to itself
    there, and when the guest arrives it runs a callback, emulates the instruction that ends
    the block and goes on with the next block.  This library models the C sources under
    src/src and src/include and proves what their functions do.

    ** The program and its parts

    - src/src/main.c maps the program ([map_binary]) and starts the engine ([instrument]).
    - src/src/elf_parsing.c reads headers and builds the binary object; src/src/core_mapper.c
      maps segments, builds the guest stack and keeps a list of page descriptors.
    - src/src/engine.c holds the hooks, the two assembly stubs that switch between guest and
      engine, and the dispatcher; src/src/analysis.c finds block ends and evaluates branches;
      src/src/state_runt.c gives access to guest registers by their disassembler names;
      src/src/memory.c reads and writes guest memory; src/src/syscall_hook.c emulates the
      system calls.

    One round of the engine: the guest runs into the [dump] hook, the dump stub records the
    registers and enters [_dispatcher]; that takes the hooks out, evaluates the branch
    ([eval_target], which calls a system call hook when it has to), writes the hooks of the
    next block ([instrument_request], which sweeps it with [opcodes_cflow]) and leaves through
    the restore stub and the [restore] hook in front of the next block.

    ** The files

    - Prelude: C integers, record updates, general lemmas.  Pages: the page macros.
    - Regs: [state_rtime_t], the register table and its functions (state_runt.c).
    - Process: the address space with per-page protections, the kernel, the objects of the
      engine ([dbi_instr_t], [hook_t]), the monad [M] of the C functions, the exit paths and
      segment bases (engine.c).  Log: the texts of the register dump (state_runt.c); LogSpec
      reads them back.
    - Syscalls: one definition per hook and the dispatch (syscall_hook.c); SyscallsSpec.
    - Memory: memory.c and [is_mapped_range] of core_mapper.c; MemorySpec.
    - Branch, Target: flags, conditional jumps, [__eval_target] (analysis.c); TargetSpec with
      the processor's semantics of branches as the abstract specification.
    - Cflow: [opcodes_cflow], [insn_len] (analysis.c); CflowSpec with the relation [sweep].
    - Engine: hooks, dispatcher, callback of main.c; EngineSpec with the invariant
      [instrumented]; ProgressSpec; TerminationSpec.
    - Stubs: the assembly programs of engine.c and core_mapper.c as data with a machine
      semantics, [craft_hook], [craft_restore_stub], [instrument]; StubsSpec, SetupSpec;
      RoundSpec composes stubs, dispatcher and branch evaluation into one round, SysRoundSpec
      does the same for a block that ends in a system call.
    - Native: the guest on its own, block by block, its system calls and its end; CallSpec:
      what the dispatcher makes of each kind of system call; SimSpec: the simulation between
      the guest and the rounds of the engine; RunSpec: any number of rounds; StartSpec: from
      the loaded process to the first state of the simulation; EndSpec: the end of the guest
      and of the engine.
    - Elf: elf_parsing.c; ElfSpec.  Stack: [setup_stack], [add_auxvt]; StackSpec.
    - Loader: [map_load], [map_binary], [main], [end_analysis]; LoaderSpec, BinarySpec;
      ImageSpec with the abstract image of a binary;
      MainSpec composes [main] with the setup, the start, the rounds and the end.
    - Maps: the page descriptors of core_mapper.c and the list functions of kernel_list.h over
      an explicit heap; MapsSpec; LogMapSpec for the lines of [log_map].
    - Demo, Witnesses, LoadWitnesses, RoundWitness, SysWitness, SimWitness, MainWitness:
      concrete kernels, disassemblers, machines and programs, at which the theorems are
      instantiated.

    Every file that models code is made of definitions named after the C functions; a file
    whose name ends in Spec holds the theorems on the file before it.

    ** State and effects

    A C function that touches the process is a term of [M]: it returns, ends the process with
    a status, fails an [assert], crashes (an invalid access, or behaviour C leaves undefined),
    does not come back from a system call, or exhausts the fuel of the model.  The state
    [proc] is the address space, the segment bases in force, the one [dbi_instr_t] object and
    the global variables, with the number of files the engine holds open.  The descriptor list has a monad of its own over a heap of nodes, in
    which an access to a freed node is a fault.  Integers are [Z], with the conversion to the
    C type written where the C expression can leave it.  A copy into a buffer of the engine
    checks its bounds.

    Fuel: [copy_fuel] gives the copies one iteration per page and two more
    ([copies_terminate] shows it is enough for every size); [scan_fuel] one per byte of a
    page; the depth of [opcodes_cflow] is an argument, and any value above the distance of the
    block end gives the result ([opcodes_cflow_finds]), while any value above the number of
    mapped bytes gives one ([sweep_terminates]).  [setup_stack_layout] asks for more fuel than
    the words it allows; the lookups of the descriptor list for the length of the list; the
    fuel of [map_binary] bounds the nesting of interpreters, which in the program only the
    number of files that can be open does ([map_binary_self_interp]).

    ** Parameters

    Code that is not in the repository is a class, with what is relied upon as a class of
    laws next to it: [Kernel] (the answers of system calls, refused mappings, accepted segment
    bases), [RegEnum]/[RegEnumOk] (the register numbers of Capstone), [Disassembler]/
    [DisassemblerOk] (an instruction is between 1 and 15 bytes long and determined by them),
    [Assembler] (the encodings of Keystone), [Layout]/[LayoutOk] (the addresses of variables
    and functions the stubs name), [Selectors] (the segment selectors the processor accepts),
    [MmapChoice] (the addresses the kernel chooses), [Globals], [Machine] (files, random
    device, both as an [open] grants them by the number of open files, processor features),
    [Processor] (what the instructions of a block in front of its
    branch do, as loads, stores and new registers).  The masks of [is_test] and the
    selectors [host_save_state] finds are arguments.

    ** What is proved

    - The engine runs the guest: as long as the guest on its own stays within what the engine
      covers, the engine can go on, and wherever its rounds lead, whatever the compiled
      dispatcher leaves in the registers, the guest on its own can be in the corresponding
      state ([engine_simulates]); the first state is the one [instrument] and [exec_binary]
      reach from a loaded process ([engine_starts]).  [covered] names what is asked of a
      block: it fits between its hooks, does not touch the bytes under them and ends with a
      branch on which [eval_target_refines] holds, or with a system call ([covered_call]): of
      a conforming row, [mmap] or [close], when it succeeds and the kernel answers it for the
      memory of the guest alone ([hosted_call]); [arch_prctl] that succeeds; [brk] that asks
      for the break or grows it over free pages.  After a call, [rcx] and [r11] are whatever
      the convention leaves open: the engine keeps them, where the processor overwrites them.
      Where the guest ends its process the engine ends its own, with status 0
      ([engine_exits]).
    - The whole program: from the words of the command line through the loader, the setup and
      the rounds to the end of the guest ([main_runs]).  [prepared] names what the setup asks
      of the process the loader leaves; that the loader leaves a fresh engine is proved
      ([map_binary_engine]).  Without a file [main] changes nothing, and a file it refuses it
      leaves open ([main_refuses]).
    - A forwarded system call, from the hook over its instruction to the guest behind it
      ([syscall_round]).
    - The round: from the dump hook through the dispatcher and back, the guest sees exactly
      its branch ([engine_round]), for the near branches [plain_branch] describes.
    - The engine: taking the hooks out gives back the bytes of the guest ([dispatcher_step],
      [write_restore_hook]); a block is instrumented where it starts and ends
      ([instrument_request_ok], [opcodes_cflow_finds]); the switches are transparent
      ([stub_round_trip]); setup and start
      ([instrument_ok], [exec_binary_starts]); rounds without end ([loop_progress]).
    - Branches: refinement of the processor ([eval_target_refines]), conditions
      ([is_jmp_taken_cond], [is_jmp_taken_cmp]), and the cases in which they differ from it:
      operands of [fs] and [gs] ([eval_target_segment]) or without a base, returns with an
      immediate, calls through the stack pointer.  The specification describes near branches
      of 64-bit code; far transfers are in none of its steps.
    - System calls: every forwarding hook against a table of numbers and arguments, the frame
      of all hooks, and [brk] on each of its paths.
    - Registers, memory copies, the sweep: their values on every branch, and termination.
    - Printing: the register dump can be read back ([log_regs_readable]); [log_map] prints the
      runs of the list ([log_map_prints]).
    - Loading: the memory of a program shows its segments as their headers say, but for the
      pages and the break in which [map_load] deviates, which are named
      ([map_binary_image]), from the contents, protections and break of each segment
      ([map_load_segment], [map_load_first], [map_load_break]); the headers of a file are
      read back ([headers_round_trip]); the shape of what [map_binary] returns and the
      interpreters that name themselves, which it opens until no file can be opened, and the
      layout of the guest stack; what
      [end_analysis] unmaps and what it leaves ([end_analysis_unmaps],
      [end_analysis_leaves_stack]).
    - The descriptor list: lookup, update, merge, removal, insertion and splicing keep the
      circular doubly linked list; the removal of its head leaves a dangling pointer.

    ** Not modelled

    The frames of the compiled C functions: the switch to the engine is modelled with the
    words its stubs push on the stack of the engine, and what [_dispatcher] and the functions
    the stubs call keep on that stack below them is not; it is not memory of the guest.
    Printed output other than the register dump and [log_map], except where a conversion reads
    guest memory or a print function ends the process; the heap of the engine ([malloc],
    [free], and with it [free_hashmap]) but for the descriptor list; the code that is commented
    out; plugin.py, a debugger script; the
    programs under src/test.  An access to a page of a file mapping wholly beyond the end of
    the file raises SIGBUS: the model takes the process to be lost at the mapping of such a
    page already, so that nothing is claimed about it.  Concurrency between threads of the
    guest is outside of the program's own design and of the model. *)

From stdpp Require Export base numbers list gmap.
From Stdlib Require Export ZArith Lia.

(** ** Notation scope of the development *)

Declare Scope dry_scope.
Delimit Scope dry_scope with dry.

#[global] Open Scope Z_scope.

(** ** C integers

    A C integer of width [w] is its mathematical value.  An operation that may leave the
    range is followed by the conversion to its type: [u64], [u32], [u8] for the unsigned
    types (reduction modulo [2^w]) and [s32], [s64] for the signed ones (the two's
    complement reading of the low [w] bits, which is what gcc does). *)

Definition u64 (z : Z) : Z := z mod 2 ^ 64.
Definition u32 (z : Z) : Z := z mod 2 ^ 32.
Definition u8 (z : Z) : Z := z mod 2 ^ 8.

Definition sext (w z : Z) : Z :=
  let u := z mod 2 ^ w in if u <? 2 ^ (w - 1) then u else u - 2 ^ w.

Definition s32 (z : Z) : Z := sext 32 z.
Definition s64 (z : Z) : Z := sext 64 z.

(** The value [-1] converted to [uint64_t], the error value of the 64-bit interfaces. *)
Definition minus1 : Z := u64 (-1).

(** Truth value of a C integer used as a condition. *)
Definition truth (z : Z) : bool := negb (z =? 0).

Definition is_u64 (z : Z) : Prop := 0 <= z < 2 ^ 64.

Create HintDb dry.
Create Rewrite HintDb dry.

Lemma u64_range z : is_u64 (u64 z).
Proof. unfold is_u64, u64. apply Z.mod_pos_bound. lia. Qed.

Lemma u32_range z : 0 <= u32 z < 2 ^ 32.
Proof. unfold u32. apply Z.mod_pos_bound. lia. Qed.

Lemma u64_small z : is_u64 z -> u64 z = z.
Proof. intros H. unfold u64. by apply Z.mod_small. Qed.

Lemma u32_small z : 0 <= z < 2 ^ 32 -> u32 z = z.
Proof. intros H. unfold u32. by apply Z.mod_small. Qed.

Lemma u64_idem z : u64 (u64 z) = u64 z.
Proof. apply u64_small, u64_range. Qed.

Lemma u64_add_l a b : u64 (u64 a + b) = u64 (a + b).
Proof. unfold u64. by rewrite Z.add_mod_idemp_l by lia. Qed.

Lemma u64_add_r a b : u64 (a + u64 b) = u64 (a + b).
Proof. unfold u64. by rewrite Z.add_mod_idemp_r by lia. Qed.

Lemma u64_sub_add a b : u64 (u64 (a - b) + b) = u64 a.
Proof. rewrite u64_add_l. f_equal. lia. Qed.

Lemma sext_range w z : 0 < w -> - 2 ^ (w - 1) <= sext w z < 2 ^ (w - 1).
Proof.
  intros Hw. unfold sext.
  assert (H2 : 2 ^ w = 2 * 2 ^ (w - 1)).
  { rewrite <- Z.pow_succ_r by lia. f_equal. lia. }
  assert (0 < 2 ^ (w - 1)) by (apply Z.pow_pos_nonneg; lia).
  pose proof (Z.mod_pos_bound z (2 ^ w) ltac:(lia)).
  case_match; lia.
Qed.

Lemma sext_small w z : 0 < w -> - 2 ^ (w - 1) <= z < 2 ^ (w - 1) -> sext w z = z.
Proof.
  intros Hw Hz. unfold sext.
  assert (H2 : 2 ^ w = 2 * 2 ^ (w - 1)).
  { rewrite <- Z.pow_succ_r by lia. f_equal. lia. }
  assert (0 < 2 ^ (w - 1)) by (apply Z.pow_pos_nonneg; lia).
  destruct (Z.ltb_spec (z mod 2 ^ w) (2 ^ (w - 1))) as [Hlt | Hge].
  - destruct (decide (0 <= z)).
    + apply Z.mod_small. lia.
    + exfalso. rewrite <- (Z.mod_add z 1) in Hlt by lia.
      rewrite Z.mod_small in Hlt by lia. lia.
  - destruct (decide (0 <= z)).
    + rewrite Z.mod_small in Hge by lia. lia.
    + rewrite <- (Z.mod_add z 1) by lia. rewrite Z.mod_small by lia. lia.
Qed.

Lemma sext_mod w z : 0 <= w -> sext w z mod 2 ^ w = z mod 2 ^ w.
Proof.
  intros Hw. unfold sext. pose proof (Z.pow_pos_nonneg 2 w ltac:(lia) Hw).
  destruct (_ <? _); [ by rewrite Z.mod_mod by lia | ].
  rewrite <- Zminus_mod_idemp_r, Z.mod_same, Z.sub_0_r, Z.mod_mod by lia. done.
Qed.

Lemma s32_add_l a b : s32 (s32 a + b) = s32 (a + b).
Proof.
  unfold s32 at 1 3. unfold sext at 1 2.
  assert (E : (s32 a + b) mod 2 ^ 32 = (a + b) mod 2 ^ 32)
    by (rewrite <- Zplus_mod_idemp_l; unfold s32; by rewrite sext_mod, Zplus_mod_idemp_l).
  by rewrite E.
Qed.

Lemma s32_idemp a : s32 (s32 a) = s32 a.
Proof. pose proof (s32_add_l a 0) as H. by rewrite !Z.add_0_r in H. Qed.

Lemma u32_idemp z : u32 (u32 z) = u32 z.
Proof. apply u32_small, u32_range. Qed.

#[export] Hint Resolve u64_range u32_range : dry.
#[export] Hint Rewrite u64_idem u64_add_l u64_add_r : dry.

(** ** Masks

    [x & (2^n - 1)] is reduction modulo [2^n]: the two forms the sources use, spelled for
    the constants that occur. *)

Lemma land_mask n x : 0 <= n -> Z.land x (2 ^ n - 1) = x mod 2 ^ n.
Proof.
  intros Hn. rewrite <- Z.land_ones by lia. f_equal. rewrite Z.ones_equiv. lia.
Qed.

Lemma land_lnot_mask n x :
  0 <= n -> Z.land x (Z.lnot (2 ^ n - 1)) = x - x mod 2 ^ n.
Proof.
  intros Hn. rewrite <- land_mask by done.
  assert (Hd : Z.land (Z.land x (Z.lnot (2 ^ n - 1))) (Z.land x (2 ^ n - 1)) = 0).
  { apply Z.bits_inj'. intros i Hi. rewrite !Z.land_spec, Z.lnot_spec, Z.bits_0 by done.
    destruct (Z.testbit x i), (Z.testbit (2 ^ n - 1) i); done. }
  pose proof (Z.add_lor_land (Z.land x (Z.lnot (2 ^ n - 1))) (Z.land x (2 ^ n - 1))) as Hs.
  rewrite Hd in Hs.
  assert (Hx : Z.lor (Z.land x (Z.lnot (2 ^ n - 1))) (Z.land x (2 ^ n - 1)) = x).
  { apply Z.bits_inj'. intros i Hi. rewrite Z.lor_spec, !Z.land_spec, Z.lnot_spec by done.
    destruct (Z.testbit x i), (Z.testbit (2 ^ n - 1) i); done. }
  lia.
Qed.

(** A flag test [x & (1 << n)] is the [n]-th bit. *)
Lemma truth_land_bit x n : 0 <= n -> truth (Z.land x (Z.shiftl 1 n)) = Z.testbit x n.
Proof.
  intros Hn. unfold truth. rewrite Z.shiftl_1_l.
  assert (Hb : Z.land x (2 ^ n) = if Z.testbit x n then 2 ^ n else 0).
  { apply Z.bits_inj'. intros i Hi. rewrite Z.land_spec, Z.pow2_bits_eqb by done.
    destruct (Z.eqb_spec n i) as [-> | Hne].
    - destruct (Z.testbit x i) eqn:E; [ | by rewrite Z.bits_0 ].
      by rewrite Z.pow2_bits_true.
    - rewrite andb_false_r. destruct (Z.testbit x n); [ | by rewrite Z.bits_0 ].
      by rewrite Z.pow2_bits_false. }
  rewrite Hb. assert (0 < 2 ^ n) by (apply Z.pow_pos_nonneg; lia).
  destruct (Z.testbit x n); [ | done ].
  by rewrite (proj2 (Z.eqb_neq (2 ^ n) 0)) by lia.
Qed.

(** ** Record update

    [r <| f := v |>] is the record [r] with the field [f] set to [v].  A record type
    declares once how it is rebuilt from its projections ([Eta]); the setter of a field is
    found by abstracting that expression over the projection. *)

Class Eta (R : Type) := eta_of : R -> R.
Class Setter {R T : Type} (proj : R -> T) := set_field : T -> R -> R.

Ltac solve_setter :=
  lazymatch goal with
  | |- @Setter ?R ?T ?proj =>
      let inst := constr:(_ : Eta R) in
      let e := eval red in inst in
      lazymatch eval pattern proj in e with
      | ?f _ => let s := eval cbv beta in (fun (v : T) (r : R) => f (fun _ => v) r) in exact s
      end
  end.

#[global] Hint Extern 0 (@Setter _ _ _) => solve_setter : typeclass_instances.

Notation "r <| f := v |>" := (@set_field _ _ f _ v r)
  (at level 1, left associativity, f at level 0, format "r  <| f  :=  v |>") : dry_scope.
#[global] Open Scope dry_scope.

(** ** Lists *)

(** [take]/[drop] reassembly used by the buffer lemmas. *)
Lemma app_take_drop_same {A} (n : nat) (l : list A) : take n l ++ drop n l = l.
Proof. apply take_drop. Qed.

(** Case analysis on every boolean test and option in the goal, then arithmetic. *)
Ltac crush_cases :=
  repeat (case_match || case_decide); simplify_eq/=; try done; try lia.

(** Turn the boolean comparisons of the context into propositions. *)
Ltac bool_to_prop :=
  repeat match goal with
    | H : (_ =? _) = true |- _ => apply Z.eqb_eq in H
    | H : (_ =? _) = false |- _ => apply Z.eqb_neq in H
    | H : (_ <? _) = true |- _ => apply Z.ltb_lt in H
    | H : (_ <? _) = false |- _ => apply Z.ltb_ge in H
    | H : (_ <=? _) = true |- _ => apply Z.leb_le in H
    | H : (_ <=? _) = false |- _ => apply Z.leb_gt in H
    | H : _ && _ = true |- _ => apply andb_true_iff in H as [? ?]
    | H : _ || _ = false |- _ => apply orb_false_iff in H as [? ?]
    | H : negb _ = true |- _ => apply negb_true_iff in H
    | H : negb _ = false |- _ => apply negb_false_iff in H
    end.
