(* ===== verification/Pages.v ===== *)
(** * Page arithmetic

    The macros [PAGE_ALIGN], [PAGE_ROUND] and [PAGE_OFFT] of include/dryadalis_x86.h and
    the facts about them that the memory wrappers, the loader and the [brk] emulation
    share.  The constant [~0xfff] is an [int]; it is sign-extended to the width of the
    other operand, which on [Z] is the infinite two's complement mask [Z.lnot 0xfff]. *)

From S2P Require Import Prelude.

Definition PAGE_SZ : Z := 0x1000.
Definition PAGE_ALIGN (x : Z) : Z := Z.land x (Z.lnot 0xfff).
Definition PAGE_ROUND (x : Z) : Z := PAGE_ALIGN x + 0xfff.
Definition PAGE_OFFT (x : Z) : Z := Z.land x 0xfff.

Lemma PAGE_OFFT_mod x : PAGE_OFFT x = x mod PAGE_SZ.
Proof. apply (land_mask 12). lia. Qed.

Lemma PAGE_ALIGN_sub x : PAGE_ALIGN x = x - x mod PAGE_SZ.
Proof. apply (land_lnot_mask 12). lia. Qed.

Lemma PAGE_ALIGN_OFFT x : x = PAGE_ALIGN x + PAGE_OFFT x.
Proof. rewrite PAGE_ALIGN_sub, PAGE_OFFT_mod. lia. Qed.

Lemma PAGE_OFFT_range x : 0 <= PAGE_OFFT x < PAGE_SZ.
Proof. rewrite PAGE_OFFT_mod. apply Z.mod_pos_bound. done. Qed.

Lemma PAGE_ALIGN_mod x : PAGE_ALIGN x mod PAGE_SZ = 0.
Proof.
  rewrite PAGE_ALIGN_sub. rewrite Zminus_mod, Z.mod_mod, Z.sub_diag by done. done.
Qed.

(** The page of an address is determined by the quotient. *)
Lemma PAGE_ALIGN_quot x : PAGE_ALIGN x = PAGE_SZ * (x / PAGE_SZ).
Proof. rewrite PAGE_ALIGN_sub, Z.mod_eq by done. lia. Qed.

Lemma PAGE_ALIGN_id x : x mod PAGE_SZ = 0 -> PAGE_ALIGN x = x.
Proof. rewrite PAGE_ALIGN_sub. lia. Qed.

Lemma PAGE_ALIGN_idem x : PAGE_ALIGN (PAGE_ALIGN x) = PAGE_ALIGN x.
Proof. apply PAGE_ALIGN_id, PAGE_ALIGN_mod. Qed.

Lemma PAGE_ALIGN_bounds x : PAGE_ALIGN x <= x < PAGE_ALIGN x + PAGE_SZ.
Proof.
  pose proof (PAGE_ALIGN_OFFT x). pose proof (PAGE_OFFT_range x). lia.
Qed.

Lemma PAGE_ALIGN_unique x q :
  q mod PAGE_SZ = 0 -> q <= x < q + PAGE_SZ -> PAGE_ALIGN x = q.
Proof.
  intros Hq Hx. rewrite PAGE_ALIGN_quot.
  apply Z.mod_divide in Hq as [k ->]; [ | done ].
  rewrite <- (Z.div_unique x PAGE_SZ k (x - k * PAGE_SZ)); unfold PAGE_SZ in *; lia.
Qed.

Lemma PAGE_ALIGN_add x n :
  0 <= n -> PAGE_OFFT x + n < PAGE_SZ -> PAGE_ALIGN (x + n) = PAGE_ALIGN x.
Proof.
  intros Hn H. apply PAGE_ALIGN_unique; [ apply PAGE_ALIGN_mod | ].
  pose proof (PAGE_ALIGN_OFFT x). pose proof (PAGE_OFFT_range x). lia.
Qed.

Lemma PAGE_ALIGN_mono x y : x <= y -> PAGE_ALIGN x <= PAGE_ALIGN y.
Proof.
  intros H. rewrite !PAGE_ALIGN_quot.
  apply Z.mul_le_mono_nonneg_l; [ done | ]. by apply Z.div_le_mono.
Qed.

Lemma PAGE_ALIGN_range x : is_u64 x -> is_u64 (PAGE_ALIGN x).
Proof.
  intros [H1 H2]. split.
  - rewrite <- (PAGE_ALIGN_id 0) by done. by apply PAGE_ALIGN_mono.
  - pose proof (PAGE_ALIGN_bounds x). lia.
Qed.

(** ** [PAGE_ROUND(x) + 1]

    The length expression of the sources.  It is always strictly larger than its argument
    and at most one page larger: a length that is already a multiple of the page size is
    rounded to the next page too. *)

Lemma PAGE_ROUND_succ x : PAGE_ROUND x + 1 = PAGE_ALIGN x + PAGE_SZ.
Proof. unfold PAGE_ROUND, PAGE_SZ. lia. Qed.

Lemma PAGE_ROUND_succ_bounds x : x < PAGE_ROUND x + 1 <= x + PAGE_SZ.
Proof. rewrite PAGE_ROUND_succ. pose proof (PAGE_ALIGN_bounds x). lia. Qed.

Lemma PAGE_ROUND_succ_mod x : (PAGE_ROUND x + 1) mod PAGE_SZ = 0.
Proof.
  rewrite PAGE_ROUND_succ, Z.add_mod, PAGE_ALIGN_mod by done. done.
Qed.

#[export] Hint Resolve PAGE_ALIGN_mod PAGE_OFFT_range PAGE_ALIGN_range PAGE_ROUND_succ_mod : dry.
#[export] Hint Rewrite PAGE_ALIGN_idem : dry.
