(* ===== verification/Regs.v ===== *)
(** * Guest registers (src/state_runt.c)

    The runtime state of the guest ([state_rtime_t]), the table that maps each capstone
    register name to the field holding it ([hashmap_t], built by [init_hashmap]) and the
    read and update operations on it.

    The enumerators of capstone's [x86_reg] are the constructors of [x86_reg]; the number
    capstone gives each of them is a parameter ([reg_code] of the class [RegEnum]) and the
    two facts the sources rely on (distinct names have distinct numbers, and the table of
    [init_hashmap] is long enough to be indexed by every name it lists) are the class
    [RegEnumOk]. *)

From S2P Require Import Prelude.

Inductive x86_reg :=
  | X86_REG_INVALID | X86_REG_AH | X86_REG_AL | X86_REG_AX | X86_REG_BH | X86_REG_BL
  | X86_REG_BP | X86_REG_BPL | X86_REG_BX | X86_REG_CH | X86_REG_CL | X86_REG_CS
  | X86_REG_CX | X86_REG_DH | X86_REG_DI | X86_REG_DIL | X86_REG_DL | X86_REG_DS
  | X86_REG_DX | X86_REG_EAX | X86_REG_EBP | X86_REG_EBX | X86_REG_ECX | X86_REG_EDI
  | X86_REG_EDX | X86_REG_EFLAGS | X86_REG_EIP | X86_REG_EIZ | X86_REG_ES | X86_REG_ESI
  | X86_REG_ESP | X86_REG_FPSW | X86_REG_FS | X86_REG_GS | X86_REG_IP | X86_REG_RAX
  | X86_REG_RBP | X86_REG_RBX | X86_REG_RCX | X86_REG_RDI | X86_REG_RDX | X86_REG_RIP
  | X86_REG_RIZ | X86_REG_RSI | X86_REG_RSP | X86_REG_SI | X86_REG_SIL | X86_REG_SP
  | X86_REG_SPL | X86_REG_SS | X86_REG_CR0 | X86_REG_CR1 | X86_REG_CR2 | X86_REG_CR3
  | X86_REG_CR4 | X86_REG_CR5 | X86_REG_CR6 | X86_REG_CR7 | X86_REG_CR8 | X86_REG_CR9
  | X86_REG_CR10 | X86_REG_CR11 | X86_REG_CR12 | X86_REG_CR13 | X86_REG_CR14 | X86_REG_CR15
  | X86_REG_DR0 | X86_REG_DR1 | X86_REG_DR2 | X86_REG_DR3 | X86_REG_DR4 | X86_REG_DR5
  | X86_REG_DR6 | X86_REG_DR7 | X86_REG_DR8 | X86_REG_DR9 | X86_REG_DR10 | X86_REG_DR11
  | X86_REG_DR12 | X86_REG_DR13 | X86_REG_DR14 | X86_REG_DR15 | X86_REG_FP0 | X86_REG_FP1
  | X86_REG_FP2 | X86_REG_FP3 | X86_REG_FP4 | X86_REG_FP5 | X86_REG_FP6 | X86_REG_FP7
  | X86_REG_K0 | X86_REG_K1 | X86_REG_K2 | X86_REG_K3 | X86_REG_K4 | X86_REG_K5
  | X86_REG_K6 | X86_REG_K7 | X86_REG_MM0 | X86_REG_MM1 | X86_REG_MM2 | X86_REG_MM3
  | X86_REG_MM4 | X86_REG_MM5 | X86_REG_MM6 | X86_REG_MM7 | X86_REG_R8 | X86_REG_R9
  | X86_REG_R10 | X86_REG_R11 | X86_REG_R12 | X86_REG_R13 | X86_REG_R14 | X86_REG_R15
  | X86_REG_ST0 | X86_REG_ST1 | X86_REG_ST2 | X86_REG_ST3 | X86_REG_ST4 | X86_REG_ST5
  | X86_REG_ST6 | X86_REG_ST7 | X86_REG_XMM0 | X86_REG_XMM1 | X86_REG_XMM2 | X86_REG_XMM3
  | X86_REG_XMM4 | X86_REG_XMM5 | X86_REG_XMM6 | X86_REG_XMM7 | X86_REG_XMM8 | X86_REG_XMM9
  | X86_REG_XMM10 | X86_REG_XMM11 | X86_REG_XMM12 | X86_REG_XMM13 | X86_REG_XMM14
  | X86_REG_XMM15 | X86_REG_XMM16 | X86_REG_XMM17 | X86_REG_XMM18 | X86_REG_XMM19
  | X86_REG_XMM20 | X86_REG_XMM21 | X86_REG_XMM22 | X86_REG_XMM23 | X86_REG_XMM24
  | X86_REG_XMM25 | X86_REG_XMM26 | X86_REG_XMM27 | X86_REG_XMM28 | X86_REG_XMM29
  | X86_REG_XMM30 | X86_REG_XMM31 | X86_REG_YMM0 | X86_REG_YMM1 | X86_REG_YMM2
  | X86_REG_YMM3 | X86_REG_YMM4 | X86_REG_YMM5 | X86_REG_YMM6 | X86_REG_YMM7 | X86_REG_YMM8
  | X86_REG_YMM9 | X86_REG_YMM10 | X86_REG_YMM11 | X86_REG_YMM12 | X86_REG_YMM13
  | X86_REG_YMM14 | X86_REG_YMM15 | X86_REG_YMM16 | X86_REG_YMM17 | X86_REG_YMM18
  | X86_REG_YMM19 | X86_REG_YMM20 | X86_REG_YMM21 | X86_REG_YMM22 | X86_REG_YMM23
  | X86_REG_YMM24 | X86_REG_YMM25 | X86_REG_YMM26 | X86_REG_YMM27 | X86_REG_YMM28
  | X86_REG_YMM29 | X86_REG_YMM30 | X86_REG_YMM31 | X86_REG_ZMM0 | X86_REG_ZMM1
  | X86_REG_ZMM2 | X86_REG_ZMM3 | X86_REG_ZMM4 | X86_REG_ZMM5 | X86_REG_ZMM6 | X86_REG_ZMM7
  | X86_REG_ZMM8 | X86_REG_ZMM9 | X86_REG_ZMM10 | X86_REG_ZMM11 | X86_REG_ZMM12
  | X86_REG_ZMM13 | X86_REG_ZMM14 | X86_REG_ZMM15 | X86_REG_ZMM16 | X86_REG_ZMM17
  | X86_REG_ZMM18 | X86_REG_ZMM19 | X86_REG_ZMM20 | X86_REG_ZMM21 | X86_REG_ZMM22
  | X86_REG_ZMM23 | X86_REG_ZMM24 | X86_REG_ZMM25 | X86_REG_ZMM26 | X86_REG_ZMM27
  | X86_REG_ZMM28 | X86_REG_ZMM29 | X86_REG_ZMM30 | X86_REG_ZMM31 | X86_REG_R8B
  | X86_REG_R9B | X86_REG_R10B | X86_REG_R11B | X86_REG_R12B | X86_REG_R13B | X86_REG_R14B
  | X86_REG_R15B | X86_REG_R8D | X86_REG_R9D | X86_REG_R10D | X86_REG_R11D | X86_REG_R12D
  | X86_REG_R13D | X86_REG_R14D | X86_REG_R15D | X86_REG_R8W | X86_REG_R9W | X86_REG_R10W
  | X86_REG_R11W | X86_REG_R12W | X86_REG_R13W | X86_REG_R14W | X86_REG_R15W
  | X86_REG_ENDING.

(** The array [x86_reg_c]: every register name, then the end marker. *)
Definition x86_reg_c : list x86_reg :=
  [
    X86_REG_INVALID; X86_REG_AH; X86_REG_AL; X86_REG_AX; X86_REG_BH; X86_REG_BL;
    X86_REG_BP; X86_REG_BPL; X86_REG_BX; X86_REG_CH; X86_REG_CL; X86_REG_CS; X86_REG_CX;
    X86_REG_DH; X86_REG_DI; X86_REG_DIL; X86_REG_DL; X86_REG_DS; X86_REG_DX; X86_REG_EAX;
    X86_REG_EBP; X86_REG_EBX; X86_REG_ECX; X86_REG_EDI; X86_REG_EDX; X86_REG_EFLAGS;
    X86_REG_EIP; X86_REG_EIZ; X86_REG_ES; X86_REG_ESI; X86_REG_ESP; X86_REG_FPSW;
    X86_REG_FS; X86_REG_GS; X86_REG_IP; X86_REG_RAX; X86_REG_RBP; X86_REG_RBX; X86_REG_RCX;
    X86_REG_RDI; X86_REG_RDX; X86_REG_RIP; X86_REG_RIZ; X86_REG_RSI; X86_REG_RSP;
    X86_REG_SI; X86_REG_SIL; X86_REG_SP; X86_REG_SPL; X86_REG_SS; X86_REG_CR0; X86_REG_CR1;
    X86_REG_CR2; X86_REG_CR3; X86_REG_CR4; X86_REG_CR5; X86_REG_CR6; X86_REG_CR7;
    X86_REG_CR8; X86_REG_CR9; X86_REG_CR10; X86_REG_CR11; X86_REG_CR12; X86_REG_CR13;
    X86_REG_CR14; X86_REG_CR15; X86_REG_DR0; X86_REG_DR1; X86_REG_DR2; X86_REG_DR3;
    X86_REG_DR4; X86_REG_DR5; X86_REG_DR6; X86_REG_DR7; X86_REG_DR8; X86_REG_DR9;
    X86_REG_DR10; X86_REG_DR11; X86_REG_DR12; X86_REG_DR13; X86_REG_DR14; X86_REG_DR15;
    X86_REG_FP0; X86_REG_FP1; X86_REG_FP2; X86_REG_FP3; X86_REG_FP4; X86_REG_FP5;
    X86_REG_FP6; X86_REG_FP7; X86_REG_K0; X86_REG_K1; X86_REG_K2; X86_REG_K3; X86_REG_K4;
    X86_REG_K5; X86_REG_K6; X86_REG_K7; X86_REG_MM0; X86_REG_MM1; X86_REG_MM2; X86_REG_MM3;
    X86_REG_MM4; X86_REG_MM5; X86_REG_MM6; X86_REG_MM7; X86_REG_R8; X86_REG_R9;
    X86_REG_R10; X86_REG_R11; X86_REG_R12; X86_REG_R13; X86_REG_R14; X86_REG_R15;
    X86_REG_ST0; X86_REG_ST1; X86_REG_ST2; X86_REG_ST3; X86_REG_ST4; X86_REG_ST5;
    X86_REG_ST6; X86_REG_ST7; X86_REG_XMM0; X86_REG_XMM1; X86_REG_XMM2; X86_REG_XMM3;
    X86_REG_XMM4; X86_REG_XMM5; X86_REG_XMM6; X86_REG_XMM7; X86_REG_XMM8; X86_REG_XMM9;
    X86_REG_XMM10; X86_REG_XMM11; X86_REG_XMM12; X86_REG_XMM13; X86_REG_XMM14;
    X86_REG_XMM15; X86_REG_XMM16; X86_REG_XMM17; X86_REG_XMM18; X86_REG_XMM19;
    X86_REG_XMM20; X86_REG_XMM21; X86_REG_XMM22; X86_REG_XMM23; X86_REG_XMM24;
    X86_REG_XMM25; X86_REG_XMM26; X86_REG_XMM27; X86_REG_XMM28; X86_REG_XMM29;
    X86_REG_XMM30; X86_REG_XMM31; X86_REG_YMM0; X86_REG_YMM1; X86_REG_YMM2; X86_REG_YMM3;
    X86_REG_YMM4; X86_REG_YMM5; X86_REG_YMM6; X86_REG_YMM7; X86_REG_YMM8; X86_REG_YMM9;
    X86_REG_YMM10; X86_REG_YMM11; X86_REG_YMM12; X86_REG_YMM13; X86_REG_YMM14;
    X86_REG_YMM15; X86_REG_YMM16; X86_REG_YMM17; X86_REG_YMM18; X86_REG_YMM19;
    X86_REG_YMM20; X86_REG_YMM21; X86_REG_YMM22; X86_REG_YMM23; X86_REG_YMM24;
    X86_REG_YMM25; X86_REG_YMM26; X86_REG_YMM27; X86_REG_YMM28; X86_REG_YMM29;
    X86_REG_YMM30; X86_REG_YMM31; X86_REG_ZMM0; X86_REG_ZMM1; X86_REG_ZMM2; X86_REG_ZMM3;
    X86_REG_ZMM4; X86_REG_ZMM5; X86_REG_ZMM6; X86_REG_ZMM7; X86_REG_ZMM8; X86_REG_ZMM9;
    X86_REG_ZMM10; X86_REG_ZMM11; X86_REG_ZMM12; X86_REG_ZMM13; X86_REG_ZMM14;
    X86_REG_ZMM15; X86_REG_ZMM16; X86_REG_ZMM17; X86_REG_ZMM18; X86_REG_ZMM19;
    X86_REG_ZMM20; X86_REG_ZMM21; X86_REG_ZMM22; X86_REG_ZMM23; X86_REG_ZMM24;
    X86_REG_ZMM25; X86_REG_ZMM26; X86_REG_ZMM27; X86_REG_ZMM28; X86_REG_ZMM29;
    X86_REG_ZMM30; X86_REG_ZMM31; X86_REG_R8B; X86_REG_R9B; X86_REG_R10B; X86_REG_R11B;
    X86_REG_R12B; X86_REG_R13B; X86_REG_R14B; X86_REG_R15B; X86_REG_R8D; X86_REG_R9D;
    X86_REG_R10D; X86_REG_R11D; X86_REG_R12D; X86_REG_R13D; X86_REG_R14D; X86_REG_R15D;
    X86_REG_R8W; X86_REG_R9W; X86_REG_R10W; X86_REG_R11W; X86_REG_R12W; X86_REG_R13W;
    X86_REG_R14W; X86_REG_R15W; X86_REG_ENDING
  ].

(** Position of a name in [x86_reg_c]. *)
Definition reg_index (r : x86_reg) : nat :=
  match r with
  | X86_REG_INVALID => 0 | X86_REG_AH => 1 | X86_REG_AL => 2 | X86_REG_AX => 3
  | X86_REG_BH => 4 | X86_REG_BL => 5 | X86_REG_BP => 6 | X86_REG_BPL => 7
  | X86_REG_BX => 8 | X86_REG_CH => 9 | X86_REG_CL => 10 | X86_REG_CS => 11
  | X86_REG_CX => 12 | X86_REG_DH => 13 | X86_REG_DI => 14 | X86_REG_DIL => 15
  | X86_REG_DL => 16 | X86_REG_DS => 17 | X86_REG_DX => 18 | X86_REG_EAX => 19
  | X86_REG_EBP => 20 | X86_REG_EBX => 21 | X86_REG_ECX => 22 | X86_REG_EDI => 23
  | X86_REG_EDX => 24 | X86_REG_EFLAGS => 25 | X86_REG_EIP => 26 | X86_REG_EIZ => 27
  | X86_REG_ES => 28 | X86_REG_ESI => 29 | X86_REG_ESP => 30 | X86_REG_FPSW => 31
  | X86_REG_FS => 32 | X86_REG_GS => 33 | X86_REG_IP => 34 | X86_REG_RAX => 35
  | X86_REG_RBP => 36 | X86_REG_RBX => 37 | X86_REG_RCX => 38 | X86_REG_RDI => 39
  | X86_REG_RDX => 40 | X86_REG_RIP => 41 | X86_REG_RIZ => 42 | X86_REG_RSI => 43
  | X86_REG_RSP => 44 | X86_REG_SI => 45 | X86_REG_SIL => 46 | X86_REG_SP => 47
  | X86_REG_SPL => 48 | X86_REG_SS => 49 | X86_REG_CR0 => 50 | X86_REG_CR1 => 51
  | X86_REG_CR2 => 52 | X86_REG_CR3 => 53 | X86_REG_CR4 => 54 | X86_REG_CR5 => 55
  | X86_REG_CR6 => 56 | X86_REG_CR7 => 57 | X86_REG_CR8 => 58 | X86_REG_CR9 => 59
  | X86_REG_CR10 => 60 | X86_REG_CR11 => 61 | X86_REG_CR12 => 62 | X86_REG_CR13 => 63
  | X86_REG_CR14 => 64 | X86_REG_CR15 => 65 | X86_REG_DR0 => 66 | X86_REG_DR1 => 67
  | X86_REG_DR2 => 68 | X86_REG_DR3 => 69 | X86_REG_DR4 => 70 | X86_REG_DR5 => 71
  | X86_REG_DR6 => 72 | X86_REG_DR7 => 73 | X86_REG_DR8 => 74 | X86_REG_DR9 => 75
  | X86_REG_DR10 => 76 | X86_REG_DR11 => 77 | X86_REG_DR12 => 78 | X86_REG_DR13 => 79
  | X86_REG_DR14 => 80 | X86_REG_DR15 => 81 | X86_REG_FP0 => 82 | X86_REG_FP1 => 83
  | X86_REG_FP2 => 84 | X86_REG_FP3 => 85 | X86_REG_FP4 => 86 | X86_REG_FP5 => 87
  | X86_REG_FP6 => 88 | X86_REG_FP7 => 89 | X86_REG_K0 => 90 | X86_REG_K1 => 91
  | X86_REG_K2 => 92 | X86_REG_K3 => 93 | X86_REG_K4 => 94 | X86_REG_K5 => 95
  | X86_REG_K6 => 96 | X86_REG_K7 => 97 | X86_REG_MM0 => 98 | X86_REG_MM1 => 99
  | X86_REG_MM2 => 100 | X86_REG_MM3 => 101 | X86_REG_MM4 => 102 | X86_REG_MM5 => 103
  | X86_REG_MM6 => 104 | X86_REG_MM7 => 105 | X86_REG_R8 => 106 | X86_REG_R9 => 107
  | X86_REG_R10 => 108 | X86_REG_R11 => 109 | X86_REG_R12 => 110 | X86_REG_R13 => 111
  | X86_REG_R14 => 112 | X86_REG_R15 => 113 | X86_REG_ST0 => 114 | X86_REG_ST1 => 115
  | X86_REG_ST2 => 116 | X86_REG_ST3 => 117 | X86_REG_ST4 => 118 | X86_REG_ST5 => 119
  | X86_REG_ST6 => 120 | X86_REG_ST7 => 121 | X86_REG_XMM0 => 122 | X86_REG_XMM1 => 123
  | X86_REG_XMM2 => 124 | X86_REG_XMM3 => 125 | X86_REG_XMM4 => 126 | X86_REG_XMM5 => 127
  | X86_REG_XMM6 => 128 | X86_REG_XMM7 => 129 | X86_REG_XMM8 => 130 | X86_REG_XMM9 => 131
  | X86_REG_XMM10 => 132 | X86_REG_XMM11 => 133 | X86_REG_XMM12 => 134
  | X86_REG_XMM13 => 135 | X86_REG_XMM14 => 136 | X86_REG_XMM15 => 137
  | X86_REG_XMM16 => 138 | X86_REG_XMM17 => 139 | X86_REG_XMM18 => 140
  | X86_REG_XMM19 => 141 | X86_REG_XMM20 => 142 | X86_REG_XMM21 => 143
  | X86_REG_XMM22 => 144 | X86_REG_XMM23 => 145 | X86_REG_XMM24 => 146
  | X86_REG_XMM25 => 147 | X86_REG_XMM26 => 148 | X86_REG_XMM27 => 149
  | X86_REG_XMM28 => 150 | X86_REG_XMM29 => 151 | X86_REG_XMM30 => 152
  | X86_REG_XMM31 => 153 | X86_REG_YMM0 => 154 | X86_REG_YMM1 => 155 | X86_REG_YMM2 => 156
  | X86_REG_YMM3 => 157 | X86_REG_YMM4 => 158 | X86_REG_YMM5 => 159 | X86_REG_YMM6 => 160
  | X86_REG_YMM7 => 161 | X86_REG_YMM8 => 162 | X86_REG_YMM9 => 163 | X86_REG_YMM10 => 164
  | X86_REG_YMM11 => 165 | X86_REG_YMM12 => 166 | X86_REG_YMM13 => 167
  | X86_REG_YMM14 => 168 | X86_REG_YMM15 => 169 | X86_REG_YMM16 => 170
  | X86_REG_YMM17 => 171 | X86_REG_YMM18 => 172 | X86_REG_YMM19 => 173
  | X86_REG_YMM20 => 174 | X86_REG_YMM21 => 175 | X86_REG_YMM22 => 176
  | X86_REG_YMM23 => 177 | X86_REG_YMM24 => 178 | X86_REG_YMM25 => 179
  | X86_REG_YMM26 => 180 | X86_REG_YMM27 => 181 | X86_REG_YMM28 => 182
  | X86_REG_YMM29 => 183 | X86_REG_YMM30 => 184 | X86_REG_YMM31 => 185
  | X86_REG_ZMM0 => 186 | X86_REG_ZMM1 => 187 | X86_REG_ZMM2 => 188 | X86_REG_ZMM3 => 189
  | X86_REG_ZMM4 => 190 | X86_REG_ZMM5 => 191 | X86_REG_ZMM6 => 192 | X86_REG_ZMM7 => 193
  | X86_REG_ZMM8 => 194 | X86_REG_ZMM9 => 195 | X86_REG_ZMM10 => 196 | X86_REG_ZMM11 => 197
  | X86_REG_ZMM12 => 198 | X86_REG_ZMM13 => 199 | X86_REG_ZMM14 => 200
  | X86_REG_ZMM15 => 201 | X86_REG_ZMM16 => 202 | X86_REG_ZMM17 => 203
  | X86_REG_ZMM18 => 204 | X86_REG_ZMM19 => 205 | X86_REG_ZMM20 => 206
  | X86_REG_ZMM21 => 207 | X86_REG_ZMM22 => 208 | X86_REG_ZMM23 => 209
  | X86_REG_ZMM24 => 210 | X86_REG_ZMM25 => 211 | X86_REG_ZMM26 => 212
  | X86_REG_ZMM27 => 213 | X86_REG_ZMM28 => 214 | X86_REG_ZMM29 => 215
  | X86_REG_ZMM30 => 216 | X86_REG_ZMM31 => 217 | X86_REG_R8B => 218 | X86_REG_R9B => 219
  | X86_REG_R10B => 220 | X86_REG_R11B => 221 | X86_REG_R12B => 222 | X86_REG_R13B => 223
  | X86_REG_R14B => 224 | X86_REG_R15B => 225 | X86_REG_R8D => 226 | X86_REG_R9D => 227
  | X86_REG_R10D => 228 | X86_REG_R11D => 229 | X86_REG_R12D => 230 | X86_REG_R13D => 231
  | X86_REG_R14D => 232 | X86_REG_R15D => 233 | X86_REG_R8W => 234 | X86_REG_R9W => 235
  | X86_REG_R10W => 236 | X86_REG_R11W => 237 | X86_REG_R12W => 238 | X86_REG_R13W => 239
  | X86_REG_R14W => 240 | X86_REG_R15W => 241 | X86_REG_ENDING => 242
  end%nat.

Lemma reg_index_lookup r : x86_reg_c !! reg_index r = Some r.
Proof. destruct r; reflexivity. Qed.

#[global] Instance reg_index_inj : Inj (=) (=) reg_index.
Proof.
  intros r1 r2 E. apply (inj Some). rewrite <- !reg_index_lookup. by rewrite E.
Qed.

#[global] Instance x86_reg_eq_dec : EqDecision x86_reg.
Proof.
  refine (fun r1 r2 => match decide (reg_index r1 = reg_index r2) with
                       | left H => left _ | right H => right _ end).
  - by apply (inj reg_index).
  - by intros ->.
Defined.

(** C's [==] on register numbers. *)
Definition reg_eqb (r1 r2 : x86_reg) : bool := bool_decide (r1 = r2).

(** ** The state of the guest *)

(** The pointers [&state->f] that the table holds. *)
Inductive field :=
  | F_rax | F_rbx | F_rcx | F_rdx | F_rsi | F_rdi | F_rbp | F_rsp | F_rip | F_rflags | F_cs
  | F_ss | F_gs | F_es | F_ds | F_fs | F_r8 | F_r9 | F_r10 | F_r11 | F_r12 | F_r13 | F_r14
  | F_r15 | F_null_entry.

#[global] Instance field_eq_dec : EqDecision field.
Proof. solve_decision. Defined.

(** [sse_t], [avx2_t] and [avx512_t]: the vector registers in the order of the members, each
    a number of 128, 256 or 512 bits.  The member [zmm1] is missing in the last one, whose
    31 members are [zmm0] and [zmm2] to [zmm31]. *)
Definition sse_t : Type := list Z.
Definition avx2_t : Type := list Z.
Definition avx512_t : Type := list Z.

(** [state_rtime_t]; the pointers [sse], [avx2], [avx512] are [None] when NULL and the
    registers they point to otherwise. *)
Record state_rtime := mk_state {
  rax : Z;
  rbx : Z;
  rcx : Z;
  rdx : Z;
  rsi : Z;
  rdi : Z;
  rbp : Z;
  rsp : Z;
  rip : Z;
  rflags : Z;
  cs : Z;
  ss : Z;
  gs : Z;
  es : Z;
  ds : Z;
  fs : Z;
  r8 : Z;
  r9 : Z;
  r10 : Z;
  r11 : Z;
  r12 : Z;
  r13 : Z;
  r14 : Z;
  r15 : Z;
  sse : option sse_t;
  avx2 : option avx2_t;
  avx512 : option avx512_t;
  null_entry : Z
}.

#[global] Instance eta_state : Eta state_rtime := fun s =>
  mk_state
    (rax s) (rbx s) (rcx s) (rdx s) (rsi s) (rdi s) (rbp s) (rsp s) (rip s) (rflags s)
    (cs s) (ss s) (gs s) (es s) (ds s) (fs s) (r8 s) (r9 s) (r10 s) (r11 s) (r12 s) (r13 s)
    (r14 s) (r15 s) (sse s) (avx2 s) (avx512 s) (null_entry s).

(** [*p] for a pointer [p = &state->f]. *)
Definition field_get (s : state_rtime) (f : field) : Z :=
  match f with
  | F_rax => rax s | F_rbx => rbx s | F_rcx => rcx s | F_rdx => rdx s | F_rsi => rsi s
  | F_rdi => rdi s | F_rbp => rbp s | F_rsp => rsp s | F_rip => rip s
  | F_rflags => rflags s | F_cs => cs s | F_ss => ss s | F_gs => gs s | F_es => es s
  | F_ds => ds s | F_fs => fs s | F_r8 => r8 s | F_r9 => r9 s | F_r10 => r10 s
  | F_r11 => r11 s | F_r12 => r12 s | F_r13 => r13 s | F_r14 => r14 s | F_r15 => r15 s
  | F_null_entry => null_entry s
  end.

(** [*p = v] for a pointer [p = &state->f]. *)
Definition field_set (s : state_rtime) (f : field) (v : Z) : state_rtime :=
  match f with
  | F_rax => s <| rax := v |>
  | F_rbx => s <| rbx := v |>
  | F_rcx => s <| rcx := v |>
  | F_rdx => s <| rdx := v |>
  | F_rsi => s <| rsi := v |>
  | F_rdi => s <| rdi := v |>
  | F_rbp => s <| rbp := v |>
  | F_rsp => s <| rsp := v |>
  | F_rip => s <| rip := v |>
  | F_rflags => s <| rflags := v |>
  | F_cs => s <| cs := v |>
  | F_ss => s <| ss := v |>
  | F_gs => s <| gs := v |>
  | F_es => s <| es := v |>
  | F_ds => s <| ds := v |>
  | F_fs => s <| fs := v |>
  | F_r8 => s <| r8 := v |>
  | F_r9 => s <| r9 := v |>
  | F_r10 => s <| r10 := v |>
  | F_r11 => s <| r11 := v |>
  | F_r12 => s <| r12 := v |>
  | F_r13 => s <| r13 := v |>
  | F_r14 => s <| r14 := v |>
  | F_r15 => s <| r15 := v |>
  | F_null_entry => s <| null_entry := v |>
  end.

Lemma field_get_set_eq s f v : field_get (field_set s f v) f = v.
Proof. by destruct f. Qed.

Lemma field_get_set_ne s f g v : f <> g -> field_get (field_set s f v) g = field_get s g.
Proof. destruct f, g; done. Qed.

Lemma field_get_set s f g v :
  field_get (field_set s f v) g = if decide (f = g) then v else field_get s g.
Proof. case_decide; subst; [ apply field_get_set_eq | by apply field_get_set_ne ]. Qed.

(** ** The register table *)

(** [hashmap_t]: an array of pointers, [None] for NULL. *)
Definition hashmap : Type := list (option field).

Class RegEnum := { reg_code : x86_reg -> nat }.

Class RegEnumOk `{RegEnum} : Prop := {
  reg_code_inj : Inj (=) (=) reg_code;
  reg_code_bound : forall r, r <> X86_REG_ENDING -> (reg_code r < length x86_reg_c)%nat
}.

(** The enumeration in the order of [x86_reg_c]. *)
Definition index_enum : RegEnum := {| reg_code := reg_index |}.

Lemma index_enum_ok : @RegEnumOk index_enum.
Proof.
  split; [ exact reg_index_inj | ].
  intros r Hr. apply lookup_lt_is_Some. exists r. apply reg_index_lookup.
Qed.

Section Table.
Context `{RegEnum}.

(** [hashmap->value[code_reg] = &(reg)]; a write past the allocation is undefined. *)
Definition make_link (h : hashmap) (code_reg : x86_reg) (reg : field) : option hashmap :=
  if bool_decide (reg_code code_reg < length h)%nat
  then Some (<[reg_code code_reg := Some reg]> h) else None.

Fixpoint group_make_link (h : hashmap) (group_reg : list x86_reg) (reg : field)
  : option hashmap :=
  match group_reg with
  | [] => Some h
  | r :: rest => h' ← make_link h r reg; group_make_link h' rest reg
  end.

(** The first loop of [init_hashmap]: up to [X86_REG_ENDING], every name is linked to
    the null entry. *)
Fixpoint link_all_null (h : hashmap) (regs : list x86_reg) : option hashmap :=
  match regs with
  | [] => None
  | r :: rest =>
      if reg_eqb r X86_REG_ENDING then Some h
      else h' ← make_link h r F_null_entry; link_all_null h' rest
  end.

(** [calloc(1, sizeof(x86_reg_c) / sizeof(x86_reg_c[0]) * sizeof(uint64_t* ))] then the
    links. *)
Definition init_hashmap : option hashmap :=
  h ← link_all_null (replicate (length x86_reg_c) None) x86_reg_c;
  h ← group_make_link h [X86_REG_AL; X86_REG_AH; X86_REG_AX; X86_REG_EAX; X86_REG_RAX] F_rax;
  h ← group_make_link h [X86_REG_BL; X86_REG_BH; X86_REG_BX; X86_REG_EBX; X86_REG_RBX] F_rbx;
  h ← group_make_link h [X86_REG_CL; X86_REG_CH; X86_REG_CX; X86_REG_ECX; X86_REG_RCX] F_rcx;
  h ← group_make_link h [X86_REG_DL; X86_REG_DH; X86_REG_DX; X86_REG_EDX; X86_REG_RDX] F_rdx;
  h ← group_make_link h [X86_REG_DIL; X86_REG_DI; X86_REG_EDI; X86_REG_RDI] F_rdi;
  h ← group_make_link h [X86_REG_SIL; X86_REG_SI; X86_REG_ESI; X86_REG_RSI] F_rsi;
  h ← group_make_link h [X86_REG_BPL; X86_REG_BP; X86_REG_EBP; X86_REG_RBP] F_rbp;
  h ← group_make_link h [X86_REG_SPL; X86_REG_SP; X86_REG_ESP; X86_REG_RSP] F_rsp;
  h ← group_make_link h [X86_REG_R8B; X86_REG_R8W; X86_REG_R8D; X86_REG_R8] F_r8;
  h ← group_make_link h [X86_REG_R9B; X86_REG_R9W; X86_REG_R9D; X86_REG_R9] F_r9;
  h ← group_make_link h [X86_REG_R10B; X86_REG_R10W; X86_REG_R10D; X86_REG_R10] F_r10;
  h ← group_make_link h [X86_REG_R11B; X86_REG_R11W; X86_REG_R11D; X86_REG_R11] F_r11;
  h ← group_make_link h [X86_REG_R12B; X86_REG_R12W; X86_REG_R12D; X86_REG_R12] F_r12;
  h ← group_make_link h [X86_REG_R13B; X86_REG_R13W; X86_REG_R13D; X86_REG_R13] F_r13;
  h ← group_make_link h [X86_REG_R14B; X86_REG_R14W; X86_REG_R14D; X86_REG_R14] F_r14;
  h ← group_make_link h [X86_REG_R15B; X86_REG_R15W; X86_REG_R15D; X86_REG_R15] F_r15;
  h ← group_make_link h [X86_REG_EFLAGS] F_rflags;
  group_make_link h [X86_REG_EIP; X86_REG_RIP] F_rip.
End Table.

(** ** Classification of the register names by width *)

(** [(reg == A) || (reg == B) || ...]. *)
Definition in_regs (reg : x86_reg) (l : list x86_reg) : bool := existsb (reg_eqb reg) l.

Definition is_8bits_right (reg : x86_reg) : bool :=
  in_regs reg [
    X86_REG_AL; X86_REG_BL; X86_REG_CL; X86_REG_DL; X86_REG_DIL; X86_REG_SIL; X86_REG_BPL;
    X86_REG_SPL; X86_REG_R8B; X86_REG_R9B; X86_REG_R10B; X86_REG_R11B; X86_REG_R12B;
    X86_REG_R13B; X86_REG_R14B; X86_REG_R15B].

Definition is_8bits_left (reg : x86_reg) : bool :=
  in_regs reg [
    X86_REG_AH; X86_REG_BH; X86_REG_CH; X86_REG_DH].

Definition is_16bits (reg : x86_reg) : bool :=
  in_regs reg [
    X86_REG_AX; X86_REG_BX; X86_REG_CX; X86_REG_DX; X86_REG_SI; X86_REG_DI; X86_REG_BP;
    X86_REG_SP; X86_REG_R8W; X86_REG_R9W; X86_REG_R10W; X86_REG_R11W; X86_REG_R12W;
    X86_REG_R13W; X86_REG_R14W; X86_REG_R15W].

Definition is_32bits (reg : x86_reg) : bool :=
  in_regs reg [
    X86_REG_EAX; X86_REG_EBX; X86_REG_ECX; X86_REG_EDX; X86_REG_ESI; X86_REG_EDI;
    X86_REG_EBP; X86_REG_ESP; X86_REG_R8D; X86_REG_R9D; X86_REG_R10D; X86_REG_R11D;
    X86_REG_R12D; X86_REG_R13D; X86_REG_R14D; X86_REG_R15D; X86_REG_EIP; X86_REG_EFLAGS].

Definition is_64bits (reg : x86_reg) : bool :=
  in_regs reg [
    X86_REG_RAX; X86_REG_RBX; X86_REG_RCX; X86_REG_RDX; X86_REG_RSI; X86_REG_RDI;
    X86_REG_RBP; X86_REG_RSP; X86_REG_R8; X86_REG_R9; X86_REG_R10; X86_REG_R11;
    X86_REG_R12; X86_REG_R13; X86_REG_R14; X86_REG_R15; X86_REG_RIP].

Definition is_128bits (reg : x86_reg) : bool :=
  in_regs reg [
    X86_REG_XMM0; X86_REG_XMM1; X86_REG_XMM2; X86_REG_XMM3; X86_REG_XMM4; X86_REG_XMM5;
    X86_REG_XMM6; X86_REG_XMM7; X86_REG_XMM8; X86_REG_XMM9; X86_REG_XMM10; X86_REG_XMM11;
    X86_REG_XMM12; X86_REG_XMM13; X86_REG_XMM14; X86_REG_XMM15; X86_REG_XMM16;
    X86_REG_XMM17; X86_REG_XMM18; X86_REG_XMM19; X86_REG_XMM20; X86_REG_XMM21;
    X86_REG_XMM22; X86_REG_XMM23; X86_REG_XMM24; X86_REG_XMM25; X86_REG_XMM26;
    X86_REG_XMM27; X86_REG_XMM28; X86_REG_XMM29; X86_REG_XMM30; X86_REG_XMM31].

Definition is_256bits (reg : x86_reg) : bool :=
  in_regs reg [
    X86_REG_YMM0; X86_REG_YMM1; X86_REG_YMM2; X86_REG_YMM3; X86_REG_YMM4; X86_REG_YMM5;
    X86_REG_YMM6; X86_REG_YMM7; X86_REG_YMM8; X86_REG_YMM9; X86_REG_YMM10; X86_REG_YMM11;
    X86_REG_YMM12; X86_REG_YMM13; X86_REG_YMM14; X86_REG_YMM15; X86_REG_YMM16;
    X86_REG_YMM17; X86_REG_YMM18; X86_REG_YMM19; X86_REG_YMM20; X86_REG_YMM21;
    X86_REG_YMM22; X86_REG_YMM23; X86_REG_YMM24; X86_REG_YMM25; X86_REG_YMM26;
    X86_REG_YMM27; X86_REG_YMM28; X86_REG_YMM29; X86_REG_YMM30; X86_REG_YMM31].

Definition is_512bits (reg : x86_reg) : bool :=
  in_regs reg [
    X86_REG_ZMM0; X86_REG_ZMM1; X86_REG_ZMM2; X86_REG_ZMM3; X86_REG_ZMM4; X86_REG_ZMM5;
    X86_REG_ZMM6; X86_REG_ZMM7; X86_REG_ZMM8; X86_REG_ZMM9; X86_REG_ZMM10; X86_REG_ZMM11;
    X86_REG_ZMM12; X86_REG_ZMM13; X86_REG_ZMM14; X86_REG_ZMM15; X86_REG_ZMM16;
    X86_REG_ZMM17; X86_REG_ZMM18; X86_REG_ZMM19; X86_REG_ZMM20; X86_REG_ZMM21;
    X86_REG_ZMM22; X86_REG_ZMM23; X86_REG_ZMM24; X86_REG_ZMM25; X86_REG_ZMM26;
    X86_REG_ZMM27; X86_REG_ZMM28; X86_REG_ZMM29; X86_REG_ZMM30; X86_REG_ZMM31].

(** ** Reading and updating a register *)

Section Access.
Context `{RegEnum}.

(** [hashmap->value[key]]: [None] when the index is out of the table or the entry NULL. *)
Definition reg_ptr (key : x86_reg) (h : hashmap) : option field :=
  h !! reg_code key ≫= id.

(** [*(hashmap->value[key]) = value] *)
Definition update_reg (key : x86_reg) (h : hashmap) (value : Z) (s : state_rtime)
  : option state_rtime :=
  f ← reg_ptr key h; Some (field_set s f value).

Definition deref_reg (key : x86_reg) (h : hashmap) (s : state_rtime) : option Z :=
  f ← reg_ptr key h; Some (field_get s f).

Definition read_reg (key : x86_reg) (h : hashmap) (s : state_rtime) : option Z :=
  if reg_eqb key X86_REG_EFLAGS then
    v ← deref_reg key h s; Some (Z.land v 0xFCFFFF)
  else if is_8bits_right key then
    v ← deref_reg key h s; Some (Z.land v 0xff)
  else if is_8bits_left key then
    v ← deref_reg key h s; Some (Z.shiftr (Z.land v 0xff00) 8)
  else if is_16bits key then
    v ← deref_reg key h s; Some (Z.land v 0xffff)
  else if is_32bits key then
    v ← deref_reg key h s; Some (Z.land v 0xffffffff)
  else if is_64bits key then
    v ← deref_reg key h s; Some (Z.land v 0xffffffffffffffff)
  else Some minus1.
End Access.

(** ** The architecture the table must agree with

    [home r] is the field that holds the register [r] (the null entry for a register the
    engine does not track) and [view r] the bits of the field that [r] names, as a first
    bit and a width. *)

Definition home (r : x86_reg) : field :=
  match r with
  | X86_REG_AL | X86_REG_AH | X86_REG_AX | X86_REG_EAX | X86_REG_RAX => F_rax
  | X86_REG_BL | X86_REG_BH | X86_REG_BX | X86_REG_EBX | X86_REG_RBX => F_rbx
  | X86_REG_CL | X86_REG_CH | X86_REG_CX | X86_REG_ECX | X86_REG_RCX => F_rcx
  | X86_REG_DL | X86_REG_DH | X86_REG_DX | X86_REG_EDX | X86_REG_RDX => F_rdx
  | X86_REG_DIL | X86_REG_DI | X86_REG_EDI | X86_REG_RDI => F_rdi
  | X86_REG_SIL | X86_REG_SI | X86_REG_ESI | X86_REG_RSI => F_rsi
  | X86_REG_BPL | X86_REG_BP | X86_REG_EBP | X86_REG_RBP => F_rbp
  | X86_REG_SPL | X86_REG_SP | X86_REG_ESP | X86_REG_RSP => F_rsp
  | X86_REG_R8B | X86_REG_R8W | X86_REG_R8D | X86_REG_R8 => F_r8
  | X86_REG_R9B | X86_REG_R9W | X86_REG_R9D | X86_REG_R9 => F_r9
  | X86_REG_R10B | X86_REG_R10W | X86_REG_R10D | X86_REG_R10 => F_r10
  | X86_REG_R11B | X86_REG_R11W | X86_REG_R11D | X86_REG_R11 => F_r11
  | X86_REG_R12B | X86_REG_R12W | X86_REG_R12D | X86_REG_R12 => F_r12
  | X86_REG_R13B | X86_REG_R13W | X86_REG_R13D | X86_REG_R13 => F_r13
  | X86_REG_R14B | X86_REG_R14W | X86_REG_R14D | X86_REG_R14 => F_r14
  | X86_REG_R15B | X86_REG_R15W | X86_REG_R15D | X86_REG_R15 => F_r15
  | X86_REG_EFLAGS => F_rflags
  | X86_REG_EIP | X86_REG_RIP => F_rip
  | _ => F_null_entry
  end.

Definition view (r : x86_reg) : option (Z * Z) :=
  match r with
  | X86_REG_AL | X86_REG_BL | X86_REG_CL | X86_REG_DL | X86_REG_DIL | X86_REG_SIL
  | X86_REG_BPL | X86_REG_SPL | X86_REG_R8B | X86_REG_R9B | X86_REG_R10B | X86_REG_R11B
  | X86_REG_R12B | X86_REG_R13B | X86_REG_R14B | X86_REG_R15B => Some (0, 8)
  | X86_REG_AH | X86_REG_BH | X86_REG_CH | X86_REG_DH => Some (8, 8)
  | X86_REG_AX | X86_REG_BX | X86_REG_CX | X86_REG_DX | X86_REG_DI | X86_REG_SI
  | X86_REG_BP | X86_REG_SP | X86_REG_R8W | X86_REG_R9W | X86_REG_R10W | X86_REG_R11W
  | X86_REG_R12W | X86_REG_R13W | X86_REG_R14W | X86_REG_R15W => Some (0, 16)
  | X86_REG_EAX | X86_REG_EBX | X86_REG_ECX | X86_REG_EDX | X86_REG_EDI | X86_REG_ESI
  | X86_REG_EBP | X86_REG_ESP | X86_REG_R8D | X86_REG_R9D | X86_REG_R10D | X86_REG_R11D
  | X86_REG_R12D | X86_REG_R13D | X86_REG_R14D | X86_REG_R15D | X86_REG_EIP => Some (0, 32)
  | X86_REG_RAX | X86_REG_RBX | X86_REG_RCX | X86_REG_RDX | X86_REG_RDI | X86_REG_RSI
  | X86_REG_RBP | X86_REG_RSP | X86_REG_R8 | X86_REG_R9 | X86_REG_R10 | X86_REG_R11
  | X86_REG_R12 | X86_REG_R13 | X86_REG_R14 | X86_REG_R15 | X86_REG_RIP => Some (0, 64)
  | _ => None
  end.

(** [init_hashmap] seen as one list of (name, field) assignments. *)
Section Links.
Context `{RegEnum}.

Fixpoint link_list (h : hashmap) (l : list (x86_reg * field)) : option hashmap :=
  match l with
  | [] => Some h
  | (r, f) :: rest => h' ← make_link h r f; link_list h' rest
  end.

Lemma link_list_app h l1 l2 :
  link_list h (l1 ++ l2) = h' ← link_list h l1; link_list h' l2.
Proof.
  revert h. induction l1 as [| [r f] l1 IH]; intros h; [ done | ]. simpl.
  destruct (make_link h r f); simpl; [ apply IH | done ].
Qed.

Lemma group_make_link_list h g f :
  group_make_link h g f = link_list h (map (fun r => (r, f)) g).
Proof.
  revert h. induction g as [| r g IH]; intros h; [ done | ]. simpl.
  destruct (make_link h r f); simpl; [ apply IH | done ].
Qed.

Lemma link_all_null_list h l1 l2 :
  X86_REG_ENDING ∉ l1 ->
  link_all_null h (l1 ++ X86_REG_ENDING :: l2)
  = link_list h (map (fun r => (r, F_null_entry)) l1).
Proof.
  revert h. induction l1 as [| r l1 IH]; intros h Hin; [ done | ]. simpl.
  apply not_elem_of_cons in Hin as [Hne Hin].
  unfold reg_eqb. rewrite bool_decide_eq_false_2 by done.
  destruct (make_link h r F_null_entry); simpl; [ by apply IH | done ].
Qed.

(** The last assignment made to a name. *)
Fixpoint last_link (l : list (x86_reg * field)) (r : x86_reg) : option field :=
  match l with
  | [] => None
  | (r', f) :: rest =>
      match last_link rest r with
      | Some g => Some g
      | None => if reg_eqb r' r then Some f else None
      end
  end.

Context `{!RegEnumOk}.

Lemma make_link_spec h r f :
  length h = length x86_reg_c -> r <> X86_REG_ENDING ->
  make_link h r f = Some (<[reg_code r := Some f]> h).
Proof.
  intros Hl Hr. unfold make_link. rewrite bool_decide_eq_true_2; [ done | ].
  rewrite Hl. by apply reg_code_bound.
Qed.

Lemma link_list_spec l h :
  length h = length x86_reg_c -> X86_REG_ENDING ∉ l.*1 ->
  exists h', link_list h l = Some h' /\ length h' = length x86_reg_c /\
    forall r, r <> X86_REG_ENDING ->
      h' !! reg_code r = match last_link l r with
                         | Some f => Some (Some f) | None => h !! reg_code r end.
Proof.
  revert h. induction l as [| [r f] l IH]; intros h Hl Hin; simpl in *.
  { exists h. done. }
  apply not_elem_of_cons in Hin as [Hne Hin]. rewrite make_link_spec by done. simpl.
  destruct (IH (<[reg_code r := Some f]> h)) as (h' & E & Hl' & Hlook);
    [ by rewrite length_insert | done | ].
  exists h'. split_and!; [ done | done | ]. intros r' Hr'. rewrite Hlook by done.
  destruct (last_link l r'); [ done | ]. unfold reg_eqb. case_bool_decide as Hrr.
  - subst. apply list_lookup_insert_eq. rewrite Hl. by apply reg_code_bound.
  - apply list_lookup_insert_ne. intros E'. by apply reg_code_inj in E'.
Qed.
End Links.

Definition init_links : list (x86_reg * field) :=
  map (fun r => (r, F_null_entry)) (take (reg_index X86_REG_ENDING) x86_reg_c) ++
  map (fun r => (r, F_rax)) [X86_REG_AL; X86_REG_AH; X86_REG_AX; X86_REG_EAX; X86_REG_RAX] ++
  map (fun r => (r, F_rbx)) [X86_REG_BL; X86_REG_BH; X86_REG_BX; X86_REG_EBX; X86_REG_RBX] ++
  map (fun r => (r, F_rcx)) [X86_REG_CL; X86_REG_CH; X86_REG_CX; X86_REG_ECX; X86_REG_RCX] ++
  map (fun r => (r, F_rdx)) [X86_REG_DL; X86_REG_DH; X86_REG_DX; X86_REG_EDX; X86_REG_RDX] ++
  map (fun r => (r, F_rdi)) [X86_REG_DIL; X86_REG_DI; X86_REG_EDI; X86_REG_RDI] ++
  map (fun r => (r, F_rsi)) [X86_REG_SIL; X86_REG_SI; X86_REG_ESI; X86_REG_RSI] ++
  map (fun r => (r, F_rbp)) [X86_REG_BPL; X86_REG_BP; X86_REG_EBP; X86_REG_RBP] ++
  map (fun r => (r, F_rsp)) [X86_REG_SPL; X86_REG_SP; X86_REG_ESP; X86_REG_RSP] ++
  map (fun r => (r, F_r8)) [X86_REG_R8B; X86_REG_R8W; X86_REG_R8D; X86_REG_R8] ++
  map (fun r => (r, F_r9)) [X86_REG_R9B; X86_REG_R9W; X86_REG_R9D; X86_REG_R9] ++
  map (fun r => (r, F_r10)) [X86_REG_R10B; X86_REG_R10W; X86_REG_R10D; X86_REG_R10] ++
  map (fun r => (r, F_r11)) [X86_REG_R11B; X86_REG_R11W; X86_REG_R11D; X86_REG_R11] ++
  map (fun r => (r, F_r12)) [X86_REG_R12B; X86_REG_R12W; X86_REG_R12D; X86_REG_R12] ++
  map (fun r => (r, F_r13)) [X86_REG_R13B; X86_REG_R13W; X86_REG_R13D; X86_REG_R13] ++
  map (fun r => (r, F_r14)) [X86_REG_R14B; X86_REG_R14W; X86_REG_R14D; X86_REG_R14] ++
  map (fun r => (r, F_r15)) [X86_REG_R15B; X86_REG_R15W; X86_REG_R15D; X86_REG_R15] ++
  map (fun r => (r, F_rflags)) [X86_REG_EFLAGS] ++
  map (fun r => (r, F_rip)) [X86_REG_EIP; X86_REG_RIP].

Lemma group_make_link_step `{RegEnum} h g f l (k : hashmap -> option hashmap) :
  (forall h', k h' = link_list h' l) ->
  group_make_link h g f ≫= k = link_list h (map (fun r => (r, f)) g ++ l).
Proof.
  intros Hk. rewrite link_list_app, <- group_make_link_list.
  destruct (group_make_link h g f); [ apply Hk | done ].
Qed.

Lemma link_list_step `{RegEnum} h a l (k : hashmap -> option hashmap) :
  (forall h', k h' = link_list h' l) -> link_list h a ≫= k = link_list h (a ++ l).
Proof.
  intros Hk. rewrite link_list_app. destruct (link_list h a); [ apply Hk | done ].
Qed.

Lemma x86_reg_c_split :
  x86_reg_c = take (reg_index X86_REG_ENDING) x86_reg_c ++ X86_REG_ENDING :: [].
Proof. reflexivity. Qed.

Lemma link_all_null_init `{RegEnum} h :
  link_all_null h x86_reg_c
  = link_list h (map (fun r => (r, F_null_entry)) (take (reg_index X86_REG_ENDING) x86_reg_c)).
Proof.
  rewrite <- (link_all_null_list _ _ []); [ by rewrite <- x86_reg_c_split | ].
  apply (bool_decide_unpack _). vm_compute. exact I.
Qed.

Lemma init_hashmap_links `{RegEnum} :
  init_hashmap = link_list (replicate (length x86_reg_c) None) init_links.
Proof.
  unfold init_hashmap, init_links. rewrite link_all_null_init.
  apply link_list_step; intros ?.
  repeat (apply group_make_link_step; intros ?). apply group_make_link_list.
Qed.

Lemma init_links_home r : r <> X86_REG_ENDING -> last_link init_links r = Some (home r).
Proof. intros Hr. destruct r; solve [ vm_compute; reflexivity | done ]. Qed.

Lemma init_links_names : X86_REG_ENDING ∉ init_links.*1.
Proof. apply (bool_decide_unpack _). vm_compute. exact I. Qed.

(** ** The invariant of the table *)

(** Every register name is linked to the field of its architectural register. *)
Definition hashmap_ok `{RegEnum} (h : hashmap) : Prop :=
  forall r, r <> X86_REG_ENDING -> reg_ptr r h = Some (home r).

(** The value of the register [r] in the state [s] by the architecture: the bits of its
    home field, [EFLAGS] without the bits 16 and 17 (RF, VM) and above 23, and the error
    value for a name that has no bits in the tracked state. *)
Definition reg_value (r : x86_reg) (s : state_rtime) : Z :=
  match view r with
  | Some (lo, w) => (field_get s (home r) / 2 ^ lo) mod 2 ^ w
  | None => if reg_eqb r X86_REG_EFLAGS then Z.land (rflags s) 0xFCFFFF else minus1
  end.

Lemma view_classes r :
  view r = (if is_8bits_right r then Some (0, 8)
            else if is_8bits_left r then Some (8, 8)
            else if is_16bits r then Some (0, 16)
            else if reg_eqb r X86_REG_EFLAGS then None
            else if is_32bits r then Some (0, 32)
            else if is_64bits r then Some (0, 64) else None).
Proof. destruct r; vm_compute; reflexivity. Qed.

Lemma high_byte_land v : Z.shiftr (Z.land v 0xff00) 8 = (v / 2 ^ 8) mod 2 ^ 8.
Proof.
  rewrite Z.shiftr_land, Z.shiftr_div_pow2 by lia.
  change (Z.shiftr 0xff00 8) with (2 ^ 8 - 1). apply land_mask. lia.
Qed.

Section RegsSpec.
Context `{RegEnum}.

Lemma init_hashmap_table :
  RegEnumOk -> exists h, init_hashmap = Some h /\ hashmap_ok h /\ length h = length x86_reg_c.
Proof.
  intros Hen. rewrite init_hashmap_links.
  destruct (link_list_spec init_links (replicate (length x86_reg_c) None))
    as (h & E & Hl & Hlook); [ apply length_replicate | apply init_links_names | ].
  exists h. split_and!; [ done | | done ]. intros r Hr. unfold reg_ptr.
  by rewrite Hlook, init_links_home.
Qed.

(** C27: init_hashmap links every register name, of every width, to the field that holds its
    architectural register, inside the table it allocates. *)
Theorem init_hashmap_ok (Hen : RegEnumOk) :
  exists h, init_hashmap = Some h /\ hashmap_ok h /\ length h = length x86_reg_c.
Proof. by apply init_hashmap_table. Qed.

Lemma read_reg_ok (h : hashmap) (s : state_rtime) (r : x86_reg) :
  hashmap_ok h -> r <> X86_REG_ENDING -> read_reg r h s = Some (reg_value r s).
Proof.
  intros Hh Hr.     unfold read_reg, reg_value, deref_reg. rewrite (Hh r Hr), view_classes. simpl.
  destruct (reg_eqb r X86_REG_EFLAGS) eqn:Ef.
  { unfold reg_eqb in Ef. apply bool_decide_eq_true in Ef as ->. reflexivity. }
  repeat case_match; simplify_eq; try done; f_equal; rewrite ?Z.div_1_r.
  - apply (land_mask 8). lia.
  - apply high_byte_land.
  - apply (land_mask 16). lia.
  - apply (land_mask 32). lia.
  - apply (land_mask 64). lia.
Qed.

(** C28: read_reg returns the bits of the tracked register that the name denotes (low byte,
    high byte, 16, 32 or 64 bits, the masked flags) and the error value for every untracked
    name. *)
Theorem read_reg_value (h : hashmap) (s : state_rtime) (r : x86_reg)
    (Hh : hashmap_ok h) (Hr : r <> X86_REG_ENDING) :
  read_reg r h s = Some (reg_value r s).
Proof. by apply read_reg_ok. Qed.

Lemma update_reg_ok (h : hashmap) (s : state_rtime) (r : x86_reg) (v : Z) :
  hashmap_ok h -> r <> X86_REG_ENDING ->
  update_reg r h v s = Some (field_set s (home r) v).
Proof. intros Hh Hr. unfold update_reg. by rewrite (Hh r Hr). Qed.

(** C29: After update_reg, reading any name of the same architectural register gives its
    bits of the value written, and reading any other name gives what it gave before. *)
Theorem read_reg_update_reg (h : hashmap) (s : state_rtime) (r r' : x86_reg) (v : Z)
    (Hh : hashmap_ok h) (Hr : r <> X86_REG_ENDING) (Hr' : r' <> X86_REG_ENDING) :
  exists s', update_reg r h v s = Some s' /\
    read_reg r' h s' =
      (if decide (home r = home r') then
         match view r' with
         | Some (lo, w) => Some ((v / 2 ^ lo) mod 2 ^ w)
         | None => if reg_eqb r' X86_REG_EFLAGS then Some (Z.land v 0xFCFFFF)
                   else Some minus1
         end
       else read_reg r' h s).
Proof.
  exists (field_set s (home r) v). split; [ by apply update_reg_ok | ].
  rewrite !read_reg_ok by done. unfold reg_value.
  change rflags with (fun s => field_get s F_rflags). cbv beta.
  rewrite !field_get_set. case_decide as Hhome.
  - destruct (view r') as [[lo w] |]; [ done | ].
    destruct (reg_eqb r' X86_REG_EFLAGS) eqn:E; [ | done ].
    apply bool_decide_eq_true in E as ->. by rewrite Hhome.
  - destruct (view r') as [[lo w] |]; [ done | ].
    destruct (reg_eqb r' X86_REG_EFLAGS) eqn:E; [ | done ].
    apply bool_decide_eq_true in E as ->. by rewrite decide_False.
Qed.
End RegsSpec.

(** The width classes of a name, narrowest first. *)
Definition width_classes (r : x86_reg) : list bool :=
  [is_8bits_right r; is_8bits_left r; is_16bits r; is_32bits r; is_64bits r;
   is_128bits r; is_256bits r; is_512bits r].

(** Every register name is in at most one width class, and it is in one of the classes
    of general registers exactly when the engine tracks it. *)
Theorem width_classes_partition (r : x86_reg) :
  (length (filter Is_true (width_classes r)) <= 1)%nat /\
  existsb id (take 5 (width_classes r)) = bool_decide (home r <> F_null_entry).
Proof. destruct r; vm_compute; (split; [ lia | reflexivity ]). Qed.
