(* ===== verification/Process.v ===== *)
(** * The process: address space, kernel and engine state

    The engine and the instrumented program share one process.  This file holds its state
    ([proc]: the address space, the [fs]/[gs] bases of the thread, the [dbi_instr_t] object
    and the global variables of the sources), the monad in which the C functions are
    written and the system calls the engine itself issues. *)

From S2P Require Import Prelude.
From S2P Require Import Pages.
From S2P Require Import Regs.

(** ** Address space

    Pages carry protection bits; a byte that was never written is zero. *)

Definition PROT_READ : Z := 0x1.
Definition PROT_WRITE : Z := 0x2.
Definition PROT_EXEC : Z := 0x4.
Definition PROT_RWX : Z := Z.lor (Z.lor PROT_WRITE PROT_READ) PROT_EXEC.

Record aspace := mk_aspace {
  prots : gmap Z Z;   (* page base -> protection of the mapped pages *)
  bytes : gmap Z Z    (* address -> byte *)
}.
#[global] Instance eta_aspace : Eta aspace := fun m => mk_aspace (prots m) (bytes m).

Definition page_prot (m : aspace) (a : Z) : option Z := prots m !! PAGE_ALIGN a.

Definition byte_at (m : aspace) (a : Z) : Z := default 0 (bytes m !! a).

Definition has_prot (m : aspace) (a flag : Z) : bool :=
  match page_prot m a with Some p => truth (Z.land p flag) | None => false end.

(** Loads and stores of a byte; [None] is the fault. *)
Definition load8 (m : aspace) (a : Z) : option Z :=
  if has_prot m a PROT_READ then Some (byte_at m a) else None.

Definition store8 (m : aspace) (a v : Z) : option aspace :=
  if has_prot m a PROT_WRITE then Some (m <| bytes := <[a := v]> (bytes m) |>) else None.

Fixpoint load_bytes (m : aspace) (a : Z) (n : nat) : option (list Z) :=
  match n with
  | O => Some []
  | S n' => b ← load8 m (u64 a); l ← load_bytes m (a + 1) n'; Some (b :: l)
  end.

Fixpoint store_bytes (m : aspace) (a : Z) (l : list Z) : option aspace :=
  match l with
  | [] => Some m
  | b :: l' => m' ← store8 m (u64 a) b; store_bytes m' (a + 1) l'
  end.

Fixpoint le_combine (l : list Z) : Z :=
  match l with [] => 0 | b :: l' => b + 2 ^ 8 * le_combine l' end.

Fixpoint le_split (n : nat) (v : Z) : list Z :=
  match n with O => [] | S n' => v mod 2 ^ 8 :: le_split n' (v / 2 ^ 8) end.

(** [*(uint64_t* )a] and [*(uint64_t* )a = v]. *)
Definition load64 (m : aspace) (a : Z) : option Z := le_combine <$> load_bytes m a 8.
Definition store64 (m : aspace) (a v : Z) : option aspace := store_bytes m a (le_split 8 v).

(** ** The kernel

    What the kernel answers is a parameter: [k_syscall] gives the raw result (negative
    [errno] on failure) and the new address space of a system call issued for the guest,
    from the history of the calls before it ([None]: the call does not return to the
    program); [k_map_refused] are the refusals of [mmap]/[mprotect] for reasons other than
    alignment and holes (resource limits, file permissions); [k_base_ok] the segment bases
    that [arch_prctl] accepts. *)

(** An argument of the variadic [syscall], with the C type it is passed with. *)
Inductive vararg := VLong (v : Z) | VInt (v : Z).

Record sysevent := mk_event { ev_nr : Z; ev_args : list vararg; ev_fs : Z; ev_gs : Z }.

Class Kernel := {
  k_syscall : list sysevent -> aspace -> Z -> list vararg -> option (Z * aspace);
  k_map_refused : aspace -> Z -> Z -> Z -> bool;
  k_base_ok : Z -> bool
}.

Section Mappings.
Context `{Kernel}.

(** Protect [n] pages from [a]; stops at the first hole, keeping what was done before. *)
Fixpoint protect_pages (pm : gmap Z Z) (a : Z) (n : nat) (prot : Z) : Z * gmap Z Z :=
  match n with
  | O => (0, pm)
  | S n' => match pm !! a with
            | None => (-1, pm)
            | Some _ => protect_pages (<[a := prot]> pm) (a + PAGE_SZ) n' prot
            end
  end.

Definition page_count (len : Z) : nat := Z.to_nat ((len + PAGE_SZ - 1) / PAGE_SZ).

Definition mprotect (m : aspace) (addr len prot : Z) : Z * aspace :=
  if truth (PAGE_OFFT addr) || k_map_refused m addr len prot then (-1, m)
  else let '(r, pm) := protect_pages (prots m) addr (page_count len) prot in
       (r, m <| prots := pm |>).

Definition in_range (lo n a : Z) : bool := (lo <=? a) && (a <? lo + n).

Fixpoint set_pages (pm : gmap Z Z) (a : Z) (n : nat) (prot : Z) : gmap Z Z :=
  match n with O => pm | S n' => set_pages (<[a := prot]> pm) (a + PAGE_SZ) n' prot end.

(** [mmap] with [MAP_FIXED | MAP_ANONYMOUS | MAP_PRIVATE]: the pages are replaced by zero
    pages.  [None] is [MAP_FAILED]. *)
Definition mmap_anon_fixed (m : aspace) (addr len prot : Z) : option aspace :=
  if truth (PAGE_OFFT addr) || (len =? 0) || k_map_refused m addr len prot then None
  else Some (mk_aspace (set_pages (prots m) addr (page_count len) prot)
               (filter (fun x => in_range addr (Z.of_nat (page_count len) * PAGE_SZ) x.1 = false)
                  (bytes m))).
End Mappings.

(** ** The objects of the engine *)

(** [hook_t] *)
Record hook := mk_hook {
  hcode : list Z;
  orig_bytes : list Z;
  hlength : Z;
  jmp : Z;
  to_unmap : Z;
  prot_restore : Z
}.
#[global] Instance eta_hook : Eta hook := fun h =>
  mk_hook (hcode h) (orig_bytes h) (hlength h) (jmp h) (to_unmap h) (prot_restore h).

(** [persistent_t] *)
Record persistent := mk_persistent { pstate : Z; paddress : Z }.
#[global] Instance eta_persistent : Eta persistent := fun h =>
  mk_persistent (pstate h) (paddress h).

(** [dbi_instr_t]: the fields the modelled functions use; [curr_hook] is the cell the
    pointer of that name refers to and [count] is [cps_utils->count]. *)
Record dbi_instr := mk_dbi {
  take_callback : bool;
  state : state_rtime;
  host_state : state_rtime;
  dump : hook;
  restore : hook;
  curr_hook : Z;
  table : hashmap;
  instrumented_fs : Z;
  instrumented_gs : Z;
  length_cflow : Z;
  count : Z;
  vbrk : Z;
  dump_stub : Z;
  restore_stub : Z;
  host_rsp : Z;
  base_guest_stack : Z;
  persistent_hook : persistent
}.
#[global] Instance eta_dbi : Eta dbi_instr := fun d =>
  mk_dbi (take_callback d) (state d) (host_state d) (dump d) (restore d) (curr_hook d)
    (table d) (instrumented_fs d) (instrumented_gs d) (length_cflow d) (count d) (vbrk d)
    (dump_stub d) (restore_stub d) (host_rsp d) (base_guest_stack d)
    (persistent_hook d).

(** The process: [cpu_fs] and [cpu_gs] are the bases in force, [curr_syscall],
    [must_change] and [bbl_count] the globals of analysis.c, syscall_hook.c and engine.c,
    [trace] the system calls issued for the guest, oldest first, [descriptors] the number of
    files the engine itself has opened and not closed. *)
Record proc := mk_proc {
  mem : aspace;
  cpu_fs : Z;
  cpu_gs : Z;
  dbi : dbi_instr;
  curr_syscall : bool;
  must_change : bool;
  bbl_count : Z;
  trace : list sysevent;
  descriptors : nat
}.
#[global] Instance eta_proc : Eta proc := fun p =>
  mk_proc (mem p) (cpu_fs p) (cpu_gs p) (dbi p) (curr_syscall p) (must_change p)
    (bbl_count p) (trace p) (descriptors p).

(** The process with [n] more open files. *)
Definition opens (n : nat) (p : proc) : proc := p <| descriptors := (descriptors p + n)%nat |>.

(** [s_binary->dbi_handler->state] of a process. *)
Definition gstate (p : proc) : state_rtime := state (dbi p).
Definition with_dbi (p : proc) (f : dbi_instr -> dbi_instr) : proc := p <| dbi := f (dbi p) |>.
Definition with_state (p : proc) (f : state_rtime -> state_rtime) : proc :=
  with_dbi p (fun d => d <| state := f (state d) |>).

(** ** The monad of the C functions

    A function returns ([Ret]), ends the process with a status ([Exited]), fails an
    [assert] ([Aborted]), dies on an invalid access or leaves defined behaviour
    ([Crashed]), does not return from a system call ([NoReturn]), or the fuel of a
    recursive definition is exhausted ([OutOfFuel]). *)
Inductive outcome (A : Type) :=
| Ret (a : A) (p : proc)
| Exited (status : Z) (p : proc)
| Aborted (p : proc)
| Crashed (p : proc)
| NoReturn (p : proc)
| OutOfFuel.
Arguments Ret {A}. Arguments Exited {A}. Arguments Aborted {A}. Arguments Crashed {A}.
Arguments NoReturn {A}. Arguments OutOfFuel {A}.

Definition M (A : Type) : Type := proc -> outcome A.

#[global] Instance M_ret : MRet M := fun A a p => Ret a p.
#[global] Instance M_bind : MBind M := fun A B k m p =>
  match m p with
  | Ret a p' => k a p'
  | Exited c p' => Exited c p'
  | Aborted p' => Aborted p'
  | Crashed p' => Crashed p'
  | NoReturn p' => NoReturn p'
  | OutOfFuel => OutOfFuel
  end.

Definition get {A} (f : proc -> A) : M A := fun p => Ret (f p) p.
Definition modify (f : proc -> proc) : M unit := fun p => Ret tt (f p).
Definition crash {A} : M A := fun p => Crashed p.
Definition out_of_fuel {A} : M A := fun _ => OutOfFuel.
Definition exit_process {A} (status : Z) : M A := fun p => Exited (Z.land status 0xff) p.
Definition assert_c (b : bool) : M unit := fun p => if b then Ret tt p else Aborted p.
Definition lift_option {A} (o : proc -> option A) : M A := fun p =>
  match o p with Some a => Ret a p | None => Crashed p end.
Definition lift_mem (f : aspace -> option aspace) : M unit := fun p =>
  match f (mem p) with Some m => Ret tt (p <| mem := m |>) | None => Crashed p end.

Lemma bind_Ret {A B} (m : M A) (k : A -> M B) p a p' :
  m p = Ret a p' -> (m ≫= k) p = k a p'.
Proof. intros E. unfold mbind, M_bind. by rewrite E. Qed.

Lemma bind_assoc {A B C} (m : M A) (k : A -> M B) (l : B -> M C) p :
  ((m ≫= k) ≫= l) p = (m ≫= (fun a => k a ≫= l)) p.
Proof. unfold mbind, M_bind. by destruct (m p). Qed.

(** ** Process control *)

(** [default_dtor]: prints the count and ends the thread with [syscall(__NR_exit, 0)]. *)
Definition default_dtor {A} : M A := exit_process 0.

(** [log_regs]: writes the registers to the stream; with an AVX-512 state it exits. *)
Definition log_regs : M unit :=
  s ← get gstate;
  match sse s, avx2 s, avx512 s with
  | Some _, _, _ => mret ()
  | None, Some _, _ => mret ()
  | None, None, Some _ => exit_process (-1)
  | None, None, None => mret ()
  end.

(** [fatal_dump]: [log_regs] then the destructor, which is [default_dtor]. *)
Definition fatal_dump {A} : M A := log_regs;; default_dtor.

(** ** The selectors of the engine *)

(** The selectors in the segment registers when [host_save_state] runs. *)
Record selectors := mk_selectors { sr_fs : Z; sr_cs : Z; sr_gs : Z; sr_ds : Z; sr_ss : Z }.

(** [mov %fs, m]: a store of 16 bits into a 64-bit member. *)
Definition store16 (old v : Z) : Z := Z.lor (Z.land old (u64 (Z.lnot 0xffff))) (Z.land v 0xffff).

Definition host_save_state (r : selectors) (s : state_rtime) : Z * state_rtime :=
  let s := s <| fs := store16 (fs s) (sr_fs r) |> in
  let s := s <| cs := store16 (cs s) (sr_cs r) |> in
  let s := s <| gs := store16 (gs s) (sr_gs r) |> in
  let s := s <| ds := store16 (ds s) (sr_ds r) |> in
  let s := s <| ss := store16 (ss s) (sr_ss r) |> in
  (0, s).

Lemma store16_spec old v :
  store16 old v mod 2 ^ 16 = v mod 2 ^ 16 /\
  (is_u64 old -> store16 old v / 2 ^ 16 = old / 2 ^ 16).
Proof.
  unfold store16. change 0xffff with (Z.ones 16).
  assert (Hm : forall i, 0 <= i -> Z.testbit (u64 (Z.lnot (Z.ones 16))) i
                 = (16 <=? i) && (i <? 64)).
  { intros i Hi. unfold u64. rewrite Z.testbit_mod_pow2, Z.lnot_spec, Z.testbit_ones by lia.
    destruct (Z.leb_spec 0 i), (Z.ltb_spec i 16), (Z.leb_spec 16 i), (Z.ltb_spec i 64);
      done || lia. }
  split.
  - rewrite <- !Z.land_ones by done. apply Z.bits_inj'. intros i Hi.
    rewrite !Z.land_spec, Z.lor_spec, !Z.land_spec, Hm, !Z.testbit_ones by lia.
    destruct (Z.leb_spec 0 i), (Z.ltb_spec i 16), (Z.leb_spec 16 i), (Z.testbit old i),
      (Z.testbit v i); done || lia.
  - intros Hu. rewrite <- !Z.shiftr_div_pow2 by done. apply Z.bits_inj'. intros i Hi.
    rewrite !Z.shiftr_spec, Z.lor_spec, !Z.land_spec, Hm, !Z.testbit_ones by lia.
    destruct (Z.leb_spec 16 (i + 16)); [ | lia ].
    destruct (Z.ltb_spec (i + 16) 16); [ lia | ].
    destruct (Z.ltb_spec (i + 16) 64) as [Hlt | Hge]; rewrite ?andb_false_r, ?orb_false_r, ?andb_true_r;
      [ done | ].
    symmetry. destruct (Z.eq_dec old 0) as [-> | Hn]; [ apply Z.testbit_0_l | ].
    apply Z.bits_above_log2; [ apply Hu | ]. apply Z.log2_lt_pow2; unfold is_u64 in Hu; [ lia | ].
    pose proof (Z.pow_le_mono_r 2 64 (i + 16) ltac:(lia) Hge). lia.
Qed.

(** [host_save_state] records the five selectors in the low words of their members. *)
Lemma host_save_state_spec r s :
  let s' := snd (host_save_state r s) in
  (fs s' mod 2 ^ 16 = sr_fs r mod 2 ^ 16 /\ cs s' mod 2 ^ 16 = sr_cs r mod 2 ^ 16 /\
   gs s' mod 2 ^ 16 = sr_gs r mod 2 ^ 16 /\ ds s' mod 2 ^ 16 = sr_ds r mod 2 ^ 16 /\
   ss s' mod 2 ^ 16 = sr_ss r mod 2 ^ 16) /\
  forall f, f ∉ [F_fs; F_cs; F_gs; F_ds; F_ss] -> field_get s' f = field_get s f.
Proof.
  simpl. split; [ split_and!; apply store16_spec | ].
  intros f Hf. destruct f; try reflexivity; exfalso; apply Hf; apply (bool_decide_unpack _);
    by vm_compute.
Qed.

(** ** Segment bases *)

Section Kernel_calls.
Context `{Kernel}.

Definition ARCH_SET_GS : Z := 0x1001.
Definition ARCH_SET_FS : Z := 0x1002.
Definition ARCH_GET_FS : Z := 0x1003.
Definition ARCH_GET_GS : Z := 0x1004.

(** [arch_prctl(ARCH_SET_FS, ptr)] and [arch_prctl(ARCH_SET_GS, ptr)] as the engine calls
    them: 0, or -1 when the kernel refuses the base. *)
Definition arch_prctl_set (func ptr : Z) : M Z :=
  if k_base_ok ptr then
    modify (fun p => if func =? ARCH_SET_FS then p <| cpu_fs := ptr |>
                     else p <| cpu_gs := ptr |>);; mret 0
  else mret (-1).

(** [arch_prctl(ARCH_SET_FS, fs) || arch_prctl(ARCH_SET_GS, gs)] *)
Definition set_fs_gs (fs gs : Z) : M Z :=
  r ← arch_prctl_set ARCH_SET_FS fs;
  if truth r then mret 1
  else r' ← arch_prctl_set ARCH_SET_GS gs; mret (if truth r' then 1 else 0).

(** [save_fs_gs]: [ARCH_GET_FS] and [ARCH_GET_GS] into host variables, which cannot
    fail; the result is the returned 0 with the two values stored. *)
Definition save_fs_gs : M (Z * Z * Z) :=
  get (fun p => (0, cpu_fs p, cpu_gs p)).

Definition set_guest_fs_gs : M Z :=
  d ← get dbi; set_fs_gs (instrumented_fs d) (instrumented_gs d).

Definition set_host_fs_gs : M Z :=
  d ← get dbi; set_fs_gs (fs (host_state d)) (gs (host_state d)).

(** ** [syscall(number, ...)] of the C library

    A raw result in [[-4095, -1]] is the error [-raw]: the wrapper stores it in [errno]
    and returns -1. *)
Definition libc_result (raw : Z) : Z :=
  if (-4095 <=? raw) && (raw <=? -1) then -1 else raw.

Definition __NR_arch_prctl : Z := 158.

Definition vararg_value (a : vararg) : Z :=
  match a with VLong v => v | VInt v => v end.

(** [arch_prctl] issued for the guest: the four segment operations act on the thread and
    on the guest memory, every other code is the kernel's business. *)
Definition raw_arch_prctl (code addr : Z) (p : proc) : option (Z * proc) :=
  if code =? ARCH_SET_FS then
    Some (if k_base_ok addr then (0, p <| cpu_fs := addr |>) else (-1, p))
  else if code =? ARCH_SET_GS then
    Some (if k_base_ok addr then (0, p <| cpu_gs := addr |>) else (-1, p))
  else if code =? ARCH_GET_FS then
    Some (match store64 (mem p) addr (cpu_fs p) with
          | Some m => (0, p <| mem := m |>) | None => (-14, p) end)
  else if code =? ARCH_GET_GS then
    Some (match store64 (mem p) addr (cpu_gs p) with
          | Some m => (0, p <| mem := m |>) | None => (-14, p) end)
  else
    '(r, m) ← k_syscall (trace p) (mem p) __NR_arch_prctl [VInt code; VLong addr];
    Some (r, p <| mem := m |>).

Definition raw_syscall (nr : Z) (args : list vararg) (p : proc) : option (Z * proc) :=
  match args with
  | [code; addr] =>
      if nr =? __NR_arch_prctl
      then raw_arch_prctl (vararg_value code) (vararg_value addr) p
      else '(r, m) ← k_syscall (trace p) (mem p) nr args; Some (r, p <| mem := m |>)
  | _ => '(r, m) ← k_syscall (trace p) (mem p) nr args; Some (r, p <| mem := m |>)
  end.

Definition syscall (nr : Z) (args : list vararg) : M Z := fun p =>
  let ev := mk_event nr args (cpu_fs p) (cpu_gs p) in
  match raw_syscall nr args p with
  | Some (raw, p') => Ret (libc_result raw) (p' <| trace := trace p ++ [ev] |>)
  | None => NoReturn (p <| trace := trace p ++ [ev] |>)
  end.
End Kernel_calls.

(** ** Facts about mappings *)

Lemma in_range_spec lo n a : reflect (lo <= a < lo + n) (in_range lo n a).
Proof.
  unfold in_range. apply iff_reflect. rewrite andb_true_iff, Z.leb_le, Z.ltb_lt. done.
Qed.

(** The page bases of [n] pages from [a]. *)
Definition is_page_of (a : Z) (n : nat) (q : Z) : bool :=
  (a <=? q) && (q <? a + Z.of_nat n * PAGE_SZ) && ((q - a) mod PAGE_SZ =? 0).

Lemma is_page_of_0 a q : is_page_of a 0 q = false.
Proof.
  unfold is_page_of, PAGE_SZ.
  destruct (Z.leb_spec a q), (Z.ltb_spec q (a + Z.of_nat 0 * 0x1000)); done || lia.
Qed.

Lemma is_page_of_S a n q :
  is_page_of a (S n) q = (q =? a) || is_page_of (a + PAGE_SZ) n q.
Proof.
  unfold is_page_of, PAGE_SZ.
  replace (q - (a + 0x1000)) with (q - a + (-1) * 0x1000) by lia.
  rewrite Z.mod_add by lia.
  destruct (Z.eqb_spec q a) as [-> | Hne]; simpl.
  { rewrite Z.sub_diag. rewrite (proj2 (Z.leb_le a a)), (proj2 (Z.ltb_lt a _)) by lia. done. }
  destruct (Z.eqb_spec ((q - a) mod 0x1000) 0) as [Hm |]; [ | by rewrite !andb_false_r ].
  rewrite !andb_true_r. apply Z.mod_divide in Hm as [k Hk]; [ | done ].
  destruct (Z.leb_spec a q), (Z.leb_spec (a + 0x1000) q),
    (Z.ltb_spec q (a + Z.of_nat (S n) * 0x1000)),
    (Z.ltb_spec q (a + 0x1000 + Z.of_nat n * 0x1000)); try done; lia.
Qed.

Lemma set_pages_lookup pm a n prot q :
  set_pages pm a n prot !! q = if is_page_of a n q then Some prot else pm !! q.
Proof.
  revert pm a. induction n as [| n IH]; intros pm a; simpl; [ by rewrite is_page_of_0 | ].
  rewrite IH, is_page_of_S.
  destruct (is_page_of (a + PAGE_SZ) n q); [ by rewrite orb_true_r | ].
  rewrite orb_false_r. destruct (Z.eqb_spec q a) as [-> |].
  - apply lookup_insert_eq.
  - by apply lookup_insert_ne.
Qed.

Lemma protect_pages_mapped pm a n prot :
  (forall q, is_page_of a n q = true -> is_Some (pm !! q)) ->
  protect_pages pm a n prot = (0, set_pages pm a n prot).
Proof.
  revert pm a. induction n as [| n IH]; intros pm a Hm; simpl; [ done | ].
  destruct (Hm a) as [x E]; [ rewrite is_page_of_S, Z.eqb_refl; done | ].
  rewrite E. apply IH. intros q Hq. destruct (decide (a = q)) as [-> | Hne].
  - rewrite lookup_insert_eq. by eexists.
  - rewrite lookup_insert_ne by done. apply Hm. by rewrite is_page_of_S, Hq, orb_true_r.
Qed.

Lemma page_count_mult len : 0 <= len -> len mod PAGE_SZ = 0 ->
  Z.of_nat (page_count len) * PAGE_SZ = len.
Proof.
  intros H0 Hm. unfold page_count, PAGE_SZ in *.
  apply Z.mod_divide in Hm as [k ->]; [ | done ].
  replace (k * 0x1000 + 0x1000 - 1) with (0xfff + k * 0x1000) by lia.
  rewrite Z.div_add by done. change (0xfff / 0x1000) with 0. lia.
Qed.

(** Protecting one mapped page. *)
Lemma mprotect_page `{Kernel} m a prot :
  is_Some (page_prot m a) -> k_map_refused m (PAGE_ALIGN a) PAGE_SZ prot = false ->
  mprotect m (PAGE_ALIGN a) PAGE_SZ prot = (0, m <| prots := <[PAGE_ALIGN a := prot]> (prots m) |>).
Proof.
  intros [x Hx] Hr. unfold mprotect. unfold truth. rewrite PAGE_OFFT_mod, PAGE_ALIGN_mod, Hr.
  simpl. unfold page_prot in Hx. by rewrite Hx.
Qed.

Lemma mprotect_page_unmapped `{Kernel} m a prot :
  page_prot m a = None -> mprotect m (PAGE_ALIGN a) PAGE_SZ prot = (-1, m).
Proof.
  intros Hx. unfold mprotect. destruct (truth _ || _); [ done | ].
  unfold page_prot in Hx. simpl. rewrite Hx. by destruct m.
Qed.

(** ** Facts about loads and stores *)

Lemma has_prot_ext m m' a flag :
  prots m = prots m' -> has_prot m a flag = has_prot m' a flag.
Proof. unfold has_prot, page_prot. by intros ->. Qed.

Lemma fatal_dump_spec {A} p :
  (fatal_dump : M A) p
  = match sse (gstate p), avx2 (gstate p), avx512 (gstate p) with
    | None, None, Some _ => Exited 255 p
    | _, _, _ => Exited 0 p
    end.
Proof.
  unfold fatal_dump, log_regs, mbind, M_bind, get. simpl.
  destruct (sse (gstate p)), (avx2 (gstate p)), (avx512 (gstate p)); reflexivity.
Qed.

(** ** Partial correctness of the monadic functions

    [ensures R Q m]: whenever [m] returns, its result satisfies [Q] and the final process
    is related by [R] to the initial one. *)

Definition ensures {A} (R : proc -> proc -> Prop) (Q : A -> Prop) (m : M A) : Prop :=
  forall p a p', m p = Ret a p' -> Q a /\ R p p'.

Section Ensures.
Context {R : proc -> proc -> Prop} `{!PreOrder R}.

Lemma ensures_mret {A} (Q : A -> Prop) (a : A) : Q a -> ensures R Q (mret a).
Proof. intros HQ p a' p' [= <- <-]. by split. Qed.

Lemma ensures_bind {A B} (Q : A -> Prop) (Q' : B -> Prop) (m : M A) (k : A -> M B) :
  ensures R Q m -> (forall a, Q a -> ensures R Q' (k a)) -> ensures R Q' (m ≫= k).
Proof.
  intros Hm Hk p b p' E. unfold mbind, M_bind in E.
  destruct (m p) as [a p1 | | | | |] eqn:Em; try done.
  destruct (Hm _ _ _ Em) as [Ha HR1]. destruct (Hk a Ha _ _ _ E) as [Hb HR2].
  split; [ done | by etrans ].
Qed.

Lemma ensures_bind_any {A B} (Q' : B -> Prop) (m : M A) (k : A -> M B) :
  ensures R (fun _ => True) m -> (forall a, ensures R Q' (k a)) -> ensures R Q' (m ≫= k).
Proof. intros Hm Hk. apply (ensures_bind (fun _ => True)); auto. Qed.

Lemma ensures_get {A} (f : proc -> A) : ensures R (fun _ => True) (get f).
Proof. intros p a p' [= <- <-]. by split. Qed.

Lemma ensures_modify (f : proc -> proc) :
  (forall p, R p (f p)) -> ensures R (fun _ => True) (modify f).
Proof. intros Hf p a p' [= <- <-]. by split. Qed.

Lemma ensures_assert b : ensures R (fun _ => True) (assert_c b).
Proof. intros p a p'. unfold assert_c. destruct b; [ | done ]. by intros [= <- <-]. Qed.

Lemma ensures_exit {A} (Q : A -> Prop) st : ensures R Q (exit_process st).
Proof. intros p a p' [=]. Qed.

Lemma ensures_crash {A} (Q : A -> Prop) : ensures R Q crash.
Proof. intros p a p' [=]. Qed.

Lemma ensures_dtor {A} (Q : A -> Prop) : ensures R Q default_dtor.
Proof. apply ensures_exit. Qed.

Lemma ensures_fatal_dump {A} (Q : A -> Prop) : ensures R Q fatal_dump.
Proof.
  intros p a p'. rewrite fatal_dump_spec.
  by destruct (sse (gstate p)), (avx2 (gstate p)), (avx512 (gstate p)).
Qed.

Lemma ensures_if {A} (Q : A -> Prop) (b : bool) (m1 m2 : M A) :
  ensures R Q m1 -> ensures R Q m2 -> ensures R Q (if b then m1 else m2).
Proof. by destruct b. Qed.

Lemma ensures_weaken {A} (Q Q' : A -> Prop) (m : M A) :
  ensures R Q m -> (forall a, Q a -> Q' a) -> ensures R Q' m.
Proof. intros Hm HQ p a p' E. destruct (Hm _ _ _ E). auto. Qed.
End Ensures.

Create HintDb ensures.

(** One structural step, leaves closed by the hint database. *)
Ltac ensures_step :=
  lazymatch goal with
  | |- ensures _ _ (_ ≫= _) => apply ensures_bind_any; [ | intros ?; cbv beta zeta ]
  | |- ensures _ _ (if _ then _ else _) => apply ensures_if
  | |- ensures _ _ (mret _) => apply ensures_mret; done
  | |- ensures _ _ (get _) => apply ensures_get
  | |- ensures _ _ (assert_c _) => apply ensures_assert
  | |- ensures _ _ (exit_process _) => apply ensures_exit
  | |- ensures _ _ default_dtor => apply ensures_dtor
  | |- ensures _ _ fatal_dump => apply ensures_fatal_dump
  | |- ensures _ _ crash => apply ensures_crash
  | |- _ => solve [ eauto with ensures ]
  end.
Ltac ensures_tac := repeat ensures_step.

(** ** [mmap] on a fixed range *)

Lemma is_page_of_align base n a :
  base mod PAGE_SZ = 0 ->
  is_page_of base n (PAGE_ALIGN a) = in_range base (Z.of_nat n * PAGE_SZ) a.
Proof.
  intros Hb. unfold is_page_of, in_range.
  rewrite Zminus_mod, PAGE_ALIGN_mod, Hb. simpl. rewrite andb_true_r.
  pose proof (PAGE_ALIGN_bounds a) as Ha. pose proof (PAGE_ALIGN_mod a) as Hm.
  apply Z.mod_divide in Hb as [k ->]; [ | done ].
  apply Z.mod_divide in Hm as [j Hj]; [ | done ]. rewrite Hj in *. unfold PAGE_SZ in *.
  destruct (Z.leb_spec (k * 0x1000) (j * 0x1000)), (Z.leb_spec (k * 0x1000) a),
    (Z.ltb_spec (j * 0x1000) (k * 0x1000 + Z.of_nat n * 0x1000)),
    (Z.ltb_spec a (k * 0x1000 + Z.of_nat n * 0x1000)); done || lia.
Qed.

Lemma mmap_anon_fixed_spec `{Kernel} m addr len prot m' :
  mmap_anon_fixed m addr len prot = Some m' ->
  forall a, let inr := in_range addr (Z.of_nat (page_count len) * PAGE_SZ) a in
    page_prot m' a = (if inr then Some prot else page_prot m a) /\
    byte_at m' a = (if inr then 0 else byte_at m a).
Proof.
  unfold mmap_anon_fixed.
  destruct (truth (PAGE_OFFT addr) || (len =? 0) || k_map_refused m addr len prot) eqn:E; [ done | ].
  apply orb_false_iff in E as [[Ho _]%orb_false_iff _]. intros [= <-] a.
  unfold truth in Ho. apply negb_false_iff, Z.eqb_eq in Ho. rewrite PAGE_OFFT_mod in Ho.
  split.
  - unfold page_prot. simpl. rewrite set_pages_lookup, is_page_of_align by done. done.
  - unfold byte_at. simpl. rewrite map_lookup_filter.
    destruct (bytes m !! a) as [b |] eqn:Eb; simpl; [ | by destruct (in_range _ _ _) ].
    destruct (in_range addr (Z.of_nat (page_count len) * PAGE_SZ) a) eqn:Er.
    + case_guard; simplify_eq/=; congruence.
    + case_guard; simplify_eq/=; congruence.
Qed.

Lemma mmap_anon_fixed_some `{Kernel} m addr len prot :
  addr mod PAGE_SZ = 0 -> 0 < len -> k_map_refused m addr len prot = false ->
  is_Some (mmap_anon_fixed m addr len prot).
Proof.
  intros Ha Hl Hr. unfold mmap_anon_fixed, truth. rewrite PAGE_OFFT_mod, Ha, Hr.
  rewrite (proj2 (Z.eqb_neq len 0)) by lia. simpl. by eexists.
Qed.
