(* ===== verification/Log.v ===== *)
(** * What the engine prints about registers (src/state_runt.c: [log_regs] and below)

    A text is the list of characters that [fprintf] adds to a stream. *)

From Stdlib Require Export Ascii.
From Stdlib Require String.
From S2P Require Import Prelude.
From S2P Require Import Regs.
From S2P Require Import Process.

Export (notations) String.
#[global] Open Scope list_scope.
#[global] Open Scope Z_scope.

Definition text : Type := list ascii.

(** A string of the source; the characters TAB and newline are written apart. *)
Definition str (s : String.string) : text := String.list_ascii_of_string s.
Arguments str s%_string.
Definition tab : text := ["009"%char].
Definition newline : text := ["010"%char].

(** ** The conversions of [fprintf] *)

Definition hex_digit (d : Z) : ascii :=
  nth (Z.to_nat d) (str "0123456789abcdef") "0"%char.

(** The last [n] digits. *)
Fixpoint hex (n : nat) (v : Z) : text :=
  match n with O => [] | S n' => hex n' (v / 16) ++ [hex_digit (v mod 16)] end.

Fixpoint strip_zeros (t : text) : text :=
  match t with
  | c :: (_ :: _) as t' => if Ascii.eqb c "0" then strip_zeros t' else t
  | _ => t
  end.

(** [%016lx], [%lx] and [%x] *)
Definition fmt_016lx (v : Z) : text := hex 16 (u64 v).
Definition fmt_lx (v : Z) : text := strip_zeros (hex 16 (u64 v)).
Definition fmt_x (v : Z) : text := strip_zeros (hex 8 (u32 v)).

(** ** The registers *)

(** [prnt_large]: the 64-bit words of the bytes of an integer, the low one first. *)
Definition iter (integer : list Z) (i : nat) : Z := le_combine (take 8 (drop (8 * i) integer)).

Definition prnt_large (integer : list Z) (count : nat) : text :=
  str "{" ++
  concat ((fun i => (if Nat.eqb i 0 then [] else str ", ") ++ fmt_016lx (iter integer i))
            <$> seq 0 count) ++
  str "}".

Definition prnt_uint128 (v : Z) : text := prnt_large (le_split 16 v) 2.
Definition prnt_uint256 (v : Z) : text := prnt_large (le_split 32 v) 4.

Definition xmm_label (i : nat) : text :=
  match i with
  | 0 => str "$xmm0" | 1 => str "$xmm1" | 2 => str "$xmm2" | 3 => str "$xmm3"
  | 4 => str "$xmm4" | 5 => str "$xmm5" | 6 => str "$xmm6" | 7 => str "$xmm7"
  | 8 => str "$xmm8" | 9 => str "$xmm9" | 10 => str "$xmm10" | 11 => str "$xmm11"
  | 12 => str "$xmm12" | 13 => str "$xmm13" | 14 => str "$xmm14" | _ => str "$xmm15"
  end%nat.

Definition ymm_label (i : nat) : text :=
  match i with
  | 0 => str "$ymm0" | 1 => str "$ymm1" | 2 => str "$ymm2" | 3 => str "$ymm3"
  | 4 => str "$ymm4" | 5 => str "$ymm5" | 6 => str "$ymm6" | 7 => str "$ymm7"
  | 8 => str "$ymm8" | 9 => str "$ymm9" | 10 => str "$ymm10" | 11 => str "$ymm11"
  | 12 => str "$ymm12" | 13 => str "$ymm13" | 14 => str "$ymm14" | _ => str "$ymm15"
  end%nat.

(** [log_sse] of the array of the registers: no newline before the first one, no space after
    the label of the last one. *)
Definition log_sse (sse : list Z) : text :=
  concat (imap (fun i v =>
    (if Nat.eqb i 0 then [] else newline) ++ xmm_label i ++ tab ++
    (if Nat.eqb i 15 then [] else str " ") ++ prnt_uint128 v) sse).

Definition log_avx2 (avx2 : list Z) : text :=
  concat (imap (fun i v => newline ++ ymm_label i ++ tab ++ str " " ++ prnt_uint256 v) avx2) ++
  newline.

Definition general_rows : list (text * field) :=
  [(str "$rax", F_rax); (str "$rbx", F_rbx); (str "$rcx", F_rcx); (str "$rdx", F_rdx);
   (str "$rsi", F_rsi); (str "$rdi", F_rdi); (str "$rbp", F_rbp); (str "$rsp", F_rsp);
   (str "$rip", F_rip); (str "$r8 ", F_r8); (str "$r9 ", F_r9); (str "$r10", F_r10);
   (str "$r11", F_r11); (str "$r12", F_r12); (str "$r13", F_r13); (str "$r14", F_r14);
   (str "$r15", F_r15); (str "$rflags", F_rflags)].

Definition log_general (s : state_rtime) : text :=
  concat ((fun '(label, f) =>
    label ++ tab ++ str " {" ++ fmt_016lx (field_get s f) ++ str "}" ++ newline) <$> general_rows).

(** What [log_regs] writes: on its stream, then on the stream [debug_stream] of the object,
    whatever its stream is. *)
Definition log_regs_text (s : state_rtime) : text * text :=
  (log_general s,
   match sse s, avx2 s with
   | Some xs, _ => log_sse xs
   | None, Some ys => log_avx2 ys
   | None, None => []
   end).
