(* ===== verification/Syscalls.v ===== *)
(** * System call emulation (src/syscall_hook.c)

    One definition per hook, the dispatch [get_syscall_hook] and what the emulation
    guarantees: which calls are forwarded to the kernel unchanged, with which bases of [fs]
    and [gs], and what the guest sees as their result.  The log lines are modelled where
    they can fault: a [%s] conversion reads the guest string. *)

From S2P Require Import Prelude.
From S2P Require Import Pages.
From S2P Require Import Regs.
From S2P Require Import Process.

Definition LOG_SYSCALL : Z := 0x1.
Definition LOG_INSN : Z := 0x10.
Definition LOG_JMP : Z := 0x100.
Definition LOG_MAP : Z := 0x1000.
Definition DEBUG : Z := Z.lor LOG_MAP LOG_SYSCALL.

(** The numbers of the x86-64 system call table. *)
Definition __NR_read : Z := 0.
Definition __NR_write : Z := 1.
Definition __NR_close : Z := 3.
Definition __NR_stat : Z := 4.
Definition __NR_fstat : Z := 5.
Definition __NR_lstat : Z := 6.
Definition __NR_poll : Z := 7.
Definition __NR_lseek : Z := 8.
Definition __NR_mmap : Z := 9.
Definition __NR_mprotect : Z := 10.
Definition __NR_munmap : Z := 11.
Definition __NR_brk : Z := 12.
Definition __NR_rt_sigaction : Z := 13.
Definition __NR_rt_sigprocmask : Z := 14.
Definition __NR_ioctl : Z := 16.
Definition __NR_pread64 : Z := 17.
Definition __NR_readv : Z := 19.
Definition __NR_writev : Z := 20.
Definition __NR_access : Z := 21.
Definition __NR_shmat : Z := 30.
Definition __NR_setitimer : Z := 38.
Definition __NR_getpid : Z := 39.
Definition __NR_socket : Z := 41.
Definition __NR_connect : Z := 42.
Definition __NR_shutdown : Z := 48.
Definition __NR_bind : Z := 49.
Definition __NR_listen : Z := 50.
Definition __NR_setsockopt : Z := 54.
Definition __NR_clone : Z := 56.
Definition __NR_fork : Z := 57.
Definition __NR_vfork : Z := 58.
Definition __NR_execve : Z := 59.
Definition __NR_exit : Z := 60.
Definition __NR_wait4 : Z := 61.
Definition __NR_uname : Z := 63.
Definition __NR_msgsnd : Z := 69.
Definition __NR_fcntl : Z := 72.
Definition __NR_getcwd : Z := 79.
Definition __NR_chdir : Z := 80.
Definition __NR_mkdir : Z := 83.
Definition __NR_readlink : Z := 89.
Definition __NR_umask : Z := 95.
Definition __NR_gettimeofday : Z := 96.
Definition __NR_getuid : Z := 102.
Definition __NR_getgid : Z := 104.
Definition __NR_geteuid : Z := 107.
Definition __NR_getegid : Z := 108.
Definition __NR_setpgid : Z := 109.
Definition __NR_getppid : Z := 110.
Definition __NR_getpgrp : Z := 111.
Definition __NR_sigaltstack : Z := 131.
Definition __NR_statfs : Z := 137.
Definition __NR_gettid : Z := 186.
Definition __NR_lgetxattr : Z := 192.
Definition __NR_time : Z := 201.
Definition __NR_futex : Z := 202.
Definition __NR_io_submit : Z := 209.
Definition __NR_getdents64 : Z := 217.
Definition __NR_set_tid_address : Z := 218.
Definition __NR_fadvise64 : Z := 221.
Definition __NR_clock_gettime : Z := 228.
Definition __NR_clock_getres : Z := 229.
Definition __NR_exit_group : Z := 231.
Definition __NR_tgkill : Z := 234.
Definition __NR_openat : Z := 257.
Definition __NR_newfstatat : Z := 262.
Definition __NR_set_robust_list : Z := 273.
Definition __NR_accept4 : Z := 288.
Definition __NR_eventfd2 : Z := 290.
Definition __NR_epoll_create1 : Z := 291.
Definition __NR_pipe2 : Z := 293.
Definition __NR_fanotify_mark : Z := 301.
Definition __NR_prlimit64 : Z := 302.
Definition __NR_seccomp : Z := 317.
Definition __NR_statx : Z := 332.

Definition ARCH_CET_STATUS : Z := 0x3001.
Definition STDOUT_FILENO : Z := 1.

Section Hooks.
Context `{Kernel}.

(** A [%s] conversion: the string is read up to its terminator.  The C library prints
    ["(null)"] for a null pointer.  The fuel covers every mapped byte. *)
Fixpoint cstr_readable (m : aspace) (a : Z) (n : nat) : bool :=
  match n with
  | O => false
  | S n' => match load8 m (u64 a) with
            | None => false
            | Some b => if b =? 0 then true else cstr_readable m (a + 1) n'
            end
  end.

Definition log_cstr (ptr : Z) : M unit :=
  m ← get mem;
  if (ptr =? 0) || cstr_readable m ptr (S (Z.to_nat PAGE_SZ * size (prots m)))
  then mret () else crash.

(** [if (DEBUG & LOG_SYSCALL) fprintf(...)] with the given [%s] arguments. *)
Fixpoint log_strings (ptrs : list Z) : M unit :=
  match ptrs with [] => mret () | p :: rest => log_cstr p;; log_strings rest end.

Definition log_syscall (ptrs : list Z) : M unit :=
  if truth (Z.land DEBUG LOG_SYSCALL) then log_strings ptrs else mret ().

(** The macro [do_syscall]. *)
Definition do_syscall (nr : Z) (args : list vararg) : M unit :=
  r ← set_guest_fs_gs;
  (if r =? -1 then fatal_dump else mret ());;
  res ← syscall nr args;
  modify (fun p => with_state p (fun s => s <| rax := u64 res |>));;
  r ← set_host_fs_gs;
  (if r =? -1 then fatal_dump else mret ()).

Definition hook_brk : M Z :=
  s ← get gstate;
  _brk_base ← get (fun p => vbrk (dbi p));
  (if rdi s =? 0 then
     modify (fun p => with_state p (fun s => s <| rax := _brk_base |>))
   else
     assert_c (_brk_base <? rdi s);;
     let _brk_size := u32 (rdi s - _brk_base) in
     new_base ←
       (if PAGE_SZ <? _brk_size + PAGE_OFFT _brk_base then
          m ← get mem;
          match mmap_anon_fixed m (PAGE_ALIGN _brk_base) (u32 (PAGE_ROUND _brk_size + 1))
                  (Z.lor PROT_READ PROT_WRITE) with
          | None => fatal_dump
          | Some m' => modify (fun p => p <| mem := m' |>);; mret (rdi s)
          end
        else mret _brk_base);
     modify (fun p => with_state p (fun s => s <| rax := new_base |>));;
     modify (fun p => with_dbi p (fun d => d <| vbrk := new_base |>)));;
  mret 0.

Definition hook_arch_prctl : M Z :=
  s ← get gstate;
  let code := s32 (rdi s) in
  let addr := rsi s in
  (if code =? ARCH_SET_FS then
     modify (fun p => with_dbi p (fun d => d <| instrumented_fs := addr |>));;
     modify (fun p => p <| must_change := true |>)
   else if code =? ARCH_SET_GS then
     modify (fun p => with_dbi p (fun d => d <| instrumented_gs := addr |>))
   else mret ());;
  try_ret ← syscall __NR_arch_prctl [VInt code; VLong addr];
  (if code =? ARCH_SET_FS then
     r ← set_host_fs_gs;
     if r =? -1 then exit_process (-1) else mret ()
   else mret ());;
  modify (fun p => with_state p (fun s => s <| rax := u64 try_ret |>));;
  mret 0.

Definition hook_access : M Z :=
  s ← get gstate;
  let filename := rdi s in
  let mode := s32 (rsi s) in
  do_syscall __NR_access [VLong filename; VInt mode];;
  log_syscall [filename];;
  mret 0.

Definition hook_mmap : M Z :=
  s ← get gstate;
  let addr := rdi s in
  let length := rsi s in
  let prot := s32 (rdx s) in
  let flags := s32 (rcx s) in
  let fd := s32 (r8 s) in
  let offt := s32 (r9 s) in
  do_syscall __NR_mmap [VLong addr; VLong length; VInt prot; VInt flags; VInt fd; VInt offt];;
  log_syscall [];;
  s' ← get gstate;
  (if rax s' =? minus1 then fatal_dump else mret ());;
  mret 0.

Definition hook_exit : M Z :=
  log_syscall [];;
  (default_dtor : M unit);;
  mret 0.

Definition hook_exit_grp : M Z :=
  log_syscall [];;
  (default_dtor : M unit);;
  mret 0.

Definition hook_close : M Z :=
  s ← get gstate;
  (if rdi s =? STDOUT_FILENO then
     modify (fun p => with_state p (fun s => s <| rax := 0 |>))
   else do_syscall __NR_close [VLong (rdi s)]);;
  log_syscall [];;
  mret 0.

Definition hook_writev : M Z :=
  s ← get gstate;
  do_syscall __NR_writev [VLong (rdi s); VLong (rsi s); VLong (rdx s)];;
  log_syscall [];;
  mret 0.

Definition hook_openat : M Z :=
  s ← get gstate;
  do_syscall __NR_openat [VLong (rdi s); VLong (rsi s); VLong (rdx s); VLong (r10 s)];;
  log_syscall [rsi s];;
  mret 0.

Definition hook_fstat : M Z :=
  s ← get gstate;
  do_syscall __NR_fstat [VLong (rdi s); VLong (rsi s)];;
  log_syscall [];;
  mret 0.

Definition hook_read : M Z :=
  s ← get gstate;
  do_syscall __NR_read [VLong (rdi s); VLong (rsi s); VLong (rdx s)];;
  log_syscall [];;
  mret 0.

Definition hook_mprotect : M Z :=
  s ← get gstate;
  do_syscall __NR_mprotect [VLong (rdi s); VLong (rsi s); VLong (rdx s)];;
  log_syscall [];;
  mret 0.

Definition hook_pread64 : M Z :=
  s ← get gstate;
  do_syscall __NR_pread64 [VLong (rdi s); VLong (rsi s); VLong (rdx s); VLong (r10 s)];;
  log_syscall [];;
  mret 0.

Definition hook_munmap : M Z :=
  s ← get gstate;
  do_syscall __NR_munmap [VLong (rdi s); VLong (rsi s)];;
  log_syscall [];;
  mret 0.

Definition hook_set_tid_address : M Z :=
  s ← get gstate;
  do_syscall __NR_set_tid_address [VLong (rdi s)];;
  log_syscall [];;
  mret 0.

Definition hook_set_robust_list : M Z :=
  s ← get gstate;
  do_syscall __NR_set_robust_list [VLong (rdi s); VLong (rsi s)];;
  log_syscall [];;
  mret 0.

Definition hook_rt_sigaction : M Z :=
  s ← get gstate;
  do_syscall __NR_rt_sigaction [VLong (rdi s); VLong (rsi s); VLong (rdx s); VLong (r10 s)];;
  log_syscall [];;
  mret 0.

Definition hook_rt_sigprocmask : M Z :=
  s ← get gstate;
  do_syscall __NR_rt_sigprocmask [VLong (rdi s); VLong (rsi s); VLong (rdx s); VLong (r10 s)];;
  log_syscall [];;
  mret 0.

Definition hook_prlimit64 : M Z :=
  s ← get gstate;
  do_syscall __NR_prlimit64 [VLong (rdi s); VLong (rsi s); VLong (rdx s); VLong (r10 s)];;
  log_syscall [];;
  mret 0.

Definition hook_statfs : M Z :=
  s ← get gstate;
  do_syscall __NR_statfs [VLong (rdi s); VLong (rsi s)];;
  log_syscall [rdi s];;
  mret 0.

Definition hook_stat : M Z :=
  s ← get gstate;
  do_syscall __NR_stat [VLong (rdi s); VLong (rsi s)];;
  log_syscall [rdi s];;
  mret 0.

Definition hook_getuid : M Z :=
  s ← get gstate;
  do_syscall __NR_getuid [VLong (rdi s)];;
  log_syscall [];;
  mret 0.

Definition hook_geteuid : M Z :=
  s ← get gstate;
  do_syscall __NR_geteuid [VLong (rdi s)];;
  log_syscall [];;
  mret 0.

Definition hook_getegid : M Z :=
  s ← get gstate;
  do_syscall __NR_getegid [VLong (rdi s)];;
  log_syscall [];;
  mret 0.

Definition hook_getgid : M Z :=
  s ← get gstate;
  do_syscall __NR_getgid [VLong (rdi s)];;
  log_syscall [];;
  mret 0.

Definition hook_futex : M Z :=
  s ← get gstate;
  do_syscall __NR_futex [VLong (rdi s); VLong (rsi s); VLong (rdx s)];;
  log_syscall [];;
  mret 0.

Definition hook_getpid : M Z :=
  s ← get gstate;
  do_syscall __NR_getpid [];;
  log_syscall [];;
  mret 0.

Definition hook_gettid : M Z :=
  s ← get gstate;
  do_syscall __NR_gettid [];;
  log_syscall [];;
  mret 0.

Definition hook_tgkill : M Z :=
  s ← get gstate;
  do_syscall __NR_tgkill [VLong (rdi s); VLong (rsi s); VLong (rdx s)];;
  log_syscall [];;
  mret 0.

Definition hook_socket : M Z :=
  s ← get gstate;
  do_syscall __NR_socket [VLong (rdi s); VLong (rsi s); VLong (rdx s)];;
  log_syscall [];;
  mret 0.

Definition hook_connect : M Z :=
  s ← get gstate;
  do_syscall __NR_connect [VLong (rdi s); VLong (rsi s); VLong (rdx s)];;
  log_syscall [];;
  mret 0.

Definition hook_write : M Z :=
  s ← get gstate;
  do_syscall __NR_write [VLong (rdi s); VLong (rsi s); VLong (rdx s)];;
  log_syscall [];;
  mret 0.

Definition hook_sigaltstack : M Z :=
  s ← get gstate;
  do_syscall __NR_sigaltstack [VLong (rdi s); VLong (rsi s)];;
  log_syscall [];;
  mret 0.

Definition hook_newfstatat : M Z :=
  s ← get gstate;
  do_syscall __NR_newfstatat [VLong (rdi s); VLong (rsi s); VLong (rdx s); VLong (r10 s); VLong (r8 s)];;
  log_syscall [rsi s];;
  mret 0.

Definition hook_getppid : M Z :=
  s ← get gstate;
  do_syscall __NR_getppid [];;
  log_syscall [];;
  mret 0.

Definition hook_ioctl : M Z :=
  s ← get gstate;
  do_syscall __NR_ioctl [VLong (rdi s); VLong (rsi s); VLong (rdx s)];;
  log_syscall [];;
  mret 0.

Definition hook_execve : M Z :=
  s ← get gstate;
  do_syscall __NR_execve [VLong (rdi s); VLong (rsi s); VLong (rdx s)];;
  log_syscall [rdi s];;
  mret 0.

Definition hook_vfork : M Z :=
  s ← get gstate;
  do_syscall __NR_fork [];;
  log_syscall [];;
  mret 0.

Definition hook_uname : M Z :=
  s ← get gstate;
  do_syscall __NR_uname [VLong (rdi s)];;
  log_syscall [];;
  mret 0.

Definition hook_fcntl : M Z :=
  s ← get gstate;
  do_syscall __NR_fcntl [VLong (rdi s); VLong (rsi s); VLong (rdx s)];;
  log_syscall [];;
  mret 0.

Definition hook_getpgrp : M Z :=
  s ← get gstate;
  do_syscall __NR_getpgrp [];;
  log_syscall [];;
  mret 0.

Definition hook_setpgid : M Z :=
  s ← get gstate;
  do_syscall __NR_setpgid [VLong (rdi s); VLong (rsi s)];;
  log_syscall [];;
  mret 0.

Definition hook_getdents64 : M Z :=
  s ← get gstate;
  do_syscall __NR_getdents64 [VLong (rdi s); VLong (rsi s); VLong (rdx s)];;
  log_syscall [];;
  mret 0.

Definition hook_statx : M Z :=
  s ← get gstate;
  do_syscall __NR_statx [VLong (rdi s); VLong (rsi s); VLong (rdx s); VLong (r10 s); VLong (r8 s)];;
  log_syscall [];;
  mret 0.

Definition hook_lgetxattr : M Z :=
  s ← get gstate;
  do_syscall __NR_lgetxattr [VLong (rdi s); VLong (rsi s); VLong (rdx s); VLong (r10 s)];;
  log_syscall [rdi s; rsi s];;
  mret 0.

Definition hook_fadvise64 : M Z :=
  s ← get gstate;
  do_syscall __NR_fadvise64 [VLong (rdi s); VLong (rsi s)];;
  log_syscall [];;
  mret 0.

Definition hook_readlink : M Z :=
  s ← get gstate;
  do_syscall __NR_readlink [VLong (rdi s); VLong (rsi s); VLong (rdx s)];;
  log_syscall [];;
  mret 0.

Definition hook_setitimer : M Z :=
  s ← get gstate;
  do_syscall __NR_setitimer [VLong (rdi s); VLong (rsi s); VLong (rdx s)];;
  log_syscall [];;
  mret 0.

Definition hook_readv : M Z :=
  s ← get gstate;
  do_syscall __NR_readv [VLong (rdi s); VLong (rsi s); VLong (rdx s)];;
  log_syscall [];;
  mret 0.

Definition hook_lseek : M Z :=
  s ← get gstate;
  do_syscall __NR_lseek [VLong (rdi s); VLong (rsi s); VLong (rdx s)];;
  log_syscall [];;
  mret 0.

Definition hook_gettimeofday : M Z :=
  s ← get gstate;
  do_syscall __NR_gettimeofday [VLong (rdi s); VLong (rsi s)];;
  log_syscall [];;
  mret 0.

Definition hook_clone : M Z :=
  s ← get gstate;
  do_syscall __NR_clone [VLong (rdi s); VLong (rsi s); VLong (rdx s); VLong (r10 s)];;
  log_syscall [];;
  mret 0.

Definition hook_wait4 : M Z :=
  s ← get gstate;
  do_syscall __NR_wait4 [VLong (rdi s); VLong (rsi s); VLong (rdx s); VLong (r10 s)];;
  log_syscall [];;
  mret 0.

Definition hook_lstat : M Z :=
  s ← get gstate;
  do_syscall __NR_lstat [VLong (rdi s); VLong (rsi s)];;
  log_syscall [rdi s];;
  mret 0.

Definition hook_fanotify_mark : M Z :=
  s ← get gstate;
  do_syscall __NR_fanotify_mark [VLong (rdi s); VLong (rsi s)];;
  log_syscall [];;
  mret 0.

Definition hook_msgsnd : M Z :=
  s ← get gstate;
  do_syscall __NR_msgsnd [VLong (rdi s); VLong (rsi s); VLong (rdx s); VLong (r10 s)];;
  log_syscall [];;
  mret 0.

Definition hook_seccomp : M Z :=
  s ← get gstate;
  do_syscall __NR_seccomp [VLong (rdi s); VLong (rsi s); VLong (rdx s)];;
  log_syscall [];;
  mret 0.

Definition hook_io_submit : M Z :=
  s ← get gstate;
  do_syscall __NR_io_submit [VLong (rdi s); VLong (rsi s); VLong (rdx s)];;
  log_syscall [];;
  mret 0.

Definition hook_time : M Z :=
  s ← get gstate;
  do_syscall __NR_time [VLong (rdi s)];;
  log_syscall [];;
  mret 0.

Definition hook_clock_getres : M Z :=
  s ← get gstate;
  do_syscall __NR_clock_getres [VLong (rdi s); VLong (rsi s)];;
  log_syscall [];;
  mret 0.

Definition hook_clock_gettime : M Z :=
  s ← get gstate;
  do_syscall __NR_clock_gettime [VLong (rdi s); VLong (rsi s)];;
  log_syscall [];;
  mret 0.

Definition hook_epoll_create1 : M Z :=
  s ← get gstate;
  do_syscall __NR_epoll_create1 [VLong (rdi s)];;
  log_syscall [];;
  mret 0.

Definition hook_eventfd2 : M Z :=
  s ← get gstate;
  do_syscall __NR_eventfd2 [VLong (rdi s); VLong (rsi s)];;
  log_syscall [];;
  mret 0.

Definition hook_pipe2 : M Z :=
  s ← get gstate;
  do_syscall __NR_pipe2 [VLong (rdi s); VLong (rsi s)];;
  log_syscall [];;
  mret 0.

Definition hook_getcwd : M Z :=
  s ← get gstate;
  do_syscall __NR_getcwd [VLong (rdi s); VLong (rsi s)];;
  log_syscall [];;
  mret 0.

Definition hook_chdir : M Z :=
  s ← get gstate;
  do_syscall __NR_chdir [VLong (rdi s)];;
  log_syscall [];;
  mret 0.

Definition hook_umask : M Z :=
  s ← get gstate;
  do_syscall __NR_umask [VLong (rdi s)];;
  log_syscall [];;
  mret 0.

Definition hook_mkdir : M Z :=
  s ← get gstate;
  do_syscall __NR_mkdir [VLong (rdi s); VLong (rsi s)];;
  log_syscall [];;
  mret 0.

Definition hook_bind : M Z :=
  s ← get gstate;
  do_syscall __NR_bind [VLong (rdi s); VLong (rsi s); VLong (rdx s)];;
  log_syscall [];;
  mret 0.

Definition hook_listen : M Z :=
  s ← get gstate;
  do_syscall __NR_listen [VLong (rdi s); VLong (rsi s)];;
  log_syscall [];;
  mret 0.

Definition hook_setsockopt : M Z :=
  s ← get gstate;
  do_syscall __NR_setsockopt [VLong (rdi s); VLong (rsi s); VLong (rdx s); VLong (r10 s); VLong (r8 s)];;
  log_syscall [];;
  mret 0.

Definition hook_accept4 : M Z :=
  s ← get gstate;
  do_syscall __NR_accept4 [VLong (rdi s); VLong (rsi s); VLong (rdx s); VLong (r10 s)];;
  log_syscall [];;
  mret 0.

Definition hook_poll : M Z :=
  s ← get gstate;
  do_syscall __NR_poll [VLong (rdi s); VLong (rsi s); VLong (rdx s)];;
  log_syscall [];;
  mret 0.

Definition hook_shmat : M Z :=
  s ← get gstate;
  do_syscall __NR_shmat [VLong (rdi s); VLong (rsi s); VLong (rdx s)];;
  log_syscall [];;
  mret 0.

Definition hook_shutdown : M Z :=
  s ← get gstate;
  do_syscall __NR_shutdown [VLong (rdi s); VLong (rsi s)];;
  log_syscall [];;
  mret 0.

(** The [switch] of [get_syscall_hook], up to its remaining cases. *)
Definition hook_cases_1 : list (Z * M Z) :=
  [
   (__NR_brk, hook_brk);
   (__NR_arch_prctl, hook_arch_prctl);
   (__NR_access, hook_access);
   (__NR_mmap, hook_mmap);
   (__NR_writev, hook_writev);
   (__NR_exit, hook_exit);
   (__NR_exit_group, hook_exit_grp);
   (__NR_openat, hook_openat);
   (__NR_fstat, hook_fstat);
   (__NR_close, hook_close);
   (__NR_read, hook_read);
   (__NR_mprotect, hook_mprotect);
   (__NR_pread64, hook_pread64);
   (__NR_munmap, hook_munmap);
   (__NR_set_tid_address, hook_set_tid_address);
   (__NR_set_robust_list, hook_set_robust_list);
   (__NR_rt_sigaction, hook_rt_sigaction);
   (__NR_rt_sigprocmask, hook_rt_sigprocmask);
   (__NR_prlimit64, hook_prlimit64);
   (__NR_statfs, hook_statfs);
   (__NR_stat, hook_stat);
   (__NR_getuid, hook_getuid);
   (__NR_geteuid, hook_geteuid);
   (__NR_getegid, hook_getegid);
   (__NR_getgid, hook_getgid);
   (__NR_futex, hook_futex);
   (__NR_getpid, hook_getpid);
   (__NR_gettid, hook_gettid);
   (__NR_tgkill, hook_tgkill);
   (__NR_socket, hook_socket);
   (__NR_connect, hook_connect);
   (__NR_write, hook_write);
   (__NR_sigaltstack, hook_sigaltstack);
   (__NR_newfstatat, hook_newfstatat);
   (__NR_getppid, hook_getpid);
   (__NR_ioctl, hook_ioctl);
   (__NR_execve, hook_execve);
   (__NR_vfork, hook_vfork);
   (__NR_uname, hook_uname);
   (__NR_fcntl, hook_fcntl);
   (__NR_getpgrp, hook_getpgrp);
   (__NR_setpgid, hook_setpgid);
   (__NR_getdents64, hook_getdents64);
   (__NR_statx, hook_statx);
   (__NR_lgetxattr, hook_lgetxattr);
   (__NR_fadvise64, hook_fadvise64)
  ].

Definition hook_cases_2 : list (Z * M Z) :=
  [
   (__NR_readlink, hook_readlink);
   (__NR_setitimer, hook_setitimer);
   (__NR_readv, hook_readv);
   (__NR_lseek, hook_lseek);
   (__NR_gettimeofday, hook_gettimeofday);
   (__NR_clone, hook_clone);
   (__NR_wait4, hook_wait4);
   (__NR_lstat, hook_lstat);
   (__NR_fanotify_mark, hook_fanotify_mark);
   (__NR_msgsnd, hook_msgsnd);
   (__NR_seccomp, hook_seccomp);
   (__NR_io_submit, hook_io_submit);
   (__NR_time, hook_time);
   (__NR_clock_getres, hook_clock_getres);
   (__NR_clock_gettime, hook_clock_gettime);
   (__NR_epoll_create1, hook_epoll_create1);
   (__NR_eventfd2, hook_eventfd2);
   (__NR_pipe2, hook_pipe2);
   (__NR_getcwd, hook_getcwd);
   (__NR_chdir, hook_chdir);
   (__NR_umask, hook_umask);
   (__NR_mkdir, hook_mkdir);
   (__NR_bind, hook_bind);
   (__NR_listen, hook_listen);
   (__NR_setsockopt, hook_setsockopt);
   (__NR_accept4, hook_accept4);
   (__NR_poll, hook_poll);
   (__NR_shmat, hook_shmat);
   (__NR_shutdown, hook_shutdown)
  ].

Fixpoint switch {A} (syscall_number : Z) (cases : list (Z * A)) : option A :=
  match cases with
  | [] => None
  | (n, h) :: rest => if syscall_number =? n then Some h else switch syscall_number rest
  end.

(** [None] is [(hook_syscall)-1], the default case. *)
Definition get_syscall_hook (syscall_number : Z) : option (M Z) :=
  switch syscall_number (hook_cases_1 ++ hook_cases_2).
End Hooks.
