(* ===== verification/SyscallsSpec.v ===== *)
(** * Properties of the system call emulation *)

From S2P Require Import Prelude.
From S2P Require Import Pages.
From S2P Require Import Regs.
From S2P Require Import Process.
From S2P Require Import Syscalls.

(** ** The specification of a forwarded call *)

(** Where an argument comes from: a register passed as a 64-bit value or converted to
    [int] first. *)
Inductive argspec := AL (f : field) | AI (f : field).

Definition arg_field (a : argspec) : field := match a with AL f => f | AI f => f end.

Definition arg_of (s : state_rtime) (a : argspec) : vararg :=
  match a with AL f => VLong (field_get s f) | AI f => VInt (s32 (field_get s f)) end.

(** A row of the forwarding table: the number the guest asks for, the number issued, the
    arguments and the registers printed as strings. *)
Record frow := mk_row {
  fr_guest : Z; fr_nr : Z; fr_args : list argspec; fr_strs : list field
}.

Definition forward_rows : list frow := [
  mk_row __NR_access __NR_access [AL F_rdi; AI F_rsi] [F_rdi];
  mk_row __NR_writev __NR_writev [AL F_rdi; AL F_rsi; AL F_rdx] [];
  mk_row __NR_openat __NR_openat [AL F_rdi; AL F_rsi; AL F_rdx; AL F_r10] [F_rsi];
  mk_row __NR_fstat __NR_fstat [AL F_rdi; AL F_rsi] [];
  mk_row __NR_read __NR_read [AL F_rdi; AL F_rsi; AL F_rdx] [];
  mk_row __NR_mprotect __NR_mprotect [AL F_rdi; AL F_rsi; AL F_rdx] [];
  mk_row __NR_pread64 __NR_pread64 [AL F_rdi; AL F_rsi; AL F_rdx; AL F_r10] [];
  mk_row __NR_munmap __NR_munmap [AL F_rdi; AL F_rsi] [];
  mk_row __NR_set_tid_address __NR_set_tid_address [AL F_rdi] [];
  mk_row __NR_set_robust_list __NR_set_robust_list [AL F_rdi; AL F_rsi] [];
  mk_row __NR_rt_sigaction __NR_rt_sigaction [AL F_rdi; AL F_rsi; AL F_rdx; AL F_r10] [];
  mk_row __NR_rt_sigprocmask __NR_rt_sigprocmask [AL F_rdi; AL F_rsi; AL F_rdx; AL F_r10] [];
  mk_row __NR_prlimit64 __NR_prlimit64 [AL F_rdi; AL F_rsi; AL F_rdx; AL F_r10] [];
  mk_row __NR_statfs __NR_statfs [AL F_rdi; AL F_rsi] [F_rdi];
  mk_row __NR_stat __NR_stat [AL F_rdi; AL F_rsi] [F_rdi];
  mk_row __NR_getuid __NR_getuid [AL F_rdi] [];
  mk_row __NR_geteuid __NR_geteuid [AL F_rdi] [];
  mk_row __NR_getegid __NR_getegid [AL F_rdi] [];
  mk_row __NR_getgid __NR_getgid [AL F_rdi] [];
  mk_row __NR_futex __NR_futex [AL F_rdi; AL F_rsi; AL F_rdx] [];
  mk_row __NR_getpid __NR_getpid [] [];
  mk_row __NR_gettid __NR_gettid [] [];
  mk_row __NR_tgkill __NR_tgkill [AL F_rdi; AL F_rsi; AL F_rdx] [];
  mk_row __NR_socket __NR_socket [AL F_rdi; AL F_rsi; AL F_rdx] [];
  mk_row __NR_connect __NR_connect [AL F_rdi; AL F_rsi; AL F_rdx] [];
  mk_row __NR_write __NR_write [AL F_rdi; AL F_rsi; AL F_rdx] [];
  mk_row __NR_sigaltstack __NR_sigaltstack [AL F_rdi; AL F_rsi] [];
  mk_row __NR_newfstatat __NR_newfstatat [AL F_rdi; AL F_rsi; AL F_rdx; AL F_r10; AL F_r8] [F_rsi];
  mk_row __NR_getppid __NR_getpid [] [];
  mk_row __NR_ioctl __NR_ioctl [AL F_rdi; AL F_rsi; AL F_rdx] [];
  mk_row __NR_execve __NR_execve [AL F_rdi; AL F_rsi; AL F_rdx] [F_rdi];
  mk_row __NR_vfork __NR_fork [] [];
  mk_row __NR_uname __NR_uname [AL F_rdi] [];
  mk_row __NR_fcntl __NR_fcntl [AL F_rdi; AL F_rsi; AL F_rdx] [];
  mk_row __NR_getpgrp __NR_getpgrp [] [];
  mk_row __NR_setpgid __NR_setpgid [AL F_rdi; AL F_rsi] [];
  mk_row __NR_getdents64 __NR_getdents64 [AL F_rdi; AL F_rsi; AL F_rdx] [];
  mk_row __NR_statx __NR_statx [AL F_rdi; AL F_rsi; AL F_rdx; AL F_r10; AL F_r8] [];
  mk_row __NR_lgetxattr __NR_lgetxattr [AL F_rdi; AL F_rsi; AL F_rdx; AL F_r10] [F_rdi; F_rsi];
  mk_row __NR_fadvise64 __NR_fadvise64 [AL F_rdi; AL F_rsi] [];
  mk_row __NR_readlink __NR_readlink [AL F_rdi; AL F_rsi; AL F_rdx] [];
  mk_row __NR_setitimer __NR_setitimer [AL F_rdi; AL F_rsi; AL F_rdx] [];
  mk_row __NR_readv __NR_readv [AL F_rdi; AL F_rsi; AL F_rdx] [];
  mk_row __NR_lseek __NR_lseek [AL F_rdi; AL F_rsi; AL F_rdx] [];
  mk_row __NR_gettimeofday __NR_gettimeofday [AL F_rdi; AL F_rsi] [];
  mk_row __NR_clone __NR_clone [AL F_rdi; AL F_rsi; AL F_rdx; AL F_r10] [];
  mk_row __NR_wait4 __NR_wait4 [AL F_rdi; AL F_rsi; AL F_rdx; AL F_r10] [];
  mk_row __NR_lstat __NR_lstat [AL F_rdi; AL F_rsi] [F_rdi];
  mk_row __NR_fanotify_mark __NR_fanotify_mark [AL F_rdi; AL F_rsi] [];
  mk_row __NR_msgsnd __NR_msgsnd [AL F_rdi; AL F_rsi; AL F_rdx; AL F_r10] [];
  mk_row __NR_seccomp __NR_seccomp [AL F_rdi; AL F_rsi; AL F_rdx] [];
  mk_row __NR_io_submit __NR_io_submit [AL F_rdi; AL F_rsi; AL F_rdx] [];
  mk_row __NR_time __NR_time [AL F_rdi] [];
  mk_row __NR_clock_getres __NR_clock_getres [AL F_rdi; AL F_rsi] [];
  mk_row __NR_clock_gettime __NR_clock_gettime [AL F_rdi; AL F_rsi] [];
  mk_row __NR_epoll_create1 __NR_epoll_create1 [AL F_rdi] [];
  mk_row __NR_eventfd2 __NR_eventfd2 [AL F_rdi; AL F_rsi] [];
  mk_row __NR_pipe2 __NR_pipe2 [AL F_rdi; AL F_rsi] [];
  mk_row __NR_getcwd __NR_getcwd [AL F_rdi; AL F_rsi] [];
  mk_row __NR_chdir __NR_chdir [AL F_rdi] [];
  mk_row __NR_umask __NR_umask [AL F_rdi] [];
  mk_row __NR_mkdir __NR_mkdir [AL F_rdi; AL F_rsi] [];
  mk_row __NR_bind __NR_bind [AL F_rdi; AL F_rsi; AL F_rdx] [];
  mk_row __NR_listen __NR_listen [AL F_rdi; AL F_rsi] [];
  mk_row __NR_setsockopt __NR_setsockopt [AL F_rdi; AL F_rsi; AL F_rdx; AL F_r10; AL F_r8] [];
  mk_row __NR_accept4 __NR_accept4 [AL F_rdi; AL F_rsi; AL F_rdx; AL F_r10] [];
  mk_row __NR_poll __NR_poll [AL F_rdi; AL F_rsi; AL F_rdx] [];
  mk_row __NR_shmat __NR_shmat [AL F_rdi; AL F_rsi; AL F_rdx] [];
  mk_row __NR_shutdown __NR_shutdown [AL F_rdi; AL F_rsi] []
].

(** The number of arguments each call takes in the Linux system call interface. *)
Definition kernel_arity : list (Z * nat) := [
    (__NR_brk, 1); (__NR_arch_prctl, 2); (__NR_access, 2); (__NR_mmap, 6); (__NR_writev, 3);
    (__NR_exit, 1); (__NR_exit_group, 1); (__NR_openat, 4); (__NR_fstat, 2); (__NR_close, 1);
    (__NR_read, 3); (__NR_mprotect, 3); (__NR_pread64, 4); (__NR_munmap, 2);
    (__NR_set_tid_address, 1); (__NR_set_robust_list, 2); (__NR_rt_sigaction, 4);
    (__NR_rt_sigprocmask, 4); (__NR_prlimit64, 4); (__NR_statfs, 2); (__NR_stat, 2);
    (__NR_getuid, 0); (__NR_geteuid, 0); (__NR_getegid, 0); (__NR_getgid, 0);
    (__NR_futex, 6); (__NR_getpid, 0); (__NR_gettid, 0); (__NR_tgkill, 3); (__NR_socket, 3);
    (__NR_connect, 3); (__NR_write, 3); (__NR_sigaltstack, 2); (__NR_newfstatat, 4);
    (__NR_getppid, 0); (__NR_ioctl, 3); (__NR_execve, 3); (__NR_vfork, 0); (__NR_uname, 1);
    (__NR_fcntl, 3); (__NR_getpgrp, 0); (__NR_setpgid, 2); (__NR_getdents64, 3);
    (__NR_statx, 5); (__NR_lgetxattr, 4); (__NR_fadvise64, 4); (__NR_readlink, 3);
    (__NR_setitimer, 3); (__NR_readv, 3); (__NR_lseek, 3); (__NR_gettimeofday, 2);
    (__NR_clone, 5); (__NR_wait4, 4); (__NR_lstat, 2); (__NR_fanotify_mark, 5);
    (__NR_msgsnd, 4); (__NR_seccomp, 3); (__NR_io_submit, 3); (__NR_time, 1);
    (__NR_clock_getres, 2); (__NR_clock_gettime, 2); (__NR_epoll_create1, 1);
    (__NR_eventfd2, 2); (__NR_pipe2, 2); (__NR_getcwd, 2); (__NR_chdir, 1); (__NR_umask, 1);
    (__NR_mkdir, 2); (__NR_bind, 3); (__NR_listen, 2); (__NR_setsockopt, 5);
    (__NR_accept4, 4); (__NR_poll, 3); (__NR_shmat, 3); (__NR_shutdown, 2)
]%nat.

(** The argument registers of the x86-64 system call convention. *)
Definition abi_regs : list field := [F_rdi; F_rsi; F_rdx; F_r10; F_r8; F_r9].

(** The row of a call, its arguments in the registers [s], and the strings it prints. *)
Definition row_of (nr : Z) : option frow := List.find (fun r => fr_guest r =? nr) forward_rows.
Definition row_args (r : frow) (s : state_rtime) : list vararg := map (arg_of s) (fr_args r).
Definition row_strings (r : frow) (s : state_rtime) : list Z := map (field_get s) (fr_strs r).

Lemma row_of_some nr r : row_of nr = Some r -> r ∈ forward_rows /\ fr_guest r = nr.
Proof.
  intros [Hin Heq%Z.eqb_eq]%find_some. split; [ by apply list_elem_of_In | done ].
Qed.

(** The registers a row reads are general ones. *)
Definition row_regs (r : frow) : list field := (arg_field <$> fr_args r) ++ fr_strs r.

Lemma forward_rows_regs :
  Forall (fun r => Forall (fun f => f ∉ [F_rip; F_rflags; F_null_entry]) (row_regs r)) forward_rows.
Proof. apply (bool_decide_unpack _). vm_compute. exact I. Qed.

Lemma row_same r s s' :
  r ∈ forward_rows ->
  (forall f, f ∉ [F_rip; F_rflags; F_null_entry] -> field_get s f = field_get s' f) ->
  row_args r s = row_args r s' /\ row_strings r s = row_strings r s'.
Proof.
  intros Hr Hs. pose proof (proj1 (Forall_forall _ _) forward_rows_regs r Hr) as Hf.
  apply Forall_app in Hf as [Ha Hb]. rewrite Forall_fmap in Ha. split; apply map_ext_in; intros x Hx;
    apply list_elem_of_In in Hx.
  - pose proof (proj1 (Forall_forall _ _) Ha x Hx) as Hn. simpl in Hn.
    destruct x; simpl in *; by rewrite Hs.
  - apply Hs. exact (proj1 (Forall_forall _ _) Hb x Hx).
Qed.

(** A row conforms when it issues the call the guest asked for, with the registers of the
    convention in order, and at least as many as the call takes. *)
Definition conforms (r : frow) : bool :=
  (fr_nr r =? fr_guest r)
  && bool_decide (map arg_field (fr_args r) = take (length (fr_args r)) abi_regs)
  && match switch (fr_guest r) kernel_arity with
     | Some n => (n <=? length (fr_args r))%nat
     | None => false
     end.

(** The calls whose row does not conform. *)
Definition deviating : list Z :=
  [__NR_futex; __NR_getppid; __NR_vfork; __NR_fadvise64; __NR_clone; __NR_fanotify_mark].

Lemma forward_rows_conforms :
  Forall (fun r => conforms r = negb (bool_decide (fr_guest r ∈ deviating))) forward_rows.
Proof. apply (bool_decide_unpack _). vm_compute. exact I. Qed.

Section Forward.
Context `{Kernel}.

Definition forward (r : frow) : M Z :=
  s ← get gstate;
  do_syscall (fr_nr r) (map (arg_of s) (fr_args r));;
  log_syscall (map (field_get s) (fr_strs r));;
  mret 0.

(** The kernel accepts the segment bases of the guest and of the host. *)
Definition bases_ok (p : proc) : Prop :=
  k_base_ok (instrumented_fs (dbi p)) = true /\ k_base_ok (instrumented_gs (dbi p)) = true /\
  k_base_ok (fs (host_state (dbi p))) = true /\ k_base_ok (gs (host_state (dbi p))) = true.

(** The abstract effect of forwarding a call: one event with the bases of the guest in
    force, the memory the kernel leaves, the bases of the host in force again and the
    result of the C wrapper in [rax]. *)
Definition forwarded (nr : Z) (args : list vararg) (p : proc) : outcome unit :=
  let d := dbi p in
  let ev := mk_event nr args (instrumented_fs d) (instrumented_gs d) in
  match k_syscall (trace p) (mem p) nr args with
  | None =>
      NoReturn (p <| cpu_fs := instrumented_fs d |> <| cpu_gs := instrumented_gs d |>
                  <| trace := trace p ++ [ev] |>)
  | Some (raw, m) =>
      Ret () (with_state
                (p <| mem := m |> <| cpu_fs := fs (host_state d) |>
                   <| cpu_gs := gs (host_state d) |> <| trace := trace p ++ [ev] |>)
                (fun s => s <| rax := u64 (libc_result raw) |>))
  end.

Lemma set_fs_gs_ok p f g :
  k_base_ok f = true -> k_base_ok g = true ->
  set_fs_gs f g p = Ret 0 (p <| cpu_fs := f |> <| cpu_gs := g |>).
Proof.
  intros Hf Hg. unfold set_fs_gs, arch_prctl_set, mbind, M_bind. by rewrite Hf, Hg.
Qed.

(** The result is 0 or 1: the comparisons with -1 of the sources never succeed. *)
Lemma set_fs_gs_never_minus1 f g p :
  exists r p', set_fs_gs f g p = Ret r p' /\ (r =? -1) = false /\ dbi p' = dbi p /\
    mem p' = mem p /\ trace p' = trace p /\ curr_syscall p' = curr_syscall p.
Proof.
  unfold set_fs_gs, arch_prctl_set, mbind, M_bind.
  destruct (k_base_ok f), (k_base_ok g); cbn; do 2 eexists; split_and!; reflexivity.
Qed.

Lemma raw_syscall_other nr args p :
  nr <> __NR_arch_prctl ->
  raw_syscall nr args p
  = '(r, m) ← k_syscall (trace p) (mem p) nr args; Some (r, p <| mem := m |>).
Proof.
  intros Hn. unfold raw_syscall.
  destruct args as [| a [| b [| c l]]]; try done. by rewrite (proj2 (Z.eqb_neq _ _) Hn).
Qed.

Lemma set_guest_fs_gs_ok p :
  bases_ok p ->
  set_guest_fs_gs p
  = Ret 0 (p <| cpu_fs := instrumented_fs (dbi p) |> <| cpu_gs := instrumented_gs (dbi p) |>).
Proof.
  intros (? & ? & ? & ?). unfold set_guest_fs_gs.
  erewrite bind_Ret by reflexivity. by apply set_fs_gs_ok.
Qed.

Lemma set_host_fs_gs_ok p :
  bases_ok p ->
  set_host_fs_gs p
  = Ret 0 (p <| cpu_fs := fs (host_state (dbi p)) |> <| cpu_gs := gs (host_state (dbi p)) |>).
Proof.
  intros (? & ? & ? & ?). unfold set_host_fs_gs.
  erewrite bind_Ret by reflexivity. by apply set_fs_gs_ok.
Qed.

Lemma do_syscall_forwarded nr args p :
  nr <> __NR_arch_prctl -> bases_ok p -> do_syscall nr args p = forwarded nr args p.
Proof.
  intros Hn Hb. unfold do_syscall, forwarded, mbind, M_bind.
  rewrite set_guest_fs_gs_ok by done. cbn -[set_host_fs_gs raw_syscall u64].
  unfold syscall. rewrite raw_syscall_other by done. cbn -[set_host_fs_gs u64].
  destruct (k_syscall _ _ nr args) as [[raw m] |]; cbn -[set_host_fs_gs u64]; [ | done ].
  rewrite set_host_fs_gs_ok by done. reflexivity.
Qed.

(** The strings a hook prints can be read in the memory [m]. *)
Definition string_ok (m : aspace) (a : Z) : bool :=
  (a =? 0) || cstr_readable m a (S (Z.to_nat PAGE_SZ * size (prots m))).

Definition strings_ok (m : aspace) (ptrs : list Z) : bool := forallb (string_ok m) ptrs.

Lemma log_cstr_spec a p :
  log_cstr a p = if string_ok (mem p) a then Ret () p else Crashed p.
Proof.
  unfold log_cstr. erewrite bind_Ret by reflexivity. unfold string_ok.
  by destruct (_ || _).
Qed.

Lemma log_syscall_spec ptrs p :
  log_syscall ptrs p = if strings_ok (mem p) ptrs then Ret () p else Crashed p.
Proof.
  unfold log_syscall. change (truth (Z.land DEBUG LOG_SYSCALL)) with true. cbv iota.
  induction ptrs as [| a ptrs IH]; [ done | ]. cbn [log_strings strings_ok forallb].
  unfold mbind, M_bind. rewrite log_cstr_spec.
  destruct (string_ok (mem p) a); [ exact IH | done ].
Qed.

Lemma forward_spec r p :
  fr_nr r <> __NR_arch_prctl -> bases_ok p ->
  forward r p
  = match forwarded (fr_nr r) (map (arg_of (gstate p)) (fr_args r)) p with
    | Ret _ p' =>
        if strings_ok (mem p') (map (field_get (gstate p)) (fr_strs r))
        then Ret 0 p' else Crashed p'
    | NoReturn p' => NoReturn p'
    | Exited c p' => Exited c p' | Aborted p' => Aborted p' | Crashed p' => Crashed p'
    | OutOfFuel => OutOfFuel
    end.
Proof.
  intros Hn Hb. unfold forward. erewrite bind_Ret by reflexivity.
  unfold mbind, M_bind. rewrite do_syscall_forwarded by done.
  destruct (forwarded _ _ p); try done. rewrite log_syscall_spec. by destruct (strings_ok _ _).
Qed.

Lemma forward_rows_sound :
  Forall (fun r => get_syscall_hook (fr_guest r) = Some (forward r) /\
                   fr_nr r <> __NR_arch_prctl) forward_rows.
Proof. repeat (constructor; [ split; [ reflexivity | done ] | ]); constructor. Qed.

(** C14: Every forwarding hook performs its row of the table: one kernel call with the
    listed number and arguments, issued with the segment bases of the guest, then the bases
    of the host in force again, the memory the kernel leaves and the result of the C wrapper
    in rax; if a string it prints cannot be read the process crashes. *)
Theorem forward_rows_spec (r : frow) (p : proc)
    (Hr : r ∈ forward_rows) (Hb : bases_ok p) :
  exists hk, get_syscall_hook (fr_guest r) = Some hk /\
    hk p = match forwarded (fr_nr r) (map (arg_of (gstate p)) (fr_args r)) p with
           | Ret _ p' =>
               if strings_ok (mem p') (map (field_get (gstate p)) (fr_strs r))
               then Ret 0 p' else Crashed p'
           | NoReturn p' => NoReturn p'
           | Exited c p' => Exited c p' | Aborted p' => Aborted p' | Crashed p' => Crashed p'
           | OutOfFuel => OutOfFuel
           end.
Proof.
  destruct (proj1 (Forall_forall _ _) forward_rows_sound r Hr) as [Hg Hn].
  exists (forward r). split; [ done | by apply forward_spec ].
Qed.

(** C36: The forwarding hooks issue the call the guest asked for with all of its arguments
    in the order of the calling convention, except those of futex, getppid, vfork,
    fadvise64, clone and fanotify_mark. *)
Theorem forward_rows_conform (r : frow) (Hr : r ∈ forward_rows) :
  exists hk, get_syscall_hook (fr_guest r) = Some hk /\ hk = forward r /\
    (conforms r = true <->
     fr_guest r ∉ deviating).
Proof.
  destruct (proj1 (Forall_forall _ _) forward_rows_sound r Hr) as [Hg _].
  exists (forward r). split_and!; [ done | done | ].
  rewrite (proj1 (Forall_forall _ _) forward_rows_conforms r Hr).
  by rewrite negb_true_iff, bool_decide_eq_false.
Qed.
End Forward.

(** ** What a hook may change

    The registers other than [rax], the vector state and the engine's own objects are the
    same after a hook; the break only [brk] moves, and only [arch_prctl] records a segment
    base and may set the global [must_change]. *)
Record hook_frame_of (brk prctl : bool) (p p' : proc) : Prop := {
  hf_regs : forall f, f <> F_rax -> field_get (gstate p') f = field_get (gstate p) f;
  hf_vec : (sse (gstate p'), avx2 (gstate p'), avx512 (gstate p'))
           = (sse (gstate p), avx2 (gstate p), avx512 (gstate p));
  hf_host : host_state (dbi p') = host_state (dbi p);
  hf_hooks : (dump (dbi p'), restore (dbi p'), curr_hook (dbi p'))
             = (dump (dbi p), restore (dbi p), curr_hook (dbi p));
  hf_engine : (table (dbi p'), take_callback (dbi p'), length_cflow (dbi p'), count (dbi p'))
              = (table (dbi p), take_callback (dbi p), length_cflow (dbi p), count (dbi p));
  hf_stubs : (dump_stub (dbi p'), restore_stub (dbi p'), host_rsp (dbi p'), base_guest_stack (dbi p'))
             = (dump_stub (dbi p), restore_stub (dbi p), host_rsp (dbi p), base_guest_stack (dbi p));
  hf_persistent : persistent_hook (dbi p') = persistent_hook (dbi p);
  hf_globals : (curr_syscall p', bbl_count p', descriptors p')
               = (curr_syscall p, bbl_count p, descriptors p);
  hf_brk : brk = false -> vbrk (dbi p') = vbrk (dbi p);
  hf_bases : prctl = false ->
    (instrumented_fs (dbi p'), instrumented_gs (dbi p'), must_change p')
    = (instrumented_fs (dbi p), instrumented_gs (dbi p), must_change p);
  hf_change : must_change p = true -> must_change p' = true
}.

(** Whichever hook it is. *)
Abbreviation hook_frame := (hook_frame_of true true).

#[global] Instance hook_frame_preorder brk prctl : PreOrder (hook_frame_of brk prctl).
Proof.
  split.
  - intros p. by split.
  - intros p1 p2 p3 [] []. split; try congruence; auto.
    + intros f Hf. rewrite hf_regs1 by done. by apply hf_regs0.
    + intros E. by rewrite hf_brk1, hf_brk0.
    + intros E. by rewrite hf_bases1, hf_bases0.
Qed.

Lemma hook_frame_any brk prctl p p' : hook_frame_of brk prctl p p' -> hook_frame p p'.
Proof. intros []. by split. Qed.

Ltac solve_frame := intros; split; try reflexivity; try done; intros []; reflexivity || done.

Section Frame.
Context `{Kernel}.

Section Either.
Context (brk prctl : bool).
#[local] Abbreviation frame := (hook_frame_of brk prctl).

Lemma ensures_set_fs_gs f g : ensures frame (fun _ => True) (set_fs_gs f g).
Proof.
  intros p a p'. unfold set_fs_gs, arch_prctl_set, mbind, M_bind.
  destruct (k_base_ok f), (k_base_ok g); intros [= _ <-]; (split; [ done | ]); solve_frame.
Qed.

Lemma ensures_guest_bases : ensures frame (fun _ => True) set_guest_fs_gs.
Proof. apply ensures_bind_any; [ apply ensures_get | intros d; apply ensures_set_fs_gs ]. Qed.

Lemma ensures_host_bases : ensures frame (fun _ => True) set_host_fs_gs.
Proof. apply ensures_bind_any; [ apply ensures_get | intros d; apply ensures_set_fs_gs ]. Qed.

Lemma raw_syscall_frame nr args p r p' :
  raw_syscall nr args p = Some (r, p') -> frame p p'.
Proof.
  assert (Hk : forall a, ('(r, m) ← k_syscall (trace p) (mem p) nr a; Some (r, p <| mem := m |>))
                    = Some (r, p') -> frame p p').
  { intros a E. destruct (k_syscall _ _ nr a) as [[x m] |]; simplify_eq/=. solve_frame. }
  unfold raw_syscall. destruct args as [| c [| a [| b l]]]; try apply Hk.
  case_match; [ | apply Hk ]. unfold raw_arch_prctl. intros E.
  repeat case_match; simplify_eq/=; try reflexivity; try solve_frame.
  destruct (k_syscall _ _ _ _) as [[x m] |]; simplify_eq/=. solve_frame.
Qed.

Lemma ensures_syscall nr args : ensures frame (fun _ => True) (syscall nr args).
Proof.
  intros p a p'. unfold syscall.
  destruct (raw_syscall nr args p) as [[raw p1] |] eqn:E; [ | done ].
  intros [= _ <-]. split; [ done | ].
  transitivity p1; [ by eapply raw_syscall_frame | solve_frame ].
Qed.

Lemma ensures_log ptrs : ensures frame (fun _ => True) (log_syscall ptrs).
Proof.
  intros p a p'. rewrite log_syscall_spec. destruct (strings_ok _ _); [ | done ].
  intros [= _ <-]. by split.
Qed.

Lemma ensures_set_rax (v : Z) :
  ensures frame (fun _ => True) (modify (fun p => with_state p (fun s => s <| rax := v |>))).
Proof. apply ensures_modify. solve_frame. Qed.

#[local] Hint Resolve ensures_set_fs_gs ensures_guest_bases ensures_host_bases
  ensures_syscall ensures_log ensures_set_rax : ensures.

Lemma ensures_do_syscall nr args : ensures frame (fun _ => True) (do_syscall nr args).
Proof. unfold do_syscall. ensures_tac. Qed.
End Either.

#[local] Hint Resolve ensures_set_fs_gs ensures_guest_bases ensures_host_bases
  ensures_syscall ensures_log ensures_set_rax : ensures.
#[local] Hint Resolve ensures_do_syscall : ensures.

Lemma ensures_brk : ensures (hook_frame_of true false) (fun r => r = 0) hook_brk.
Proof.
  unfold hook_brk. ensures_tac.
  - case_match; [ | apply ensures_fatal_dump ].
    ensures_tac. apply ensures_modify. solve_frame.
  - apply ensures_modify. solve_frame.
Qed.

Lemma ensures_arch_prctl : ensures (hook_frame_of false true) (fun r => r = 0) hook_arch_prctl.
Proof. unfold hook_arch_prctl. ensures_tac; apply ensures_modify; solve_frame. Qed.
#[local] Hint Resolve ensures_brk ensures_arch_prctl : ensures.

Lemma switch_in {A} (n : Z) (l : list (Z * A)) (h : A) :
  switch n l = Some h -> (n, h) ∈ l.
Proof.
  induction l as [| [k x] l IH]; simpl; [ done | ].
  destruct (Z.eqb_spec n k) as [-> |]; [ intros [= ->]; left | right; auto ].
Qed.

Lemma hook_cases_frame :
  Forall (fun c => ensures (hook_frame_of (c.1 =? __NR_brk) (c.1 =? __NR_arch_prctl))
                     (fun r => r = 0) c.2) (hook_cases_1 ++ hook_cases_2).
Proof.
  repeat (constructor; [ cbn [fst snd]; first [ apply ensures_brk | apply ensures_arch_prctl
    | match goal with |- ensures _ _ ?h => let b := eval red in h in change h with b end;
      ensures_tac ] | ]);
  constructor.
Qed.

Lemma syscall_hook_frame n r hk p p' :
  get_syscall_hook n = Some hk -> hk p = Ret r p' -> r = 0 /\ hook_frame_of (n =? __NR_brk) (n =? __NR_arch_prctl) p p'.
Proof.
  intros Hk E. apply switch_in in Hk.
  exact (proj1 (Forall_forall _ _) hook_cases_frame _ Hk p r p' E).
Qed.

(** C15: A hook that returns returns 0 and changes, of the objects and globals of the engine
    and of the guest registers, at most rax, for brk the break, and for arch_prctl the
    recorded segment bases and the global must_change, which is only ever set. *)
Theorem hooks_frame (n r : Z) (hk : M Z) (p p' : proc)
    (Hk : get_syscall_hook n = Some hk) (E : hk p = Ret r p') :
  r = 0 /\ hook_frame_of (n =? __NR_brk) (n =? __NR_arch_prctl) p p'.
Proof. by apply (syscall_hook_frame n r hk). Qed.
End Frame.

(** ** Results, errors and termination *)

Section Results.
Context `{Kernel}.

(** C35: When the kernel fails a forwarded call with an error e, the guest sees -1 in rax,
    which is the value the kernel returned only for e = 1. *)
Theorem forward_error_rax (r : frow) (p : proc) (e : Z) (m : aspace)
    (Hr : r ∈ forward_rows) (Hb : bases_ok p) (He : 1 <= e <= 4095)
    (Hk : k_syscall (trace p) (mem p) (fr_nr r) (map (arg_of (gstate p)) (fr_args r))
          = Some (- e, m))
    (Hs : strings_ok m (map (field_get (gstate p)) (fr_strs r)) = true) :
  exists hk p', get_syscall_hook (fr_guest r) = Some hk /\ hk p = Ret 0 p' /\
    rax (gstate p') = minus1 /\ (rax (gstate p') = u64 (- e) <-> e = 1).
Proof.
  destruct (proj1 (Forall_forall _ _) forward_rows_sound r Hr) as [Hg Hn].
  eexists _, _. split; [ exact Hg | ]. rewrite forward_spec by done.
  unfold forwarded. rewrite Hk. cbn -[u64 strings_ok]. rewrite Hs.
  split; [ reflexivity | ]. cbn -[u64].
  replace (libc_result (- e)) with (-1).
  - assert (Ee : u64 (- e) = 2 ^ 64 - e)
      by (unfold u64; symmetry; apply (Z.mod_unique _ _ (-1)); lia).
    rewrite Ee. change (u64 (-1)) with (2 ^ 64 - 1). split; [ done | lia ].
  - unfold libc_result.
    by rewrite (proj2 (Z.leb_le _ _)), (proj2 (Z.leb_le _ _)) by lia.
Qed.

(** The process after [brk] with the new break and the memory [m]. *)
Definition brk_proc (p : proc) (req : Z) (m : aspace) : proc :=
  with_dbi (with_state (p <| mem := m |>) (fun s => s <| rax := req |>)) (fun d => d <| vbrk := req |>).

(** [hook_brk] when the request leaves the page of the break. *)
Lemma hook_brk_run p m' :
  let base := vbrk (dbi p) in let req := rdi (gstate p) in
  let len := PAGE_ROUND (req - base) + 1 in
  0 <= base < req -> req - base < 2 ^ 32 - PAGE_SZ -> PAGE_SZ < req - base + PAGE_OFFT base ->
  mmap_anon_fixed (mem p) (PAGE_ALIGN base) len (Z.lor PROT_READ PROT_WRITE) = Some m' ->
  hook_brk p = Ret 0 (brk_proc p req m').
Proof.
  intros base req len Hlt Hsz Hbig Em.
  pose proof (PAGE_ROUND_succ_bounds (req - base)) as Hlb.
  unfold hook_brk. erewrite bind_Ret by reflexivity. erewrite bind_Ret by reflexivity.
  fold base req. rewrite (proj2 (Z.eqb_neq req 0)) by lia.
  unfold assert_c, mbind, M_bind. rewrite (proj2 (Z.ltb_lt base req)) by lia.
  rewrite (u32_small (req - base)) by lia.
  rewrite (proj2 (Z.ltb_lt PAGE_SZ _)) by lia. cbn -[PAGE_ROUND PAGE_ALIGN u32 mmap_anon_fixed].
  rewrite (u32_small (PAGE_ROUND (req - base) + 1)) by lia. fold len. rewrite Em. reflexivity.
Qed.

Lemma hook_brk_grow p :
  let base := vbrk (dbi p) in let req := rdi (gstate p) in
  let len := PAGE_ROUND (req - base) + 1 in
  0 <= base < req -> req - base < 2 ^ 32 - PAGE_SZ ->
  PAGE_SZ < req - base + PAGE_OFFT base ->
  k_map_refused (mem p) (PAGE_ALIGN base) len (Z.lor PROT_READ PROT_WRITE) = false ->
  exists m', hook_brk p = Ret 0 (brk_proc p req m') /\
    forall a, let inr := in_range (PAGE_ALIGN base) len a in
      page_prot m' a = (if inr then Some (Z.lor PROT_READ PROT_WRITE) else page_prot (mem p) a) /\
      byte_at m' a = (if inr then 0 else byte_at (mem p) a).
Proof.
  intros base req len Hlt Hsz Hbig Hk.
  pose proof (PAGE_ROUND_succ_bounds (req - base)) as Hlb.
  destruct (mmap_anon_fixed_some (mem p) (PAGE_ALIGN base) len (Z.lor PROT_READ PROT_WRITE))
    as [m' Em]; [ apply PAGE_ALIGN_mod | lia | done | ].
  pose proof (mmap_anon_fixed_spec _ _ _ _ _ Em) as Hspec.
  rewrite page_count_mult in Hspec by (unfold len; try apply PAGE_ROUND_succ_mod; lia).
  exists m'. split; [ by apply hook_brk_run | exact Hspec ].
Qed.

(** From a page-aligned break, the mapping ends with the page of the request. *)
Lemma brk_extent b req :
  b mod PAGE_SZ = 0 -> PAGE_ROUND (req - b) + 1 = PAGE_ALIGN req + PAGE_SZ - b.
Proof.
  intros Hb. rewrite PAGE_ROUND_succ. pose proof (PAGE_ALIGN_bounds (req - b)) as H1.
  assert (E : PAGE_ALIGN req = PAGE_ALIGN (req - b) + b).
  { apply PAGE_ALIGN_unique; [ | lia ]. by rewrite Z.add_mod, PAGE_ALIGN_mod, Hb. }
  lia.
Qed.

(** C33: From a page-aligned break, a request more than a page beyond it (and less than 4
    GiB less a page) maps zeroed read-write memory from the break to the end of the page in
    which the requested address lies, which is a page more than the request covers when that
    address is a multiple of the page size; it leaves all other memory alone and becomes the
    new break. *)
Theorem hook_brk_aligned (p : proc)
    (Hal : vbrk (dbi p) mod PAGE_SZ = 0) (Hlt : 0 <= vbrk (dbi p) < rdi (gstate p))
    (Hsz : rdi (gstate p) - vbrk (dbi p) < 2 ^ 32 - PAGE_SZ)
    (Hbig : PAGE_SZ < rdi (gstate p) - vbrk (dbi p))
    (Hk : k_map_refused (mem p) (vbrk (dbi p))
            (PAGE_ROUND (rdi (gstate p) - vbrk (dbi p)) + 1)
            (Z.lor PROT_READ PROT_WRITE) = false) :
  exists p', hook_brk p = Ret 0 p' /\ rax (gstate p') = rdi (gstate p) /\
    vbrk (dbi p') = rdi (gstate p) /\
    (forall a, vbrk (dbi p) <= a < PAGE_ALIGN (rdi (gstate p)) + PAGE_SZ ->
       page_prot (mem p') a = Some (Z.lor PROT_READ PROT_WRITE) /\ byte_at (mem p') a = 0) /\
    (forall a, ~ (vbrk (dbi p) <= a < PAGE_ALIGN (rdi (gstate p)) + PAGE_SZ) ->
       page_prot (mem p') a = page_prot (mem p) a /\ byte_at (mem p') a = byte_at (mem p) a).
Proof.
  pose proof (PAGE_ALIGN_id _ Hal) as Ea. pose proof (PAGE_OFFT_range (vbrk (dbi p))).
  destruct (hook_brk_grow p) as (m' & E & Hm); try rewrite Ea; try lia; try done.
  cbv zeta in Hm. rewrite Ea, brk_extent in Hm by done.
  eexists. split_and!; [ exact E | done | done | .. ]; intros a Ha; specialize (Hm a);
    by destruct (in_range_spec (vbrk (dbi p)) (PAGE_ALIGN (rdi (gstate p)) + PAGE_SZ - vbrk (dbi p)) a);
    [ lia || apply Hm | lia || apply Hm ].
Qed.

(** C34: From a break inside a page, growing it beyond the page replaces that page: the live
    bytes between the start of the page and the break read zero afterwards. *)
Theorem hook_brk_unaligned_clobbers (p : proc)
    (Hlt : 0 <= vbrk (dbi p) < rdi (gstate p))
    (Hsz : rdi (gstate p) - vbrk (dbi p) < 2 ^ 32 - PAGE_SZ)
    (Hbig : PAGE_SZ < rdi (gstate p) - vbrk (dbi p) + PAGE_OFFT (vbrk (dbi p)))
    (Hk : k_map_refused (mem p) (PAGE_ALIGN (vbrk (dbi p)))
            (PAGE_ROUND (rdi (gstate p) - vbrk (dbi p)) + 1)
            (Z.lor PROT_READ PROT_WRITE) = false) :
  exists p', hook_brk p = Ret 0 p' /\ rax (gstate p') = rdi (gstate p) /\
    forall a, PAGE_ALIGN (vbrk (dbi p)) <= a < vbrk (dbi p) -> byte_at (mem p') a = 0.
Proof.
  destruct (hook_brk_grow p) as (m' & E & Hm); try done.
  eexists. split_and!; [ exact E | done | ]. intros a Ha. destruct (Hm a) as [_ Hb].
  change (byte_at m' a = 0). rewrite Hb.
  unfold in_range. pose proof (PAGE_ROUND_succ_bounds (rdi (gstate p) - vbrk (dbi p))).
  pose proof (PAGE_ALIGN_bounds (vbrk (dbi p))).
  pose proof (PAGE_ALIGN_mono 0 (vbrk (dbi p)) ltac:(lia)) as Hz0.
  rewrite (proj2 (Z.leb_le _ _)), (proj2 (Z.ltb_lt _ _)); [ done | | lia ].
  rewrite PAGE_ROUND_succ in *.
  assert (0 <= PAGE_ALIGN (rdi (gstate p) - vbrk (dbi p)))
    by (change 0 with (PAGE_ALIGN 0); apply PAGE_ALIGN_mono; lia). lia.
Qed.

(** A request at or below the break aborts the process, and a request that stays within
    the page of the break is not granted: the old break is returned. *)
Theorem hook_brk_refuses (p : proc)
    (Hpos : 0 < rdi (gstate p) < 2 ^ 64) (Hb : 0 <= vbrk (dbi p)) :
  (rdi (gstate p) <= vbrk (dbi p) -> hook_brk p = Aborted p) /\
  (vbrk (dbi p) < rdi (gstate p) ->
   rdi (gstate p) - vbrk (dbi p) + PAGE_OFFT (vbrk (dbi p)) <= PAGE_SZ ->
   hook_brk p = Ret 0 (with_state p (fun s => s <| rax := vbrk (dbi p) |>))).
Proof.
  unfold hook_brk. erewrite bind_Ret by reflexivity. erewrite bind_Ret by reflexivity.
  rewrite (proj2 (Z.eqb_neq (rdi (gstate p)) 0)) by lia.
  unfold assert_c, mbind, M_bind. split.
  - intros Hle. rewrite (proj2 (Z.ltb_ge _ _)) by lia. reflexivity.
  - intros Hlt Hs. rewrite (proj2 (Z.ltb_lt (vbrk (dbi p)) _)) by lia.
    pose proof (PAGE_OFFT_range (vbrk (dbi p))). unfold PAGE_SZ in *.
    rewrite u32_small by lia. rewrite (proj2 (Z.ltb_ge 0x1000 _)) by lia.
    cbn. destruct p as [? ? ? [] ? ? ? ? ?]; reflexivity.
Qed.
End Results.
