(* ===== verification/Memory.v ===== *)
(** * Memory wrappers (src/memory.c and the queries of src/core_mapper.c it uses)

    The checked accesses of the engine to guest memory.  Addresses are guest addresses in
    [mem]; the other operand of a copy is a buffer of the engine, a list of bytes that does
    not alias guest memory.  A function that fills a buffer returns it with its result. *)

From S2P Require Import Prelude.
From S2P Require Import Pages.
From S2P Require Import Regs.
From S2P Require Import Process.

(** [is_mapped]: the query of the umaps device is commented out. *)
Definition is_mapped (addr : Z) : bool := true.

(** [is_mapped_range]: one query per page of [PAGE_ROUND(range) + 1] bytes.  [fuel] is the
    number of pages of the range plus one. *)
Fixpoint is_mapped_loop (base i bound : Z) (fuel : nat) : bool :=
  match fuel with
  | O => false
  | S fuel' =>
      if i <? bound then
        if is_mapped (u64 (base + i)) then is_mapped_loop base (u64 (i + PAGE_SZ)) bound fuel'
        else false
      else true
  end.

Definition is_mapped_range (base range : Z) : bool :=
  let bound := u64 (PAGE_ROUND range + 1) in
  is_mapped_loop base 0 bound (S (Z.to_nat (bound / PAGE_SZ))).

(** [get_prot]: the query is commented out too, every page is reported RWX. *)
Definition get_prot (addr : Z) : Z := Z.lor (Z.lor PROT_WRITE PROT_READ) PROT_EXEC.

(** Copy into a buffer of the engine; [None] when it does not fit. *)
Definition buf_write (buf : list Z) (off : Z) (data : list Z) : option (list Z) :=
  if (0 <=? off) && (off + Z.of_nat (length data) <=? Z.of_nat (length buf))
  then Some (take (Z.to_nat off) buf ++ data ++ drop (Z.to_nat off + length data) buf)
  else None.

Definition buf_read (buf : list Z) (off n : Z) : option (list Z) :=
  if (0 <=? off) && (off + n <=? Z.of_nat (length buf))
  then Some (take (Z.to_nat n) (drop (Z.to_nat off) buf)) else None.

Section Memory.
Context `{Kernel}.

Definition sys_mprotect (addr len prot : Z) : M Z := fun p =>
  let '(r, m) := mprotect (mem p) addr len prot in Ret r (p <| mem := m |>).

Definition w_mem_protect (addr size _prot : Z) : M Z :=
  if negb (is_mapped_range addr size) then mret (-1)
  else
    r ← sys_mprotect addr size _prot;
    if r =? -1 then mret (-1) else mret (get_prot addr).

Definition make_readable (address size : Z) : M Z :=
  w_mem_protect address size PROT_READ.
Definition make_writable (address size : Z) : M Z :=
  w_mem_protect address size (Z.lor PROT_READ PROT_WRITE).
Definition make_executable (address size : Z) : M Z :=
  w_mem_protect address size (Z.lor PROT_READ PROT_EXEC).

Definition restore_vprot (size addr offset : Z) : M Z := mret 0.

(** [memmove] from guest memory into a buffer, and back. *)
Definition copy_out (a : Z) (to : list Z) (off size : Z) : M (list Z) :=
  lift_option (fun p => data ← load_bytes (mem p) a (Z.to_nat size); buf_write to off data).

Definition copy_in (a : Z) (from : list Z) (off size : Z) : M unit :=
  lift_mem (fun m => data ← buf_read from off size; store_bytes m a data).

Definition round_read (from : Z) (to : list Z) (offt size : Z) : M (Z * list Z) :=
  let a := u64 (from + offt) in
  if negb (is_mapped a) then mret (0, to)
  else
    let prot := get_prot a in
    if prot =? -1 then mret (0, to)
    else
      r ← (if truth (Z.land prot PROT_READ) then mret 0
           else sys_mprotect (PAGE_ALIGN a) PAGE_SZ (Z.lor prot PROT_READ));
      if r =? -1 then mret (0, to)
      else
        to' ← copy_out a to offt size;
        r ← sys_mprotect (PAGE_ALIGN a) PAGE_SZ prot;
        if r =? -1 then mret (0, to') else mret (s32 size, to').

(** [for (i = 0; i < size; i++) assert (to[i] == from[i])] *)
Definition assert_same (a : Z) (buf : list Z) (size : Z) : M unit :=
  data ← lift_option (fun p => load_bytes (mem p) a (Z.to_nat size));
  b ← lift_option (fun p => buf_read buf 0 size);
  assert_c (bool_decide (data = b)).

Fixpoint mem_read_loop (fuel : nat) (to : list Z) (from size _k _sz count ret : Z)
  : M (Z * list Z) :=
  match fuel with
  | O => out_of_fuel
  | S fuel' =>
      if _k =? size then
        assert_same from to size;; mret (ret, to)
      else
        '(ret, to) ← round_read from to _k _sz;
        if ret =? 0 then mret (count, to)
        else
          let count := s32 (count + ret) in
          let _k := u64 (_k + _sz) in
          let _sz := if PAGE_ALIGN (u64 (_k + from)) =? PAGE_ALIGN (u64 (size + from))
                     then u64 (size - _k) else PAGE_SZ in
          mem_read_loop fuel' to from size _k _sz count ret
  end.

(** One iteration per page of the range, one for the exit and one for a partial first
    page. *)
Definition copy_fuel (size : Z) : nat := Z.to_nat (size / PAGE_SZ + 3).

Definition mem_read (to : list Z) (from size : Z) : M (Z * list Z) :=
  if size =? 0 then mret (0, to)
  else if PAGE_SZ - PAGE_OFFT from <? size then
    mem_read_loop (copy_fuel size) to from size 0 (PAGE_SZ - PAGE_OFFT from) 0 0
  else
    '(ret, to) ← round_read from to 0 size;
    if ret =? 0 then mret (-1, to) else mret (s32 (0 + ret), to).

Fixpoint mem_write_loop (fuel : nat) (to : Z) (from : list Z) (size k : Z) : M Z :=
  match fuel with
  | O => out_of_fuel
  | S fuel' =>
      let a := u64 (to + k) in
      let prot := get_prot a in
      let _sz := if PAGE_SZ - PAGE_OFFT a <? u64 (size - k)
                 then PAGE_SZ - PAGE_OFFT a else u64 (size - k) in
      if prot =? -1 then mret (-1)
      else
        r ← (if truth (Z.land prot PROT_WRITE) then mret 0
             else sys_mprotect (PAGE_ALIGN a) PAGE_SZ (Z.lor prot PROT_WRITE));
        if r =? -1 then mret (-1)
        else
          copy_in a from k _sz;;
          r ← sys_mprotect (PAGE_ALIGN a) PAGE_SZ prot;
          if r =? -1 then mret (-1)
          else if u64 k =? size then
            assert_c (u64 k =? size);;
            assert_same to from size;; mret (s32 size)
          else mem_write_loop fuel' to from size (s32 (k + _sz))
  end.

Definition mem_write (to : Z) (from : list Z) (size : Z) : M Z :=
  if negb (is_mapped_range (PAGE_ALIGN to) (u64 (size + PAGE_OFFT to))) then mret (-1)
  else mem_write_loop (copy_fuel size) to from size 0.

(** [mmap] of one anonymous page; a failure is fatal. *)
Definition map_page (addr _prot : Z) : M Z :=
  m ← get mem;
  match mmap_anon_fixed m (PAGE_ALIGN addr) PAGE_SZ _prot with
  | None => fatal_dump
  | Some m' => modify (fun p => p <| mem := m' |>);; mret 0
  end.
End Memory.
