(* ===== verification/MemorySpec.v ===== *)
(** * Properties of the memory wrappers *)

From S2P Require Import Prelude.
From S2P Require Import Pages.
From S2P Require Import Regs.
From S2P Require Import Process.
From S2P Require Import Memory.

(** ** Ranges of guest memory *)

Definition range_has (flag : Z) (m : aspace) (a n : Z) : Prop :=
  forall x, a <= x < a + n -> has_prot m x flag = true.

Definition mem_bytes (m : aspace) (a : Z) (n : nat) : list Z :=
  (fun i => byte_at m (a + Z.of_nat i)) <$> seq 0 n.

Lemma mem_bytes_length m a n : length (mem_bytes m a n) = n.
Proof. unfold mem_bytes. by rewrite length_fmap, length_seq. Qed.

Lemma mem_bytes_cons m a n : mem_bytes m a (S n) = byte_at m a :: mem_bytes m (a + 1) n.
Proof.
  unfold mem_bytes. cbn [seq fmap list_fmap]. f_equal; [ f_equal; lia | ].
  rewrite <- seq_shift, <- list_fmap_compose. apply list_fmap_ext. intros i x _. simpl.
  f_equal. lia.
Qed.

Lemma mem_bytes_app m a n1 n2 :
  mem_bytes m a (n1 + n2) = mem_bytes m a n1 ++ mem_bytes m (a + Z.of_nat n1) n2.
Proof.
  revert a. induction n1 as [| n1 IH]; intros a; cbn [Nat.add].
  { by rewrite Z.add_0_r. }
  rewrite !mem_bytes_cons, IH. cbn [app].
  by replace (a + 1 + Z.of_nat n1) with (a + Z.of_nat (S n1)) by lia.
Qed.

Lemma mem_bytes_snoc m a k n :
  0 <= k -> 0 <= n ->
  mem_bytes m a (Z.to_nat k) ++ mem_bytes m (a + k) (Z.to_nat n) = mem_bytes m a (Z.to_nat (k + n)).
Proof.
  intros Hk Hn. rewrite Z2Nat.inj_add, mem_bytes_app by lia. by rewrite Z2Nat.id.
Qed.

Lemma mem_bytes_lookup m a n i :
  (i < n)%nat -> mem_bytes m a n !! i = Some (byte_at m (a + Z.of_nat i)).
Proof.
  intros Hi. unfold mem_bytes. rewrite list_lookup_fmap, lookup_seq_lt by done. done.
Qed.

Lemma mem_bytes_ext m m' a n :
  (forall x, a <= x < a + Z.of_nat n -> byte_at m x = byte_at m' x) ->
  mem_bytes m a n = mem_bytes m' a n.
Proof.
  revert a. induction n as [| n IH]; intros a Hx; [ done | ].
  rewrite !mem_bytes_cons. f_equal; [ apply Hx; lia | apply IH; intros; apply Hx; lia ].
Qed.

(** A range holds the list whose bytes it has. *)
Lemma mem_bytes_eq m a l :
  (forall x, a <= x < a + Z.of_nat (length l) -> byte_at m x = nth (Z.to_nat (x - a)) l 0) ->
  mem_bytes m a (length l) = l.
Proof.
  intros Hx. apply list_eq_same_length with (n := length l); rewrite ?mem_bytes_length; try done.
  intros i x y Hi E1 E2. rewrite mem_bytes_lookup in E1 by done. simplify_eq.
  rewrite Hx by lia. apply nth_lookup_Some.
  by replace (Z.to_nat (a + Z.of_nat i - a)) with i by lia.
Qed.

Lemma nth_mem_bytes m a n x :
  a <= x < a + Z.of_nat n -> nth (Z.to_nat (x - a)) (mem_bytes m a n) 0 = byte_at m x.
Proof.
  intros Hx. apply nth_lookup_Some. rewrite mem_bytes_lookup by lia. do 2 f_equal. lia.
Qed.

Lemma load_bytes_ok m a n :
  0 <= a -> a + Z.of_nat n <= 2 ^ 64 -> range_has PROT_READ m a (Z.of_nat n) ->
  load_bytes m a n = Some (mem_bytes m a n).
Proof.
  revert a. induction n as [| n IH]; intros a H0 H1 Hr; [ done | ].
  cbn [load_bytes]. rewrite u64_small by (unfold is_u64; lia).
  unfold load8. rewrite Hr by lia. simpl. rewrite IH by (try lia; intros x Hx; apply Hr; lia).
  simpl. by rewrite mem_bytes_cons.
Qed.

Lemma store_bytes_ok m a l :
  0 <= a -> a + Z.of_nat (length l) <= 2 ^ 64 ->
  range_has PROT_WRITE m a (Z.of_nat (length l)) ->
  exists m', store_bytes m a l = Some m' /\ prots m' = prots m /\
    forall x, byte_at m' x = if in_range a (Z.of_nat (length l)) x
                             then nth (Z.to_nat (x - a)) l 0 else byte_at m x.
Proof.
  revert m a. induction l as [| b l IH]; intros m a H0 H1 Hw.
  { exists m. split_and!; [ done | done | ]. intros x.
    destruct (in_range_spec a (Z.of_nat (length (@nil Z))) x); [ simpl in *; lia | done ]. }
  cbn [store_bytes length] in *. rewrite u64_small by (unfold is_u64; lia).
  unfold store8. rewrite Hw by lia. simpl.
  destruct (IH (m <| bytes := <[a := b]> (bytes m) |>) (a + 1)) as (m' & E & Hp & Hb);
    [ lia | lia | intros x Hx; rewrite (has_prot_ext _ m) by done; apply Hw; lia | ].
  exists m'. split_and!; [ done | by rewrite Hp | ]. intros x. rewrite Hb.
  destruct (in_range_spec (a + 1) (Z.of_nat (length l)) x) as [H2 | H2],
    (in_range_spec a (Z.of_nat (S (length l))) x) as [H3 | H3]; try lia.
  - replace (Z.to_nat (x - a)) with (S (Z.to_nat (x - (a + 1)))) by lia. done.
  - replace x with a by lia. unfold byte_at. simpl.
    by rewrite lookup_insert_eq, Z.sub_diag.
  - unfold byte_at. simpl. by rewrite lookup_insert_ne by lia.
Qed.

(** ** Pages made readable, writable and executable

    [get_prot] reports RWX for every page, so putting the protections "back" makes the
    pages of the range RWX.  [rwx_after m m' a n]: [m'] is [m] with the pages of the [n]
    bytes at [a] RWX, and the same bytes. *)

Definition touched (a n x : Z) : bool :=
  (0 <? n) && (PAGE_ALIGN a <=? PAGE_ALIGN x) && (PAGE_ALIGN x <=? PAGE_ALIGN (a + n - 1)).

Record rwx_after (m m' : aspace) (a n : Z) : Prop := {
  ra_bytes : forall x, byte_at m' x = byte_at m x;
  ra_prots : forall x, page_prot m' x = if touched a n x then Some PROT_RWX else page_prot m x
}.

Lemma touched_nil a n x : n <= 0 -> touched a n x = false.
Proof. intros H. unfold touched. by rewrite (proj2 (Z.ltb_ge 0 n)). Qed.

Lemma touched_in a n x : a <= x < a + n -> touched a n x = true.
Proof.
  intros H. unfold touched.
  rewrite (proj2 (Z.ltb_lt 0 n)), (proj2 (Z.leb_le _ _)), (proj2 (Z.leb_le _ _)); try done;
    try lia; apply PAGE_ALIGN_mono; lia.
Qed.

(** Consecutive ranges: no page lies strictly between two consecutive bytes. *)
Lemma PAGE_ALIGN_succ_gap a x :
  PAGE_ALIGN (a - 1) < PAGE_ALIGN x -> PAGE_ALIGN a <= PAGE_ALIGN x.
Proof.
  intros H. rewrite !PAGE_ALIGN_quot in *. unfold PAGE_SZ in *.
  assert (a / 0x1000 <= x / 0x1000); [ | lia ].
  assert (a / 0x1000 <= (a - 1) / 0x1000 + 1); [ | lia ].
  apply Z.div_le_upper_bound; [ lia | ]. pose proof (Z.mul_succ_div_gt (a - 1) 0x1000). lia.
Qed.

Lemma touched_app a n1 n2 x :
  0 <= n1 -> 0 <= n2 -> touched a (n1 + n2) x = touched a n1 x || touched (a + n1) n2 x.
Proof.
  intros H1 H2. destruct (decide (n1 = 0)) as [-> |].
  { rewrite (touched_nil a 0) by lia. simpl. by rewrite Z.add_0_r. }
  destruct (decide (n2 = 0)) as [-> |].
  { rewrite (touched_nil _ 0) by lia. by rewrite Z.add_0_r, orb_false_r. }
  unfold touched. rewrite !(proj2 (Z.ltb_lt 0 _)) by lia. simpl.
  replace (a + n1 + n2 - 1) with (a + (n1 + n2) - 1) by lia.
  pose proof (PAGE_ALIGN_mono a (a + n1) ltac:(lia)).
  pose proof (PAGE_ALIGN_mono (a + n1 - 1) (a + (n1 + n2) - 1) ltac:(lia)).
  pose proof (PAGE_ALIGN_succ_gap (a + n1) x).
  destruct (Z.leb_spec (PAGE_ALIGN a) (PAGE_ALIGN x)),
    (Z.leb_spec (PAGE_ALIGN x) (PAGE_ALIGN (a + (n1 + n2) - 1))),
    (Z.leb_spec (PAGE_ALIGN x) (PAGE_ALIGN (a + n1 - 1))),
    (Z.leb_spec (PAGE_ALIGN (a + n1)) (PAGE_ALIGN x)); try done; lia.
Qed.

Lemma rwx_after_refl m a n : n <= 0 -> rwx_after m m a n.
Proof. intros Hn. split; intros x; [ done | ]. by rewrite touched_nil. Qed.

Lemma rwx_after_trans m1 m2 m3 a n1 n2 :
  0 <= n1 -> 0 <= n2 ->
  rwx_after m1 m2 a n1 -> rwx_after m2 m3 (a + n1) n2 -> rwx_after m1 m3 a (n1 + n2).
Proof.
  intros Hn1 Hn2 [B1 P1] [B2 P2]. split; intros x; [ by rewrite B2 | ].
  rewrite P2, P1, touched_app by done. by destruct (touched a n1 x), (touched (a + n1) n2 x).
Qed.

Lemma prot_read_flag : PROT_READ ∈ [PROT_READ; PROT_WRITE; PROT_EXEC].
Proof. left. Qed.
Lemma prot_write_flag : PROT_WRITE ∈ [PROT_READ; PROT_WRITE; PROT_EXEC].
Proof. right. left. Qed.
#[export] Hint Resolve prot_read_flag prot_write_flag : dry.

Lemma rwx_flag flag :
  flag ∈ [PROT_READ; PROT_WRITE; PROT_EXEC] -> truth (Z.land PROT_RWX flag) = true.
Proof.
  rewrite !elem_of_cons, elem_of_nil. intros [-> | [-> | [-> | []]]]; reflexivity.
Qed.

Lemma rwx_after_has m m' a n x flag :
  rwx_after m m' a n -> flag ∈ [PROT_READ; PROT_WRITE; PROT_EXEC] ->
  touched a n x = true \/ has_prot m x flag = true -> has_prot m' x flag = true.
Proof.
  intros [_ P] Hf Hx. unfold has_prot in *. rewrite P.
  pose proof (rwx_flag flag Hf) as Hr.
  destruct (touched a n x); [ done | ]. by destruct Hx.
Qed.

Lemma touched_page a n x :
  0 < n -> PAGE_OFFT a + n <= PAGE_SZ -> touched a n x = (PAGE_ALIGN a =? PAGE_ALIGN x).
Proof.
  intros H0 H1. unfold touched. rewrite (proj2 (Z.ltb_lt 0 n)) by done.
  replace (a + n - 1) with (a + (n - 1)) by lia. rewrite PAGE_ALIGN_add by lia. simpl.
  destruct (Z.leb_spec (PAGE_ALIGN a) (PAGE_ALIGN x)),
    (Z.leb_spec (PAGE_ALIGN x) (PAGE_ALIGN a)), (Z.eqb_spec (PAGE_ALIGN a) (PAGE_ALIGN x));
    done || lia.
Qed.

Lemma range_has_mapped flag m a n x :
  range_has flag m a n -> a <= x < a + n -> is_Some (page_prot m x).
Proof.
  intros Hr Hx. specialize (Hr x Hx). unfold has_prot in Hr.
  destruct (page_prot m x); [ by eexists | done ].
Qed.

Lemma range_has_rwx flag m m' a n b k :
  rwx_after m m' b k -> flag ∈ [PROT_READ; PROT_WRITE; PROT_EXEC] ->
  range_has flag m a n -> range_has flag m' a n.
Proof. intros Ha Hf Hr x Hx. eapply rwx_after_has; eauto. Qed.

(** ** [mem_read] *)

Lemma buf_write_ok buf off data :
  0 <= off -> off + Z.of_nat (length data) <= Z.of_nat (length buf) ->
  buf_write buf off data
  = Some (take (Z.to_nat off) buf ++ data ++ drop (Z.to_nat off + length data) buf).
Proof.
  intros H1 H2. unfold buf_write.
  by rewrite (proj2 (Z.leb_le 0 off)), (proj2 (Z.leb_le _ _)) by done.
Qed.

(** ** Growing protections

    The coarser relation the clients use: the same bytes, and every page has kept its
    protection or was mapped and is RWX now. *)
Record rwx_grow (m m' : aspace) : Prop := {
  rg_bytes : forall x, byte_at m' x = byte_at m x;
  rg_prots : forall x, page_prot m' x = page_prot m x \/
                       page_prot m' x = Some PROT_RWX /\ is_Some (page_prot m x)
}.

#[global] Instance rwx_grow_preorder : PreOrder rwx_grow.
Proof.
  split; [ by split; auto | ]. intros m1 m2 m3 [B1 P1] [B2 P2].
  split; intros x; [ by rewrite B2, B1 | ].
  destruct (P1 x) as [E1 | [E1 S1]], (P2 x) as [E2 | [E2 S2]]; rewrite ?E2, ?E1; auto.
  right. by rewrite <- E1.
Qed.

Lemma range_has_grow flag m m' a n :
  rwx_grow m m' -> flag ∈ [PROT_READ; PROT_WRITE; PROT_EXEC] ->
  range_has flag m a n -> range_has flag m' a n.
Proof.
  intros [_ P] Hf Hr x Hx. specialize (Hr x Hx). unfold has_prot in *.
  destruct (P x) as [-> | [-> _]]; [ done | by apply rwx_flag ].
Qed.

(** A page with a byte in a range that has a protection is mapped. *)
Lemma touched_mapped flag m a n x :
  range_has flag m a n -> touched a n x = true -> is_Some (page_prot m x).
Proof.
  intros Hr Ht. unfold touched in Ht. apply andb_true_iff in Ht as [Ht H3].
  apply andb_true_iff in Ht as [H1 H2]. bool_to_prop.
  set (y := Z.max a (PAGE_ALIGN x)).
  assert (Hy : a <= y < a + n /\ PAGE_ALIGN y = PAGE_ALIGN x).
  { pose proof (PAGE_ALIGN_bounds (a + n - 1)). pose proof (PAGE_ALIGN_bounds a).
    unfold y. destruct (Z.max_spec a (PAGE_ALIGN x)) as [[Hl ->] | [Hl ->]].
    - split; [ lia | apply PAGE_ALIGN_idem ].
    - split; [ lia | ]. pose proof (PAGE_ALIGN_mono (PAGE_ALIGN x) a Hl) as Hm.
      rewrite PAGE_ALIGN_idem in Hm. lia. }
  destruct Hy as [Hy Ha]. unfold page_prot. rewrite <- Ha. fold (page_prot m y).
  specialize (Hr y Hy). unfold has_prot in Hr. destruct (page_prot m y); [ by eexists | done ].
Qed.

Lemma rwx_after_grow flag m m' a n :
  range_has flag m a n -> rwx_after m m' a n -> rwx_grow m m'.
Proof.
  intros Hr [B P]. split; [ done | ]. intros x. rewrite P.
  destruct (touched a n x) eqn:E; [ | by left ]. right.
  split; [ done | by eapply touched_mapped ].
Qed.

Section MemSpec.
Context `{Kernel}.

(** The kernel does not refuse to make the pages of a range RWX. *)
Definition rwx_allowed (a n : Z) : Prop :=
  forall m x, touched a n x = true ->
    k_map_refused m (PAGE_ALIGN x) PAGE_SZ PROT_RWX = false.

Lemma sys_mprotect_rwx p a n :
  0 < n -> PAGE_OFFT a + n <= PAGE_SZ ->
  is_Some (page_prot (mem p) a) -> rwx_allowed a n ->
  exists m', sys_mprotect (PAGE_ALIGN a) PAGE_SZ PROT_RWX p = Ret 0 (p <| mem := m' |>) /\
    rwx_after (mem p) m' a n.
Proof.
  intros H0 H1 Hm Hal. unfold sys_mprotect. rewrite mprotect_page; [ | done | ].
  - eexists. split; [ reflexivity | ]. split; intros x; [ done | ].
    rewrite touched_page by done. unfold page_prot. simpl.
    destruct (Z.eqb_spec (PAGE_ALIGN a) (PAGE_ALIGN x)) as [<- |].
    + apply lookup_insert_eq.
    + by apply lookup_insert_ne.
  - apply Hal. rewrite touched_page by done. apply Z.eqb_refl.
Qed.

Lemma round_read_ok p from to offt size :
  let a := from + offt in
  0 <= from -> 0 <= offt -> 0 < size < 2 ^ 31 -> a + size < 2 ^ 64 ->
  PAGE_OFFT a + size <= PAGE_SZ -> offt + size <= Z.of_nat (length to) ->
  range_has PROT_READ (mem p) a size -> rwx_allowed a size ->
  exists m', round_read from to offt size p
    = Ret (size, take (Z.to_nat offt) to ++ mem_bytes (mem p) a (Z.to_nat size)
                 ++ drop (Z.to_nat (offt + size)) to) (p <| mem := m' |>)
    /\ rwx_after (mem p) m' a size.
Proof.
  intros a Hf Ho Hs Hu Hp Hl Hr Hal.
  destruct (sys_mprotect_rwx p a size) as (m' & Em & Ham); try done; try lia.
  { apply (range_has_mapped PROT_READ _ a size); [ done | lia ]. }
  exists m'. split; [ | done ].
  unfold round_read. fold a. rewrite u64_small by (unfold is_u64; lia).
  cbn [is_mapped negb]. change (get_prot a =? -1) with false.
  change (truth (Z.land (get_prot a) PROT_READ)) with true. cbv iota.
  erewrite bind_Ret by reflexivity. cbn [Z.eqb].
  unfold copy_out, lift_option.
  unfold mbind at 1, M_bind at 1.
  rewrite load_bytes_ok by (rewrite ?Z2Nat.id; lia || done). cbn [option_bind mbind].
  rewrite buf_write_ok by (rewrite ?mem_bytes_length; lia). cbn [mbind option_bind].
  rewrite mem_bytes_length. change (get_prot a) with PROT_RWX.
  erewrite bind_Ret by exact Em. cbn [Z.eqb]. cbv iota.
  unfold mret, M_ret, s32. rewrite sext_small by lia.
  do 2 f_equal. do 2 f_equal. f_equal. lia.
Qed.

Lemma assert_same_ok p a buf size :
  0 <= a -> 0 <= size -> a + size <= 2 ^ 64 -> size <= Z.of_nat (length buf) ->
  range_has PROT_READ (mem p) a size ->
  take (Z.to_nat size) buf = mem_bytes (mem p) a (Z.to_nat size) ->
  assert_same a buf size p = Ret () p.
Proof.
  intros H0 H1 H2 Hl Hr Hb. unfold assert_same, lift_option, mbind, M_bind.
  rewrite load_bytes_ok by (rewrite ?Z2Nat.id; lia || done).
  unfold buf_read. rewrite (proj2 (Z.leb_le 0 0)), (proj2 (Z.leb_le _ _)) by lia. simpl.
  rewrite drop_0, Hb. unfold assert_c. by rewrite bool_decide_eq_true_2.
Qed.

(** The chunk the loop of [mem_read] copies last. *)
Definition last_chunk (from size : Z) : Z :=
  if PAGE_OFFT (from + size) =? 0 then PAGE_SZ else PAGE_OFFT (from + size).

(** The number of pages that remain after [k] bytes. *)
Definition pages_left (from size k : Z) : Z :=
  if k =? size then 0 else (from + size - 1) / PAGE_SZ - (from + k) / PAGE_SZ + 1.

Lemma pages_left_nonneg from size k : 0 <= k <= size -> 0 <= pages_left from size k.
Proof.
  intros Hk. unfold pages_left. case_match; [ lia | ]. bool_to_prop.
  pose proof (Z.div_le_mono (from + k) (from + size - 1) PAGE_SZ ltac:(done) ltac:(lia)). lia.
Qed.

(** A chunk that ends the range or a page leaves fewer pages. *)
Lemma pages_left_step from size k sz :
  0 <= k -> 0 < sz -> k + sz <= size ->
  (k + sz = size \/ PAGE_OFFT (from + (k + sz)) = 0) ->
  pages_left from size (k + sz) + 1 <= pages_left from size k.
Proof.
  intros H0 H1 H2 H3. unfold pages_left.
  destruct (Z.eqb_spec k size); [ lia | ].
  destruct (Z.eqb_spec (k + sz) size) as [E | Hne].
  - pose proof (Z.div_le_mono (from + k) (from + size - 1) PAGE_SZ ltac:(done) ltac:(lia)). lia.
  - destruct H3 as [? | H3]; [ lia | ]. rewrite PAGE_OFFT_mod in H3.
    enough ((from + k) / PAGE_SZ + 1 <= (from + (k + sz)) / PAGE_SZ) by lia.
    apply Z.mod_divide in H3 as [q Hq]; [ | done ]. rewrite Hq, Z.div_mul by done.
    enough ((from + k) / PAGE_SZ < q) by lia.
    apply Z.div_lt_upper_bound; unfold PAGE_SZ in *; lia.
Qed.

Lemma copy_fuel_enough from size k :
  0 <= from -> 0 <= k -> 0 <= size ->
  pages_left from size k + 1 <= Z.of_nat (copy_fuel size).
Proof.
  intros Hf Hk Hs. unfold copy_fuel, pages_left.
  assert (Hd : 0 <= size / PAGE_SZ) by (apply Z.div_pos; done || lia).
  rewrite Z2Nat.id by lia. case_match; [ lia | ].
  assert ((from + size - 1) / PAGE_SZ <= from / PAGE_SZ + size / PAGE_SZ + 1).
  { unfold PAGE_SZ. Z.div_mod_to_equations. lia. }
  pose proof (Z.div_le_mono from (from + k) PAGE_SZ ltac:(done) ltac:(lia)). lia.
Qed.

(** A chunk of the copy loops: inside one page, ending the range or the page. *)
Record chunk_ok (from size k sz : Z) : Prop := {
  ck_pos : 0 < sz;
  ck_le : k + sz <= size;
  ck_page : PAGE_OFFT (from + k) + sz <= PAGE_SZ;
  ck_end : k + sz = size \/ PAGE_OFFT (from + (k + sz)) = 0;
  ck_last : k + sz = size -> sz = last_chunk from size
}.

Lemma last_chunk_aligned from size k :
  PAGE_OFFT (from + k) = 0 -> 0 < size - k <= PAGE_SZ -> last_chunk from size = size - k.
Proof.
  intros Ha Hs. unfold last_chunk. rewrite PAGE_OFFT_mod in *.
  replace (from + size) with (from + k + (size - k)) by lia.
  rewrite Z.add_mod, Ha by done. rewrite Z.add_0_l, Z.mod_mod by done.
  destruct (decide (size - k = PAGE_SZ)) as [-> |]; [ done | ].
  rewrite Z.mod_small by lia. by rewrite (proj2 (Z.eqb_neq (size - k) 0)) by lia.
Qed.

Lemma next_chunk from size k :
  0 <= from -> 0 <= k < size -> from + size < 2 ^ 64 -> PAGE_OFFT (from + k) = 0 ->
  chunk_ok from size k
    (if PAGE_ALIGN (u64 (k + from)) =? PAGE_ALIGN (u64 (size + from))
     then u64 (size - k) else PAGE_SZ).
Proof.
  intros Hf Hk Hu Ha. rewrite !u64_small by (unfold is_u64; lia).
  pose proof (PAGE_ALIGN_bounds (size + from)) as Hb.
  pose proof (PAGE_ALIGN_OFFT (from + k)) as Hq. rewrite Ha in Hq.
  replace (k + from) with (from + k) by lia.
  destruct (Z.eqb_spec (PAGE_ALIGN (from + k)) (PAGE_ALIGN (size + from))) as [E | E].
  - split; try lia. intros _. symmetry. apply last_chunk_aligned; lia.
  - assert (PAGE_ALIGN (from + k) + PAGE_SZ <= PAGE_ALIGN (size + from)).
    { pose proof (PAGE_ALIGN_mono (from + k) (size + from) ltac:(lia)).
      pose proof (PAGE_ALIGN_quot (from + k)). pose proof (PAGE_ALIGN_quot (size + from)).
      unfold PAGE_SZ in *. lia. }
    split; try (unfold PAGE_SZ in *; lia).
    + right. rewrite Z.add_assoc, PAGE_OFFT_mod in *.
      rewrite Z.add_mod, Ha by done. done.
    + intros E'. symmetry. rewrite (last_chunk_aligned from size k); unfold PAGE_SZ in *; lia.
Qed.

Lemma mem_read_loop_ok fuel to0 from size k sz count ret m0 p :
  0 <= from -> 0 <= k <= size -> size < 2 ^ 31 -> from + size < 2 ^ 64 ->
  size <= Z.of_nat (length to0) ->
  range_has PROT_READ m0 from size -> rwx_allowed from size ->
  pages_left from size k < Z.of_nat fuel ->
  (k < size -> chunk_ok from size k sz) ->
  (k = size -> ret = last_chunk from size) ->
  rwx_after m0 (mem p) from k ->
  exists m', mem_read_loop fuel (mem_bytes m0 from (Z.to_nat k) ++ drop (Z.to_nat k) to0)
               from size k sz count ret p
    = Ret (last_chunk from size,
           mem_bytes m0 from (Z.to_nat size) ++ drop (Z.to_nat size) to0) (p <| mem := m' |>)
    /\ rwx_after m0 m' from size.
Proof.
  intros Hf Hk Hs Hu Hl Hr Hal. revert k sz count ret p Hk.
  induction fuel as [| fuel IH]; intros k sz count ret p Hk Hfu Hck Hret Hra.
  { pose proof (pages_left_nonneg from size k Hk). lia. }
  cbn [mem_read_loop]. destruct (Z.eqb_spec k size) as [-> | Hne].
  - exists (mem p). split; [ | done ]. rewrite Hret by done.
    rewrite (bind_Ret _ _ p () p); [ by destruct p | ]. apply assert_same_ok; try lia.
    + rewrite length_app, mem_bytes_length, length_drop. lia.
    + eapply range_has_rwx; eauto. auto with dry.
    + rewrite take_app_length' by (by rewrite mem_bytes_length).
      apply mem_bytes_ext. intros x _. symmetry. apply Hra.
  - destruct Hck as [C1 C2 C3 C4 C5]; [ lia | ].
    destruct (round_read_ok p from (mem_bytes m0 from (Z.to_nat k) ++ drop (Z.to_nat k) to0)
                k sz) as (m' & E & Hra'); try lia.
    { rewrite length_app, mem_bytes_length, length_drop. lia. }
    { eapply range_has_rwx; [ exact Hra | auto with dry | intros x Hx; apply Hr; lia ]. }
    { intros m x Hx. apply Hal.
      replace size with (k + (sz + (size - k - sz))) by lia.
      rewrite !touched_app by lia. by rewrite Hx, orb_true_r. }
    erewrite bind_Ret by exact E. cbv beta iota.
    rewrite (proj2 (Z.eqb_neq sz 0)) by lia. rewrite (u64_small (k + sz)) by (unfold is_u64; lia).
    rewrite take_app_length' by (by rewrite mem_bytes_length).
    rewrite drop_app_ge by (rewrite mem_bytes_length; lia).
    rewrite mem_bytes_length, drop_drop, app_assoc.
    rewrite (mem_bytes_ext (mem p) m0) by (intros; apply Hra).
    rewrite mem_bytes_snoc by lia.
    replace (Z.to_nat k + (Z.to_nat (k + sz) - Z.to_nat k))%nat with (Z.to_nat (k + sz)) by lia.
    destruct (IH (k + sz)
      (if PAGE_ALIGN (u64 (k + sz + from)) =? PAGE_ALIGN (u64 (size + from))
       then u64 (size - (k + sz)) else PAGE_SZ) (s32 (count + sz)) sz
      (p <| mem := m' |>)) as (m2 & E2 & Hra2); try lia.
    + pose proof (pages_left_step from size k sz). lia.
    + intros Hlt. apply next_chunk; lia.
    + cbn. eapply rwx_after_trans; eauto; lia.
    + exists m2. split; [ exact E2 | done ].
Qed.

Lemma mem_read_run (p : proc) (to : list Z) (from size : Z) :
  0 <= from -> 0 < size < 2 ^ 31 -> from + size < 2 ^ 64 -> size <= Z.of_nat (length to) ->
  range_has PROT_READ (mem p) from size -> rwx_allowed from size ->
  exists m', mem_read to from size p
    = Ret (if PAGE_OFFT from + size <=? PAGE_SZ then size else last_chunk from size,
           mem_bytes (mem p) from (Z.to_nat size) ++ drop (Z.to_nat size) to)
        (p <| mem := m' |>)
    /\ rwx_after (mem p) m' from size.
Proof.
  intros Hf Hs Hu Hl Hr Hal.
  unfold mem_read. rewrite (proj2 (Z.eqb_neq size 0)) by lia.
  pose proof (PAGE_OFFT_range from) as Ho.
  destruct (Z.ltb_spec (PAGE_SZ - PAGE_OFFT from) size) as [Hlt | Hge].
  - rewrite (proj2 (Z.leb_gt _ _)) by lia.
    destruct (mem_read_loop_ok (copy_fuel size) to from size 0 (PAGE_SZ - PAGE_OFFT from) 0 0
                (mem p) p) as (m' & E & Hra); try done; try lia.
    + pose proof (copy_fuel_enough from size 0). lia.
    + intros _. split; rewrite ?Z.add_0_r; try lia.
      right. replace (from + (0 + (PAGE_SZ - PAGE_OFFT from)))
        with (PAGE_ALIGN from + PAGE_SZ) by (pose proof (PAGE_ALIGN_OFFT from); lia).
      rewrite PAGE_OFFT_mod, Z.add_mod, PAGE_ALIGN_mod by done. done.
    + rewrite drop_0 in E. exists m'. split; [ exact E | done ].
  - rewrite (proj2 (Z.leb_le _ _)) by lia.
    destruct (round_read_ok p from to 0 size) as (m' & E & Hra);
      rewrite ?Z.add_0_r in *; try done; try lia.
    exists m'. split; [ | done ]. erewrite bind_Ret by exact E. cbv beta iota.
    rewrite (proj2 (Z.eqb_neq size 0)) by lia. rewrite Z.add_0_l.
    unfold s32. rewrite sext_small by lia. done.
Qed.

(** C13: When the range is readable, mem_read copies exactly its bytes to the front of the
    buffer, changes no byte of the memory and makes the pages of the range RWX; the value
    returned is the size when the range lies in one page and otherwise the size of the last
    chunk only. *)
Theorem mem_read_ok (p : proc) (to : list Z) (from size : Z)
    (Hf : 0 <= from) (Hs : 0 < size < 2 ^ 31) (Hu : from + size < 2 ^ 64)
    (Hl : size <= Z.of_nat (length to))
    (Hr : range_has PROT_READ (mem p) from size) (Hal : rwx_allowed from size) :
  exists m', mem_read to from size p
    = Ret (if PAGE_OFFT from + size <=? PAGE_SZ then size else last_chunk from size,
           mem_bytes (mem p) from (Z.to_nat size) ++ drop (Z.to_nat size) to)
        (p <| mem := m' |>)
    /\ rwx_after (mem p) m' from size.
Proof. by apply mem_read_run. Qed.

(** ** [mem_write] *)

Lemma is_mapped_loop_true base bound j :
  bound mod PAGE_SZ = 0 -> 0 <= j * PAGE_SZ <= bound -> bound < 2 ^ 64 ->
  forall fuel, bound / PAGE_SZ - j < Z.of_nat fuel ->
  is_mapped_loop base (j * PAGE_SZ) bound fuel = true.
Proof.
  intros Hb Hj Hu fuel. revert j Hj. apply Z.mod_divide in Hb as [q ->]; [ | done ].
  rewrite Z.div_mul by done.
  induction fuel as [| fuel IH]; intros j Hj Hf; unfold PAGE_SZ in *; [ lia | ].
  cbn [is_mapped_loop]. destruct (Z.ltb_spec (j * 0x1000) (q * 0x1000)); [ | done ].
  cbn [is_mapped]. rewrite u64_small by (unfold is_u64, PAGE_SZ; lia).
  replace (j * 0x1000 + PAGE_SZ) with ((j + 1) * 0x1000) by (unfold PAGE_SZ; lia).
  apply IH; lia.
Qed.

(** The stub makes every range mapped. *)
Lemma is_mapped_range_true base range : is_mapped_range base range = true.
Proof.
  unfold is_mapped_range. set (b := u64 (PAGE_ROUND range + 1)).
  assert (Hm : b mod PAGE_SZ = 0).
  { unfold b, u64. rewrite Z.mod_mod_divide by (by exists (2 ^ 52)).
    apply PAGE_ROUND_succ_mod. }
  pose proof (u64_range (PAGE_ROUND range + 1)) as Hr. fold b in Hr. unfold is_u64 in Hr.
  change 0 with (0 * PAGE_SZ). assert (0 <= b / PAGE_SZ) by (apply Z.div_pos; done || lia).
  apply is_mapped_loop_true; done || lia.
Qed.

(** [m'] is [m] with the first [len] bytes of [l] at [a] and the pages of [n] bytes at
    [a] RWX. *)
Record written (m m' : aspace) (a : Z) (l : list Z) (len n : Z) : Prop := {
  wr_bytes : forall x, byte_at m' x = if in_range a len x
                                      then nth (Z.to_nat (x - a)) l 0 else byte_at m x;
  wr_prots : forall x, page_prot m' x = if touched a n x then Some PROT_RWX else page_prot m x
}.

Lemma written_has m m' a l len n x flag :
  written m m' a l len n -> flag ∈ [PROT_READ; PROT_WRITE; PROT_EXEC] ->
  touched a n x = true \/ has_prot m x flag = true -> has_prot m' x flag = true.
Proof.
  intros [_ P] Hf Hx. unfold has_prot in *. rewrite P.
  pose proof (rwx_flag flag Hf) as Hr.
  destruct (touched a n x); [ done | ]. by destruct Hx.
Qed.

Lemma range_has_written flag m m' a n b l len k :
  written m m' b l len k -> flag ∈ [PROT_READ; PROT_WRITE; PROT_EXEC] ->
  range_has flag m a n -> range_has flag m' a n.
Proof. intros Ha Hf Hr x Hx. eapply written_has; eauto. Qed.

Lemma written_step m0 m1 m2 m3 to from k sz n :
  0 <= k -> 0 <= sz -> 0 <= n -> k + sz <= Z.of_nat (length from) ->
  written m0 m1 to from k k ->
  prots m2 = prots m1 ->
  (forall x, byte_at m2 x = if in_range (to + k) sz x
             then nth (Z.to_nat (x - (to + k))) (take (Z.to_nat sz) (drop (Z.to_nat k) from)) 0
             else byte_at m1 x) ->
  rwx_after m2 m3 (to + k) n ->
  written m0 m3 to from (k + sz) (k + n).
Proof.
  intros Hk Hs Hn Hl [B1 P1] Hp B2 [B3 P3]. split; intros x.
  - rewrite B3, B2, B1.
    destruct (in_range_spec (to + k) sz x) as [Hx | Hx], (in_range_spec to k x) as [Hy | Hy],
      (in_range_spec to (k + sz) x) as [Hw | Hw]; try lia; try done.
    rewrite !nth_lookup, lookup_take_lt, lookup_drop by lia. do 2 f_equal. lia.
  - rewrite P3. unfold page_prot at 1. rewrite Hp. fold (page_prot m1 x). rewrite P1.
    rewrite touched_app by lia.
    by destruct (touched to k x), (touched (to + k) n x).
Qed.

(** The copy and the [mprotect] of one iteration of the loop of [mem_write]. *)
Lemma copy_in_ok p a from k sz :
  0 <= a -> 0 <= k -> 0 <= sz -> a + sz < 2 ^ 64 -> k + sz <= Z.of_nat (length from) ->
  range_has PROT_WRITE (mem p) a sz ->
  exists m', copy_in a from k sz p = Ret () (p <| mem := m' |>) /\ prots m' = prots (mem p) /\
    forall x, byte_at m' x = if in_range a sz x
             then nth (Z.to_nat (x - a)) (take (Z.to_nat sz) (drop (Z.to_nat k) from)) 0
             else byte_at (mem p) x.
Proof.
  intros Ha Hk Hs Hu Hl Hw. unfold copy_in, lift_mem, buf_read.
  rewrite (proj2 (Z.leb_le 0 k)), (proj2 (Z.leb_le _ _)) by lia. simpl.
  set (l := take (Z.to_nat sz) (drop (Z.to_nat k) from)).
  assert (Hlen : Z.of_nat (length l) = sz) by (unfold l; rewrite length_take, length_drop; lia).
  destruct (store_bytes_ok (mem p) a l) as (m' & E & Hp & Hb); rewrite ?Hlen; try lia; try done.
  exists m'. rewrite E. split_and!; [ done | done | ]. intros x. by rewrite Hb, Hlen.
Qed.

Lemma written_nil m a l : written m m a l 0 0.
Proof.
  split; intros x; [ | by rewrite touched_nil ].
  destruct (in_range_spec a 0 x); [ lia | done ].
Qed.

Lemma written_mem_bytes m m' a l size n :
  0 <= size <= Z.of_nat (length l) -> written m m' a l size n ->
  take (Z.to_nat size) l = mem_bytes m' a (Z.to_nat size).
Proof.
  intros Hs Hwr. set (l' := take (Z.to_nat size) l).
  assert (Hl : length l' = Z.to_nat size) by (unfold l'; rewrite length_take; lia).
  rewrite <- Hl. symmetry. apply mem_bytes_eq. intros x Hx. rewrite (wr_bytes _ _ _ _ _ _ Hwr).
  destruct (in_range_spec a size x); [ | lia ].
  unfold l'. rewrite !nth_lookup, lookup_take_lt by lia. done.
Qed.

Lemma rwx_allowed_sub a n n' : rwx_allowed a n -> 0 <= n' -> n' <= n -> rwx_allowed a n'.
Proof.
  intros Hal H0 H1 m x Hx. apply Hal. replace n with (n' + (n - n')) by lia.
  by rewrite touched_app, Hx by lia.
Qed.

Lemma rwx_allowed_within a n b k :
  rwx_allowed a n -> a <= b -> 0 <= k -> b + k <= a + n -> rwx_allowed b k.
Proof.
  intros Hal H0 H1 H2 m x Hx. apply Hal.
  replace n with ((b - a) + (k + (a + n - b - k))) by lia.
  rewrite !touched_app by lia. replace (a + (b - a)) with b by lia.
  by rewrite Hx, orb_true_r.
Qed.

Lemma page_end_offt a : PAGE_OFFT (a + (PAGE_SZ - PAGE_OFFT a)) = 0.
Proof.
  replace (a + (PAGE_SZ - PAGE_OFFT a)) with (PAGE_ALIGN a + PAGE_SZ)
    by (pose proof (PAGE_ALIGN_OFFT a); lia).
  by rewrite PAGE_OFFT_mod, Z.add_mod, PAGE_ALIGN_mod by done.
Qed.

(** The page that starts right after a range is not one of its pages. *)
Lemma touched_end a n : PAGE_OFFT (a + n) = 0 -> touched a n (a + n) = false.
Proof.
  intros H0. unfold touched. pose proof (PAGE_ALIGN_OFFT (a + n)).
  pose proof (PAGE_ALIGN_bounds (a + n - 1)).
  rewrite (proj2 (Z.leb_gt (PAGE_ALIGN (a + n)) _)) by lia. by rewrite andb_false_r.
Qed.

(** The guards of one iteration reduce to the copy and the final [mprotect]. *)
Lemma mem_write_loop_unfold fuel to from size k p :
  0 <= to -> 0 <= k <= size -> to + size < 2 ^ 64 ->
  mem_write_loop (S fuel) to from size k p
  = (let _sz := if PAGE_SZ - PAGE_OFFT (to + k) <? size - k
                then PAGE_SZ - PAGE_OFFT (to + k) else size - k in
     copy_in (to + k) from k _sz;;
     r ← sys_mprotect (PAGE_ALIGN (to + k)) PAGE_SZ PROT_RWX;
     if r =? -1 then mret (-1)
     else if k =? size then
       assert_c (k =? size);; assert_same to from size;; mret (s32 size)
     else mem_write_loop fuel to from size (s32 (k + _sz))) p.
Proof.
  intros H0 Hk Hu. cbn [mem_write_loop].
  rewrite (u64_small (to + k)), (u64_small (size - k)), (u64_small k)
    by (unfold is_u64; lia).
  change (get_prot (to + k)) with PROT_RWX. reflexivity.
Qed.

(** The loop up to the end of the range. *)
Lemma mem_write_loop_run fuel to from size k m0 p :
  0 <= to -> 0 <= k <= size -> size < 2 ^ 31 -> to + size < 2 ^ 64 ->
  size <= Z.of_nat (length from) ->
  range_has PROT_WRITE m0 to size -> rwx_allowed to size ->
  pages_left to size k < Z.of_nat fuel ->
  written m0 (mem p) to from k k ->
  exists fuel' m', mem_write_loop fuel to from size k p
                   = mem_write_loop (S fuel') to from size size (p <| mem := m' |>)
    /\ written m0 m' to from size size.
Proof.
  intros Ht Hk Hs Hu Hl Hw Hal. revert k p Hk.
  induction fuel as [| fuel IH]; intros k p Hk Hfu Hwr.
  { pose proof (pages_left_nonneg to size k Hk). lia. }
  destruct (decide (k = size)) as [-> | Hne].
  { exists fuel, (mem p). split; [ by destruct p | done ]. }
  rewrite mem_write_loop_unfold by lia. cbv zeta.
  set (sz := if PAGE_SZ - PAGE_OFFT (to + k) <? size - k
             then PAGE_SZ - PAGE_OFFT (to + k) else size - k).
  pose proof (PAGE_OFFT_range (to + k)) as Ho.
  assert (Hsz : 0 < sz <= size - k /\ PAGE_OFFT (to + k) + sz <= PAGE_SZ /\
                (k + sz = size \/ sz = PAGE_SZ - PAGE_OFFT (to + k))).
  { unfold sz. destruct (Z.ltb_spec (PAGE_SZ - PAGE_OFFT (to + k)) (size - k)); lia. }
  destruct Hsz as (Hz1 & Hz2 & Hz4). clearbody sz.
  assert (Hwk : range_has PROT_WRITE (mem p) (to + k) sz)
    by (eapply range_has_written; [ exact Hwr | auto with dry | intros x Hx; apply Hw; lia ]).
  destruct (copy_in_ok p (to + k) from k sz) as (m1 & E1 & Hp1 & Hb1); try lia; try done.
  erewrite bind_Ret by exact E1. cbv beta.
  destruct (sys_mprotect_rwx (p <| mem := m1 |>) (to + k) sz) as (m2 & E2 & Hra); try lia.
  { simpl. unfold page_prot. rewrite Hp1.
    apply (range_has_mapped PROT_WRITE (mem p) (to + k) sz); [ done | lia ]. }
  { intros m x Hx. apply Hal. replace size with (k + (sz + (size - k - sz))) by lia.
    rewrite !touched_app by lia. by rewrite Hx, orb_true_r. }
  erewrite bind_Ret by exact E2. cbn [Z.eqb]. simpl in Hra.
  pose proof (written_step m0 (mem p) m1 m2 to from k sz sz
    ltac:(lia) ltac:(lia) ltac:(lia) ltac:(lia) Hwr Hp1 Hb1 Hra) as Hwr2.
  rewrite (proj2 (Z.eqb_neq k size)) by done. unfold s32. rewrite sext_small by lia.
  destruct (IH (k + sz) (p <| mem := m2 |>)) as (f' & m3 & E3 & Hwr3); try lia; try done.
  { apply Z.lt_le_trans with (pages_left to size k); [ | lia ].
    enough (pages_left to size (k + sz) + 1 <= pages_left to size k) by lia.
    apply pages_left_step; try lia. destruct Hz4 as [? | ->]; [ by left | right ].
    rewrite Z.add_assoc. apply page_end_offt. }
  exists f', m3. split; [ exact E3 | done ].
Qed.

(** The last iteration, which copies nothing, when the page after the range is mapped. *)
Lemma mem_write_loop_last fuel to from size m0 p :
  0 <= to -> 0 <= size < 2 ^ 31 -> to + size + 1 < 2 ^ 64 ->
  size <= Z.of_nat (length from) ->
  is_Some (page_prot m0 (to + size)) -> rwx_allowed to (size + 1) ->
  written m0 (mem p) to from size size ->
  exists m', mem_write_loop (S fuel) to from size size p = Ret size (p <| mem := m' |>)
    /\ written m0 m' to from size (size + 1).
Proof.
  intros Ht Hs Hu Hl Hend Hal Hwr. rewrite mem_write_loop_unfold by lia. cbv zeta.
  pose proof (PAGE_OFFT_range (to + size)) as Ho. rewrite Z.sub_diag.
  rewrite (proj2 (Z.ltb_ge _ 0)) by lia.
  destruct (copy_in_ok p (to + size) from size 0) as (m1 & E1 & Hp1 & Hb1); try lia.
  { intros x Hx. lia. }
  erewrite bind_Ret by exact E1. cbv beta.
  destruct (sys_mprotect_rwx (p <| mem := m1 |>) (to + size) 1) as (m2 & E2 & Hra); try lia.
  { simpl. unfold page_prot. rewrite Hp1. fold (page_prot (mem p) (to + size)).
    rewrite (wr_prots _ _ _ _ _ _ Hwr). case_match; [ by eexists | done ]. }
  { intros m x Hx. apply Hal. rewrite touched_app by lia. rewrite Hx. by rewrite orb_true_r. }
  erewrite bind_Ret by exact E2. cbn [Z.eqb]. simpl in Hra.
  pose proof (written_step m0 (mem p) m1 m2 to from size 0 1
    ltac:(lia) ltac:(lia) ltac:(lia) ltac:(lia) Hwr Hp1 Hb1 Hra) as Hwr2.
  rewrite Z.add_0_r in Hwr2. rewrite Z.eqb_refl.
  exists m2. split; [ | done ]. erewrite bind_Ret by reflexivity.
  rewrite (bind_Ret _ _ _ () (p <| mem := m2 |>)).
  { unfold mret, M_ret, s32. by rewrite sext_small by lia. }
  apply assert_same_ok; simpl; try lia.
  - intros x Hx. eapply written_has; [ exact Hwr2 | auto with dry | left; apply touched_in; lia ].
  - apply (written_mem_bytes m0 m2 to from size (size + 1)); [ lia | done ].
Qed.

Lemma mem_write_run (p : proc) (to : Z) (from : list Z) (size : Z) :
  0 <= to -> 0 <= size < 2 ^ 31 -> to + size + 1 < 2 ^ 64 ->
  size <= Z.of_nat (length from) -> range_has PROT_WRITE (mem p) to size ->
  is_Some (page_prot (mem p) (to + size)) -> rwx_allowed to (size + 1) ->
  exists m', mem_write to from size p = Ret size (p <| mem := m' |>)
    /\ written (mem p) m' to from size (size + 1).
Proof.
  intros Ht Hs Hu Hl Hw Hend Hal.
  unfold mem_write. rewrite is_mapped_range_true. cbn [negb].
  destruct (mem_write_loop_run (copy_fuel size) to from size 0 (mem p) p)
    as (f' & m1 & -> & Hwr); try done; try lia.
  - eapply rwx_allowed_sub; [ exact Hal | lia | lia ].
  - pose proof (copy_fuel_enough to size 0). lia.
  - apply written_nil.
  - destruct (mem_write_loop_last f' to from size (mem p) (p <| mem := m1 |>))
      as (m' & E & Hwr'); try done. by exists m'.
Qed.

(** C12: When the range is writable and the byte after it is mapped, mem_write stores the
    buffer exactly in the range, makes the pages of the range and of the byte after it RWX,
    changes nothing else and returns the size. *)
Theorem mem_write_ok (p : proc) (to : Z) (from : list Z) (size : Z)
    (Ht : 0 <= to) (Hs : 0 <= size < 2 ^ 31) (Hu : to + size + 1 < 2 ^ 64)
    (Hl : size <= Z.of_nat (length from))
    (Hw : range_has PROT_WRITE (mem p) to size)
    (Hend : is_Some (page_prot (mem p) (to + size)))
    (Hal : rwx_allowed to (size + 1)) :
  exists m', mem_write to from size p = Ret size (p <| mem := m' |>)
    /\ written (mem p) m' to from size (size + 1).
Proof. by apply mem_write_run. Qed.

(** When the range ends at the end of a page and the next page is not mapped, mem_write
    writes the whole buffer and still returns -1. *)
Theorem mem_write_page_end (p : proc) (to : Z) (from : list Z) (size : Z)
    (Ht : 0 <= to) (Hs : 0 <= size < 2 ^ 31) (Hu : to + size < 2 ^ 64)
    (Hl : size <= Z.of_nat (length from))
    (Hw : range_has PROT_WRITE (mem p) to size)
    (Halign : PAGE_OFFT (to + size) = 0)
    (Hend : page_prot (mem p) (to + size) = None)
    (Hal : rwx_allowed to size) :
  exists m', mem_write to from size p = Ret (-1) (p <| mem := m' |>)
    /\ written (mem p) m' to from size size.
Proof.
  unfold mem_write. rewrite is_mapped_range_true. cbn [negb].
  destruct (mem_write_loop_run (copy_fuel size) to from size 0 (mem p) p)
    as (f' & m1 & -> & Hwr); try done; try lia.
  { pose proof (copy_fuel_enough to size 0). lia. }
  { apply written_nil. }
  rewrite mem_write_loop_unfold by lia. cbv zeta. rewrite Z.sub_diag, Halign.
  change (PAGE_SZ - 0 <? 0) with false. cbv iota.
  destruct (copy_in_ok (p <| mem := m1 |>) (to + size) from size 0) as (m2 & E2 & Hp2 & Hb2);
    try lia; [ intros x Hx; lia | ].
  simpl in *. erewrite bind_Ret by exact E2. cbv beta.
  rewrite (bind_Ret _ _ _ (-1) (p <| mem := m2 |>)); [ exists m2; split; [ done | ] | ].
  - split; intros x.
    + rewrite Hb2. destruct (in_range_spec (to + size) 0 x); [ lia | apply Hwr ].
    + unfold page_prot. rewrite Hp2. apply Hwr.
  - unfold sys_mprotect. simpl. rewrite mprotect_page_unmapped; [ by destruct m2 | ].
    unfold page_prot. rewrite Hp2. fold (page_prot m1 (to + size)).
    rewrite (wr_prots _ _ _ _ _ _ Hwr), Hend. rewrite touched_end; done.
Qed.

(** Because get_prot reports every page writable, mem_write does not add the missing
    permission: on a page that is not writable it faults at its first byte. *)
Theorem mem_write_not_writable (p : proc) (to : Z) (from : list Z) (size : Z)
    (Ht : 0 <= to) (Hs : 0 < size < 2 ^ 31) (Hu : to + size < 2 ^ 64)
    (Hl : size <= Z.of_nat (length from))
    (Hw : has_prot (mem p) to PROT_WRITE = false) :
  mem_write to from size p = Crashed p.
Proof.
  unfold mem_write. rewrite is_mapped_range_true. cbn [negb].
  assert (Hf : (0 < copy_fuel size)%nat)
    by (pose proof (copy_fuel_enough to size 0 ltac:(lia) ltac:(lia) ltac:(lia));
        pose proof (pages_left_nonneg to size 0 ltac:(lia)); lia).
  destruct (copy_fuel size) as [| f]; [ lia | ].
  rewrite mem_write_loop_unfold by lia. cbv zeta. rewrite Z.add_0_r, Z.sub_0_r.
  pose proof (PAGE_OFFT_range to) as Ho.
  set (sz := if _ <? _ then _ else _).
  assert (Hz : 0 < sz <= size) by (unfold sz; destruct (Z.ltb_spec (PAGE_SZ - PAGE_OFFT to) size); lia).
  clearbody sz. unfold copy_in, lift_mem, buf_read, mbind at 1, M_bind at 1.
  rewrite (proj2 (Z.leb_le 0 0)), (proj2 (Z.leb_le _ _)) by lia. simpl. rewrite drop_0.
  destruct from as [| b from]; [ simpl in Hl; lia | ].
  destruct (Z.to_nat sz) as [| n] eqn:En; [ lia | ]. simpl.
  unfold store8. rewrite u64_small by (unfold is_u64; lia). by rewrite Hw.
Qed.
End MemSpec.
