(* ===== verification/Branch.v ===== *)
(** * Branch conditions (src/analysis.c: [is_set], [is_jmp_taken], [sign_extend])

    The conditions of the conditional jumps, read from the saved flags, and what they mean
    for the operands of the comparison that set the flags. *)

From S2P Require Import Prelude.
From S2P Require Import Pages.
From S2P Require Import Regs.
From S2P Require Import Process.

(** The bits of the flags register (dryadalis_x86.h). *)
Definition CF : Z := Z.shiftl 1 0.
Definition PF : Z := Z.shiftl 1 2.
Definition AF : Z := Z.shiftl 1 4.
Definition ZF : Z := Z.shiftl 1 6.
Definition SF : Z := Z.shiftl 1 7.
Definition TF : Z := Z.shiftl 1 8.
Definition IF : Z := Z.shiftl 1 9.
Definition DF : Z := Z.shiftl 1 10.
Definition OF : Z := Z.shiftl 1 11.

(** The instruction identifiers the sources name, and those of the near call, the near
    return and the system call, which the sources tell by their groups; [X86_INS_OTHER]
    stands for the rest of the enumeration. *)
Inductive x86_insn :=
  | X86_INS_JE | X86_INS_JNE | X86_INS_JA | X86_INS_JAE | X86_INS_JB | X86_INS_JBE
  | X86_INS_JCXZ | X86_INS_JECXZ | X86_INS_JRCXZ | X86_INS_JG | X86_INS_JGE | X86_INS_JL
  | X86_INS_JLE | X86_INS_JO | X86_INS_JNO | X86_INS_JP | X86_INS_JNP | X86_INS_JS
  | X86_INS_JNS | X86_INS_JMP | X86_INS_CALL | X86_INS_RET | X86_INS_SYSCALL
  | X86_INS_OTHER (id : Z).

#[global] Instance x86_insn_eq_dec : EqDecision x86_insn.
Proof. solve_decision. Defined.

Section Branch.
Context `{RegEnum}.

(** [read_reg(key, s_binary->dbi_handler->hashmap)] *)
Definition read_guest (key : x86_reg) : M Z :=
  lift_option (fun p => read_reg key (table (dbi p)) (gstate p)).

Definition is_set (flag : Z) : M bool :=
  eflags ← read_guest X86_REG_EFLAGS;
  (if eflags =? minus1 then fatal_dump else mret ());;
  mret (truth (Z.land eflags flag)).

(** [is_test]; the masks are Capstone's [X86_EFLAGS_TEST_*] constants. *)
Definition is_test (TEST_AF TEST_CF TEST_DF TEST_IF TEST_OF TEST_SF TEST_TF TEST_ZF : Z)
    (cs_eflags : Z) : bool :=
  truth (Z.land cs_eflags
    (Z.lor (Z.lor (Z.lor (Z.lor (Z.lor (Z.lor (Z.lor TEST_AF TEST_CF) TEST_DF) TEST_IF)
                                TEST_OF) TEST_SF) TEST_TF) TEST_ZF)).

Lemma is_test_spec af cf df if_ of_ sf tf zf cs_eflags :
  is_test af cf df if_ of_ sf tf zf cs_eflags = true <->
  exists m, m ∈ [af; cf; df; if_; of_; sf; tf; zf] /\ Z.land cs_eflags m <> 0.
Proof.
  rewrite <- Exists_exists. unfold is_test, truth.
  rewrite negb_true_iff, Z.eqb_neq, !Z.land_lor_distr_r, !Z.lor_eq_0_iff, !Exists_cons, Exists_nil.
  split; [ intros Hn | tauto ]. apply dec_stable. tauto.
Qed.

(** C's [&&], [||] and [!] on conditions that may not return. *)
Definition and_c (m1 m2 : M bool) : M bool := b ← m1; if (b : bool) then m2 else mret false.
Definition or_c (m1 m2 : M bool) : M bool := b ← m1; if (b : bool) then mret true else m2.
Definition not_c (m : M bool) : M bool := b ← m; mret (negb b).
Definition eq_c (m1 m2 : M bool) : M bool := a ← m1; b ← m2; mret (Bool.eqb a b).

Definition is_jmp_taken (id : x86_insn) : M bool :=
  match id with
  | X86_INS_JE => is_set ZF
  | X86_INS_JNE => not_c (is_set ZF)
  | X86_INS_JA => and_c (not_c (is_set CF)) (not_c (is_set ZF))
  | X86_INS_JAE => not_c (is_set CF)
  | X86_INS_JB => is_set CF
  | X86_INS_JBE => or_c (is_set CF) (is_set ZF)
  | X86_INS_JCXZ => v ← read_guest X86_REG_CX; mret (negb (truth v))
  | X86_INS_JECXZ => v ← read_guest X86_REG_ECX; mret (negb (truth v))
  | X86_INS_JRCXZ => v ← read_guest X86_REG_RCX; mret (negb (truth v))
  | X86_INS_JG => and_c (not_c (is_set ZF)) (eq_c (is_set SF) (is_set OF))
  | X86_INS_JGE => eq_c (is_set SF) (is_set OF)
  | X86_INS_JL => not_c (eq_c (is_set SF) (is_set OF))
  | X86_INS_JLE => or_c (is_set ZF) (not_c (eq_c (is_set SF) (is_set OF)))
  | X86_INS_JO => is_set OF
  | X86_INS_JNO => not_c (is_set OF)
  | X86_INS_JP => is_set PF
  | X86_INS_JNP => not_c (is_set PF)
  | X86_INS_JS => is_set SF
  | X86_INS_JNS => not_c (is_set SF)
  | X86_INS_JMP => mret true
  | X86_INS_CALL | X86_INS_RET | X86_INS_SYSCALL | X86_INS_OTHER _ => fatal_dump
  end.
End Branch.

(** [sign_extend]: the [int] shifts of the sources, whose operands stay below bit 31 for
    the sizes 1 and 2; [None] where the shift count or its result leaves [int]. *)
Definition sign_extend (size value : Z) : option Z :=
  if (1 <=? size) && (size * 8 - 1 <? 31) then
    Some (s64 (Z.lor (u64 (Z.shiftl (Z.land value (Z.shiftl 1 (size * 8 - 1))) (63 - (size - 1))))
                     (Z.land value (u64 (Z.lnot (Z.shiftl 0 (size * 8 - 1)))))))
  else None.

(** ** The conditions of the architecture *)

(** The flags [cmp a, b] of width [w] leaves in a flags register. *)
Record cmp_flags (w a b flags : Z) : Prop := {
  cf_cf : Z.testbit flags 0 = (a <? b);
  cf_zf : Z.testbit flags 6 = (a =? b);
  cf_sf : Z.testbit flags 7 = (2 ^ (w - 1) <=? (a - b) mod 2 ^ w);
  cf_of : Z.testbit flags 11 = negb (sext w (a - b) =? sext w a - sext w b)
}.

(** The relation each conditional jump decides between the operands of the comparison. *)
Definition jcc_relation (w : Z) (id : x86_insn) (a b : Z) : option bool :=
  match id with
  | X86_INS_JE => Some (a =? b)
  | X86_INS_JNE => Some (negb (a =? b))
  | X86_INS_JA => Some (b <? a)
  | X86_INS_JAE => Some (b <=? a)
  | X86_INS_JB => Some (a <? b)
  | X86_INS_JBE => Some (a <=? b)
  | X86_INS_JG => Some (sext w b <? sext w a)
  | X86_INS_JGE => Some (sext w b <=? sext w a)
  | X86_INS_JL => Some (sext w a <? sext w b)
  | X86_INS_JLE => Some (sext w a <=? sext w b)
  | _ => None
  end.

(** The condition of every jump as a function of the flags and of [rcx]. *)
Definition jcc_cond (id : x86_insn) (s : state_rtime) : option bool :=
  let fl i := Z.testbit (rflags s) i in
  match id with
  | X86_INS_JE => Some (fl 6)
  | X86_INS_JNE => Some (negb (fl 6))
  | X86_INS_JA => Some (negb (fl 0 || fl 6))
  | X86_INS_JAE => Some (negb (fl 0))
  | X86_INS_JB => Some (fl 0)
  | X86_INS_JBE => Some (fl 0 || fl 6)
  | X86_INS_JCXZ => Some (rcx s mod 2 ^ 16 =? 0)
  | X86_INS_JECXZ => Some (rcx s mod 2 ^ 32 =? 0)
  | X86_INS_JRCXZ => Some (rcx s mod 2 ^ 64 =? 0)
  | X86_INS_JG => Some (negb (fl 6 || xorb (fl 7) (fl 11)))
  | X86_INS_JGE => Some (negb (xorb (fl 7) (fl 11)))
  | X86_INS_JL => Some (xorb (fl 7) (fl 11))
  | X86_INS_JLE => Some (fl 6 || xorb (fl 7) (fl 11))
  | X86_INS_JO => Some (fl 11)
  | X86_INS_JNO => Some (negb (fl 11))
  | X86_INS_JP => Some (fl 2)
  | X86_INS_JNP => Some (negb (fl 2))
  | X86_INS_JS => Some (fl 7)
  | X86_INS_JNS => Some (negb (fl 7))
  | X86_INS_JMP => Some true
  | X86_INS_CALL | X86_INS_RET | X86_INS_SYSCALL | X86_INS_OTHER _ => None
  end.

#[local] Arguments Z.testbit : simpl never.

Section BranchSpec.
Context `{RegEnum}.

Lemma read_guest_ok r p :
  hashmap_ok (table (dbi p)) -> r <> X86_REG_ENDING ->
  read_guest r p = Ret (reg_value r (gstate p)) p.
Proof. intros Hh Hr. unfold read_guest, lift_option. by rewrite read_reg_ok. Qed.

(** The flags of a state, without the bits [read_reg] masks. *)
Lemma is_set_ok n p :
  hashmap_ok (table (dbi p)) -> 0 <= n < 16 ->
  is_set (Z.shiftl 1 n) p = Ret (Z.testbit (rflags (gstate p)) n) p.
Proof.
  intros Hh Hn. unfold is_set. erewrite bind_Ret by (by apply read_guest_ok).
  unfold reg_value. simpl.
  set (fl := Z.land (rflags (gstate p)) 0xFCFFFF).
  assert (Hf : 0 <= fl < 2 ^ 24).
  { unfold fl. assert (E : Z.land (rflags (gstate p)) 0xFCFFFF
                = Z.land (Z.land (rflags (gstate p)) 0xFCFFFF) (2 ^ 24 - 1))
      by (rewrite <- Z.land_assoc; reflexivity).
    rewrite E, land_mask by lia. by apply Z.mod_pos_bound. }
  rewrite (proj2 (Z.eqb_neq fl minus1)) by (change minus1 with (2 ^ 64 - 1); lia).
  unfold mbind, M_bind. simpl. rewrite truth_land_bit by lia.
  unfold fl. rewrite Z.land_spec.
  assert (Hb : Z.testbit 0xFCFFFF n = true).
  { assert (n ∈ seqZ 0 16) as Hin by (apply elem_of_seqZ; lia). revert Hin.
    apply (Forall_forall (fun n => Z.testbit 0xFCFFFF n = true)).
    apply (bool_decide_unpack _). vm_compute. exact I. }
  by rewrite Hb, andb_true_r.
Qed.

(** [is_jmp_taken] computes the condition of the architecture and changes nothing; an
    identifier outside the switch is fatal. *)
Lemma is_jmp_taken_ok id p :
  hashmap_ok (table (dbi p)) ->
  is_jmp_taken id p
  = match jcc_cond id (gstate p) with Some b => Ret b p | None => fatal_dump p end.
Proof.
  intros Hh.
  assert (Hfl : forall n, 0 <= n < 16 ->
            is_set (Z.shiftl 1 n) p = Ret (Z.testbit (rflags (gstate p)) n) p)
    by (intros; by apply is_set_ok).
  destruct id; cbn [is_jmp_taken jcc_cond];
    unfold and_c, or_c, not_c, eq_c, CF, PF, ZF, SF, OF, mbind, M_bind, mret, M_ret;
    rewrite ?read_guest_ok by done; rewrite ?Hfl by lia;
    repeat (match goal with |- context [Z.testbit ?f ?i] => destruct (Z.testbit f i) end;
            simpl; rewrite ?Hfl by lia); try done;
    unfold reg_value; simpl; rewrite Z.div_1_r; unfold truth; by rewrite negb_involutive.
Qed.

Lemma sext_eq_mod w z : 0 < w -> exists k, sext w z = z + k * 2 ^ w.
Proof.
  intros Hw. unfold sext. assert (0 < 2 ^ w) by (apply Z.pow_pos_nonneg; lia).
  pose proof (Z.div_mod z (2 ^ w) ltac:(lia)).
  case_match; [ exists (- (z / 2 ^ w)) | exists (- (z / 2 ^ w) - 1) ]; lia.
Qed.
Lemma sext_neg w z :
  0 < w -> (2 ^ (w - 1) <=? z mod 2 ^ w) = (sext w z <? 0).
Proof.
  intros Hw. unfold sext.
  assert (H2 : 2 ^ w = 2 * 2 ^ (w - 1)) by (rewrite <- Z.pow_succ_r by lia; f_equal; lia).
  assert (0 < 2 ^ (w - 1)) by (apply Z.pow_pos_nonneg; lia).
  pose proof (Z.mod_pos_bound z (2 ^ w) ltac:(lia)).
  destruct (Z.ltb_spec (z mod 2 ^ w) (2 ^ (w - 1))), (Z.leb_spec (2 ^ (w - 1)) (z mod 2 ^ w)),
    (Z.ltb_spec (z mod 2 ^ w) 0), (Z.ltb_spec (z mod 2 ^ w - 2 ^ w) 0); lia || done.
Qed.

(** The sign of a wrapped difference is wrong exactly when the difference overflows. *)
Lemma signed_less w a b :
  0 < w ->
  xorb (2 ^ (w - 1) <=? (a - b) mod 2 ^ w)
    (negb (sext w (a - b) =? sext w a - sext w b)) = (sext w a <? sext w b).
Proof.
  intros Hw. rewrite sext_neg by done.
  pose proof (sext_range w a Hw). pose proof (sext_range w b Hw).
  pose proof (sext_range w (a - b) Hw).
  destruct (sext_eq_mod w a Hw) as [i Hi], (sext_eq_mod w b Hw) as [j Hj],
    (sext_eq_mod w (a - b) Hw) as [k Hk].
  assert (Hpow : 2 ^ w = 2 * 2 ^ (w - 1)) by (rewrite <- Z.pow_succ_r by lia; f_equal; lia).
  assert (Hd : sext w (a - b) = sext w a - sext w b + (k - i + j) * 2 ^ w) by lia.
  assert (Hr : k - i + j = -1 \/ k - i + j = 0 \/ k - i + j = 1) by nia.
  destruct (Z.ltb_spec (sext w (a - b)) 0), (Z.ltb_spec (sext w a) (sext w b)),
    (Z.eqb_spec (sext w (a - b)) (sext w a - sext w b)); simpl; try done;
    destruct Hr as [Hr | [Hr | Hr]]; rewrite Hr in Hd; lia.
Qed.

Lemma sext_inj w a b :
  0 < w -> 0 <= a < 2 ^ w -> 0 <= b < 2 ^ w -> sext w a = sext w b <-> a = b.
Proof.
  intros Hw Ha Hb. split; [ | by intros -> ].
  unfold sext. rewrite !Z.mod_small by done. case_match; case_match; bool_to_prop; lia.
Qed.

(** C32: is_jmp_taken computes, for every jump it knows, the condition of the architecture
    on the flags or on rcx without changing the state, and is fatal on every other
    identifier. *)
Theorem is_jmp_taken_cond (id : x86_insn) (p : proc)
    (Hh : hashmap_ok (table (dbi p))) :
  is_jmp_taken id p
  = match jcc_cond id (gstate p) with
    | Some b => Ret b p
    | None => fatal_dump p
    end.
Proof. by apply is_jmp_taken_ok. Qed.

(** C31: After a comparison of a and b at any width, the conditional jumps decide the
    relations they stand for: equality, the unsigned orders and the signed orders of the
    operands. *)
Theorem is_jmp_taken_cmp (w a b : Z) (id : x86_insn) (rel : bool) (p : proc)
    (Hw : 0 < w) (Ha : 0 <= a < 2 ^ w) (Hb : 0 <= b < 2 ^ w)
    (Hh : hashmap_ok (table (dbi p)))
    (Hf : cmp_flags w a b (rflags (gstate p)))
    (Hr : jcc_relation w id a b = Some rel) :
  is_jmp_taken id p = Ret rel p.
Proof.
  rewrite is_jmp_taken_ok by done. destruct Hf as [F0 F6 F7 F11].
  pose proof (signed_less w a b Hw) as Hs. rewrite <- F7, <- F11 in Hs.
  pose proof (sext_inj w a b Hw Ha Hb) as Heq.
  destruct id; simplify_eq/=; rewrite ?F0, ?F6, ?Hs; try done; f_equal;
    repeat match goal with
      | |- context [?x <? ?y] => destruct (Z.ltb_spec x y)
      | |- context [?x <=? ?y] => destruct (Z.leb_spec x y)
      | |- context [?x =? ?y] => destruct (Z.eqb_spec x y)
      end; done || lia.
Qed.
End BranchSpec.

(** A single bit shifted beyond bit 63 is lost. *)
Lemma bit_shifted_out v n k :
  0 <= n -> 64 <= n + k -> 0 <= k -> u64 (Z.shiftl (Z.land v (Z.shiftl 1 n)) k) = 0.
Proof.
  intros Hn Hk H0. unfold u64. apply Z.bits_inj'. intros i Hi. rewrite Z.bits_0.
  destruct (Z.ltb_spec i 64).
  - rewrite Z.mod_pow2_bits_low, Z.shiftl_spec, Z.land_spec by lia.
    destruct (Z.ltb_spec (i - k) 0); [ by rewrite Z.testbit_neg_r by lia | ].
    rewrite Z.shiftl_1_l, Z.pow2_bits_false by lia. apply andb_false_r.
  - apply Z.mod_pow2_bits_high. lia.
Qed.

(** On values of one or two bytes sign_extend is the identity: it never yields the
    negative value a set sign bit stands for. *)
Theorem sign_extend_never_extends (size value : Z)
    (Hs : size = 1 \/ size = 2) (Hv : 0 <= value < 2 ^ (8 * size)) :
  sign_extend size value = Some value /\
  (2 ^ (8 * size - 1) <= value -> sign_extend size value <> Some (sext (8 * size) value)).
Proof.
  assert (E : sign_extend size value = Some value).
  { unfold sign_extend. rewrite (proj2 (Z.leb_le 1 size)), (proj2 (Z.ltb_lt _ 31)) by lia.
    simpl (_ && _). cbv iota. rewrite bit_shifted_out by lia. rewrite Z.lor_0_l, Z.shiftl_0_l.
    change (u64 (Z.lnot 0)) with (2 ^ 64 - 1). rewrite land_mask by lia.
    assert (value < 2 ^ 16) by (destruct Hs as [-> | ->]; lia).
    rewrite Z.mod_small by lia. unfold s64. by rewrite sext_small by lia. }
  split; [ done | ]. rewrite E. intros Hn [= Hx]. unfold sext in Hx.
  rewrite Z.mod_small in Hx by done. case_match; bool_to_prop; destruct Hs as [-> | ->]; lia.
Qed.
