(* ===== verification/Target.v ===== *)
(** * Branch targets (src/analysis.c: the instruction classes, [__eval_target], [eval_target])

    The emulation of the control flow instruction that ends a basic block: the address the
    guest goes to, the return address a call pushes, the system call hook to run.  The
    disassembler is a parameter. *)

From S2P Require Import Prelude.
From S2P Require Import Pages.
From S2P Require Import Regs.
From S2P Require Import Process.
From S2P Require Import Syscalls.
From S2P Require Import Memory.
From S2P Require Import Branch.

(** The instruction groups the sources name; [X86_GRP_OTHER] stands for the rest. *)
Inductive x86_grp :=
  | X86_GRP_CALL | X86_GRP_INT | X86_GRP_JUMP | X86_GRP_RET | X86_GRP_BRANCH_RELATIVE
  | X86_GRP_PRIVILEGE | X86_GRP_IRET | X86_GRP_VM | X86_GRP_OTHER (id : Z).

#[global] Instance x86_grp_eq_dec : EqDecision x86_grp.
Proof. solve_decision. Defined.

(** An operand: [operand->type] with the member of the union it selects.  The sources do not
    read the segment register of a memory operand. *)
Inductive cs_x86_op :=
  | X86_OP_REG (reg : x86_reg)
  | X86_OP_IMM (imm : Z)
  | X86_OP_MEM (segment base index : x86_reg) (scale disp : Z)
  | X86_OP_INVALID.

(** The members of [cs_insn] and of its [detail] that the sources read. *)
Record cs_insn := mk_insn {
  insn_id : x86_insn;
  insn_size : Z;
  groups : list x86_grp;
  operands : list cs_x86_op
}.

(** [cs_disasm(handle, code, size, address, 1, &insn)] and [cs_disasm_iter]: the first
    instruction of the bytes, [None] when there is none. *)
Class Disassembler := { cs_decode : list Z -> Z -> option cs_insn }.

Definition is_cflow (group : x86_grp) : bool :=
  match group with
  | X86_GRP_CALL => true
  | X86_GRP_INT => true
  | X86_GRP_JUMP => true
  | X86_GRP_RET => true
  | X86_GRP_BRANCH_RELATIVE => true
  | X86_GRP_PRIVILEGE => true
  | X86_GRP_IRET => true
  | X86_GRP_VM => true
  | X86_GRP_OTHER _ => false
  end.

Definition is_ret (group : x86_grp) : bool := bool_decide (group = X86_GRP_RET).
Definition is_call (group : x86_grp) : bool := bool_decide (group = X86_GRP_CALL).
Definition is_interrupt (group : x86_grp) : bool :=
  bool_decide (group = X86_GRP_INT) || bool_decide (group = X86_GRP_PRIVILEGE)
  || bool_decide (group = X86_GRP_IRET).
Definition is_syscall (group : x86_grp) : bool := bool_decide (group = X86_GRP_INT).

Definition INSTRUCTION_MAX_SZ : Z := 16.
Definition EXIT_FAILURE : Z := 1.

Section Target.
Context `{Kernel} `{RegEnum} `{Disassembler}.

(** The address computation and the load both evaluators share. *)
Definition eval_mem (base index : x86_reg) (scale disp sz : Z) : M Z :=
  b ← read_guest base;
  i ← (if negb (reg_eqb index X86_REG_INVALID) then read_guest index else mret 0);
  if negb (b =? minus1) && negb (i =? minus1) then
    let b := if reg_eqb base X86_REG_RIP then u64 (b + sz) else b in
    lift_option (fun p => load64 (mem p) (u64 (b + i * scale + disp)))
  else mret minus1.

Definition ___eval_target_type (operand : cs_x86_op) (is_rel : bool) (sz : Z) : M Z :=
  match operand with
  | X86_OP_REG reg => read_guest reg
  | X86_OP_IMM imm =>
      s ← get gstate;
      if is_rel then mret (u64 (imm + rip s)) else mret (u64 imm)
  | X86_OP_MEM _ base index scale disp => eval_mem base index scale disp sz
  | X86_OP_INVALID => mret minus1
  end.

(** [x86->operands[0]]: the array is zeroed beyond the operands of the instruction. *)
Definition first_operand (insn : cs_insn) : cs_x86_op :=
  default X86_OP_INVALID (operands insn !! 0%nat).

Fixpoint eval_groups (insn : cs_insn) (instruction : Z) (gs : list x86_grp)
    (achieve : bool) : M Z :=
  match gs with
  | [] => exit_process EXIT_FAILURE
  | g :: gs' =>
      if bool_decide (g = X86_GRP_JUMP) || bool_decide (g = X86_GRP_BRANCH_RELATIVE)
         || is_call g then
        taken ← or_c (mret (is_call g)) (is_jmp_taken (insn_id insn));
        if (taken : bool) then
          (if is_call g && negb achieve then
             modify (fun p => with_state p (fun s => s <| rsp := u64 (rsp s - 8) |>));;
             s ← get gstate;
             lift_mem (fun m => store64 m (rsp s) (u64 (rip s + insn_size insn)))
           else mret ());;
          match first_operand insn with
          | X86_OP_REG reg => read_guest reg
          | X86_OP_IMM imm => s ← get gstate; mret (u64 (imm + rip s))
          | X86_OP_MEM _ base index scale disp =>
              eval_mem base index scale disp (insn_size insn)
          | X86_OP_INVALID => mret minus1
          end
        else mret (u64 (instruction + insn_size insn))
      else if is_ret g then
        modify (fun p => with_state p (fun s => s <| rsp := u64 (rsp s + 8) |>));;
        v ← read_guest X86_REG_RSP;
        lift_option (fun p => load64 (mem p) (u64 (v - 8)))
      else if is_syscall g then
        s ← get gstate;
        match get_syscall_hook (s32 (rax s)) with
        | Some sys_callback =>
            _ ← set_guest_fs_gs;
            ret ← sys_callback;
            r ← set_host_fs_gs;
            (if truth r then fatal_dump else mret ());;
            if truth ret then mret ret else mret (u64 (instruction + insn_size insn))
        | None =>
            modify (fun p => p <| curr_syscall := true |>);;
            mret instruction
        end
      else eval_groups insn instruction gs' achieve
  end.

Definition __eval_target (insn : cs_insn) (instruction : Z) : M Z :=
  eval_groups insn instruction (groups insn) false.

(** [cs_disasm] stores a null pointer when it decodes nothing; [__eval_target]
    dereferences it. *)
Definition eval_target (instruction : Z) : M Z :=
  '(r, buf_insn) ← mem_read (replicate (Z.to_nat INSTRUCTION_MAX_SZ) 0) instruction
                     INSTRUCTION_MAX_SZ;
  if r =? -1 then mret minus1
  else
    match cs_decode (take 16 buf_insn) 0 with
    | None => crash
    | Some insn =>
        modify (fun p => with_dbi p (fun d => d <| count := u64 (count d + 1) |>));;
        __eval_target insn instruction
    end.
End Target.
