(* ===== verification/TargetSpec.v ===== *)
(** * Properties of the branch emulation *)

From S2P Require Import Prelude.
From S2P Require Import Pages.
From S2P Require Import Regs.
From S2P Require Import Process.
From S2P Require Import Syscalls.
From S2P Require Import SyscallsSpec.
From S2P Require Import Memory.
From S2P Require Import MemorySpec.
From S2P Require Import Branch.
From S2P Require Import Target.

(** ** Branches by the architecture

    What the processor does at the near branch [insn] of 64-bit code, whose address is in
    [rip], with the bases [b] of [fs] and [gs]: the address of the next instruction, the
    registers and the memory; [None] is a fault, or an instruction that is not described: a
    far transfer, or a jump on another condition than those of [jcc_cond]. *)

Inductive branch_kind := BJump | BCall | BRet | BSyscall.

(** The class of an instruction: its first group the sources handle. *)
Fixpoint branch_of (gs : list x86_grp) : option branch_kind :=
  match gs with
  | [] => None
  | (X86_GRP_JUMP | X86_GRP_BRANCH_RELATIVE) :: _ => Some BJump
  | X86_GRP_CALL :: _ => Some BCall
  | X86_GRP_RET :: _ => Some BRet
  | X86_GRP_INT :: _ => Some BSyscall
  | (X86_GRP_PRIVILEGE | X86_GRP_IRET | X86_GRP_VM | X86_GRP_OTHER _) :: gs' => branch_of gs'
  end.

(** The address size is 32 bits when the registers of the address are. *)
Definition short_register (r : x86_reg) : bool :=
  match view r with Some (_, w) => w =? 32 | None => reg_eqb r X86_REG_EIZ end.

Definition short_address (base index : x86_reg) : bool :=
  short_register base || short_register index.

(** The offset of a memory operand in its segment; a missing base or index counts for zero
    and the instruction pointer for the address of the next instruction. *)
Definition memory_offset (s : state_rtime) (sz : Z) (base index : x86_reg)
    (scale disp : Z) : Z :=
  let b := if reg_eqb base X86_REG_INVALID then 0
           else if reg_eqb base X86_REG_RIP || reg_eqb base X86_REG_EIP then u64 (rip s + sz)
           else reg_value base s in
  let i := if reg_eqb index X86_REG_INVALID then 0 else reg_value index s in
  let o := u64 (b + i * scale + disp) in
  if short_address base index then u32 o else o.

(** Only [fs] and [gs] have a base in 64-bit mode. *)
Definition segment_base (b : Z * Z) (segment : x86_reg) : Z :=
  if reg_eqb segment X86_REG_FS then b.1 else if reg_eqb segment X86_REG_GS then b.2 else 0.

Definition effective_address (b : Z * Z) (s : state_rtime) (sz : Z)
    (segment base index : x86_reg) (scale disp : Z) : Z :=
  u64 (segment_base b segment + memory_offset s sz base index scale disp).

Definition operand_value (b : Z * Z) (s : state_rtime) (m : aspace) (sz : Z) (op : cs_x86_op)
  : option Z :=
  match op with
  | X86_OP_REG r => Some (reg_value r s)
  | X86_OP_IMM imm => Some (u64 (imm + rip s))
  | X86_OP_MEM segment base index scale disp =>
      load64 m (effective_address b s sz segment base index scale disp)
  | X86_OP_INVALID => None
  end.

(** The bytes [ret imm16] releases beyond the return address. *)
Definition ret_imm (insn : cs_insn) : Z :=
  match first_operand insn with X86_OP_IMM imm => imm | _ => 0 end.

(** The far calls and returns, which also change the code segment, are not described. *)
Definition near_branch (k : branch_kind) (insn : cs_insn) : bool :=
  match k with
  | BJump => true
  | BCall => bool_decide (insn_id insn = X86_INS_CALL)
  | BRet => bool_decide (insn_id insn = X86_INS_RET)
  | BSyscall => bool_decide (insn_id insn = X86_INS_SYSCALL)
  end.

Definition x86_branch (k : branch_kind) (insn : cs_insn) (b : Z * Z) (s : state_rtime)
    (m : aspace) : option (Z * state_rtime * aspace) :=
  if negb (near_branch k insn) then None
  else
  match k with
  | BJump =>
      c ← jcc_cond (insn_id insn) s;
      if (c : bool) then t ← operand_value b s m (insn_size insn) (first_operand insn); Some (t, s, m)
      else Some (u64 (rip s + insn_size insn), s, m)
  | BCall =>
      t ← operand_value b s m (insn_size insn) (first_operand insn);
      let sp := u64 (rsp s - 8) in
      m' ← store64 m sp (u64 (rip s + insn_size insn));
      Some (t, s <| rsp := sp |>, m')
  | BRet =>
      t ← load64 m (rsp s);
      Some (t, s <| rsp := u64 (rsp s + 8 + ret_imm insn) |>, m)
  | BSyscall => None
  end.

Lemma x86_branch_syscall insn b s m : x86_branch BSyscall insn b s m = None.
Proof. unfold x86_branch. by destruct (near_branch _ _). Qed.

(** The operands on which the emulation follows the architecture: the registers are
    tracked, a memory operand has a base, 64-bit registers and neither [fs] nor [gs] as its
    segment, no register of it holds the error value, and the operand of a call does not
    depend on what the call pushes. *)
Definition flat (segment : x86_reg) : bool :=
  negb (reg_eqb segment X86_REG_FS || reg_eqb segment X86_REG_GS).

Definition tracked (r : x86_reg) (s : state_rtime) : bool :=
  negb (reg_eqb r X86_REG_ENDING) && negb (reg_value r s =? minus1).

Definition push_safe (k : branch_kind) (s : state_rtime) (r : x86_reg) : bool :=
  match k with BCall => negb (bool_decide (home r = F_rsp)) | _ => true end.

Definition apart_from_push (k : branch_kind) (s : state_rtime) (ea : Z) : bool :=
  match k with
  | BCall => (8 <=? rsp s) && (ea + 8 <=? 2 ^ 64) && ((ea + 8 <=? rsp s - 8) || (rsp s <=? ea))
  | _ => true
  end.

Definition plain_operand (k : branch_kind) (s : state_rtime) (sz : Z) (op : cs_x86_op) : bool :=
  match op with
  | X86_OP_REG r => negb (reg_eqb r X86_REG_ENDING) && push_safe k s r
  | X86_OP_IMM _ => true
  | X86_OP_MEM segment base index scale disp =>
      flat segment && negb (short_address base index)
      && (negb (reg_eqb base X86_REG_INVALID) && tracked base s && push_safe k s base
          && (reg_eqb index X86_REG_INVALID || tracked index s && push_safe k s index)
          && apart_from_push k s (memory_offset s sz base index scale disp))
  | X86_OP_INVALID => false
  end.

Definition plain_branch (k : branch_kind) (insn : cs_insn) (s : state_rtime) : bool :=
  near_branch k insn &&
  match k with
  | BJump => match jcc_cond (insn_id insn) s with
             | Some true => plain_operand k s (insn_size insn) (first_operand insn)
             | Some false => true
             | None => false
             end
  | BCall => plain_operand k s (insn_size insn) (first_operand insn)
  | BRet => ret_imm insn =? 0
  | BSyscall => false
  end.

(** ** Loads and stores that do not meet *)

Lemma load_bytes_agree m m' a n :
  0 <= a -> a + Z.of_nat n <= 2 ^ 64 -> prots m = prots m' ->
  (forall x, a <= x < a + Z.of_nat n -> byte_at m x = byte_at m' x) ->
  load_bytes m a n = load_bytes m' a n.
Proof.
  revert a. induction n as [| n IH]; intros a H0 H1 Hp Hb; [ done | ].
  cbn [load_bytes]. rewrite u64_small by (unfold is_u64; lia).
  unfold load8. rewrite (has_prot_ext m m'), (Hb a) by (done || lia).
  rewrite IH; [ done | lia | lia | done | ]. intros x Hx. apply Hb. lia.
Qed.

Lemma store_bytes_frame m a l m' :
  0 <= a -> a + Z.of_nat (length l) <= 2 ^ 64 -> store_bytes m a l = Some m' ->
  prots m' = prots m /\
  forall x, ~ (a <= x < a + Z.of_nat (length l)) -> byte_at m' x = byte_at m x.
Proof.
  revert m a. induction l as [| b l IH]; intros m a H0 H1 E; simplify_eq/=; [ done | ].
  rewrite u64_small in E by (unfold is_u64; lia). unfold store8 in E.
  destruct (has_prot m a PROT_WRITE); simplify_eq/=.
  destruct (IH _ (a + 1) ltac:(lia) ltac:(lia) E) as [Hp Hb]. split; [ by rewrite Hp | ].
  intros x Hx. rewrite Hb by lia. unfold byte_at. simpl. by rewrite lookup_insert_ne by lia.
Qed.

Lemma length_le_split n v : length (le_split n v) = n.
Proof. revert v. induction n; intros v; simpl; auto. Qed.

Lemma load64_after_push m m' sp v ea :
  0 <= sp -> sp + 8 <= 2 ^ 64 -> 0 <= ea -> ea + 8 <= 2 ^ 64 ->
  ea + 8 <= sp \/ sp + 8 <= ea ->
  store64 m sp v = Some m' -> load64 m' ea = load64 m ea.
Proof.
  intros H0 H1 H2 H3 Hd E. unfold store64 in E.
  assert (Hl : sp + Z.of_nat (length (le_split 8 v)) <= 2 ^ 64) by (rewrite length_le_split; lia).
  destruct (store_bytes_frame _ _ _ _ H0 Hl E) as [Hp Hb].
  rewrite length_le_split in Hb. unfold load64. f_equal.
  apply load_bytes_agree; try lia; try done. intros x Hx. apply Hb. lia.
Qed.

Lemma le_combine_split n v : le_combine (le_split n v) = v mod 2 ^ (8 * Z.of_nat n).
Proof.
  revert v. induction n as [| n IH]; intros v; cbn [le_split le_combine].
  { by rewrite Z.mod_1_r. }
  rewrite IH. replace (8 * Z.of_nat (S n)) with (8 + 8 * Z.of_nat n) by lia.
  rewrite Z.pow_add_r by lia.
  rewrite (Z.rem_mul_r v (2 ^ 8)) by (try apply Z.pow_pos_nonneg; lia). done.
Qed.

(** A load at the address of a store returns the value stored. *)
Lemma load64_store64 m a v :
  0 <= a -> a + 8 <= 2 ^ 64 -> range_has PROT_WRITE m a 8 -> range_has PROT_READ m a 8 ->
  exists m', store64 m a v = Some m' /\ load64 m' a = Some (u64 v).
Proof.
  intros H0 H1 Hw Hr. unfold store64, load64.
  destruct (store_bytes_ok m a (le_split 8 v)) as (m' & E & Hp & Hb);
    rewrite ?length_le_split in *; try done.
  exists m'. split; [ done | ].
  rewrite load_bytes_ok;
    [ | done | done | intros x Hx; rewrite (has_prot_ext m' m) by done; by apply Hr ].
  enough (Hm : mem_bytes m' a 8 = le_split 8 v).
  { rewrite Hm. change (Some (le_combine (le_split 8 v)) = Some (u64 v)).
    by rewrite le_combine_split. }
  rewrite <- (length_le_split 8 v) at 1. apply mem_bytes_eq. intros x Hx.
  rewrite length_le_split in Hx. rewrite Hb. by destruct (in_range_spec a (Z.of_nat 8) x).
Qed.

Section TargetSpec.
Context `{Kernel} `{RegEnum} `{Disassembler}.

(** Registers of the state after the stack pointer has moved. *)
Lemma reg_value_push r s v :
  home r <> F_rsp -> reg_value r (s <| rsp := v |>) = reg_value r s.
Proof.
  intros Hr. unfold reg_value.
  change (s <| rsp := v |>) with (field_set s F_rsp v).
  by rewrite field_get_set_ne by done.
Qed.

Lemma eval_mem_ok base index scale disp sz p :
  hashmap_ok (table (dbi p)) -> is_u64 (rip (gstate p)) ->
  negb (reg_eqb base X86_REG_INVALID) && tracked base (gstate p) = true ->
  (reg_eqb index X86_REG_INVALID || tracked index (gstate p)) = true ->
  short_address base index = false ->
  eval_mem base index scale disp sz p
  = match load64 (mem p) (memory_offset (gstate p) sz base index scale disp) with
    | Some t => Ret t p
    | None => Crashed p
    end.
Proof.
  intros Hh Hu Hb Hi Hsh. unfold tracked in *. bool_to_prop.
  assert (Hbe : base <> X86_REG_ENDING) by (by intros ->).
  unfold eval_mem. erewrite bind_Ret by (by apply read_guest_ok).
  assert (Ei : (if negb (reg_eqb index X86_REG_INVALID) then read_guest index else mret 0) p
               = Ret (if reg_eqb index X86_REG_INVALID then 0 else reg_value index (gstate p)) p).
  { destruct (reg_eqb index X86_REG_INVALID); simpl in *; [ done | ]. bool_to_prop.
    apply read_guest_ok; [ done | by intros -> ]. }
  erewrite bind_Ret by exact Ei. cbv beta.
  rewrite (proj2 (Z.eqb_neq (reg_value base (gstate p)) minus1)) by done.
  assert (Hne : (if reg_eqb index X86_REG_INVALID then 0 else reg_value index (gstate p))
                <> minus1).
  { destruct (reg_eqb index X86_REG_INVALID); simpl in *; [ done | by bool_to_prop ]. }
  rewrite (proj2 (Z.eqb_neq _ _) Hne). simpl.
  unfold lift_option, memory_offset. rewrite Hsh.
  assert (Hip : reg_eqb base X86_REG_EIP = false)
    by (apply not_true_is_false; intros E; apply bool_decide_eq_true in E as ->; discriminate Hsh).
  rewrite Hip, orb_false_r.
  match goal with H : reg_eqb base X86_REG_INVALID = false |- _ => rewrite H end.
  assert (Er : reg_eqb base X86_REG_RIP = true -> reg_value base (gstate p) = rip (gstate p)).
  { intros E. apply bool_decide_eq_true in E as ->. unfold reg_value. simpl.
    rewrite Z.div_1_r. by apply Z.mod_small. }
  destruct (reg_eqb base X86_REG_RIP); [ rewrite Er by done | ]; reflexivity.
Qed.
(** The evaluation of the operand at the end of a taken branch. *)
Definition taken_target (insn : cs_insn) : M Z :=
  match first_operand insn with
  | X86_OP_REG reg => read_guest reg
  | X86_OP_IMM imm => s ← get gstate; mret (u64 (imm + rip s))
  | X86_OP_MEM _ base index scale disp => eval_mem base index scale disp (insn_size insn)
  | X86_OP_INVALID => mret minus1
  end.

(** Without [fs] and [gs] the offset is the address. *)
Lemma flat_address b s sz segment base index scale disp :
  flat segment = true ->
  effective_address b s sz segment base index scale disp = memory_offset s sz base index scale disp.
Proof.
  unfold flat, effective_address, segment_base. intros [E1 E2]%negb_true_iff%orb_false_iff.
  rewrite E1, E2, Z.add_0_l. unfold memory_offset.
  destruct (short_address base index); [ | apply u64_idem ].
  apply u64_small. unfold u32, is_u64.
  match goal with |- _ <= ?x mod _ < _ => pose proof (Z.mod_pos_bound x (2 ^ 32) ltac:(lia)) end. lia.
Qed.

(** The offsets of equal registers are equal. *)
Lemma memory_offset_ext s s' sz base index scale disp :
  rip s = rip s' -> reg_value base s = reg_value base s' ->
  (reg_eqb index X86_REG_INVALID = false -> reg_value index s = reg_value index s') ->
  memory_offset s sz base index scale disp = memory_offset s' sz base index scale disp.
Proof.
  intros Hr Hb Hi. unfold memory_offset. rewrite Hr, Hb.
  destruct (reg_eqb index X86_REG_INVALID); [ done | by rewrite Hi ].
Qed.

Lemma taken_target_ok insn b p :
  hashmap_ok (table (dbi p)) -> is_u64 (rip (gstate p)) ->
  plain_operand BJump (gstate p) (insn_size insn) (first_operand insn) = true ->
  taken_target insn p
  = match operand_value b (gstate p) (mem p) (insn_size insn) (first_operand insn) with
    | Some t => Ret t p | None => Crashed p end.
Proof.
  intros Hh Hu Hp. unfold taken_target, operand_value, plain_operand in *.
  destruct (first_operand insn) as [r | imm | segment base index scale disp |]; try done.
  - bool_to_prop. apply read_guest_ok; [ done | by intros -> ].
  - simpl in Hp. rewrite !andb_true_r in Hp. apply andb_true_iff in Hp as [Hf [Hb Hi]%andb_true_iff].
    apply andb_true_iff in Hf as [Hf Hs%negb_true_iff]. rewrite flat_address by done.
    by apply eval_mem_ok.
Qed.

(** The operand of a call is the same before and after the push. *)
Lemma operand_value_push insn b s m m' :
  is_u64 (rsp s) -> plain_operand BCall s (insn_size insn) (first_operand insn) = true ->
  store64 m (u64 (rsp s - 8)) (u64 (rip s + insn_size insn)) = Some m' ->
  let s' := s <| rsp := u64 (rsp s - 8) |> in
  plain_operand BJump s' (insn_size insn) (first_operand insn) = true /\
  operand_value b s' m' (insn_size insn) (first_operand insn)
  = operand_value b s m (insn_size insn) (first_operand insn).
Proof.
  intros Hu Hp E s'. unfold plain_operand, operand_value in *.
  destruct (first_operand insn) as [r | imm | segment base index scale disp |]; try done.
  - apply andb_true_iff in Hp as [He Hs]. rewrite He. split; [ done | ]. f_equal.
    apply reg_value_push. unfold push_safe in Hs. by bool_to_prop; apply bool_decide_eq_false in Hs.
  - apply andb_true_iff in Hp as [[Hfl Hsh]%andb_true_iff Hp].
    apply andb_true_iff in Hp as [Hp Ha]. apply andb_true_iff in Hp as [Hp Hi].
    apply andb_true_iff in Hp as [Hp Hs]. apply andb_true_iff in Hp as [Hb Ht].
    assert (Eb : reg_value base s' = reg_value base s).
    { apply reg_value_push. unfold push_safe in Hs. by bool_to_prop; apply bool_decide_eq_false in Hs. }
    assert (Ei : reg_eqb index X86_REG_INVALID = false -> reg_value index s' = reg_value index s).
    { intros En. rewrite En in Hi. simpl in Hi. apply andb_true_iff in Hi as [_ Hi].
      apply reg_value_push. unfold push_safe in Hi.
      by bool_to_prop; apply bool_decide_eq_false in Hi. }
    assert (Ee : memory_offset s' (insn_size insn) base index scale disp
                 = memory_offset s (insn_size insn) base index scale disp)
      by (by apply memory_offset_ext).
    split.
    + unfold tracked in *. rewrite Hfl, Hsh, Hb, Eb, Ht. simpl.
      destruct (reg_eqb index X86_REG_INVALID); [ done | ]. rewrite Ei by done.
      simpl in *. apply andb_true_iff in Hi as [-> _]. done.
    + rewrite !flat_address, Ee by done. unfold apart_from_push in Ha. unfold is_u64 in Hu.
      apply andb_true_iff in Ha as [Ha Hd]. bool_to_prop.
      rewrite u64_small in E by (unfold is_u64; lia).
      assert (0 <= memory_offset s (insn_size insn) base index scale disp)
        by (unfold memory_offset, u32; case_match; [ by apply Z.mod_pos_bound | apply u64_range ]).
      apply orb_true_iff in Hd. rewrite !Z.leb_le in Hd.
      eapply load64_after_push; [ .. | exact E ]; lia.
Qed.
(** The loop over the groups stops at the first one it handles. *)
Lemma eval_groups_jump insn a gs p :
  hashmap_ok (table (dbi p)) -> branch_of gs = Some BJump ->
  eval_groups insn a gs false p
  = match jcc_cond (insn_id insn) (gstate p) with
    | Some true => taken_target insn p
    | Some false => Ret (u64 (a + insn_size insn)) p
    | None => fatal_dump p
    end.
Proof.
  intros Hh Hk. induction gs as [| g gs IH]; [ done | ].
  assert (Hj : (taken ← or_c (mret false) (is_jmp_taken (insn_id insn));
                if (taken : bool) then mret ();; taken_target insn
                else mret (u64 (a + insn_size insn))) p
               = match jcc_cond (insn_id insn) (gstate p) with
                 | Some true => taken_target insn p
                 | Some false => Ret (u64 (a + insn_size insn)) p
                 | None => fatal_dump p
                 end).
  { unfold mbind at 1, M_bind at 1. unfold or_c. erewrite bind_Ret by reflexivity.
    cbv iota. rewrite is_jmp_taken_ok by done.
    destruct (jcc_cond _ _) as [[] |]; [ reflexivity | reflexivity | ].
    rewrite !fatal_dump_spec. by destruct (sse (gstate p)), (avx2 (gstate p)), (avx512 (gstate p)). }
  destruct g; simplify_eq/=; try exact Hj; by apply IH.
Qed.

Definition push_return (insn : cs_insn) : M unit :=
  modify (fun p => with_state p (fun s => s <| rsp := u64 (rsp s - 8) |>));;
  s ← get gstate;
  lift_mem (fun m => store64 m (rsp s) (u64 (rip s + insn_size insn))).

Lemma push_return_spec insn p :
  push_return insn p
  = let p1 := with_state p (fun s => s <| rsp := u64 (rsp s - 8) |>) in
    match store64 (mem p) (u64 (rsp (gstate p) - 8)) (u64 (rip (gstate p) + insn_size insn)) with
    | Some m' => Ret () (p1 <| mem := m' |>)
    | None => Crashed p1
    end.
Proof.
  unfold push_return. erewrite bind_Ret by reflexivity. erewrite bind_Ret by reflexivity.
  reflexivity.
Qed.

Lemma eval_groups_call insn a gs p :
  branch_of gs = Some BCall ->
  eval_groups insn a gs false p = (push_return insn;; taken_target insn) p.
Proof.
  intros Hk. induction gs as [| g gs IH]; [ done | ].
  destruct g; simplify_eq/=; try reflexivity; by apply IH.
Qed.

Lemma reg_value_rsp s : is_u64 (rsp s) -> reg_value X86_REG_RSP s = rsp s.
Proof. intros Hu. unfold reg_value. simpl. rewrite Z.div_1_r. by apply Z.mod_small. Qed.

Lemma eval_groups_ret insn a gs p :
  hashmap_ok (table (dbi p)) -> is_u64 (rsp (gstate p)) -> branch_of gs = Some BRet ->
  eval_groups insn a gs false p
  = match load64 (mem p) (rsp (gstate p)) with
    | Some t => Ret t (with_state p (fun s => s <| rsp := u64 (rsp s + 8) |>))
    | None => Crashed (with_state p (fun s => s <| rsp := u64 (rsp s + 8) |>))
    end.
Proof.
  intros Hh Hu Hk. induction gs as [| g gs IH]; [ done | ].
  destruct g; simplify_eq/=; try by apply IH.
  erewrite bind_Ret by reflexivity. cbv beta.
  erewrite bind_Ret by (by apply read_guest_ok).
  rewrite reg_value_rsp by apply u64_range. unfold lift_option.
  assert (E : u64 (u64 (rsp (gstate p) + 8) - 8) = rsp (gstate p)).
  { unfold Z.sub. rewrite u64_add_l.
    replace (rsp (gstate p) + 8 + - (8)) with (rsp (gstate p)) by lia. by apply u64_small. }
  cbn -[u64 load64]. change (rsp (state (dbi p))) with (rsp (gstate p)).
  by rewrite E.
Qed.

(** A call as the engine performs it: push, then the operand. *)
Lemma call_ok insn b p :
  hashmap_ok (table (dbi p)) -> is_u64 (rip (gstate p)) -> is_u64 (rsp (gstate p)) ->
  plain_operand BCall (gstate p) (insn_size insn) (first_operand insn) = true ->
  let p1 := with_state p (fun s => s <| rsp := u64 (rsp s - 8) |>) in
  (push_return insn;; taken_target insn) p
  = match store64 (mem p) (u64 (rsp (gstate p) - 8)) (u64 (rip (gstate p) + insn_size insn)),
      operand_value b (gstate p) (mem p) (insn_size insn) (first_operand insn) with
    | Some m', Some t => Ret t (p1 <| mem := m' |>)
    | Some m', None => Crashed (p1 <| mem := m' |>)
    | None, _ => Crashed p1
    end.
Proof.
  intros Hh Hrip Hrsp Hp p1. unfold mbind, M_bind. rewrite push_return_spec. fold p1.
  destruct (store64 (mem p) _ _) as [m' |] eqn:E; [ | done ].
  destruct (operand_value_push insn b (gstate p) (mem p) m' Hrsp Hp E) as [Hq Ho].
  cbv zeta iota beta.
  rewrite (taken_target_ok insn b) by done.
  change (gstate (p1 <| mem := m' |>)) with ((gstate p) <| rsp := u64 (rsp (gstate p) - 8) |>).
  change (mem (p1 <| mem := m' |>)) with m'. rewrite Ho. reflexivity.
Qed.

Lemma branch_run k insn b p :
  hashmap_ok (table (dbi p)) -> is_u64 (rip (gstate p)) -> is_u64 (rsp (gstate p)) ->
  branch_of (groups insn) = Some k -> plain_branch k insn (gstate p) = true ->
  match x86_branch k insn b (gstate p) (mem p) with
  | Some (t, s', m') =>
      __eval_target insn (rip (gstate p)) p
      = Ret t ((with_state p (fun _ => s')) <| mem := m' |>)
  | None => exists p', __eval_target insn (rip (gstate p)) p = Crashed p'
  end.
Proof.
  intros Hh Hrip Hrsp Hk Hp.
  assert (Heta : (with_state p (fun _ => gstate p)) <| mem := mem p |> = p)
    by (by destruct p as [? ? ? [] ? ? ? ? ?]).
  unfold plain_branch in Hp. apply andb_true_iff in Hp as [Hn Hp].
  unfold x86_branch. rewrite Hn. simpl negb. cbv iota.
  unfold __eval_target. destruct k; simpl in Hp |- *; try done.
  - rewrite eval_groups_jump by done.
    destruct (jcc_cond (insn_id insn) (gstate p)) as [[] |]; simpl; [ | by rewrite Heta | done ].
    rewrite (taken_target_ok insn b) by done.
    destruct (operand_value _ _ _ _ _); simpl; [ by rewrite Heta | by eexists ].
  - rewrite eval_groups_call, (call_ok insn b) by done.
    destruct (operand_value b (gstate p) _ _ _), (store64 (mem p) _ _); simpl; by eexists.
  - rewrite eval_groups_ret by done. bool_to_prop.
    replace (rsp (gstate p) + 8 + ret_imm insn) with (rsp (gstate p) + 8) by lia.
    destruct (load64 (mem p) (rsp (gstate p))); simpl; [ | by eexists ].
    by destruct p as [? ? ? [] ? ? ? ? ?].
Qed.

(** C8: On near jumps (taken or not), calls and returns, __eval_target computes what the
    processor does, whatever the bases of fs and gs: the next instruction pointer, the stack
    pointer and the memory, for register, immediate and memory operands, and it crashes
    exactly when a load or store of the branch faults. The hypothesis plain_branch excludes
    far transfers, jumps on conditions the engine does not know, returns that pop an
    immediate, calls whose operand is the stack pointer or overlaps the slot they push,
    untracked registers, and memory operands without a base, with 32-bit registers, with a
    register that holds the error value -1 or with an fs or gs override, which __eval_target
    ignores. *)
Theorem eval_target_refines (k : branch_kind) (insn : cs_insn) (b : Z * Z) (p : proc)
    (Hh : hashmap_ok (table (dbi p)))
    (Hrip : is_u64 (rip (gstate p))) (Hrsp : is_u64 (rsp (gstate p)))
    (Hk : branch_of (groups insn) = Some k)
    (Hp : plain_branch k insn (gstate p) = true) :
  match x86_branch k insn b (gstate p) (mem p) with
  | Some (t, s', m') =>
      __eval_target insn (rip (gstate p)) p
      = Ret t ((with_state p (fun _ => s')) <| mem := m' |>)
  | None => exists p', __eval_target insn (rip (gstate p)) p = Crashed p'
  end.
Proof. by apply branch_run. Qed.
(** ** System calls *)

Lemma eval_groups_syscall insn a gs p :
  branch_of gs = Some BSyscall ->
  eval_groups insn a gs false p
  = match get_syscall_hook (s32 (rax (gstate p))) with
    | Some sys_callback =>
        (_ ← set_guest_fs_gs; ret ← sys_callback; r ← set_host_fs_gs;
         (if truth r then fatal_dump else mret ());;
         if truth ret then mret ret else mret (u64 (a + insn_size insn))) p
    | None => Ret a (p <| curr_syscall := true |>)
    end.
Proof.
  intros Hk. induction gs as [| g gs IH]; [ done | ].
  destruct g; simplify_eq/=; try (by apply IH).
  erewrite bind_Ret by reflexivity. by destruct (get_syscall_hook _).
Qed.

(** At a system call with a hook, __eval_target runs the hook with the segment bases of
    the guest, puts those of the host back and goes to the next instruction; the registers
    other than rax and the objects of the engine are unchanged. *)
Theorem eval_target_syscall (insn : cs_insn) (a r : Z) (hk : M Z) (p p' : proc)
    (Hg : branch_of (groups insn) = Some BSyscall) (Hb : bases_ok p)
    (Hk : get_syscall_hook (s32 (rax (gstate p))) = Some hk)
    (E : hk (p <| cpu_fs := instrumented_fs (dbi p) |>
               <| cpu_gs := instrumented_gs (dbi p) |>) = Ret r p') :
  __eval_target insn a p
  = Ret (u64 (a + insn_size insn))
      (p' <| cpu_fs := fs (host_state (dbi p)) |> <| cpu_gs := gs (host_state (dbi p)) |>)
  /\ hook_frame p p'.
Proof.
  destruct (syscall_hook_frame _ _ _ _ _ Hk E) as [-> Hf%hook_frame_any].
  split; [ | transitivity (p <| cpu_fs := instrumented_fs (dbi p) |>
                             <| cpu_gs := instrumented_gs (dbi p) |>); [ solve_frame | done ] ].
  pose proof (hf_host _ _ _ _ Hf) as Hh. simpl in Hh.
  unfold __eval_target. rewrite eval_groups_syscall by done. rewrite Hk.
  erewrite bind_Ret by (by apply set_guest_fs_gs_ok). cbv beta.
  erewrite bind_Ret by exact E. cbv beta.
  unfold set_host_fs_gs. rewrite bind_assoc. erewrite bind_Ret by reflexivity. cbv beta.
  rewrite Hh. destruct Hb as (_ & _ & Hbf & Hbg).
  erewrite bind_Ret by (by apply set_fs_gs_ok). reflexivity.
Qed.

(** At a system call without a hook, __eval_target returns the address of the
    instruction itself and records that the next sweep has to skip it. *)
Theorem eval_target_unknown_syscall (insn : cs_insn) (a : Z) (p : proc)
    (Hg : branch_of (groups insn) = Some BSyscall)
    (Hk : get_syscall_hook (s32 (rax (gstate p))) = None) :
  __eval_target insn a p = Ret a (p <| curr_syscall := true |>).
Proof. unfold __eval_target. by rewrite eval_groups_syscall, Hk. Qed.

(** ** Where the emulation leaves the architecture *)

(** An instruction whose block-ending groups are only the privileged, interrupt-return
    or virtualisation ones, where is_cflow does end a block, makes __eval_target end the
    process with status 1. *)
Theorem eval_target_unhandled (insn : cs_insn) (a : Z) (p : proc)
    (Hg : forall g, g ∈ groups insn -> is_cflow g = true ->
                    g = X86_GRP_PRIVILEGE \/ g = X86_GRP_IRET \/ g = X86_GRP_VM) :
  __eval_target insn a p = Exited 1 p.
Proof.
  unfold __eval_target. induction (groups insn) as [| g gs IH]; [ done | ].
  assert (Hgs : eval_groups insn a gs false p = Exited 1 p)
    by (apply IH; intros g' Hg'; apply Hg; by right).
  destruct g; try exact Hgs;
    destruct (Hg _ ltac:(left) ltac:(reflexivity)) as [? | [? | ?]]; done.
Qed.

(** A taken jump through a memory operand without a base register evaluates to the
    error value, whatever the displacement. *)
Theorem eval_target_no_base (insn : cs_insn) (segment index : x86_reg) (scale disp : Z) (p : proc)
    (Hh : hashmap_ok (table (dbi p)))
    (Hg : branch_of (groups insn) = Some BJump)
    (Hc : jcc_cond (insn_id insn) (gstate p) = Some true)
    (Ho : first_operand insn = X86_OP_MEM segment X86_REG_INVALID index scale disp)
    (Hi : index <> X86_REG_ENDING) :
  __eval_target insn (rip (gstate p)) p = Ret minus1 p.
Proof.
  unfold __eval_target. rewrite eval_groups_jump, Hc by done. unfold taken_target.
  rewrite Ho. unfold eval_mem. erewrite bind_Ret by (by apply read_guest_ok).
  destruct (negb (reg_eqb index X86_REG_INVALID)).
  - erewrite bind_Ret by (by apply read_guest_ok). reflexivity.
  - erewrite bind_Ret by reflexivity. reflexivity.
Qed.

(** A taken jump through a memory operand of the segment [fs] loads from the offset of the
    operand, where the processor adds the base of the segment. *)
Theorem eval_target_segment (insn : cs_insn) (base index : x86_reg) (scale disp : Z) (b : Z * Z)
    (p : proc) (Hh : hashmap_ok (table (dbi p))) (Hu : is_u64 (rip (gstate p)))
    (Hg : branch_of (groups insn) = Some BJump)
    (Hc : jcc_cond (insn_id insn) (gstate p) = Some true)
    (Ho : first_operand insn = X86_OP_MEM X86_REG_FS base index scale disp)
    (Hb : negb (reg_eqb base X86_REG_INVALID) && tracked base (gstate p) = true)
    (Hi : (reg_eqb index X86_REG_INVALID || tracked index (gstate p)) = true)
    (Hs : short_address base index = false) :
  let o := memory_offset (gstate p) (insn_size insn) base index scale disp in
  __eval_target insn (rip (gstate p)) p
  = match load64 (mem p) o with Some t => Ret t p | None => Crashed p end /\
  x86_branch BJump insn b (gstate p) (mem p)
  = match load64 (mem p) (u64 (b.1 + o)) with
    | Some t => Some (t, gstate p, mem p)
    | None => None
    end.
Proof.
  split.
  - unfold __eval_target. rewrite eval_groups_jump, Hc by done. unfold taken_target. rewrite Ho.
    by apply eval_mem_ok.
  - unfold x86_branch. simpl. rewrite Hc, Ho. reflexivity.
Qed.

(** A return with an immediate operand goes to the right address but leaves the stack
    pointer below where the processor puts it, by the immediate. *)
Theorem eval_target_ret_imm (insn : cs_insn) (t : Z) (b : Z * Z) (p : proc)
    (Hh : hashmap_ok (table (dbi p))) (Hu : is_u64 (rsp (gstate p)))
    (Hg : branch_of (groups insn) = Some BRet) (Hn : insn_id insn = X86_INS_RET) (Hi : 0 < ret_imm insn < 2 ^ 16)
    (Ht : load64 (mem p) (rsp (gstate p)) = Some t) :
  exists p' s' m', __eval_target insn (rip (gstate p)) p = Ret t p' /\
    x86_branch BRet insn b (gstate p) (mem p) = Some (t, s', m') /\
    rsp (gstate p') = u64 (rsp (gstate p) + 8) /\
    rsp s' = u64 (rsp (gstate p) + 8 + ret_imm insn) /\ rsp (gstate p') <> rsp s'.
Proof.
  unfold __eval_target. rewrite eval_groups_ret, Ht by done. unfold x86_branch, near_branch.
  rewrite Hn. simpl. rewrite Ht. simpl.
  do 3 eexists. split_and!; try reflexivity. simpl. change (state (dbi p)) with (gstate p).
  unfold u64, is_u64 in *. intros E. revert E.
  generalize (rsp (gstate p) + 8). intros v E.
  assert (Hz : (v + ret_imm insn - v) mod 2 ^ 64 = 0)
    by (rewrite Zminus_mod, <- E, Z.sub_diag; done).
  replace (v + ret_imm insn - v) with (ret_imm insn) in Hz by lia.
  rewrite Z.mod_small in Hz; lia.
Qed.

(** A call through the word at the top of the stack reads its operand after the push:
    the emulation continues at the instruction after the call, where the processor goes to
    the address on the stack. *)
Theorem eval_target_call_rsp (insn : cs_insn) (scale t : Z) (b : Z * Z) (p : proc)
    (Hh : hashmap_ok (table (dbi p)))
    (Hrip : is_u64 (rip (gstate p))) (Hrsp : 8 <= rsp (gstate p) < 2 ^ 64 - 8)
    (Hg : branch_of (groups insn) = Some BCall) (Hn : insn_id insn = X86_INS_CALL)
    (Ho : first_operand insn = X86_OP_MEM X86_REG_INVALID X86_REG_RSP X86_REG_INVALID scale 0)
    (Hw : range_has PROT_WRITE (mem p) (rsp (gstate p) - 8) 8)
    (Hr : range_has PROT_READ (mem p) (rsp (gstate p) - 8) 8)
    (Ht : load64 (mem p) (rsp (gstate p)) = Some t) :
  exists p' s' m',
    __eval_target insn (rip (gstate p)) p = Ret (u64 (rip (gstate p) + insn_size insn)) p' /\
    x86_branch BCall insn b (gstate p) (mem p) = Some (t, s', m').
Proof.
  destruct (load64_store64 (mem p) (rsp (gstate p) - 8) (u64 (rip (gstate p) + insn_size insn)))
    as (m' & Es & El); try done; try lia.
  rewrite u64_idem in El.
  assert (E8 : u64 (rsp (gstate p) - 8) = rsp (gstate p) - 8)
    by (apply u64_small; unfold is_u64; lia).
  eexists _, _, m'. split.
  - unfold __eval_target. rewrite eval_groups_call by done. unfold mbind, M_bind.
    rewrite push_return_spec, E8, Es. cbv zeta iota beta. unfold taken_target. rewrite Ho.
    rewrite eval_mem_ok; [ | done | done | | done | done ].
    + set (p1 := _ <| mem := m' |>).
      assert (Ee : memory_offset (gstate p1) (insn_size insn) X86_REG_RSP X86_REG_INVALID
                     scale 0 = rsp (gstate p) - 8).
      { unfold memory_offset. change (short_address _ _) with false.
        change (reg_eqb X86_REG_RSP X86_REG_INVALID) with false.
        change (reg_eqb X86_REG_RSP X86_REG_RIP || reg_eqb X86_REG_RSP X86_REG_EIP) with false.
        change (reg_eqb X86_REG_INVALID X86_REG_INVALID) with true. cbv iota.
        rewrite reg_value_rsp by (apply u64_range).
        change (rsp (gstate p1)) with (u64 (rsp (gstate p) - 8)). rewrite E8.
        rewrite Z.mul_0_l, !Z.add_0_r. done. }
      rewrite Ee. change (mem p1) with m'. rewrite El. reflexivity.
    + unfold tracked. rewrite reg_value_rsp by (apply u64_range).
      change (rsp (gstate (_ <| mem := m' |>))) with (u64 (rsp (gstate p) - 8)).
      rewrite E8. rewrite (proj2 (Z.eqb_neq _ minus1)); [ done | ].
      change minus1 with (2 ^ 64 - 1). lia.
  - unfold x86_branch, near_branch. rewrite Hn. simpl. rewrite Ho. simpl.
    rewrite flat_address by done. unfold memory_offset. simpl.
    rewrite reg_value_rsp by (unfold is_u64; lia). rewrite !Z.add_0_r.
    rewrite (u64_small (rsp (gstate p))) by (unfold is_u64; lia). rewrite Ht. simpl.
    rewrite E8, Es. reflexivity.
Qed.
End TargetSpec.
