(* ===== verification/LogSpec.v ===== *)
(** * Reading the printed registers back

    A reader of the texts of [log_regs]: labels, then the words of a register in braces.  It
    finds every register with the value it has. *)

From S2P Require Import Prelude.
From S2P Require Import Regs.
From S2P Require Import Process.
From S2P Require Import TargetSpec.
From S2P Require Import Log.

(** ** The reader

    It is in a label, or in the braces after the label [l], with the value [v] of the [k]
    words it has passed and the word [w] so far. *)
Inductive reader :=
| InLabel (l : text)
| InWords (l : text) (v : Z) (k : Z) (w : Z).

Fixpoint index_of (c : ascii) (t : text) (i : Z) : option Z :=
  match t with [] => None | c' :: t' => if Ascii.eqb c c' then Some i else index_of c t' (i + 1) end.

Definition digit_value (c : ascii) : option Z := index_of c (str "0123456789abcdef") 0.

Definition blank (c : ascii) : bool :=
  Ascii.eqb c " " || Ascii.eqb c "009" || Ascii.eqb c "010".

Definition read_char (r : reader) (c : ascii) : option (list (text * Z) * reader) :=
  match r with
  | InLabel l =>
      if Ascii.eqb c "{" then Some ([], InWords l 0 0 0)
      else if blank c then Some ([], InLabel l) else Some ([], InLabel (l ++ [c]))
  | InWords l v k w =>
      if Ascii.eqb c "}" then Some ([(l, v + 2 ^ (64 * k) * w)], InLabel [])
      else if Ascii.eqb c "," then Some ([], InWords l (v + 2 ^ (64 * k) * w) (k + 1) 0)
      else if blank c then Some ([], r)
      else d ← digit_value c; Some ([], InWords l v k (w * 16 + d))
  end.

Fixpoint read (r : reader) (t : text) : option (list (text * Z) * reader) :=
  match t with
  | [] => Some ([], r)
  | c :: t' => '(es, r') ← read_char r c; '(es', r'') ← read r' t'; Some (es ++ es', r'')
  end.

(** The registers of a text. *)
Definition read_log (t : text) : option (list (text * Z)) :=
  match read (InLabel []) t with Some (es, InLabel []) => Some es | _ => None end.

(** ** What it reads *)

Lemma read_app r t1 t2 es1 r1 es2 r2 :
  read r t1 = Some (es1, r1) -> read r1 t2 = Some (es2, r2) ->
  read r (t1 ++ t2) = Some (es1 ++ es2, r2).
Proof.
  revert r es1. induction t1 as [| c t1 IH]; intros r es1 E1 E2; simplify_eq/=; [ done | ].
  destruct (read_char r c) as [[es r'] |]; simpl in *; [ | done ].
  destruct (read r' t1) as [[es' r''] |] eqn:E; simplify_eq/=.
  rewrite (IH _ _ E E2). simpl. by rewrite app_assoc.
Qed.

(** Read the first of two texts, which leads to [r]. *)
Ltac read_past r := refine (read_app _ _ _ [] r _ _ _ _); [ try reflexivity | ].

(** Texts one after the other, each from label to label. *)
Lemma read_concat {A} (f : A -> text) (e : A -> text * Z) l :
  Forall (fun x => read (InLabel []) (f x) = Some ([e x], InLabel [])) l ->
  read (InLabel []) (concat (f <$> l)) = Some (e <$> l, InLabel []).
Proof.
  induction 1 as [| x l Hx Hl IH]; [ done | ]. simpl. exact (read_app _ _ _ _ _ _ _ Hx IH).
Qed.

Lemma read_digit l v k w d :
  0 <= d < 16 -> read_char (InWords l v k w) (hex_digit d) = Some ([], InWords l v k (w * 16 + d)).
Proof.
  intros Hd.
  assert (d ∈ Z.of_nat <$> seq 0 16) as Hin.
  { apply list_elem_of_fmap. exists (Z.to_nat d). split; [ lia | ]. apply elem_of_seq. lia. }
  simpl in Hin. repeat (apply elem_of_cons in Hin as [-> | Hin]; [ reflexivity | ]).
  by apply not_elem_of_nil in Hin.
Qed.

Lemma read_hex n : forall l v k w x,
  read (InWords l v k w) (hex n x)
  = Some ([], InWords l v k (w * 16 ^ Z.of_nat n + x mod 16 ^ Z.of_nat n)).
Proof.
  induction n as [| n IH]; intros l v k w x.
  { simpl. rewrite Z.mod_1_r. do 3 f_equal. lia. }
  cbn [hex]. rewrite (read_app _ _ _ [] (InWords l v k (w * 16 ^ Z.of_nat n + (x / 16) mod 16 ^ Z.of_nat n))
    [] (InWords l v k (w * 16 ^ Z.of_nat (S n) + x mod 16 ^ Z.of_nat (S n)))); [ done | apply IH | ].
  cbn [read]. rewrite read_digit by (apply Z.mod_pos_bound; lia). cbn [mbind option_bind app].
  do 3 f_equal. rewrite Nat2Z.inj_succ, Z.pow_succ_r by lia.
  rewrite (Z.rem_mul_r x 16) by (try apply Z.pow_pos_nonneg; lia). lia.
Qed.

Lemma read_word l v k x : read (InWords l v k 0) (fmt_016lx x) = Some ([], InWords l v k (u64 x)).
Proof.
  unfold fmt_016lx. rewrite read_hex. do 3 f_equal. change (16 ^ Z.of_nat 16) with (2 ^ 64).
  unfold u64. by rewrite Z.mod_mod.
Qed.

(** A label as the reader gives it. *)
Definition name (t : text) : text := filter (fun c => blank c = false) t.

Lemma name_app t1 t2 : name (t1 ++ t2) = name t1 ++ name t2.
Proof. apply filter_app. Qed.

Lemma name_cons c t : name (c :: t) = if blank c then name t else c :: name t.
Proof.
  destruct (blank c) eqn:E; [ apply filter_cons_False; congruence | by apply filter_cons_True ].
Qed.

(** A label of printable characters. *)
Definition plain (c : ascii) : bool := negb (Ascii.eqb c "{").

Lemma read_label l t :
  forallb plain t = true -> read (InLabel l) t = Some ([], InLabel (l ++ name t)).
Proof.
  revert l. induction t as [| c t IH]; intros l Ht; [ by rewrite app_nil_r | ].
  cbn [forallb] in Ht. apply andb_true_iff in Ht as [Hc Ht].
  unfold plain in Hc. apply negb_true_iff in Hc.
  cbn [read read_char]. rewrite Hc, name_cons. destruct (blank c); cbn [mbind option_bind app];
    rewrite IH by done; [ done | ]. cbn [mbind option_bind app]. by rewrite <- app_assoc.
Qed.

(** ** The words of an integer *)

Lemma drop_le_split k : forall n v, drop k (le_split n v) = le_split (n - k) (v / 2 ^ (8 * Z.of_nat k)).
Proof.
  induction k as [| k IH]; intros n v.
  { by rewrite Z.div_1_r, Nat.sub_0_r, drop_0. }
  destruct n as [| n]; [ done | ]. cbn [le_split drop Nat.sub]. rewrite IH. f_equal.
  rewrite Z.div_div by (try apply Z.pow_pos_nonneg; lia).
  rewrite <- Z.pow_add_r by lia. do 2 f_equal. lia.
Qed.

Lemma take_le_split k : forall n v, (k <= n)%nat -> take k (le_split n v) = le_split k v.
Proof.
  induction k as [| k IH]; intros n v Hn; [ done | ].
  destruct n as [| n]; [ lia | ]. cbn [le_split take]. by rewrite IH by lia.
Qed.

Lemma iter_split n v i :
  (8 * i + 8 <= n)%nat -> iter (le_split n v) i = (v / 2 ^ (64 * Z.of_nat i)) mod 2 ^ 64.
Proof.
  intros Hi. unfold iter. rewrite drop_le_split, take_le_split, le_combine_split by lia.
  do 2 f_equal. f_equal. lia.
Qed.

Lemma words_join v a b :
  0 <= a -> 0 <= b -> v mod 2 ^ a + 2 ^ a * ((v / 2 ^ a) mod 2 ^ b) = v mod 2 ^ (a + b).
Proof.
  intros Ha Hb. rewrite Z.pow_add_r by lia.
  by rewrite (Z.rem_mul_r v (2 ^ a)) by (try apply Z.pow_pos_nonneg; lia).
Qed.

(** The separator and the next word. *)
Lemma read_next l v k w x :
  read (InWords l v k w) (str ", " ++ fmt_016lx x)
  = Some ([], InWords l (v + 2 ^ (64 * k) * w) (k + 1) (u64 x)).
Proof. read_past (InWords l (v + 2 ^ (64 * k) * w) (k + 1) 0). apply read_word. Qed.

(** The words after the first one. *)
Lemma read_words b n l v : forall m j,
  (1 <= j)%nat -> (8 * (j + m) <= n)%nat -> b = le_split n v ->
  read (InWords l (v mod 2 ^ (64 * Z.of_nat (j - 1))) (Z.of_nat (j - 1)) (iter b (j - 1)))
    (concat ((fun i => (if Nat.eqb i 0 then [] else str ", ") ++ fmt_016lx (iter b i)) <$> seq j m))
  = Some ([], InWords l (v mod 2 ^ (64 * Z.of_nat (j + m - 1))) (Z.of_nat (j + m - 1))
                (iter b (j + m - 1))).
Proof.
  intros m. induction m as [| m IH]; intros j Hj Hn Hb.
  { simpl. by rewrite Nat.add_0_r. }
  cbn [seq fmap list_fmap concat]. destruct (Nat.eqb_spec j 0); [ lia | ].
  eapply (read_app _ _ _ []); [ apply read_next | ].
  assert (Hi : u64 (iter b j) = iter b j) by (rewrite Hb, iter_split by lia; by apply Z.mod_mod).
  assert (Hv : v mod 2 ^ (64 * Z.of_nat (j - 1)) + 2 ^ (64 * Z.of_nat (j - 1)) * iter b (j - 1)
               = v mod 2 ^ (64 * Z.of_nat j)).
  { rewrite Hb, iter_split by lia. rewrite words_join by lia. do 2 f_equal. lia. }
  rewrite Hi, Hv. replace (Z.of_nat (j - 1) + 1) with (Z.of_nat j) by lia.
  replace (j + S m - 1)%nat with (S j + m - 1)%nat by lia.
  rewrite <- (IH (S j)) by (done || lia). by rewrite Nat.sub_succ, Nat.sub_0_r.
Qed.

(** An integer of [n] words in braces. *)
Lemma read_large l v n :
  (0 < n)%nat ->
  read (InLabel l) (prnt_large (le_split (8 * n) v) n)
  = Some ([(l, v mod 2 ^ (64 * Z.of_nat n))], InLabel []).
Proof.
  intros Hn. unfold prnt_large. destruct n as [| n]; [ lia | ].
  set (b := le_split (8 * S n) v).
  read_past (InWords l 0 0 0).
  cbn [seq fmap list_fmap concat Nat.eqb app]. rewrite <- app_assoc.
  assert (H0 : iter b 0 = v mod 2 ^ 64).
  { unfold b. rewrite iter_split by lia. by rewrite Z.div_1_r. }
  read_past (InWords l 0 0 (iter b 0)).
  { rewrite read_word, H0. unfold u64. by rewrite Z.mod_mod. }
  pose proof (read_words b (8 * S n) l v n 1 ltac:(lia) ltac:(lia) eq_refl) as E.
  cbn [Nat.sub] in E. rewrite Z.mod_1_r in E.
  refine (read_app _ _ _ [] _ _ _ E _). simpl. do 4 f_equal.
  replace (n - 0)%nat with n by lia. unfold b. rewrite iter_split by lia.
  rewrite words_join by lia. f_equal. f_equal. lia.
Qed.

(** ** The registers *)

Lemma read_named pre lab post v n :
  forallb plain (pre ++ lab ++ post) = true -> name pre = [] -> name post = [] -> (0 < n)%nat ->
  read (InLabel []) (pre ++ lab ++ post ++ prnt_large (le_split (8 * n) v) n)
  = Some ([(name lab, v mod 2 ^ (64 * Z.of_nat n))], InLabel []).
Proof.
  intros Hp Hpre Hpost Hn. rewrite !app_assoc, <- (app_assoc pre).
  read_past (InLabel (name lab)).
  - rewrite read_label by done. by rewrite !name_app, Hpre, Hpost, app_nil_r.
  - by apply read_large.
Qed.

Lemma read_row lab v :
  forallb plain lab = true ->
  read (InLabel []) (lab ++ tab ++ str " {" ++ fmt_016lx v ++ str "}" ++ newline)
  = Some ([(name lab, u64 v)], InLabel []).
Proof.
  intros Hp. read_past (InLabel (name lab)); [ by apply read_label | ].
  read_past (InLabel (name lab)). read_past (InWords (name lab) 0 0 0).
  read_past (InWords (name lab) 0 0 (u64 v)); [ apply read_word | ].
  simpl. do 4 f_equal. destruct (u64 v); reflexivity || lia.
Qed.

(** The registers of the guest under their names. *)
Definition general_values (s : state_rtime) : list (text * Z) :=
  [(str "$rax", u64 (rax s)); (str "$rbx", u64 (rbx s)); (str "$rcx", u64 (rcx s));
   (str "$rdx", u64 (rdx s)); (str "$rsi", u64 (rsi s)); (str "$rdi", u64 (rdi s));
   (str "$rbp", u64 (rbp s)); (str "$rsp", u64 (rsp s)); (str "$rip", u64 (rip s));
   (str "$r8", u64 (r8 s)); (str "$r9", u64 (r9 s)); (str "$r10", u64 (r10 s));
   (str "$r11", u64 (r11 s)); (str "$r12", u64 (r12 s)); (str "$r13", u64 (r13 s));
   (str "$r14", u64 (r14 s)); (str "$r15", u64 (r15 s)); (str "$rflags", u64 (rflags s))].

(** The vector registers: 128 bits in SSE mode, 256 in AVX2 mode. *)
Definition vector_values (s : state_rtime) : list (text * Z) :=
  match sse s, avx2 s with
  | Some xs, _ => imap (fun i v => (xmm_label i, v mod 2 ^ 128)) xs
  | None, Some ys => imap (fun i v => (ymm_label i, v mod 2 ^ 256)) ys
  | None, None => []
  end.

Lemma read_general s : read (InLabel []) (log_general s) = Some (general_values s, InLabel []).
Proof.
  unfold log_general.
  rewrite (read_concat _ (fun '(lab, f) => (name lab, u64 (field_get s f)))); [ done | ].
  repeat (apply Forall_cons_2; [ by apply read_row | ]). apply Forall_nil_2.
Qed.

(** Texts one after the other by their position. *)
Lemma read_imap {A} (f : nat -> A -> text) (e : nat -> A -> text * Z) l :
  (forall i x, read (InLabel []) (f i x) = Some ([e i x], InLabel [])) ->
  read (InLabel []) (concat (imap f l)) = Some (imap e l, InLabel []).
Proof.
  revert f e. induction l as [| x l IH]; intros f e Hf; [ done | ].
  rewrite !imap_cons. cbn [concat].
  refine (read_app _ _ _ _ _ _ _ (Hf 0%nat x) _). apply IH. intros i y. apply Hf.
Qed.

Lemma read_xmm i v :
  read (InLabel []) ((if Nat.eqb i 0 then [] else newline) ++ xmm_label i ++ tab ++
    (if Nat.eqb i 15 then [] else str " ") ++ prnt_uint128 v)
  = Some ([(xmm_label i, v mod 2 ^ 128)], InLabel []).
Proof.
  rewrite (app_assoc tab). change (2 ^ 128) with (2 ^ (64 * Z.of_nat 2)).
  assert (Hl : name (xmm_label i) = xmm_label i /\ forallb plain (xmm_label i) = true)
    by (do 16 (destruct i as [| i]; [ done | ]); done).
  rewrite <- (proj1 Hl) at 2.
  apply (read_named _ _ (tab ++ (if Nat.eqb i 15 then [] else str " ")) v 2); [ | | | lia ].
  - rewrite !forallb_app, (proj2 Hl). by destruct (Nat.eqb i 0), (Nat.eqb i 15).
  - by destruct (Nat.eqb i 0).
  - by destruct (Nat.eqb i 15).
Qed.

Lemma read_ymm i v :
  read (InLabel []) (newline ++ ymm_label i ++ tab ++ str " " ++ prnt_uint256 v)
  = Some ([(ymm_label i, v mod 2 ^ 256)], InLabel []).
Proof.
  rewrite (app_assoc tab). change (2 ^ 256) with (2 ^ (64 * Z.of_nat 4)).
  assert (Hl : name (ymm_label i) = ymm_label i /\ forallb plain (ymm_label i) = true)
    by (do 16 (destruct i as [| i]; [ done | ]); done).
  rewrite <- (proj1 Hl) at 2.
  apply (read_named _ _ (tab ++ str " ") v 4); [ | done | done | lia ].
  by rewrite !forallb_app, (proj2 Hl).
Qed.

Lemma read_vector s : read (InLabel []) (snd (log_regs_text s)) = Some (vector_values s, InLabel []).
Proof.
  unfold log_regs_text, vector_values. simpl. destruct (sse s) as [xs |].
  - apply read_imap. intros i v. apply read_xmm.
  - destruct (avx2 s) as [ys |]; [ | done ].
    rewrite <- (app_nil_r (imap _ ys)). refine (read_app _ _ _ _ (InLabel []) _ _ _ _); [ | done ].
    apply read_imap. intros i v. apply read_ymm.
Qed.

(** C30: What log_regs prints can be read back: the text on its stream gives every general
    register, the instruction pointer and the flags under their names with their 64-bit
    values, and the text on the debug stream every vector register of the mode, of 128 or of
    256 bits, with its words put together in the order they are printed. *)
Theorem log_regs_readable (s : state_rtime) :
  read_log (fst (log_regs_text s)) = Some (general_values s) /\
  read_log (snd (log_regs_text s)) = Some (vector_values s).
Proof. unfold read_log. by rewrite read_vector; simpl fst; rewrite read_general. Qed.
