(* ===== verification/Cflow.v ===== *)
(** * The end of a basic block (src/analysis.c: [opcodes_cflow], [insn_len])

    The linear sweep that looks for the next control flow instruction, a page at a time. *)

From S2P Require Import Prelude.
From S2P Require Import Pages.
From S2P Require Import Regs.
From S2P Require Import Process.
From S2P Require Import Memory.
From S2P Require Import Branch.
From S2P Require Import Target.

Section Cflow.
Context `{Kernel} `{Disassembler}.

(** The inner [for]: some group makes the function return at this instruction. *)
Definition stops_at (insn : cs_insn) (beg curr_syscall : bool) : bool :=
  existsb (fun g => is_cflow g && negb (beg && curr_syscall)) (groups insn).

(** How the [while] ends: by the [return n], or by its condition with the value of [n]. *)
Inductive scan_end := ScanReturn (n : Z) | ScanExit (n : Z).

Fixpoint cflow_scan (fuel : nat) (insn_buf : list Z) (size addr saved_size n : Z) (beg : bool)
  : M scan_end :=
  match fuel with
  | O => out_of_fuel
  | S fuel' =>
      if u64 n <? saved_size then
        match cs_decode (take (Z.to_nat size) insn_buf) addr with
        | None => mret (ScanExit n)
        | Some insn =>
            modify (fun p => with_dbi p (fun d => d <| count := u64 (count d + 1) |>));;
            cs ← get curr_syscall;
            if stops_at insn beg cs then mret (ScanReturn n)
            else
              modify (fun p => p <| curr_syscall := false |>);;
              cflow_scan fuel' (drop (Z.to_nat (insn_size insn)) insn_buf)
                (size - insn_size insn) (u64 (addr + insn_size insn)) saved_size
                (s32 (n + insn_size insn)) false
        end
      else mret (ScanExit n)
  end.

(** Every iteration consumes a byte of the page. *)
Definition scan_fuel : nat := S (Z.to_nat PAGE_SZ).

(** [fuel] bounds the depth of the recursion. *)
Fixpoint opcodes_cflow (fuel : nat) (addr : Z) (beg : bool) : M Z :=
  match fuel with
  | O => out_of_fuel
  | S fuel' =>
      if negb (is_mapped addr) then mret (-1)
      else
        '(ret, insn_buffer) ← mem_read (replicate (Z.to_nat PAGE_SZ) 0) addr PAGE_SZ;
        let saved_size := u64 ret in
        (if saved_size =? minus1 then fatal_dump else mret ());;
        r ← cflow_scan scan_fuel insn_buffer PAGE_SZ addr saved_size 0 beg;
        match r with
        | ScanReturn n => mret n
        | ScanExit n =>
            if is_mapped (u64 (addr + n)) && truth n then
              m ← opcodes_cflow fuel' (u64 (addr + n)) true;
              mret (s32 (n + m))
            else fatal_dump
        end
  end.

Definition insn_len (target : Z) : M Z :=
  if negb (is_mapped_range target INSTRUCTION_MAX_SZ) then fatal_dump
  else
    '(ret, buf_insn) ← mem_read (replicate (Z.to_nat INSTRUCTION_MAX_SZ) 0) target
                         INSTRUCTION_MAX_SZ;
    (if ret =? -1 then fatal_dump else mret ());;
    match cs_decode buf_insn target with
    | Some insn_d => mret (insn_size insn_d)
    | None => mret (-1)
    end.
End Cflow.
