(* ===== verification/CflowSpec.v ===== *)
(** * Properties of the linear sweep *)

From S2P Require Import Prelude.
From S2P Require Import Pages.
From S2P Require Import Regs.
From S2P Require Import Process.
From S2P Require Import Memory.
From S2P Require Import MemorySpec.
From S2P Require Import Branch.
From S2P Require Import Target.
From S2P Require Import Cflow.

(** What the sweep relies on: an instruction has between 1 and 15 bytes, all taken from the
    code, and is decoded from these bytes alone. *)
Class DisassemblerOk `{Disassembler} : Prop := {
  dec_size : forall code a i,
    cs_decode code a = Some i -> 1 <= insn_size i <= 15 /\ insn_size i <= Z.of_nat (length code);
  dec_prefix : forall code rest a i,
    cs_decode code a = Some i ->
    cs_decode (take (Z.to_nat (insn_size i)) code ++ rest) a = Some i
}.

Section CflowSpec.
Context `{Kernel} `{Disassembler}.

(** The instruction at an address of the guest. *)
Definition insn_at (m : aspace) (a : Z) : option cs_insn := cs_decode (mem_bytes m a 16) a.

Definition ends_block (i : cs_insn) : bool := existsb is_cflow (groups i).

(** [sweep m a d]: from [a], instruction after instruction, the first one that ends a
    block is at [a + d]. *)
Inductive sweep (m : aspace) : Z -> Z -> Prop :=
| sweep_here a i : insn_at m a = Some i -> ends_block i = true -> sweep m a 0
| sweep_next a i d :
    insn_at m a = Some i -> ends_block i = false -> sweep m (a + insn_size i) d ->
    sweep m a (insn_size i + d).

Context {Hdec : DisassemblerOk}.

Lemma sweep_nonneg m a d : sweep m a d -> 0 <= d.
Proof.
  induction 1 as [| a i d Hi _ _ IH]; [ done | ]. destruct (dec_size _ _ _ Hi). lia.
Qed.

Lemma sweep_unique m a d : sweep m a d -> forall d', sweep m a d' -> d = d'.
Proof.
  induction 1 as [a i Hi He | a i d Hi He _ IH]; intros d' Hd; inversion Hd; simplify_eq/=;
    [ done | congruence | congruence | ]. f_equal. by apply IH.
Qed.

Lemma sweep_ext m m' a d : (forall x, byte_at m' x = byte_at m x) -> sweep m a d -> sweep m' a d.
Proof.
  intros Hx. assert (Hi : forall a, insn_at m' a = insn_at m a).
  { intros x. unfold insn_at. f_equal. by apply mem_bytes_ext. }
  induction 1; [ eapply sweep_here | eapply sweep_next ]; rewrite ?Hi; eauto.
Qed.

(** The sweep depends on the bytes it passes and on the window of its last instruction. *)
Lemma insn_at_local m m' a lo hi :
  (forall x, lo <= x < hi -> byte_at m' x = byte_at m x) -> lo <= a -> a + 16 <= hi ->
  insn_at m' a = insn_at m a.
Proof.
  intros Hx Hl Hh. unfold insn_at. f_equal. apply mem_bytes_ext. intros x Hr. apply Hx. lia.
Qed.

Lemma sweep_local m m' a d lo hi :
  (forall x, lo <= x < hi -> byte_at m' x = byte_at m x) ->
  lo <= a -> a + d + 16 <= hi -> sweep m a d -> sweep m' a d.
Proof.
  intros Hx Hl Hh Hs. revert Hl Hh.
  induction Hs as [a i Hi He | a i d Hi He Hs IH]; intros Hl Hh.
  - eapply sweep_here; [ | exact He ]. rewrite (insn_at_local m m' a lo hi); [ done | done | lia | lia ].
  - destruct (dec_size _ _ _ Hi). pose proof (sweep_nonneg _ _ _ Hs).
    eapply sweep_next; [ | exact He | apply IH; lia ].
    rewrite (insn_at_local m m' a lo hi); [ done | done | lia | lia ].
Qed.

Lemma take_mem_bytes m a k n : (k <= n)%nat -> take k (mem_bytes m a n) = mem_bytes m a k.
Proof.
  intros Hk. replace n with (k + (n - k))%nat by lia. rewrite mem_bytes_app.
  rewrite take_app_length' by (by rewrite mem_bytes_length). done.
Qed.

Lemma drop_mem_bytes m a k n :
  (k <= n)%nat -> drop k (mem_bytes m a n) = mem_bytes m (a + Z.of_nat k) (n - k).
Proof.
  intros Hk. replace n with (k + (n - k))%nat at 1 by lia. rewrite mem_bytes_app.
  rewrite drop_app_length' by (by rewrite mem_bytes_length). done.
Qed.

(** A window decodes to what another window decodes to, when it holds the instruction. *)
Lemma decode_window m a n k i :
  cs_decode (mem_bytes m a n) a = Some i -> insn_size i <= Z.of_nat k ->
  cs_decode (mem_bytes m a k) a = Some i.
Proof.
  intros Hi Hk. destruct (dec_size _ _ _ Hi) as [Hs Hl]. rewrite mem_bytes_length in Hl.
  pose proof (dec_prefix _ (mem_bytes m (a + insn_size i) (k - Z.to_nat (insn_size i))) _ _ Hi) as Hp.
  rewrite take_mem_bytes in Hp by lia.
  replace (a + insn_size i) with (a + Z.of_nat (Z.to_nat (insn_size i))) in Hp by lia.
  rewrite <- mem_bytes_app in Hp.
  by replace (Z.to_nat (insn_size i) + (k - Z.to_nat (insn_size i)))%nat with k in Hp by lia.
Qed.

(** A window of the page decodes to the instruction at its address or, when it cuts the
    instruction, to nothing. *)
Lemma decode_page m a k i :
  insn_at m a = Some i ->
  cs_decode (mem_bytes m a k) a = if insn_size i <=? Z.of_nat k then Some i else None.
Proof.
  intros Hi. destruct (Z.leb_spec (insn_size i) (Z.of_nat k)).
  { by eapply decode_window. }
  destruct (cs_decode (mem_bytes m a k) a) as [j |] eqn:Ej; [ | done ].
  destruct (dec_size _ _ _ Ej) as [? Hl]. rewrite mem_bytes_length in Hl.
  assert (Ei : insn_at m a = Some j) by (apply (decode_window _ _ k); [ done | lia ]).
  simplify_eq. lia.
Qed.

(** The process after a scan: the instruction count has changed and the flag that a
    system call was left to the guest is cleared. *)
Definition scanned (p : proc) (c : Z) : proc :=
  with_dbi (p <| curr_syscall := false |>) (fun d => d <| count := c |>).

Lemma scanned_scanned p c c' : scanned (scanned p c) c' = scanned p c'.
Proof. reflexivity. Qed.

(** The scan of the page at [A] from its offset [n]. *)
Definition scan_at (fuel : nat) (m : aspace) (A n saved : Z) (beg : bool) : M scan_end :=
  cflow_scan fuel (mem_bytes m (A + n) (Z.to_nat (PAGE_SZ - n))) (PAGE_SZ - n) (A + n)
    saved n beg.

Lemma stops_at_plain i beg cs : beg && cs = false -> stops_at i beg cs = ends_block i.
Proof.
  intros E. unfold stops_at, ends_block. rewrite E.
  induction (groups i) as [| g gs IH]; [ done | ]. cbn [existsb]. by rewrite IH, andb_true_r.
Qed.

Lemma stops_at_skip i : stops_at i true true = false.
Proof.
  unfold stops_at. induction (groups i) as [| g gs IH]; [ done | ]. cbn [existsb].
  by rewrite IH, andb_false_r.
Qed.

(** One iteration at an instruction that is not returned at. *)
Lemma cflow_scan_step fuel m A n saved beg i p :
  0 <= A -> 0 <= n < saved -> saved <= PAGE_SZ -> A + PAGE_SZ < 2 ^ 64 ->
  insn_at m (A + n) = Some i -> stops_at i beg (curr_syscall p) = false ->
  scan_at (S fuel) m A n saved beg p
  = if insn_size i <=? PAGE_SZ - n
    then scan_at fuel m A (n + insn_size i) saved false
           (scanned p (u64 (count (dbi p) + 1)))
    else Ret (ScanExit n) p.
Proof.
  intros HA Hn Hs Hu Hi Hst. destruct (dec_size _ _ _ Hi) as [Hz _].
  unfold scan_at. cbn [cflow_scan]. rewrite (u64_small n) by (unfold is_u64, PAGE_SZ in *; lia).
  rewrite (proj2 (Z.ltb_lt n saved)) by lia.
  rewrite take_ge by (rewrite mem_bytes_length; lia).
  rewrite (decode_page _ _ _ i Hi), Z2Nat.id by lia.
  destruct (Z.leb_spec (insn_size i) (PAGE_SZ - n)) as [Hle | Hgt]; [ | done ].
  erewrite bind_Ret by reflexivity. erewrite bind_Ret by reflexivity.
  change (curr_syscall (with_dbi p _)) with (curr_syscall p). rewrite Hst.
  erewrite bind_Ret by reflexivity. rewrite drop_mem_bytes by lia.
  rewrite u64_small by (unfold is_u64; lia).
  unfold s32. rewrite sext_small by (unfold PAGE_SZ in *; lia).
  rewrite Z2Nat.id by lia. rewrite !Z.add_assoc.
  replace (Z.to_nat (PAGE_SZ - n) - Z.to_nat (insn_size i))%nat
    with (Z.to_nat (PAGE_SZ - (n + insn_size i))) by lia.
  replace (PAGE_SZ - n - insn_size i) with (PAGE_SZ - (n + insn_size i)) by lia. done.
Qed.

(** The scan returns at the instruction the sweep finds, or leaves the page before it. *)
Lemma cflow_scan_ok m A n d saved :
  sweep m (A + n) d -> 0 <= A -> 0 <= n <= PAGE_SZ -> saved <= PAGE_SZ ->
  A + PAGE_SZ < 2 ^ 64 ->
  forall fuel beg p, PAGE_SZ - n < Z.of_nat fuel -> curr_syscall p = false ->
  exists r c, scan_at fuel m A n saved beg p = Ret r (scanned p c) /\
    match r with
    | ScanReturn x => x = n + d
    | ScanExit x => n <= x <= PAGE_SZ /\ sweep m (A + x) (n + d - x) /\
                    (n < saved -> n <= PAGE_SZ - 16 -> n < x)
    end.
Proof.
  intros Hsw HA Hn Hs Hu. remember (A + n) as a eqn:Ea. revert n Ea Hn.
  assert (Hid : forall p, curr_syscall p = false -> p = scanned p (count (dbi p))).
  { intros [? ? ? [] ? ? ? ? ?] Hc. simpl in Hc. by subst. }
  induction Hsw as [a i Hi He | a i d Hi He Hsw IH]; intros n -> Hn fuel beg p Hf Hc;
    (destruct fuel as [| fuel]; [ lia | ]).
  - destruct (dec_size _ _ _ Hi) as [Hz _]. rewrite Z.add_0_r. unfold scan_at. cbn [cflow_scan].
    rewrite (u64_small n) by (unfold is_u64, PAGE_SZ in *; lia).
    assert (Hsw : sweep m (A + n) (n - n)) by (rewrite Z.sub_diag; by eapply sweep_here).
    destruct (Z.ltb_spec n saved).
    2: { exists (ScanExit n), (count (dbi p)). rewrite <- Hid by done.
         split; [ done | ]. split_and!; try done; lia. }
    rewrite take_ge by (rewrite mem_bytes_length; lia).
    rewrite (decode_page _ _ _ i Hi), Z2Nat.id by lia.
    destruct (Z.leb_spec (insn_size i) (PAGE_SZ - n)).
    + exists (ScanReturn n), (u64 (count (dbi p) + 1)). split; [ | done ].
      erewrite bind_Ret by reflexivity. erewrite bind_Ret by reflexivity.
      change (curr_syscall (with_dbi p _)) with (curr_syscall p). rewrite Hc.
      rewrite stops_at_plain, He by (by rewrite andb_false_r).
      destruct p as [? ? ? [] ? ? ? ? ?]. simpl in Hc. by subst.
    + exists (ScanExit n), (count (dbi p)). rewrite <- Hid by done.
      split; [ done | ]. split_and!; try done; lia.
  - destruct (dec_size _ _ _ Hi) as [Hz _].
    assert (Hsw' : sweep m (A + n) (n + (insn_size i + d) - n))
      by (replace (n + (insn_size i + d) - n) with (insn_size i + d) by lia; by eapply sweep_next).
    destruct (Z.ltb_spec n saved).
    2: { exists (ScanExit n), (count (dbi p)). rewrite <- Hid by done.
         unfold scan_at. cbn [cflow_scan].
         rewrite (u64_small n) by (unfold is_u64, PAGE_SZ in *; lia).
         rewrite (proj2 (Z.ltb_ge n saved)) by lia. split; [ done | ].
         split_and!; try done; lia. }
    assert (Hst : stops_at i beg (curr_syscall p) = false)
      by (rewrite stops_at_plain by (by rewrite Hc, andb_false_r); done).
    rewrite (cflow_scan_step _ _ _ _ _ _ i) by (done || lia).
    destruct (Z.leb_spec (insn_size i) (PAGE_SZ - n)).
    + destruct (IH (n + insn_size i) ltac:(lia) ltac:(lia) fuel false
                  (scanned p (u64 (count (dbi p) + 1))) ltac:(lia) ltac:(done))
        as (r & c & E & Hr).
      exists r, c. rewrite scanned_scanned in E. split; [ exact E | ].
      destruct r as [x | x]; [ lia | ]. destruct Hr as (Hx & Hsx & _).
      split_and!; try lia. by replace (n + (insn_size i + d) - x) with (n + insn_size i + d - x) by lia.
    + exists (ScanExit n), (count (dbi p)). rewrite <- Hid by done.
      split; [ done | ]. split_and!; try done; lia.
Qed.

(** What a call of the sweep must find: the first instruction that ends a block, the
    instruction at the start not counting when it is a system call left to the guest. *)
Definition block_end (m : aspace) (a : Z) (skip : bool) (d : Z) : Prop :=
  if skip then exists i e, insn_at m a = Some i /\ sweep m (a + insn_size i) e /\
                           d = insn_size i + e
  else sweep m a d.

Lemma block_end_nonneg m a skip d : block_end m a skip d -> 0 <= d.
Proof.
  destruct skip; [ | apply sweep_nonneg ].
  intros (i & e & Hi & Hs & ->). destruct (dec_size _ _ _ Hi). apply sweep_nonneg in Hs. lia.
Qed.

Lemma block_end_local m m' a skip d lo hi :
  (forall x, lo <= x < hi -> byte_at m' x = byte_at m x) ->
  lo <= a -> a + d + 16 <= hi -> block_end m a skip d -> block_end m' a skip d.
Proof.
  intros Hx Hl Hh. destruct skip; [ | by apply (sweep_local m m' a d lo hi) ].
  intros (i & e & Hi & Hs & ->). destruct (dec_size _ _ _ Hi).
  pose proof (sweep_nonneg _ _ _ Hs). exists i, e. split_and!; [ | | done ].
  - rewrite (insn_at_local m m' a lo hi); [ done | done | lia | lia ].
  - apply (sweep_local m m' _ e lo hi); try done; lia.
Qed.

Lemma page_scan_ok m a d saved p :
  block_end m a (curr_syscall p) d -> 0 <= a -> 0 < saved <= PAGE_SZ -> a + PAGE_SZ < 2 ^ 64 ->
  exists r c, scan_at scan_fuel m a 0 saved true p = Ret r (scanned p c) /\
    match r with
    | ScanReturn x => x = d
    | ScanExit x => 0 < x <= PAGE_SZ /\ sweep m (a + x) (d - x)
    end.
Proof.
  intros Hb Ha Hs Hu. unfold block_end in Hb. destruct (curr_syscall p) eqn:Hc.
  - destruct Hb as (i & e & Hi & Hsw & ->). destruct (dec_size _ _ _ Hi) as [Hz _].
    unfold scan_fuel. rewrite (cflow_scan_step _ _ _ _ _ _ i);
      try rewrite Z.add_0_r; try done; try (unfold PAGE_SZ in *; lia);
      [ | by rewrite Hc, stops_at_skip ].
    rewrite (proj2 (Z.leb_le _ _)) by (unfold PAGE_SZ; lia). rewrite Z.add_0_l.
    destruct (cflow_scan_ok m a (insn_size i) e saved Hsw Ha
                ltac:(unfold PAGE_SZ; lia) ltac:(lia) Hu (Z.to_nat PAGE_SZ) false
                (scanned p (u64 (count (dbi p) + 1))) ltac:(lia) ltac:(done)) as (r & c & E & Hr).
    exists r, c. split; [ exact E | ]. destruct r as [x | x]; [ done | ].
    destruct Hr as (Hx & Hsx & _). split; [ lia | done ].
  - destruct (cflow_scan_ok m a 0 d saved) with (fuel := scan_fuel) (beg := true) (p := p)
      as (r & c & E & Hr); rewrite ?Z.add_0_r; try done; try (unfold PAGE_SZ in *; lia).
    exists r, c. split; [ done | ]. destruct r as [x | x]; [ lia | ].
    destruct Hr as (Hx & Hsx & Hpos). rewrite Z.add_0_l in Hsx. split; [ | done ].
    unfold PAGE_SZ in *. lia.
Qed.

Lemma page_read_ok p a :
  0 <= a -> a + PAGE_SZ < 2 ^ 64 -> range_has PROT_READ (mem p) a PAGE_SZ ->
  rwx_allowed a PAGE_SZ ->
  exists m' saved, mem_read (replicate (Z.to_nat PAGE_SZ) 0) a PAGE_SZ p
    = Ret (saved, mem_bytes (mem p) a (Z.to_nat PAGE_SZ)) (p <| mem := m' |>) /\
    0 < saved <= PAGE_SZ /\ rwx_grow (mem p) m'.
Proof.
  intros Ha Hu Hr Hal.
  destruct (mem_read_run p (replicate (Z.to_nat PAGE_SZ) 0) a PAGE_SZ) as (m' & E & Hra);
    rewrite ?length_replicate; try done; try (unfold PAGE_SZ in *; lia).
  rewrite drop_ge, app_nil_r in E by (by rewrite length_replicate).
  eexists m', _. split; [ exact E | ]. split; [ | by eapply rwx_after_grow ].
  unfold last_chunk. pose proof (PAGE_OFFT_range a). pose proof (PAGE_OFFT_range (a + PAGE_SZ)).
  repeat case_match; bool_to_prop; lia.
Qed.

Lemma opcodes_cflow_run fuel a p d :
  block_end (mem p) a (curr_syscall p) d -> 0 <= a -> a + d + PAGE_SZ < 2 ^ 64 ->
  d < 2 ^ 31 -> range_has PROT_READ (mem p) a (d + PAGE_SZ) -> rwx_allowed a (d + PAGE_SZ) ->
  d < Z.of_nat fuel ->
  exists m' c, opcodes_cflow fuel a true p = Ret d ((scanned p c) <| mem := m' |>) /\
               rwx_grow (mem p) m'.
Proof.
  revert a p d. induction fuel as [| fuel IH]; intros a p d Hb Ha Hu Hd Hr Hal Hf;
    pose proof (block_end_nonneg _ _ _ _ Hb) as Hd0; [ lia | ].
  destruct (page_read_ok p a) as (m1 & saved & E1 & Hs & Hg); try done; try lia.
  { intros x Hx. apply Hr. lia. }
  { eapply rwx_allowed_sub; [ exact Hal | unfold PAGE_SZ; lia | lia ]. }
  destruct (page_scan_ok (mem p) a d saved (p <| mem := m1 |>)) as (r & c & E2 & Hx);
    try done; try lia.
  unfold scan_at in E2. rewrite Z.add_0_r, Z.sub_0_r in E2.
  cbn [opcodes_cflow is_mapped negb]. erewrite bind_Ret by exact E1. cbv beta iota zeta.
  rewrite (u64_small saved) by (unfold is_u64, PAGE_SZ in *; lia).
  rewrite (proj2 (Z.eqb_neq saved minus1)) by (unfold PAGE_SZ in *; change minus1 with (2 ^ 64 - 1); lia).
  erewrite bind_Ret by reflexivity. erewrite bind_Ret by exact E2.
  destruct r as [x | x]; [ subst; by exists m1, c | ]. destruct Hx as [Hx Hsw].
  pose proof (sweep_nonneg _ _ _ Hsw) as Hdx. rewrite u64_small by (unfold is_u64; lia).
  unfold truth. rewrite (proj2 (Z.eqb_neq x 0)) by lia. cbn [negb andb is_mapped].
  destruct (IH (a + x) ((scanned (p <| mem := m1 |>) c)) (d - x)) as (m2 & c2 & E3 & Hg2);
    try lia.
  - simpl. eapply sweep_ext; [ apply Hg | done ].
  - eapply range_has_grow; [ exact Hg | auto with dry | ]. intros y Hy. apply Hr. lia.
  - intros m y Hy. apply Hal. replace (d + PAGE_SZ) with (x + (d - x + PAGE_SZ)) by lia.
    rewrite touched_app by (unfold PAGE_SZ; lia). by rewrite Hy, orb_true_r.
  - erewrite bind_Ret by exact E3. exists m2, c2. split; [ | by etrans ].
    unfold s32. rewrite sext_small by lia. by replace (x + (d - x)) with d by lia.
Qed.

(** C9: When the linear sweep from an address meets its first block-ending instruction d
    bytes further, and the memory can be read up to a page beyond that end, opcodes_cflow
    returns d with any fuel above d, across as many pages as it takes, leaving every byte of
    the memory as it was; a system call left to the guest at the start is skipped. *)
Theorem opcodes_cflow_finds (fuel : nat) (a d : Z) (p : proc)
    (Hb : block_end (mem p) a (curr_syscall p) d)
    (Ha : 0 <= a) (Hu : a + d + PAGE_SZ < 2 ^ 64) (Hd : d < 2 ^ 31)
    (Hr : range_has PROT_READ (mem p) a (d + PAGE_SZ)) (Hal : rwx_allowed a (d + PAGE_SZ))
    (Hf : d < Z.of_nat fuel) :
  exists m' c,
    opcodes_cflow fuel a true p = Ret d ((scanned p c) <| mem := m' |>) /\
    rwx_grow (mem p) m'.
Proof. by apply opcodes_cflow_run. Qed.

(** The instruction buffer of the single-instruction readers. *)
Lemma insn_read_ok p a :
  0 <= a -> a + INSTRUCTION_MAX_SZ < 2 ^ 64 ->
  range_has PROT_READ (mem p) a INSTRUCTION_MAX_SZ -> rwx_allowed a INSTRUCTION_MAX_SZ ->
  exists m' r, mem_read (replicate (Z.to_nat INSTRUCTION_MAX_SZ) 0) a INSTRUCTION_MAX_SZ p
    = Ret (r, mem_bytes (mem p) a 16) (p <| mem := m' |>) /\ r <> -1 /\ rwx_grow (mem p) m'.
Proof.
  intros Ha Hu Hr Hal. unfold INSTRUCTION_MAX_SZ in *.
  destruct (mem_read_run p (replicate (Z.to_nat 16) 0) a 16) as (m' & E & Hra);
    rewrite ?length_replicate; try done; try lia.
  eexists m', _. split; [ exact E | ]. split; [ | by eapply rwx_after_grow ].
  unfold last_chunk. pose proof (PAGE_OFFT_range (a + 16)).
  repeat case_match; bool_to_prop; unfold PAGE_SZ in *; lia.
Qed.

Lemma insn_len_run a p :
  0 <= a -> a + INSTRUCTION_MAX_SZ < 2 ^ 64 ->
  range_has PROT_READ (mem p) a INSTRUCTION_MAX_SZ -> rwx_allowed a INSTRUCTION_MAX_SZ ->
  exists m', insn_len a p
    = Ret (match insn_at (mem p) a with Some i => insn_size i | None => -1 end)
        (p <| mem := m' |>) /\ rwx_grow (mem p) m'.
Proof.
  intros Ha Hu Hr Hal.
  destruct (insn_read_ok p a) as (m' & r & E & Hne & Hg); try done.
  exists m'. split; [ | done ]. unfold insn_len. rewrite is_mapped_range_true. cbn [negb].
  erewrite bind_Ret by exact E. cbv beta iota. rewrite (proj2 (Z.eqb_neq r (-1))) by done.
  erewrite bind_Ret by reflexivity. unfold insn_at. by destruct (cs_decode _ _).
Qed.

(** insn_len returns the length of the instruction at the address, or -1 when there is
    none, and changes no byte of the memory. *)
Theorem insn_len_ok (a : Z) (p : proc)
    (Ha : 0 <= a) (Hu : a + INSTRUCTION_MAX_SZ < 2 ^ 64)
    (Hr : range_has PROT_READ (mem p) a INSTRUCTION_MAX_SZ)
    (Hal : rwx_allowed a INSTRUCTION_MAX_SZ) :
  exists m', insn_len a p
    = Ret (match insn_at (mem p) a with Some i => insn_size i | None => -1 end)
        (p <| mem := m' |>) /\ rwx_grow (mem p) m'.
Proof. by apply insn_len_run. Qed.
End CflowSpec.
