(* ===== verification/Engine.v ===== *)
(** * The instrumentation engine (src/engine.c)

    Hooks are written over the guest code at the end of a basic block ([dump]) and in front
    of its start ([restore]); the dispatcher takes them out, emulates the branch and
    instruments the next block.  The user callback is a parameter. *)

From S2P Require Import Prelude.
From S2P Require Import Pages.
From S2P Require Import Regs.
From S2P Require Import Process.
From S2P Require Import Syscalls.
From S2P Require Import Memory.
From S2P Require Import Branch.
From S2P Require Import Target.
From S2P Require Import Cflow.

(** [munmap(addr, sz)] *)
Definition munmap (m : aspace) (addr sz : Z) : Z * aspace :=
  if truth (PAGE_OFFT addr) || (sz =? 0) then (-1, m)
  else let len := Z.of_nat (page_count sz) * PAGE_SZ in
       (0, mk_aspace (filter (fun x => in_range addr len x.1 = false) (prots m))
             (filter (fun x => in_range addr len x.1 = false) (bytes m))).

Definition unmap (addr sz : Z) : M Z := fun p =>
  let '(r, m) := munmap (mem p) addr sz in Ret r (p <| mem := m |>).

(** The hook a [hook_t*] refers to. *)
Inductive which_hook := Dump | Restore.

Definition hook_of (w : which_hook) (p : proc) : hook :=
  match w with Dump => dump (dbi p) | Restore => restore (dbi p) end.

Definition set_hook (w : which_hook) (f : hook -> hook) (p : proc) : proc :=
  with_dbi p (fun d => match w with
                       | Dump => d <| dump := f (dump d) |>
                       | Restore => d <| restore := f (restore d) |>
                       end).

(** [if (-1 == r) fatal_dump(s_binary)] *)
Definition check (r : Z) : M unit := if r =? -1 then fatal_dump else mret ().

(** The callback of main.c, which counts the basic blocks. *)
Definition test : M Z :=
  modify (fun p => p <| bbl_count := s32 (bbl_count p + 1) |>);; mret 0.

Section Engine.
Context `{Kernel} `{RegEnum} `{Disassembler}.
Context (u_handler : M Z).

Definition write_hook (w : which_hook) : M Z :=
  h ← get (hook_of w);
  (if negb (is_mapped (PAGE_ALIGN (jmp h))) then
     r ← map_page (PAGE_ALIGN (jmp h)) (Z.lor PROT_EXEC PROT_READ);
     check r;;
     modify (set_hook w (fun h => h <| to_unmap := PAGE_ALIGN (jmp h) |>))
   else if negb (is_mapped (u64 (jmp h + hlength h))) then
     r ← map_page (u64 (jmp h + hlength h)) (Z.lor PROT_EXEC PROT_READ);
     check r;;
     modify (set_hook w (fun h => h <| to_unmap := PAGE_ALIGN (u64 (jmp h + hlength h)) |>))
   else mret ());;
  '(r, orig) ← mem_read (orig_bytes h) (jmp h) (hlength h);
  modify (set_hook w (fun h => h <| orig_bytes := orig |>));;
  check r;;
  r ← mem_write (jmp h) (hcode h) (hlength h);
  check r;;
  (if negb (truth (Z.land (get_prot (jmp h)) PROT_EXEC)) then
     r ← make_executable (PAGE_ALIGN (jmp h)) PAGE_SZ; check r
   else mret ());;
  mret 0.

(** [_instrument_bbl]; its argument [hook] is [dump] at its only call. *)
Definition _instrument_bbl (fuel : nat) (w : which_hook) (base : Z) : M Z :=
  off_cflow ← opcodes_cflow fuel base true;
  check off_cflow;;
  modify (set_hook Dump (fun h => h <| jmp := u64 (base + off_cflow) |>));;
  len ← insn_len (u64 (base + off_cflow));
  modify (fun p => with_dbi p (fun d => d <| length_cflow := len |>));;
  r ← write_hook w;
  (if truth r then fatal_dump else mret ());;
  mret (u64 off_cflow).

Definition restore_bytes (w : which_hook) : M Z :=
  h ← get (hook_of w);
  (if negb (is_mapped (jmp h)) then fatal_dump
   else r ← mem_write (jmp h) (orig_bytes h) (hlength h); check r);;
  mret 0.

Definition instrument_request (fuel : nat) (base_bbl : Z) : M Z :=
  off ← _instrument_bbl fuel Dump base_bbl;
  modify (fun p => with_dbi p (fun d => d <| curr_hook := u64 (base_bbl + off) |>));;
  modify (fun p => set_hook Restore
            (fun h => h <| jmp := u64 (base_bbl - hlength (restore (dbi p))) |>) p);;
  modify (fun p => with_dbi p (fun d => d <| curr_hook := jmp (dump d) |>));;
  r ← write_hook Restore;
  check r;;
  mret 0.

(** [parse_request], for a request of type [ty] at [address]. *)
Definition INSTRUMENT_BBL : Z := 0x0.
Definition INSTRUMENT_ADDR : Z := 0x1.

Definition parse_request (ty address base_bbl : Z) : M bool :=
  get (fun p =>
    if ty =? INSTRUMENT_ADDR then (base_bbl <=? address) && (address <=? jmp (dump (dbi p)))
    else ty =? INSTRUMENT_BBL).

(** [log_persistent_hook] *)
Definition PERSISTENT_FIND_SPACE : Z := 0x4.

Definition log_persistent_hook (address : Z) : M Z :=
  modify (fun p => with_dbi p (fun d =>
    d <| persistent_hook := (persistent_hook d) <| pstate := PERSISTENT_FIND_SPACE |> |>));;
  modify (fun p => with_dbi p (fun d =>
    d <| persistent_hook := (persistent_hook d) <| paddress := address |> |>));;
  mret 0.

Definition br_emulation (addr : Z) : M Z :=
  target ← eval_target addr;
  (if target =? minus1 then fatal_dump else mret ());;
  mret target.

Definition _get_bbl_base : M Z :=
  a ← get (fun p => curr_hook (dbi p));
  br_emulation a.

(** [restore_bytes(hook) == -1 || (hook->to_unmap && unmap(addr, PAGE_SZ) == -1)], fatal
    when it holds. *)
Definition take_out (w : which_hook) (addr : Z -> Z) : M unit :=
  r ← restore_bytes w;
  (if r =? -1 then fatal_dump
   else
     h ← get (hook_of w);
     if truth (to_unmap h) then r ← unmap (addr (to_unmap h)) PAGE_SZ; check r
     else mret ()).

Definition continue_exec : M unit :=
  _ ← set_guest_fs_gs;
  mret ().

Definition _dispatcher (fuel : nat) : M unit :=
  '(r, f, g) ← save_fs_gs;
  modify (fun p => with_dbi p (fun d => d <| instrumented_fs := f |> <| instrumented_gs := g |>));;
  (if r =? -1 then fatal_dump
   else r ← set_host_fs_gs; check r);;
  take ← get (fun p => take_callback (dbi p));
  (if (take : bool) then _ ← u_handler; mret () else mret ());;
  h ← get (hook_of Restore);
  (if truth (jmp h) then take_out Restore id else mret ());;
  modify (set_hook Restore (fun h => h <| to_unmap := 0 |>));;
  take_out Dump PAGE_ALIGN;;
  modify (set_hook Dump (fun h => h <| to_unmap := 0 |>));;
  base_bbl ← _get_bbl_base;
  (if base_bbl =? minus1 then fatal_dump else mret ());;
  r ← instrument_request fuel base_bbl;
  check r;;
  modify (fun p => with_state p
            (fun s => s <| rip := u64 (base_bbl - hlength (restore (dbi p))) |>));;
  continue_exec.
End Engine.
