(* ===== verification/EngineSpec.v ===== *)
(** * Properties of the instrumentation engine *)

From S2P Require Import Prelude.
From S2P Require Import Pages.
From S2P Require Import Regs.
From S2P Require Import Process.
From S2P Require Import Syscalls.
From S2P Require Import SyscallsSpec.
From S2P Require Import Memory.
From S2P Require Import MemorySpec.
From S2P Require Import Branch.
From S2P Require Import Target.
From S2P Require Import TargetSpec.
From S2P Require Import Cflow.
From S2P Require Import CflowSpec.
From S2P Require Import Engine.

(** ** Patched memory

    [patched m m' a l]: [m'] is [m] with the bytes [l] at [a]; pages may have become RWX. *)

Definition prots_grow (m m' : aspace) : Prop :=
  forall x, page_prot m' x = page_prot m x \/
            page_prot m' x = Some PROT_RWX /\ is_Some (page_prot m x).

Record patched (m m' : aspace) (a : Z) (l : list Z) : Prop := {
  pt_bytes : forall x, byte_at m' x = if in_range a (Z.of_nat (length l)) x
                                      then nth (Z.to_nat (x - a)) l 0 else byte_at m x;
  pt_prots : prots_grow m m'
}.

#[global] Instance prots_grow_preorder : PreOrder prots_grow.
Proof.
  split; [ by left | ]. intros m1 m2 m3 P1 P2 x.
  destruct (P1 x) as [E1 | [E1 S1]], (P2 x) as [E2 | [E2 S2]]; rewrite ?E2, ?E1; auto.
  right. by rewrite <- E1.
Qed.

Lemma grow_prots m m' : rwx_grow m m' -> prots_grow m m'.
Proof. by intros []. Qed.

Lemma prots_grow_has flag m m' a n :
  prots_grow m m' -> flag ∈ [PROT_READ; PROT_WRITE; PROT_EXEC] ->
  range_has flag m a n -> range_has flag m' a n.
Proof.
  intros P Hf Hr x Hx. specialize (Hr x Hx). unfold has_prot in *.
  destruct (P x) as [-> | [-> _]]; [ done | by apply rwx_flag ].
Qed.

Lemma prots_grow_mapped m m' x :
  prots_grow m m' -> is_Some (page_prot m x) -> is_Some (page_prot m' x).
Proof. intros P Hs. destruct (P x) as [-> | [-> _]]; [ done | by eexists ]. Qed.

Lemma written_patched flag m m' a l len n :
  0 <= len <= Z.of_nat (length l) -> (n = len \/ n = len + 1) ->
  range_has flag m a len -> is_Some (page_prot m (a + len)) ->
  written m m' a l len n -> patched m m' a (take (Z.to_nat len) l).
Proof.
  intros Hl Hn Hr He [B P]. split.
  - intros x. rewrite B, length_take.
    replace (Z.of_nat (Z.to_nat len `min` length l)) with len by lia.
    destruct (in_range_spec a len x); [ | done ]. rewrite !nth_lookup, lookup_take_lt by lia. done.
  - intros x. rewrite P. destruct (touched a n x) eqn:E; [ right | by left ]. split; [ done | ].
    destruct Hn as [-> | ->]; [ by eapply touched_mapped | ].
    rewrite touched_app in E by lia. apply orb_true_iff in E as [E | E].
    + by eapply touched_mapped.
    + rewrite touched_page in E by (pose proof (PAGE_OFFT_range (a + len)); lia).
      apply Z.eqb_eq in E. unfold page_prot in *. by rewrite <- E.
Qed.

Lemma patched_mem_bytes m m' a l : patched m m' a l -> mem_bytes m' a (length l) = l.
Proof.
  intros [B _]. apply mem_bytes_eq. intros x Hx. rewrite B.
  by destruct (in_range_spec a (Z.of_nat (length l)) x).
Qed.

(** Patching back the bytes that were there. *)
Lemma patched_undo m m1 m2 a l :
  patched m m1 a l -> patched m1 m2 a (mem_bytes m a (length l)) -> rwx_grow m m2.
Proof.
  intros [B1 P1] [B2 P2]. assert (P : prots_grow m m2) by (by transitivity m1).
  split; [ | exact P ]. intros x. rewrite B2, mem_bytes_length, B1.
  destruct (in_range_spec a (Z.of_nat (length l)) x); [ by apply nth_mem_bytes | done ].
Qed.

Section EngineSpec.
Context `{HK : Kernel} `{HR : RegEnum} `{HD : Disassembler}.

(** The hook [h] fits in its buffers. *)
Record hook_wf (h : hook) : Prop := {
  hw_len : 0 < hlength h < PAGE_SZ;
  hw_code : hlength h <= Z.of_nat (length (hcode h));
  hw_orig : hlength h <= Z.of_nat (length (orig_bytes h))
}.

(** The memory at a hook can be read, and the page after it is mapped. *)
Record hook_room (m : aspace) (a len : Z) : Prop := {
  hr_low : 0 <= a;
  hr_high : a + len + 1 < 2 ^ 64;
  hr_read : range_has PROT_READ m a len;
  hr_end : is_Some (page_prot m (a + len));
  hr_allowed : rwx_allowed a (len + 1)
}.

Definition hook_bytes (h : hook) : list Z := take (Z.to_nat (hlength h)) (hcode h).
Definition saved_bytes (h : hook) : list Z := take (Z.to_nat (hlength h)) (orig_bytes h).

Lemma check_ok r p : r <> -1 -> check r p = Ret () p.
Proof. intros Hr. unfold check. by rewrite (proj2 (Z.eqb_neq r (-1))). Qed.

Lemma write_hook_run w p :
  let h := hook_of w p in
  hook_wf h -> hook_room (mem p) (jmp h) (hlength h) ->
  exists m', write_hook w p
    = Ret 0 ((set_hook w (fun h => h <| orig_bytes :=
                mem_bytes (mem p) (jmp h) (Z.to_nat (hlength h))
                ++ drop (Z.to_nat (hlength h)) (orig_bytes h) |>) p) <| mem := m' |>)
    /\ patched (mem p) m' (jmp h) (hook_bytes h)
    /\ range_has PROT_WRITE m' (jmp h) (hlength h).
Proof.
  intros h [Hl Hc Ho] [H0 H1 Hr He Hal].
  assert (Hl31 : hlength h < 2 ^ 31) by (unfold PAGE_SZ in *; lia).
  destruct (mem_read_run p (orig_bytes h) (jmp h) (hlength h)) as (m1 & E1 & Ha1);
    try done; try lia.
  { eapply rwx_allowed_sub; [ exact Hal | lia | lia ]. }
  pose proof (rwx_after_grow _ _ _ _ _ Hr Ha1) as Hg.
  match type of E1 with _ = Ret (?r, ?l) _ => set (r1 := r) in E1; set (orig := l) in E1 end.
  assert (Hr1 : r1 <> -1).
  { unfold r1, last_chunk. pose proof (PAGE_OFFT_range (jmp h + hlength h)).
    repeat case_match; bool_to_prop; unfold PAGE_SZ in *; lia. }
  set (p1 := set_hook w (fun h => h <| orig_bytes := orig |>) (p <| mem := m1 |>)).
  assert (Hm1 : mem p1 = m1) by (by destruct w).
  assert (Hw1 : range_has PROT_WRITE m1 (jmp h) (hlength h)).
  { intros x Hx. eapply rwx_after_has; [ exact Ha1 | auto with dry | left ].
    by apply touched_in. }
  destruct (mem_write_run p1 (jmp h) (hcode h) (hlength h)) as (m2 & E2 & Hw2);
    rewrite ?Hm1; try done; try lia.
  { eapply prots_grow_mapped; [ apply grow_prots, Hg | done ]. }
  rewrite Hm1 in Hw2. exists m2. split_and!.
  - unfold write_hook. erewrite bind_Ret by reflexivity. fold h. cbn [is_mapped negb].
    erewrite bind_Ret by reflexivity. erewrite bind_Ret by exact E1. cbv beta iota.
    erewrite bind_Ret by reflexivity. fold p1.
    erewrite bind_Ret by (by apply check_ok). erewrite bind_Ret by exact E2.
    erewrite bind_Ret by (apply check_ok; lia).
    change (truth (Z.land (get_prot (jmp h)) PROT_EXEC)) with true.
    cbn [negb]. unfold p1, orig, h. destruct w; reflexivity.
  - destruct (written_patched PROT_WRITE m1 m2 (jmp h) (hcode h) (hlength h) (hlength h + 1))
      as [B P]; try done; try lia; auto.
    { eapply prots_grow_mapped; [ apply grow_prots, Hg | done ]. }
    split; [ | etrans; [ apply grow_prots, Hg | done ] ]. intros x. rewrite B.
    unfold hook_bytes. destruct (in_range _ _ _); [ done | apply Hg ].
  - eapply range_has_written; [ exact Hw2 | auto with dry | exact Hw1 ].
Qed.

Lemma restore_bytes_run w p :
  let h := hook_of w p in
  hook_wf h -> range_has PROT_WRITE (mem p) (jmp h) (hlength h) -> 0 <= jmp h ->
  jmp h + hlength h + 1 < 2 ^ 64 -> is_Some (page_prot (mem p) (jmp h + hlength h)) ->
  rwx_allowed (jmp h) (hlength h + 1) ->
  exists m', restore_bytes w p = Ret 0 (p <| mem := m' |>)
    /\ patched (mem p) m' (jmp h) (saved_bytes h).
Proof.
  intros h [Hl Hc Ho] Hw H0 H1 He Hal.
  destruct (mem_write_run p (jmp h) (orig_bytes h) (hlength h)) as (m2 & E2 & Hw2);
    try done; try (unfold PAGE_SZ in *; lia).
  exists m2. split.
  - unfold restore_bytes. erewrite bind_Ret by reflexivity. fold h. cbn [is_mapped negb].
    rewrite bind_assoc. erewrite bind_Ret by exact E2.
    erewrite bind_Ret by (apply check_ok; lia). reflexivity.
  - apply (written_patched PROT_WRITE _ _ _ _ _ (hlength h + 1)); try done; try lia; auto.
Qed.

(** C10: Writing a hook and restoring it succeed, the memory in between holds the code of
    the hook, and the memory at the end has the bytes it had at the beginning, its pages
    having at most become RWX. *)
Theorem write_restore_hook (w : which_hook) (p : proc)
    (Hw : hook_wf (hook_of w p))
    (Hr : hook_room (mem p) (jmp (hook_of w p)) (hlength (hook_of w p))) :
  exists p1 p2, write_hook w p = Ret 0 p1 /\ restore_bytes w p1 = Ret 0 p2 /\
    mem_bytes (mem p1) (jmp (hook_of w p)) (Z.to_nat (hlength (hook_of w p)))
    = hook_bytes (hook_of w p) /\
    rwx_grow (mem p) (mem p2).
Proof.
  destruct (write_hook_run w p Hw Hr) as (m1 & E1 & [B1 P1] & Hw1). revert E1 B1 P1 Hw1.
  destruct Hw as [Hl Hc Ho], Hr as [Hlow Hhigh Hread Hend Hal].
  set (h := hook_of w p) in *. intros E1 B1 P1 Hw1.
  match type of E1 with _ = Ret _ ?q => set (p1 := q) in E1 end.
  assert (Hh : hook_of w p1 = h <| orig_bytes := mem_bytes (mem p) (jmp h) (Z.to_nat (hlength h))
                           ++ drop (Z.to_nat (hlength h)) (orig_bytes h) |>)
    by (unfold p1, h; by destruct w).
  assert (Hlen : length (hook_bytes h) = Z.to_nat (hlength h))
    by (unfold hook_bytes; rewrite length_take; lia).
  assert (Hsv : saved_bytes (hook_of w p1) = mem_bytes (mem p) (jmp h) (Z.to_nat (hlength h))).
  { rewrite Hh. unfold saved_bytes. simpl.
    by rewrite take_app_length' by (by rewrite mem_bytes_length). }
  destruct (restore_bytes_run w p1) as (m2 & E2 & [B2 P2]); rewrite ?Hh; simpl; try done.
  { split; simpl; try done. rewrite length_app, mem_bytes_length. lia. }
  { eapply prots_grow_mapped; done. }
  exists p1, (p1 <| mem := m2 |>). rewrite <- Hlen.
  split_and!; try done; [ by eapply patched_mem_bytes | ].
  eapply patched_undo; [ by split | ]. rewrite Hlen.
  rewrite <- Hsv. rewrite Hh in B2 |- *. by split.
Qed.

(** ** The instrumented state

    [instrumented m0 p]: the guest memory [m0] with the [restore] hook and, after it, the
    [dump] hook over it, their bytes saved. *)
Record instrumented (m0 : aspace) (p : proc) : Prop := {
  in_dump : hook_wf (dump (dbi p));
  in_restore : hook_wf (restore (dbi p));
  in_unmap : to_unmap (dump (dbi p)) = 0 /\ to_unmap (restore (dbi p)) = 0;
  in_low : 0 < jmp (restore (dbi p));
  in_order : jmp (restore (dbi p)) + hlength (restore (dbi p)) <= jmp (dump (dbi p));
  in_saved : saved_bytes (dump (dbi p))
             = mem_bytes m0 (jmp (dump (dbi p))) (length (hook_bytes (dump (dbi p)))) /\
             saved_bytes (restore (dbi p))
             = mem_bytes m0 (jmp (restore (dbi p))) (length (hook_bytes (restore (dbi p))));
  in_mem : exists m1, patched m0 m1 (jmp (dump (dbi p))) (hook_bytes (dump (dbi p))) /\
                      patched m1 (mem p) (jmp (restore (dbi p))) (hook_bytes (restore (dbi p)));
  in_room : hook_room m0 (jmp (dump (dbi p))) (hlength (dump (dbi p))) /\
            hook_room m0 (jmp (restore (dbi p))) (hlength (restore (dbi p)));
  in_write : range_has PROT_WRITE (mem p) (jmp (dump (dbi p))) (hlength (dump (dbi p))) /\
             range_has PROT_WRITE (mem p) (jmp (restore (dbi p))) (hlength (restore (dbi p)));
  in_curr : curr_hook (dbi p) = jmp (dump (dbi p));
  in_flag : curr_syscall p = false
}.

Lemma instrumented_state m p f : instrumented m p -> instrumented m (with_state p f).
Proof. by intros []. Qed.

Lemma instrumented_grow m0 p : instrumented m0 p -> prots_grow m0 (mem p).
Proof. intros Hi. destruct (in_mem _ _ Hi) as (m1 & P1 & P2). etrans; [ apply P1 | apply P2 ]. Qed.


(** Everything the writing of hooks leaves alone. *)
Definition core (p : proc) :=
  (state (dbi p), host_state (dbi p), table (dbi p),
   (instrumented_fs (dbi p), instrumented_gs (dbi p), take_callback (dbi p), vbrk (dbi p)),
   (cpu_fs p, cpu_gs p, must_change p, bbl_count p, trace p, descriptors p),
   (dump_stub (dbi p), restore_stub (dbi p), host_rsp (dbi p), base_guest_stack (dbi p),
    persistent_hook (dbi p)),
   (hcode (dump (dbi p)), hlength (dump (dbi p)), to_unmap (dump (dbi p))),
   (hcode (restore (dbi p)), hlength (restore (dbi p)), to_unmap (restore (dbi p)))).

Lemma core_hooks p q :
  core p = core q ->
  hcode (dump (dbi p)) = hcode (dump (dbi q)) /\
  hlength (dump (dbi p)) = hlength (dump (dbi q)) /\
  to_unmap (dump (dbi p)) = to_unmap (dump (dbi q)) /\
  hcode (restore (dbi p)) = hcode (restore (dbi q)) /\
  hlength (restore (dbi p)) = hlength (restore (dbi q)) /\
  to_unmap (restore (dbi p)) = to_unmap (restore (dbi q)).
Proof. unfold core. intros E. injection E. intros. by split_and!. Qed.

(** A basic block that can be instrumented: it ends [d] bytes after [base], and the
    memory from the restore hook to a page beyond the end of the block can be read. *)
Record can_instrument (fuel : nat) (p : proc) (base d : Z) : Prop := {
  ci_dump : hook_wf (dump (dbi p));
  ci_restore : hook_wf (restore (dbi p));
  ci_block : block_end (mem p) base (curr_syscall p) d;
  ci_low : hlength (restore (dbi p)) < base;
  ci_high : base + d + PAGE_SZ + 1 < 2 ^ 64;
  ci_size : d < 2 ^ 31;
  ci_fuel : d < Z.of_nat fuel;
  ci_read : range_has PROT_READ (mem p) (base - hlength (restore (dbi p)))
              (hlength (restore (dbi p)) + d + PAGE_SZ);
  ci_allowed : rwx_allowed (base - hlength (restore (dbi p)))
                 (hlength (restore (dbi p)) + d + PAGE_SZ)
}.

Lemma range_has_within flag m a n b k :
  range_has flag m a n -> a <= b -> b + k <= a + n -> range_has flag m b k.
Proof. intros Hr H0 H1 x Hx. apply Hr. lia. Qed.

(** The room of a hook inside a readable range. *)
Lemma hook_room_within m a n b len :
  range_has PROT_READ m a n -> rwx_allowed a n -> 0 <= a -> a + n < 2 ^ 64 ->
  a <= b -> 0 <= len -> b + len < a + n -> hook_room m b len.
Proof.
  intros Hr Hal H0 Hu H1 H2 H3. split; try lia.
  - eapply range_has_within; [ done | lia | lia ].
  - specialize (Hr (b + len) ltac:(lia)). unfold has_prot in Hr.
    destruct (page_prot m (b + len)); [ by eexists | done ].
  - eapply rwx_allowed_within; [ done | lia | lia | lia ].
Qed.

Lemma hook_room_grow m m' a len : prots_grow m m' -> hook_room m a len -> hook_room m' a len.
Proof.
  intros P []. split; try done.
  - eapply prots_grow_has; eauto with dry.
  - by eapply prots_grow_mapped.
Qed.

Context {Hdec : DisassemblerOk}.

(** [_instrument_bbl] up to the writing of the hook. *)
Lemma instrument_bbl_run fuel p base d :
  can_instrument fuel p base d ->
  exists p1 m', _instrument_bbl fuel Dump base p = Ret d p1 /\ core p1 = core p /\
    rwx_grow (mem p) m' /\
    patched m' (mem p1) (base + d) (hook_bytes (dump (dbi p))) /\
    range_has PROT_WRITE (mem p1) (base + d) (hlength (dump (dbi p))) /\
    jmp (dump (dbi p1)) = base + d /\ hook_wf (dump (dbi p1)) /\
    restore (dbi p1) = restore (dbi p) /\ curr_syscall p1 = false /\
    saved_bytes (dump (dbi p1)) = mem_bytes (mem p) (base + d) (length (hook_bytes (dump (dbi p)))).
Proof.
  intros [Hd Hr Hb Hlow Hhigh Hsz Hf Hread Hal].
  pose proof (block_end_nonneg _ _ _ _ Hb) as Hd0.
  destruct Hd as [Hdl Hdc Hdo], Hr as [Hrl Hrc Hro].
  destruct (opcodes_cflow_run fuel base p d) as (m1 & c & E1 & G1);
    try done; try (unfold PAGE_SZ in *; lia).
  { eapply range_has_within; [ done | lia | lia ]. }
  { eapply rwx_allowed_within; [ done | lia | unfold PAGE_SZ; lia | lia ]. }
  set (p1 := (scanned p c) <| mem := m1 |>) in E1.
  set (p2 := set_hook Dump (fun h => h <| jmp := base + d |>) p1).
  destruct (insn_len_run (base + d) p2) as (m2 & E2 & G2);
    try (unfold INSTRUCTION_MAX_SZ, PAGE_SZ in *; lia).
  { eapply range_has_grow; [ exact G1 | auto with dry | ].
    eapply range_has_within; [ done | unfold INSTRUCTION_MAX_SZ, PAGE_SZ; lia
                             | unfold INSTRUCTION_MAX_SZ, PAGE_SZ; lia ]. }
  { eapply rwx_allowed_within; [ done | lia | done | unfold INSTRUCTION_MAX_SZ, PAGE_SZ; lia ]. }
  match type of E2 with _ = Ret ?v _ => set (len := v) in E2 end.
  set (p3 := with_dbi (p2 <| mem := m2 |>) (fun d => d <| length_cflow := len |>)).
  assert (Ej : u64 (base + d) = base + d) by (apply u64_small; unfold is_u64; lia).
  assert (G : rwx_grow (mem p) m2) by (etrans; [ exact G1 | exact G2 ]).
  assert (Hroom : hook_room m2 (base + d) (hlength (dump (dbi p)))).
  { eapply hook_room_grow; [ apply grow_prots, G | ].
    eapply hook_room_within; [ exact Hread | exact Hal | lia .. ]. }
  destruct (write_hook_run Dump p3) as (m3 & E3 & P3 & W3).
  { split; done. }
  { done. }
  simpl in P3, W3. change (hook_bytes _) with (hook_bytes (dump (dbi p))) in P3.
  match type of E3 with _ = Ret _ ?q => exists q, m2 end. split_and!; try done.
  - unfold _instrument_bbl. erewrite bind_Ret by exact E1.
    erewrite bind_Ret by (apply check_ok; lia). erewrite bind_Ret by reflexivity.
    rewrite Ej. fold p2. erewrite bind_Ret by exact E2. erewrite bind_Ret by reflexivity.
    fold p3. erewrite bind_Ret by exact E3. erewrite bind_Ret by reflexivity.
    rewrite u64_small by (unfold is_u64; lia). reflexivity.
  - split; simpl; try done. rewrite length_app, mem_bytes_length. lia.
  - unfold saved_bytes, hook_bytes. simpl.
    rewrite take_app_length' by (by rewrite mem_bytes_length).
    rewrite length_take. replace (Z.to_nat _ `min` _)%nat with (Z.to_nat (hlength (dump (dbi p)))) by lia.
    apply mem_bytes_ext. intros x _. apply G.
Qed.

Lemma hook_bytes_length h : hook_wf h -> Z.of_nat (length (hook_bytes h)) = hlength h.
Proof. intros []. unfold hook_bytes. rewrite length_take. lia. Qed.

(** The two patches of a block, [restore] over [dump], as the invariant records them. *)
Lemma patched_grow m m' m1 a l : rwx_grow m m' -> patched m' m1 a l -> patched m m1 a l.
Proof.
  intros [B P] [B1 P1]. split; [ | etrans; [ exact P | done ] ].
  intros x. rewrite B1. by destruct (in_range _ _ _).
Qed.

(** The [instrumented] state from what the two calls of [write_hook] leave. *)
Lemma instrumented_intro m m0 m1 p base d :
  let dh := dump (dbi p) in let rh := restore (dbi p) in
  hook_wf dh -> hook_wf rh -> to_unmap dh = 0 -> to_unmap rh = 0 ->
  0 <= d -> hlength rh < base -> jmp dh = base + d -> jmp rh = base - hlength rh ->
  rwx_grow m m0 ->
  patched m0 m1 (jmp dh) (hook_bytes dh) -> range_has PROT_WRITE m1 (jmp dh) (hlength dh) ->
  patched m1 (mem p) (jmp rh) (hook_bytes rh) ->
  range_has PROT_WRITE (mem p) (jmp rh) (hlength rh) ->
  saved_bytes dh = mem_bytes m (jmp dh) (length (hook_bytes dh)) ->
  saved_bytes rh = mem_bytes m1 (jmp rh) (length (hook_bytes rh)) ->
  hook_room m (jmp dh) (hlength dh) -> hook_room m (jmp rh) (hlength rh) ->
  curr_hook (dbi p) = jmp dh -> curr_syscall p = false ->
  instrumented m p.
Proof.
  intros dh rh Hd Hr Hu1 Hu2 Hd0 Hlow Hjd Hjr G Pd Wd Pr Wr Sd Sr Rd Rr Hc Hf.
  pose proof (hook_bytes_length _ Hd) as Hbd. pose proof (hook_bytes_length _ Hr) as Hbr.
  subst dh rh. split; try done; try lia.
  - split; [ exact Sd | ]. rewrite Sr. apply mem_bytes_ext. intros x Hx.
    rewrite (pt_bytes _ _ _ _ Pd).
    destruct (in_range_spec (jmp (dump (dbi p))) (Z.of_nat (length (hook_bytes (dump (dbi p))))) x);
      [ lia | apply G ].
  - exists m1. split; [ eapply patched_grow; [ exact G | exact Pd ] | exact Pr ].
  - split; [ | exact Wr ]. eapply prots_grow_has; [ apply Pr | auto with dry | exact Wd ].
Qed.

(** The hook [write_hook_run] leaves has the bytes of the memory as its saved bytes. *)
Lemma saved_written m h :
  hook_wf h ->
  let h' := h <| orig_bytes := mem_bytes m (jmp h) (Z.to_nat (hlength h))
                               ++ drop (Z.to_nat (hlength h)) (orig_bytes h) |> in
  hook_wf h' /\ saved_bytes h' = mem_bytes m (jmp h) (length (hook_bytes h)).
Proof.
  intros Hh. pose proof (hook_bytes_length _ Hh) as Hb. destruct Hh as [Hl Hc Ho]. simpl. split.
  - split; simpl; try done. rewrite length_app, mem_bytes_length. lia.
  - unfold saved_bytes. simpl. rewrite take_app_length' by (by rewrite mem_bytes_length).
    f_equal. lia.
Qed.

Lemma instrument_request_run fuel p base d :
  can_instrument fuel p base d ->
  to_unmap (dump (dbi p)) = 0 -> to_unmap (restore (dbi p)) = 0 ->
  exists p', instrument_request fuel base p = Ret 0 p' /\ core p' = core p /\
    instrumented (mem p) p' /\ jmp (dump (dbi p')) = base + d /\
    jmp (restore (dbi p')) = base - hlength (restore (dbi p)).
Proof.
  intros Hci Hu1 Hu2.
  destruct (instrument_bbl_run fuel p base d Hci)
    as (p1 & m0 & E1 & Hcore & G & Pd & Wd & Hjd & Hwd & Hre & Hfl & Hsd).
  destruct Hci as [Hd Hr Hb Hlow Hhigh Hsz Hf Hread Hal].
  pose proof (block_end_nonneg _ _ _ _ Hb) as Hd0.
  pose proof (hw_len _ Hd) as Hld. pose proof (hw_len _ Hr) as Hlr.
  destruct (core_hooks _ _ Hcore) as (Hc1 & Hc2 & Hc3 & _).
  set (hr := (restore (dbi p)) <| jmp := base - hlength (restore (dbi p)) |>).
  set (p2 := with_dbi p1 (fun d => d <| restore := hr |> <| curr_hook := jmp (dump d) |>)).
  assert (Hroom : forall a len, base - hlength hr <= a -> 0 <= len ->
            a + len < base + d + PAGE_SZ -> hook_room (mem p) a len).
  { intros a len **. simpl in *. eapply hook_room_within; [ exact Hread | exact Hal | lia .. ]. }
  assert (Hwr : hook_wf hr) by (by destruct Hr).
  destruct (write_hook_run Restore p2) as (m2 & E2 & P2 & W2); [ done | | ].
  { simpl. eapply hook_room_grow; [ etrans; [ apply grow_prots, G | apply Pd ] | ].
    apply (Hroom _ (hlength hr)); simpl; unfold PAGE_SZ in *; lia. }
  destruct (saved_written (mem p1) hr Hwr) as [Hwf Hsr].
  match type of E2 with _ = Ret _ ?q => exists q end. split_and!.
  - unfold instrument_request. erewrite bind_Ret by exact E1.
    do 3 (erewrite bind_Ret by reflexivity).
    match goal with |- (_ ≫= _) ?q = _ => replace q with p2 end;
      [ erewrite bind_Ret by exact E2; reflexivity | ].
    unfold p2, hr, set_hook, with_dbi. simpl. rewrite Hre.
    by rewrite (u64_small (base - _)) by (unfold is_u64; unfold PAGE_SZ in *; lia).
  - rewrite <- Hcore. unfold core. simpl. by rewrite Hre.
  - apply (instrumented_intro _ m0 (mem p1) _ base d); simpl;
      unfold hook_bytes in *; rewrite ?Hjd, ?Hc1, ?Hc2, ?Hc3; try done;
      apply Hroom; simpl; unfold PAGE_SZ in *; lia.
  - done.
  - done.
Qed.

(** ** Taking the hooks out *)

Lemma patched_grow_r m m1 m2 a l : patched m m1 a l -> rwx_grow m1 m2 -> patched m m2 a l.
Proof.
  intros [B P] [B2 P2]. split; [ | etrans; [ exact P | done ] ]. intros x. by rewrite B2, B.
Qed.

(** Patches at disjoint places are undone in the reverse order. *)
Lemma patched_undo2 m0 m1 m2 m3 m4 ad ld ar lr :
  patched m0 m1 ad ld -> patched m1 m2 ar lr -> ar + Z.of_nat (length lr) <= ad ->
  patched m2 m3 ar (mem_bytes m0 ar (length lr)) ->
  patched m3 m4 ad (mem_bytes m0 ad (length ld)) -> rwx_grow m0 m4.
Proof.
  intros P1 P2 Hd P3 P4.
  assert (Hr : mem_bytes m0 ar (length lr) = mem_bytes m1 ar (length lr)).
  { apply mem_bytes_ext. intros x Hx. rewrite (pt_bytes _ _ _ _ P1).
    by destruct (in_range_spec ad (Z.of_nat (length ld)) x); [ lia | ]. }
  rewrite Hr in P3. pose proof (patched_undo _ _ _ _ _ P2 P3) as G.
  eapply patched_undo; [ | exact P4 ]. by eapply patched_grow_r.
Qed.

Lemma take_out_run w addr p :
  let h := hook_of w p in
  hook_wf h -> to_unmap h = 0 -> range_has PROT_WRITE (mem p) (jmp h) (hlength h) ->
  hook_room (mem p) (jmp h) (hlength h) ->
  exists m', (forall B (k : M B),
      (take_out w addr;; modify (set_hook w (fun h => h <| to_unmap := 0 |>));; k) p
      = k (p <| mem := m' |>))
    /\ patched (mem p) m' (jmp h) (saved_bytes h).
Proof.
  intros h Hw Hu Hwr [H0 H1 _ He Hal].
  destruct (restore_bytes_run w p) as (m' & E & P); try done. fold h in P.
  exists m'. split; [ | done ]. intros B k. unfold take_out. rewrite !bind_assoc.
  erewrite bind_Ret by exact E. cbn [Z.eqb]. rewrite !bind_assoc.
  erewrite bind_Ret by reflexivity.
  replace (to_unmap (hook_of w (p <| mem := m' |>))) with 0 by (rewrite <- Hu; by destruct w).
  erewrite bind_Ret by reflexivity. erewrite bind_Ret by reflexivity. f_equal.
  destruct p as [? ? ? [? ? ? [] [] ? ? ? ? ? ? ?] ? ? ? ? ?]; destruct w; simpl in *; by subst.
Qed.

(** The process when the dispatcher evaluates the branch: the bases of the host in force,
    those of the guest saved, one more block counted. *)
Definition entered (p : proc) (m : aspace) : proc :=
  (with_dbi p (fun d => d <| instrumented_fs := cpu_fs p |> <| instrumented_gs := cpu_gs p |>))
    <| cpu_fs := fs (host_state (dbi p)) |> <| cpu_gs := gs (host_state (dbi p)) |>
    <| bbl_count := s32 (bbl_count p + 1) |> <| mem := m |>.

(** The end of the dispatcher, from the evaluation of the branch on. *)
Definition dispatch_tail (fuel : nat) : M unit :=
  base_bbl ← _get_bbl_base;
  (if base_bbl =? minus1 then fatal_dump else mret ());;
  r ← instrument_request fuel base_bbl;
  check r;;
  modify (fun p => with_state p
            (fun s => s <| rip := u64 (base_bbl - hlength (restore (dbi p))) |>));;
  continue_exec.

Definition host_bases_ok (p : proc) : Prop :=
  k_base_ok (fs (host_state (dbi p))) = true /\ k_base_ok (gs (host_state (dbi p))) = true.

Lemma dispatcher_enters fuel m0 p :
  instrumented m0 p -> host_bases_ok p -> take_callback (dbi p) = true ->
  exists m, _dispatcher test fuel p = dispatch_tail fuel (entered p m) /\ rwx_grow m0 m.
Proof.
  intros [Hd Hr [Hud Hur] Hlow Hord [Hsd Hsr] (m1 & P1 & P2) [Rd Rr] [Wd Wr] Hc _] [Hf Hg] Ht.
  set (pe := entered p (mem p)).
  destruct (take_out_run Restore id pe) as (m3 & E3 & P3); try done.
  { eapply hook_room_grow; [ | exact Rr ]. etrans; [ apply P1 | apply P2 ]. }
  destruct (take_out_run Dump PAGE_ALIGN (pe <| mem := m3 |>)) as (m4 & E4 & P4); try done.
  { eapply prots_grow_has; [ apply P3 | auto with dry | exact Wd ]. }
  { eapply hook_room_grow; [ | exact Rd ].
    etrans; [ apply P1 | ]. etrans; [ apply P2 | apply P3 ]. }
  simpl in P3, P4. rewrite Hsr in P3. rewrite Hsd in P4.
  pose proof (hook_bytes_length _ Hr) as Hlr.
  exists m4. split; [ | by eapply patched_undo2; [ exact P1 | exact P2 | lia | .. ] ].
  unfold _dispatcher. erewrite bind_Ret by reflexivity. cbv iota beta.
  erewrite bind_Ret by reflexivity. cbn [Z.eqb]. unfold set_host_fs_gs. rewrite !bind_assoc.
  erewrite bind_Ret by reflexivity.
  erewrite bind_Ret by (by apply set_fs_gs_ok). erewrite bind_Ret by (by apply check_ok).
  erewrite bind_Ret by reflexivity. simpl take_callback. rewrite Ht.
  erewrite bind_Ret by reflexivity. erewrite bind_Ret by reflexivity.
  match goal with |- context [truth ?j] => replace (truth j) with true end.
  2: { unfold truth. simpl. by rewrite (proj2 (Z.eqb_neq _ 0)) by lia. }
  change (dispatch_tail fuel (entered p m4)) with (dispatch_tail fuel (pe <| mem := m3 |> <| mem := m4 |>)).
  etrans; [ apply E3 | ]. etrans; [ apply E4 | reflexivity ].
Qed.

(** [eval_target]: the instruction is read and decoded, then evaluated. *)
Lemma eval_target_run a p :
  0 <= a -> a + INSTRUCTION_MAX_SZ < 2 ^ 64 ->
  range_has PROT_READ (mem p) a INSTRUCTION_MAX_SZ -> rwx_allowed a INSTRUCTION_MAX_SZ ->
  exists m', rwx_grow (mem p) m' /\
    eval_target a p
    = match cs_decode (mem_bytes (mem p) a 16) 0 with
      | None => Crashed (p <| mem := m' |>)
      | Some insn => __eval_target insn a
          (with_dbi (p <| mem := m' |>) (fun d => d <| count := u64 (count d + 1) |>))
      end.
Proof.
  intros Ha Hu Hr Hal. destruct (insn_read_ok p a) as (m' & r & E & Hne & Hg); try done.
  exists m'. split; [ done | ]. unfold eval_target. erewrite bind_Ret by exact E.
  cbv beta iota. rewrite (proj2 (Z.eqb_neq r (-1))) by done.
  rewrite take_ge by (by rewrite mem_bytes_length).
  destruct (cs_decode _ _); [ | done ]. by erewrite bind_Ret by reflexivity.
Qed.

(** eval_target reads the 16 bytes at the instruction, decodes them at address 0 and
    evaluates the instruction found, in a memory with the same bytes; it crashes when
    nothing can be decoded. *)
Theorem eval_target_decodes (a : Z) (p : proc)
    (Ha : 0 <= a) (Hu : a + INSTRUCTION_MAX_SZ < 2 ^ 64)
    (Hr : range_has PROT_READ (mem p) a INSTRUCTION_MAX_SZ)
    (Hal : rwx_allowed a INSTRUCTION_MAX_SZ) :
  exists m', rwx_grow (mem p) m' /\
    eval_target a p
    = match cs_decode (mem_bytes (mem p) a 16) 0 with
      | None => Crashed (p <| mem := m' |>)
      | Some insn => __eval_target insn a
          (with_dbi (p <| mem := m' |>) (fun d => d <| count := u64 (count d + 1) |>))
      end.
Proof. by apply eval_target_run. Qed.

Lemma br_emulation_run a p t q :
  eval_target a p = Ret t q -> t <> minus1 -> br_emulation a p = Ret t q.
Proof.
  intros E Ht. unfold br_emulation. erewrite bind_Ret by exact E.
  by rewrite (proj2 (Z.eqb_neq t minus1)).
Qed.

Lemma core_rest p q :
  core p = core q ->
  state (dbi p) = state (dbi q) /\ instrumented_fs (dbi p) = instrumented_fs (dbi q) /\
  instrumented_gs (dbi p) = instrumented_gs (dbi q) /\ bbl_count p = bbl_count q /\
  trace p = trace q /\ take_callback (dbi p) = take_callback (dbi q).
Proof. unfold core. intros E. injection E. intros. by split_and!. Qed.

Lemma core_brk p q : core p = core q -> vbrk (dbi p) = vbrk (dbi q).
Proof. unfold core. intros E. by injection E. Qed.

Lemma core_engine_rest p q :
  core p = core q ->
  host_state (dbi p) = host_state (dbi q) /\ table (dbi p) = table (dbi q) /\
  cpu_fs p = cpu_fs q /\ cpu_gs p = cpu_gs q /\ host_rsp (dbi p) = host_rsp (dbi q) /\
  dump_stub (dbi p) = dump_stub (dbi q) /\ restore_stub (dbi p) = restore_stub (dbi q).
Proof. unfold core. intros E. injection E. intros. by split_and!. Qed.


(** What a round of the engine never changes: the registers of the host, the callback switch,
    the trampolines, the register table, the stubs and the stack of the engine. *)
Definition engine_of (p : proc) :=
  (host_state (dbi p), take_callback (dbi p),
   (hcode (dump (dbi p)), hlength (dump (dbi p))),
   (hcode (restore (dbi p)), hlength (restore (dbi p))),
   (table (dbi p), dump_stub (dbi p), restore_stub (dbi p), host_rsp (dbi p))).

Lemma core_engine p q : core p = core q -> engine_of p = engine_of q.
Proof. unfold core, engine_of. intros E. injection E. intros. congruence. Qed.

(** The bases the kernel is asked to give back to the guest. *)
Definition guest_bases_ok (p : proc) : Prop :=
  k_base_ok (instrumented_fs (dbi p)) = true /\ k_base_ok (instrumented_gs (dbi p)) = true.

(** What the dispatcher leaves behind when the branch goes to [t] in the process [q]. *)
Record resumed (q : proc) (t : Z) (p' : proc) : Prop := {
  rs_hooks : instrumented (mem q) p';
  rs_state : gstate p' = (gstate q) <| rip := t - hlength (restore (dbi q)) |>;
  rs_entry : jmp (restore (dbi p')) = t - hlength (restore (dbi q));
  rs_bases : cpu_fs p' = instrumented_fs (dbi q) /\ cpu_gs p' = instrumented_gs (dbi q);
  rs_count : bbl_count p' = bbl_count q /\ trace p' = trace q;
  rs_brk : vbrk (dbi p') = vbrk (dbi q)
}.

Lemma dispatch_tail_run fuel q0 q t d :
  eval_target (curr_hook (dbi q0)) q0 = Ret t q -> t <> minus1 ->
  can_instrument fuel q t d -> to_unmap (dump (dbi q)) = 0 -> to_unmap (restore (dbi q)) = 0 ->
  guest_bases_ok q ->
  exists p', dispatch_tail fuel q0 = Ret () p' /\ resumed q t p' /\
    jmp (dump (dbi p')) = t + d /\ engine_of p' = engine_of q.
Proof.
  intros E Ht Hci Hu1 Hu2 [Hf Hg].
  destruct (instrument_request_run fuel q t d Hci Hu1 Hu2) as (p1 & E1 & Hcore & Hin & Hj & Hjr).
  destruct (core_rest _ _ Hcore) as (Hs & Hfs & Hgs & Hbc & Htr & _).
  destruct (core_hooks _ _ Hcore) as (_ & _ & _ & _ & Hrl & _).
  destruct Hci as [Hd Hr Hb Hlow Hhigh Hsz Hfu Hread Hal].
  pose proof (block_end_nonneg _ _ _ _ Hb) as Hd0.
  set (p2 := with_state p1 (fun s => s <| rip := t - hlength (restore (dbi q)) |>)).
  exists (p2 <| cpu_fs := instrumented_fs (dbi q) |> <| cpu_gs := instrumented_gs (dbi q) |>).
  split.
  - unfold dispatch_tail, _get_bbl_base. rewrite bind_assoc. erewrite bind_Ret by reflexivity.
    erewrite bind_Ret by (by apply br_emulation_run).
    rewrite (proj2 (Z.eqb_neq t minus1)) by done. erewrite bind_Ret by reflexivity.
    erewrite bind_Ret by exact E1. erewrite bind_Ret by (by apply check_ok).
    erewrite bind_Ret by reflexivity. rewrite Hrl.
    rewrite u64_small by (unfold is_u64; unfold PAGE_SZ in *; destruct Hr; lia).
    fold p2. unfold continue_exec, set_guest_fs_gs. rewrite !bind_assoc.
    erewrite bind_Ret by reflexivity. simpl instrumented_fs. simpl instrumented_gs.
    rewrite Hfs, Hgs. erewrite bind_Ret by (by apply set_fs_gs_ok). reflexivity.
  - split_and!; [ | exact Hj | exact (core_engine _ _ Hcore) ]. split; simpl; try done.
    + by destruct Hin.
    + unfold gstate at 1, p2. simpl. by rewrite Hs.
    + exact (core_brk _ _ Hcore).
Qed.

(** C7: From a guest memory m0 with the two hooks of a block over it, the dispatcher takes
    both out (what it evaluates the branch in has exactly the bytes of m0), and when the
    branch goes to t and the block at t can be instrumented, it returns with the hooks of
    that block over the memory the branch left, the saved instruction pointer at the restore
    hook just before t, and the segment bases of the guest back in force. *)
Theorem dispatcher_step (fuel : nat) (m0 : aspace) (p : proc)
    (Hi : instrumented m0 p) (Hb : host_bases_ok p) (Ht : take_callback (dbi p) = true) :
  exists m, rwx_grow m0 m /\
    forall t q d,
      eval_target (jmp (dump (dbi p))) (entered p m) = Ret t q -> t <> minus1 ->
      can_instrument fuel q t d ->
      to_unmap (dump (dbi q)) = 0 -> to_unmap (restore (dbi q)) = 0 -> guest_bases_ok q ->
      exists p', _dispatcher test fuel p = Ret () p' /\ resumed q t p'.
Proof.
  destruct (dispatcher_enters fuel m0 p Hi Hb Ht) as (m & E & G).
  exists m. split; [ done | ]. intros t q d Ev Hne Hci Hu1 Hu2 Hg. rewrite E.
  destruct (dispatch_tail_run fuel (entered p m) q t d) as (p' & E' & Hres & _); try done.
  { simpl. by rewrite (in_curr _ _ Hi). }
  by exists p'.
Qed.

(** C11: Instrumenting a block whose end is d bytes after its base puts the dump hook at the
    end and the restore hook just before the base, saves the bytes under both, and changes
    nothing else of the engine or of the guest state. *)
Theorem instrument_request_ok (fuel : nat) (p : proc) (base d : Z)
    (Hci : can_instrument fuel p base d)
    (Hu1 : to_unmap (dump (dbi p)) = 0) (Hu2 : to_unmap (restore (dbi p)) = 0) :
  exists p', instrument_request fuel base p = Ret 0 p' /\ core p' = core p /\
    instrumented (mem p) p' /\ jmp (dump (dbi p')) = base + d /\
    jmp (restore (dbi p')) = base - hlength (restore (dbi p)).
Proof. by apply instrument_request_run. Qed.
End EngineSpec.
