(* ===== verification/ProgressSpec.v ===== *)
(** * Progress

    A program that loops for ever is followed for ever: over a block that ends with a jump
    to its own start, the engine completes as many rounds as one likes, whatever the block
    does to the registers, and counts them. *)

From S2P Require Import Prelude.
From S2P Require Import Pages.
From S2P Require Import Regs.
From S2P Require Import Process.
From S2P Require Import Syscalls.
From S2P Require Import Memory.
From S2P Require Import MemorySpec.
From S2P Require Import Branch.
From S2P Require Import Target.
From S2P Require Import TargetSpec.
From S2P Require Import Cflow.
From S2P Require Import CflowSpec.
From S2P Require Import Engine.
From S2P Require Import EngineSpec.

Section Progress.
Context `{HK : Kernel} `{HE : RegEnum} `{HD : Disassembler} `{HO : !DisassemblerOk}.
Context (fuel : nat) (m0 : aspace) (base d : Z).

(** The block at [base] ends [d] bytes further with an unconditional jump to [base]. *)
Record tight_loop (rl : Z) : Prop := {
  tl_sweep : sweep m0 base d;
  tl_jump : exists i gs imm,
    cs_decode (mem_bytes m0 (base + d) 16) 0 = Some i /\ insn_id i = X86_INS_JMP /\
    groups i = X86_GRP_JUMP :: gs /\ operands i !! 0%nat = Some (X86_OP_IMM imm) /\
    u64 (imm + (base + d)) = base;
  tl_low : rl < base;
  tl_high : base + d + PAGE_SZ + 1 < 2 ^ 64;
  tl_size : d < 2 ^ 31;
  tl_fuel : d < Z.of_nat fuel;
  tl_read : range_has PROT_READ m0 (base - rl) (rl + d + PAGE_SZ);
  tl_allowed : rwx_allowed (base - rl) (rl + d + PAGE_SZ)
}.

(** The guest has reached the dump hook of the block and the engine is entered. *)
Record at_hook (p : proc) : Prop := {
  ah_hooks : exists m, rwx_grow m0 m /\ instrumented m p;
  ah_jmp : jmp (dump (dbi p)) = base + d;
  ah_rip : rip (gstate p) = base + d;
  ah_host : host_bases_ok p;
  ah_guest : k_base_ok (cpu_fs p) = true /\ k_base_ok (cpu_gs p) = true;
  ah_callback : take_callback (dbi p) = true;
  ah_loop : tight_loop (hlength (restore (dbi p)))
}.

(** [n] rounds: the dispatcher returns, the guest runs through its block and leaves the
    registers [regs k] at its end. *)
Inductive rounds (regs : nat -> state_rtime) : nat -> proc -> proc -> Prop :=
| rounds_0 p : rounds regs 0 p p
| rounds_S n p q q' :
    rounds regs n p q -> _dispatcher test fuel q = Ret () q' ->
    rounds regs (S n) p (with_state q' (fun _ => regs n)).

Lemma jump_eval i gs imm p :
  insn_id i = X86_INS_JMP -> groups i = X86_GRP_JUMP :: gs ->
  operands i !! 0%nat = Some (X86_OP_IMM imm) ->
  __eval_target i (base + d) p = Ret (u64 (imm + rip (gstate p))) p.
Proof.
  intros Hi Hg Ho. unfold __eval_target. rewrite Hg. cbn [eval_groups].
  change (bool_decide (X86_GRP_JUMP = X86_GRP_JUMP)) with true. cbn [orb].
  unfold first_operand. rewrite Hi, Ho. reflexivity.
Qed.

Lemma loop_round p s :
  at_hook p -> rip s = base + d ->
  exists p', _dispatcher test fuel p = Ret () p' /\ at_hook (with_state p' (fun _ => s)) /\
    bbl_count p' = s32 (bbl_count p + 1).
Proof.
  intros [(m & G & Hi) Hj Hrip Hh [Hgf Hgg] Ht Hl] Hs.
  destruct (dispatcher_enters fuel m p Hi Hh Ht) as (m1 & E1 & G1).
  pose proof Hl as [Hsw (i & gs & imm & Hdec & Hid & Hgr & Hop & Htg) Hlow Hhigh Hsz Hf Hread Hal].
  pose proof (sweep_nonneg _ _ _ Hsw) as Hd0.
  set (rl := hlength (restore (dbi p))) in *.
  assert (Hrl : 0 < rl) by (apply (hw_len _ (in_restore _ _ Hi))).
  assert (G01 : rwx_grow m0 m1) by (by etrans).
  destruct (eval_target_run (base + d) (entered p m1)) as (m2 & G2 & E2).
  { lia. }
  { unfold INSTRUCTION_MAX_SZ, PAGE_SZ in *. lia. }
  { simpl. eapply range_has_grow; [ exact G01 | auto with dry | ].
    eapply range_has_within; [ exact Hread | lia | unfold INSTRUCTION_MAX_SZ, PAGE_SZ; lia ]. }
  { eapply rwx_allowed_within; [ exact Hal | lia | done | unfold INSTRUCTION_MAX_SZ, PAGE_SZ; lia ]. }
  simpl mem in E2. rewrite (mem_bytes_ext m1 m0) in E2 by (intros x _; apply G01).
  rewrite Hdec in E2. cbv iota in E2.
  match type of E2 with _ = __eval_target _ _ ?q0 => set (q := q0) in E2 end.
  rewrite (jump_eval i gs imm q) in E2 by done.
  change (rip (gstate q)) with (rip (gstate p)) in E2. rewrite Hrip, Htg in E2.
  assert (G02 : rwx_grow m0 (mem q)) by (etrans; [ exact G01 | exact G2 ]).
  destruct (dispatch_tail_run fuel (entered p m1) q base d) as (p' & E3 & R & Hjd & Heng).
  { simpl. by rewrite (in_curr _ _ Hi), Hj. }
  { intros Hb. unfold minus1 in Hb. revert Hb. change (u64 (-1)) with 0xffffffffffffffff.
    unfold PAGE_SZ in *. lia. }
  { change (restore (dbi q)) with (restore (dbi p)) in *. split; try done; try apply Hi.
    - change (curr_syscall q) with (curr_syscall p). rewrite (in_flag _ _ Hi).
      apply (sweep_ext m0); [ apply G02 | done ].
    - eapply range_has_grow; [ exact G02 | auto with dry | exact Hread ]. }
  { apply Hi. } { apply Hi. } { done. }
  unfold engine_of in Heng. simpl in Heng. injection Heng as Hhost Htc _ _ _ Hlen _.
  exists p'. rewrite E1. split_and!; [ exact E3 | | by rewrite (proj1 (rs_count _ _ _ R)) ].
  split; simpl.
  - exists (mem q). split; [ done | ]. apply instrumented_state, (rs_hooks _ _ _ R).
  - done.
  - done.
  - unfold host_bases_ok in *. simpl. by rewrite Hhost.
  - destruct (rs_bases _ _ _ R) as [-> ->]. done.
  - by rewrite Htc.
  - by rewrite Hlen.
Qed.

Lemma rounds_run regs n p :
  (forall k, rip (regs k) = base + d) -> at_hook p -> s32 (bbl_count p) = bbl_count p ->
  exists p', rounds regs n p p' /\ at_hook p' /\ bbl_count p' = s32 (bbl_count p + Z.of_nat n).
Proof.
  intros Hr Hp H0. induction n as [| n IH].
  { exists p. rewrite Z.add_0_r. split_and!; [ constructor | done | done ]. }
  destruct IH as (q & Hq & Ha & Hc).
  destruct (loop_round q (regs n) Ha (Hr n)) as (q' & E & Ha' & Hc').
  eexists. split_and!; [ by eapply rounds_S | done | ].
  change (bbl_count (with_state q' _)) with (bbl_count q'). rewrite Hc', Hc, s32_add_l.
  f_equal. lia.
Qed.

(** C17: Over a block that ends with a jump to its own start, whatever registers the block
    leaves, the engine completes as many rounds as one likes: the dispatcher returns every
    time, with the hooks of the block in place again, and its int counter has counted the
    rounds modulo 2^32. *)
Theorem loop_progress (regs : nat -> state_rtime) (n : nat) (p : proc)
    (Hr : forall k, rip (regs k) = base + d) (Hp : at_hook p)
    (H0 : s32 (bbl_count p) = bbl_count p) :
  exists p', rounds regs n p p' /\ at_hook p' /\ bbl_count p' = s32 (bbl_count p + Z.of_nat n).
Proof. by apply rounds_run. Qed.
End Progress.
