(* ===== verification/TerminationSpec.v ===== *)
(** * Termination

    The recursive definitions of the model carry fuel.  The copies of [mem_read] and
    [mem_write] never exhaust theirs, whatever the memory, the kernel and the arguments; the
    linear sweep does not as long as its fuel exceeds the bytes of the mapped pages. *)

From S2P Require Import Prelude.
From S2P Require Import Pages.
From S2P Require Import Regs.
From S2P Require Import Process.
From S2P Require Import Syscalls.
From S2P Require Import Memory.
From S2P Require Import MemorySpec.
From S2P Require Import Branch.
From S2P Require Import Target.
From S2P Require Import TargetSpec.
From S2P Require Import Cflow.
From S2P Require Import CflowSpec.

Definition terminates {A} (m : M A) : Prop := forall p, m p <> OutOfFuel.

Section Terminates.

Lemma terminates_bind {A B} (m : M A) (k : A -> M B) :
  terminates m -> (forall a, terminates (k a)) -> terminates (m ≫= k).
Proof.
  intros Hm Hk p. unfold mbind, M_bind. specialize (Hm p).
  destruct (m p); try done. apply Hk.
Qed.

Lemma terminates_mret {A} (a : A) : terminates (mret a).
Proof. done. Qed.

Lemma terminates_get {A} (f : proc -> A) : terminates (get f).
Proof. done. Qed.

Lemma terminates_modify f : terminates (modify f).
Proof. done. Qed.

Lemma terminates_crash {A} : terminates (crash : M A).
Proof. done. Qed.

Lemma terminates_lift_option {A} (f : proc -> option A) : terminates (lift_option f).
Proof. intros p. unfold lift_option. by destruct (f p). Qed.

Lemma terminates_lift_mem f : terminates (lift_mem f).
Proof. intros p. unfold lift_mem. by destruct (f (mem p)). Qed.

Lemma terminates_assert b : terminates (assert_c b).
Proof. intros p. unfold assert_c. by destruct b. Qed.

Lemma terminates_fatal_dump {A} : terminates (fatal_dump : M A).
Proof.
  intros p. rewrite fatal_dump_spec. by destruct (sse (gstate p)), (avx2 (gstate p)), (avx512 (gstate p)).
Qed.

Lemma terminates_fatal_bind {A B} (k : A -> M B) : terminates (fatal_dump ≫= k).
Proof.
  intros p. unfold mbind, M_bind. rewrite fatal_dump_spec.
  by destruct (sse (gstate p)), (avx2 (gstate p)), (avx512 (gstate p)).
Qed.

Lemma terminates_if {A} (b : bool) (m1 m2 : M A) :
  terminates m1 -> terminates m2 -> terminates (if b then m1 else m2).
Proof. by destruct b. Qed.
End Terminates.

Create HintDb terminates.
#[export] Hint Resolve terminates_mret terminates_get terminates_modify terminates_crash
  terminates_lift_option terminates_lift_mem terminates_assert terminates_fatal_dump : terminates.

(** One structural step, leaves closed by the hint database. *)
Ltac terminates_step :=
  lazymatch goal with
  | |- terminates (_ ≫= _) => apply terminates_bind; [ | intros ?; cbv beta zeta ]
  | |- terminates (if _ then _ else _) => apply terminates_if
  | |- terminates (let '(_, _) := ?x in _) => destruct x; cbv beta iota zeta
  | |- _ => solve [ eauto with terminates ]
  end.
Ltac terminates_tac := repeat terminates_step.

Lemma bind_Ret_inv {A B} (m : M A) (k : A -> M B) p b p' :
  (m ≫= k) p = Ret b p' -> exists a q, m p = Ret a q /\ k a q = Ret b p'.
Proof. unfold mbind, M_bind. destruct (m p) as [a q | | | | |]; try done. eauto. Qed.

(** The value of the pair an operation returns. *)
Ltac returned E :=
  apply (f_equal (fun o => match o with Ret x _ => x.1 | _ => 0 end)) in E; simpl in E.

Section Copies.
Context `{HK : Kernel}.

Lemma terminates_sys_mprotect a n prot : terminates (sys_mprotect a n prot).
Proof. intros p. unfold sys_mprotect. by destruct (mprotect _ _ _ _). Qed.

Hint Resolve terminates_sys_mprotect : terminates.

Lemma terminates_assert_same a buf n : terminates (assert_same a buf n).
Proof. unfold assert_same. terminates_tac. Qed.

Lemma terminates_copy_in a from off n : terminates (copy_in a from off n).
Proof. unfold copy_in. terminates_tac. Qed.

Lemma terminates_round_read from to k n : terminates (round_read from to k n).
Proof. unfold round_read, copy_out. terminates_tac. Qed.

Hint Resolve terminates_assert_same terminates_copy_in terminates_round_read : terminates.

Lemma PAGE_OFFT_u64 x : PAGE_OFFT (u64 x) = PAGE_OFFT x.
Proof.
  rewrite !PAGE_OFFT_mod. unfold u64, PAGE_SZ.
  change (2 ^ 64) with (0x1000 * 0x10000000000000).
  by rewrite Z.rem_mul_r, Z.mul_comm, Z.mod_add, Z.mod_mod by done.
Qed.

(** At a page boundary (or at the end), a page of the range is left per unit of fuel. *)
Definition at_page (to size k : Z) : Prop := PAGE_OFFT (to + k) = 0 \/ k = size.

Lemma write_step to size k :
  0 <= k <= size -> size < 2 ^ 31 ->
  let a := u64 (to + k) in
  let sz := if PAGE_SZ - PAGE_OFFT a <? u64 (size - k) then PAGE_SZ - PAGE_OFFT a
            else u64 (size - k) in
  s32 (k + sz) = k + sz /\ 0 <= sz /\ k + sz <= size /\ at_page to size (k + sz) /\
  (at_page to size k -> sz = PAGE_SZ \/ k + sz = size).
Proof.
  intros Hk Hs a sz. pose proof (PAGE_OFFT_range a) as Ho.
  assert (Ha : PAGE_OFFT a = PAGE_OFFT (to + k)) by apply PAGE_OFFT_u64.
  unfold sz. rewrite (u64_small (size - k)) by (unfold is_u64; lia).
  pose proof (page_end_offt (to + k)) as He. rewrite <- Ha in He.
  destruct (Z.ltb_spec (PAGE_SZ - PAGE_OFFT a) (size - k)).
  - split_and!; try lia; [ unfold s32; apply sext_small; lia | | ].
    + left. by replace (to + (k + (PAGE_SZ - PAGE_OFFT a))) with (to + k + (PAGE_SZ - PAGE_OFFT a)) by lia.
    + intros [Hz | ->]; lia.
  - split_and!; try lia; [ unfold s32; apply sext_small; lia | right; lia ].
Qed.

Lemma mem_write_loop_step fuel to from size k :
  0 <= k <= size -> size < 2 ^ 31 ->
  (k <> size -> forall sz, s32 (k + sz) = k + sz -> 0 <= sz -> k + sz <= size ->
     at_page to size (k + sz) -> (at_page to size k -> sz = PAGE_SZ \/ k + sz = size) ->
     terminates (mem_write_loop fuel to from size (k + sz))) ->
  terminates (mem_write_loop (S fuel) to from size k).
Proof.
  intros Hk Hs Hn. destruct (write_step to size k Hk Hs) as (E & H1 & H2 & H3 & H4).
  cbn [mem_write_loop]. rewrite E. rewrite (u64_small k) by (unfold is_u64; lia).
  destruct (Z.eqb_spec k size) as [-> | Hne]; terminates_tac.
Qed.

Lemma mem_write_loop_terminates fuel to from size k :
  0 <= k <= size -> size < 2 ^ 31 -> at_page to size k ->
  size - k <= PAGE_SZ * (Z.of_nat fuel - 1) ->
  terminates (mem_write_loop fuel to from size k).
Proof.
  revert k. induction fuel as [| fuel IH]; intros k Hk Hs Ha Hf; [ unfold PAGE_SZ in *; lia | ].
  apply mem_write_loop_step; try done. intros Hne sz _ H0 H1 H2 H3.
  apply IH; try done; [ lia | ]. destruct (H3 Ha); unfold PAGE_SZ in *; lia.
Qed.

Lemma mem_write_terminates to from size :
  0 <= size < 2 ^ 31 -> terminates (mem_write to from size).
Proof.
  intros Hs. unfold mem_write. apply terminates_if; [ done | ].
  unfold copy_fuel. set (q := size / PAGE_SZ).
  assert (Hq : 0 <= q /\ size < PAGE_SZ * (q + 1)).
  { unfold q, PAGE_SZ. pose proof (Z.div_pos size 0x1000). pose proof (Z.mul_succ_div_gt size 0x1000). lia. }
  replace (Z.to_nat (q + 3)) with (S (Z.to_nat (q + 2))) by lia.
  apply mem_write_loop_step; [ lia | lia | ]. intros Hne sz _ H0 H1 H2 H3.
  apply mem_write_loop_terminates; [ lia | lia | done | ].
  rewrite Z2Nat.id by lia. unfold PAGE_SZ in *. lia.
Qed.

(** The next chunk of [mem_read] from a page boundary. *)
Lemma read_step from size k :
  0 <= k < size -> size < 2 ^ 31 -> PAGE_OFFT (from + k) = 0 ->
  let sz := if PAGE_ALIGN (u64 (k + from)) =? PAGE_ALIGN (u64 (size + from))
            then u64 (size - k) else PAGE_SZ in
  0 <= sz /\ k + sz <= size /\ at_page from size (k + sz) /\ (sz = PAGE_SZ \/ k + sz = size).
Proof.
  intros Hk Hs Ha sz. unfold sz. rewrite (u64_small (size - k)) by (unfold is_u64; lia).
  destruct (Z.eqb_spec (PAGE_ALIGN (u64 (k + from))) (PAGE_ALIGN (u64 (size + from)))) as [He | He].
  { split_and!; try lia; right; lia. }
  destruct (Z.le_gt_cases PAGE_SZ (size - k)) as [Hle | Hlt].
  { split_and!; try (unfold PAGE_SZ in *; lia). left.
    rewrite PAGE_OFFT_mod in *. replace (from + (k + PAGE_SZ)) with (from + k + 1 * PAGE_SZ) by lia.
    by rewrite Z.mod_add. }
  exfalso. apply He. symmetry. rewrite (Z.add_comm k), (Z.add_comm size).
  rewrite <- (PAGE_OFFT_u64 (from + k)) in Ha.
  assert (Hb : u64 (from + size) = u64 (from + k) + (size - k)).
  { pose proof (u64_range (from + k)) as [Hr1 Hr2].
    replace (from + size) with (from + k + (size - k)) by lia.
    transitivity (u64 (u64 (from + k) + (size - k))).
    { unfold u64. by rewrite Z.add_mod_idemp_l by done. }
    apply u64_small. split; [ lia | ].
    rewrite PAGE_OFFT_mod in Ha. apply Z.mod_divide in Ha as [j Hj]; [ | done ].
    unfold PAGE_SZ in *. lia. }
  rewrite Hb. apply PAGE_ALIGN_add; lia.
Qed.

Lemma mem_read_loop_terminates fuel to from size k sz count ret :
  0 <= k <= size -> size < 2 ^ 31 -> (0 < fuel)%nat ->
  (k <> size -> 0 <= sz /\ k + sz <= size /\ at_page from size (k + sz) /\
                size - (k + sz) <= PAGE_SZ * (Z.of_nat fuel - 2)) ->
  terminates (mem_read_loop fuel to from size k sz count ret).
Proof.
  revert to k sz count ret. induction fuel as [| fuel IH]; intros to k sz count ret Hk Hs Hf Hn; [ lia | ].
  cbn [mem_read_loop]. destruct (Z.eqb_spec k size) as [-> | Hne]; [ terminates_tac | ].
  destruct (Hn Hne) as (H0 & H1 & H2 & H3). rewrite (u64_small (k + sz)) by (unfold is_u64; lia).
  apply terminates_bind; [ terminates_tac | ]. intros [r to']. apply terminates_if; [ done | ].
  apply IH; [ lia | done | unfold PAGE_SZ in *; lia | ]. intros Hne'.
  destruct H2 as [H2 | ?]; [ | done ].
  destruct (read_step from size (k + sz) ltac:(lia) Hs H2) as (H4 & H5 & H6 & H7).
  split_and!; try done. destruct H7; unfold PAGE_SZ in *; lia.
Qed.

Lemma mem_read_terminates to from size : 0 <= size < 2 ^ 31 -> terminates (mem_read to from size).
Proof.
  intros Hs. unfold mem_read. apply terminates_if; [ done | ].
  destruct (Z.ltb_spec (PAGE_SZ - PAGE_OFFT from) size) as [Hlt | Hge]; [ | terminates_tac ].
  unfold copy_fuel. set (q := size / PAGE_SZ). pose proof (PAGE_OFFT_range from).
  assert (Hq : 0 <= q /\ size < PAGE_SZ * (q + 1)).
  { unfold q, PAGE_SZ. pose proof (Z.div_pos size 0x1000).
    pose proof (Z.mul_succ_div_gt size 0x1000). lia. }
  apply mem_read_loop_terminates; try lia. intros _. rewrite Z2Nat.id by lia.
  split_and!; [ lia | lia | | unfold PAGE_SZ in *; lia ].
  left. rewrite Z.add_0_l. apply page_end_offt.
Qed.

(** C19: mem_read and mem_write end for every size below 2^31, at every address, on every
    memory and whatever the kernel refuses: their loops never exhaust the fuel of one
    iteration per page. *)
Theorem copies_terminate (p : proc) (to from : Z) (buf : list Z) (size : Z)
    (Hs : 0 <= size < 2 ^ 31) :
  mem_read buf from size p <> OutOfFuel /\ mem_write to buf size p <> OutOfFuel.
Proof. split; [ by apply mem_read_terminates | by apply mem_write_terminates ]. Qed.
End Copies.

(** ** Pages and bytes *)

(** There are at most [PAGE_SZ] addresses per page. *)
Lemma addresses_of_pages (D : gset Z) (V : list Z) :
  NoDup V -> (forall x, x ∈ V -> PAGE_ALIGN x ∈ D) ->
  Z.of_nat (length V) <= PAGE_SZ * Z.of_nat (size D).
Proof.
  intros Hn Hv. destruct (Z_of_nat_complete PAGE_SZ) as [k Hk]; [ done | ].
  set (page := fun q : Z => map (fun i => q + Z.of_nat i) (seq 0 k)).
  assert (Hlen : forall l, length (flat_map page l) = (length l * k)%nat).
  { induction l as [| q l IH]; [ done | ]. cbn [flat_map length Nat.mul]. rewrite length_app, IH. unfold page.
    by rewrite length_map, length_seq. }
  assert (Hle : (length V <= length (flat_map page (elements D)))%nat).
  { apply NoDup_incl_length; [ by apply NoDup_ListNoDup | ].
    intros x Hx%list_elem_of_In. apply in_flat_map. exists (PAGE_ALIGN x). split.
    - apply list_elem_of_In, elem_of_elements. auto.
    - apply in_map_iff. exists (Z.to_nat (PAGE_OFFT x)). pose proof (PAGE_OFFT_range x).
      split; [ pose proof (PAGE_ALIGN_OFFT x); lia | ]. apply in_seq. lia. }
  rewrite Hlen in Hle. change (length (elements D)) with (size D) in Hle.
  rewrite Hk. lia.
Qed.

(** The mapped pages. *)
Definition pages_are (D : gset Z) (p : proc) : Prop := forall q, is_Some (prots (mem p) !! q) <-> q ∈ D.

Definition same_pages (p p' : proc) : Prop :=
  forall q, is_Some (prots (mem p') !! q) <-> is_Some (prots (mem p) !! q).

#[export] Instance same_pages_preorder : PreOrder same_pages.
Proof.
  split; [ done | ]. intros p1 p2 p3 H1 H2 q. by rewrite (H2 q).
Qed.

Lemma same_pages_prots p p' : prots (mem p') = prots (mem p) -> same_pages p p'.
Proof. intros E q. by rewrite E. Qed.

Lemma protect_pages_same pm a n prot q :
  is_Some ((protect_pages pm a n prot).2 !! q) <-> is_Some (pm !! q).
Proof.
  revert pm a. induction n as [| n IH]; intros pm a; [ done | ]. cbn [protect_pages].
  destruct (pm !! a) eqn:E; [ | done ]. rewrite IH. destruct (decide (a = q)) as [-> | Hne].
  - rewrite lookup_insert_eq, E. split; by eexists.
  - by rewrite lookup_insert_ne.
Qed.

Section Sweep.
Context `{HK : Kernel} `{HD : Disassembler} `{HO : !DisassemblerOk}.

Lemma ensures_same_mprotect (Q : Z -> Prop) a n prot :
  (forall r, Q r) -> ensures same_pages Q (sys_mprotect a n prot).
Proof.
  intros HQ q r q' E. split; [ done | ]. unfold sys_mprotect, mprotect in E.
  destruct (_ || _); [ by simplify_eq/= | ].
  pose proof (fun x => protect_pages_same (prots (mem q)) a (page_count n) prot x) as Hs.
  destruct (protect_pages _ _ _ _) as [r' pm]. simplify_eq/=. intros x. apply Hs.
Qed.

Lemma ensures_lift_option {A} (f : proc -> option A) :
  ensures same_pages (fun _ => True) (lift_option f).
Proof. intros p a p' E. unfold lift_option in E. destruct (f p); [ by simplify_eq | done ]. Qed.

Hint Resolve ensures_same_mprotect ensures_lift_option : ensures.

(** A chunk that is read starts in a mapped page, and its size is returned. *)
Lemma round_read_mapped from to k n p r to' p' :
  0 < n < 2 ^ 31 -> round_read from to k n p = Ret (r, to') p' ->
  same_pages p p' /\ (r = 0 \/ (r = n /\ is_Some (page_prot (mem p) (u64 (from + k))))).
Proof.
  intros Hn E. split.
  - assert (He : ensures same_pages (fun _ => True) (round_read from to k n)).
    { unfold round_read, copy_out. ensures_tac. }
    by destruct (He _ _ _ E).
  - change ((to1 ← copy_out (u64 (from + k)) to k n;
             r ← sys_mprotect (PAGE_ALIGN (u64 (from + k))) PAGE_SZ PROT_RWX;
             if r =? -1 then mret (0, to1) else mret (s32 n, to1)) p = Ret (r, to') p') in E.
    apply bind_Ret_inv in E as (to1 & p1 & Ec & E). apply bind_Ret_inv in E as (r1 & p2 & _ & E).
    destruct (r1 =? -1); returned E; [ by left | right ].
    unfold copy_out, lift_option in Ec.
    destruct (load_bytes (mem p) _ _) as [data |] eqn:El; [ | done ].
    split; [ rewrite <- E; unfold s32; apply sext_small; lia | ].
    destruct (Z.to_nat n) as [| n'] eqn:En; [ lia | ]. cbn [load_bytes] in El. unfold load8 in El.
    unfold has_prot in El. rewrite (u64_small (u64 (from + k))) in El by apply u64_range.
    destruct (page_prot (mem p) (u64 (from + k))); [ by eexists | done ].
Qed.

Lemma ensures_round_read from to k n :
  ensures same_pages (fun _ => True) (round_read from to k n).
Proof. unfold round_read, copy_out. ensures_tac. Qed.

Lemma ensures_assert_same a buf n : ensures same_pages (fun _ => True) (assert_same a buf n).
Proof. unfold assert_same. ensures_tac. Qed.

Hint Resolve ensures_round_read ensures_assert_same : ensures.

Lemma ensures_mem_read_loop fuel to from size k sz count ret :
  ensures same_pages (fun _ => True) (mem_read_loop fuel to from size k sz count ret).
Proof.
  revert to k sz count ret. induction fuel as [| fuel IH]; intros; [ done | ].
  cbn [mem_read_loop]. apply ensures_if; [ ensures_tac | ].
  apply ensures_bind_any; [ ensures_tac | ]. intros [r to']. apply ensures_if; [ ensures_tac | ].
  apply IH.
Qed.

Lemma ensures_mem_read to from size : ensures same_pages (fun _ => True) (mem_read to from size).
Proof.
  unfold mem_read. repeat apply ensures_if; [ ensures_tac | apply ensures_mem_read_loop | ].
  apply ensures_bind_any; [ ensures_tac | ]. intros [r to']. ensures_tac.
Qed.

Definition first_mapped (p : proc) (a : Z) : Prop := is_Some (page_prot (mem p) (u64 a)).

Lemma read_loop_mapped fuel to from sz p r to' p' :
  0 < sz < 2 ^ 31 ->
  mem_read_loop (S fuel) to from PAGE_SZ 0 sz 0 0 p = Ret (r, to') p' ->
  r = 0 \/ first_mapped p from.
Proof.
  intros Hsz E. cbn [mem_read_loop] in E. rewrite (proj2 (Z.eqb_neq 0 PAGE_SZ)) in E by done.
  apply bind_Ret_inv in E as ([r1 to1] & p1 & Er & E).
  apply round_read_mapped in Er as [_ [-> | [-> Hm]]]; [ | | done ].
  - rewrite Z.eqb_refl in E. returned E. by left.
  - right. by rewrite Z.add_0_r in Hm.
Qed.

Lemma page_read_mapped to from p r to' p' :
  mem_read to from PAGE_SZ p = Ret (r, to') p' -> r = 0 \/ r = -1 \/ first_mapped p from.
Proof.
  intros E. unfold mem_read in E. rewrite (proj2 (Z.eqb_neq PAGE_SZ 0)) in E by done.
  pose proof (PAGE_OFFT_range from) as Ho.
  destruct (PAGE_SZ - PAGE_OFFT from <? PAGE_SZ).
  - assert (Hc : copy_fuel PAGE_SZ = S 3) by done. rewrite Hc in E.
    apply read_loop_mapped in E as [-> | Hm]; [ by left | by do 2 right | unfold PAGE_SZ in *; lia ].
  - apply bind_Ret_inv in E as ([r1 to1] & p1 & Er & E).
    apply round_read_mapped in Er as [_ [-> | [-> Hm]]]; [ | | done ].
    + rewrite Z.eqb_refl in E. returned E. right. by left.
    + right. right. by rewrite Z.add_0_r in Hm.
Qed.

(** The sweep of one buffer consumes a byte per instruction. *)
Lemma cflow_scan_terminates fuel buf size addr saved n beg :
  0 <= size < Z.of_nat fuel -> terminates (cflow_scan fuel buf size addr saved n beg).
Proof.
  revert buf size addr n beg. induction fuel as [| fuel IH]; intros buf size addr n beg Hf; [ lia | ].
  cbn [cflow_scan]. apply terminates_if; [ | done ].
  destruct (cs_decode _ _) as [i |] eqn:Ei; [ | done ].
  destruct (dec_size _ _ _ Ei) as [Hi Hl]. rewrite length_take in Hl.
  terminates_step; [ done | ]. terminates_step; [ done | ]. apply terminates_if; [ done | ].
  terminates_step; [ done | ]. apply IH. lia.
Qed.

Definition scan_bound (n size : Z) (r : scan_end) : Prop :=
  match r with ScanReturn _ => True | ScanExit n' => n <= n' <= n + size end.

Lemma cflow_scan_bound fuel buf size addr saved n beg :
  0 <= n -> 0 <= size -> n + size < 2 ^ 31 ->
  ensures same_pages (scan_bound n size) (cflow_scan fuel buf size addr saved n beg).
Proof.
  revert buf size addr n beg. induction fuel as [| fuel IH]; intros buf size addr n beg H0 H1 H2; [ done | ].
  cbn [cflow_scan]. apply ensures_if; [ | apply ensures_mret; simpl; lia ].
  destruct (cs_decode _ _) as [i |] eqn:Ei; [ | apply ensures_mret; simpl; lia ].
  destruct (dec_size _ _ _ Ei) as [Hi Hl]. rewrite length_take in Hl.
  apply ensures_bind_any; [ by apply ensures_modify | ]. intros _.
  apply ensures_bind_any; [ apply ensures_get | ]. intros cs.
  apply ensures_if; [ by apply ensures_mret | ].
  apply ensures_bind_any; [ by apply ensures_modify | ]. intros _.
  unfold s32. rewrite sext_small by lia.
  eapply ensures_weaken; [ apply IH; lia | ]. intros [n' | n']; simpl; lia.
Qed.

(** One level of the sweep: it ends here, or it goes on within the next page from a mapped
    address. *)
Lemma opcodes_cflow_next fuel addr beg p :
  (forall n p', 0 < n <= PAGE_SZ -> same_pages p p' -> first_mapped p addr ->
     opcodes_cflow fuel (u64 (addr + n)) true p' <> OutOfFuel) ->
  opcodes_cflow (S fuel) addr beg p <> OutOfFuel.
Proof.
  intros Hn. cbn [opcodes_cflow]. unfold is_mapped. cbn [negb].
  pose proof (mem_read_terminates (replicate (Z.to_nat PAGE_SZ) 0) addr PAGE_SZ ltac:(done) p) as Ht.
  destruct (mem_read _ addr PAGE_SZ p) as [[r buf] p1 | | | | |] eqn:Er;
    try (unfold mbind, M_bind; by rewrite Er).
  erewrite bind_Ret by exact Er. cbv beta iota zeta.
  pose proof (proj2 (ensures_mem_read _ _ _ _ _ _ Er)) as Hs1. apply page_read_mapped in Er.
  destruct (u64 r =? minus1) eqn:Em; [ apply terminates_fatal_bind | ].
  erewrite bind_Ret by reflexivity.
  pose proof (cflow_scan_terminates scan_fuel buf PAGE_SZ addr (u64 r) 0 beg ltac:(done) p1) as Ht2.
  destruct (cflow_scan _ buf PAGE_SZ addr (u64 r) 0 beg p1) as [res p2 | | | | |] eqn:Ec;
    try (unfold mbind, M_bind; by rewrite Ec).
  erewrite bind_Ret by exact Ec.
  pose proof (cflow_scan_bound scan_fuel buf PAGE_SZ addr (u64 r) 0 beg ltac:(done) ltac:(done)
                ltac:(done) _ _ _ Ec) as [Hb Hs2].
  destruct res as [n | n]; [ done | ]. simpl in Hb. cbn [andb].
  destruct (truth n) eqn:En; [ | apply terminates_fatal_dump ].
  assert (H0 : n <> 0) by (intros ->; done).
  assert (Hm : first_mapped p addr).
  { destruct Er as [-> | [-> | Hm]]; [ | done | done ]. exfalso.
    unfold scan_fuel in Ec. cbn [cflow_scan] in Ec. change (u64 0 <? u64 0) with false in Ec.
    simpl in Ec. by injection Ec as <- _. }
  specialize (Hn n p2 ltac:(lia) ltac:(by etrans) Hm).
  unfold mbind, M_bind. by destruct (opcodes_cflow fuel (u64 (addr + n)) true p2).
Qed.

(** The addresses a sweep has visited since [a0]: distinct bytes of mapped pages. *)
Record visited (D : gset Z) (a0 cur : Z) (V : list Z) : Prop := {
  vi_nodup : NoDup V;
  vi_range : forall x, x ∈ V -> a0 <= x < cur;
  vi_mapped : forall x, x ∈ V -> PAGE_ALIGN (u64 x) ∈ D;
  vi_reach : a0 <= cur <= a0 + PAGE_SZ * Z.of_nat (length V)
}.

Lemma visited_length D a0 cur V :
  visited D a0 cur V -> cur - a0 <= 2 ^ 64 -> Z.of_nat (length V) <= PAGE_SZ * Z.of_nat (size D).
Proof.
  intros [Hn Hr Hm _] Hc. rewrite <- (length_fmap u64 V). apply addresses_of_pages.
  - apply NoDup_fmap_2_strong; [ | done ]. intros x y Hx Hy E.
    apply Hr in Hx, Hy. unfold u64 in E.
    assert (Hd : (x - y) mod 2 ^ 64 = 0) by (by rewrite Zminus_mod, E, Z.sub_diag).
    apply Z.mod_divide in Hd as [k Hk]; [ | done ]. lia.
  - intros x Hx. apply list_elem_of_fmap in Hx as (y & -> & Hy). auto.
Qed.

Lemma visited_step D a0 cur V n :
  visited D a0 cur V -> 0 < n <= PAGE_SZ -> PAGE_ALIGN (u64 cur) ∈ D ->
  visited D a0 (cur + n) (cur :: V).
Proof.
  intros [Hn Hr Hm Hc] H0 H1. split.
  - constructor; [ | done ]. intros Hin. apply Hr in Hin. lia.
  - intros x [-> | Hx]%elem_of_cons; [ lia | ]. apply Hr in Hx. lia.
  - intros x [-> | Hx]%elem_of_cons; auto.
  - cbn [length]. lia.
Qed.

Lemma sweep_visits (D : gset Z) fuel a0 cur addr V beg p :
  Z.of_nat (size D) < 2 ^ 40 -> pages_are D p -> visited D a0 cur V ->
  u64 addr = u64 cur -> Z.of_nat (length V) <= PAGE_SZ * Z.of_nat (size D) ->
  PAGE_SZ * Z.of_nat (size D) < Z.of_nat fuel + Z.of_nat (length V) ->
  opcodes_cflow fuel addr beg p <> OutOfFuel.
Proof.
  intros HDs. revert cur addr V beg p.
  induction fuel as [| fuel IH]; intros cur addr V beg p Hp Hv Ha Hl Hf; [ lia | ].
  apply opcodes_cflow_next. intros n p' Hn Hs Hm.
  assert (Hin : PAGE_ALIGN (u64 cur) ∈ D) by (apply Hp; rewrite <- Ha; exact Hm).
  pose proof (visited_step _ _ _ _ n Hv Hn Hin) as Hv'.
  assert (Hl' : Z.of_nat (length (cur :: V)) <= PAGE_SZ * Z.of_nat (size D)).
  { eapply visited_length; [ exact Hv' | ]. pose proof (vi_reach _ _ _ _ Hv') as Hc.
    cbn [length] in Hc. unfold PAGE_SZ in *. lia. }
  eapply (IH (cur + n) _ (cur :: V)); try done.
  - intros q. by rewrite (Hs q).
  - rewrite (u64_small (u64 _)) by apply u64_range. unfold u64 in *.
    by rewrite Z.add_mod, Ha, <- Z.add_mod.
  - cbn [length] in *. lia.
Qed.

(** C18: The sweep ends on every memory: with more fuel than there are bytes in the mapped
    pages (fewer than 2^40 pages), opcodes_cflow never runs out of it, whatever the code and
    the protections are, because each level advances within mapped memory. *)
Theorem sweep_terminates (fuel : nat) (addr : Z) (beg : bool) (p : proc)
    (Hs : Z.of_nat (size (prots (mem p))) < 2 ^ 40)
    (Hf : PAGE_SZ * Z.of_nat (size (prots (mem p))) < Z.of_nat fuel) :
  opcodes_cflow fuel addr beg p <> OutOfFuel.
Proof.
  rewrite <- size_dom in Hs, Hf.
  eapply (sweep_visits (dom (prots (mem p))) fuel addr addr addr []); try done.
  - intros q. by rewrite elem_of_dom.
  - split; [ by constructor | .. ].
    + intros x Hx. by apply not_elem_of_nil in Hx.
    + intros x Hx. by apply not_elem_of_nil in Hx.
    + simpl. lia.
  - simpl. unfold PAGE_SZ. lia.
  - simpl. lia.
Qed.
End Sweep.
