(* ===== verification/Stubs.v ===== *)
(** * The stubs (src/engine.c: [craft_hook], [craft_restore_stub], the two trampolines)

    The code the engine assembles at run time: the trampolines written over the guest
    ([dump_hook], [restore_hook]), the stub that records the registers of the guest and
    calls the dispatcher, and the stub that puts them back.  The programs are lists of
    instructions with a step function; the assembler that encodes them is a parameter. *)

From S2P Require Import Prelude.
From S2P Require Import Pages.
From S2P Require Import Regs.
From S2P Require Import Process.
From S2P Require Import Syscalls.
From S2P Require Import Memory.
From S2P Require Import Branch.
From S2P Require Import Target.
From S2P Require Import Cflow.
From S2P Require Import Engine.

(** ** Where the objects are

    The cells the stubs address by a constant: the members of [state_rtime_t], the entries
    of its vector areas and the cell of [curr_hook]. *)
Inductive slot := SField (f : field) | SXmm (i : nat) | SYmm (i : nat) | SCurrHook.

(** The addresses the linker and the allocator chose; [call_ra] is the return address a
    call of the stub pushes, which depends on the encoding of the stub. *)
Class Layout := {
  addr_of : slot -> Z;
  slot_at : Z -> option slot;
  addr_s_binary : Z;
  addr__dispatcher : Z;
  addr_save_mxcsr : Z;
  addr_restore_mxcsr : Z;
  call_ra : Z
}.

Class LayoutOk `{Layout} := {
  slot_at_addr s : slot_at (addr_of s) = Some s;
  mxcsr_apart : addr_save_mxcsr <> addr_restore_mxcsr;
  dispatcher_u64 : is_u64 addr__dispatcher
}.

(** [LENGTH_STUB] and the addresses of the two stubs. *)
Definition LENGTH_STUB : Z := 0x1000.
Definition STUB_ADDR_DUMP : Z := 0xff1d000.
Definition STUB_ADDR_RESTORE : Z := 0xdf1d000.

(** ** The instructions of the stubs

    Registers are named by the member of [state_rtime_t] that records them. *)
Inductive asm :=
  | Movabs_store (a : Z)           (* movabs [a], rax *)
  | Movabs_load (a : Z)            (* movabs rax, [a] *)
  | Mov (dst src : field)
  | Mov_imm (dst : field) (v : Z)
  | Xor_self (r : field)           (* xor r, r *)
  | Pushfq | Popfq
  | Push_imm (v : Z) | Push (r : field) | Pop (r : field)
  | Movaps_store (x : nat)         (* movaps [rax], xmm_x *)
  | Movaps_load (x : nat)          (* movaps xmm_x, [rax] *)
  | Movaps (dst src : nat)
  | Vmovups_store (y : nat)        (* vmovups [rax], ymm_y *)
  | Vmovups_load (y : nat)
  | Vzeroall
  | Call_rax | Jmp_rax | Ret_near.

(** The processor and the process it runs.  [cpu] is the register file, with the members
    of [state_rtime_t] as names; [vec] the sixteen vector registers; [mxcsr_var] the
    global [mxcsr] of engine.c. *)
Record machine := mk_machine {
  cpu : state_rtime;
  vec : list Z;
  mxcsr : Z;
  mxcsr_var : Z;
  host : proc
}.
#[global] Instance eta_machine : Eta machine := fun m =>
  mk_machine (cpu m) (vec m) (mxcsr m) (mxcsr_var m) (host m).

Definition reg (m : machine) (r : field) : Z := field_get (cpu m) r.
Definition set_reg (m : machine) (r : field) (v : Z) : machine :=
  m <| cpu := field_set (cpu m) r v |>.

(** Reading and writing the cell at an address; [None] when there is no cell. *)
Definition slot_get (p : proc) (s : slot) : option Z :=
  match s with
  | SField f => Some (field_get (gstate p) f)
  | SXmm i => sse (gstate p) ≫= (.!! i)
  | SYmm i => avx2 (gstate p) ≫= (.!! i)
  | SCurrHook => Some (curr_hook (dbi p))
  end.

Definition slot_set (p : proc) (s : slot) (v : Z) : option proc :=
  match s with
  | SField f => Some (with_state p (fun st => field_set st f v))
  | SXmm i => l ← sse (gstate p); _ ← l !! i;
      Some (with_state p (fun st => st <| sse := Some (<[i:=v]> l) |>))
  | SYmm i => l ← avx2 (gstate p); _ ← l !! i;
      Some (with_state p (fun st => st <| avx2 := Some (<[i:=v]> l) |>))
  | SCurrHook => Some (with_dbi p (fun d => d <| curr_hook := v |>))
  end.

(** The low half of a vector register, which is what the SSE instructions move; the rest
    of the register is kept. *)
Definition xmm_of (y : Z) : Z := y mod 2 ^ 128.
Definition with_xmm (y x : Z) : Z := y / 2 ^ 128 * 2 ^ 128 + x mod 2 ^ 128.

(** The flags [popfq] loads in user mode: CF PF AF ZF SF TF DF OF NT AC ID.  [pushfq]
    stores the flags without VM and RF. *)
Definition RF : Z := Z.shiftl 1 16.
Definition FLAGS_USER : Z := 0x244dd5.
Definition FLAGS_PUSHED : Z := 0xfcffff.
Definition load_flags (old v : Z) : Z :=
  Z.lor (Z.ldiff old (Z.lor FLAGS_USER RF)) (Z.land v FLAGS_USER).

(** The flags after [xor r, r]: ZF and PF set, CF, OF, SF and AF clear. *)
Definition xor_flags (old : Z) : Z := Z.lor (Z.ldiff old 0x8d5) (Z.lor ZF PF).

(** The segment registers a [mov] can load, with a selector the processor accepts. *)
Class Selectors := { sel_ok : field -> Z -> bool }.

Definition is_selector (r : field) : bool :=
  bool_decide (r ∈ [F_es; F_ss; F_ds; F_fs; F_gs; F_cs]).

Section Machine.
Context `{Layout} `{Selectors}.

Definition push (m : machine) (v : Z) : option machine :=
  let sp := u64 (reg m F_rsp - 8) in
  mm ← store64 (mem (host m)) sp v;
  Some (set_reg (m <| host := (host m) <| mem := mm |> |>) F_rsp sp).

Definition pop (m : machine) : option (Z * machine) :=
  v ← load64 (mem (host m)) (reg m F_rsp);
  Some (v, set_reg m F_rsp (u64 (reg m F_rsp + 8))).

Definition store_at (m : machine) (a v : Z) : option machine :=
  s ← slot_at a; p ← slot_set (host m) s v; Some (m <| host := p |>).

Definition load_at (m : machine) (a : Z) : option Z :=
  s ← slot_at a; slot_get (host m) s.

(** [save_mxcsr] and [restore_mxcsr], the functions the stubs call.  A compiled C function
    uses [rax], which both stubs reload, and the stack below its return address: only its
    effect and the return address are modelled, its own frame is not. *)
Definition save_mxcsr (m : machine) : machine := m <| mxcsr_var := u32 (mxcsr m) |>.
Definition restore_mxcsr (m : machine) : machine := m <| mxcsr := u32 (mxcsr_var m) |>.

Definition call_c (m : machine) (target : Z) : option machine :=
  m ← push m call_ra;
  m ← (if target =? addr_save_mxcsr then Some (save_mxcsr m)
       else if target =? addr_restore_mxcsr then Some (restore_mxcsr m) else None);
  '(_, m) ← pop m;
  Some m.

(** One instruction: the machine after it and the target of a transfer of control; [None]
    is a fault. *)
Definition step (i : asm) (m : machine) : option (machine * option Z) :=
  match i with
  | Movabs_store a => m ← store_at m a (reg m F_rax); Some (m, None)
  | Movabs_load a => v ← load_at m a; Some (set_reg m F_rax v, None)
  | Mov dst src =>
      if is_selector dst then
        let v := Z.land (reg m src) 0xffff in
        if sel_ok dst v then Some (set_reg m dst v, None) else None
      else Some (set_reg m dst (reg m src), None)
  | Mov_imm dst v => Some (set_reg m dst v, None)
  | Xor_self r =>
      Some (set_reg (set_reg m r 0) F_rflags (xor_flags (reg m F_rflags)), None)
  | Pushfq => m ← push m (Z.land (reg m F_rflags) FLAGS_PUSHED); Some (m, None)
  | Popfq => '(v, m) ← pop m; Some (set_reg m F_rflags (load_flags (reg m F_rflags) v), None)
  | Push_imm v => m ← push m v; Some (m, None)
  | Push r => m ← push m (reg m r); Some (m, None)
  | Pop r => '(v, m) ← pop m; Some (set_reg m r v, None)
  | Movaps_store x =>
      y ← vec m !! x; m ← store_at m (reg m F_rax) (xmm_of y); Some (m, None)
  | Movaps_load x =>
      y ← vec m !! x; v ← load_at m (reg m F_rax);
      Some (m <| vec := <[x := with_xmm y v]> (vec m) |>, None)
  | Movaps dst src =>
      y ← vec m !! dst; v ← vec m !! src;
      Some (m <| vec := <[dst := with_xmm y (xmm_of v)]> (vec m) |>, None)
  | Vmovups_store x => y ← vec m !! x; m ← store_at m (reg m F_rax) y; Some (m, None)
  | Vmovups_load x =>
      v ← load_at m (reg m F_rax); Some (m <| vec := <[x := v]> (vec m) |>, None)
  | Vzeroall => Some (m <| vec := replicate 16 0 |>, None)
  | Call_rax => m ← call_c m (reg m F_rax); Some (m, None)
  | Jmp_rax => Some (m, Some (reg m F_rax))
  | Ret_near => '(v, m) ← pop m; Some (m, Some v)
  end.

(** A straight-line program, up to the first transfer of control. *)
Fixpoint run (l : list asm) (m : machine) : option (machine * option Z) :=
  match l with
  | [] => Some (m, None)
  | i :: l' =>
      '(m, t) ← step i m;
      match t with Some _ => Some (m, t) | None => run l' m end
  end.
End Machine.

(** ** The programs

    [sprintf] of the pieces in their order; [%p] is the address of a cell. *)
Section Programs.
Context `{Layout}.

Definition cell (f : field) : Z := addr_of (SField f).

Definition dump_hook_text (dump_stub : Z) : list asm :=
  [Movabs_store (cell F_rax); Mov_imm F_rax dump_stub; Jmp_rax].

Definition restore_hook_text : list asm := [Movabs_load (cell F_rax)].

Definition save_reg (f : field) : list asm := [Mov F_rax f; Movabs_store (cell f)].
Definition load_reg (f : field) : list asm := [Movabs_load (cell f); Mov f F_rax].

(** The first piece of [craft_hook]. *)
Definition hook_saves (host_rsp : Z) : list asm :=
  save_reg F_rsp
  ++ [Mov_imm F_rsp host_rsp; Pushfq; Pop F_rax; Movabs_store (cell F_rflags)]
  ++ concat (map save_reg
       [F_rbx; F_rcx; F_rdx; F_rsi; F_rdi; F_rbp; F_es; F_gs; F_fs; F_cs; F_ss; F_ds;
        F_r8; F_r9; F_r10; F_r11; F_r12; F_r13; F_r14; F_r15]).

Definition save_xmm (i : nat) : list asm :=
  Mov_imm F_rax (addr_of (SXmm i))
  :: (if i =? 0 then [] else [Movaps 0 i])%nat ++ [Movaps_store 0].
Definition save_ymm (i : nat) : list asm :=
  [Mov_imm F_rax (addr_of (SYmm i)); Vmovups_store i].
Definition load_xmm (i : nat) : list asm :=
  [Mov_imm F_rax (addr_of (SXmm i)); Movaps_load i].
Definition load_ymm (i : nat) : list asm :=
  [Mov_imm F_rax (addr_of (SYmm i)); Vmovups_load i].

(** The vector registers; an AVX-512 state is refused. *)
Definition hook_vectors (s : state_rtime) : option (list asm) :=
  match sse s, avx2 s, avx512 s with
  | Some _, _, _ => Some (concat (map save_xmm (seq 0 16)))
  | None, Some _, _ =>
      Some ([Mov_imm F_rax addr_save_mxcsr; Call_rax] ++ concat (map save_ymm (seq 0 16)))
  | None, None, Some _ => None
  | None, None, None => Some []
  end.

Definition hook_enter : list asm :=
  [Mov_imm F_rdi addr_s_binary; Mov_imm F_rax addr__dispatcher; Push_imm 0; Push F_rax;
   Movabs_load (addr_of SCurrHook); Movabs_store (cell F_rip); Ret_near].

Definition restore_vectors (s : state_rtime) : option (list asm) :=
  match sse s, avx2 s, avx512 s with
  | Some _, _, _ => Some (concat (map load_xmm (seq 0 16)))
  | None, Some _, _ =>
      Some (concat (map load_ymm (seq 0 16)) ++ [Mov_imm F_rax addr_restore_mxcsr; Call_rax])
  | None, None, Some _ => None
  | None, None, None => Some []
  end.

Definition restore_loads : list asm :=
  concat (map load_reg
    [F_rbx; F_rcx; F_rdx; F_rdi; F_rsi; F_rbp; F_es; F_ss; F_ds; F_r8; F_r9; F_r10; F_r11;
     F_r12; F_r13; F_r14; F_r15]).

Definition restore_leave : list asm :=
  [Movabs_load (cell F_rsp); Push F_rax; Movabs_load (cell F_rflags); Push F_rax; Popfq;
   Pop F_rsp; Movabs_load (cell F_rip); Jmp_rax].

Definition craft_hook_text (d : dbi_instr) : option (list asm) :=
  v ← hook_vectors (state d); Some (hook_saves (host_rsp d) ++ v ++ hook_enter).

Definition craft_restore_stub_text (d : dbi_instr) : option (list asm) :=
  v ← restore_vectors (state d); Some (v ++ restore_loads ++ restore_leave).

(** The inline assembly of [exec_binary] (src/core_mapper.c) and [continue_exec]. *)
Definition exec_binary_text (rip rsp : Z) : list asm :=
  [Mov_imm F_rax rip; Mov_imm F_rsp rsp]
  ++ map Xor_self [F_rbx; F_rcx; F_rdx; F_rdi; F_rsi; F_r8; F_r9; F_r10; F_r11; F_r12;
                   F_r13; F_r14; F_r15; F_rbp]
  ++ [Vzeroall; Push F_rax; Xor_self F_rax; Push F_rax; Popfq; Ret_near].

Definition continue_exec_text (restore_stub : Z) : list asm :=
  [Vzeroall; Mov_imm F_rax restore_stub; Jmp_rax].
End Programs.

(** ** Setting the stubs up *)

(** Keystone: the encoding of a program, [None] when [ks_open] or [ks_asm] fails. *)
Class Assembler := { ks_asm : list asm -> option (list Z) }.

(** [mmap(NULL, len, ...)]: the address the kernel chooses, [None] for [MAP_FAILED]. *)
Class MmapChoice := { k_choose : aspace -> Z -> option Z }.

Definition STACK_SZ : Z := 0x50000.

Section Setup.
Context `{Kernel} `{RegEnum} `{Disassembler} `{Layout} `{Assembler} `{MmapChoice}.

(** [map_stack] (src/core_mapper.c): [r + 0x5000] counts words of 8 bytes. *)
Definition map_stack : M Z :=
  m ← get mem;
  match k_choose m STACK_SZ with
  | None => mret minus1
  | Some r =>
      match mmap_anon_fixed m r STACK_SZ (Z.lor PROT_READ PROT_WRITE) with
      | None => mret minus1
      | Some m' => modify (fun p => p <| mem := m' |>);; mret (u64 (r + 8 * 0x5000))
      end
  end.

(** Assemble and copy. *)
Definition put_stub (addr : Z) (insns : list asm) : M Z :=
  match ks_asm insns with
  | None => mret minus1
  | Some encode => lift_mem (fun m => store_bytes m addr encode);; mret addr
  end.

(** The common frame of [craft_hook] and [craft_restore_stub]: map the page, record it,
    assemble and copy. *)
Definition craft_stub (addr : Z) (record : dbi_instr -> dbi_instr)
    (text : dbi_instr -> option (list asm)) : M Z :=
  m ← get mem;
  match mmap_anon_fixed m addr LENGTH_STUB PROT_RWX with
  | None => mret minus1
  | Some m' =>
      modify (fun p => with_dbi (p <| mem := m' |>) record);;
      d ← get dbi;
      match text d with
      | None => mret minus1
      | Some insns => put_stub addr insns
      end
  end.

Definition craft_hook : M Z :=
  craft_stub STUB_ADDR_DUMP (fun d => d <| dump_stub := STUB_ADDR_DUMP |>) craft_hook_text.

Definition craft_restore_stub : M Z :=
  craft_stub STUB_ADDR_RESTORE (fun d => d <| restore_stub := STUB_ADDR_RESTORE |>)
    craft_restore_stub_text.

(** [memcpy(patch, encode, size)] into the buffer of the caller, and the size. *)
Definition encode_patch (insns : list asm) (patch : list Z) : M (Z * list Z) :=
  match ks_asm insns with
  | None => mret (-1, patch)
  | Some encode =>
      patch' ← lift_option (fun _ => buf_write patch 0 encode);
      mret (s32 (Z.of_nat (length encode)), patch')
  end.

Definition dump_hook (patch : list Z) : M (Z * list Z) :=
  d ← get dbi; encode_patch (dump_hook_text (dump_stub d)) patch.

Definition restore_hook (patch : list Z) : M (Z * list Z) :=
  encode_patch restore_hook_text patch.

(** [realloc]; the bytes it adds are indeterminate, none is read. *)
Definition realloc (buf : list Z) (n : Z) : list Z := resize (Z.to_nat n) 0 buf.

Definition set_dump_hook : M Z :=
  '(size_trampoline, code) ← dump_hook (replicate 256 0);
  modify (set_hook Dump (fun h => h <| hcode := code |>));;
  if size_trampoline =? -1 then mret (-1)
  else
    modify (set_hook Dump (fun h => h <| hcode := realloc code (size_trampoline + 1) |>));;
    modify (set_hook Dump (fun h => h <| hlength := size_trampoline |>));;
    modify (set_hook Dump (fun h => h <| jmp := 0 |>));;
    mret 0.

Definition set_restore_hook : M Z :=
  '(size_trampoline_restore, code) ← restore_hook (replicate 256 0);
  modify (set_hook Restore (fun h => h <| hcode := code |>));;
  if size_trampoline_restore =? -1 then mret (-1)
  else
    modify (set_hook Restore (fun h => h <| hcode := realloc code size_trampoline_restore |>));;
    modify (set_hook Restore (fun h => h <| hlength := size_trampoline_restore |>));;
    mret 0.

(** [instrument], up to the call of [exec_binary]; [exec_entry] is the entry point the
    mapper stored in the binary object. *)
Definition instrument (fuel : nat) (exec_entry : Z) : M unit :=
  modify (fun p => with_dbi p (fun d => d <| curr_hook := 0 |>));;
  sp ← map_stack;
  modify (fun p => with_dbi p (fun d => d <| host_rsp := sp |>));;
  modify (fun p => with_dbi p (fun d => d <| take_callback := true |>));;
  r ← craft_hook;
  failed ← (if r =? minus1 then mret true
            else r ← craft_restore_stub; mret (r =? minus1));
  (if (failed : bool) then fatal_dump
   else
     r ← set_dump_hook;
     if r =? -1 then fatal_dump
     else r ← set_restore_hook; check r);;
  r ← instrument_request fuel exec_entry;
  check r;;
  modify (fun p => with_state p (fun s => s <| rip := exec_entry |>));;
  '(r, f, g) ← save_fs_gs;
  modify (fun p => with_dbi p (fun d =>
    d <| host_state := (host_state d) <| fs := f |> <| gs := g |> |>));;
  (if r =? -1 then fatal_dump
   else
     d ← get dbi;
     if truth (instrumented_fs d) then r ← set_guest_fs_gs; check r else mret ()).
End Setup.
