(* ===== verification/Native.v ===== *)
(** * The guest on its own

    What the processor makes of the guest when no engine is there, block by block: the
    instructions in front of a branch, then the branch.  The instructions are a parameter
    ([Processor]): from the bytes of the block and the registers, a program of loads and
    stores that ends with the new registers.  This is the abstract machine the engine is
    compared with. *)

From S2P Require Import Prelude.
From S2P Require Import Pages.
From S2P Require Import Regs.
From S2P Require Import Process.
From S2P Require Import Syscalls.
From S2P Require Import SyscallsSpec.
From S2P Require Import Memory.
From S2P Require Import MemorySpec.
From S2P Require Import Branch.
From S2P Require Import Target.
From S2P Require Import TargetSpec.
From S2P Require Import Cflow.
From S2P Require Import CflowSpec.
From S2P Require Import Stubs.

(** ** The registers a program sees

    The general registers, the selectors and the flags a user may change; the instruction
    pointer is set apart. *)
Definition user_state (s : state_rtime) (r : Z) : state_rtime :=
  s <| rip := r |> <| rflags := Z.land (rflags s) FLAGS_USER |>
    <| sse := None |> <| avx2 := None |> <| avx512 := None |> <| null_entry := 0 |>.

(** Equal to a program. *)
Definition same_user (s s' : state_rtime) : Prop := forall r, user_state s r = user_state s' r.

#[global] Instance same_user_equivalence : Equivalence same_user.
Proof.
  split; [ done | by intros s s' Hs r | ]. intros s1 s2 s3 H1 H2 r. by rewrite H1.
Qed.

Lemma user_state_get s r f :
  f ∉ [F_rip; F_rflags; F_null_entry] -> field_get (user_state s r) f = field_get s f.
Proof.
  intros Hf. destruct f; try reflexivity; exfalso; apply Hf; apply (bool_decide_unpack _);
    by vm_compute.
Qed.

Lemma same_user_intro s s' :
  (forall f, f ∉ [F_rip; F_rflags; F_null_entry] -> field_get s f = field_get s' f) ->
  Z.land (rflags s) FLAGS_USER = Z.land (rflags s') FLAGS_USER -> same_user s s'.
Proof.
  intros Hf Hfl r. unfold user_state. rewrite Hfl.
  assert (Hg : Forall (fun f => field_get s f = field_get s' f)
            [F_rax; F_rbx; F_rcx; F_rdx; F_rsi; F_rdi; F_rbp; F_rsp; F_cs; F_ss; F_gs; F_es;
             F_ds; F_fs; F_r8; F_r9; F_r10; F_r11; F_r12; F_r13; F_r14; F_r15]).
  { repeat (apply Forall_cons_2;
      [ apply Hf; apply (bool_decide_unpack _); by vm_compute | ]). apply Forall_nil_2. }
  destruct s, s'. repeat (apply Forall_cons in Hg as [? Hg]). simpl in *. by subst.
Qed.

Lemma same_user_get s s' f :
  same_user s s' -> f ∉ [F_rip; F_rflags; F_null_entry] -> field_get s f = field_get s' f.
Proof. intros Hs Hf. rewrite <- (user_state_get s 0), <- (user_state_get s' 0) by done. by rewrite Hs. Qed.

Lemma same_user_flags s s' :
  same_user s s' -> Z.land (rflags s) FLAGS_USER = Z.land (rflags s') FLAGS_USER.
Proof. intros Hs. exact (f_equal rflags (Hs 0)). Qed.

Lemma user_state_twice s r r' : user_state (user_state s r) r' = user_state s r'.
Proof. unfold user_state. simpl. by rewrite <- Z.land_assoc, Z.land_diag. Qed.

Lemma same_user_state s r : same_user (user_state s r) s.
Proof. intros r'. apply user_state_twice. Qed.

#[global] Instance set_rsp_same_user v : Proper (same_user ==> same_user) (fun s => s <| rsp := v |>).
Proof.
  intros s s' Hs. apply same_user_intro; [ | exact (same_user_flags _ _ Hs) ].
  intros f Hf. change (field_get (field_set s F_rsp v) f = field_get (field_set s' F_rsp v) f).
  rewrite !field_get_set. case_decide; [ done | ]. by apply same_user_get.
Qed.

(** ** Branches of equal guests *)

(** The registers of the operand are not the flags, of which a program sees only some. *)
Definition no_flags (op : cs_x86_op) : bool :=
  match op with
  | X86_OP_REG r => negb (reg_eqb r X86_REG_EFLAGS)
  | X86_OP_MEM _ base index _ _ =>
      negb (reg_eqb base X86_REG_EFLAGS) && negb (reg_eqb index X86_REG_EFLAGS)
  | X86_OP_IMM _ | X86_OP_INVALID => true
  end.

(** Equal to a program, and at the same instruction. *)
Definition same_here (s s' : state_rtime) : Prop := same_user s s' /\ rip s = rip s'.

Lemma view_home r lo w : view r = Some (lo, w) -> home r ∉ [F_rflags; F_null_entry].
Proof.
  intros Hv. destruct r; try discriminate Hv; apply (bool_decide_unpack _); by vm_compute.
Qed.

Lemma reg_value_same s s' r :
  same_here s s' -> reg_eqb r X86_REG_EFLAGS = false -> reg_value r s = reg_value r s'.
Proof.
  intros [Hs Hr] Hf. unfold reg_value. rewrite Hf. destruct (view r) as [[lo w] |] eqn:Hv; [ | done ].
  do 2 f_equal. destruct (decide (home r = F_rip)) as [E | Hne]; [ by rewrite E | ].
  apply same_user_get; [ done | ]. apply not_elem_of_cons. split; [ done | by eapply view_home ].
Qed.

Lemma user_flag_bit s s' i :
  same_user s s' -> Z.testbit FLAGS_USER i = true -> Z.testbit (rflags s) i = Z.testbit (rflags s') i.
Proof.
  intros Hs Hi. pose proof (f_equal (fun z => Z.testbit z i) (same_user_flags _ _ Hs)) as E.
  simpl in E. rewrite !Z.land_spec, Hi in E. by rewrite !andb_true_r in E.
Qed.

Lemma jcc_cond_same id s s' : same_user s s' -> jcc_cond id s = jcc_cond id s'.
Proof.
  intros Hs.
  assert (Hc : rcx s = rcx s').
  { apply (same_user_get s s' F_rcx Hs). apply (bool_decide_unpack _). by vm_compute. }
  unfold jcc_cond. rewrite Hc, !(fun i => user_flag_bit s s' i Hs) by reflexivity. done.
Qed.

(** ** Memories that host a guest

    [hosts m m0]: whatever is mapped in [m] has the same bytes in [m0], and at least its
    protections or all of them. *)
Record hosts (m m0 : aspace) : Prop := {
  ho_prots x p : page_prot m x = Some p -> page_prot m0 x = Some p \/ page_prot m0 x = Some PROT_RWX;
  ho_bytes x : is_Some (page_prot m x) -> byte_at m0 x = byte_at m x
}.

#[global] Instance hosts_refl : Reflexive hosts.
Proof. split; auto. Qed.

Lemma has_prot_mapped m x flag : has_prot m x flag = true -> is_Some (page_prot m x).
Proof. unfold has_prot. destruct (page_prot m x); [ by eexists | done ]. Qed.

Lemma hosts_has m m0 x flag :
  hosts m m0 -> flag ∈ [PROT_READ; PROT_WRITE; PROT_EXEC] ->
  has_prot m x flag = true -> has_prot m0 x flag = true.
Proof.
  intros [P _] Hf Hx. unfold has_prot in *. destruct (page_prot m x) as [p |] eqn:E; [ | done ].
  destruct (P x p E) as [-> | ->]; [ done | by apply rwx_flag ].
Qed.

Lemma hosts_range m m0 flag a n :
  hosts m m0 -> flag ∈ [PROT_READ; PROT_WRITE; PROT_EXEC] ->
  range_has flag m a n -> range_has flag m0 a n.
Proof. intros Hh Hf Hr x Hx. by eapply hosts_has; [ | | apply Hr ]. Qed.

Lemma hosts_mem_bytes m m0 a n flag :
  hosts m m0 -> range_has flag m a (Z.of_nat n) -> mem_bytes m0 a n = mem_bytes m a n.
Proof.
  intros [_ B] Hr. apply mem_bytes_ext. intros x Hx. apply B. eapply has_prot_mapped, Hr. lia.
Qed.

Lemma hosts_load8 m m0 a b : hosts m m0 -> load8 m a = Some b -> load8 m0 a = Some b.
Proof.
  intros Hh. unfold load8. destruct (has_prot m a PROT_READ) eqn:E; [ | done ].
  rewrite (hosts_has m m0) by (done || auto with dry).
  rewrite (ho_bytes _ _ Hh) by (by eapply has_prot_mapped). done.
Qed.

Lemma byte_at_store m a v x :
  byte_at (m <| bytes := <[a := v]> (bytes m) |>) x = if decide (x = a) then v else byte_at m x.
Proof.
  unfold byte_at. simpl. destruct (decide (x = a)) as [-> | Hne];
    [ by rewrite lookup_insert_eq | by rewrite lookup_insert_ne ].
Qed.

Lemma hosts_store8 m m0 a v m' :
  hosts m m0 -> store8 m a v = Some m' ->
  exists m0', store8 m0 a v = Some m0' /\ hosts m' m0'.
Proof.
  intros Hh. unfold store8. destruct (has_prot m a PROT_WRITE) eqn:E; [ | done ].
  intros [= <-]. rewrite (hosts_has m m0) by (done || auto with dry).
  eexists. split; [ done | ]. split; [ apply Hh | ].
  intros x Hx. rewrite !byte_at_store. case_decide; [ done | by apply Hh ].
Qed.

Lemma hosts_load_bytes m m0 a n l :
  hosts m m0 -> load_bytes m a n = Some l -> load_bytes m0 a n = Some l.
Proof.
  intros Hh. revert a l. induction n as [| n IH]; intros a l; [ done | ]. cbn [load_bytes].
  destruct (load8 m (u64 a)) eqn:E1; simpl; [ | done ].
  destruct (load_bytes m (a + 1) n) eqn:E2; simpl; [ | done ].
  intros [= <-]. by rewrite (hosts_load8 _ _ _ _ Hh E1), (IH _ _ E2).
Qed.

Lemma hosts_store_bytes m m0 a l m' :
  hosts m m0 -> store_bytes m a l = Some m' ->
  exists m0', store_bytes m0 a l = Some m0' /\ hosts m' m0'.
Proof.
  revert a m m0. induction l as [| b l IH]; intros a m m0 Hh E; simplify_eq/=; [ by exists m0 | ].
  destruct (store8 m (u64 a) b) as [m1 |] eqn:E1; simpl in E; [ | done ].
  destruct (hosts_store8 _ _ _ _ _ Hh E1) as (m01 & -> & H1). simpl. by eapply IH.
Qed.

Lemma hosts_load64 m m0 a v : hosts m m0 -> load64 m a = Some v -> load64 m0 a = Some v.
Proof.
  intros Hh. unfold load64. destruct (load_bytes m a 8) eqn:E; [ | done ].
  by rewrite (hosts_load_bytes _ _ _ _ _ Hh E).
Qed.

Lemma store8_prots m a v m' : store8 m a v = Some m' -> prots m' = prots m.
Proof. unfold store8. by destruct (has_prot m a PROT_WRITE); intros [= <-]. Qed.

Lemma store_bytes_prots m a l m' : store_bytes m a l = Some m' -> prots m' = prots m.
Proof.
  revert a m. induction l as [| b l IH]; intros a m E; simplify_eq/=; [ done | ].
  destruct (store8 m (u64 a) b) eqn:E1; simpl in E; [ | done ].
  rewrite (IH _ _ E). by eapply store8_prots.
Qed.

(** What the guest sees of a grown memory, and of one whose engine pages changed. *)
Lemma hosts_grow m m0 m1 : hosts m m0 -> rwx_grow m0 m1 -> hosts m m1.
Proof.
  intros [P B] [B1 P1]. split; [ | intros x Hx; rewrite B1; auto ].
  intros x p Hp. destruct (P1 x) as [-> | [-> _]]; eauto.
Qed.

(** ** Branches in hosting memories *)

Lemma memory_offset_same s s' sz segment base index scale disp :
  same_here s s' -> no_flags (X86_OP_MEM segment base index scale disp) = true ->
  memory_offset s sz base index scale disp = memory_offset s' sz base index scale disp.
Proof.
  intros Hs Hn. simpl in Hn. apply andb_true_iff in Hn as [H1%negb_true_iff H2%negb_true_iff].
  apply memory_offset_ext; [ apply Hs | by apply reg_value_same | intros _; by apply reg_value_same ].
Qed.

Lemma operand_value_hosts b s s' m m0 sz op t :
  same_here s s' -> hosts m m0 -> no_flags op = true ->
  operand_value b s m sz op = Some t -> operand_value b s' m0 sz op = Some t.
Proof.
  intros Hs Hh Hn. destruct op; simpl; [ | by rewrite (proj2 Hs) | | done ].
  - intros [= <-]. f_equal. symmetry. apply reg_value_same; [ done | by apply negb_true_iff ].
  - unfold effective_address. rewrite (memory_offset_same s s' _ _ _ _ _ _ Hs Hn). by apply hosts_load64.
Qed.

Lemma same_user_rsp s s' : same_user s s' -> rsp s = rsp s'.
Proof. intros Hs. apply (same_user_get s s' F_rsp Hs). apply (bool_decide_unpack _). by vm_compute. Qed.

Lemma x86_branch_hosts k insn b s s0 m m0 t s' m' :
  same_here s s0 -> hosts m m0 -> no_flags (first_operand insn) = true ->
  x86_branch k insn b s m = Some (t, s', m') ->
  exists s0' m0', x86_branch k insn b s0 m0 = Some (t, s0', m0') /\ same_here s' s0' /\
    hosts m' m0' /\ prots m' = prots m /\ prots m0' = prots m0.
Proof.
  intros Hs Hh Hn E. pose proof (same_user_rsp _ _ (proj1 Hs)) as Hrsp.
  unfold x86_branch in E |- *. destruct (near_branch k insn); [ | done ].
  destruct k; simpl in E |- *; [ | | | done ].
  - rewrite <- (jcc_cond_same _ _ _ (proj1 Hs)).
    destruct (jcc_cond _ _) as [[] |]; simpl in E |- *; [ | | done ].
    + destruct (operand_value b s m _ _) as [v |] eqn:Eo; simplify_eq/=.
      rewrite (operand_value_hosts _ _ _ _ _ _ _ _ Hs Hh Hn Eo). simpl. by do 2 eexists.
    + simplify_eq. rewrite (proj2 Hs). by do 2 eexists.
  - destruct (operand_value b s m _ _) as [v |] eqn:Eo; simpl in E; [ | done ].
    rewrite (operand_value_hosts _ _ _ _ _ _ _ _ Hs Hh Hn Eo). simpl.
    rewrite <- Hrsp, <- (proj2 Hs).
    destruct (store64 m _ _) as [m1 |] eqn:Es; simplify_eq/=.
    destruct (hosts_store_bytes _ _ _ _ _ Hh Es) as (m01 & E0 & H1). unfold store64. rewrite E0.
    simpl. do 2 eexists. split_and!; [ done | | done | by eapply store_bytes_prots .. ].
    split; [ by apply set_rsp_same_user, Hs | apply Hs ].
  - rewrite <- Hrsp. destruct (load64 m (rsp s)) as [v |] eqn:El; simplify_eq/=.
    rewrite (hosts_load64 _ _ _ _ Hh El). simpl. do 2 eexists.
    split_and!; try done. split; [ by apply set_rsp_same_user, Hs | apply Hs ].
Qed.

Lemma plain_branch_same k insn s s' :
  same_here s s' -> no_flags (first_operand insn) = true ->
  plain_branch k insn s = plain_branch k insn s'.
Proof.
  intros Hs Hn. pose proof (same_user_rsp _ _ (proj1 Hs)) as Hrsp.
  assert (Hop : plain_operand k s (insn_size insn) (first_operand insn)
                = plain_operand k s' (insn_size insn) (first_operand insn)).
  { destruct (first_operand insn) as [| | segment base index scale disp |]; try done.
    unfold plain_operand, push_safe, tracked, apart_from_push.
    rewrite (memory_offset_same s s' _ _ _ _ _ _ Hs Hn), Hrsp.
    simpl in Hn. apply andb_true_iff in Hn as [H1%negb_true_iff H2%negb_true_iff].
    by rewrite (reg_value_same s s' base), (reg_value_same s s' index). }
  unfold plain_branch. by rewrite Hop, (jcc_cond_same _ _ _ (proj1 Hs)).
Qed.

(** ** The instructions of a block

    A block in front of its branch is a program of loads and stores of bytes; it ends with
    the registers, the vector registers and the vector control word. *)
Definition outcome_of : Type := state_rtime * list Z * Z.

Inductive code :=
  | Done (r : outcome_of)
  | Load (a : Z) (k : Z -> code)
  | Store (a v : Z) (k : code)
  | Fault.

Fixpoint run_code (m : aspace) (c : code) : option (outcome_of * aspace) :=
  match c with
  | Done r => Some (r, m)
  | Load a k => b ← load8 m a; run_code m (k b)
  | Store a v k => m' ← store8 m a v; run_code m' k
  | Fault => None
  end.

(** Every address the program touches has the property [P]. *)
Fixpoint touches (P : Z -> Prop) (m : aspace) (c : code) : Prop :=
  match c with
  | Done _ | Fault => True
  | Load a k => P a /\ match load8 m a with Some b => touches P m (k b) | None => True end
  | Store a v k => P a /\ match store8 m a v with Some m' => touches P m' k | None => True end
  end.

(** The processor: what the bytes of a block at an address do, from the registers a program
    sees, the vector registers and the control word. *)
Class Processor := { block_code : list Z -> Z -> state_rtime -> list Z -> Z -> code }.

Lemma run_code_prots c m r m' : run_code m c = Some (r, m') -> prots m' = prots m.
Proof.
  revert m. induction c as [r0 | a k IH | a v k IH |]; intros m E; simplify_eq/=; [ done | | ].
  - destruct (load8 m a) as [b |]; simpl in E; [ by eapply IH | done ].
  - destruct (store8 m a v) as [m1 |] eqn:Es; simpl in E; [ | done ].
    rewrite (IH _ E). by eapply store8_prots.
Qed.

(** ** The steps of the guest

    A guest about to run the block at [at_], whose branch is [len] bytes further; [g_trace]
    are the system calls it has made but for [brk], whose state is the break [g_brk];
    [g_bases] are its segment bases. *)
Record guest := mk_guest {
  at_ : Z;
  len : Z;
  g_regs : state_rtime;
  g_vec : list Z;
  g_mxcsr : Z;
  g_mem : aspace;
  g_trace : list sysevent;
  g_bases : Z * Z;
  g_brk : Z
}.

(** ** The system calls of a guest

    [mmap], with the flags in [r10]; the offsets that do not fit an [int] are left out. *)
Definition mmap_args (s : state_rtime) : list vararg :=
  [VLong (rdi s); VLong (rsi s); VInt (s32 (rdx s)); VInt (s32 (r10 s)); VInt (s32 (r8 s));
   VInt (s32 (r9 s))].

(** The call a guest with the registers [s] asks the kernel for. *)
Definition guest_call (s : state_rtime) : option (Z * list vararg) :=
  let nr := s32 (rax s) in
  if nr =? __NR_mmap then
    if s32 (r9 s) =? r9 s then Some (nr, mmap_args s) else None
  else if nr =? __NR_close then Some (nr, [VLong (rdi s)])
  else r ← row_of nr; Some (fr_guest r, row_args r s).

(** The end of the page at [x]. *)
Definition page_up (x : Z) : Z := PAGE_ALIGN (x + PAGE_SZ - 1).

(** [brk]: the break is asked for, or grows within its last page or over free pages, which
    read zero. *)
Inductive brk_call `{Kernel} (b req : Z) (m : aspace) : Z -> aspace -> Prop :=
| brk_query : req = 0 -> brk_call b req m b m
| brk_within : 0 <= b < req -> page_up req = page_up b -> brk_call b req m req m
| brk_grow m' :
    0 <= b < req -> (forall x, page_up b <= x < page_up req -> page_prot m x = None) ->
    mmap_anon_fixed m (page_up b) (page_up req - page_up b) (Z.lor PROT_READ PROT_WRITE) = Some m' ->
    brk_call b req m req m'.

Section Native.
Context `{HK : Kernel} `{HE : RegEnum} `{HD : Disassembler} `{HP : Processor}.

(** [arch_prctl] with the segment bases [b]: the result, the bases and the memory. *)
Definition prctl (code addr : Z) (b : Z * Z) (m : aspace) : option (Z * (Z * Z) * aspace) :=
  let get v := match store64 m addr v with Some m' => (0, b, m') | None => (-14, b, m) end in
  if code =? ARCH_SET_FS then Some (if k_base_ok addr then (0, (addr, b.2), m) else (-1, b, m))
  else if code =? ARCH_SET_GS then
    Some (if k_base_ok addr then (0, (b.1, addr), m) else (-1, b, m))
  else if code =? ARCH_GET_FS then Some (get b.1)
  else if code =? ARCH_GET_GS then Some (get b.2)
  else None.

(** The instructions of the block. *)
Definition block_of (c : guest) : code :=
  block_code (mem_bytes (g_mem c) (at_ c) (Z.to_nat (len c))) (at_ c)
    (user_state (g_regs c) (at_ c)) (g_vec c) (u32 (g_mxcsr c)).

(** The calls a guest has made after the call [nr]. *)
Definition traced (c : guest) (nr : Z) (args : list vararg) : list sysevent :=
  g_trace c ++ [mk_event nr args (fst (g_bases c)) (snd (g_bases c))].

(** A system call with the registers [s] in the memory [m]: the result, the memory, the calls
    made, the segment bases and the break. *)
Inductive sys_step (c : guest) (s : state_rtime) (m : aspace)
  : Z -> aspace -> list sysevent -> Z * Z -> Z -> Prop :=
| sys_kernel nr args raw m' :
    guest_call s = Some (nr, args) -> k_syscall (g_trace c) m nr args = Some (raw, m') ->
    sys_step c s m raw m' (traced c nr args) (g_bases c) (g_brk c)
| sys_prctl raw b m' :
    s32 (rax s) = __NR_arch_prctl -> prctl (s32 (rdi s)) (rsi s) (g_bases c) m = Some (raw, b, m') ->
    sys_step c s m raw m' (traced c __NR_arch_prctl [VInt (s32 (rdi s)); VLong (rsi s)]) b (g_brk c)
| sys_brk k m' :
    s32 (rax s) = __NR_brk -> brk_call (g_brk c) (rdi s) m k m' ->
    sys_step c s m k m' (g_trace c) (g_bases c) k.

(** The registers after a system call: the result, and whatever is left in [rcx] and [r11],
    which the convention does not preserve. *)
Definition after_call (s : state_rtime) (raw c r : Z) : state_rtime :=
  s <| rax := u64 raw |> <| rcx := c |> <| r11 := r |>.

(** One block and its branch, or the system call it ends in; the other interrupts have no
    step. *)
Inductive native : guest -> guest -> Prop :=
| native_branch c s v x m k insn t s' m' d :
    run_code (g_mem c) (block_of c) = Some ((s, v, x), m) ->
    cs_decode (mem_bytes m (at_ c + len c) 16) 0 = Some insn ->
    branch_of (groups insn) = Some k ->
    x86_branch k insn (g_bases c) (user_state s (at_ c + len c)) m = Some (t, s', m') ->
    sweep m' t d ->
    native c (mk_guest t d s' v x m' (g_trace c) (g_bases c) (g_brk c))
| native_syscall c s v x m insn raw m' tr b k d rcx' r11' :
    run_code (g_mem c) (block_of c) = Some ((s, v, x), m) ->
    cs_decode (mem_bytes m (at_ c + len c) 16) 0 = Some insn ->
    branch_of (groups insn) = Some BSyscall -> insn_id insn = X86_INS_SYSCALL ->
    sys_step c s m raw m' tr b k ->
    sweep m' (u64 (at_ c + len c + insn_size insn)) d ->
    native c (mk_guest (u64 (at_ c + len c + insn_size insn)) d (after_call s raw rcx' r11') v x
                m' tr b k).

Definition is_exit (nr : Z) : bool := (nr =? __NR_exit) || (nr =? __NR_exit_group).

(** The block ends in [exit] or [exit_group], with a status and the memory at the end. *)
Inductive native_exits (c : guest) : Z -> aspace -> Prop :=
| native_exits_intro s v x m insn :
    run_code (g_mem c) (block_of c) = Some ((s, v, x), m) ->
    cs_decode (mem_bytes m (at_ c + len c) 16) 0 = Some insn ->
    branch_of (groups insn) = Some BSyscall -> insn_id insn = X86_INS_SYSCALL ->
    is_exit (s32 (rax s)) = true ->
    native_exits c (Z.land (rdi s) 0xff) m.

(** What the end of the block says about the step. *)
Lemma native_branch_inv c c' s v x m insn k :
  native c c' -> run_code (g_mem c) (block_of c) = Some ((s, v, x), m) ->
  cs_decode (mem_bytes m (at_ c + len c) 16) 0 = Some insn ->
  branch_of (groups insn) = Some k -> k <> BSyscall ->
  exists t s' m' d,
    x86_branch k insn (g_bases c) (user_state s (at_ c + len c)) m = Some (t, s', m') /\ sweep m' t d /\
    c' = mk_guest t d s' v x m' (g_trace c) (g_bases c) (g_brk c).
Proof. intros Hn Er Hd Hk Hne. destruct Hn; simplify_eq. by do 4 eexists. Qed.

Lemma native_syscall_inv c c' s v x m insn :
  native c c' -> run_code (g_mem c) (block_of c) = Some ((s, v, x), m) ->
  cs_decode (mem_bytes m (at_ c + len c) 16) 0 = Some insn ->
  branch_of (groups insn) = Some BSyscall ->
  exists raw m' tr b k d rcx' r11', sys_step c s m raw m' tr b k /\
    sweep m' (u64 (at_ c + len c + insn_size insn)) d /\
    c' = mk_guest (u64 (at_ c + len c + insn_size insn)) d (after_call s raw rcx' r11') v x m'
           tr b k.
Proof.
  intros Hn Er Hd Hk. destruct Hn as [? ? ? ? ? k ? ? ? ? ? ? ? ? Hb |]; simplify_eq; [ | by do 8 eexists ].
  by rewrite x86_branch_syscall in Hb.
Qed.
End Native.
