(* ===== verification/StubsSpec.v ===== *)
(** * What the stubs do

    The stub behind the dump trampoline records the registers of the guest in
    [state_rtime_t] and enters the dispatcher; the restore stub and its trampoline put
    them back; together they are transparent to the guest.  Then the setup: the stubs and
    the trampolines that [instrument] leaves in place. *)

From S2P Require Import Prelude.
From S2P Require Import Pages.
From S2P Require Import Regs.
From S2P Require Import Process.
From S2P Require Import Syscalls.
From S2P Require Import Memory.
From S2P Require Import MemorySpec.
From S2P Require Import Branch.
From S2P Require Import Target.
From S2P Require Import TargetSpec.
From S2P Require Import Cflow.
From S2P Require Import CflowSpec.
From S2P Require Import Engine.
From S2P Require Import EngineSpec.
From S2P Require Import Stubs.

(** ** The stack of the engine *)

(** [n] bytes below [sp] can be read and written. *)
Record stack_room (m : aspace) (sp n : Z) : Prop := {
  sr_low : n <= sp;
  sr_high : sp < 2 ^ 64;
  sr_read : range_has PROT_READ m (sp - n) n;
  sr_write : range_has PROT_WRITE m (sp - n) n
}.

(** The memory changed in the [n] bytes below [sp] only. *)
Record below (sp n : Z) (m m' : aspace) : Prop := {
  bl_prots : prots m' = prots m;
  bl_bytes : forall x, ~ (sp - n <= x < sp) -> byte_at m' x = byte_at m x
}.

#[global] Instance below_preorder sp n : PreOrder (below sp n).
Proof.
  split; [ by split | ]. intros m1 m2 m3 [P1 B1] [P2 B2]. split; [ congruence | ].
  intros x Hx. rewrite B2 by done. auto.
Qed.

Lemma below_room sp n m m' : below sp n m m' -> stack_room m sp n -> stack_room m' sp n.
Proof.
  intros [Hp _] [Hl Hh Hr Hw]. split; try done; intros x Hx;
    rewrite (has_prot_ext m' m) by done; auto.
Qed.

(** Pushing a word [k] bytes below the base of the room. *)
Lemma store_in_room m sp n k v :
  stack_room m sp n -> 8 <= k <= n ->
  exists m', store64 m (sp - k) v = Some m' /\ load64 m' (sp - k) = Some (u64 v) /\
    below sp n m m' /\
    forall ea, 0 <= ea -> ea + 8 <= 2 ^ 64 -> ea + 8 <= sp - k \/ sp - k + 8 <= ea ->
      load64 m' ea = load64 m ea.
Proof.
  intros [Hl Hh Hr Hw] Hk.
  destruct (load64_store64 m (sp - k) v) as (m' & Es & El); try lia;
    try (intros x Hx; (apply Hr || apply Hw); lia).
  exists m'. split_and!; try done.
  - unfold store64 in Es. apply store_bytes_frame in Es as [Hp Hb];
      rewrite ?length_le_split in *; try lia.
    split; [ done | ]. intros x Hx. apply Hb. lia.
  - intros ea H0 H1 Hd. eapply (load64_after_push m m' (sp - k) v); try done; lia.
Qed.

(** ** Running programs *)

Lemma field_set_comm s f g v w :
  f <> g -> field_set (field_set s f v) g w = field_set (field_set s g w) f v.
Proof. intros Hne. destruct f, g; done || reflexivity. Qed.

Lemma field_set_twice s f v w : field_set (field_set s f v) f w = field_set s f w.
Proof. by destruct f. Qed.

Lemma field_set_get s f : field_set s f (field_get s f) = s.
Proof. destruct s, f; reflexivity. Qed.

Lemma set_reg_rax_swap m r v w :
  r <> F_rax -> set_reg (set_reg m F_rax v) r w = set_reg (set_reg m r w) F_rax v.
Proof. intros Hr. destruct r; done || reflexivity. Qed.

Lemma host_of m p : host (m <| host := p |>) = p.
Proof. done. Qed.
Lemma curr_hook_frame p f m : curr_hook (dbi ((with_state p f) <| mem := m |>)) = curr_hook (dbi p).
Proof. done. Qed.
Lemma curr_hook_state p f : curr_hook (dbi (with_state p f)) = curr_hook (dbi p).
Proof. done. Qed.
Lemma with_state_twice p f g : with_state (with_state p f) g = with_state p (fun s => g (f s)).
Proof. done. Qed.
Lemma with_state_const p f : with_state p f = with_state p (fun _ => f (gstate p)).
Proof. done. Qed.
Lemma collapse p f g m :
  with_state ((with_state p f) <| mem := m |>) g = (with_state p (fun s => g (f s))) <| mem := m |>.
Proof. done. Qed.
Lemma mem_twice p m m' : (p <| mem := m |>) <| mem := m' |> = p <| mem := m' |>.
Proof. done. Qed.

Lemma set_reg_get m r : set_reg m r (reg m r) = m.
Proof. destruct m as [[] ? ? ? ?], r; reflexivity. Qed.

(** Moving the stack pointer down and up again. *)
Lemma set_rsp_back m a b : b = reg m F_rsp -> set_reg (set_reg m F_rsp a) F_rsp b = m.
Proof. intros ->. by destruct m as [[] ? ? ? ?]. Qed.

Lemma with_state_ext p f g : (forall s, f s = g s) -> with_state p f = with_state p g.
Proof. intros E. unfold with_state, with_dbi. cbn. unfold set_field. by rewrite E. Qed.

(** The registers [l] of [c] written over [s]. *)
Definition copy_fields (c s : state_rtime) (l : list field) : state_rtime :=
  foldl (fun s f => field_set s f (field_get c f)) s l.

Lemma copy_fields_snoc c s l f :
  copy_fields c s (l ++ [f]) = field_set (copy_fields c s l) f (field_get c f).
Proof. unfold copy_fields. by rewrite foldl_app. Qed.

Lemma copy_fields_ext c c' s l :
  Forall (fun f => field_get c f = field_get c' f) l -> copy_fields c s l = copy_fields c' s l.
Proof.
  unfold copy_fields. intros H. revert s.
  induction H as [| f l Hf _ IH]; intros s; [ done | ]. simpl. by rewrite Hf.
Qed.

(** The entries [l] of [src] written over [dst]. *)
Definition copy_entries (src dst : list Z) (l : list nat) : list Z :=
  foldl (fun d i => <[i := nth i src 0]> d) dst l.

Lemma copy_entries_length src dst l : length (copy_entries src dst l) = length dst.
Proof.
  revert dst. induction l as [| i l IH]; intros dst; [ done | ]. simpl.
  rewrite IH. apply length_insert.
Qed.

Lemma copy_entries_snoc src dst l i :
  copy_entries src dst (l ++ [i]) = <[i := nth i src 0]> (copy_entries src dst l).
Proof. unfold copy_entries. by rewrite foldl_app. Qed.

Lemma copy_entries_lookup src dst l i :
  (i < length dst)%nat ->
  copy_entries src dst l !! i = Some (if decide (i ∈ l) then nth i src 0 else nth i dst 0).
Proof.
  revert dst. induction l as [| j l IH]; intros dst Hi.
  - rewrite decide_False by apply not_elem_of_nil. simpl.
    rewrite (nth_lookup_Some dst i 0 (dst !!! i)); [ by apply list_lookup_lookup_total_lt | ].
    by apply list_lookup_lookup_total_lt.
  - change (copy_entries src dst (j :: l)) with (copy_entries src (<[j := nth j src 0]> dst) l).
    rewrite IH by (by rewrite length_insert). f_equal.
    destruct (decide (i ∈ l)) as [Hl | Hl].
    + rewrite decide_True; [ done | by right ].
    + destruct (decide (i = j)) as [-> | Hne].
      * rewrite decide_True by left. rewrite (nth_lookup_Some _ j 0 (nth j src 0)); [ done | ].
        by apply list_lookup_insert_eq.
      * rewrite decide_False by (intros [? | ?]%elem_of_cons; done).
        rewrite !nth_lookup, list_lookup_insert_ne by done. done.
Qed.

Lemma copy_entries_all src dst n :
  length src = n -> length dst = n -> copy_entries src dst (seq 0 n) = src.
Proof.
  intros Hs Hd. apply list_eq. intros i. destruct (decide (i < n)%nat) as [Hi | Hi].
  - rewrite copy_entries_lookup by lia. rewrite decide_True by (apply elem_of_seq; lia).
    destruct (lookup_lt_is_Some_2 src i) as [x Hx]; [ lia | ]. by rewrite nth_lookup, Hx.
  - rewrite !lookup_ge_None_2; try done; rewrite ?copy_entries_length; lia.
Qed.

Section Run.
Context `{HY : Layout} `{HL : !LayoutOk} `{HS : Selectors}.

Lemma run_app l1 l2 m m' :
  run l1 m = Some (m', None) -> run (l1 ++ l2) m = run l2 m'.
Proof.
  revert m. induction l1 as [| i l1 IH]; intros m E; simplify_eq/=; [ done | ].
  destruct (step i m) as [[m1 [t |]] |]; simplify_eq/=; auto.
Qed.

Lemma run_cons i l m m' : step i m = Some (m', None) -> run (i :: l) m = run l m'.
Proof. intros E. simpl. by rewrite E. Qed.

(** A loop of code pieces that keeps an invariant on what has been done. *)
Lemma run_concat {A} (code : A -> list asm) (I : list A -> machine -> Prop) (l : list A) m :
  I [] m ->
  (forall done_ x m1, done_ ++ [x] `prefix_of` l -> I done_ m1 ->
     exists m2, run (code x) m1 = Some (m2, None) /\ I (done_ ++ [x]) m2) ->
  exists m', run (concat (map code l)) m = Some (m', None) /\ I l m'.
Proof.
  intros H0 Hs. revert I m H0 Hs.
  induction l as [| x l IH]; intros I m H0 Hs; [ by exists m | ].
  destruct (Hs [] x m) as (m1 & E1 & I1); [ by exists l | done | ].
  destruct (IH (fun d => I (x :: d)) m1) as (m2 & E2 & I2); [ done | | ].
  { intros d y m3 [k ->] I3. apply (Hs (x :: d)); [ exists k; reflexivity | exact I3 ]. }
  exists m2. split; [ | done ]. cbn [map concat]. by rewrite (run_app _ _ _ _ E1).
Qed.

Lemma store_cell m s v :
  store_at m (addr_of s) v = (fun p => m <| host := p |>) <$> slot_set (host m) s v.
Proof. unfold store_at. rewrite slot_at_addr. simpl. by destruct (slot_set (host m) s v). Qed.

Lemma load_cell m s : load_at m (addr_of s) = slot_get (host m) s.
Proof. unfold load_at. by rewrite slot_at_addr. Qed.

#[local] Arguments copy_fields : simpl never.
#[local] Arguments copy_entries : simpl never.

(** ** Recording the registers *)

(** [m] after its registers [l] were recorded; [rax] is the one the stub works with. *)
Definition recorded (m : machine) (l : list field) (m' : machine) : Prop :=
  exists v, m' = (set_reg m F_rax v)
    <| host := with_state (host m) (fun s => copy_fields (cpu m) s l) |>.

Lemma run_save_regs l m :
  F_rax ∉ l -> exists m', run (concat (map save_reg l)) m = Some (m', None) /\ recorded m l m'.
Proof.
  intros Hl. apply run_concat.
  - exists (reg m F_rax). by destruct m as [[] ? ? ? [? ? ? [] ? ? ? ?]].
  - intros d f m1 [k Hk] [v ->].
    assert (Hf : f <> F_rax).
    { intros ->. apply Hl. rewrite Hk, <- (assoc_L (++)). apply elem_of_app. right. left. }
    set (m1 := _ <| host := _ |>). unfold save_reg.
    exists ((set_reg m1 F_rax (reg m f))
              <| host := with_state (host m1) (fun s => field_set s f (reg m f)) |>).
    split.
    + assert (E : reg m1 f = reg m f) by (unfold m1, reg; simpl; by destruct f).
      erewrite run_cons by (cbn [step is_selector]; reflexivity).
      erewrite run_cons; [ done | ]. cbn [step]. unfold cell. rewrite store_cell.
      cbn [slot_set fmap option_fmap option_map mbind option_bind]. rewrite E. done.
    + exists (reg m f). unfold m1.
      by rewrite (with_state_ext (host m) _ _ (fun s => copy_fields_snoc (cpu m) s d f)).
Qed.

(** The next index of a prefix of [seq 0 n]. *)
Lemma prefix_seq d i n : d ++ [i] `prefix_of` seq 0 n -> i = length d /\ (i < n)%nat /\ i ∉ d.
Proof.
  intros [k Hk].
  assert (Hi : seq 0 n !! length d = Some i).
  { rewrite Hk, <- (assoc_L (++)). by rewrite lookup_app_r, Nat.sub_diag by lia. }
  apply lookup_seq in Hi as [-> Hlt]. split_and!; [ done | done | ].
  pose proof (NoDup_seq 0 n) as Hn. rewrite Hk in Hn.
  apply NoDup_app in Hn as (Hn & _ & _). apply NoDup_app in Hn as (_ & Hn & _).
  intros Hd. apply (Hn _ Hd). left.
Qed.

Lemma nth_of_lookup (l : list Z) i x : l !! i = Some x -> nth i l 0 = x.
Proof. intros E. by rewrite nth_lookup, E. Qed.

(** ** Recording the vector registers *)

Lemma run_save_ymms m (l : list Z) :
  sse (gstate (host m)) = None -> avx2 (gstate (host m)) = Some l ->
  length l = 16%nat -> length (vec m) = 16%nat ->
  exists v, run (concat (map save_ymm (seq 0 16))) m
    = Some ((set_reg m F_rax v)
              <| host := with_state (host m) (fun s => s <| avx2 := Some (vec m) |>) |>, None).
Proof.
  intros Hs Hl Hn Hv.
  destruct (run_concat save_ymm (fun d m' => exists v, m' = (set_reg m F_rax v)
      <| host := with_state (host m)
           (fun s => s <| avx2 := Some (copy_entries (vec m) l d) |>) |>) (seq 0 16) m)
    as (m' & E & v & ->).
  - exists (reg m F_rax). unfold gstate in Hl.
    destruct m as [[] ? ? ? [? ? ? [? [] ? ? ? ? ? ? ? ? ? ? ? ? ? ?] ? ? ? ?]].
    cbn in Hl. subst. done.
  - intros d i m1 [-> [Hi _]]%prefix_seq [v ->].
    destruct (lookup_lt_is_Some_2 (vec m) (length d)) as [y Hy]; [ lia | ].
    destruct (lookup_lt_is_Some_2 (copy_entries (vec m) l d) (length d)) as [z Hz];
      [ rewrite copy_entries_length; lia | ].
    eexists. split.
    + unfold save_ymm. erewrite run_cons by reflexivity.
      erewrite run_cons; [ done | ]. cbn [step]. cbn. rewrite Hy. cbn.
      change (reg (set_reg _ F_rax ?a) F_rax) with a. rewrite store_cell. cbn. unfold avx2_t.
      by rewrite Hz.
    + exists (addr_of (SYmm (length d))). rewrite copy_entries_snoc, (nth_of_lookup _ _ _ Hy).
      done.
  - exists v. rewrite E. by rewrite copy_entries_all.
Qed.

Lemma with_xmm_low y x : xmm_of (with_xmm y x) = x mod 2 ^ 128.
Proof.
  unfold xmm_of, with_xmm. rewrite Z.add_comm, Z.mod_add by done. by apply Z.mod_mod.
Qed.

(** The state of [m] while the SSE registers are recorded: the first register is the
    scratch register after its own turn. *)
Definition xmms_recorded (m : machine) (l : list Z) (d : list nat) (m' : machine) : Prop :=
  exists v y0, (d = [] -> y0 = nth 0 (vec m) 0) /\
    m' = (set_reg m F_rax v) <| vec := <[0%nat := y0]> (vec m) |>
           <| host := with_state (host m)
                (fun s => s <| sse := Some (copy_entries (xmm_of <$> vec m) l d) |>) |>.

Lemma run_save_xmm m l d i m1 :
  length l = 16%nat -> length (vec m) = 16%nat -> i = length d -> (i < 16)%nat ->
  xmms_recorded m l d m1 ->
  exists m2, run (save_xmm i) m1 = Some (m2, None) /\ xmms_recorded m l (d ++ [i]) m2.
Proof.
  intros Hn Hv Hid Hi (v & y0 & Hy0 & ->).
  destruct (lookup_lt_is_Some_2 (vec m) i) as [y Hy]; [ lia | ].
  destruct (lookup_lt_is_Some_2 (vec m) 0) as [z Hz]; [ lia | ].
  destruct (lookup_lt_is_Some_2 (copy_entries (xmm_of <$> vec m) l d) i) as [w Hw];
    [ rewrite copy_entries_length; lia | ].
  assert (Hx : nth i (xmm_of <$> vec m) 0 = xmm_of y)
    by (apply nth_of_lookup; by rewrite list_lookup_fmap, Hy).
  unfold save_xmm. destruct i as [| i']; eexists; (split; [ erewrite run_cons by reflexivity | ]).
  - simpl app. erewrite run_cons; [ done | ]. cbn [step]. cbn.
    rewrite list_lookup_insert_eq by lia. cbn.
    change (reg (set_reg _ F_rax ?a) F_rax) with a. rewrite store_cell. cbn. unfold sse_t. by rewrite Hw.
  - exists (addr_of (SXmm 0)), y0. split; [ by destruct d | ].
    rewrite copy_entries_snoc, Hx. destruct d; [ | done ].
    rewrite (Hy0 eq_refl), (nth_of_lookup _ _ _ Hz) in *. by simplify_eq.
  - cbn [Nat.eqb app]. erewrite run_cons.
    2: { cbn [step]. cbn. rewrite list_lookup_insert_eq by lia. cbn.
         rewrite list_lookup_insert_ne by done. rewrite Hy. done. }
    erewrite run_cons; [ done | ]. cbn [step]. cbn.
    rewrite list_lookup_insert_eq by (rewrite length_insert; lia). cbn.
    change (reg (set_reg _ F_rax ?a) F_rax) with a. rewrite store_cell. cbn. unfold sse_t. by rewrite Hw.
  - exists (addr_of (SXmm (S i'))), (with_xmm y0 (xmm_of y)).
    split; [ by destruct d | ]. rewrite copy_entries_snoc, Hx, with_xmm_low.
    unfold xmm_of. rewrite Z.mod_mod by done. cbn. by rewrite list_insert_insert_eq.
Qed.

Lemma run_save_xmms m l :
  sse (gstate (host m)) = Some l -> length l = 16%nat -> length (vec m) = 16%nat ->
  exists v ys, run (concat (map save_xmm (seq 0 16))) m
    = Some ((set_reg m F_rax v) <| vec := ys |>
              <| host := with_state (host m)
                   (fun s => s <| sse := Some (xmm_of <$> vec m) |>) |>, None).
Proof.
  intros Hl Hn Hv.
  destruct (run_concat save_xmm (xmms_recorded m l) (seq 0 16) m)
    as (m' & E & v & y0 & _ & ->).
  - destruct (lookup_lt_is_Some_2 (vec m) 0) as [z Hz]; [ lia | ].
    exists (reg m F_rax), z. split; [ by rewrite (nth_of_lookup _ _ _ Hz) | ].
    rewrite list_insert_id by done. unfold gstate in Hl.
    destruct m as [[] ? ? ? [? ? ? [? [] ? ? ? ? ? ? ? ? ? ? ? ? ? ?] ? ? ? ?]].
    cbn in Hl. subst. done.
  - intros d i m1 [Hi [Hlt _]]%prefix_seq Hr. by eapply run_save_xmm.
  - eexists v, _. rewrite E. rewrite copy_entries_all; [ done | | done ].
    by rewrite length_fmap.
Qed.

(** ** Putting the registers back *)

Lemma run_load_regs l m :
  F_rax ∉ l ->
  Forall (fun f => is_selector f = true ->
            0 <= field_get (gstate (host m)) f < 2 ^ 16 /\
            sel_ok f (field_get (gstate (host m)) f) = true) l ->
  exists v, run (concat (map load_reg l)) m
    = Some (set_reg (m <| cpu := copy_fields (gstate (host m)) (cpu m) l |>) F_rax v, None).
Proof.
  intros Hl Hsel.
  destruct (run_concat load_reg (fun d m' => exists v, m' = set_reg
      (m <| cpu := copy_fields (gstate (host m)) (cpu m) d |>) F_rax v) l m)
    as (m' & E & v & ->).
  - exists (reg m F_rax). by destruct m as [[] ? ? ? ?].
  - intros d f m1 [k Hk] [v ->].
    assert (Hin : f ∈ l) by (rewrite Hk, <- (assoc_L (++)); apply elem_of_app; right; left).
    assert (Hf : f <> F_rax) by (intros ->; done).
    rewrite Forall_forall in Hsel. specialize (Hsel f Hin).
    set (w := field_get (gstate (host m)) f) in *.
    set (m1 := m <| cpu := copy_fields (gstate (host m)) (cpu m) d |>).
    exists (set_reg (set_reg m1 F_rax w) f w). split.
    + unfold load_reg, cell. erewrite run_cons.
      2: { cbn [step]. rewrite load_cell. reflexivity. }
      erewrite run_cons; [ done | ]. cbn [step]. cbn. fold w.
      change (reg (set_reg (set_reg m1 F_rax v) F_rax w) F_rax) with w.
      destruct (is_selector f); [ | reflexivity ].
      destruct (Hsel eq_refl) as [Hw Hok].
      assert (Ew : Z.land w 0xffff = w)
        by (rewrite (land_mask 16) by done; apply Z.mod_small; lia).
      rewrite Ew, Hok. reflexivity.
    + exists w. rewrite set_reg_rax_swap by done. unfold m1, set_reg. cbn.
      by rewrite copy_fields_snoc.
  - by exists v.
Qed.

Lemma run_load_ymms m l :
  sse (gstate (host m)) = None -> avx2 (gstate (host m)) = Some l ->
  length l = 16%nat -> length (vec m) = 16%nat ->
  exists v, run (concat (map load_ymm (seq 0 16))) m
    = Some ((set_reg m F_rax v) <| vec := l |>, None).
Proof.
  intros Hs Hl Hn Hv.
  destruct (run_concat load_ymm (fun d m' => exists v, m' = (set_reg m F_rax v)
      <| vec := copy_entries l (vec m) d |>) (seq 0 16) m) as (m' & E & v & ->).
  - exists (reg m F_rax). by destruct m as [[] ? ? ? ?].
  - intros d i m1 [-> [Hi _]]%prefix_seq [v ->].
    destruct (lookup_lt_is_Some_2 l (length d)) as [y Hy]; [ lia | ].
    eexists. split.
    + unfold load_ymm. erewrite run_cons by reflexivity.
      erewrite run_cons; [ done | ]. cbn [step].
      change (reg (set_reg _ F_rax ?a) F_rax) with a. rewrite load_cell. cbn.
      rewrite Hl. cbn. unfold sse_t, avx2_t in *. rewrite Hy. done.
    + exists (addr_of (SYmm (length d))). rewrite copy_entries_snoc, (nth_of_lookup _ _ _ Hy).
      done.
  - exists v. rewrite E. by rewrite copy_entries_all.
Qed.

Lemma run_load_xmms m l :
  sse (gstate (host m)) = Some l -> length l = 16%nat -> length (vec m) = 16%nat ->
  exists v, run (concat (map load_xmm (seq 0 16))) m
    = Some ((set_reg m F_rax v) <| vec := zip_with with_xmm (vec m) l |>, None).
Proof.
  intros Hl Hn Hv.
  destruct (run_concat load_xmm (fun d m' => exists v, m' = (set_reg m F_rax v)
      <| vec := copy_entries (zip_with with_xmm (vec m) l) (vec m) d |>) (seq 0 16) m)
    as (m' & E & v & ->).
  - exists (reg m F_rax). by destruct m as [[] ? ? ? ?].
  - intros d i m1 [Hid [Hi Hd]]%prefix_seq [v ->].
    destruct (lookup_lt_is_Some_2 l i) as [y Hy]; [ lia | ].
    destruct (lookup_lt_is_Some_2 (vec m) i) as [z Hz]; [ lia | ].
    eexists. split.
    + unfold load_xmm. erewrite run_cons by reflexivity.
      erewrite run_cons; [ done | ]. cbn [step]. cbn [vec set_field].
      change (reg (set_reg _ F_rax ?a) F_rax) with a. rewrite load_cell. cbn.
      rewrite copy_entries_lookup, decide_False, (nth_of_lookup _ _ _ Hz) by (done || lia).
      cbn. rewrite Hl. cbn. unfold sse_t, avx2_t in *. rewrite Hy. done.
    + exists (addr_of (SXmm i)). rewrite copy_entries_snoc.
      assert (Ex : zip_with with_xmm (vec m) l !! i = Some (with_xmm z y))
        by (unfold sse_t in *; by rewrite lookup_zip_with, Hz; cbn; rewrite Hy).
      by rewrite (nth_of_lookup _ _ _ Ex).
  - exists v. rewrite E. rewrite copy_entries_all; [ done | | done ].
    rewrite length_zip_with. lia.
Qed.

(** ** The stack instructions *)

Lemma push_ok m hr n k v :
  reg m F_rsp = hr - k -> stack_room (mem (host m)) hr n -> 0 <= k -> k + 8 <= n ->
  exists mm,
    push m v = Some (set_reg (m <| host := (host m) <| mem := mm |> |>) F_rsp (hr - (k + 8))) /\
    load64 mm (hr - (k + 8)) = Some (u64 v) /\ below hr n (mem (host m)) mm /\
    forall ea, 0 <= ea -> ea + 8 <= 2 ^ 64 -> ea + 8 <= hr - (k + 8) \/ hr - k <= ea ->
      load64 mm ea = load64 (mem (host m)) ea.
Proof.
  intros Hsp Hr Hk Hn. pose proof (sr_low _ _ _ Hr). pose proof (sr_high _ _ _ Hr).
  destruct (store_in_room (mem (host m)) hr n (k + 8) v) as (mm & Es & El & Hb & Hf);
    [ done | lia | ].
  exists mm. split_and!; try done.
  - unfold push. rewrite Hsp. replace (hr - k - 8) with (hr - (k + 8)) by lia.
    rewrite u64_small by (unfold is_u64; lia). by rewrite Es.
  - intros ea H1 H2 H3. apply Hf; lia.
Qed.

Lemma pop_ok m v :
  load64 (mem (host m)) (reg m F_rsp) = Some v -> 0 <= reg m F_rsp < 2 ^ 64 - 8 ->
  pop m = Some (v, set_reg m F_rsp (reg m F_rsp + 8)).
Proof.
  intros E Hr. unfold pop. rewrite E. cbn [mbind option_bind]. by rewrite u64_small by (unfold is_u64; lia).
Qed.

(** A push and the pop that takes the word back. *)
Lemma push_pop m hr n v :
  reg m F_rsp = hr -> stack_room (mem (host m)) hr n -> 8 <= n ->
  exists mm m1,
    push m v = Some m1 /\ pop m1 = Some (u64 v, m <| host := (host m) <| mem := mm |> |>) /\
    host m1 = (host m) <| mem := mm |> /\ mxcsr m1 = mxcsr m /\ mxcsr_var m1 = mxcsr_var m /\
    below hr n (mem (host m)) mm.
Proof.
  intros Hsp Hr Hn. pose proof (sr_low _ _ _ Hr). pose proof (sr_high _ _ _ Hr).
  destruct (push_ok m hr n 0 v) as (mm & E & El & Hb & _); [ lia | done | done | lia | ].
  eexists mm, _. split; [ exact E | ]. split_and!; try done. erewrite pop_ok.
  - f_equal. f_equal. change (reg (set_reg _ F_rsp ?a) F_rsp) with a.
    apply set_rsp_back. change (reg (m <| host := _ |>) F_rsp) with (reg m F_rsp). lia.
  - exact El.
  - change (reg (set_reg _ F_rsp ?a) F_rsp) with a. lia.
Qed.

Lemma call_c_ok m hr n target :
  reg m F_rsp = hr -> stack_room (mem (host m)) hr n -> 8 <= n ->
  target = addr_save_mxcsr \/ target = addr_restore_mxcsr ->
  exists mm, below hr n (mem (host m)) mm /\
    call_c m target
    = Some ((if target =? addr_save_mxcsr then save_mxcsr m else restore_mxcsr m)
              <| host := (host m) <| mem := mm |> |>).
Proof.
  intros Hsp Hr Hn Ht.
  destruct (push_ok m hr n 0 call_ra) as (mm & E & El & Hb & _); [ lia | done | done | lia | ].
  pose proof (sr_low _ _ _ Hr). pose proof (sr_high _ _ _ Hr).
  exists mm. split; [ done | ]. unfold call_c. rewrite E. cbn [mbind option_bind].
  assert (Hpop : forall m1, reg m1 F_rsp = hr -> mem (host m1) = mm ->
            pop (set_reg m1 F_rsp (hr - (0 + 8))) = Some (u64 call_ra, m1)).
  { intros m1 H1 H2. erewrite pop_ok.
    - f_equal. f_equal. apply set_rsp_back.
      change (reg (set_reg _ F_rsp ?a) F_rsp) with a. lia.
    - change (mem (host (set_reg m1 F_rsp _))) with (mem (host m1)). by rewrite H2.
    - change (reg (set_reg _ F_rsp ?a) F_rsp) with a. lia. }
  destruct (target =? addr_save_mxcsr) eqn:Et; cbn [mbind option_bind].
  - change (save_mxcsr (set_reg ?x F_rsp ?a)) with (set_reg (save_mxcsr x) F_rsp a).
    by rewrite Hpop.
  - destruct Ht as [-> | ->]; [ by rewrite Z.eqb_refl in Et | ]. rewrite Z.eqb_refl.
    cbn [mbind option_bind].
    change (restore_mxcsr (set_reg ?x F_rsp ?a)) with (set_reg (restore_mxcsr x) F_rsp a).
    by rewrite Hpop.
Qed.

(** ** The dump stub *)

Definition other_regs : list field :=
  [F_rbx; F_rcx; F_rdx; F_rsi; F_rdi; F_rbp; F_es; F_gs; F_fs; F_cs; F_ss; F_ds;
   F_r8; F_r9; F_r10; F_r11; F_r12; F_r13; F_r14; F_r15].

Definition saved_gprs (c s : state_rtime) : state_rtime :=
  copy_fields c
    (field_set (field_set s F_rsp (rsp c)) F_rflags (Z.land (rflags c) FLAGS_PUSHED)) other_regs.

Lemma pushed_flags_u64 v : u64 (Z.land v FLAGS_PUSHED) = Z.land v FLAGS_PUSHED.
Proof.
  apply u64_small. unfold FLAGS_PUSHED.
  replace (Z.land v 0xfcffff) with (Z.land (Z.land v 0xfcffff) (2 ^ 24 - 1)).
  - rewrite land_mask by done. unfold is_u64. pose proof (Z.mod_pos_bound (Z.land v 0xfcffff) (2 ^ 24) eq_refl).
    lia.
  - rewrite <- Z.land_assoc. by f_equal.
Qed.

Lemma run_hook_saves m hr :
  stack_room (mem (host m)) hr 16 ->
  exists v mm, below hr 16 (mem (host m)) mm /\
    run (hook_saves hr) m
    = Some ((set_reg (set_reg m F_rsp hr) F_rax v)
              <| host := (with_state (host m) (saved_gprs (cpu m))) <| mem := mm |> |>, None).
Proof.
  intros Hr. unfold hook_saves, save_reg at 1, cell. cbn [app].
  erewrite run_cons by (cbn [step is_selector]; reflexivity).
  erewrite run_cons by (cbn [step]; rewrite store_cell; reflexivity).
  erewrite run_cons by reflexivity.
  match goal with |- context [run _ ?x] => set (m1 := x) end.
  destruct (push_pop m1 hr 16 (Z.land (reg m1 F_rflags) FLAGS_PUSHED))
    as (mm & m2 & E1 & E2 & _ & _ & _ & Hb); [ done | exact Hr | done | ].
  erewrite run_cons by (cbn [step]; rewrite E1; reflexivity).
  erewrite run_cons by (cbn [step]; rewrite E2; reflexivity).
  erewrite run_cons by (cbn [step]; rewrite store_cell; reflexivity).
  match goal with |- context [run _ ?x] => set (m3 := x) end.
  destruct (run_save_regs other_regs m3) as (m4 & E4 & v & ->).
  { apply (bool_decide_unpack _). by vm_compute. }
  exists v, mm. split; [ exact Hb | ]. etransitivity; [ exact E4 | ].
  erewrite with_state_ext 
    by (intros s; apply (copy_fields_ext (cpu m3) (cpu m)); repeat constructor).
  unfold saved_gprs. generalize (copy_fields (cpu m)). intros K. unfold m3.
  rewrite pushed_flags_u64. reflexivity.
Qed.

(** The vector areas of the state, when there are any, have an entry per register. *)
Definition areas_ok (s : state_rtime) : Prop :=
  (forall l, sse s = Some l -> length l = 16%nat) /\
  (forall l, avx2 s = Some l -> length l = 16%nat).

(** The vector registers [ys] recorded in [s]. *)
Definition record_vec (ys : list Z) (s : state_rtime) : state_rtime :=
  match sse s, avx2 s with
  | Some _, _ => s <| sse := Some (xmm_of <$> ys) |>
  | None, Some _ => s <| avx2 := Some ys |>
  | None, None => s
  end.

Definition uses_avx2 (s : state_rtime) : bool :=
  match sse s, avx2 s with None, Some _ => true | _, _ => false end.

Lemma run_hook_vectors m hr text :
  hook_vectors (gstate (host m)) = Some text -> areas_ok (gstate (host m)) ->
  length (vec m) = 16%nat -> reg m F_rsp = hr -> stack_room (mem (host m)) hr 16 ->
  exists v ys mm, below hr 16 (mem (host m)) mm /\
    run text m
    = Some ((set_reg m F_rax v) <| vec := ys |>
              <| mxcsr_var := if uses_avx2 (gstate (host m)) then u32 (mxcsr m) else mxcsr_var m |>
              <| host := (with_state (host m) (record_vec (vec m))) <| mem := mm |> |>, None).
Proof.
  intros Ht [Hsse Havx] Hv Hsp Hr. unfold hook_vectors in Ht. unfold uses_avx2.
  destruct (sse (gstate (host m))) as [ls |] eqn:Es;
    [ | destruct (avx2 (gstate (host m))) as [la |] eqn:Ea;
        [ | destruct (avx512 (gstate (host m))) ] ];
    try discriminate Ht; injection Ht as <-.
  - destruct (run_save_xmms m ls) as (v & ys & E); [ done | auto | done | ].
    exists v, ys, (mem (host m)). split; [ done | ]. etransitivity; [ exact E | ].
    unfold gstate in Es. destruct m as [? ? ? ? [? ? ? [? [] ? ? ? ? ? ? ? ? ? ? ? ? ? ?] ? ? ? ?]].
    cbn in Es. subst. reflexivity.
  - set (m1 := set_reg m F_rax addr_save_mxcsr).
    destruct (call_c_ok m1 hr 16 addr_save_mxcsr) as (mm & Hb & Ec); try done; [ by left | ].
    cbn [app]. erewrite run_cons by reflexivity. fold m1.
    erewrite run_cons.
    2: { cbn [step]. change (reg m1 F_rax) with addr_save_mxcsr. rewrite Ec. reflexivity. }
    rewrite Z.eqb_refl.
    match goal with |- context [run _ ?x] => set (m2 := x) end.
    destruct (run_save_ymms m2 la) as (v & E); [ done | done | auto | done | ].
    exists v, (vec m), mm. split; [ exact Hb | ]. etransitivity; [ exact E | ].
    unfold gstate in Es, Ea. unfold m2, m1.
    destruct m as [? ? ? ? [? ? ? [? [] ? ? ? ? ? ? ? ? ? ? ? ? ? ?] ? ? ? ?]].
    cbn in Es, Ea. subst. reflexivity.
  - exists (reg m F_rax), (vec m), (mem (host m)). split; [ done | ].
    unfold gstate in Es, Ea.
    destruct m as [[] ? ? ? [? ? ? [? [] ? ? ? ? ? ? ? ? ? ? ? ? ? ?] ? ? ? ?]].
    cbn in Es, Ea. subst. reflexivity.
Qed.

(** The return address 0, the address of the dispatcher, the argument and the jump. *)
Lemma run_hook_enter m hr :
  reg m F_rsp = hr -> stack_room (mem (host m)) hr 16 -> hr < 2 ^ 64 - 8 ->
  exists mm m', run hook_enter m = Some (m', Some addr__dispatcher) /\
    host m' = (with_state (host m) (fun s => s <| rip := curr_hook (dbi (host m)) |>))
                <| mem := mm |> /\
    below hr 16 (mem (host m)) mm /\ load64 mm (hr - 8) = Some 0 /\
    reg m' F_rsp = hr - 8 /\ reg m' F_rdi = addr_s_binary /\ mxcsr_var m' = mxcsr_var m.
Proof.
  intros Hsp Hr Hh. pose proof (sr_low _ _ _ Hr).
  unfold hook_enter. do 2 erewrite run_cons by reflexivity.
  set (m1 := set_reg (set_reg m F_rdi addr_s_binary) F_rax addr__dispatcher).
  destruct (push_ok m1 hr 16 0 0) as (mm1 & E1 & L1 & B1 & _);
    [ change (reg m1 F_rsp) with (reg m F_rsp); lia | exact Hr | done | done | ].
  erewrite run_cons by (cbn [step]; rewrite E1; reflexivity).
  match goal with |- context [run _ ?x] => set (m2 := x) end.
  destruct (push_ok m2 hr 16 8 (reg m2 F_rax)) as (mm2 & E2 & L2 & B2 & F2);
    [ change (hr - (0 + 8) = hr - 8); lia | by eapply below_room | done | done | ].
  erewrite run_cons by (cbn [step]; rewrite E2; reflexivity).
  unfold cell. erewrite run_cons by (cbn [step]; rewrite load_cell; reflexivity).
  erewrite run_cons by (cbn [step]; rewrite store_cell; reflexivity).
  match goal with |- context [run _ ?x] => set (m3 := x) end.
  cbn [run step]. rewrite (pop_ok m3 (u64 addr__dispatcher));
    [ | exact L2 | change (0 <= hr - (8 + 8) < 2 ^ 64 - 8); lia ].
  cbn [mbind option_bind]. rewrite u64_small by apply dispatcher_u64.
  exists mm2, (set_reg m3 F_rsp (reg m3 F_rsp + 8)). split_and!; try done.
  - etransitivity; [ exact B1 | exact B2 ].
  - rewrite F2 by lia. exact L1.
  - change (hr - (8 + 8) + 8 = hr - 8). lia.
Qed.

(** What [state_rtime_t] holds when the dispatcher is entered from the guest [g]. *)
Definition snapshot (g : machine) : state_rtime :=
  let s := gstate (host g) in
  record_vec (vec g)
    ((cpu g) <| rip := curr_hook (dbi (host g)) |>
             <| rflags := Z.land (rflags (cpu g)) FLAGS_PUSHED |>
             <| sse := sse s |> <| avx2 := avx2 s |> <| avx512 := avx512 s |>
             <| null_entry := null_entry s |>).

(** The pieces of the stub put together are the snapshot. *)
Lemma snapshot_pieces c y s r :
  (record_vec y (saved_gprs c (s <| rax := rax c |>))) <| rip := r |>
  = record_vec y (c <| rip := r |> <| rflags := Z.land (rflags c) FLAGS_PUSHED |>
      <| sse := sse s |> <| avx2 := avx2 s |> <| avx512 := avx512 s |>
      <| null_entry := null_entry s |>).
Proof.
  destruct s as [? ? ? ? ? ? ? ? ? ? ? ? ? ? ? ? ? ? ? ? ? ? ? ? [|] [|] ? ?];
    destruct c; reflexivity.
Qed.

Lemma saved_gprs_rax c s v : saved_gprs (field_set c F_rax v) s = saved_gprs c s.
Proof. apply copy_fields_ext. repeat constructor. Qed.

#[local] Opaque saved_gprs record_vec.

(** The effect of a hook on the dispatcher's side: the process at the dispatcher. *)
Lemma dump_stub_run g text :
  craft_hook_text (dbi (host g)) = Some text -> areas_ok (gstate (host g)) ->
  length (vec g) = 16%nat ->
  stack_room (mem (host g)) (host_rsp (dbi (host g))) 16 ->
  host_rsp (dbi (host g)) < 2 ^ 64 - 8 ->
  exists g1 m mm,
    run (dump_hook_text (dump_stub (dbi (host g)))) g
    = Some (g1, Some (dump_stub (dbi (host g)))) /\
    run text g1 = Some (m, Some addr__dispatcher) /\
    host m = (with_state (host g) (fun _ => snapshot g)) <| mem := mm |> /\
    below (host_rsp (dbi (host g))) 16 (mem (host g)) mm /\
    load64 mm (host_rsp (dbi (host g)) - 8) = Some 0 /\
    reg m F_rsp = host_rsp (dbi (host g)) - 8 /\ reg m F_rdi = addr_s_binary /\
    mxcsr_var m = (if uses_avx2 (gstate (host g)) then u32 (mxcsr g) else mxcsr_var g).
Proof.
  intros Ht Ha Hv Hr Hh. set (hr := host_rsp (dbi (host g))) in *.
  unfold craft_hook_text in Ht.
  destruct (hook_vectors (state (dbi (host g)))) as [tv |] eqn:Etv; [ | done ].
  cbn in Ht. injection Ht as <-. fold hr.
  set (g0 := (set_reg g F_rax (dump_stub (dbi (host g))))
               <| host := with_state (host g) (fun s => s <| rax := reg g F_rax |>) |>).
  destruct (run_hook_saves g0 hr Hr) as (v1 & mm1 & B1 & E1).
  assert (Es : forall s, saved_gprs (cpu g0) s = saved_gprs (cpu g) s)
    by (intros s; apply saved_gprs_rax).
  rewrite (with_state_ext (host g0) _ _ Es) in E1. clear Es.
  match type of E1 with _ = Some (?x, _) => set (m1 := x) in E1 end.
  assert (Hvec : hook_vectors (gstate (host m1)) = Some tv).
  { rewrite <- Etv. by destruct g as [? ? ? ? [? ? ? [? [] ? ? ? ? ? ? ? ? ? ? ? ? ? ?] ? ? ? ?]]. }
  destruct (run_hook_vectors m1 hr tv) as (v2 & ys & mm2 & B2 & E2);
    [ done | exact Ha | exact Hv | reflexivity | by eapply below_room | ].
  match type of E2 with _ = Some (?x, _) => set (m2 := x) in E2 end.
  destruct (run_hook_enter m2 hr) as (mm3 & m3 & E3 & H3 & B3 & L3 & Hsp & Hdi & Hm);
    [ reflexivity | eapply below_room; [ exact B2 | by eapply below_room ] | done | ].
  exists g0, m3, mm3. split_and!; try done.
  - unfold dump_hook_text, cell. erewrite run_cons by (cbn [step]; rewrite store_cell; reflexivity).
    erewrite run_cons by reflexivity. reflexivity.
  - exact (eq_trans (run_app _ _ _ _ E1) (eq_trans (run_app _ _ _ _ E2) E3)).
  - rewrite H3.
    assert (Ev : vec m1 = vec g) by done.
    unfold m2. rewrite host_of, curr_hook_frame, collapse, mem_twice, Ev.
    unfold m1. rewrite !host_of, curr_hook_frame, collapse, mem_twice.
    unfold g0. rewrite !host_of, with_state_twice, curr_hook_state, with_state_const.
    unfold snapshot. rewrite <- snapshot_pieces. reflexivity.
  - etransitivity; [ exact B1 | ]. etransitivity; [ exact B2 | exact B3 ].
Qed.

#[local] Transparent saved_gprs record_vec.

(** ** The restore stub *)

Definition back_regs : list field :=
  [F_rbx; F_rcx; F_rdx; F_rdi; F_rsi; F_rbp; F_es; F_ss; F_ds; F_r8; F_r9; F_r10; F_r11;
   F_r12; F_r13; F_r14; F_r15].

(** The selectors of a state can be loaded. *)
Definition selectors_ok (s : state_rtime) : Prop :=
  Forall (fun f => 0 <= field_get s f < 2 ^ 16 /\ sel_ok f (field_get s f) = true)
    [F_es; F_ss; F_ds].

(** The vector registers and the control register after the loads from [s]. *)
Definition vec_back (ys : list Z) (s : state_rtime) : list Z :=
  match sse s, avx2 s with
  | Some l, _ => zip_with with_xmm ys l
  | None, Some l => l
  | None, None => ys
  end.

(** The register file after the stub, [rax] being the scratch register. *)
Definition cpu_back (c s : state_rtime) (v : Z) : state_rtime :=
  (copy_fields s c back_regs)
    <| rflags := load_flags (rflags c) (rflags s) |> <| rsp := rsp s |> <| rax := v |>.

Lemma run_restore_vectors m sp text :
  restore_vectors (gstate (host m)) = Some text -> areas_ok (gstate (host m)) ->
  length (vec m) = 16%nat -> reg m F_rsp = sp -> stack_room (mem (host m)) sp 16 ->
  exists v mm, below sp 16 (mem (host m)) mm /\
    run text m
    = Some ((set_reg m F_rax v) <| vec := vec_back (vec m) (gstate (host m)) |>
              <| mxcsr := if uses_avx2 (gstate (host m)) then u32 (mxcsr_var m) else mxcsr m |>
              <| host := (host m) <| mem := mm |> |>, None).
Proof.
  intros Ht [Hsse Havx] Hv Hsp Hr. unfold restore_vectors in Ht. unfold uses_avx2, vec_back.
  destruct (sse (gstate (host m))) as [ls |] eqn:Es;
    [ | destruct (avx2 (gstate (host m))) as [la |] eqn:Ea;
        [ | destruct (avx512 (gstate (host m))) ] ];
    try discriminate Ht; apply (inj Some) in Ht as <-.
  - destruct (run_load_xmms m ls) as (v & E); [ done | auto | done | ].
    exists v, (mem (host m)). split; [ done | ]. etransitivity; [ exact E | ].
    destruct m as [? ? ? ? []]; reflexivity.
  - destruct (run_load_ymms m la) as (v & E); [ done | done | auto | done | ].
    set (m1 := set_reg ((set_reg m F_rax v) <| vec := la |>) F_rax addr_restore_mxcsr).
    destruct (call_c_ok m1 sp 16 addr_restore_mxcsr) as (mm & Hb & Ec);
      [ exact Hsp | exact Hr | lia | by right | ].
    exists addr_restore_mxcsr, mm. split; [ exact Hb | ].
    etransitivity; [ apply (run_app _ _ _ _ E) | ].
    erewrite run_cons by reflexivity. fold m1. erewrite run_cons.
    2: { cbn [step]. change (reg m1 F_rax) with addr_restore_mxcsr. rewrite Ec. reflexivity. }
    rewrite (proj2 (Z.eqb_neq addr_restore_mxcsr addr_save_mxcsr)) by (by apply not_eq_sym, mxcsr_apart).
    reflexivity.
  - exists (reg m F_rax), (mem (host m)). split; [ done | ].
    destruct m as [[] ? ? ? []]; reflexivity.
Qed.

Lemma run_restore_leave m sp (s := gstate (host m)) :
  reg m F_rsp = sp -> stack_room (mem (host m)) sp 16 -> sp < 2 ^ 64 - 8 ->
  is_u64 (rsp s) -> is_u64 (rflags s) ->
  exists mm, below sp 16 (mem (host m)) mm /\
    run restore_leave m
    = Some (m <| cpu := (cpu m) <| rflags := load_flags (rflags (cpu m)) (rflags s) |>
                          <| rsp := rsp s |> <| rax := rip s |> |>
              <| host := (host m) <| mem := mm |> |>, Some (rip s)).
Proof.
  intros Hsp Hr Hh Hus Huf. pose proof (sr_low _ _ _ Hr). unfold restore_leave, cell.
  erewrite run_cons by (cbn [step]; rewrite load_cell; reflexivity).
  match goal with |- context [run _ ?x] => set (m1 := x) end.
  destruct (push_ok m1 sp 16 0 (reg m1 F_rax)) as (mm1 & E1 & L1 & B1 & _);
    [ change (reg m F_rsp = sp - 0); lia | exact Hr | done | done | ].
  change (reg m1 F_rax) with (rsp s) in *.
  erewrite run_cons by (cbn [step]; change (reg m1 F_rax) with (rsp s); rewrite E1; reflexivity).
  erewrite run_cons by (cbn [step]; rewrite load_cell; reflexivity).
  match goal with |- context [run _ ?x] => set (m2 := x) end.
  destruct (push_ok m2 sp 16 8 (reg m2 F_rax)) as (mm2 & E2 & L2 & B2 & F2);
    [ change (sp - (0 + 8) = sp - 8); lia | by eapply below_room | done | done | ].
  change (reg m2 F_rax) with (rflags s) in *.
  erewrite run_cons by (cbn [step]; change (reg m2 F_rax) with (rflags s); rewrite E2; reflexivity).
  match goal with |- context [run _ ?x] => set (m3 := x) end.
  erewrite run_cons.
  2: { cbn [step]. rewrite (pop_ok m3 (u64 (rflags s)));
         [ reflexivity | exact L2 | change (0 <= sp - (8 + 8) < 2 ^ 64 - 8); lia ]. }
  match goal with |- context [run _ ?x] => set (m4 := x) end.
  assert (H4 : reg m4 F_rsp = sp - 8) by (change (sp - (8 + 8) + 8 = sp - 8); lia).
  erewrite run_cons.
  2: { cbn [step]. rewrite (pop_ok m4 (u64 (rsp s)));
         [ reflexivity | | rewrite H4; lia ].
       rewrite H4. change (load64 mm2 (sp - 8) = Some (u64 (rsp s))).
       rewrite F2 by lia. exact L1. }
  erewrite run_cons by (cbn [step]; rewrite load_cell; reflexivity).
  exists mm2. split; [ etransitivity; [ exact B1 | exact B2 ] | ].
  cbn [run step mbind option_bind]. unfold m4, m3. rewrite !u64_small by done.
  destruct m as [[] ? ? ? [? ? ? [] ? ? ? ?]]; reflexivity.
Qed.

Lemma restore_stub_run h text (s := gstate (host h)) :
  craft_restore_stub_text (dbi (host h)) = Some text -> areas_ok s ->
  length (vec h) = 16%nat -> stack_room (mem (host h)) (reg h F_rsp) 16 ->
  reg h F_rsp < 2 ^ 64 - 8 -> selectors_ok s -> is_u64 (rsp s) -> is_u64 (rflags s) ->
  exists m1 m2 mm,
    run text h = Some (m1, Some (rip s)) /\
    run restore_hook_text m1 = Some (m2, None) /\
    cpu m2 = cpu_back (cpu h) s (rax s) /\ vec m2 = vec_back (vec h) s /\
    mxcsr m2 = (if uses_avx2 s then u32 (mxcsr_var h) else mxcsr h) /\
    host m2 = (host h) <| mem := mm |> /\ below (reg h F_rsp) 16 (mem (host h)) mm.
Proof.
  intros Ht Ha Hv Hr Hh Hsel Hus Huf. unfold craft_restore_stub_text in Ht.
  destruct (restore_vectors (state (dbi (host h)))) as [tv |] eqn:Etv; [ | done ].
  cbn in Ht. injection Ht as <-.
  destruct (run_restore_vectors h (reg h F_rsp) tv) as (v1 & mm1 & B1 & E1); try done.
  match type of E1 with _ = Some (?x, _) => set (h1 := x) in E1 end.
  destruct (run_load_regs back_regs h1) as (v2 & E2).
  { apply (bool_decide_unpack _). by vm_compute. }
  { change (gstate (host h1)) with s. unfold selectors_ok in Hsel.
    apply Forall_cons in Hsel as [S1 [S2 [S3 _]%Forall_cons]%Forall_cons].
    repeat (apply Forall_cons_2;
      [ first [ intros Hx; discriminate Hx | intros _; exact S1 | intros _; exact S2
              | intros _; exact S3 ] | ]). apply Forall_nil_2. }
  change (gstate (host h1)) with s in E2.
  match type of E2 with _ = Some (?x, _) => set (h2 := x) in E2 end.
  destruct (run_restore_leave h2 (reg h F_rsp)) as (mm3 & B3 & E3);
    [ reflexivity | by eapply below_room | done | done | done | ].
  match type of E3 with _ = Some (?x, _) => set (h3 := x) in E3 end.
  exists h3, (set_reg h3 F_rax (rax s)), mm3. split_and!; try done.
  - exact (eq_trans (run_app _ _ _ _ E1) (eq_trans (run_app _ _ _ _ E2) E3)).
  - unfold restore_hook_text, cell.
    erewrite run_cons by (cbn [step]; rewrite load_cell; reflexivity). reflexivity.
  - etransitivity; [ exact B1 | exact B3 ].
Qed.

(** ** Transparency *)

Lemma copy_fields_get c s l f :
  field_get (copy_fields c s l) f = if decide (f ∈ l) then field_get c f else field_get s f.
Proof.
  induction l as [| g l IH] using rev_ind; [ done | ].
  rewrite copy_fields_snoc, field_get_set, IH.
  destruct (decide (g = f)) as [-> | Hne].
  - rewrite decide_True; [ done | ]. apply elem_of_app. right. left.
  - destruct (decide (f ∈ l)) as [Hl | Hl].
    + rewrite decide_True; [ done | ]. apply elem_of_app. by left.
    + rewrite decide_False; [ done | ].
      intros [? | ?%list_elem_of_singleton]%elem_of_app; [ done | congruence ].
Qed.

Lemma cpu_back_get c s f :
  field_get (cpu_back c s (rax s)) f
  = if decide (f = F_rflags) then load_flags (rflags c) (rflags s)
    else if decide (f ∈ F_rax :: F_rsp :: back_regs) then field_get s f else field_get c f.
Proof.
  unfold cpu_back.
  change (field_get (field_set (field_set (field_set (copy_fields s c back_regs) F_rflags
    (load_flags (rflags c) (rflags s))) F_rsp (rsp s)) F_rax (rax s)) f
    = if decide (f = F_rflags) then load_flags (rflags c) (rflags s)
      else if decide (f ∈ F_rax :: F_rsp :: back_regs) then field_get s f else field_get c f).
  rewrite !field_get_set, copy_fields_get. by destruct f.
Qed.

Lemma load_flags_user old v : Z.land (load_flags old v) FLAGS_USER = Z.land v FLAGS_USER.
Proof.
  unfold load_flags. apply Z.bits_inj'. intros i Hi.
  rewrite !Z.land_spec, Z.lor_spec, Z.ldiff_spec, Z.lor_spec, Z.land_spec.
  destruct (Z.testbit FLAGS_USER i); by rewrite ?andb_false_r, ?andb_true_r.
Qed.

Lemma pushed_flags_user v : Z.land (Z.land v FLAGS_PUSHED) FLAGS_USER = Z.land v FLAGS_USER.
Proof. by rewrite <- Z.land_assoc. Qed.

Lemma xmm_of_with_xmms ys xs :
  length ys = length xs -> xmm_of <$> zip_with with_xmm ys (xmm_of <$> xs) = xmm_of <$> xs.
Proof.
  revert ys. induction xs as [| x xs IH]; intros [| y ys] Hl; simplify_eq/=; [ done | ].
  rewrite IH by done. f_equal. rewrite with_xmm_low. unfold xmm_of. by apply Z.mod_mod.
Qed.

Lemma uses_avx2_record ys s : uses_avx2 (record_vec ys s) = uses_avx2 s.
Proof. by destruct s as [? ? ? ? ? ? ? ? ? ? ? ? ? ? ? ? ? ? ? ? ? ? ? ? [|] [|] ? ?]. Qed.

Lemma snapshot_get g f :
  f ∉ [F_rip; F_rflags; F_null_entry] -> field_get (snapshot g) f = reg g f.
Proof.
  intros Hf. unfold snapshot, record_vec. simpl. unfold reg.
  destruct (sse (gstate (host g))), (avx2 (gstate (host g))); destruct f; try reflexivity;
    exfalso; apply Hf; apply (bool_decide_unpack _); by vm_compute.
Qed.

Lemma snapshot_flags g : rflags (snapshot g) = Z.land (rflags (cpu g)) FLAGS_PUSHED.
Proof.
  unfold snapshot, record_vec. simpl.
  by destruct (sse (gstate (host g))), (avx2 (gstate (host g))).
Qed.

Lemma snapshot_areas g : length (vec g) = 16%nat -> areas_ok (gstate (host g)) -> areas_ok (snapshot g).
Proof.
  intros Hv [Hs Ha]. unfold areas_ok, snapshot, record_vec. simpl.
  destruct (sse (gstate (host g))), (avx2 (gstate (host g))); simpl;
    split; intros l' [= <-]; rewrite ?length_fmap; auto.
Qed.

(** Loading the vector registers of a snapshot. *)
Lemma snapshot_vec_back g t ys cx vx cy :
  length ys = length (vec g) -> vx = (if uses_avx2 (gstate (host g)) then u32 (mxcsr g) else cx) ->
  match sse (gstate (host g)), avx2 (gstate (host g)) with
  | Some _, _ => xmm_of <$> vec_back ys ((snapshot g) <| rip := t |>) = xmm_of <$> vec g
  | None, Some _ =>
      vec_back ys ((snapshot g) <| rip := t |>) = vec g /\
      (if uses_avx2 ((snapshot g) <| rip := t |>) then u32 vx else cy) = u32 (mxcsr g)
  | None, None => True
  end.
Proof.
  intros Hl ->. unfold vec_back, uses_avx2, snapshot, record_vec. simpl.
  destruct (sse (gstate (host g))) as [ls |], (avx2 (gstate (host g))) as [la |]; simpl;
    try done; try (by apply xmm_of_with_xmms).
  split; [ done | ]. apply u32_small, u32_range.
Qed.

(** The registers the stubs do not load. *)
Lemma not_back_regs f :
  f ∉ [F_rip; F_rflags; F_null_entry] -> f ∉ F_rax :: F_rsp :: back_regs ->
  f ∈ [F_cs; F_fs; F_gs].
Proof.
  intros Hf Hb. destruct f;
    try (exfalso; apply Hf; apply (bool_decide_unpack _); by vm_compute);
    try (exfalso; apply Hb; apply (bool_decide_unpack _); by vm_compute);
    apply (bool_decide_unpack _); by vm_compute.
Qed.

Lemma areas_ok_rip s t : areas_ok s -> areas_ok (s <| rip := t |>).
Proof. done. Qed.
Lemma rsp_rip s t : rsp (s <| rip := t |>) = rsp s.
Proof. done. Qed.
Lemma field_get_rsp s : field_get s F_rsp = rsp s.
Proof. done. Qed.
Lemma rflags_rip s t : rflags (s <| rip := t |>) = rflags s.
Proof. done. Qed.
Lemma get_rip_ne s t f : f <> F_rip -> field_get (s <| rip := t |>) f = field_get s f.
Proof. by destruct f. Qed.

Lemma selectors_snapshot g t : selectors_ok (cpu g) -> selectors_ok ((snapshot g) <| rip := t |>).
Proof.
  intros [S1 [S2 [S3 _]%Forall_cons]%Forall_cons]%Forall_cons.
  unfold selectors_ok, snapshot, record_vec. simpl.
  destruct (sse (gstate (host g))), (avx2 (gstate (host g)));
    (apply Forall_cons_2; [ exact S1 | apply Forall_cons_2; [ exact S2 |
       apply Forall_cons_2; [ exact S3 | apply Forall_nil_2 ] ] ]).
Qed.

(** The dump hook and its stub enter the dispatcher with the binary object as argument
    and a null return address on the stack of the engine, with the registers of the guest
    recorded in state_rtime_t, the instruction pointer set to the hook, and nothing else of
    the process changed but 16 bytes below the base of that stack. *)
Theorem dump_stub_records (g : machine) (text : list asm)
    (Ht : craft_hook_text (dbi (host g)) = Some text) (Ha : areas_ok (gstate (host g)))
    (Hv : length (vec g) = 16%nat)
    (Hr : stack_room (mem (host g)) (host_rsp (dbi (host g))) 16)
    (Hh : host_rsp (dbi (host g)) < 2 ^ 64 - 8) :
  exists g1 m mm,
    run (dump_hook_text (dump_stub (dbi (host g)))) g
    = Some (g1, Some (dump_stub (dbi (host g)))) /\
    run text g1 = Some (m, Some addr__dispatcher) /\
    host m = (with_state (host g) (fun _ => snapshot g)) <| mem := mm |> /\
    below (host_rsp (dbi (host g))) 16 (mem (host g)) mm /\
    reg m F_rdi = addr_s_binary /\ reg m F_rsp = host_rsp (dbi (host g)) - 8 /\
    load64 mm (reg m F_rsp) = Some 0.
Proof.
  destruct (dump_stub_run g text) as (g1 & m & mm & E1 & E2 & E3 & E4 & E5 & E6 & E7 & _);
    try done.
  exists g1, m, mm. rewrite E6 at 2. by split_and!.
Qed.

(** The restore stub jumps to the recorded instruction pointer and, with the restore
    hook after it, loads every recorded general register, the data selectors, the flags the
    user may change and the vector registers, changing nothing of the process but 16 bytes
    below the stack pointer it starts with. *)
Theorem restore_stub_restores (h : machine) (text : list asm) (s := gstate (host h))
    (Ht : craft_restore_stub_text (dbi (host h)) = Some text) (Ha : areas_ok s)
    (Hv : length (vec h) = 16%nat)
    (Hr : stack_room (mem (host h)) (reg h F_rsp) 16) (Hh : reg h F_rsp < 2 ^ 64 - 8)
    (Hsel : selectors_ok s) (Hus : is_u64 (rsp s)) (Huf : is_u64 (rflags s)) :
  exists m1 m2 mm,
    run text h = Some (m1, Some (rip s)) /\
    run restore_hook_text m1 = Some (m2, None) /\
    (forall f, f ∈ F_rax :: F_rsp :: back_regs -> reg m2 f = field_get s f) /\
    reg m2 F_rflags = load_flags (reg h F_rflags) (rflags s) /\
    vec m2 = vec_back (vec h) s /\
    host m2 = (host h) <| mem := mm |> /\ below (reg h F_rsp) 16 (mem (host h)) mm.
Proof.
  destruct (restore_stub_run h text) as (m1 & m2 & mm & E1 & E2 & E3 & E4 & _ & E6 & E7);
    try done.
  exists m1, m2, mm. split_and!; try done; unfold reg; rewrite E3.
  - intros f Hf. fold s. rewrite cpu_back_get, decide_False; [ by rewrite decide_True | ].
    intros ->. revert Hf. apply (bool_decide_unpack _). by vm_compute.
  - fold s. rewrite cpu_back_get. by rewrite decide_True.
Qed.

(** C16: The stubs are transparent: when the guest runs into the dump hook, the dispatcher
    is entered and changes in the recorded state at most the instruction pointer, which it
    sets to t, then the restore stub goes to t and the restore hook leaves every general
    register, the stack pointer and the data selectors as they were, with the user flags,
    and the vector registers (their SSE halves in SSE mode, all of them and the control word
    in AVX2 mode). *)
Theorem stub_round_trip (g g1 m h : machine) (t : Z) (dump_text restore_text : list asm)
    (Ha : areas_ok (gstate (host g))) (Hv : length (vec g) = 16%nat)
    (Hr : stack_room (mem (host g)) (host_rsp (dbi (host g))) 16)
    (Hh : host_rsp (dbi (host g)) < 2 ^ 64 - 8)
    (Hsp : is_u64 (reg g F_rsp)) (Hsel : selectors_ok (cpu g))
    (Hd : craft_hook_text (dbi (host g)) = Some dump_text)
    (E1 : run (dump_hook_text (dump_stub (dbi (host g)))) g
          = Some (g1, Some (dump_stub (dbi (host g)))))
    (E2 : run dump_text g1 = Some (m, Some addr__dispatcher))
    (Hs : gstate (host h) = (gstate (host m)) <| rip := t |>)
    (Hx : mxcsr_var h = mxcsr_var m)
    (Hseg : forall f, f ∈ [F_cs; F_fs; F_gs] -> reg h f = reg g f)
    (Hvh : length (vec h) = 16%nat)
    (Hrh : stack_room (mem (host h)) (reg h F_rsp) 16) (Hhh : reg h F_rsp < 2 ^ 64 - 8)
    (Hrt : craft_restore_stub_text (dbi (host h)) = Some restore_text) :
  exists m1 m2,
    run restore_text h = Some (m1, Some t) /\ run restore_hook_text m1 = Some (m2, None) /\
    (forall f, f ∉ [F_rip; F_rflags; F_null_entry] -> reg m2 f = reg g f) /\
    Z.land (reg m2 F_rflags) FLAGS_USER = Z.land (reg g F_rflags) FLAGS_USER /\
    match sse (gstate (host g)), avx2 (gstate (host g)) with
    | Some _, _ => xmm_of <$> vec m2 = xmm_of <$> vec g
    | None, Some _ => vec m2 = vec g /\ mxcsr m2 = u32 (mxcsr g)
    | None, None => True
    end.
Proof.
  destruct (dump_stub_run g dump_text) as (g1' & m' & mm & E1' & E2' & Hm & _ & _ & _ & _ & Hmx);
    try done.
  rewrite E1 in E1'. injection E1' as <-. rewrite E2 in E2'. injection E2' as <-.
  assert (Hst : gstate (host h) = (snapshot g) <| rip := t |>) by (by rewrite Hs, Hm).
  assert (Hfl : rflags (snapshot g) = Z.land (reg g F_rflags) FLAGS_PUSHED)
    by apply snapshot_flags.
  destruct (restore_stub_run h restore_text) as (m1 & m2 & mm2 & F1 & F2 & F3 & F4 & F5 & _ & _);
    rewrite ?Hst in *; try done.
  { apply areas_ok_rip. exact (snapshot_areas g Hv Ha). }
  { by apply selectors_snapshot. }
  { rewrite rsp_rip, <- (field_get_rsp (snapshot g)).
    rewrite snapshot_get; [ exact Hsp | ]. apply (bool_decide_unpack _). by vm_compute. }
  { rewrite rflags_rip, Hfl, <- pushed_flags_u64. apply u64_range. }
  exists m1, m2. split_and!; try done.
  - intros f Hf. unfold reg at 1. rewrite F3, cpu_back_get.
    rewrite decide_False by (intros ->; apply Hf; right; left).
    destruct (decide (f ∈ F_rax :: F_rsp :: back_regs)) as [Hin | Hout].
    + rewrite (get_rip_ne (snapshot g)) by (intros ->; apply Hf; left). by apply snapshot_get.
    + apply Hseg. by apply not_back_regs.
  - unfold reg at 1. rewrite F3, cpu_back_get, decide_True by done.
    rewrite rflags_rip, load_flags_user, Hfl. apply pushed_flags_user.
  - rewrite F4, F5. eapply snapshot_vec_back; [ by rewrite Hv | ].
    rewrite Hx. exact Hmx.
Qed.
End Run.
