(* ===== verification/RoundSpec.v ===== *)
(** * A round of the engine

    The parts put together: the guest runs into the dump hook, the stub records its
    registers, the dispatcher emulates the branch and moves the hooks, the restore stub
    resumes the guest.  Seen from the guest, the round is the branch. *)

From S2P Require Import Prelude.
From S2P Require Import Pages.
From S2P Require Import Regs.
From S2P Require Import Process.
From S2P Require Import Syscalls.
From S2P Require Import Memory.
From S2P Require Import MemorySpec.
From S2P Require Import Branch.
From S2P Require Import Target.
From S2P Require Import TargetSpec.
From S2P Require Import Cflow.
From S2P Require Import CflowSpec.
From S2P Require Import Engine.
From S2P Require Import EngineSpec.
From S2P Require Import Stubs.
From S2P Require Import StubsSpec.

(** ** The stack of the engine under the hooks *)

(** The range of [len] bytes at [a] has no byte among the [n] below [sp]. *)
Definition apart (sp n a len : Z) : Prop := a + len <= sp - n \/ sp <= a.

(** [m] with the [n] bytes below [sp] of [mm]. *)
Definition overlay (sp n : Z) (mm m : aspace) : aspace :=
  mk_aspace (prots m)
    (filter (fun x => in_range (sp - n) n x.1 = true) (bytes mm)
     ∪ filter (fun x => in_range (sp - n) n x.1 = false) (bytes m)).

Lemma overlay_byte sp n mm m x :
  byte_at (overlay sp n mm m) x = byte_at (if in_range (sp - n) n x then mm else m) x.
Proof.
  unfold byte_at, overlay. simpl. rewrite lookup_union, !map_lookup_filter.
  destruct (in_range (sp - n) n x) eqn:E, (bytes mm !! x), (bytes m !! x); simpl;
    repeat case_guard; simplify_eq/=; try done; congruence.
Qed.

Lemma overlay_below sp n mm m : below sp n m (overlay sp n mm m).
Proof.
  split; [ done | ]. intros x Hx. rewrite overlay_byte.
  destruct (in_range_spec (sp - n) n x); [ lia | done ].
Qed.

Lemma below_prot sp n m m' x : below sp n m m' -> page_prot m' x = page_prot m x.
Proof. intros [P _]. unfold page_prot. by rewrite P. Qed.

Lemma below_range sp n m m' flag a len :
  below sp n m m' -> range_has flag m a len -> range_has flag m' a len.
Proof. intros [P _] Hr x Hx. rewrite (has_prot_ext m' m) by done. auto. Qed.

Lemma below_bytes sp n m m' a k :
  below sp n m m' -> apart sp n a (Z.of_nat k) -> mem_bytes m' a k = mem_bytes m a k.
Proof. intros [_ B] Ha. apply mem_bytes_ext. intros x Hx. apply B. destruct Ha; lia. Qed.

Lemma below_hook_room `{HK : Kernel} sp n m m' a len :
  below sp n m m' -> hook_room m a len -> hook_room m' a len.
Proof.
  intros B []. split; try done; [ by eapply below_range | ]. by rewrite (below_prot _ _ _ _ _ B).
Qed.

(** Patches commute with a change of the stack away from them. *)
Lemma patched_overlay sp n mm m m1 a l :
  patched m m1 a l -> apart sp n a (Z.of_nat (length l)) ->
  patched (overlay sp n mm m) (overlay sp n mm m1) a l.
Proof.
  intros [B P] Ha. split; [ | exact P ]. intros x. rewrite !overlay_byte.
  destruct (in_range_spec (sp - n) n x), (in_range_spec a (Z.of_nat (length l)) x) as [Hx | Hx];
    rewrite ?B; try (destruct Ha; lia); try done.
  - by destruct (in_range_spec a (Z.of_nat (length l)) x).
  - by destruct (in_range_spec a (Z.of_nat (length l)) x).
Qed.

Lemma patched_below sp n mm m1 m2 a l :
  patched m1 m2 a l -> below sp n m2 mm -> apart sp n a (Z.of_nat (length l)) ->
  patched (overlay sp n mm m1) mm a l.
Proof.
  intros [B P] [Bp Bb] Ha. split.
  - intros x. rewrite overlay_byte.
    destruct (in_range_spec (sp - n) n x), (in_range_spec a (Z.of_nat (length l)) x) as [Hx | Hx];
      try (destruct Ha; lia); try done; rewrite Bb, B by lia;
      by destruct (in_range_spec a (Z.of_nat (length l)) x).
  - intros x. specialize (P x). unfold page_prot in *. simpl. by rewrite Bp.
Qed.

(** The hooks stay in place when the stub uses the stack of the engine. *)
Lemma instrumented_below `{HK : Kernel} sp n m0 mm p :
  instrumented m0 p -> below sp n (mem p) mm ->
  apart sp n (jmp (dump (dbi p))) (hlength (dump (dbi p))) ->
  apart sp n (jmp (restore (dbi p))) (hlength (restore (dbi p))) ->
  instrumented (overlay sp n mm m0) (p <| mem := mm |>).
Proof.
  intros [Hd Hr Hu Hl Ho [Sd Sr] (m1 & P1 & P2) [Rd Rr] [Wd Wr] Hc Hf] B Ad Ar.
  pose proof (hook_bytes_length _ Hd) as Hbd. pose proof (hook_bytes_length _ Hr) as Hbr.
  split; simpl; try done.
  - rewrite !(below_bytes sp n m0 (overlay sp n mm m0)); [ done | .. ];
      try apply overlay_below; by rewrite ?Hbd, ?Hbr.
  - exists (overlay sp n mm m1). split.
    + apply patched_overlay; [ done | by rewrite Hbd ].
    + eapply patched_below; [ done | done | by rewrite Hbr ].
  - split; (eapply below_hook_room; [ apply overlay_below | done ]).
  - split; by eapply below_range.
Qed.

Section Round.
Context `{HK : Kernel} `{HE : RegEnum} `{HD : Disassembler} `{HO : !DisassemblerOk}.
Context `{HY : Layout} `{HL : !LayoutOk} `{HS : Selectors}.

(** ** The end of a round *)

(** What the compiled code of [_dispatcher] keeps of the machine [m] that entered it from the
    guest [g]: the process is [p'], the segment selectors and the global [mxcsr] are not
    touched, and there is room on the stack. *)
Record returned (g m h : machine) (p' : proc) : Prop := {
  rt_host : host h = p';
  rt_mxcsr : mxcsr_var h = mxcsr_var m;
  rt_segs f : f ∈ [F_cs; F_fs; F_gs] -> reg h f = reg g f;
  rt_vec : length (vec h) = 16%nat;
  rt_room : stack_room (mem p') (reg h F_rsp) 16;
  rt_high : reg h F_rsp < 2 ^ 64 - 8
}.

(** The guest [g'] has the registers of the state [s], the flags the user may change and the
    vector registers of [g] (their SSE halves in SSE mode, all of them and the control word
    in AVX2 mode). *)
Record continues (g : machine) (s : state_rtime) (g' : machine) : Prop := {
  cn_regs f : f ∉ [F_rip; F_rflags; F_null_entry] -> reg g' f = field_get s f;
  cn_flags : Z.land (reg g' F_rflags) FLAGS_USER = Z.land (reg g F_rflags) FLAGS_USER;
  cn_vec : match sse (gstate (host g)), avx2 (gstate (host g)) with
           | Some _, _ => xmm_of <$> vec g' = xmm_of <$> vec g
           | None, Some _ => vec g' = vec g /\ mxcsr g' = u32 (mxcsr g)
           | None, None => True
           end
}.

(** A branch changes at most the stack pointer of the registers. *)
Lemma x86_branch_state k insn b s m t s' m' :
  x86_branch k insn b s m = Some (t, s', m') -> is_u64 (rsp s) ->
  exists v, is_u64 v /\ s' = s <| rsp := v |>.
Proof.
  intros E Hs. assert (Hid : s = s <| rsp := rsp s |>) by (by destruct s).
  unfold x86_branch in E. destruct (near_branch k insn); [ | done ]. destruct k; simpl in E.
  - exists (rsp s). split; [ done | ]. rewrite <- Hid.
    destruct (jcc_cond _ _) as [[] |]; simpl in E; [ | by simplify_eq | done ].
    destruct (operand_value _ _ _ _ _); by simplify_eq/=.
  - destruct (operand_value _ _ _ _ _), (store64 _ _ _); simplify_eq/=.
    eexists. split; [ apply u64_range | reflexivity ].
  - destruct (load64 _ _); simplify_eq/=. eexists. split; [ apply u64_range | reflexivity ].
  - done.
Qed.

(** The state [s] of the guest with another stack pointer and another result register: all
    that an emulated instruction changes. *)
Definition moved (s : state_rtime) (v x : Z) : state_rtime := s <| rsp := v |> <| rax := x |>.

Lemma moved_rax s v : moved s v (rax s) = s <| rsp := v |>.
Proof. by destruct s. Qed.

Lemma moved_rsp s x : moved s (rsp s) x = s <| rax := x |>.
Proof. by destruct s. Qed.

Lemma restore_text_snapshot (g : machine) (d : dbi_instr) (v x e : Z) :
  state d = (moved (snapshot g) v x) <| rip := e |> ->
  craft_restore_stub_text d = craft_restore_stub_text (dbi (host g)).
Proof.
  intros E. unfold craft_restore_stub_text. rewrite E.
  unfold moved, restore_vectors, snapshot, record_vec, gstate. simpl.
  by destruct (sse (state (dbi (host g)))), (avx2 (state (dbi (host g)))).
Qed.

(** What the restore stub reads does not depend on the stack and instruction pointers. *)
Lemma selectors_moved s t v x e :
  selectors_ok (s <| rip := t |>) -> selectors_ok ((moved s v x) <| rip := e |>).
Proof.
  intros [S1 [S2 [S3 _]%Forall_cons]%Forall_cons]%Forall_cons.
  apply Forall_cons_2; [ exact S1 | apply Forall_cons_2; [ exact S2 |
    apply Forall_cons_2; [ exact S3 | apply Forall_nil_2 ] ] ].
Qed.

Lemma areas_moved s v x e : areas_ok s -> areas_ok ((moved s v x) <| rip := e |>).
Proof. done. Qed.

Lemma rflags_moved s v x e : rflags ((moved s v x) <| rip := e |>) = rflags s.
Proof. done. Qed.

Lemma vec_back_moved ys s t v x e :
  vec_back ys ((moved s v x) <| rip := e |>) = vec_back ys (s <| rip := t |>) /\
  uses_avx2 ((moved s v x) <| rip := e |>) = uses_avx2 (s <| rip := t |>).
Proof. done. Qed.

Lemma get_moved_ne s v x f :
  f <> F_rsp -> f <> F_rax -> field_get (moved s v x) f = field_get s f.
Proof. by destruct f. Qed.

#[local] Opaque snapshot.

(** [continue_exec], the restore stub and the restore hook. *)
Lemma resume_moved (g m h : machine) (p' : proc) (v x e : Z) (text : list asm) :
  areas_ok (gstate (host g)) -> length (vec g) = 16%nat -> selectors_ok (cpu g) ->
  mxcsr_var m = (if uses_avx2 (gstate (host g)) then u32 (mxcsr g) else mxcsr_var g) ->
  craft_restore_stub_text (dbi (host g)) = Some text ->
  gstate p' = (moved (snapshot g) v x) <| rip := e |> -> is_u64 v ->
  returned g m h p' ->
  exists h1 g1 g' mm,
    run (continue_exec_text (restore_stub (dbi p'))) h = Some (h1, Some (restore_stub (dbi p'))) /\
    run text h1 = Some (g1, Some e) /\ run restore_hook_text g1 = Some (g', None) /\
    continues g (moved (snapshot g) v x) g' /\
    host g' = p' <| mem := mm |> /\ below (reg h F_rsp) 16 (mem p') mm.
Proof.
  intros Ha Hv Hsel Hmx Ht Hst Hvu [Hh Hmh Hseg _ Hr Hhi].
  set (h1 := set_reg (h <| vec := replicate 16 0 |>) F_rax (restore_stub (dbi p'))).
  assert (Hst1 : gstate (host h1) = (moved (snapshot g) v x) <| rip := e |>)
    by (by rewrite <- Hst, <- Hh).
  assert (Hfl : rflags (snapshot g) = Z.land (reg g F_rflags) FLAGS_PUSHED)
    by apply snapshot_flags.
  destruct (restore_stub_run h1 text) as (g1 & g' & mm & E1 & E2 & E3 & E4 & E5 & E6 & E7);
    rewrite ?Hst1; try done.
  { by rewrite (restore_text_snapshot g _ v x e). }
  { by apply areas_moved, snapshot_areas. }
  { by rewrite <- Hh in Hr. }
  { by eapply selectors_moved, (selectors_snapshot g e). }
  { rewrite rflags_moved, Hfl, <- pushed_flags_u64. apply u64_range. }
  rewrite Hst1 in E1, E3, E4, E5. change (host h1) with (host h) in E6, E7. rewrite Hh in E6, E7.
  exists h1, g1, g', mm. split_and!; try done. split.
  - intros f Hf. unfold reg at 1. rewrite E3, cpu_back_get.
    rewrite decide_False by (intros ->; apply Hf; right; left).
    destruct (decide (f ∈ F_rax :: F_rsp :: back_regs)) as [Hin | Hout].
    + apply get_rip_ne. intros ->. apply Hf. left.
    + assert (Hsg : f ∈ [F_cs; F_fs; F_gs]) by (by apply not_back_regs).
      change (cpu h1) with (field_set (cpu h) F_rax (restore_stub (dbi p'))).
      rewrite field_get_set, decide_False by (intros <-; apply Hout; left).
      change (field_get (cpu h) f) with (reg h f). rewrite Hseg by done.
      rewrite get_moved_ne by (intros ->; apply Hout; solve [ right; left | left ]). by rewrite <- snapshot_get.
  - unfold reg at 1. rewrite E3, cpu_back_get, decide_True by done.
    rewrite rflags_moved, load_flags_user, Hfl. apply pushed_flags_user.
  - destruct (vec_back_moved (vec h1) (snapshot g) e v x e) as [Ev Eu].
    rewrite E4, E5, Ev, Eu. eapply (snapshot_vec_back g e); [ by rewrite Hv | ].
    change (mxcsr_var h1) with (mxcsr_var h). by rewrite Hmh.
Qed.

Lemma resume_run (g m h : machine) (p' : proc) (v e : Z) (text : list asm) :
  areas_ok (gstate (host g)) -> length (vec g) = 16%nat -> selectors_ok (cpu g) ->
  mxcsr_var m = (if uses_avx2 (gstate (host g)) then u32 (mxcsr g) else mxcsr_var g) ->
  craft_restore_stub_text (dbi (host g)) = Some text ->
  gstate p' = ((snapshot g) <| rsp := v |>) <| rip := e |> -> is_u64 v ->
  returned g m h p' ->
  exists h1 g1 g' mm,
    run (continue_exec_text (restore_stub (dbi p'))) h = Some (h1, Some (restore_stub (dbi p'))) /\
    run text h1 = Some (g1, Some e) /\ run restore_hook_text g1 = Some (g', None) /\
    continues g ((snapshot g) <| rsp := v |>) g' /\
    host g' = p' <| mem := mm |> /\ below (reg h F_rsp) 16 (mem p') mm.
Proof. rewrite <- (moved_rax (snapshot g) v). apply resume_moved. Qed.

(** ** The round *)

Lemma snapshot_rip g : rip (snapshot g) = curr_hook (dbi (host g)).
Proof.
  Transparent snapshot. unfold snapshot, record_vec. simpl.
  by destruct (sse (gstate (host g))), (avx2 (gstate (host g))).
Qed.
#[local] Opaque snapshot.

Lemma snapshot_rsp g : rsp (snapshot g) = reg g F_rsp.
Proof.
  rewrite <- (field_get_rsp (snapshot g)). apply snapshot_get.
  apply (bool_decide_unpack _). by vm_compute.
Qed.

(** The guest [g], whose program has the memory [m0], has run into the dump hook, which covers
    the instruction [insn]. *)
Record at_hook (m0 : aspace) (g : machine) (insn : cs_insn) : Prop := {
  ah_hooks : instrumented m0 (host g);
  ah_host : host_bases_ok (host g);
  ah_guest : k_base_ok (cpu_fs (host g)) = true /\ k_base_ok (cpu_gs (host g)) = true;
  ah_callback : take_callback (dbi (host g)) = true;
  ah_table : hashmap_ok (table (dbi (host g)));
  ah_areas : areas_ok (gstate (host g));
  ah_vec : length (vec g) = 16%nat;
  ah_room : stack_room (mem (host g)) (host_rsp (dbi (host g))) 16;
  ah_high : host_rsp (dbi (host g)) < 2 ^ 64 - 8;
  ah_apart : apart (host_rsp (dbi (host g))) 16
               (jmp (dump (dbi (host g)))) (hlength (dump (dbi (host g)))) /\
             apart (host_rsp (dbi (host g))) 16
               (jmp (restore (dbi (host g)))) (hlength (restore (dbi (host g)))) /\
             apart (host_rsp (dbi (host g))) 16 (jmp (dump (dbi (host g)))) 16;
  ah_rsp : is_u64 (reg g F_rsp);
  ah_selectors : selectors_ok (cpu g);
  ah_addr : jmp (dump (dbi (host g))) + INSTRUCTION_MAX_SZ < 2 ^ 64;
  ah_read : range_has PROT_READ m0 (jmp (dump (dbi (host g)))) INSTRUCTION_MAX_SZ;
  ah_allowed : rwx_allowed (jmp (dump (dbi (host g)))) INSTRUCTION_MAX_SZ;
  ah_insn : cs_decode (mem_bytes m0 (jmp (dump (dbi (host g)))) 16) 0 = Some insn
}.

(** It covers a branch of kind [k] on which the emulation follows the processor. *)
Record at_branch (m0 : aspace) (g : machine) (k : branch_kind) (insn : cs_insn) : Prop := {
  ab_hook : at_hook m0 g insn;
  ab_kind : branch_of (groups insn) = Some k;
  ab_plain : plain_branch k insn (snapshot g) = true
}.

(** The process in which the dispatcher of the guest [g] has evaluated the instruction, which
    leaves the registers [s'], the memory [m'], the system calls [tr], the segment bases [b]
    and the break [k]. *)
Record branched (g : machine) (q : proc) (s' : state_rtime) (m' : aspace)
    (tr : list sysevent) (b : Z * Z) (k : Z) : Prop := {
  br_state : gstate q = s';
  br_mem : mem q = m';
  br_flag : curr_syscall q = false;
  br_engine : engine_of q = engine_of (host g);
  br_bases : (instrumented_fs (dbi q), instrumented_gs (dbi q)) = b;
  br_hooks : dump (dbi q) = dump (dbi (host g)) /\ restore (dbi q) = restore (dbi (host g));
  br_trace : trace q = tr;
  br_count : bbl_count q = s32 (bbl_count (host g) + 1);
  br_brk : vbrk (dbi q) = k
}.

(** The segment bases in force of a guest, and its break. *)
Definition bases_of (g : machine) : Z * Z := (cpu_fs (host g), cpu_gs (host g)).
Definition brk_of (g : machine) : Z := vbrk (dbi (host g)).

(** From the dump hook to the evaluation of the instruction under it. *)
Lemma round_evaluates fuel m0 g insn dump_text :
  at_hook m0 g insn -> craft_hook_text (dbi (host g)) = Some dump_text ->
  exists g1 m mb mg,
    run (dump_hook_text (dump_stub (dbi (host g)))) g
    = Some (g1, Some (dump_stub (dbi (host g)))) /\
    run dump_text g1 = Some (m, Some addr__dispatcher) /\
    mxcsr_var m = (if uses_avx2 (gstate (host g)) then u32 (mxcsr g) else mxcsr_var g) /\
    below (host_rsp (dbi (host g))) 16 m0 mb /\ rwx_grow mb mg /\
    exists q0 qe, _dispatcher test fuel (host m) = dispatch_tail fuel q0 /\
      eval_target (curr_hook (dbi q0)) q0 = __eval_target insn (jmp (dump (dbi (host g)))) qe /\
      branched g qe (snapshot g) mg (trace (host g)) (bases_of g) (brk_of g) /\
      rip (snapshot g) = jmp (dump (dbi (host g))) /\ is_u64 (jmp (dump (dbi (host g)))).
Proof.
  intros [Hi Hh _ Hcb Htab Har Hv Hr Hhi (Ad & Arr & Ai) Hsp _ Ha Hrd Hal Hin] Ht.
  destruct (dump_stub_run g dump_text) as (g1 & m & mm & E1 & E2 & Hm & B & _ & _ & _ & Hmx);
    try done.
  set (hr := host_rsp (dbi (host g))) in *. set (a := jmp (dump (dbi (host g)))) in *.
  set (mb := overlay hr 16 mm m0).
  assert (Bb : below hr 16 m0 mb) by apply overlay_below.
  assert (Hib : instrumented mb (host m)).
  { rewrite Hm. apply instrumented_below; try done. by apply instrumented_state. }
  destruct (dispatcher_enters fuel mb (host m)) as (m4 & Ed & G4); [ done | by rewrite Hm .. | ].
  set (q0 := entered (host m) m4) in *.
  assert (Hc : curr_hook (dbi q0) = a) by (unfold q0; simpl; rewrite Hm; apply Hi).
  destruct (eval_target_run a q0) as (m5 & G5 & E5); try done.
  { apply (in_room _ _ Hi). }
  { eapply range_has_grow; [ exact G4 | auto with dry | ]. by eapply below_range. }
  simpl mem in E5, G5.
  rewrite (mem_bytes_ext m4 mb), (below_bytes hr 16 m0 mb), Hin in E5
    by (done || (intros; apply G4)).
  assert (H0 : 0 <= a) by apply (in_room _ _ Hi).
  exists g1, m, mb, m5. split_and!; try done; [ by etrans | ]. rewrite <- Hc in E5 at 1.
  do 2 eexists. split_and!; [ exact Ed | exact E5 | .. ].
  - unfold q0. split; simpl; rewrite ?Hm; try done. apply Hi.
  - rewrite snapshot_rip. apply Hi.
  - unfold is_u64, INSTRUCTION_MAX_SZ in *. lia.
Qed.

(** From the dump hook to the evaluation of the branch. *)
Lemma round_enters fuel m0 g k insn dump_text :
  at_branch m0 g k insn -> craft_hook_text (dbi (host g)) = Some dump_text ->
  exists g1 m mb mg,
    run (dump_hook_text (dump_stub (dbi (host g)))) g
    = Some (g1, Some (dump_stub (dbi (host g)))) /\
    run dump_text g1 = Some (m, Some addr__dispatcher) /\
    mxcsr_var m = (if uses_avx2 (gstate (host g)) then u32 (mxcsr g) else mxcsr_var g) /\
    below (host_rsp (dbi (host g))) 16 m0 mb /\ rwx_grow mb mg /\
    exists q0, _dispatcher test fuel (host m) = dispatch_tail fuel q0 /\
      match x86_branch k insn (bases_of g) (snapshot g) mg with
      | Some (t, s', m') => exists q, eval_target (curr_hook (dbi q0)) q0 = Ret t q /\
                                      branched g q s' m' (trace (host g)) (bases_of g) (brk_of g)
      | None => exists q, eval_target (curr_hook (dbi q0)) q0 = Crashed q
      end.
Proof.
  intros [Hg Hk Hp] Ht.
  destruct (round_evaluates fuel m0 g insn dump_text Hg Ht)
    as (g1 & m & mb & mg & E1 & E2 & Hmx & B & G & q0 & qe & Ed & E5 & Hqe & Hrip & Ha).
  exists g1, m, mb, mg. split_and!; try done. exists q0. split; [ exact Ed | ].
  destruct Hqe as [Hst Hm Hfl Hen Hbs Hho Htr Hco Hbk]. pose proof Hen as Hen'.
  unfold engine_of in Hen'. injection Hen' as _ _ _ _ _ _ Htab _ _ _.
  pose proof (branch_run k insn (bases_of g) qe) as Hb. rewrite Hst, Hrip, Hm, Htab in Hb.
  specialize (Hb (ah_table _ _ _ Hg) Ha). rewrite snapshot_rsp in Hb.
  specialize (Hb (ah_rsp _ _ _ Hg) Hk Hp). rewrite E5.
  destruct (x86_branch k insn (bases_of g) (snapshot g) mg) as [[[t s'] m'] |]; [ | exact Hb ].
  eexists. split; [ exact Hb | ]. by split.
Qed.

Lemma dispatch_tail_crash fuel q0 q :
  eval_target (curr_hook (dbi q0)) q0 = Crashed q -> dispatch_tail fuel q0 = Crashed q.
Proof.
  intros E. unfold dispatch_tail, _get_bbl_base, br_emulation, get, mbind, M_bind.
  by rewrite E.
Qed.

Lemma can_instrument_branched fuel g q s' m' tr b k t d :
  branched g q s' m' tr b k -> curr_syscall (host g) = false ->
  can_instrument fuel ((host g) <| mem := m' |>) t d -> can_instrument fuel q t d.
Proof.
  intros [_ Em Ef _ _ [Ed Er] _ _ _] Hf []. simpl in *. rewrite Hf in *.
  split; rewrite ?Em, ?Ef, ?Ed, ?Er; done.
Qed.

(** The dispatcher from the evaluated branch on. *)
Lemma round_moves fuel g q0 q t s' m' tr b k d :
  eval_target (curr_hook (dbi q0)) q0 = Ret t q -> branched g q s' m' tr b k -> t <> minus1 ->
  curr_syscall (host g) = false -> to_unmap (dump (dbi (host g))) = 0 ->
  to_unmap (restore (dbi (host g))) = 0 ->
  k_base_ok b.1 = true /\ k_base_ok b.2 = true ->
  can_instrument fuel ((host g) <| mem := m' |>) t d ->
  exists p', dispatch_tail fuel q0 = Ret () p' /\ instrumented m' p' /\
    jmp (dump (dbi p')) = t + d /\
    jmp (restore (dbi p')) = t - hlength (restore (dbi (host g))) /\
    gstate p' = s' <| rip := jmp (restore (dbi p')) |> /\
    cpu_fs p' = b.1 /\ cpu_gs p' = b.2 /\
    trace p' = tr /\ engine_of p' = engine_of (host g) /\
    bbl_count p' = s32 (bbl_count (host g) + 1) /\ vbrk (dbi p') = k.
Proof.
  intros E Hq Hne Hf Hu1 Hu2 [Hgf Hgg] Hci.
  pose proof (can_instrument_branched _ _ _ _ _ _ _ _ _ _ Hq Hf Hci) as Hci'.
  destruct Hq as [Es Em _ Ee Ebs [Ed Er] Et Eb Ek]. subst b. simpl in Hgf, Hgg.
  destruct (dispatch_tail_run fuel q0 q t d) as (p' & E' & [Rh Rs Rj [Rf Rg] [Rb Rt] Rk] & Hj & Hen);
    rewrite ?Ed, ?Er; try done.
  exists p'. split_and!; rewrite ?Rs, ?Rj, ?Rf, ?Rg, ?Rt, ?Rb, ?Rk, ?Hen, ?Er; try done; by rewrite <- ?Em, ?Es.
Qed.

(** C5: One round of the engine is one branch of the guest, for the near jumps, calls and
    returns on which the emulation follows the processor (plain_branch: not a jump whose
    condition the engine does not know, a return with an immediate, a call whose operand is
    the stack pointer or overlaps what the call pushes, nor a taken branch through a
    register the engine does not track or through a memory operand without a base, with
    32-bit registers, with a register that holds the error value -1 or with an fs or gs
    override). When the guest runs into the dump hook that covers such a branch, the hook
    and its stub enter the dispatcher; the memory in which the branch is evaluated differs
    from that of the guest at most in 16 bytes of the stack of the engine; where a load or
    store of the branch faults, the dispatcher crashes, and where the processor goes to t,
    with the block at t fit to be instrumented, the dispatcher returns with the hooks of
    that block over the memory the branch leaves, and the way back (continue_exec, the
    restore stub and the restore hook in front of t) gives the guest the registers the
    branch leaves, its user flags and its vector registers. *)
Theorem engine_round (fuel : nat) (m0 : aspace) (g : machine) (k : branch_kind) (insn : cs_insn)
    (dump_text restore_text : list asm)
    (Hg : at_branch m0 g k insn)
    (Hd : craft_hook_text (dbi (host g)) = Some dump_text)
    (Hr : craft_restore_stub_text (dbi (host g)) = Some restore_text) :
  exists g1 m mb mg,
    run (dump_hook_text (dump_stub (dbi (host g)))) g
    = Some (g1, Some (dump_stub (dbi (host g)))) /\
    run dump_text g1 = Some (m, Some addr__dispatcher) /\
    below (host_rsp (dbi (host g))) 16 m0 mb /\ rwx_grow mb mg /\
    match x86_branch k insn (bases_of g) (snapshot g) mg with
    | None => exists q, _dispatcher test fuel (host m) = Crashed q
    | Some (t, s', m') =>
        forall d, t <> minus1 -> can_instrument fuel ((host g) <| mem := m' |>) t d ->
        exists p', _dispatcher test fuel (host m) = Ret () p' /\ instrumented m' p' /\
          jmp (dump (dbi p')) = t + d /\
          jmp (restore (dbi p')) = t - hlength (restore (dbi (host g))) /\
          cpu_fs p' = cpu_fs (host g) /\ cpu_gs p' = cpu_gs (host g) /\
          forall h, returned g m h p' ->
          exists h1 g2 g' mm,
            run (continue_exec_text (restore_stub (dbi p'))) h
            = Some (h1, Some (restore_stub (dbi p'))) /\
            run restore_text h1 = Some (g2, Some (jmp (restore (dbi p')))) /\
            run restore_hook_text g2 = Some (g', None) /\ continues g s' g' /\
            host g' = p' <| mem := mm |> /\ below (reg h F_rsp) 16 (mem p') mm
    end.
Proof.
  destruct (round_enters fuel m0 g k insn dump_text Hg Hd)
    as (g1 & m & mb & mg & E1 & E2 & Hmx & B & G & q0 & Ed & Hb).
  exists g1, m, mb, mg. split_and!; try done. rewrite Ed. destruct (ab_hook _ _ _ _ Hg).
  destruct (x86_branch k insn (bases_of g) (snapshot g) mg) as [[[t s'] m'] |] eqn:Ex.
  2: { destruct Hb as (q & E). exists q. by apply dispatch_tail_crash. }
  destruct Hb as (q & E & Hq). intros d Hne Hci.
  destruct (round_moves fuel g q0 q t s' m' (trace (host g)) (bases_of g) (brk_of g) d)
    as (p' & Ep & Hi & Hjd & Hjr & Hst & Hf & Hgs & _); try done; try apply ah_hooks0.
  exists p'. split_and!; try done. intros h Hret.
  destruct (x86_branch_state _ _ _ _ _ _ _ _ Ex) as (v & Hv & ->); [ by rewrite snapshot_rsp | ].
  eapply resume_run; try done.
Qed.
End Round.
