(* ===== verification/SysRoundSpec.v ===== *)
(** * A round that ends in a system call

    When the block ends in a system call that the engine forwards, the round is the call: it
    reaches the kernel once, with the registers and the segment bases of the guest, and the
    guest goes on behind it with the result in [rax]. *)

From S2P Require Import Prelude.
From S2P Require Import Pages.
From S2P Require Import Regs.
From S2P Require Import Process.
From S2P Require Import Syscalls.
From S2P Require Import SyscallsSpec.
From S2P Require Import Memory.
From S2P Require Import MemorySpec.
From S2P Require Import Branch.
From S2P Require Import Target.
From S2P Require Import TargetSpec.
From S2P Require Import Cflow.
From S2P Require Import CflowSpec.
From S2P Require Import Engine.
From S2P Require Import EngineSpec.
From S2P Require Import Stubs.
From S2P Require Import StubsSpec.
From S2P Require Import RoundSpec.

Section SysRound.
Context `{HK : Kernel} `{HE : RegEnum} `{HD : Disassembler} `{HO : !DisassemblerOk}.
Context `{HY : Layout} `{HL : !LayoutOk} `{HS : Selectors}.

Lemma row_snapshot r g :
  r ∈ forward_rows ->
  row_args r (snapshot g) = row_args r (cpu g) /\ row_strings r (snapshot g) = row_strings r (cpu g).
Proof. intros Hr. apply row_same; [ done | ]. intros f Hf. by apply snapshot_get. Qed.

Lemma field_get_rax s : field_get s F_rax = rax s.
Proof. done. Qed.

Lemma snapshot_rax g : rax (snapshot g) = reg g F_rax.
Proof.
  rewrite <- (field_get_rax (snapshot g)). apply snapshot_get. apply (bool_decide_unpack _). by vm_compute.
Qed.

#[local] Opaque snapshot.

(** The process after the call [ev] answered with [raw] and the memory [m]. *)
Definition called (p : proc) (ev : sysevent) (raw : Z) (m : aspace) : proc :=
  with_state (p <| mem := m |> <| cpu_fs := fs (host_state (dbi p)) |>
                <| cpu_gs := gs (host_state (dbi p)) |> <| trace := trace p ++ [ev] |>)
    (fun s => s <| rax := u64 (libc_result raw) |>).

(** The hook [hk] forwards the call [nr] in the process [p] and prints [strs]. *)
Definition forwards (hk : M Z) (nr : Z) (args : list vararg) (strs : list Z) (p : proc) : Prop :=
  hk p = match forwarded nr args p with
         | Ret _ p' => if strings_ok (mem p') strs then Ret 0 p' else Crashed p'
         | NoReturn p' => NoReturn p'
         | Exited c p' => Exited c p' | Aborted p' => Aborted p' | Crashed p' => Crashed p'
         | OutOfFuel => OutOfFuel
         end.

(** The process with the segment bases of the guest in force. *)
Definition guest_bases (p : proc) : proc :=
  p <| cpu_fs := instrumented_fs (dbi p) |> <| cpu_gs := instrumented_gs (dbi p) |>.

(** The evaluation of a system call instruction is the hook, between the two changes of the
    segment bases. *)
Lemma eval_hook (hk : M Z) (insn : cs_insn) (a : Z) (p : proc) :
  branch_of (groups insn) = Some BSyscall -> bases_ok p ->
  get_syscall_hook (s32 (rax (gstate p))) = Some hk ->
  __eval_target insn a p
  = (ret ← hk; s ← set_host_fs_gs; (if truth s then fatal_dump else mret ());;
     if truth ret then mret ret else mret (u64 (a + insn_size insn))) (guest_bases p).
Proof.
  intros Hg Hb Hk. unfold __eval_target. rewrite eval_groups_syscall by done. rewrite Hk.
  by erewrite bind_Ret by (by apply set_guest_fs_gs_ok).
Qed.

Lemma call_run (hk : M Z) (nr : Z) (args : list vararg) (strs : list Z) (insn : cs_insn) (a : Z)
    (p : proc) :
  branch_of (groups insn) = Some BSyscall -> bases_ok p ->
  get_syscall_hook (s32 (rax (gstate p))) = Some hk ->
  forwards hk nr args strs (guest_bases p) ->
  let ev := mk_event nr args (instrumented_fs (dbi p)) (instrumented_gs (dbi p)) in
  match k_syscall (trace p) (mem p) nr args with
  | None => exists q, __eval_target insn a p = NoReturn q
  | Some (raw, m) =>
      if strings_ok m strs
      then __eval_target insn a p = Ret (u64 (a + insn_size insn)) (called p ev raw m)
      else exists q, __eval_target insn a p = Crashed q
  end.
Proof.
  intros Hg Hb Hk Ef. cbv zeta. pose proof (eval_hook hk insn a p Hg Hb Hk) as E.
  unfold forwards, forwarded in Ef.
  change (k_syscall (trace (guest_bases p)) (mem (guest_bases p)))
    with (k_syscall (trace p) (mem p)) in Ef.
  rewrite E. destruct (k_syscall (trace p) (mem p) nr args) as [[raw m] |].
  2: { eexists. unfold mbind, M_bind. by rewrite Ef. }
  set (pr := with_state _ _) in Ef. cbv beta iota in Ef. change (mem pr) with m in Ef.
  destruct (strings_ok m strs).
  2: { eexists. unfold mbind, M_bind. by rewrite Ef. }
  erewrite bind_Ret by exact Ef. cbv beta.
  erewrite bind_Ret by (apply (set_host_fs_gs_ok pr); exact Hb). reflexivity.
Qed.

Lemma row_forwards r p :
  r ∈ forward_rows -> bases_ok p ->
  get_syscall_hook (fr_guest r) = Some (forward r) /\
  forwards (forward r) (fr_nr r) (row_args r (gstate p)) (row_strings r (gstate p)) p.
Proof.
  intros Hr Hb. destruct (proj1 (Forall_forall _ _) forward_rows_sound r Hr) as [Hk Hnr].
  split; [ exact Hk | by apply forward_spec ].
Qed.

Lemma syscall_run (r : frow) (insn : cs_insn) (a : Z) (p : proc) :
  r ∈ forward_rows -> branch_of (groups insn) = Some BSyscall -> bases_ok p ->
  s32 (rax (gstate p)) = fr_guest r ->
  let args := row_args r (gstate p) in
  let ev := mk_event (fr_nr r) args (instrumented_fs (dbi p)) (instrumented_gs (dbi p)) in
  match k_syscall (trace p) (mem p) (fr_nr r) args with
  | None => exists q, __eval_target insn a p = NoReturn q
  | Some (raw, m) =>
      if strings_ok m (row_strings r (gstate p))
      then __eval_target insn a p = Ret (u64 (a + insn_size insn)) (called p ev raw m)
      else exists q, __eval_target insn a p = Crashed q
  end.
Proof.
  intros Hr Hg Hb Hn. destruct (row_forwards r (guest_bases p) Hr Hb) as [Hk Hf].
  apply (call_run (forward r)); [ done | done | by rewrite Hn | exact Hf ].
Qed.

Lemma dispatch_tail_noreturn fuel q0 q :
  eval_target (curr_hook (dbi q0)) q0 = NoReturn q -> dispatch_tail fuel q0 = NoReturn q.
Proof.
  intros E. unfold dispatch_tail, _get_bbl_base, br_emulation, get, mbind, M_bind.
  by rewrite E.
Qed.

(** The process after the call is the one after a branch with the result in [rax]. *)
Lemma called_branched g qe mg ev raw m :
  branched g qe (snapshot g) mg (trace (host g)) (bases_of g) (brk_of g) ->
  branched g (called qe ev raw m) (moved (snapshot g) (rsp (snapshot g)) (u64 (libc_result raw))) m
    (trace (host g) ++ [ev]) (bases_of g) (brk_of g).
Proof.
  intros [Hs _ Hf He Hb Hh Ht Hc Hk]. rewrite moved_rsp. split; try done; simpl.
  - by rewrite <- Hs.
  - by rewrite Ht.
Qed.

(** From the dump hook to the evaluation of a system call. *)
Lemma round_syscall fuel m0 g insn dump_text :
  at_hook m0 g insn -> craft_hook_text (dbi (host g)) = Some dump_text ->
  exists g1 m mb mg,
    run (dump_hook_text (dump_stub (dbi (host g)))) g
    = Some (g1, Some (dump_stub (dbi (host g)))) /\
    run dump_text g1 = Some (m, Some addr__dispatcher) /\
    mxcsr_var m = (if uses_avx2 (gstate (host g)) then u32 (mxcsr g) else mxcsr_var g) /\
    below (host_rsp (dbi (host g))) 16 m0 mb /\ rwx_grow mb mg /\
    exists q0 qe, _dispatcher test fuel (host m) = dispatch_tail fuel q0 /\
      eval_target (curr_hook (dbi q0)) q0 = __eval_target insn (jmp (dump (dbi (host g)))) qe /\
      branched g qe (snapshot g) mg (trace (host g)) (bases_of g) (brk_of g) /\ bases_ok qe.
Proof.
  intros Hg Hd.
  destruct (round_evaluates fuel m0 g insn dump_text Hg Hd)
    as (g1 & m & mb & mg & E1 & E2 & Hmx & B & G & q0 & qe & Ed & E5 & Hqe & _ & _).
  exists g1, m, mb, mg. split_and!; try done. exists q0, qe. split_and!; try done.
  pose proof (br_engine _ _ _ _ _ _ _ Hqe) as Hen. pose proof (br_bases _ _ _ _ _ _ _ Hqe) as Hbs.
  unfold engine_of in Hen. injection Hen as Hhs _ _ _ _ _ _ _ _ _. injection Hbs as Hfs Hgs.
  unfold bases_ok. rewrite Hfs, Hgs, Hhs.
  destruct (ah_guest _ _ _ Hg), (ah_host _ _ _ Hg). by split_and!.
Qed.

(** From the dump hook to the call. *)
Lemma round_calls fuel m0 g insn r dump_text :
  at_hook m0 g insn -> branch_of (groups insn) = Some BSyscall -> r ∈ forward_rows ->
  s32 (reg g F_rax) = fr_guest r -> craft_hook_text (dbi (host g)) = Some dump_text ->
  exists g1 m mb mg,
    run (dump_hook_text (dump_stub (dbi (host g)))) g
    = Some (g1, Some (dump_stub (dbi (host g)))) /\
    run dump_text g1 = Some (m, Some addr__dispatcher) /\
    mxcsr_var m = (if uses_avx2 (gstate (host g)) then u32 (mxcsr g) else mxcsr_var g) /\
    below (host_rsp (dbi (host g))) 16 m0 mb /\ rwx_grow mb mg /\
    exists q0, _dispatcher test fuel (host m) = dispatch_tail fuel q0 /\
      match k_syscall (trace (host g)) mg (fr_nr r) (row_args r (cpu g)) with
      | None => exists q, eval_target (curr_hook (dbi q0)) q0 = NoReturn q
      | Some (raw, m') =>
          if strings_ok m' (row_strings r (cpu g)) then
            exists q,
              eval_target (curr_hook (dbi q0)) q0
              = Ret (u64 (jmp (dump (dbi (host g))) + insn_size insn)) q /\
              branched g q (moved (snapshot g) (rsp (snapshot g)) (u64 (libc_result raw))) m'
                (trace (host g) ++
                 [mk_event (fr_nr r) (row_args r (cpu g)) (cpu_fs (host g)) (cpu_gs (host g))])
                (bases_of g) (brk_of g)
          else exists q, eval_target (curr_hook (dbi q0)) q0 = Crashed q
      end.
Proof.
  intros Hg Hk Hr Hn Hd.
  destruct (round_syscall fuel m0 g insn dump_text Hg Hd)
    as (g1 & m & mb & mg & E1 & E2 & Hmx & B & G & q0 & qe & Ed & E5 & Hqe & Hb).
  exists g1, m, mb, mg. split_and!; try done. exists q0. split; [ exact Ed | ].
  destruct (row_snapshot r g Hr) as [Ha Hs]. pose proof (snapshot_rax g) as Hax.
  pose proof (syscall_run r insn (jmp (dump (dbi (host g)))) qe Hr Hk Hb) as Hc. cbv zeta in Hc.
  pose proof (br_bases _ _ _ _ _ _ _ Hqe) as Hbs. injection Hbs as Hfs Hgs.
  rewrite (br_state _ _ _ _ _ _ _ Hqe), Hax, (br_mem _ _ _ _ _ _ _ Hqe),
    (br_trace _ _ _ _ _ _ _ Hqe), Hfs, Hgs, Ha, Hs in Hc.
  specialize (Hc Hn). rewrite E5.
  destruct (k_syscall _ mg _ _) as [[raw m'] |]; [ | exact Hc ].
  destruct (strings_ok m' _); [ | exact Hc ].
  eexists. split; [ exact Hc | ]. by apply (called_branched g qe mg).
Qed.

(** C6: A round that ends in a forwarded system call is that call. When the guest runs into
    the dump hook that covers a system call instruction with a forwarding hook, the kernel
    is called exactly once, with the number and the arguments of its row in the registers of
    the guest and with the segment bases of the guest in force, on a memory that differs
    from that of the guest at most in 16 bytes of the stack of the engine; the dispatcher
    returns with the hooks of the block behind the instruction over the memory the kernel
    leaves, and the way back gives the guest its registers with the result in rax, its user
    flags and its vector registers. A call that does not return does not return, and a
    string that cannot be read for the log makes the engine crash. *)
Theorem syscall_round (fuel : nat) (m0 : aspace) (g : machine) (insn : cs_insn) (r : frow)
    (dump_text restore_text : list asm)
    (Hg : at_hook m0 g insn) (Hk : branch_of (groups insn) = Some BSyscall)
    (Hr : r ∈ forward_rows) (Hn : s32 (reg g F_rax) = fr_guest r)
    (Hd : craft_hook_text (dbi (host g)) = Some dump_text)
    (Hrt : craft_restore_stub_text (dbi (host g)) = Some restore_text) :
  let ev := mk_event (fr_nr r) (row_args r (cpu g)) (cpu_fs (host g)) (cpu_gs (host g)) in
  let t := u64 (jmp (dump (dbi (host g))) + insn_size insn) in
  exists g1 m mb mg,
    run (dump_hook_text (dump_stub (dbi (host g)))) g
    = Some (g1, Some (dump_stub (dbi (host g)))) /\
    run dump_text g1 = Some (m, Some addr__dispatcher) /\
    below (host_rsp (dbi (host g))) 16 m0 mb /\ rwx_grow mb mg /\
    match k_syscall (trace (host g)) mg (fr_nr r) (row_args r (cpu g)) with
    | None => exists q, _dispatcher test fuel (host m) = NoReturn q
    | Some (raw, m') =>
        if strings_ok m' (row_strings r (cpu g)) then
          forall d, t <> minus1 -> can_instrument fuel ((host g) <| mem := m' |>) t d ->
          exists p', _dispatcher test fuel (host m) = Ret () p' /\ instrumented m' p' /\
            jmp (dump (dbi p')) = t + d /\
            jmp (restore (dbi p')) = t - hlength (restore (dbi (host g))) /\
            cpu_fs p' = cpu_fs (host g) /\ cpu_gs p' = cpu_gs (host g) /\
            trace p' = trace (host g) ++ [ev] /\
            forall h, returned g m h p' ->
            exists h1 g2 g' mm,
              run (continue_exec_text (restore_stub (dbi p'))) h
              = Some (h1, Some (restore_stub (dbi p'))) /\
              run restore_text h1 = Some (g2, Some (jmp (restore (dbi p')))) /\
              run restore_hook_text g2 = Some (g', None) /\
              continues g ((snapshot g) <| rax := u64 (libc_result raw) |>) g' /\
              host g' = p' <| mem := mm |> /\ below (reg h F_rsp) 16 (mem p') mm
        else exists q, _dispatcher test fuel (host m) = Crashed q
    end.
Proof.
  cbv zeta.
  destruct (round_calls fuel m0 g insn r dump_text Hg Hk Hr Hn Hd)
    as (g1 & m & mb & mg & E1 & E2 & Hmx & B & G & q0 & Ed & Hc).
  exists g1, m, mb, mg. split_and!; try done. rewrite Ed.
  destruct (k_syscall _ mg _ _) as [[raw m'] |].
  2: { destruct Hc as [q E]. exists q. by apply dispatch_tail_noreturn. }
  destruct (strings_ok m' _).
  2: { destruct Hc as [q E]. exists q. by apply dispatch_tail_crash. }
  destruct Hc as (q & E & Hq). intros d Hne Hci. pose proof (ah_hooks _ _ _ Hg) as Hin.
  destruct (in_unmap _ _ Hin) as [Hu1 Hu2].
  destruct (round_moves fuel g q0 _ _ _ m' _ _ _ d E Hq Hne (in_flag _ _ Hin) Hu1 Hu2
              (ah_guest _ _ _ Hg) Hci)
    as (p' & Ep & Hi & Hjd & Hjr & Hst' & Hf & Hgs' & Ht' & _).
  exists p'. split_and!; try done. intros h Hret.
  rewrite <- (moved_rsp (snapshot g)). destruct Hg.
  eapply resume_moved; try done. by rewrite snapshot_rsp.
Qed.
End SysRound.
