(* ===== verification/CallSpec.v ===== *)
(** * The system calls of a guest under the engine

    What the dispatcher makes of a system call instruction, for each kind of call a guest
    can make: a call that is passed on to the kernel, [arch_prctl], [brk], and the two that
    end the process. *)

From S2P Require Import Prelude.
From S2P Require Import Pages.
From S2P Require Import Regs.
From S2P Require Import Process.
From S2P Require Import Syscalls.
From S2P Require Import SyscallsSpec.
From S2P Require Import Memory.
From S2P Require Import MemorySpec.
From S2P Require Import Branch.
From S2P Require Import Target.
From S2P Require Import TargetSpec.
From S2P Require Import Cflow.
From S2P Require Import CflowSpec.
From S2P Require Import Engine.
From S2P Require Import EngineSpec.
From S2P Require Import Stubs.
From S2P Require Import Native.
From S2P Require Import StubsSpec.
From S2P Require Import RoundSpec.
From S2P Require Import SysRoundSpec.

(** ** The calls that are passed on *)

(** The strings the hook of the call prints. *)
Definition guest_strings (s : state_rtime) : list Z :=
  let nr := s32 (rax s) in
  if (nr =? __NR_mmap) || (nr =? __NR_close) then []
  else match row_of nr with Some r => row_strings r s | None => [] end.

(** The hook passes the call on as it is: the flags of [mmap] are in [rcx] too, the closed
    descriptor is not the standard output, the row of the call conforms. *)
Definition hook_forwards (s : state_rtime) : bool :=
  let nr := s32 (rax s) in
  if nr =? __NR_mmap then s32 (rcx s) =? s32 (r10 s)
  else if nr =? __NR_close then negb (rdi s =? STDOUT_FILENO)
  else match row_of nr with Some r => conforms r | None => false end.

(** Registers that agree but for the instruction pointer and the flags. *)
Definition same_general (s s' : state_rtime) : Prop :=
  forall f, f ∉ [F_rip; F_rflags; F_null_entry] -> field_get s f = field_get s' f.

(** The field [f] of [s] and [s'] that agree in [H]. *)
Ltac general_field H f :=
  pose proof (H f ltac:(apply (bool_decide_unpack _); by vm_compute)); simpl in *.

Ltac general_fields H :=
  general_field H F_rax; general_field H F_rdi; general_field H F_rsi; general_field H F_rdx;
  general_field H F_r10; general_field H F_r8; general_field H F_r9; general_field H F_rcx.

Lemma guest_call_same s s' :
  same_general s s' ->
  guest_call s = guest_call s' /\ guest_strings s = guest_strings s' /\
  hook_forwards s = hook_forwards s'.
Proof.
  intros Hs. pose proof Hs as Hs'. unfold same_general in Hs'. general_fields Hs'.
  unfold guest_call, guest_strings, hook_forwards, mmap_args.
  replace (rax s) with (rax s') by congruence. replace (rdi s) with (rdi s') by congruence.
  replace (rsi s) with (rsi s') by congruence. replace (rdx s) with (rdx s') by congruence.
  replace (r10 s) with (r10 s') by congruence. replace (r8 s) with (r8 s') by congruence.
  replace (r9 s) with (r9 s') by congruence. replace (rcx s) with (rcx s') by congruence.
  destruct (row_of (s32 (rax s'))) as [r |] eqn:Hr; cbn [mbind option_bind]; [ | done ].
  destruct (row_same r s s') as [-> ->]; [ by apply (row_of_some _ _ Hr) | exact Hs | done ].
Qed.

Section Calls.
Context `{HK : Kernel} `{HE : RegEnum} `{HD : Disassembler} `{HO : !DisassemblerOk}.
Context `{HY : Layout} `{HL : !LayoutOk} `{HS : Selectors}.

Lemma conforms_nr r : conforms r = true -> fr_nr r = fr_guest r.
Proof. unfold conforms. by intros [[?%Z.eqb_eq _]%andb_true_iff _]%andb_true_iff. Qed.

Lemma log_nothing p : log_syscall [] p = Ret () p.
Proof. by rewrite log_syscall_spec. Qed.

Lemma close_forwards p :
  bases_ok p -> rdi (gstate p) <> STDOUT_FILENO ->
  forwards hook_close __NR_close [VLong (rdi (gstate p))] [] p.
Proof.
  intros Hb Hd. unfold forwards, hook_close. erewrite bind_Ret by reflexivity.
  rewrite (proj2 (Z.eqb_neq _ _) Hd). unfold mbind, M_bind.
  rewrite do_syscall_forwarded by done. unfold forwarded.
  destruct (k_syscall _ _ _ _) as [[raw m] |]; [ | done ]. by rewrite log_nothing.
Qed.

Lemma mmap_forwards p :
  bases_ok p -> s32 (rcx (gstate p)) = s32 (r10 (gstate p)) ->
  (forall raw m, k_syscall (trace p) (mem p) __NR_mmap (mmap_args (gstate p)) = Some (raw, m) ->
     u64 (libc_result raw) <> minus1) ->
  forwards hook_mmap __NR_mmap (mmap_args (gstate p)) [] p.
Proof.
  intros Hb Hf Hr. unfold forwards, hook_mmap. erewrite bind_Ret by reflexivity. rewrite Hf.
  fold (mmap_args (gstate p)). unfold mbind, M_bind.
  rewrite do_syscall_forwarded by done. unfold forwarded.
  destruct (k_syscall _ _ _ _) as [[raw m] |] eqn:E; [ | done ]. rewrite log_nothing.
  unfold get. cbn -[u64 minus1 libc_result strings_ok]. by rewrite (proj2 (Z.eqb_neq _ _) (Hr raw m eq_refl)).
Qed.

(** A call the hook passes on. *)
Lemma guest_call_forwards nr args p :
  bases_ok p -> guest_call (gstate p) = Some (nr, args) -> hook_forwards (gstate p) = true ->
  (nr = __NR_mmap -> forall raw m, k_syscall (trace p) (mem p) nr args = Some (raw, m) ->
     u64 (libc_result raw) <> minus1) ->
  exists hk, get_syscall_hook (s32 (rax (gstate p))) = Some hk /\
    forwards hk nr args (guest_strings (gstate p)) p.
Proof.
  intros Hb Hc Hf Hm. unfold guest_call, hook_forwards, guest_strings in *. revert Hc Hf.
  destruct (Z.eqb_spec (s32 (rax (gstate p))) __NR_mmap) as [-> | _]; cbn [orb].
  { destruct (_ =? _); [ | done ]. intros [= <- <-] Hf%Z.eqb_eq. exists hook_mmap.
    split; [ reflexivity | exact (mmap_forwards p Hb Hf (Hm eq_refl)) ]. }
  destruct (Z.eqb_spec (s32 (rax (gstate p))) __NR_close) as [-> | _].
  { intros [= <- <-] Hf%negb_true_iff%Z.eqb_neq. exists hook_close.
    split; [ reflexivity | by apply close_forwards ]. }
  destruct (row_of _) as [r |] eqn:Hr; [ | done ]. intros [= <- <-] Hf.
  destruct (row_of_some _ _ Hr) as [Hin Hg]. destruct (row_forwards r p Hin Hb) as [Hk Hw].
  exists (forward r). rewrite (conforms_nr r Hf) in Hw. split; [ by rewrite <- Hg | exact Hw ].
Qed.

(** ** [arch_prctl] and [brk] *)

Lemma prctl_syscall p code addr b m' :
  prctl code addr (cpu_fs p, cpu_gs p) (mem p) = Some (0, b, m') ->
  syscall __NR_arch_prctl [VInt code; VLong addr] p
  = Ret 0 (p <| mem := m' |> <| cpu_fs := b.1 |> <| cpu_gs := b.2 |>
             <| trace := trace p ++ [mk_event __NR_arch_prctl [VInt code; VLong addr] (cpu_fs p) (cpu_gs p)] |>).
Proof.
  unfold prctl, syscall, raw_syscall. change (__NR_arch_prctl =? __NR_arch_prctl) with true.
  cbv iota. unfold raw_arch_prctl. cbn [vararg_value].
  destruct p as [m0 f0 g0 d0 c0 h0 n0 t0 o0]. cbn [mem cpu_fs cpu_gs fst snd].
  destruct (code =? ARCH_SET_FS); [ destruct (k_base_ok addr); intros [= <- <-]; reflexivity | ].
  destruct (code =? ARCH_SET_GS); [ destruct (k_base_ok addr); intros [= <- <-]; reflexivity | ].
  destruct (code =? ARCH_GET_FS); [ destruct (store64 _ _ _); intros [= <- <-]; reflexivity | ].
  destruct (code =? ARCH_GET_GS); [ destruct (store64 _ _ _); intros [= <- <-]; reflexivity | done ].
Qed.

(** A base that [arch_prctl] sets is accepted. *)
Lemma prctl_bases code addr b0 m b m' :
  prctl code addr b0 m = Some (0, b, m') ->
  k_base_ok b0.1 = true -> k_base_ok b0.2 = true -> k_base_ok b.1 = true /\ k_base_ok b.2 = true.
Proof.
  unfold prctl. intros E H1 H2.
  repeat (case_match; simplify_eq/=; try done).
Qed.

(** The result of a hook: [raw] in [rax], the memory, the calls made, the bases and the break;
    the rest is as before. *)
Record hook_result (p q : proc) (raw : Z) (m : aspace) (tr : list sysevent) (b : Z * Z) (k : Z)
    : Prop := {
  hr_state : gstate q = (gstate p) <| rax := u64 raw |>;
  hr_mem : mem q = m;
  hr_trace : trace q = tr;
  hr_bases : (instrumented_fs (dbi q), instrumented_gs (dbi q)) = b;
  hr_brk : vbrk (dbi q) = k;
  hr_ok : bases_ok q;
  hr_flag : curr_syscall q = curr_syscall p;
  hr_engine : engine_of q = engine_of p;
  hr_hooks : dump (dbi q) = dump (dbi p) /\ restore (dbi q) = restore (dbi p);
  hr_count : bbl_count q = bbl_count p
}.

Lemma hook_arch_prctl_run p b m' :
  bases_ok p -> (cpu_fs p, cpu_gs p) = (instrumented_fs (dbi p), instrumented_gs (dbi p)) ->
  prctl (s32 (rdi (gstate p))) (rsi (gstate p)) (cpu_fs p, cpu_gs p) (mem p) = Some (0, b, m') ->
  exists q, hook_arch_prctl p = Ret 0 q /\
    hook_result p q 0 m'
      (trace p ++ [mk_event __NR_arch_prctl [VInt (s32 (rdi (gstate p))); VLong (rsi (gstate p))]
                     (cpu_fs p) (cpu_gs p)]) b (vbrk (dbi p)).
Proof.
  intros Hb Hi E. pose proof Hb as (B1 & B2 & B3 & B4). injection Hi as Hf Hg.
  pose proof (prctl_bases _ _ _ _ _ _ E) as Hbb. simpl in Hbb. rewrite Hf, Hg in Hbb.
  specialize (Hbb B1 B2) as [K1 K2].
  unfold hook_arch_prctl. erewrite bind_Ret by reflexivity.
  set (code := s32 (rdi (gstate p))) in *. set (addr := rsi (gstate p)) in *.
  destruct (Z.eqb_spec code ARCH_SET_FS) as [Hc | Hc].
  - assert (b = (addr, cpu_gs p)) as -> by (unfold prctl in E; rewrite Hc in E; simpl in E;
      destruct (k_base_ok addr); by injection E).
    erewrite bind_Ret by (erewrite bind_Ret by reflexivity; reflexivity).
    erewrite bind_Ret by (apply prctl_syscall; exact E).
    erewrite bind_Ret. 2: { erewrite bind_Ret by (apply set_host_fs_gs_ok; by split_and!). reflexivity. }
    erewrite bind_Ret by reflexivity.
    eexists. split; [ reflexivity | ]. split; try done. simpl. by rewrite Hg.
  - destruct (Z.eqb_spec code ARCH_SET_GS) as [Hc' | Hc'].
    + assert (b = (cpu_fs p, addr)) as -> by (unfold prctl in E; rewrite Hc' in E; simpl in E;
        destruct (k_base_ok addr); by injection E).
      erewrite bind_Ret by reflexivity.
      erewrite bind_Ret by (apply prctl_syscall; exact E).
      erewrite bind_Ret by reflexivity. erewrite bind_Ret by reflexivity.
      eexists. split; [ reflexivity | ]. split; try done. simpl. by rewrite Hf.
    + assert (b = (cpu_fs p, cpu_gs p)) as ->.
      { unfold prctl in E. rewrite (proj2 (Z.eqb_neq _ _) Hc), (proj2 (Z.eqb_neq _ _) Hc') in E.
        destruct (code =? ARCH_GET_FS); [ by destruct (store64 _ _ _); simplify_eq | ].
        destruct (code =? ARCH_GET_GS); [ by destruct (store64 _ _ _); simplify_eq | done ]. }
      erewrite bind_Ret by reflexivity.
      erewrite bind_Ret by (apply prctl_syscall; exact E).
      erewrite bind_Ret by reflexivity. erewrite bind_Ret by reflexivity.
      eexists. split; [ reflexivity | ]. split; try done. simpl. by rewrite Hf, Hg.
Qed.

(** ** What the engine makes of a call *)

Lemma snapshot_general s g :
  (forall f, f ∉ [F_rip; F_rflags; F_null_entry] -> field_get s f = reg g f) ->
  same_general s (snapshot g).
Proof. intros Hs f Hf. by rewrite Hs, snapshot_get. Qed.

(** The evaluation of the instruction in the process [qe] of the guest [g]: it goes on behind
    the instruction, with the result, the memory, the calls, the bases and the break given. *)
Definition emulated (g : machine) (insn : cs_insn) (qe : proc) (raw : Z) (m : aspace)
    (tr : list sysevent) (b : Z * Z) (k : Z) : Prop :=
  exists q, __eval_target insn (jmp (dump (dbi (host g)))) qe
            = Ret (u64 (jmp (dump (dbi (host g))) + insn_size insn)) q /\
    branched g q (moved (snapshot g) (rsp (snapshot g)) (u64 raw)) m tr b k.

#[local] Opaque snapshot.

Section Emulated.
Context (g : machine) (insn : cs_insn) (qe : proc) (mg : aspace).
Context (Hk : branch_of (groups insn) = Some BSyscall) (Hb : bases_ok qe).
Context (Hqe : branched g qe (snapshot g) mg (trace (host g)) (bases_of g) (brk_of g)).

#[local] Abbreviation s := (snapshot g).

Lemma forward_emulated nr args raw m' :
  guest_call s = Some (nr, args) -> hook_forwards s = true ->
  k_syscall (trace (host g)) mg nr args = Some (raw, m') -> libc_result raw = raw ->
  (nr = __NR_mmap -> u64 raw <> minus1) -> strings_ok m' (guest_strings s) = true ->
  emulated g insn qe raw m' (trace (host g) ++ [mk_event nr args (cpu_fs (host g)) (cpu_gs (host g))])
    (bases_of g) (brk_of g).
Proof.
  intros Hc Hf Ek Hr Hm Hs. pose proof (br_state _ _ _ _ _ _ _ Hqe) as Hst.
  pose proof (br_mem _ _ _ _ _ _ _ Hqe) as Hme. pose proof (br_trace _ _ _ _ _ _ _ Hqe) as Htr.
  pose proof (br_bases _ _ _ _ _ _ _ Hqe) as Hbs. injection Hbs as Hfs Hgs.
  change (gstate qe) with (gstate (guest_bases qe)) in Hst.
  destruct (guest_call_forwards nr args (guest_bases qe)) as (hk & Hh & Hw); rewrite ?Hst; try done.
  { intros Hn raw' m1. change (trace (guest_bases qe)) with (trace qe).
    change (mem (guest_bases qe)) with (mem qe).
    rewrite Htr, Hme, Ek. intros [= <- <-]. rewrite Hr. auto. }
  pose proof (call_run hk nr args _ insn (jmp (dump (dbi (host g)))) qe Hk Hb Hh Hw) as E.
  cbv zeta in E. rewrite Htr, Hme, Ek, Hst, Hs, Hfs, Hgs in E. eexists. split; [ exact E | ].
  pose proof (called_branched g qe mg (mk_event nr args (cpu_fs (host g)) (cpu_gs (host g))) raw m' Hqe)
    as Hq. by rewrite Hr in Hq.
Qed.

(** A hook that returns is followed by the next instruction. *)
Lemma hook_emulated (hk : M Z) (q : proc) raw m tr b k :
  get_syscall_hook (s32 (rax s)) = Some hk -> hk (guest_bases qe) = Ret 0 q ->
  hook_result (guest_bases qe) q raw m tr b k ->
  emulated g insn qe raw m tr b k.
Proof.
  intros Hh E [Rs Rm Rt Rb Rk Ro Rf Re [Rd Rr] Rc].
  destruct Hqe as [Hst Hm Hfl Hen Hbs [Hd Hr] Htr Hco Hbk].
  exists (q <| cpu_fs := fs (host_state (dbi q)) |> <| cpu_gs := gs (host_state (dbi q)) |>). split.
  - rewrite (eval_hook hk) by (try done; by rewrite Hst).
    erewrite bind_Ret by exact E. cbv beta.
    erewrite bind_Ret by (by apply set_host_fs_gs_ok). reflexivity.
  - change (gstate (guest_bases qe)) with (gstate qe) in Rs. rewrite Hst in Rs.
    rewrite moved_rsp. split; try done.
    + by rewrite <- Hfl.
    + by rewrite <- Hen.
    + split; [ by rewrite <- Hd | by rewrite <- Hr ].
    + by rewrite <- Hco.
Qed.

Lemma prctl_emulated b m' :
  s32 (rax s) = __NR_arch_prctl -> prctl (s32 (rdi s)) (rsi s) (bases_of g) mg = Some (0, b, m') ->
  emulated g insn qe 0 m'
    (trace (host g) ++ [mk_event __NR_arch_prctl [VInt (s32 (rdi s)); VLong (rsi s)]
                          (cpu_fs (host g)) (cpu_gs (host g))]) b (brk_of g).
Proof.
  intros Hn E. pose proof Hqe as [Hst Hm _ _ Hbs _ Htr _ Hbk]. pose proof Hbs as Hbs'.
  injection Hbs' as Hfs Hgs.
  destruct (hook_arch_prctl_run (guest_bases qe) b m' Hb eq_refl) as (q & Eq & Hq).
  { change (gstate (guest_bases qe)) with (gstate qe). rewrite Hst.
    change (prctl (s32 (rdi s)) (rsi s) (instrumented_fs (dbi qe), instrumented_gs (dbi qe)) (mem qe)
      = Some (0, b, m')). by rewrite Hbs, Hm. }
  apply (hook_emulated hook_arch_prctl q); [ by rewrite Hn | exact Eq | ].
  change (gstate (guest_bases qe)) with (gstate qe) in Hq. simpl in Hq.
  rewrite <- Hbk, <- Htr, <- Hst, <- Hfs, <- Hgs. exact Hq.
Qed.

Lemma brk_query_emulated :
  s32 (rax s) = __NR_brk -> rdi s = 0 -> is_u64 (brk_of g) ->
  emulated g insn qe (brk_of g) mg (trace (host g)) (bases_of g) (brk_of g).
Proof.
  intros Hn E Hu. pose proof Hqe as [Hst Hm _ _ Hbs _ Htr _ Hbk].
  set (p := guest_bases qe).
  apply (hook_emulated hook_brk (with_state p (fun s => s <| rax := vbrk (dbi p) |>))).
  - by rewrite Hn.
  - unfold hook_brk. erewrite bind_Ret by reflexivity. erewrite bind_Ret by reflexivity.
    assert (Hreq : rdi (gstate p) = 0) by (rewrite <- E; exact (f_equal rdi Hst)).
    fold p. cbv beta. rewrite Hreq. reflexivity.
  - split; try done. change (vbrk (dbi p)) with (vbrk (dbi qe)). by rewrite Hbk, u64_small.
Qed.

Lemma brk_grow_emulated m' :
  s32 (rax s) = __NR_brk -> brk_of g mod PAGE_SZ = 0 -> 0 <= brk_of g -> is_u64 (rdi s) ->
  PAGE_SZ < rdi s - brk_of g < 2 ^ 32 - PAGE_SZ ->
  mmap_anon_fixed mg (brk_of g) (PAGE_ROUND (rdi s - brk_of g) + 1) (Z.lor PROT_READ PROT_WRITE)
  = Some m' ->
  emulated g insn qe (rdi s) m' (trace (host g)) (bases_of g) (rdi s).
Proof.
  intros Hn Hal H0 Hu Hsz Em. pose proof Hqe as [Hst Hm _ _ Hbs _ Htr _ Hbk].
  set (p := guest_bases qe).
  assert (Hreq : rdi (gstate p) = rdi s) by exact (f_equal rdi Hst).
  assert (Hvb : vbrk (dbi p) = brk_of g) by exact Hbk.
  pose proof (PAGE_OFFT_range (brk_of g)).
  assert (E : hook_brk p = Ret 0 (brk_proc p (rdi s) m')).
  { rewrite <- Hreq. apply hook_brk_run; rewrite Hreq, Hvb; try lia.
    change (mem p) with (mem qe). by rewrite Hm, (PAGE_ALIGN_id _ Hal). }
  apply (hook_emulated hook_brk _ _ _ _ _ _ ltac:(by rewrite Hn) E).
  split; try done. change (gstate (brk_proc p (rdi s) m')) with ((gstate p) <| rax := rdi s |>).
  by rewrite u64_small.
Qed.

(** *** The end of the process *)

Lemma exit_evaluates :
  is_exit (s32 (rax s)) = true ->
  __eval_target insn (jmp (dump (dbi (host g)))) qe = Exited 0 (guest_bases qe).
Proof.
  intros Hn. 
  assert (Hh : exists hk, get_syscall_hook (s32 (rax s)) = Some hk /\ hk (guest_bases qe) = Exited 0 (guest_bases qe)).
  { unfold is_exit in Hn. apply orb_true_iff in Hn as [->%Z.eqb_eq | ->%Z.eqb_eq].
    - exists hook_exit. split; [ reflexivity | ]. unfold hook_exit. by erewrite bind_Ret by apply log_nothing.
    - exists hook_exit_grp. split; [ reflexivity | ]. unfold hook_exit_grp. by erewrite bind_Ret by apply log_nothing. }
  destruct Hh as (hk & Hh & E).
  rewrite (eval_hook hk) by (try done; by rewrite (br_state _ _ _ _ _ _ _ Hqe)).
  unfold mbind, M_bind. by rewrite E.
Qed.
End Emulated.
End Calls.
