(* ===== verification/SimSpec.v ===== *)
(** * The simulation

    The guest on its own ([native]) and the guest under the engine in corresponding states
    ([sim]), what is asked of a block ([covered]), and one round of the engine ([round]): from
    a state of the simulation into the dispatcher, and from there back into one. *)

From S2P Require Import Prelude.
From S2P Require Import Pages.
From S2P Require Import Regs.
From S2P Require Import Process.
From S2P Require Import Syscalls.
From S2P Require Import SyscallsSpec.
From S2P Require Import Memory.
From S2P Require Import MemorySpec.
From S2P Require Import Branch.
From S2P Require Import Target.
From S2P Require Import TargetSpec.
From S2P Require Import Cflow.
From S2P Require Import CflowSpec.
From S2P Require Import Engine.
From S2P Require Import EngineSpec.
From S2P Require Import Stubs.
From S2P Require Import Native.
From S2P Require Import StubsSpec.
From S2P Require Import RoundSpec.
From S2P Require Import SysRoundSpec.
From S2P Require Import CallSpec.

(** ** The instructions of a block under the hooks *)

(** Off the [rl] bytes of the restore hook in front of [a] and the [dl] bytes of the dump
    hook at [b]. *)
Definition off_hooks (rl dl a b x : Z) : Prop := ~ (a - rl <= x < a) /\ ~ (b <= x < b + dl).

Lemma byte_at_store8 m a v m' x :
  store8 m a v = Some m' -> byte_at m' x = if decide (x = a) then v else byte_at m x.
Proof. unfold store8. destruct (has_prot m a PROT_WRITE); intros [= <-]. apply byte_at_store. Qed.

Lemma page_prot_same m m' x : prots m' = prots m -> page_prot m' x = page_prot m x.
Proof. unfold page_prot. by intros ->. Qed.

Lemma store8_patched m m1 a l x v m' :
  patched m m1 a l -> in_range a (Z.of_nat (length l)) x = false -> store8 m x v = Some m' ->
  exists m1', store8 m1 x v = Some m1' /\ patched m' m1' a l.
Proof.
  intros [B P] Hx E. pose proof (store8_prots _ _ _ _ E) as Hp.
  assert (Hw : has_prot m x PROT_WRITE = true)
    by (unfold store8 in E; by destruct (has_prot m x PROT_WRITE)).
  assert (Hw1 : has_prot m1 x PROT_WRITE = true).
  { apply (prots_grow_has PROT_WRITE m m1 x 1 P ltac:(auto with dry)); [ | lia ].
    intros y Hy. by replace y with x by lia. }
  destruct (store8 m1 x v) as [m1' |] eqn:E1; [ | unfold store8 in E1; by rewrite Hw1 in E1 ].
  exists m1'. split; [ done | ]. pose proof (store8_prots _ _ _ _ E1) as Hp1. split.
  - intros y. rewrite (byte_at_store8 _ _ _ _ _ E1), (byte_at_store8 _ _ _ _ _ E), B.
    case_decide as Hy; [ | done ]. by rewrite Hy, Hx.
  - intros y. rewrite (page_prot_same _ _ _ Hp), (page_prot_same _ _ _ Hp1). apply P.
Qed.

Lemma mem_bytes_store8 m x v m' a n :
  store8 m x v = Some m' -> in_range a (Z.of_nat n) x = false -> mem_bytes m' a n = mem_bytes m a n.
Proof.
  intros E Hx. apply mem_bytes_ext. intros y Hy. rewrite (byte_at_store8 _ _ _ _ _ E).
  case_decide as He; [ | done ]. subst. destruct (in_range_spec a (Z.of_nat n) x); [ done | lia ].
Qed.

Section Sim.
Context `{HK : Kernel} `{HE : RegEnum} `{HD : Disassembler} `{HO : !DisassemblerOk}.
Context `{HY : Layout} `{HL : !LayoutOk} `{HS : Selectors} `{HP : Processor}.

(** Off the hooks of a process. *)
Definition off (p : proc) (x : Z) : Prop :=
  in_range (jmp (restore (dbi p))) (hlength (restore (dbi p))) x = false /\
  in_range (jmp (dump (dbi p))) (hlength (dump (dbi p))) x = false.

Lemma instrumented_byte m0 p x : instrumented m0 p -> off p x -> byte_at (mem p) x = byte_at m0 x.
Proof.
  intros Hi [H1 H2]. destruct (in_mem _ _ Hi) as (m1 & [B1 _] & [B2 _]).
  rewrite B2, B1, !hook_bytes_length by apply Hi. by rewrite H1, H2.
Qed.

Lemma instrumented_load8 m0 p x b :
  instrumented m0 p -> off p x -> load8 m0 x = Some b -> load8 (mem p) x = Some b.
Proof.
  intros Hi Hx. unfold load8. destruct (has_prot m0 x PROT_READ) eqn:E; [ | done ].
  rewrite (prots_grow_has PROT_READ m0 (mem p) x 1 (instrumented_grow _ _ Hi)
             ltac:(auto with dry)); [ | | lia ].
  - by rewrite (instrumented_byte m0 p).
  - intros y Hy. by replace y with x by lia.
Qed.

Lemma instrumented_store8 m0 p x v m0' :
  instrumented m0 p -> off p x -> store8 m0 x v = Some m0' ->
  exists mh, store8 (mem p) x v = Some mh /\ instrumented m0' (p <| mem := mh |>).
Proof.
  intros [Hd Hr Hu Hl Ho [Sd Sr] (m1 & P1 & P2) [Rd Rr] [Wd Wr] Hc Hf] [Hx1 Hx2] E.
  pose proof (hook_bytes_length _ Hd) as Hbd. pose proof (hook_bytes_length _ Hr) as Hbr.
  pose proof (store8_prots _ _ _ _ E) as Hp.
  destruct (store8_patched _ _ _ _ _ _ _ P1 ltac:(by rewrite Hbd) E) as (m1' & E1 & P1').
  destruct (store8_patched _ _ _ _ _ _ _ P2 ltac:(by rewrite Hbr) E1) as (mh & E2 & P2').
  pose proof (store8_prots _ _ _ _ E2) as Hp2.
  assert (Hg : prots_grow m0 m0') by (intros y; left; by apply page_prot_same).
  exists mh. split; [ exact E2 | ]. split; simpl; try done.
  - rewrite !(mem_bytes_store8 m0 x v m0') by (done || by rewrite ?Hbd, ?Hbr). done.
  - by exists m1'.
  - split; by eapply hook_room_grow.
  - split; intros y Hy; rewrite (has_prot_ext mh (mem p)) by done; auto.
Qed.

(** The instructions of the guest have the same effect with the hooks in place. *)
Lemma run_code_hooked c m m0 p r m' :
  hosts m m0 -> instrumented m0 p -> touches (off p) m c -> run_code m c = Some (r, m') ->
  exists m0' mh, run_code (mem p) c = Some (r, mh) /\ hosts m' m0' /\
    instrumented m0' (p <| mem := mh |>) /\ prots m0' = prots m0.
Proof.
  revert m m0 p. induction c as [r0 | a k IH | a v k IH |]; intros m m0 p Hh Hi Ht E;
    simplify_eq/=.
  - exists m0, (mem p). split_and!; try done. by destruct p.
  - destruct Ht as [Ha Ht]. destruct (load8 m a) as [b |] eqn:El; simpl in E; [ | done ].
    rewrite (instrumented_load8 m0 p a b Hi Ha (hosts_load8 _ _ _ _ Hh El)). simpl.
    by eapply IH.
  - destruct Ht as [Ha Ht]. destruct (store8 m a v) as [m1 |] eqn:Es; simpl in E; [ | done ].
    destruct (hosts_store8 _ _ _ _ _ Hh Es) as (m01 & E0 & Hh1).
    destruct (instrumented_store8 m0 p a v m01 Hi Ha E0) as (mh & E1 & Hi1).
    rewrite E1. simpl.
    destruct (IH m1 m01 (p <| mem := mh |>) Hh1 Hi1 Ht E) as (m0' & mh' & F & Hh' & Hi' & Hp').
    exists m0', mh'. split_and!; [ exact F | done | by destruct p | ].
    rewrite Hp'. by eapply store8_prots.
Qed.

(** ** Corresponding states

    [fuel] bounds the sweep; [dl] and [rl] are the lengths of the two hooks; [ES] the stack
    pointers with which the compiled dispatcher may come back, [EA] the addresses the engine
    keeps for itself. *)
Context (fuel : nat) (dl rl : Z) (ES EA : Z -> Prop).

(** The block at [t], whose branch is [d] bytes further, can be instrumented. *)
Record fits_block (m : aspace) (t d : Z) : Prop := {
  ft_sweep : sweep m t d;
  ft_low : rl < t;
  ft_high : t + d + PAGE_SZ + 1 < 2 ^ 64;
  ft_size : d < 2 ^ 31;
  ft_fuel : d < Z.of_nat fuel;
  ft_read : range_has PROT_READ m (t - rl) (rl + d + PAGE_SZ);
  ft_allowed : rwx_allowed (t - rl) (rl + d + PAGE_SZ)
}.

Definition fits (c : guest) : Prop := fits_block (g_mem c) (at_ c) (len c).

(** In every memory that hosts the one of the guest, the kernel answers the call in the same
    way: the guest cannot tell it from its own memory, and what else is mapped there stays as
    it is and out of its reach. *)
Definition hosted_call (tr : list sysevent) (m : aspace) (nr : Z) (args : list vararg)
    (strs : list Z) (raw : Z) (m' : aspace) : Prop :=
  forall mg, hosts m mg ->
  exists mg', k_syscall tr mg nr args = Some (raw, mg') /\ hosts m' mg' /\
    strings_ok mg' strs = true /\
    forall x, page_prot m x = None -> is_Some (page_prot mg x) ->
      page_prot m' x = None /\ page_prot mg' x = page_prot mg x.

(** A call of the guest that the engine passes on as it is, that succeeds and that the kernel
    answers for the guest; [arch_prctl] that succeeds; [brk] that asks for the break, or grows
    it by more than a page from a page boundary, over pages that are free, with one more, and
    not the engine's. *)
Record covered_call (c : guest) (s : state_rtime) (m : aspace) : Prop := {
  cc_kernel nr args raw m' :
    guest_call s = Some (nr, args) -> k_syscall (g_trace c) m nr args = Some (raw, m') ->
    hook_forwards s = true /\ libc_result raw = raw /\ (nr = __NR_mmap -> u64 raw <> minus1) /\
    hosted_call (g_trace c) m nr args (guest_strings s) raw m';
  cc_prctl raw b m' :
    s32 (rax s) = __NR_arch_prctl -> prctl (s32 (rdi s)) (rsi s) (g_bases c) m = Some (raw, b, m') ->
    raw = 0;
  cc_brk : s32 (rax s) = __NR_brk -> rdi s <> 0 ->
    let n := rdi s - g_brk c in
    g_brk c mod PAGE_SZ = 0 /\ is_u64 (rdi s) /\ PAGE_SZ < n < 2 ^ 32 - PAGE_SZ /\
    (forall x, g_brk c <= x < g_brk c + (PAGE_ROUND n + 1) -> page_prot m x = None /\ ~ EA x) /\
    forall mg, hosts m mg ->
      k_map_refused mg (g_brk c) (PAGE_ROUND n + 1) (Z.lor PROT_READ PROT_WRITE) = false
}.

(** The end of a block, at the instruction [insn] with the registers [s] and the memory [m]:
    a branch on which the emulation follows the processor, or a call the engine covers. *)
Definition covered_end (c : guest) (s : state_rtime) (m : aspace) (insn : cs_insn)
    (k : branch_kind) : Prop :=
  match k with
  | BSyscall => covered_call c s m
  | _ => no_flags (first_operand insn) = true /\
         plain_branch k insn (user_state s (at_ c + len c)) = true
  end.

(** The guest stays within what the engine covers: its block fits and does not touch the
    bytes under the hooks, and ends with registers the stubs can carry and at an instruction
    the engine handles. *)
Record covered (c : guest) : Prop := {
  cv_fits : fits c;
  cv_touches : touches (off_hooks rl dl (at_ c) (at_ c + len c)) (g_mem c) (block_of c);
  cv_ends s v x m : run_code (g_mem c) (block_of c) = Some ((s, v, x), m) ->
    length v = 16%nat /\ is_u64 (rsp s) /\ selectors_ok s /\
    forall insn k, cs_decode (mem_bytes m (at_ c + len c) 16) 0 = Some insn ->
      branch_of (groups insn) = Some k -> covered_end c s m insn k
}.

(** What the engine keeps from round to round: AVX2 mode, accepted segment bases, the
    callback on, the register table. *)
Record ready (g : machine) : Prop := {
  rd_host : host_bases_ok (host g);
  rd_guest : k_base_ok (cpu_fs (host g)) = true /\ k_base_ok (cpu_gs (host g)) = true;
  rd_callback : take_callback (dbi (host g)) = true;
  rd_table : hashmap_ok (table (dbi (host g)));
  rd_avx : sse (gstate (host g)) = None /\
           exists l, avx2 (gstate (host g)) = Some l /\ length l = 16%nat
}.

(** The engine may use the stack [sp]: it is no memory of the guest. *)
Record engine_stack (m m0 : aspace) (sp : Z) : Prop := {
  es_room : stack_room m0 sp 16;
  es_high : sp < 2 ^ 64 - 8;
  es_free x : sp - 16 <= x < sp -> page_prot m x = None;
  es_area x : sp - 16 <= x < sp -> EA x
}.

(** The guest [c] on its own and the guest [g] under the engine, both about to run the block
    at [at_ c]. *)
Record sim (c : guest) (g : machine) : Prop := {
  sm_mem : exists m0, hosts (g_mem c) m0 /\ instrumented m0 (host g) /\
             forall sp, sp = host_rsp (dbi (host g)) \/ ES sp -> engine_stack (g_mem c) m0 sp;
  sm_dump : jmp (dump (dbi (host g))) = at_ c + len c;
  sm_restore : jmp (restore (dbi (host g))) = at_ c - rl;
  sm_lens : hlength (dump (dbi (host g))) = dl /\ hlength (restore (dbi (host g))) = rl;
  sm_regs : same_user (cpu g) (g_regs c);
  sm_vec : vec g = g_vec c;
  sm_mxcsr : u32 (mxcsr g) = u32 (g_mxcsr c);
  sm_trace : trace (host g) = g_trace c;
  sm_bases : bases_of g = g_bases c;
  sm_brk : brk_of g = g_brk c /\ is_u64 (g_brk c);
  sm_ready : ready g
}.

(** ** The rounds of the engine *)

(** The processor runs the block between the two hooks. *)
Definition run_block (g : machine) : option machine :=
  let a := jmp (restore (dbi (host g))) + hlength (restore (dbi (host g))) in
  let b := jmp (dump (dbi (host g))) in
  '((s, v, x), mm) ← run_code (mem (host g))
    (block_code (mem_bytes (mem (host g)) a (Z.to_nat (b - a))) a (user_state (cpu g) a)
       (vec g) (u32 (mxcsr g)));
  Some (mk_machine s v x (mxcsr_var g) ((host g) <| mem := mm |>)).

(** The block, the dump hook and its stub, the dispatcher, which comes back in any way its
    compiled code may, the restore stub and the restore hook of the next block. *)
Inductive round : machine -> machine -> Prop :=
| round_intro g g1 g2 m p h h1 g3 g' text rtext :
    run_block g = Some g1 ->
    craft_hook_text (dbi (host g)) = Some text ->
    craft_restore_stub_text (dbi (host g)) = Some rtext ->
    run (dump_hook_text (dump_stub (dbi (host g1)))) g1
      = Some (g2, Some (dump_stub (dbi (host g1)))) ->
    run text g2 = Some (m, Some addr__dispatcher) ->
    _dispatcher test fuel (host m) = Ret () p ->
    returned g1 m h p -> ES (reg h F_rsp) ->
    run (continue_exec_text (restore_stub (dbi p))) h = Some (h1, Some (restore_stub (dbi p))) ->
    run rtext h1 = Some (g3, Some (jmp (restore (dbi p)))) ->
    run restore_hook_text g3 = Some (g', None) ->
    round g g'.

(** ** One round *)

Lemma touches_impl (P Q : Z -> Prop) m c : (forall x, P x -> Q x) -> touches P m c -> touches Q m c.
Proof.
  intros H. revert m. induction c as [r | a k IH | a v k IH |]; intros m Ht; simpl in *; try done.
  - destruct Ht as [Ha Ht]. split; [ auto | ]. destruct (load8 m a); [ by apply IH | done ].
  - destruct Ht as [Ha Ht]. split; [ auto | ]. destruct (store8 m a v); [ by apply IH | done ].
Qed.

Lemma sim_off c g x : sim c g -> off_hooks rl dl (at_ c) (at_ c + len c) x -> off (host g) x.
Proof.
  intros [_ Hd Hr [Hld Hlr] _ _ _ _ _ _ _] [H1 H2]. unfold off. rewrite Hd, Hr, Hld, Hlr.
  split; destruct (in_range_spec (at_ c - rl) rl x), (in_range_spec (at_ c + len c) dl x);
    done || lia.
Qed.

(** A range that is readable for the guest is away from what it has not mapped. *)
Lemma free_apart m flag a n lo k :
  range_has flag m a n -> (forall x, lo <= x < lo + k -> page_prot m x = None) ->
  0 < n -> 0 < k -> a + n <= lo \/ lo + k <= a.
Proof.
  intros Hr Hf Hn Hk. destruct (Z.le_gt_cases (a + n) lo), (Z.le_gt_cases (lo + k) a); try lia.
  set (x := Z.max a lo). pose proof (has_prot_mapped m x flag (Hr x ltac:(lia))) as Hs.
  rewrite (Hf x ltac:(lia)) in Hs. by destruct Hs.
Qed.

Lemma stack_apart m m0 sp flag a n b k :
  engine_stack m m0 sp -> range_has flag m a n -> a <= b -> 0 < k -> b + k <= a + n ->
  apart sp 16 b k.
Proof.
  intros [_ _ Hfree _] Hr H1 H2 H3. unfold apart.
  destruct (free_apart m flag b k (sp - 16) 16); try lia.
  - eapply range_has_within; [ exact Hr | lia | lia ].
  - intros x Hx. apply Hfree. lia.
Qed.

Lemma hosts_below m m0 m1 sp :
  hosts m m0 -> below sp 16 m0 m1 -> (forall x, sp - 16 <= x < sp -> page_prot m x = None) ->
  hosts m m1.
Proof.
  intros [P B] [Bp Bb] Hf. split; intros x.
  - intros p. rewrite (page_prot_same _ _ _ Bp). apply P.
  - intros Hx. rewrite Bb; [ by apply B | ]. intros Hr. rewrite (Hf x Hr) in Hx. by destruct Hx.
Qed.

Lemma stack_room_grow m0 m0' sp n : prots_grow m0 m0' -> stack_room m0 sp n -> stack_room m0' sp n.
Proof.
  intros G [H1 H2 H3 H4]. split; try done;
    (eapply prots_grow_has; [ exact G | auto with dry | done ]).
Qed.

Lemma engine_stack_grow m m' m0 m0' sp :
  prots m' = prots m -> prots_grow m0 m0' -> engine_stack m m0 sp -> engine_stack m' m0' sp.
Proof.
  intros Hp G [Hr Hh Hf Ha]. split; [ by eapply stack_room_grow | done | | done ].
  intros x Hx. rewrite (page_prot_same _ _ _ Hp). auto.
Qed.

Lemma same_prots_grow m m' : prots m' = prots m -> prots_grow m m'.
Proof. intros Hp x. left. by apply page_prot_same. Qed.

(** The bytes of the block are those of the guest. *)
Lemma sim_block_bytes c g :
  sim c g -> fits c -> 0 <= len c -> 0 < rl ->
  mem_bytes (mem (host g)) (at_ c) (Z.to_nat (len c)) = mem_bytes (g_mem c) (at_ c) (Z.to_nat (len c)).
Proof.
  intros Hs Hf Hl Hr. destruct (sm_mem _ _ Hs) as (m0 & Hh & Hi & _).
  apply mem_bytes_ext. intros x Hx.
  rewrite (instrumented_byte m0 (host g)); [ | done | eapply sim_off; [ done | split; lia ] ].
  apply (ho_bytes _ _ Hh). eapply has_prot_mapped, (ft_read _ _ _ Hf). unfold PAGE_SZ. lia.
Qed.

(** The machine at the end of its block. *)
Record at_end (c : guest) (g g1 : machine) (s : state_rtime) (v : list Z) (x : Z) (m : aspace)
    : Prop := {
  ae_host : host g1 = (host g) <| mem := mem (host g1) |>;
  ae_cpu : cpu g1 = s;
  ae_vec : vec g1 = v;
  ae_mxcsr : mxcsr g1 = x;
  ae_prots : prots m = prots (g_mem c);
  ae_mem : exists m0, hosts m m0 /\ instrumented m0 (host g1) /\
             forall sp, sp = host_rsp (dbi (host g)) \/ ES sp -> engine_stack m m0 sp
}.

Lemma run_block_ok c g s v x m :
  sim c g -> covered c -> run_code (g_mem c) (block_of c) = Some ((s, v, x), m) ->
  exists g1, run_block g = Some g1 /\ at_end c g g1 s v x m.
Proof.
  intros Hs [Hf Ht _] E. destruct (sm_mem _ _ Hs) as (m0 & Hh & Hi & Hst).
  pose proof (sweep_nonneg _ _ _ (ft_sweep _ _ _ Hf)) as Hl.
  destruct (sm_lens _ _ Hs) as [Hdl Hrl].
  assert (Hrl0 : 0 < rl) by (rewrite <- Hrl; apply (hw_len _ (in_restore _ _ Hi))).
  destruct (run_code_hooked (block_of c) (g_mem c) m0 (host g) (s, v, x) m Hh Hi
              (touches_impl _ _ _ _ (fun x => sim_off c g x Hs) Ht) E)
    as (m0' & mh & Er & Hh' & Hi' & Hp').
  exists (mk_machine s v x (mxcsr_var g) ((host g) <| mem := mh |>)). split.
  - unfold run_block. rewrite (sm_restore _ _ Hs), (sm_dump _ _ Hs), Hrl.
    replace (at_ c - rl + rl) with (at_ c) by lia.
    replace (at_ c + len c - at_ c) with (len c) by lia.
    rewrite (sim_block_bytes c g Hs Hf Hl Hrl0), (sm_regs _ _ Hs (at_ c)), (sm_vec _ _ Hs),
      (sm_mxcsr _ _ Hs).
    fold (block_of c). by rewrite Er.
  - split; try done; [ by eapply run_code_prots | ].
    exists m0'. split_and!; [ done | done | ]. intros sp Hsp.
    eapply engine_stack_grow; [ by eapply run_code_prots | by apply same_prots_grow | by apply Hst ].
Qed.

Lemma at_end_dbi c g g1 s v x m :
  at_end c g g1 s v x m -> dbi (host g1) = dbi (host g) /\ cpu_fs (host g1) = cpu_fs (host g) /\
  cpu_gs (host g1) = cpu_gs (host g) /\ bbl_count (host g1) = bbl_count (host g) /\
  trace (host g1) = trace (host g).
Proof. intros H. by rewrite (ae_host _ _ _ _ _ _ _ H). Qed.

Lemma at_end_guest c g g1 s v x m :
  at_end c g g1 s v x m -> bases_of g1 = bases_of g /\ brk_of g1 = brk_of g.
Proof. intros H. unfold bases_of, brk_of. by rewrite (ae_host _ _ _ _ _ _ _ H). Qed.

Lemma snapshot_user g : same_user (snapshot g) (cpu g).
Proof.
  apply same_user_intro; [ intros f Hf; by apply snapshot_get | ].
  rewrite snapshot_flags. apply pushed_flags_user.
Qed.

(** The guest has run into the dump hook over the end of its block. *)
Lemma end_at_hook c g g1 s v x m insn :
  sim c g -> covered c -> run_code (g_mem c) (block_of c) = Some ((s, v, x), m) ->
  at_end c g g1 s v x m -> cs_decode (mem_bytes m (at_ c + len c) 16) 0 = Some insn ->
  exists m0, hosts m m0 /\
    (forall sp, sp = host_rsp (dbi (host g1)) \/ ES sp -> engine_stack m m0 sp) /\
    at_hook m0 g1 insn /\ same_here (user_state s (at_ c + len c)) (snapshot g1).
Proof.
  intros Hs [Hf _ Hend] Er Ha Hdec.
  destruct (Hend _ _ _ _ Er) as (Hv & Hsp & Hsel & _).
  destruct (at_end_dbi _ _ _ _ _ _ _ Ha) as (Hdbi & Hfs & Hgs & _ & _).
  destruct Ha as [Hho Hcpu Hvec _ Hprots (m0 & Hh & Hi & Hst)].
  destruct (sm_ready _ _ Hs) as [R1 R2 R3 R4 [R5 (l & R6 & R7)]].
  destruct (sm_lens _ _ Hs) as [Hdl Hrl]. pose proof (sm_dump _ _ Hs) as Hjd.
  pose proof (sm_restore _ _ Hs) as Hjr. rewrite <- Hdbi in Hst, Hdl, Hrl, Hjd, Hjr.
  pose proof (hw_len _ (in_dump _ _ Hi)) as Hd0. pose proof (hw_len _ (in_restore _ _ Hi)) as Hr0.
  pose proof (sweep_nonneg _ _ _ (ft_sweep _ _ _ Hf)) as Hl.
  destruct Hf as [_ Hlow Hhigh _ _ Hrd Hal]. rewrite Hdl in Hd0. rewrite Hrl in Hr0.
  assert (Hrdm : range_has PROT_READ m (at_ c - rl) (rl + len c + PAGE_SZ))
    by (intros y Hy; rewrite (has_prot_ext m (g_mem c)) by done; auto).
  assert (Hsh : same_here (user_state s (at_ c + len c)) (snapshot g1)).
  { split; [ | rewrite snapshot_rip, (in_curr _ _ Hi); by rewrite Hjd ].
    rewrite same_user_state, snapshot_user. by rewrite Hcpu. }
  pose proof (Hst _ (or_introl eq_refl)) as Hes. pose proof Hes as [Hroom Hhi Hfree _].
  assert (Hap : forall b k, at_ c - rl <= b -> 0 < k -> b + k <= at_ c + len c + PAGE_SZ ->
            apart (host_rsp (dbi (host g1))) 16 b k)
    by (intros b k' H1 H2 H3; eapply stack_apart; [ exact Hes | exact Hrdm | lia .. ]).
  exists m0. split_and!; [ done | done | | done ].
  split; rewrite ?Hjd, ?Hjr, ?Hdl, ?Hrl, ?Hfs, ?Hgs, ?Hcpu, ?Hvec; try done;
    try (unfold INSTRUCTION_MAX_SZ, PAGE_SZ in *; lia).
  - unfold host_bases_ok. by rewrite Hdbi.
  - by rewrite Hdbi.
  - by rewrite Hdbi.
  - unfold gstate in *. rewrite Hdbi. split; intros l' El; congruence.
  - eapply stack_room_grow; [ by apply (instrumented_grow m0) | exact Hroom ].
  - split_and!; apply Hap; unfold PAGE_SZ in *; lia.
  - unfold reg. by rewrite Hcpu.
  - eapply hosts_range; [ exact Hh | auto with dry | ].
    eapply range_has_within; [ exact Hrdm | unfold INSTRUCTION_MAX_SZ, PAGE_SZ; lia .. ].
  - eapply rwx_allowed_within; [ exact Hal | unfold INSTRUCTION_MAX_SZ, PAGE_SZ; lia .. ].
  - rewrite (hosts_mem_bytes m m0 _ 16 PROT_READ Hh); [ done | ].
    eapply range_has_within; [ exact Hrdm | unfold PAGE_SZ; lia .. ].
Qed.
(** In AVX2 mode both stubs have a text, which depends on nothing but the mode. *)
Lemma texts_exist g :
  ready g -> exists text rtext, craft_hook_text (dbi (host g)) = Some text /\
    craft_restore_stub_text (dbi (host g)) = Some rtext.
Proof.
  intros [_ _ _ _ [Hs (l & Ha & _)]]. unfold gstate in *.
  unfold craft_hook_text, craft_restore_stub_text, hook_vectors, restore_vectors.
  rewrite Hs, Ha. cbn [mbind option_bind]. by do 2 eexists.
Qed.

(** The next block can be instrumented in the memory of the engine. *)
Lemma fits_can_instrument c p m0 :
  fits c -> hosts (g_mem c) m0 -> hook_wf (dump (dbi p)) -> hook_wf (restore (dbi p)) ->
  hlength (restore (dbi p)) = rl -> curr_syscall p = false ->
  can_instrument fuel (p <| mem := m0 |>) (at_ c) (len c).
Proof.
  intros [Hsw Hlow Hhigh Hsz Hfu Hrd Hal] Hh Hd Hr Hrl Hf.
  pose proof (sweep_nonneg _ _ _ Hsw) as Hl. pose proof (hw_len _ Hr) as Hr0.
  split; simpl; rewrite ?Hrl; try done.
  - rewrite Hf. apply (sweep_local (g_mem c) m0 _ _ (at_ c) (at_ c + len c + 16)); try done; try lia.
    intros x Hx. apply (ho_bytes _ _ Hh). eapply has_prot_mapped, Hrd.
    unfold PAGE_SZ. lia.
  - eapply hosts_range; [ done | auto with dry | done ].
Qed.

(** The snapshot with another stack pointer and another result. *)
Lemma snapshot_avx g l v x :
  sse (gstate (host g)) = None -> avx2 (gstate (host g)) = Some l ->
  sse (moved (snapshot g) v x) = None /\ avx2 (moved (snapshot g) v x) = Some (vec g).
Proof. intros E1 E2. unfold moved, snapshot, record_vec. simpl. by rewrite E1, E2. Qed.

Lemma rflags_set s v x : rflags (moved s v x) = rflags s.
Proof. done. Qed.

Lemma snapshot_user_flags g v x :
  Z.land (rflags (moved (snapshot g) v x)) FLAGS_USER = Z.land (rflags (cpu g)) FLAGS_USER.
Proof. rewrite rflags_set. apply same_user_flags, snapshot_user. Qed.

#[local] Opaque snapshot.

Lemma at_end_ready c g g1 s v x m : at_end c g g1 s v x m -> ready g -> ready g1.
Proof.
  intros Ha [R1 R2 R3 R4 R5]. pose proof (at_end_dbi _ _ _ _ _ _ _ Ha) as (Hd & Hf & Hg & _).
  split; unfold host_bases_ok, gstate in *; by rewrite ?Hd, ?Hf, ?Hg.
Qed.

(** The dispatcher has returned with the process [p], over the memory [mg]: the guest [c] goes
    on with the registers of the snapshot of [g], but for the stack pointer [v] and the
    result [x]. *)
Record dispatched (c : guest) (g : machine) (p : proc) (mg : aspace) (v x : Z) : Prop := {
  di_hosts : hosts (g_mem c) mg;
  di_stack sp : sp = host_rsp (dbi (host g)) \/ ES sp -> engine_stack (g_mem c) mg sp;
  di_rsp : is_u64 v;
  di_regs : same_user (g_regs c) (moved (snapshot g) v x);
  di_hooks : instrumented mg p;
  di_dump : jmp (dump (dbi p)) = at_ c + len c;
  di_restore : jmp (restore (dbi p)) = at_ c - rl;
  di_state : gstate p = (moved (snapshot g) v x) <| rip := jmp (restore (dbi p)) |>;
  di_bases : (cpu_fs p, cpu_gs p) = g_bases c;
  di_accepted : k_base_ok (g_bases c).1 = true /\ k_base_ok (g_bases c).2 = true;
  di_brk : vbrk (dbi p) = g_brk c /\ is_u64 (g_brk c);
  di_engine : engine_of p = engine_of (host g);
  di_count : bbl_count p = s32 (bbl_count (host g) + 1);
  di_trace : trace p = g_trace c
}.

(** The guest resumed from the process [p] of the dispatcher corresponds to [c]. *)
Lemma resumed_sim c g g' p mg mm sp v x :
  fits c -> ready g -> dispatched c g p mg v x -> ES sp ->
  hlength (dump (dbi (host g))) = dl -> hlength (restore (dbi (host g))) = rl ->
  length (vec g) = 16%nat -> vec g = g_vec c -> u32 (mxcsr g) = u32 (g_mxcsr c) ->
  continues g (moved (snapshot g) v x) g' ->
  host g' = p <| mem := mm |> -> below sp 16 (mem p) mm ->
  sim c g'.
Proof.
  intros Hf [R1 R2 R3 R4 [R5 (l & R6 & _)]] [Hh Hst _ Hu Hi Hjd Hjr Hgs Hbs [Ho1 Ho2] Hbk Heng _ Htr]
    Hsp Hdl Hrl Hv Hvec Hmx [Cr Cf Cv] Hho B.
  destruct (snapshot_avx g l v x R5 R6) as [Hsse Havx].
  pose proof (snapshot_user_flags g v x) as Hfl.
  generalize dependent (moved (snapshot g) v x). intros s0 Hu Hgs Cr Hsse Havx Hfl.
  unfold engine_of in Heng. injection Heng as E1 E2 _ E4 _ E6 E7 _ _ E10.
  rewrite <- Hbs in Ho1, Ho2. simpl in Ho1, Ho2.
  pose proof (hw_len _ (in_dump _ _ Hi)) as Hd0. pose proof (hw_len _ (in_restore _ _ Hi)) as Hr0.
  pose proof (sweep_nonneg _ _ _ (ft_sweep _ _ _ Hf)) as Hl.
  assert (Hap : forall b k, at_ c - rl <= b -> 0 < k -> b + k <= at_ c + len c + PAGE_SZ ->
            apart sp 16 b k).
  { intros b k H1 H2 H3. eapply stack_apart; [ by apply Hst; right | exact (ft_read _ _ _ Hf) | lia .. ]. }
  assert (Hdbi : dbi (host g') = dbi p) by (by rewrite Hho).
  pose proof (overlay_below sp 16 mm mg) as Hob.
  split; unfold brk_of; rewrite ?Hdbi; try done.
  - exists (overlay sp 16 mm mg). split_and!.
    + eapply hosts_below; [ exact Hh | exact Hob | apply (Hst sp); by right ].
    + rewrite Hho. apply instrumented_below; [ done | done | | ]; apply Hap; lia.
    + rewrite E10. intros sp' Hsp'.
      eapply engine_stack_grow; [ reflexivity | by apply same_prots_grow, Hob | by apply Hst ].
  - split; congruence.
  - rewrite Hu. apply same_user_intro; [ exact Cr | by rewrite Hfl ].
  - unfold gstate in *. rewrite R5, R6 in Cv. rewrite <- Hvec. apply Cv.
  - unfold gstate in *. rewrite R5, R6 in Cv. destruct Cv as [_ ->]. by rewrite u32_idemp.
  - by rewrite Hho.
  - unfold bases_of. rewrite Hho, <- Hbs. done.
  - split; rewrite ?Hho; simpl; rewrite ?E2, ?E7; try done.
    + unfold host_bases_ok. simpl. by rewrite E1.
    + unfold gstate in *. simpl. rewrite Hgs. split; [ exact Hsse | ]. by exists (vec g).
Qed.

(** The way into the dispatcher, and what it returns. *)
Definition enters (g : machine) (text : list asm) (mc : machine) (p : proc) : Prop :=
  exists g2,
    run (dump_hook_text (dump_stub (dbi (host g)))) g = Some (g2, Some (dump_stub (dbi (host g)))) /\
    run text g2 = Some (mc, Some addr__dispatcher) /\
    mxcsr_var mc = (if uses_avx2 (gstate (host g)) then u32 (mxcsr g) else mxcsr_var g) /\
    _dispatcher test fuel (host mc) = Ret () p.

(** A block that fits is not at the error value. *)
Lemma fits_not_minus1 c : fits c -> at_ c <> minus1.
Proof.
  intros Hf. pose proof (sweep_nonneg _ _ _ (ft_sweep _ _ _ Hf)). pose proof (ft_high _ _ _ Hf).
  unfold minus1. change (u64 (-1)) with 0xffffffffffffffff. unfold PAGE_SZ in *. lia.
Qed.

(** The memory in which the dispatcher evaluates hosts the guest and has the stack. *)
Lemma evaluated_hosts m m0 mb mg (hr : Z) :
  hosts m m0 -> (forall sp, sp = hr \/ ES sp -> engine_stack m m0 sp) ->
  below hr 16 m0 mb -> rwx_grow mb mg ->
  hosts m mg /\ forall sp, sp = hr \/ ES sp -> engine_stack m mg sp.
Proof.
  intros Hh Hst B G. split.
  - eapply hosts_grow; [ | exact G ]. eapply hosts_below; [ exact Hh | exact B | ].
    apply (Hst hr). by left.
  - intros sp Hsp. eapply engine_stack_grow; [ done | | by apply Hst ].
    etrans; [ by apply same_prots_grow, B | apply grow_prots, G ].
Qed.

(** The process [q] in which the dispatcher of [g] has evaluated the end of the block is one
    from which the guest [c] goes on. *)
Record lands (c : guest) (g : machine) (q : proc) (mg : aspace) (v x : Z) : Prop := {
  ln_branched : branched g q (moved (snapshot g) v x) mg (g_trace c) (g_bases c) (g_brk c);
  ln_hosts : hosts (g_mem c) mg;
  ln_stack sp : sp = host_rsp (dbi (host g)) \/ ES sp -> engine_stack (g_mem c) mg sp;
  ln_rsp : is_u64 v;
  ln_regs : same_user (g_regs c) (moved (snapshot g) v x);
  ln_accepted : k_base_ok (g_bases c).1 = true /\ k_base_ok (g_bases c).2 = true;
  ln_brk : is_u64 (g_brk c)
}.

Lemma lands_dispatched c g insn m0 q0 q mg v x :
  fits c -> at_hook m0 g insn -> hlength (restore (dbi (host g))) = rl ->
  eval_target (curr_hook (dbi q0)) q0 = Ret (at_ c) q -> lands c g q mg v x ->
  exists p, dispatch_tail fuel q0 = Ret () p /\ dispatched c g p mg v x.
Proof.
  intros Hf Hb Hrl Ev [Hq Hh Hst Hv Hu Hok Hbk]. pose proof (ah_hooks _ _ _ Hb) as Hi.
  assert (Hci : can_instrument fuel ((host g) <| mem := mg |>) (at_ c) (len c))
    by (apply fits_can_instrument; try done; apply Hi).
  destruct (in_unmap _ _ Hi) as [Hu1 Hu2].
  destruct (round_moves fuel g q0 q _ _ mg _ _ _ (len c) Ev Hq (fits_not_minus1 _ Hf) (in_flag _ _ Hi)
              Hu1 Hu2 Hok Hci)
    as (p & Ep & Hip & Hjd & Hjr & Hgs & Hfs & Hgs' & Htp & Heng & Hbb & Hk).
  exists p. split; [ exact Ep | ]. split; try done; [ by rewrite Hjr, Hrl | ].
  rewrite Hfs, Hgs'. by destruct (g_bases c).
Qed.

(** The dispatcher on the branch of the guest [g1], which goes where the guest [c'] goes on. *)
Lemma dispatch_ok c' g1 m m0 k insn s t s' m' text :
  hosts m m0 -> (forall sp, sp = host_rsp (dbi (host g1)) \/ ES sp -> engine_stack m m0 sp) ->
  at_branch m0 g1 k insn -> same_here s (snapshot g1) -> no_flags (first_operand insn) = true ->
  x86_branch k insn (bases_of g1) s m = Some (t, s', m') ->
  craft_hook_text (dbi (host g1)) = Some text -> hlength (restore (dbi (host g1))) = rl ->
  fits c' -> at_ c' = t -> g_mem c' = m' -> g_regs c' = s' -> g_trace c' = trace (host g1) ->
  g_bases c' = bases_of g1 -> g_brk c' = brk_of g1 -> is_u64 (brk_of g1) ->
  exists mc p mg v, enters g1 text mc p /\ dispatched c' g1 p mg v (rax (snapshot g1)).
Proof.
  intros Hh Hst Hb Hsh Hnf Ex Ht Hrl Hf Hat Hm Hs' Htr Hbs Hbk Hbu.
  pose proof (ab_hook _ _ _ _ Hb) as Hbh.
  destruct (round_enters fuel m0 g1 k insn text Hb Ht)
    as (g2 & mc & mb & mg & E1 & E2 & Hmx & B & G & q0 & Ed & Hq0).
  destruct (evaluated_hosts m m0 mb mg _ Hh Hst B G) as [Hhg Hstg].
  destruct (x86_branch_hosts _ _ _ _ _ _ _ _ _ _ Hsh Hhg Hnf Ex)
    as (s0 & mg' & Ex0 & [Hsu _] & Hh' & Hp1 & Hp2).
  rewrite Ex0 in Hq0. destruct Hq0 as (q & Ev & Hq).
  destruct (x86_branch_state _ _ _ _ _ _ _ _ Ex0) as (v & Hv & ->);
    [ rewrite snapshot_rsp; apply (ah_rsp _ _ _ Hbh) | ].
  rewrite <- moved_rax in Hsu, Hq. rewrite <- Hat in Ev.
  destruct (lands_dispatched c' g1 insn m0 q0 q mg' v (rax (snapshot g1)) Hf Hbh Hrl Ev) as (p & Ep & Hp).
  { split; rewrite ?Hm, ?Hs', ?Htr, ?Hbs, ?Hbk; try done; [ | apply (ah_guest _ _ _ Hbh) ].
    intros sp Hsp. eapply engine_stack_grow; [ exact Hp1 | by apply same_prots_grow | by apply Hstg ]. }
  exists mc, p, mg', v. split; [ exists g2; by rewrite Ed | exact Hp ].
Qed.

(** ** System calls *)

Lemma engine_stack_call m m' mg mg' sp :
  engine_stack m mg sp ->
  (forall x, page_prot m x = None -> EA x -> is_Some (page_prot mg x) ->
     page_prot m' x = None /\ page_prot mg' x = page_prot mg x) ->
  engine_stack m' mg' sp.
Proof.
  intros [[H1 H2 Hr Hw] Hh Hf Ha] Hc.
  assert (Hk : forall x, sp - 16 <= x < sp ->
            page_prot m' x = None /\ page_prot mg' x = page_prot mg x).
  { intros x Hx. apply Hc; [ auto | auto | ]. apply (has_prot_mapped mg x PROT_READ). apply Hr. lia. }
  split; [ split; [ done | done | | ] | done | intros x Hx; by apply Hk | done ].
  - intros x Hx. unfold has_prot. rewrite (proj2 (Hk x ltac:(lia))). by apply Hr.
  - intros x Hx. unfold has_prot. rewrite (proj2 (Hk x ltac:(lia))). by apply Hw.
Qed.

Lemma user_state_rax s x r : user_state (s <| rax := x |>) r = (user_state s r) <| rax := x |>.
Proof. done. Qed.

(** A call leaves the registers it does not set. *)
Lemma after_call_same s s2 a raw :
  same_here (user_state s a) s2 ->
  same_user (after_call s raw (rcx s) (r11 s)) (moved s2 (rsp s2) (u64 raw)).
Proof.
  intros [Hs _]. rewrite moved_rsp. unfold after_call.
  assert (He : forall v, (s <| rax := v |> <| rcx := rcx s |> <| r11 := r11 s |>) = s <| rax := v |>)
    by (by destruct s).
  rewrite He. intros r. pose proof (Hs r) as E. rewrite user_state_twice in E.
  rewrite (user_state_rax s), (user_state_rax s2), E. reflexivity.
Qed.

(** The call of the guest is emulated in every memory that hosts it. *)
Definition call_emulated (g1 : machine) (insn : cs_insn) (m : aspace) (raw : Z)
    (m' : aspace) (tr : list sysevent) (b : Z * Z) (k : Z) : Prop :=
  forall qe mg, branched g1 qe (snapshot g1) mg (trace (host g1)) (bases_of g1) (brk_of g1) ->
  bases_ok qe -> hosts m mg ->
  exists mg', emulated g1 insn qe raw mg' tr b k /\ hosts m' mg' /\
    (forall x, page_prot m x = None -> EA x -> is_Some (page_prot mg x) ->
       page_prot m' x = None /\ page_prot mg' x = page_prot mg x) /\
    (k_base_ok b.1 = true /\ k_base_ok b.2 = true) /\ is_u64 k.

(** The dispatcher on a system call of the guest [g1]. *)
Lemma dispatch_call c' g1 m m0 insn raw s a text :
  hosts m m0 -> (forall sp, sp = host_rsp (dbi (host g1)) \/ ES sp -> engine_stack m m0 sp) ->
  at_hook m0 g1 insn -> same_here (user_state s a) (snapshot g1) ->
  call_emulated g1 insn m raw (g_mem c') (g_trace c') (g_bases c') (g_brk c') ->
  craft_hook_text (dbi (host g1)) = Some text -> hlength (restore (dbi (host g1))) = rl ->
  fits c' -> at_ c' = u64 (jmp (dump (dbi (host g1))) + insn_size insn) ->
  g_regs c' = after_call s raw (rcx s) (r11 s) ->
  exists mc p mg v, enters g1 text mc p /\ dispatched c' g1 p mg v (u64 raw).
Proof.
  intros Hh Hst Hb Hsh Hem Ht Hrl Hf Hat Hregs.
  destruct (round_syscall fuel m0 g1 insn text Hb Ht)
    as (g2 & mc & mb & mg & E1 & E2 & Hmx & B & G & q0 & qe & Ed & E5 & Hqe & Hbo).
  destruct (evaluated_hosts m m0 mb mg _ Hh Hst B G) as [Hhg Hstg].
  destruct (Hem qe mg Hqe Hbo Hhg) as (mg' & (q & Ev & Hq) & Hh' & Hpr & Hok & Hbu).
  rewrite <- Hat, <- E5 in Ev.
  destruct (lands_dispatched c' g1 insn m0 q0 q mg' (rsp (snapshot g1)) (u64 raw) Hf Hb Hrl Ev)
    as (p & Ep & Hp).
  { split; try done.
    - intros sp Hsp. by eapply engine_stack_call; [ apply Hstg | ].
    - rewrite snapshot_rsp. apply (ah_rsp _ _ _ Hb).
    - rewrite Hregs. exact (after_call_same _ _ _ _ Hsh). }
  exists mc, p, mg', (rsp (snapshot g1)). split; [ exists g2; by rewrite Ed | exact Hp ].
Qed.

(** The way back, whatever the compiled dispatcher leaves in the registers. *)
Lemma way_back c c' g g1 s vv xx m mc p mg v x text rtext h :
  sim c g -> at_end c g g1 s vv xx m -> length vv = 16%nat -> selectors_ok s ->
  craft_restore_stub_text (dbi (host g)) = Some rtext ->
  enters g1 text mc p -> dispatched c' g1 p mg v x ->
  fits c' -> g_vec c' = vv -> g_mxcsr c' = xx -> returned g1 mc h p -> ES (reg h F_rsp) ->
  exists h1 g3 g',
    run (continue_exec_text (restore_stub (dbi p))) h = Some (h1, Some (restore_stub (dbi p))) /\
    run rtext h1 = Some (g3, Some (jmp (restore (dbi p)))) /\
    run restore_hook_text g3 = Some (g', None) /\ sim c' g' /\
    bbl_count (host g') = s32 (bbl_count (host g) + 1).
Proof.
  intros Hs Ha Hv Hsel Hrt (g2 & _ & _ & Hmx & _) Hdp Hf Hcv Hcx Hret Hsp.
  destruct (at_end_dbi _ _ _ _ _ _ _ Ha) as (Hdbi & Hfs & Hgs & Hbb & _).
  destruct (sm_lens _ _ Hs) as [Hdl Hrl]. rewrite <- Hdbi in Hdl, Hrl, Hrt.
  pose proof (at_end_ready _ _ _ _ _ _ _ Ha (sm_ready _ _ Hs)) as Hrd.
  destruct (rd_avx _ Hrd) as [Hsse (l & Havx & Hl)].
  assert (Hv1 : length (vec g1) = 16%nat) by (by rewrite (ae_vec _ _ _ _ _ _ _ Ha)).
  assert (Har : areas_ok (gstate (host g1))) by (split; intros l' El; congruence).
  assert (Hsel1 : selectors_ok (cpu g1)) by (by rewrite (ae_cpu _ _ _ _ _ _ _ Ha)).
  destruct (resume_moved g1 mc h p v x (jmp (restore (dbi p))) rtext Har Hv1 Hsel1 Hmx Hrt
              (di_state _ _ _ _ _ _ Hdp) (di_rsp _ _ _ _ _ _ Hdp) Hret)
    as (h1 & g3 & g' & mm & F1 & F2 & F3 & Hcont & Hho & B).
  exists h1, g3, g'. split; [ exact F1 | split; [ exact F2 | split; [ exact F3 | split ] ] ].
  - eapply (resumed_sim c' g1 g' p mg mm (reg h F_rsp) v x Hf Hrd Hdp Hsp Hdl Hrl Hv1);
      [ | | exact Hcont | exact Hho | exact B ].
    + by rewrite Hcv, (ae_vec _ _ _ _ _ _ _ Ha).
    + by rewrite Hcx, (ae_mxcsr _ _ _ _ _ _ _ Ha).
  - rewrite Hho. simpl. by rewrite (di_count _ _ _ _ _ _ Hdp), Hbb.
Qed.

(** From the end of the block: there is a round, and every round ends as the guest does. *)
Lemma round_from_end c c' g g1 s vv xx m mc p mg v x text :
  sim c g -> run_block g = Some g1 -> at_end c g g1 s vv xx m -> length vv = 16%nat ->
  selectors_ok s -> craft_hook_text (dbi (host g)) = Some text ->
  enters g1 text mc p -> dispatched c' g1 p mg v x ->
  fits c' -> g_vec c' = vv -> g_mxcsr c' = xx -> (exists sp, ES sp) ->
  (exists g', round g g') /\
  (forall g', round g g' -> sim c' g' /\ bbl_count (host g') = s32 (bbl_count (host g) + 1)).
Proof.
  intros Hs Eb Ha Hv Hsel Ht Hen Hdp Hf Hcv Hcx [sp0 Hsp0].
  destruct (texts_exist g (sm_ready _ _ Hs)) as (_ & rtext & _ & Hrt).
  pose proof (fun h => way_back c c' g g1 s vv xx m mc p mg v x text rtext h Hs Ha Hv Hsel Hrt Hen Hdp
                Hf Hcv Hcx) as Hback.
  destruct Hen as (g2 & E1 & E2 & Hmx & Ed). split.
  - destruct (di_stack _ _ _ _ _ _ Hdp sp0 (or_intror Hsp0)) as [Hroom Hhi _ _].
    set (h := mk_machine ((cpu g1) <| rsp := sp0 |>) (vec g1) 0 (mxcsr_var mc) p).
    assert (Hret : returned g1 mc h p).
    { split; [ done | done | | | | done ].
      - intros f Hff. repeat (apply elem_of_cons in Hff as [-> | Hff]; [ done | ]).
        by apply not_elem_of_nil in Hff.
      - simpl. by rewrite (ae_vec _ _ _ _ _ _ _ Ha).
      - eapply stack_room_grow; [ apply (instrumented_grow mg), Hdp | exact Hroom ]. }
    destruct (Hback h Hret Hsp0) as (h1 & g3 & g' & F1 & F2 & F3 & _).
    exists g'. exact (round_intro g g1 g2 mc p h h1 g3 g' text rtext Eb Ht Hrt E1 E2 Ed Hret Hsp0
                        F1 F2 F3).
  - intros g' Hr. inversion Hr as [? g1' g2' mc' p' h h1' g3' ? text' rtext' R1 R2 R3 R4 R5 R6 Hret Hsp R7 R8 R9].
    rewrite Eb in R1. injection R1 as <-. rewrite Ht in R2. injection R2 as <-.
    rewrite Hrt in R3. injection R3 as <-. rewrite E1 in R4. injection R4 as <-.
    rewrite E2 in R5. injection R5 as <-. rewrite Ed in R6. injection R6 as <-.
    destruct (Hback h Hret Hsp) as (h1 & g3 & g'' & F1 & F2 & F3 & Hs' & Hb').
    rewrite F1 in R7. injection R7 as <-. rewrite F2 in R8. injection R8 as <-.
    rewrite F3 in R9. injection R9 as <-. by split.
Qed.
End Sim.
