(* ===== verification/RunSpec.v ===== *)
(** * The engine runs the guest

    From one round to any number of them: each kind of system call is emulated in every
    memory that hosts the guest, every block that is covered has its round, and the guest on
    its own and the guest under the engine stay in corresponding states for as many blocks as
    one likes. *)

From S2P Require Import Prelude.
From S2P Require Import Pages.
From S2P Require Import Regs.
From S2P Require Import Process.
From S2P Require Import Syscalls.
From S2P Require Import SyscallsSpec.
From S2P Require Import Memory.
From S2P Require Import MemorySpec.
From S2P Require Import Branch.
From S2P Require Import Target.
From S2P Require Import TargetSpec.
From S2P Require Import Cflow.
From S2P Require Import CflowSpec.
From S2P Require Import Engine.
From S2P Require Import EngineSpec.
From S2P Require Import Stubs.
From S2P Require Import Native.
From S2P Require Import StubsSpec.
From S2P Require Import RoundSpec.
From S2P Require Import SysRoundSpec.
From S2P Require Import CallSpec.
From S2P Require Import SimSpec.

(** ** Pages *)

Lemma page_up_id b : b mod PAGE_SZ = 0 -> page_up b = b.
Proof.
  intros Hb. unfold page_up. apply PAGE_ALIGN_unique; [ done | ]. unfold PAGE_SZ. lia.
Qed.

Lemma page_up_bounds x : x <= page_up x < x + PAGE_SZ.
Proof.
  unfold page_up. pose proof (PAGE_ALIGN_bounds (x + PAGE_SZ - 1)). unfold PAGE_SZ in *. lia.
Qed.

Lemma page_up_mod x : page_up x mod PAGE_SZ = 0.
Proof. apply PAGE_ALIGN_mod. Qed.

(** A break at a page boundary: what the engine maps covers what the kernel does. *)
Lemma page_up_covered b req :
  b mod PAGE_SZ = 0 -> page_up req <= b + (PAGE_ROUND (req - b) + 1).
Proof.
  intros Hb. pose proof (PAGE_ALIGN_bounds (req - b)). pose proof (page_up_bounds req).
  rewrite PAGE_ROUND_succ. pose proof (PAGE_ALIGN_mod (req - b)) as H1. pose proof (page_up_mod req) as H2.
  apply Z.mod_divide in Hb as [i ->], H1 as [j Hj], H2 as [k Hk]; try done. unfold PAGE_SZ in *. lia.
Qed.

Section Run.
Context `{HK : Kernel} `{HE : RegEnum} `{HD : Disassembler} `{HO : !DisassemblerOk}.
Context `{HY : Layout} `{HL : !LayoutOk} `{HS : Selectors} `{HP : Processor}.
Context (fuel : nat) (dl rl : Z) (ES EA : Z -> Prop).

#[local] Abbreviation sim := (sim dl rl ES EA).
#[local] Abbreviation covered := (covered fuel dl rl EA).
#[local] Abbreviation covered_call := (covered_call EA).
#[local] Abbreviation call_emulated := (call_emulated EA).
#[local] Abbreviation fits := (fits fuel rl).
#[local] Abbreviation round := (round fuel ES).

(** ** The calls *)

(** Memories after an anonymous mapping of [n] bytes at [b], of which the guest has [k]. *)
Lemma hosts_mapped m mg b k n m' mg' :
  hosts m mg -> b mod PAGE_SZ = 0 -> 0 < k <= n -> k mod PAGE_SZ = 0 -> n mod PAGE_SZ = 0 ->
  (forall x, b <= x < b + n -> page_prot m x = None /\ ~ EA x) ->
  mmap_anon_fixed m b k (Z.lor PROT_READ PROT_WRITE) = Some m' ->
  mmap_anon_fixed mg b n (Z.lor PROT_READ PROT_WRITE) = Some mg' ->
  hosts m' mg' /\
  forall x, page_prot m x = None -> EA x -> is_Some (page_prot mg x) ->
    page_prot m' x = None /\ page_prot mg' x = page_prot mg x.
Proof.
  intros [P B] Hb Hk Hkm Hnm Hf Em Eg.
  pose proof (mmap_anon_fixed_spec _ _ _ _ _ Em) as Hm. rewrite page_count_mult in Hm by lia.
  pose proof (mmap_anon_fixed_spec _ _ _ _ _ Eg) as Hg. rewrite page_count_mult in Hg by lia.
  split; [ split | ]; intros x; destruct (Hm x) as [M1 M2]; destruct (Hg x) as [G1 G2].
  - intros p. rewrite M1, G1.
    destruct (in_range_spec b k x), (in_range_spec b n x) as [Hx | Hx]; try lia; auto.
    intros E. by rewrite (proj1 (Hf x Hx)) in E.
  - intros [p Hp]. rewrite M2, G2. rewrite M1 in Hp.
    destruct (in_range_spec b k x), (in_range_spec b n x) as [Hx | Hx]; try lia; try done.
    + by rewrite (proj1 (Hf x Hx)) in Hp.
    + apply B. by eexists.
  - intros Hn Ha _. rewrite M1, G1.
    destruct (in_range_spec b n x) as [Hx | Hx]; [ by destruct (proj2 (Hf x Hx)) | ].
    destruct (in_range_spec b k x); [ lia | done ].
Qed.

Lemma prctl_hosts code addr b0 m mg b m' :
  hosts m mg -> prctl code addr b0 m = Some (0, b, m') ->
  exists mg', prctl code addr b0 mg = Some (0, b, mg') /\ hosts m' mg' /\
    prots m' = prots m /\ prots mg' = prots mg.
Proof.
  intros Hh. assert (Hst : forall v m1, store64 m addr v = Some m1 ->
    exists mg1, store64 mg addr v = Some mg1 /\ hosts m1 mg1 /\ prots m1 = prots m /\ prots mg1 = prots mg).
  { intros v m1 E. destruct (hosts_store_bytes _ _ _ _ _ Hh E) as (mg1 & E1 & H1).
    exists mg1. split_and!; [ done | done | by eapply store_bytes_prots .. ]. }
  unfold prctl. destruct (code =? ARCH_SET_FS).
  { destruct (k_base_ok addr); intros [= <- <-]. by exists mg. }
  destruct (code =? ARCH_SET_GS).
  { destruct (k_base_ok addr); intros [= <- <-]. by exists mg. }
  destruct (code =? ARCH_GET_FS).
  { destruct (store64 m addr b0.1) eqn:E; intros [= <- <-].
    destruct (Hst _ _ E) as (mg1 & -> & H1). by exists mg1. }
  destruct (code =? ARCH_GET_GS); [ | done ].
  destruct (store64 m addr b0.2) eqn:E; intros [= <- <-].
  destruct (Hst _ _ E) as (mg1 & -> & H1). by exists mg1.
Qed.

#[local] Opaque snapshot.

Section Calls.
Context (c : guest) (g1 : machine) (insn : cs_insn) (s : state_rtime) (m : aspace).
Context (Hk : branch_of (groups insn) = Some BSyscall) (Hsg : same_general s (snapshot g1)).
Context (Htr : trace (host g1) = g_trace c) (Hbs : bases_of g1 = g_bases c).
Context (Hbk : brk_of g1 = g_brk c) (Hbu : is_u64 (g_brk c)).
Context (Hok : k_base_ok (g_bases c).1 = true /\ k_base_ok (g_bases c).2 = true).
Context (Hc : covered_call c s m).

(** The registers the hooks read. *)
Lemma snapshot_reads f :
  f ∉ [F_rip; F_rflags; F_null_entry] -> field_get (snapshot g1) f = field_get s f.
Proof. intros Hf. by rewrite (Hsg f Hf). Qed.

Lemma traced_eq nr args :
  traced c nr args = trace (host g1) ++ [mk_event nr args (cpu_fs (host g1)) (cpu_gs (host g1))].
Proof. unfold traced. by rewrite <- Hbs, Htr. Qed.

Lemma kernel_emulated nr args raw m' :
  guest_call s = Some (nr, args) -> k_syscall (g_trace c) m nr args = Some (raw, m') ->
  call_emulated g1 insn m raw m' (traced c nr args) (g_bases c) (g_brk c).
Proof.
  intros Eg Ek qe mg Hqe Hbo Hh. destruct (cc_kernel _ _ _ _ Hc _ _ _ _ Eg Ek) as (Hf & Hl & Hm & Hho).
  destruct (Hho mg Hh) as (mg' & Ek' & Hh' & Hst & Hpr).
  destruct (guest_call_same _ _ Hsg) as (G1 & G2 & G3).
  exists mg'. split; [ | split; [ done | split; [ | done ] ] ].
  - rewrite traced_eq, <- Hbs, <- Hbk.
    apply (forward_emulated g1 insn qe mg Hk Hbo Hqe); try done.
    + by rewrite <- G1.
    + by rewrite <- G3.
    + by rewrite Htr.
    + by rewrite <- G2.
  - intros x Hx _ Hm'. by apply Hpr.
Qed.

Lemma prctl_covered raw b m' :
  s32 (rax s) = __NR_arch_prctl -> prctl (s32 (rdi s)) (rsi s) (g_bases c) m = Some (raw, b, m') ->
  call_emulated g1 insn m raw m' (traced c __NR_arch_prctl [VInt (s32 (rdi s)); VLong (rsi s)]) b
    (g_brk c).
Proof.
  intros Hn E qe mg Hqe Hbo Hh. pose proof (cc_prctl _ _ _ _ Hc _ _ _ Hn E) as ->.
  destruct (prctl_hosts _ _ _ _ mg _ _ Hh E) as (mg' & E' & Hh' & Hp & Hp').
  exists mg'. split; [ | split; [ done | split; [ | split; [ | done ] ] ] ].
  - pose proof (snapshot_reads F_rax ltac:(apply (bool_decide_unpack _); by vm_compute)) as R1.
    pose proof (snapshot_reads F_rdi ltac:(apply (bool_decide_unpack _); by vm_compute)) as R2.
    pose proof (snapshot_reads F_rsi ltac:(apply (bool_decide_unpack _); by vm_compute)) as R3.
    cbn [field_get] in R1, R2, R3. rewrite traced_eq, <- Hbk, <- R2, <- R3.
    apply (prctl_emulated g1 insn qe mg Hk Hbo Hqe); rewrite ?R1, ?R2, ?R3; [ done | ].
    by rewrite Hbs.
  - intros x Hx _ _. by rewrite (page_prot_same m m'), (page_prot_same mg mg').
  - destruct Hok as [H1 H2]. exact (prctl_bases _ _ _ _ _ _ E H1 H2).
Qed.

Lemma brk_covered k m' :
  s32 (rax s) = __NR_brk -> brk_call (g_brk c) (rdi s) m k m' ->
  call_emulated g1 insn m k m' (g_trace c) (g_bases c) k.
Proof.
  intros Hn Hcall qe mg Hqe Hbo Hh.
  pose proof (snapshot_reads F_rax ltac:(apply (bool_decide_unpack _); by vm_compute)) as R1.
  pose proof (snapshot_reads F_rdi ltac:(apply (bool_decide_unpack _); by vm_compute)) as R2.
  cbn [field_get] in R1, R2. rewrite <- Htr, <- Hbs.
  destruct (Z.eq_dec (rdi s) 0) as [H0 | H0].
  { destruct Hcall as [_ | [? ?] | ? [? ?]]; try lia. exists mg. rewrite <- Hbk in *.
    split; [ apply (brk_query_emulated g1 insn qe mg Hk Hbo Hqe); by rewrite ?R1, ?R2 | ].
    split_and!; try done; rewrite Hbs; apply Hok. }
  destruct (cc_brk _ _ _ _ Hc Hn H0) as (Hal & Hru & Hsz & Hfree & Hal').
  destruct Hcall as [? | _ Hup | m' _ _ Em]; [ done | | ].
  { pose proof (page_up_bounds (rdi s)). rewrite (page_up_id _ Hal) in Hup. unfold PAGE_SZ in *. lia. }
  rewrite (page_up_id _ Hal) in Em.
  pose proof (PAGE_ROUND_succ_bounds (rdi s - g_brk c)). pose proof (page_up_bounds (rdi s)).
  pose proof (page_up_covered (g_brk c) (rdi s) Hal).
  destruct (mmap_anon_fixed_some mg (g_brk c) (PAGE_ROUND (rdi s - g_brk c) + 1)
              (Z.lor PROT_READ PROT_WRITE)) as [mg' Eg]; [ done | lia | by apply Hal' | ].
  assert (Hkm : (page_up (rdi s) - g_brk c) mod PAGE_SZ = 0)
    by (by rewrite Zminus_mod, page_up_mod, Hal).
  destruct (hosts_mapped m mg (g_brk c) (page_up (rdi s) - g_brk c)
              (PAGE_ROUND (rdi s - g_brk c) + 1) m' mg' Hh Hal
              ltac:(unfold PAGE_SZ in *; lia) Hkm (PAGE_ROUND_succ_mod (rdi s - g_brk c)) Hfree Em Eg)
    as [Hh' Hpr].
  exists mg'. split; [ | split_and!; try done; rewrite Hbs; apply Hok ].
  rewrite <- R2. apply (brk_grow_emulated g1 insn qe mg Hk Hbo Hqe); rewrite ?R1, ?R2, ?Hbk; try done.
  apply Hbu.
Qed.

(** Every call the engine covers is emulated, with the effect it has on the guest alone. *)
Lemma covered_emulated raw m' tr b k :
  sys_step c s m raw m' tr b k -> call_emulated g1 insn m raw m' tr b k.
Proof.
  intros [nr args raw' m1 Eg Ek | raw' b' m1 Hn E | k' m1 Hn Hb].
  - by apply kernel_emulated.
  - by apply prctl_covered.
  - by apply brk_covered.
Qed.
End Calls.

(** Where the guest can go on, the engine makes a round, and every round it can make ends in
    a state the guest can reach. *)
Lemma round_step c c1 g :
  sim c g -> covered c -> native c c1 -> (forall c', native c c' -> fits c') -> (exists sp, ES sp) ->
  exists c', native c c' /\ (exists g', round g g') /\
    (forall g', round g g' -> sim c' g' /\ bbl_count (host g') = s32 (bbl_count (host g) + 1)).
Proof.
  intros Hs Hc Hn Hfit Hsp.
  destruct (texts_exist g (sm_ready _ _ _ _ _ _ Hs)) as (text & _ & Ht & _).
  destruct (sm_lens _ _ _ _ _ _ Hs) as [_ Hrl]. destruct (sm_brk _ _ _ _ _ _ Hs) as [Hbk Hbu].
  pose proof (rd_guest _ (sm_ready _ _ _ _ _ _ Hs)) as Hgb.
  pose proof (sm_bases _ _ _ _ _ _ Hs) as Hbs.
  destruct Hn as [c s v x m k insn t s' m' d Er Hdec Hk Ex Hsw
                 | c s v x m insn raw m' tr b k d rcx' r11' Er Hdec Hk Hid Hst' Hsw];
    destruct (cv_ends _ _ _ _ _ Hc _ _ _ _ Er) as (Hv & _ & Hsel & Hend); specialize (Hend _ _ Hdec Hk);
    destruct (run_block_ok _ _ _ _ _ c g s v x m Hs Hc Er) as (g1 & Eb & Ha);
    destruct (end_at_hook _ _ _ _ _ c g g1 s v x m insn Hs Hc Er Ha Hdec) as (m0 & Hh & Hst & Hb & Hsh);
    destruct (at_end_dbi _ _ _ _ _ _ _ _ _ Ha) as (Hdbi & Hfs & Hgs & _ & Htr);
    destruct (at_end_guest _ _ _ _ _ _ _ _ _ Ha) as (Hbs1 & Hbk1);
    pose proof Ht as Ht1; rewrite <- Hdbi in Ht1, Hrl.
  - set (c' := mk_guest t d s' v x m' (g_trace c) (g_bases c) (g_brk c)).
    assert (Hn : native c c') by (by eapply native_branch).
    exists c'. split; [ exact Hn | ].
    assert (Hpl : no_flags (first_operand insn) = true /\
                  plain_branch k insn (user_state s (at_ c + len c)) = true)
      by (destruct k; try done; by rewrite x86_branch_syscall in Ex).
    destruct Hpl as [Hnf Hp].
    assert (Hbr : at_branch m0 g1 k insn).
    { split; [ exact Hb | exact Hk | by rewrite <- (plain_branch_same k insn _ _ Hsh Hnf) ]. }
    rewrite <- Hbs, <- Hbs1 in Ex.
    destruct (dispatch_ok fuel rl ES EA c' g1 m m0 k insn _ t s' m' text Hh Hst Hbr Hsh Hnf Ex Ht1 Hrl
                (Hfit _ Hn) eq_refl eq_refl eq_refl) as (mc & p & mg & w & Hen & Hdp);
      simpl; rewrite ?Htr, ?Hbs1, ?Hbk1, ?(sm_trace _ _ _ _ _ _ Hs), ?Hbk; try done.
    by apply (round_from_end fuel dl rl ES EA c c' g g1 s v x m mc p mg w _ text Hs Eb Ha Hv Hsel Ht
                Hen Hdp (Hfit _ Hn)).
  - set (c' := mk_guest (u64 (at_ c + len c + insn_size insn)) d (after_call s raw (rcx s) (r11 s)) v x
                 m' tr b k).
    assert (Hn : native c c') by (by eapply native_syscall).
    exists c'. split; [ exact Hn | ].
    assert (Hat : at_ c' = u64 (jmp (dump (dbi (host g1))) + insn_size insn))
      by (simpl; by rewrite Hdbi, (sm_dump _ _ _ _ _ _ Hs)).
    assert (Hem : call_emulated g1 insn m raw m' tr b k).
    { apply (covered_emulated c g1 insn s m); rewrite ?Htr, ?Hbs1, ?Hbk1; try done.
      - intros f Hf. rewrite <- (same_user_get _ _ f (proj1 Hsh) Hf). by rewrite user_state_get.
      - apply (sm_trace _ _ _ _ _ _ Hs).
      - by rewrite <- Hbs. }
    destruct (dispatch_call fuel rl ES EA c' g1 m m0 insn raw s _ text Hh Hst Hb Hsh Hem Ht1 Hrl
                (Hfit _ Hn) Hat eq_refl) as (mc & p & mg & w & Hen & Hdp).
    by apply (round_from_end fuel dl rl ES EA c c' g g1 s v x m mc p mg w _ text Hs Eb Ha Hv Hsel Ht
                Hen Hdp (Hfit _ Hn)).
Qed.

(** For [n] blocks the guest stays within what the engine covers, and does not stop. *)
Record safe (n : nat) (c : guest) : Prop := {
  sf_covered k c' : (k < n)%nat -> nsteps native k c c' -> covered c' /\ exists c'', native c' c'';
  sf_fits c' : nsteps native n c c' -> fits c'
}.

Lemma safe_step n c c' : safe (S n) c -> native c c' -> safe n c'.
Proof.
  intros [Hc Hf] Hn. split.
  - intros k c1 Hk Hs. apply (Hc (S k)); [ lia | by econstructor ].
  - intros c1 Hs. apply Hf. by econstructor.
Qed.

Lemma safe_fits n c : safe n c -> fits c.
Proof.
  intros [Hc Hf]. destruct n as [| n]; [ apply Hf; constructor | ].
  apply (Hc 0%nat c ltac:(lia)). constructor.
Qed.

Lemma rounds_sim n : forall c g,
  safe n c -> sim c g -> (exists sp, ES sp) -> s32 (bbl_count (host g)) = bbl_count (host g) ->
  (exists g', nsteps round n g g') /\
  forall g', nsteps round n g g' ->
    exists c', nsteps native n c c' /\ sim c' g' /\
      bbl_count (host g') = s32 (bbl_count (host g) + Z.of_nat n).
Proof.
  induction n as [| n IH]; intros c g Hsf Hs Hsp Hb0.
  - split; [ exists g; constructor | ]. intros g' Hr. inversion Hr; subst.
    exists c. rewrite Z.add_0_r. split; [ constructor | done ].
  - destruct (sf_covered _ _ Hsf 0%nat c ltac:(lia) (nsteps_O _ _)) as [Hc [c1 Hn]].
    destruct (round_step c c1 g Hs Hc Hn (fun c' Hn' => safe_fits _ _ (safe_step _ _ _ Hsf Hn')) Hsp)
      as (c' & Hn' & [g1 Hr1] & Hall).
    pose proof (safe_step _ _ _ Hsf Hn') as Hsf'.
    assert (Hs32 : s32 (s32 (bbl_count (host g) + 1)) = s32 (bbl_count (host g) + 1))
      by apply s32_idemp.
    split.
    + destruct (Hall g1 Hr1) as [Hs1 Hb1].
      destruct (IH c' g1 Hsf' Hs1 Hsp ltac:(by rewrite Hb1)) as [[g' Hr'] _]. exists g'. by econstructor.
    + intros g' Hr. inversion Hr as [| ? ? g2 ? Hr2 Hr3]; subst.
      destruct (Hall g2 Hr2) as [Hs1 Hb1].
      destruct (IH c' g2 Hsf' Hs1 Hsp ltac:(by rewrite Hb1)) as [_ Hall'].
      destruct (Hall' g' Hr3) as (c2 & Hn2 & H1 & H2).
      exists c2. split; [ by econstructor | split; [ exact H1 | ] ].
      rewrite H2, Hb1, s32_add_l. f_equal. lia.
Qed.

(** C1: The engine runs the guest. As long as the guest on its own stays for n blocks within
    what the engine covers and does not stop (a block can be instrumented, keeps off the
    bytes under the hooks, and ends with a branch on which the emulation follows the
    processor or with a system call: one the engine passes on to the kernel and that
    succeeds, arch_prctl, a query of the break or its growth over free pages), the engine
    can make n rounds (block, dump hook and stub, dispatcher, restore stub and hook), and
    wherever n rounds lead it, the guest on its own can be in the corresponding state after
    n blocks: the same registers, vector registers, memory, segment bases, break and system
    calls, the hooks of the next block in place, and the callback called once per block. *)
Theorem engine_simulates (n : nat) (c : guest) (g : machine)
    (Hc : safe n c) (Hs : sim c g) (Hsp : exists sp, ES sp)
    (Hb : s32 (bbl_count (host g)) = bbl_count (host g)) :
  (exists g', nsteps round n g g') /\
  forall g', nsteps round n g g' ->
    exists c', nsteps native n c c' /\ sim c' g' /\
      bbl_count (host g') = s32 (bbl_count (host g) + Z.of_nat n).
Proof. by apply rounds_sim. Qed.
End Run.
