(* ===== verification/SetupSpec.v ===== *)
(** * The setup of the engine

    What [instrument] leaves before the guest runs: the stack of the engine, the two
    stubs in their pages, the trampolines in the hooks, and the hooks of the first block in
    place. *)

From S2P Require Import Prelude.
From S2P Require Import Pages.
From S2P Require Import Regs.
From S2P Require Import Process.
From S2P Require Import Syscalls.
From S2P Require Import Memory.
From S2P Require Import MemorySpec.
From S2P Require Import Branch.
From S2P Require Import Target.
From S2P Require Import TargetSpec.
From S2P Require Import Cflow.
From S2P Require Import CflowSpec.
From S2P Require Import Engine.
From S2P Require Import EngineSpec.
From S2P Require Import Stubs.
From S2P Require Import StubsSpec.

(** [m'] is [m] with new pages of protection [prot] on [len] bytes from [addr], which hold
    [code] and then zeros. *)
Record placed (m m' : aspace) (addr len prot : Z) (code : list Z) : Prop := {
  pl_prot : forall a, page_prot m' a = if in_range addr len a then Some prot else page_prot m a;
  pl_byte : forall a, byte_at m' a = if in_range addr len a
                                     then nth (Z.to_nat (a - addr)) code 0 else byte_at m a
}.

Lemma placed_has m m' addr len prot code flag a n :
  placed m m' addr len prot code -> truth (Z.land prot flag) = true ->
  addr <= a -> a + n <= addr + len -> range_has flag m' a n.
Proof.
  intros [Hp _] Hf Ha Hn x Hx. unfold has_prot. rewrite Hp.
  destruct (in_range_spec addr len x); [ done | lia ].
Qed.

(** A later mapping elsewhere leaves the range alone. *)
Lemma placed_apart_bytes m m' addr len prot code a n :
  placed m m' addr len prot code -> a + Z.of_nat n <= addr \/ addr + len <= a ->
  mem_bytes m' a n = mem_bytes m a n.
Proof.
  intros [_ Hb] Hd. apply mem_bytes_ext. intros x Hx. rewrite Hb.
  destruct (in_range_spec addr len x); [ lia | done ].
Qed.

Lemma placed_apart_has m m' addr len prot code flag a n :
  placed m m' addr len prot code -> a + n <= addr \/ addr + len <= a ->
  range_has flag m a n -> range_has flag m' a n.
Proof.
  intros [Hp _] Hd Hr x Hx. specialize (Hr x Hx). unfold has_prot in *. rewrite Hp.
  destruct (in_range_spec addr len x); [ lia | done ].
Qed.

Lemma placed_code m m' addr len prot code :
  placed m m' addr len prot code -> Z.of_nat (length code) <= len ->
  mem_bytes m' addr (length code) = code.
Proof.
  intros [_ Hb] Hl. apply mem_bytes_eq. intros x Hx. rewrite Hb.
  destruct (in_range_spec addr len x); [ done | lia ].
Qed.

Section SetupSpec.
Context `{HK : Kernel} `{HE : RegEnum} `{HD : Disassembler} `{HO : !DisassemblerOk}.
Context `{HY : Layout} `{HA : Assembler} `{HC : MmapChoice}.

(** A fresh mapping of whole pages. *)
Lemma mmap_placed m addr len prot :
  addr mod PAGE_SZ = 0 -> 0 < len -> len mod PAGE_SZ = 0 ->
  k_map_refused m addr len prot = false ->
  exists m', mmap_anon_fixed m addr len prot = Some m' /\ placed m m' addr len prot [].
Proof.
  intros Ha Hl Hm Hr. destruct (mmap_anon_fixed_some m addr len prot) as [m' E]; [ done.. | ].
  exists m'. split; [ done | ].
  pose proof (mmap_anon_fixed_spec m addr len prot m' E) as Hs.
  rewrite page_count_mult in Hs by (lia || done).
  split; intros a; destruct (Hs a) as [H1 H2]; [ done | ]. rewrite H2.
  destruct (in_range addr len a); [ | done ]. by destruct (Z.to_nat (a - addr)).
Qed.

(** Copying code into pages just mapped. *)
Lemma store_placed m m1 addr len prot code :
  placed m m1 addr len prot [] -> truth (Z.land prot PROT_WRITE) = true ->
  0 <= addr -> addr + len <= 2 ^ 64 -> Z.of_nat (length code) <= len ->
  exists m2, store_bytes m1 addr code = Some m2 /\ placed m m2 addr len prot code.
Proof.
  intros Hp Hw H0 H1 Hl.
  destruct (store_bytes_ok m1 addr code) as (m2 & E & Hpr & Hb); [ lia | lia | | ].
  { eapply placed_has; try done; lia. }
  exists m2. split; [ done | ]. destruct Hp as [Hpp Hpb]. split; intros a.
  - unfold page_prot in *. by rewrite Hpr.
  - rewrite Hb, Hpb.
    destruct (in_range_spec addr (Z.of_nat (length code)) a), (in_range_spec addr len a);
      try done; try lia.
    rewrite !nth_overflow; [ done | lia | simpl; lia ].
Qed.

(** The common frame of the two stubs. *)
Lemma craft_stub_run addr record text p insns code :
  addr mod PAGE_SZ = 0 -> 0 <= addr -> addr + LENGTH_STUB <= 2 ^ 64 ->
  k_map_refused (mem p) addr LENGTH_STUB PROT_RWX = false ->
  text (record (dbi p)) = Some insns -> ks_asm insns = Some code ->
  Z.of_nat (length code) <= LENGTH_STUB ->
  exists m', craft_stub addr record text p = Ret addr ((with_dbi p record) <| mem := m' |>) /\
    placed (mem p) m' addr LENGTH_STUB PROT_RWX code.
Proof.
  intros Ha H0 H1 Hr Ht Hc Hl.
  destruct (mmap_placed (mem p) addr LENGTH_STUB PROT_RWX) as (m1 & E1 & P1); try done.
  destruct (store_placed _ _ _ _ _ code P1) as (m2 & E2 & P2); try done.
  exists m2. split; [ | done ]. unfold craft_stub. erewrite bind_Ret by reflexivity.
  rewrite E1. erewrite bind_Ret by reflexivity. erewrite bind_Ret by reflexivity.
  change (dbi (with_dbi (p <| mem := m1 |>) record)) with (record (dbi p)). rewrite Ht. unfold put_stub. rewrite Hc.
  unfold lift_mem, mbind, M_bind. simpl. rewrite E2. reflexivity.
Qed.

(** An AVX-512 state has no stub: the page is mapped and recorded, and -1 returned. *)
Lemma craft_stub_refused addr record text p :
  addr mod PAGE_SZ = 0 -> k_map_refused (mem p) addr LENGTH_STUB PROT_RWX = false ->
  text (record (dbi p)) = None ->
  exists m', craft_stub addr record text p = Ret minus1 ((with_dbi p record) <| mem := m' |>).
Proof.
  intros Ha Hr Ht.
  destruct (mmap_placed (mem p) addr LENGTH_STUB PROT_RWX) as (m1 & E1 & P1); try done.
  exists m1. unfold craft_stub. erewrite bind_Ret by reflexivity.
  rewrite E1. erewrite bind_Ret by reflexivity. erewrite bind_Ret by reflexivity.
  change (dbi (with_dbi (p <| mem := m1 |>) record)) with (record (dbi p)). by rewrite Ht.
Qed.

Lemma map_stack_run p r :
  k_choose (mem p) STACK_SZ = Some r -> r mod PAGE_SZ = 0 -> 0 <= r -> r + STACK_SZ < 2 ^ 64 ->
  k_map_refused (mem p) r STACK_SZ (Z.lor PROT_READ PROT_WRITE) = false ->
  exists m', map_stack p = Ret (r + 0x28000) (p <| mem := m' |>) /\
    placed (mem p) m' r STACK_SZ (Z.lor PROT_READ PROT_WRITE) [].
Proof.
  intros Hc Hr H0 H1 Hk.
  destruct (mmap_placed (mem p) r STACK_SZ (Z.lor PROT_READ PROT_WRITE)) as (m1 & E1 & P1);
    try done.
  exists m1. split; [ | done ]. unfold map_stack. erewrite bind_Ret by reflexivity.
  rewrite Hc, E1. erewrite bind_Ret by reflexivity.
  rewrite u64_small by (unfold is_u64, STACK_SZ in *; lia). reflexivity.
Qed.

(** ** The trampolines *)

Lemma encode_patch_run insns code p :
  ks_asm insns = Some code -> (length code <= 256)%nat ->
  encode_patch insns (replicate 256 0) p
  = Ret (Z.of_nat (length code), code ++ replicate (256 - length code) 0) p.
Proof.
  intros Hc Hl. unfold encode_patch. rewrite Hc. unfold lift_option, mbind, M_bind.
  unfold buf_write. rewrite length_replicate.
  rewrite (proj2 (Z.leb_le (0 + Z.of_nat (length code)) (Z.of_nat 256))) by lia.
  cbn [Z.leb Z.compare andb mbind option_bind]. unfold s32. rewrite sext_small by lia.
  by rewrite drop_replicate.
Qed.

Lemma realloc_code code k n :
  (length code <= n)%nat -> (n <= length code + k)%nat ->
  take (length code) (realloc (code ++ replicate k 0) (Z.of_nat n)) = code /\
  length (realloc (code ++ replicate k 0) (Z.of_nat n)) = n.
Proof.
  intros Hn Hk. unfold realloc. rewrite Nat2Z.id. split; [ | apply length_resize ].
  rewrite take_resize_le by lia. rewrite resize_le by (rewrite length_app; lia).
  apply take_app_length.
Qed.

(** [f] is the update of the hook by its trampoline [code]. *)
Definition armed (h h' : hook) (code : list Z) : Prop :=
  hlength h' = Z.of_nat (length code) /\ hook_bytes h' = code /\
  (length code <= length (hcode h'))%nat /\
  orig_bytes h' = orig_bytes h /\ to_unmap h' = to_unmap h.

Lemma set_dump_hook_run p code :
  ks_asm (dump_hook_text (dump_stub (dbi p))) = Some code -> (length code < 256)%nat ->
  exists h', set_dump_hook p = Ret 0 (set_hook Dump (fun _ => h') p) /\
    armed (dump (dbi p)) h' code /\ jmp h' = 0.
Proof.
  intros Hc Hl. destruct (realloc_code code (256 - length code) (S (length code))) as [H1 H2];
    [ lia | lia | ].
  set (hc := realloc (code ++ replicate (256 - length code) 0) (Z.of_nat (S (length code)))) in *.
  exists ((dump (dbi p)) <| hcode := hc |> <| hlength := Z.of_nat (length code) |> <| jmp := 0 |>).
  split_and!; try done.
  - unfold set_dump_hook, dump_hook. rewrite bind_assoc. erewrite bind_Ret by reflexivity.
    erewrite bind_Ret by (apply encode_patch_run; [ exact Hc | lia ]). cbv beta iota.
    erewrite bind_Ret by reflexivity.
    rewrite (proj2 (Z.eqb_neq (Z.of_nat (length code)) (-1))) by lia.
    replace (Z.of_nat (length code) + 1) with (Z.of_nat (S (length code))) by lia. fold hc.
    do 3 erewrite bind_Ret by reflexivity. reflexivity.
  - unfold armed, hook_bytes. simpl. rewrite Nat2Z.id, H2. split_and!; try done. lia.
Qed.

Lemma set_restore_hook_run p code :
  ks_asm restore_hook_text = Some code -> (length code <= 256)%nat ->
  exists h', set_restore_hook p = Ret 0 (set_hook Restore (fun _ => h') p) /\
    armed (restore (dbi p)) h' code /\ jmp h' = jmp (restore (dbi p)).
Proof.
  intros Hc Hl. destruct (realloc_code code (256 - length code) (length code)) as [H1 H2];
    [ lia | lia | ].
  set (hc := realloc (code ++ replicate (256 - length code) 0) (Z.of_nat (length code))) in *.
  exists ((restore (dbi p)) <| hcode := hc |> <| hlength := Z.of_nat (length code) |>).
  split_and!; try done.
  - unfold set_restore_hook, restore_hook.
    erewrite bind_Ret by (apply encode_patch_run; [ exact Hc | lia ]). cbv beta iota.
    erewrite bind_Ret by reflexivity.
    rewrite (proj2 (Z.eqb_neq (Z.of_nat (length code)) (-1))) by lia. fold hc.
    do 2 erewrite bind_Ret by reflexivity. reflexivity.
  - unfold armed, hook_bytes. simpl. rewrite Nat2Z.id, H2. split_and!; try done.
Qed.

Lemma armed_wf h h' code :
  armed h h' code -> (0 < length code <= 64)%nat -> length (orig_bytes h) = 64%nat -> hook_wf h'.
Proof.
  intros (H1 & _ & H2 & H3 & _) Hl Ho. split; rewrite ?H1, ?H3, ?Ho; unfold PAGE_SZ; lia.
Qed.

(** ** [instrument] *)

Definition PROT_RW : Z := Z.lor PROT_READ PROT_WRITE.

(** What the setup relies on: the kernel maps the stack at [r], away from the pages of the
    stubs, and the assembler encodes the two stubs as [cd] and [cr] and the two trampolines
    as [ct] and [cs]. *)
Record setup_ready (p : proc) (r : Z) (cd cr ct cs : list Z) : Prop := {
  st_choose : k_choose (mem p) STACK_SZ = Some r;
  st_base : r mod PAGE_SZ = 0 /\ 0 <= r /\ r + STACK_SZ < 2 ^ 64;
  st_apart : forall a, a = STUB_ADDR_DUMP \/ a = STUB_ADDR_RESTORE ->
               a + LENGTH_STUB <= r \/ r + STACK_SZ <= a;
  st_allowed : forall m, k_map_refused m r STACK_SZ PROT_RW = false /\
                 k_map_refused m STUB_ADDR_DUMP LENGTH_STUB PROT_RWX = false /\
                 k_map_refused m STUB_ADDR_RESTORE LENGTH_STUB PROT_RWX = false;
  st_dump : (craft_hook_text ((dbi p) <| host_rsp := r + 0x28000 |>) ≫= ks_asm) = Some cd;
  st_restore : (craft_restore_stub_text (dbi p) ≫= ks_asm) = Some cr;
  st_sizes : Z.of_nat (length cd) <= LENGTH_STUB /\ Z.of_nat (length cr) <= LENGTH_STUB;
  st_dump_hook : ks_asm (dump_hook_text STUB_ADDR_DUMP) = Some ct;
  st_restore_hook : ks_asm restore_hook_text = Some cs;
  st_lengths : (0 < length ct <= 64)%nat /\ (0 < length cs <= 64)%nat;
  st_orig : length (orig_bytes (dump (dbi p))) = 64%nat /\
            length (orig_bytes (restore (dbi p))) = 64%nat
}.

(** The process when the first block is instrumented. *)
Record setup_done (p p1 : proc) (r : Z) (cd cr ct cs : list Z) : Prop := {
  sd_state : gstate p1 = gstate p;
  sd_mem : exists m1 m2, placed (mem p) m1 r STACK_SZ PROT_RW [] /\
             placed m1 m2 STUB_ADDR_DUMP LENGTH_STUB PROT_RWX cd /\
             placed m2 (mem p1) STUB_ADDR_RESTORE LENGTH_STUB PROT_RWX cr;
  sd_stubs : dump_stub (dbi p1) = STUB_ADDR_DUMP /\ restore_stub (dbi p1) = STUB_ADDR_RESTORE;
  sd_host_rsp : host_rsp (dbi p1) = r + 0x28000;
  sd_dump : armed (dump (dbi p)) (dump (dbi p1)) ct;
  sd_restore : armed (restore (dbi p)) (restore (dbi p1)) cs;
  sd_callback : take_callback (dbi p1) = true;
  sd_bases : cpu_fs p1 = cpu_fs p /\ cpu_gs p1 = cpu_gs p;
  sd_guest : instrumented_fs (dbi p1) = instrumented_fs (dbi p);
  sd_flag : curr_syscall p1 = curr_syscall p;
  sd_table : table (dbi p1) = table (dbi p);
  sd_count : bbl_count p1 = bbl_count p;
  sd_brk : vbrk (dbi p1) = vbrk (dbi p)
}.

(** The first block, [d] bytes from the entry point with [n] bytes in front of it, can be
    instrumented and is apart from what the setup maps. *)
Record first_block (fuel : nat) (p : proc) (r entry d n : Z) : Prop := {
  fb_block : block_end (mem p) entry (curr_syscall p) d;
  fb_low : n < entry;
  fb_high : entry + d + PAGE_SZ + 1 < 2 ^ 64;
  fb_size : d < 2 ^ 31;
  fb_fuel : d < Z.of_nat fuel;
  fb_read : range_has PROT_READ (mem p) (entry - n) (n + d + PAGE_SZ);
  fb_allowed : rwx_allowed (entry - n) (n + d + PAGE_SZ);
  fb_apart : forall lo len, (lo, len) ∈ [(r, STACK_SZ); (STUB_ADDR_DUMP, LENGTH_STUB);
                                         (STUB_ADDR_RESTORE, LENGTH_STUB)] ->
               entry + d + PAGE_SZ <= lo \/ lo + len <= entry - n
}.

(** Every place on the stack of the engine can be used. *)
Lemma setup_stack_room p p1 r cd cr ct cs sp :
  setup_ready p r cd cr ct cs -> setup_done p p1 r cd cr ct cs ->
  r + 16 <= sp <= r + STACK_SZ -> stack_room (mem p1) sp 16.
Proof.
  intros Hr Hd Hsp. pose proof (st_base _ _ _ _ _ _ Hr) as (_ & H0 & H1).
  destruct (sd_mem _ _ _ _ _ _ _ Hd) as (m1 & m2 & P1 & P2 & P3).
  pose proof (st_apart _ _ _ _ _ _ Hr _ (or_introl eq_refl)).
  pose proof (st_apart _ _ _ _ _ _ Hr _ (or_intror eq_refl)).
  assert (Hrw : forall flag, truth (Z.land PROT_RW flag) = true ->
    range_has flag (mem p1) (sp - 16) 16).
  { intros flag Hf. eapply (placed_apart_has _ _ _ _ _ _ flag _ _ P3); [ lia | ].
    eapply (placed_apart_has _ _ _ _ _ _ flag _ _ P2); [ lia | ].
    eapply placed_has; [ exact P1 | done | lia | lia ]. }
  split; [ lia | lia | by apply Hrw | by apply Hrw ].
Qed.

(** The stubs are in their pages and the engine has its stack. *)
Lemma setup_done_mem p p1 r cd cr ct cs :
  setup_ready p r cd cr ct cs -> setup_done p p1 r cd cr ct cs ->
  mem_bytes (mem p1) STUB_ADDR_DUMP (length cd) = cd /\
  mem_bytes (mem p1) STUB_ADDR_RESTORE (length cr) = cr /\
  stack_room (mem p1) (host_rsp (dbi p1)) 16.
Proof.
  intros Hr Hd. pose proof (st_sizes _ _ _ _ _ _ Hr) as [Sd Sr].
  destruct (sd_mem _ _ _ _ _ _ _ Hd) as (m1 & m2 & P1 & P2 & P3). split_and!.
  - rewrite (placed_apart_bytes _ _ _ _ _ _ _ _ P3);
      [ by eapply placed_code | unfold LENGTH_STUB, STUB_ADDR_DUMP, STUB_ADDR_RESTORE in *; lia ].
  - by eapply placed_code.
  - rewrite (sd_host_rsp _ _ _ _ _ _ _ Hd). eapply setup_stack_room; [ done | done | ].
    unfold STACK_SZ. lia.
Qed.

Lemma placed_apart_byte m m' addr len prot code x :
  placed m m' addr len prot code -> x < addr \/ addr + len <= x -> byte_at m' x = byte_at m x.
Proof. intros [_ Hb] Hx. rewrite Hb. destruct (in_range_spec addr len x); [ lia | done ]. Qed.

Lemma first_block_ready fuel p p1 r cd cr ct cs entry d :
  setup_ready p r cd cr ct cs -> setup_done p p1 r cd cr ct cs ->
  first_block fuel p r entry d (Z.of_nat (length cs)) -> can_instrument fuel p1 entry d.
Proof.
  intros [_ _ _ _ _ _ _ _ _ [Lt Ls] [Od Or]] [_ (m1 & m2 & P1 & P2 & P3) _ _ A1 A2 _ _ _ Hf _ _]
    [Hb Hlow Hhigh Hsz Hfu Hrd Hal Hap].
  pose proof (Hap _ _ ltac:(left)) as D1.
  pose proof (Hap _ _ ltac:(right; left)) as D2.
  pose proof (Hap _ _ ltac:(right; right; left)) as D3.
  assert (Hl : hlength (restore (dbi p1)) = Z.of_nat (length cs)) by apply A2.
  split; rewrite ?Hl; try done.
  - by eapply armed_wf.
  - by eapply armed_wf.
  - rewrite Hf. apply (block_end_local (mem p) _ _ _ _ entry (entry + d + PAGE_SZ));
      [ | lia | unfold PAGE_SZ; lia | done ].
    intros x Hx. rewrite (placed_apart_byte _ _ _ _ _ _ _ P3) by lia.
    rewrite (placed_apart_byte _ _ _ _ _ _ _ P2) by lia.
    by rewrite (placed_apart_byte _ _ _ _ _ _ _ P1) by lia.
  - eapply placed_apart_has; [ exact P3 | lia | ]. eapply placed_apart_has; [ exact P2 | lia | ].
    eapply placed_apart_has; [ exact P1 | lia | done ].
Qed.

(** The part of [instrument] after the first block is instrumented. *)
Definition instrument_tail (e r : Z) : M unit :=
  check r;;
  modify (fun p => with_state p (fun s => s <| rip := e |>));;
  '(r, f, g) ← save_fs_gs;
  modify (fun p => with_dbi p (fun d =>
    d <| host_state := (host_state d) <| fs := f |> <| gs := g |> |>));;
  (if r =? -1 then fatal_dump
   else
     d ← get dbi;
     if truth (instrumented_fs d) then r ← set_guest_fs_gs; check r else mret ()).

(** The part of [instrument] before the first block is instrumented. *)
Lemma instrument_setup fuel e p r cd cr ct cs :
  setup_ready p r cd cr ct cs ->
  exists p1, setup_done p p1 r cd cr ct cs /\
    instrument fuel e p
    = (instrument_request fuel e ≫= instrument_tail e) p1.
Proof.
  intros [Hch [Hr [H0 H1]] Hap Hal Hd Hre [Sd Sr] Ht Hs [Lt Ls] [Od Or]].
  destruct (craft_hook_text _) as [dt |] eqn:Etd in Hd; [ | done ].
  destruct (craft_restore_stub_text _) as [rt |] eqn:Etr in Hre; [ | done ].
  simpl in Hd, Hre. unfold instrument.
  erewrite bind_Ret by reflexivity.
  set (p0 := with_dbi p (fun d => d <| curr_hook := 0 |>)).
  destruct (map_stack_run p0 r) as (m1 & E1 & P1); [ done.. | apply Hal | ].
  erewrite bind_Ret by exact E1. do 2 erewrite bind_Ret by reflexivity.
  set (q0 := with_dbi (with_dbi (p0 <| mem := m1 |>) (fun d => d <| host_rsp := r + 0x28000 |>))
               (fun d => d <| take_callback := true |>)).
  destruct (craft_stub_run STUB_ADDR_DUMP (fun d => d <| dump_stub := STUB_ADDR_DUMP |>)
    craft_hook_text q0 dt cd) as (m2 & E2 & P2); try done; try apply Hal.
  erewrite bind_Ret by exact E2.
  set (q1 := (with_dbi q0 (fun d => d <| dump_stub := STUB_ADDR_DUMP |>)) <| mem := m2 |>) in *.
  destruct (craft_stub_run STUB_ADDR_RESTORE (fun d => d <| restore_stub := STUB_ADDR_RESTORE |>)
    craft_restore_stub_text q1 rt cr) as (m3 & E3 & P3); try done; try apply Hal.
  change (STUB_ADDR_DUMP =? minus1) with false. cbv iota. rewrite bind_assoc.
  erewrite bind_Ret by exact E3. change (STUB_ADDR_RESTORE =? minus1) with false.
  erewrite bind_Ret by reflexivity. cbv iota beta.
  set (q2 := (with_dbi q1 (fun d => d <| restore_stub := STUB_ADDR_RESTORE |>)) <| mem := m3 |>) in *.
  destruct (set_dump_hook_run q2 ct) as (hd & E4 & A4 & _); [ exact Ht | lia | ].
  rewrite bind_assoc. erewrite bind_Ret by exact E4. change (0 =? -1) with false. cbv iota.
  set (q3 := set_hook Dump (fun _ => hd) q2) in *.
  destruct (set_restore_hook_run q3 cs) as (hr & E5 & A5 & _); [ exact Hs | lia | ].
  rewrite bind_assoc. erewrite bind_Ret by exact E5. erewrite bind_Ret by (by apply check_ok).
  exists (set_hook Restore (fun _ => hr) q3). split.
  { split; try done. by exists m1, m2. }
  reflexivity.
Qed.

Lemma core_bases p q : core p = core q -> cpu_fs p = cpu_fs q /\ cpu_gs p = cpu_gs q.
Proof. unfold core. intros E. injection E. intros. by split. Qed.

(** What [instrument] makes of the process once the first block is instrumented. *)
Definition started (e : Z) (p : proc) : proc :=
  with_dbi (with_state p (fun s => s <| rip := e |>))
    (fun d => d <| host_state := (host_state d) <| fs := cpu_fs p |> <| gs := cpu_gs p |> |>).

Lemma instrument_tail_run e p : instrumented_fs (dbi p) = 0 -> instrument_tail e 0 p = Ret () (started e p).
Proof.
  intros Hfs. unfold instrument_tail. erewrite bind_Ret by (by apply check_ok).
  do 2 erewrite bind_Ret by reflexivity. cbv beta iota. erewrite bind_Ret by reflexivity.
  change (0 =? -1) with false. cbv iota. erewrite bind_Ret by reflexivity.
  match goal with |- context [truth ?x] => change x with (instrumented_fs (dbi p)) end.
  rewrite Hfs. reflexivity.
Qed.

(** [instrument] from end to end. *)
Lemma instrument_run fuel e r d p cd cr ct cs :
  setup_ready p r cd cr ct cs -> instrumented_fs (dbi p) = 0 ->
  to_unmap (dump (dbi p)) = 0 -> to_unmap (restore (dbi p)) = 0 ->
  first_block fuel p r e d (Z.of_nat (length cs)) ->
  exists p1 p2, setup_done p p1 r cd cr ct cs /\ core p2 = core p1 /\
    instrument fuel e p = Ret () (started e p2) /\ instrumented (mem p1) p2 /\
    jmp (dump (dbi p2)) = e + d /\ jmp (restore (dbi p2)) = e - Z.of_nat (length cs).
Proof.
  intros Hr Hfs Hu1 Hu2 Hb.
  destruct (instrument_setup fuel e p r cd cr ct cs Hr) as (p1 & Hd & E).
  pose proof (first_block_ready _ _ _ _ _ _ _ _ _ _ Hr Hd Hb) as Hci.
  destruct (sd_dump _ _ _ _ _ _ _ Hd) as (_ & _ & _ & _ & Hu1').
  destruct (sd_restore _ _ _ _ _ _ _ Hd) as (Hl & _ & _ & _ & Hu2').
  destruct (instrument_request_run fuel p1 e d Hci) as (p2 & E2 & Hcore & Hin & Hj & Hjr);
    [ by rewrite Hu1' | by rewrite Hu2' | ].
  destruct (core_rest p2 p1 Hcore) as (_ & Hfi & _). rewrite Hl in Hjr.
  exists p1, p2. split_and!; try done. rewrite E. erewrite bind_Ret by exact E2.
  apply instrument_tail_run. by rewrite Hfi, (sd_guest _ _ _ _ _ _ _ Hd).
Qed.

Lemma instrumented_started m e p : instrumented m p -> instrumented m (started e p).
Proof. by intros []. Qed.

(** instrument maps the stack of the engine and the two stubs with their encodings,
    arms both hooks with the trampolines, puts the hooks of the first block in place around
    the entry point over an otherwise unchanged memory, sets the instruction pointer to the
    entry point and records the segment bases of the engine. *)
Theorem instrument_ok (fuel : nat) (exec_entry r d : Z) (p : proc) (cd cr ct cs : list Z)
    (Hr : setup_ready p r cd cr ct cs) (Hfs : instrumented_fs (dbi p) = 0)
    (Hu1 : to_unmap (dump (dbi p)) = 0) (Hu2 : to_unmap (restore (dbi p)) = 0)
    (Hb : first_block fuel p r exec_entry d (Z.of_nat (length cs))) :
  exists p1 p2, setup_done p p1 r cd cr ct cs /\
    mem_bytes (mem p1) STUB_ADDR_DUMP (length cd) = cd /\
    mem_bytes (mem p1) STUB_ADDR_RESTORE (length cr) = cr /\
    stack_room (mem p1) (host_rsp (dbi p1)) 16 /\
    instrument fuel exec_entry p = Ret () p2 /\ instrumented (mem p1) p2 /\
    gstate p2 = (gstate p) <| rip := exec_entry |> /\
    jmp (dump (dbi p2)) = exec_entry + d /\ hook_bytes (dump (dbi p2)) = ct /\
    hook_bytes (restore (dbi p2)) = cs /\
    fs (host_state (dbi p2)) = cpu_fs p /\ gs (host_state (dbi p2)) = cpu_gs p.
Proof.
  destruct (instrument_run fuel exec_entry r d p cd cr ct cs Hr Hfs Hu1 Hu2 Hb)
    as (p1 & p2 & Hd & Hcore & E & Hin & Hj & _).
  destruct (setup_done_mem p p1 r cd cr ct cs Hr Hd) as (C1 & C2 & C3).
  destruct (core_rest p2 p1 Hcore) as (Hst & _).
  destruct (core_hooks p2 p1 Hcore) as (D1 & D2 & _ & R1 & R2 & _).
  destruct (core_bases p2 p1 Hcore) as [Bf Bg].
  pose proof Hd as [S1 _ _ _ (_ & A1 & _) (_ & A2 & _) _ [B1 B2] _ _ _ _ _].
  exists p1, (started exec_entry p2). split_and!; try done.
  - by apply instrumented_started.
  - change (gstate (started exec_entry p2)) with ((gstate p2) <| rip := exec_entry |>).
    unfold gstate in *. by rewrite Hst, S1.
  - rewrite <- A1. unfold hook_bytes. simpl. by rewrite D1, D2.
  - rewrite <- A2. unfold hook_bytes. simpl. by rewrite R1, R2.
  - by rewrite <- B1, <- Bf.
  - by rewrite <- B2, <- Bg.
Qed.

(** ** No support for AVX-512 *)

Lemma craft_stub_none addr record text p :
  (forall d, state d = gstate p -> text d = None) ->
  (forall d, state (record d) = state d) ->
  exists p', craft_stub addr record text p = Ret minus1 p' /\ gstate p' = gstate p.
Proof.
  intros Ht Hs. unfold craft_stub. erewrite bind_Ret by reflexivity.
  destruct (mmap_anon_fixed _ _ _ _) as [m1 |]; [ | by eexists ].
  do 2 erewrite bind_Ret by reflexivity.
  change (dbi (with_dbi (p <| mem := m1 |>) record)) with (record (dbi p)).
  rewrite Ht by apply Hs. eexists. split; [ reflexivity | apply Hs ].
Qed.

Lemma map_stack_returns p :
  exists sp m, map_stack p = Ret sp (p <| mem := m |>).
Proof.
  unfold map_stack. erewrite bind_Ret by reflexivity.
  destruct (k_choose (mem p) STACK_SZ) as [r |];
    [ destruct (mmap_anon_fixed (mem p) r _ _) as [m |] | ].
  - do 2 eexists. by erewrite bind_Ret by reflexivity.
  - exists minus1, (mem p). by destruct p.
  - exists minus1, (mem p). by destruct p.
Qed.

(** With an AVX-512 state no stub can be built: instrument ends the process with status
    255, whatever the kernel and the assembler answer. *)
Theorem instrument_avx512 (fuel : nat) (exec_entry : Z) (p : proc) (l : list Z)
    (Hs : sse (gstate p) = None) (Ha : avx2 (gstate p) = None)
    (H5 : avx512 (gstate p) = Some l) :
  exists p', instrument fuel exec_entry p = Exited 255 p'.
Proof.
  unfold instrument. erewrite bind_Ret by reflexivity.
  destruct (map_stack_returns (with_dbi p (fun d => d <| curr_hook := 0 |>))) as (sp & m & E).
  erewrite bind_Ret by exact E. do 2 erewrite bind_Ret by reflexivity.
  match goal with |- context [(craft_hook ≫= _) ?x] => set (q := x) end.
  destruct (craft_stub_none STUB_ADDR_DUMP (fun d => d <| dump_stub := STUB_ADDR_DUMP |>)
    craft_hook_text q) as (q1 & E1 & G1).
  { intros d Hd. unfold craft_hook_text, hook_vectors. rewrite Hd.
    change (gstate q) with (gstate p). by rewrite Hs, Ha, H5. }
  { done. }
  erewrite bind_Ret by exact E1. rewrite Z.eqb_refl. erewrite bind_Ret by reflexivity.
  cbv iota. exists q1. unfold mbind at 1, M_bind at 1. rewrite fatal_dump_spec.
  change (gstate q) with (gstate p) in G1. by rewrite G1, Hs, Ha, H5.
Qed.
End SetupSpec.

Section Start.
Context `{HY : Layout} `{HL : !LayoutOk} `{HS : Selectors}.

(** The registers [exec_binary] clears. *)
Definition cleared_regs : list field :=
  [F_rax; F_rbx; F_rcx; F_rdx; F_rdi; F_rsi; F_rbp; F_r8; F_r9; F_r10; F_r11; F_r12; F_r13;
   F_r14; F_r15].

(** The registers it leaves. *)
Definition kept_regs : list field := [F_cs; F_ss; F_ds; F_es; F_fs; F_gs].

Lemma exec_binary_run (m : machine) (entry sp : Z) :
  stack_room (mem (host m)) sp 16 -> sp < 2 ^ 64 - 8 -> is_u64 entry ->
  exists m' mm, run (exec_binary_text entry sp) m = Some (m', Some entry) /\
    (forall f, f ∈ cleared_regs -> reg m' f = 0) /\ reg m' F_rsp = sp /\
    Z.land (reg m' F_rflags) FLAGS_USER = 0 /\ vec m' = replicate 16 0 /\
    host m' = (host m) <| mem := mm |> /\ below sp 16 (mem (host m)) mm /\
    mxcsr m' = mxcsr m /\ (forall f, f ∈ kept_regs -> reg m' f = reg m f).
Proof.
  intros Hr Hh He. pose proof (sr_low _ _ _ Hr).
  unfold exec_binary_text. cbn [map app]. do 17 erewrite run_cons by reflexivity.
  match goal with |- context [run _ ?x] => set (m1 := x) end.
  destruct (push_ok m1 sp 16 0 entry) as (mm1 & E1 & L1 & B1 & _);
    [ change (sp = sp - 0); lia | exact Hr | done | done | ].
  erewrite run_cons by (cbn [step]; change (reg m1 F_rax) with entry; rewrite E1; reflexivity).
  erewrite run_cons by reflexivity.
  match goal with |- context [run _ ?x] => set (m2 := x) end.
  destruct (push_ok m2 sp 16 8 0) as (mm2 & E2 & L2 & B2 & F2);
    [ change (sp - (0 + 8) = sp - 8); lia | by eapply below_room | done | done | ].
  erewrite run_cons by (cbn [step]; change (reg m2 F_rax) with 0; rewrite E2; reflexivity).
  match goal with |- context [run _ ?x] => set (m3 := x) end.
  erewrite run_cons.
  2: { cbn [step]. rewrite (pop_ok m3 (u64 0));
         [ reflexivity | exact L2 | change (0 <= sp - (8 + 8) < 2 ^ 64 - 8); lia ]. }
  match goal with |- context [run _ ?x] => set (m4 := x) end.
  assert (H4 : reg m4 F_rsp = sp - 8) by (change (sp - (8 + 8) + 8 = sp - 8); lia).
  cbn [run step]. rewrite (pop_ok m4 (u64 entry)).
  2: { rewrite H4. change (load64 mm2 (sp - 8) = Some (u64 entry)). rewrite F2 by lia. exact L1. }
  2: { rewrite H4. lia. }
  cbn [mbind option_bind]. rewrite u64_small by done.
  exists (set_reg m4 F_rsp (reg m4 F_rsp + 8)), mm2. split_and!; try done.
  - intros f Hf. change (f ∈ cleared_regs) in Hf. unfold cleared_regs in Hf.
    repeat (apply elem_of_cons in Hf as [-> | Hf]; [ reflexivity | ]).
    by apply not_elem_of_nil in Hf.
  - change (reg m4 F_rsp + 8 = sp). lia.
  - etransitivity; [ apply load_flags_user | done ].
  - etransitivity; [ exact B1 | exact B2 ].
  - intros f Hf. unfold kept_regs in Hf.
    repeat (apply elem_of_cons in Hf as [-> | Hf]; [ reflexivity | ]).
    by apply not_elem_of_nil in Hf.
Qed.

(** exec_binary enters the guest at the entry point with the prepared stack pointer,
    all other general registers and the vector registers zero and the user flags clear,
    changing only 16 bytes below the stack pointer. *)
Theorem exec_binary_starts (m : machine) (entry sp : Z)
    (Hr : stack_room (mem (host m)) sp 16) (Hh : sp < 2 ^ 64 - 8) (He : is_u64 entry) :
  exists m' mm, run (exec_binary_text entry sp) m = Some (m', Some entry) /\
    (forall f, f ∈ cleared_regs -> reg m' f = 0) /\ reg m' F_rsp = sp /\
    Z.land (reg m' F_rflags) FLAGS_USER = 0 /\ vec m' = replicate 16 0 /\
    host m' = (host m) <| mem := mm |> /\ below sp 16 (mem (host m)) mm.
Proof.
  destruct (exec_binary_run m entry sp Hr Hh He) as (m' & mm & H). exists m', mm. tauto.
Qed.
End Start.
