(* ===== verification/StartSpec.v ===== *)
(** * The start of the guest

    From the process the loader leaves to the first state of the simulation: [instrument]
    sets the engine up and puts the hooks of the first block in place, and [exec_binary]
    jumps to the entry point. *)

From S2P Require Import Prelude.
From S2P Require Import Pages.
From S2P Require Import Regs.
From S2P Require Import Process.
From S2P Require Import Syscalls.
From S2P Require Import Memory.
From S2P Require Import MemorySpec.
From S2P Require Import Branch.
From S2P Require Import Target.
From S2P Require Import TargetSpec.
From S2P Require Import Cflow.
From S2P Require Import CflowSpec.
From S2P Require Import Engine.
From S2P Require Import EngineSpec.
From S2P Require Import Stubs.
From S2P Require Import Native.
From S2P Require Import StubsSpec.
From S2P Require Import RoundSpec.
From S2P Require Import CallSpec.
From S2P Require Import SimSpec.
From S2P Require Import RunSpec.
From S2P Require Import SetupSpec.

(** What [instrument] maps when the kernel puts the stack at [r]. *)
Definition engine_area (r x : Z) : Prop :=
  r <= x < r + STACK_SZ \/ STUB_ADDR_DUMP <= x < STUB_ADDR_DUMP + LENGTH_STUB \/
  STUB_ADDR_RESTORE <= x < STUB_ADDR_RESTORE + LENGTH_STUB.

(** The stack pointers inside that stack. *)
Definition in_stack (r sp : Z) : Prop := r + 16 <= sp <= r + 0x28000.

Lemma hosts_placed m m0 m1 addr len prot code :
  hosts m m0 -> placed m0 m1 addr len prot code ->
  (forall x, addr <= x < addr + len -> page_prot m x = None) -> hosts m m1.
Proof.
  intros [P B] [Pp Pb] Hf. split; intros x.
  - intros q Hq. rewrite Pp. destruct (in_range_spec addr len x) as [Hx | Hx]; [ | by apply P ].
    by rewrite (Hf x Hx) in Hq.
  - intros Hs. rewrite Pb. destruct (in_range_spec addr len x) as [Hx | Hx]; [ | by apply B ].
    rewrite (Hf x Hx) in Hs. by destruct Hs.
Qed.

Lemma hosts_overlay sp n mm m m0 :
  hosts m m0 -> hosts (overlay sp n mm m) (overlay sp n mm m0).
Proof.
  intros [P B]. split; intros x; [ apply P | ]. intros Hx. rewrite !overlay_byte.
  destruct (in_range _ _ _); [ done | by apply B ].
Qed.

Section Start.
Context `{HK : Kernel} `{HE : RegEnum} `{HD : Disassembler} `{HO : !DisassemblerOk}.
Context `{HY : Layout} `{HL : !LayoutOk} `{HS : Selectors} `{HP : Processor}.
Context `{HA : Assembler} `{HC : MmapChoice}.
Context (fuel : nat) (r entry d : Z) (cd cr ct cs : list Z).

#[local] Abbreviation rl := (Z.of_nat (length cs)).

(** The process of the loader: the memory [m] of the guest is mapped, its first block fits,
    what the engine will map is free, and the engine is in AVX2 mode. *)
Record loaded (m : aspace) (p : proc) : Prop := {
  ld_setup : setup_ready p r cd cr ct cs;
  ld_hosts : hosts m (mem p);
  ld_free x : engine_area r x -> page_prot m x = None;
  ld_fits : fits_block fuel rl m entry d;
  ld_fs : instrumented_fs (dbi p) = 0;
  ld_unmap : to_unmap (dump (dbi p)) = 0 /\ to_unmap (restore (dbi p)) = 0;
  ld_flag : curr_syscall p = false;
  ld_bases : k_base_ok (cpu_fs p) = true /\ k_base_ok (cpu_gs p) = true;
  ld_table : hashmap_ok (table (dbi p));
  ld_brk : is_u64 (vbrk (dbi p));
  ld_avx : sse (gstate p) = None /\ exists l, avx2 (gstate p) = Some l /\ length l = 16%nat
}.

(** The areas of the engine are away from the first block. *)
Lemma loaded_first_block m p : loaded m p -> first_block fuel p r entry d rl.
Proof.
  intros [Hr Hh Hfree [Hsw Hlow Hhigh Hsz Hfu Hrd Hal] _ _ Hf _ _ _ _].
  pose proof (sweep_nonneg _ _ _ Hsw) as Hd. pose proof (st_base _ _ _ _ _ _ Hr) as (_ & H0 & _).
  assert (Hap : forall lo k, 0 < k -> (forall x, lo <= x < lo + k -> engine_area r x) ->
            entry + d + PAGE_SZ <= lo \/ lo + k <= entry - rl).
  { intros lo k Hk Hin. destruct (free_apart m PROT_READ (entry - rl) (rl + d + PAGE_SZ) lo k Hrd);
      [ auto | unfold PAGE_SZ; lia | done | lia | lia ]. }
  split; try done.
  - rewrite Hf. apply (sweep_local m (mem p) _ _ entry (entry + d + 16)); try done; try lia.
    intros x Hx. apply (ho_bytes _ _ Hh). eapply has_prot_mapped, Hrd. unfold PAGE_SZ. lia.
  - eapply hosts_range; [ exact Hh | auto with dry | exact Hrd ].
  - intros lo k Hin. apply Hap.
    + rewrite !elem_of_cons, elem_of_nil in Hin. unfold STACK_SZ, LENGTH_STUB in Hin.
      destruct Hin as [[= -> ->] | [[= -> ->] | [[= -> ->] | []]]]; lia.
    + intros x Hx. rewrite !elem_of_cons, elem_of_nil in Hin. unfold engine_area.
      destruct Hin as [[= -> ->] | [[= -> ->] | [[= -> ->] | []]]]; lia.
Qed.

(** The memory after the setup hosts the guest, and has room for the engine. *)
Lemma loaded_hosts m p p1 :
  loaded m p -> setup_done p p1 r cd cr ct cs ->
  hosts m (mem p1) /\
  forall sp, sp = host_rsp (dbi p1) \/ in_stack r sp -> engine_stack (engine_area r) m (mem p1) sp.
Proof.
  intros [Hr Hh Hfree _ _ _ _ _ _ _ _] Hd. pose proof (st_base _ _ _ _ _ _ Hr) as (_ & H0 & H1).
  split.
  - destruct (sd_mem _ _ _ _ _ _ _ Hd) as (m1 & m2 & P1 & P2 & P3).
    eapply hosts_placed; [ | exact P3 | ]; [ eapply hosts_placed; [ | exact P2 | ] | ];
      [ eapply hosts_placed; [ exact Hh | exact P1 | ] | | ];
      intros x Hx; apply Hfree; unfold engine_area; lia.
  - intros sp Hsp.
    assert (Hin : r + 16 <= sp <= r + 0x28000)
      by (rewrite (sd_host_rsp _ _ _ _ _ _ _ Hd) in Hsp; unfold in_stack in Hsp; lia).
    unfold STACK_SZ in *. split.
    + eapply setup_stack_room; [ done | done | unfold STACK_SZ; lia ].
    + lia.
    + intros x Hx. apply Hfree. unfold engine_area, STACK_SZ. lia.
    + intros x Hx. unfold engine_area, STACK_SZ. lia.
Qed.

Lemma fits_below m m' sp :
  fits_block fuel rl m entry d -> below sp 16 m m' -> apart sp 16 (entry - rl) (rl + d + PAGE_SZ) ->
  fits_block fuel rl m' entry d.
Proof.
  intros [Hsw Hlow Hhigh Hsz Hfu Hrd Hal] B Hap. pose proof (sweep_nonneg _ _ _ Hsw) as Hd.
  split; try done; [ | by eapply below_range ].
  apply (sweep_local m m' _ _ entry (entry + d + 16)); try done; try lia.
  intros x Hx. apply B. unfold apart, PAGE_SZ in *. lia.
Qed.

(** What [exec_binary] makes of the machine [h] on the prepared stack [sp]. *)
Record entered (sp : Z) (m m' : aspace) (h g : machine) : Prop := {
  en_cleared f : f ∈ cleared_regs -> reg g f = 0;
  en_kept f : f ∈ kept_regs -> reg g f = reg h f;
  en_rsp : reg g F_rsp = sp;
  en_flags : Z.land (reg g F_rflags) FLAGS_USER = 0;
  en_vec : vec g = replicate 16 0;
  en_mem : below sp 16 m m'
}.

Lemma start_run (p : proc) (m : aspace) (sp : Z) :
  loaded m p -> stack_room m sp 16 -> sp < 2 ^ 64 - 8 ->
  apart sp 16 (entry - rl) (rl + d + PAGE_SZ) -> is_u64 entry ->
  exists p2, instrument fuel entry p = Ret () p2 /\
    forall h, host h = p2 ->
    exists g m', run (exec_binary_text entry sp) h = Some (g, Some entry) /\ entered sp m m' h g /\
      bbl_count (host g) = bbl_count p /\
      let c := mk_guest entry d (cpu g) (vec g) (mxcsr g) m' (trace (host g))
                 (bases_of g) (brk_of g) in
      fits fuel rl c /\ sim (Z.of_nat (length ct)) rl (in_stack r) (engine_area r) c g.
Proof.
  intros Hl Hsp Hhi Hap He.
  pose proof (loaded_first_block m p Hl) as Hfb.
  pose proof Hl as [Hr Hh Hfree Hf Hfs [Hu1 Hu2] Hflag [Hb1 Hb2] Htab Hbk Hav].
  destruct (instrument_run fuel entry r d p cd cr ct cs Hr Hfs Hu1 Hu2 Hfb)
    as (p1 & p2 & Hd & Hcore & E & Hin & Hj & Hjr).
  destruct (loaded_hosts m p p1 Hl Hd) as [Hh1 Hst].
  exists (started entry p2). split; [ exact E | ]. intros h Hho.
  assert (Hroom : stack_room (mem (host h)) sp 16).
  { rewrite Hho. destruct Hsp as [L1 L2 L3 L4].
    split; [ exact L1 | exact L2 | | ];
      (eapply prots_grow_has; [ exact (instrumented_grow _ _ Hin) | auto with dry | ];
       eapply hosts_range; [ exact Hh1 | auto with dry | done ]). }
  destruct (exec_binary_run h entry sp Hroom Hhi He)
    as (g & mm & Er & Hc0 & Hrsp & Hfl & Hvec & Hg & B & Hmx & Hk).
  exists g, (overlay sp 16 mm m). pose proof (overlay_below sp 16 mm m) as Bm.
  pose proof (fits_below _ _ _ Hf Bm Hap) as Hf'.
  destruct (core_rest p2 p1 Hcore) as (C1 & _ & _ & C0 & _ & C6).
  split; [ exact Er | ]. split; [ by split | ].
  split; [ rewrite Hg, Hho; simpl; rewrite C0; apply (sd_count _ _ _ _ _ _ _ Hd) | ].
  split; [ exact Hf' | ].
  destruct (core_engine_rest p2 p1 Hcore) as (_ & C2 & C3 & C4 & C5 & _).
  destruct (core_hooks p2 p1 Hcore) as (_ & C7 & _ & _ & C8 & _).
  destruct (sd_dump _ _ _ _ _ _ _ Hd) as (Hld & _).
  destruct (sd_restore _ _ _ _ _ _ _ Hd) as (Hlr & _).
  destruct (sd_bases _ _ _ _ _ _ _ Hd) as [Bf Bg].
  assert (Hdbi : dbi (host g) = dbi (started entry p2)) by (by rewrite Hg, Hho).
  rewrite Hho in B. change (mem (started entry p2)) with (mem p2) in B.
  pose proof (hw_len _ (in_dump _ _ Hin)) as Hd0. pose proof (sweep_nonneg _ _ _ (ft_sweep _ _ _ _ _ Hf)).
  assert (HldE : hlength (dump (dbi p2)) = Z.of_nat (length ct)) by (by rewrite C7).
  assert (HlrE : hlength (restore (dbi p2)) = rl) by (by rewrite C8).
  split; simpl; rewrite ?Hdbi; try done.
  - exists (overlay sp 16 mm (mem p1)). split_and!.
    + by apply hosts_overlay.
    + rewrite Hg, Hho. apply instrumented_below; [ by apply instrumented_started | done | | ].
      * simpl. rewrite Hj. unfold apart in *. unfold PAGE_SZ in *. lia.
      * simpl. rewrite Hjr, HlrE. unfold apart in *. unfold PAGE_SZ in *. lia.
    + intros sp' Hsp'. eapply (engine_stack_grow _ m _ (mem p1));
        [ done | by apply same_prots_grow, overlay_below | ].
      apply Hst. simpl in Hsp'. by rewrite C5 in Hsp'.
  - split; [ done | ]. unfold brk_of. rewrite Hdbi. simpl.
    by rewrite (core_brk _ _ Hcore), (sd_brk _ _ _ _ _ _ _ Hd).
  - split; rewrite ?Hg, ?Hho; simpl; rewrite ?C3, ?C4, ?C2, ?C6, ?Bf, ?Bg, ?(sd_table _ _ _ _ _ _ _ Hd);
      try done; [ split; simpl; by rewrite ?C3, ?C4, ?Bf, ?Bg | by rewrite (sd_callback _ _ _ _ _ _ _ Hd) | ].
    rewrite C1. fold (gstate p1). by rewrite (sd_state _ _ _ _ _ _ _ Hd).
Qed.

(** C4: From a loaded guest, instrument returns, and exec_binary then enters the guest at
    its entry point with the prepared stack pointer, cleared registers, the data selectors
    kept and the user flags clear, in a state that corresponds to the guest on its own about
    to run its first block: the hooks of that block are in place over the memory of the
    guest, of which at most the 16 bytes below the stack pointer changed. *)
Theorem engine_starts (p : proc) (m : aspace) (sp : Z)
    (Hl : loaded m p) (Hsp : stack_room m sp 16) (Hhi : sp < 2 ^ 64 - 8)
    (Hap : apart sp 16 (entry - rl) (rl + d + PAGE_SZ)) (He : is_u64 entry) :
  exists p2, instrument fuel entry p = Ret () p2 /\
    forall h, host h = p2 ->
    exists g m', run (exec_binary_text entry sp) h = Some (g, Some entry) /\ entered sp m m' h g /\
      bbl_count (host g) = bbl_count p /\
      let c := mk_guest entry d (cpu g) (vec g) (mxcsr g) m' (trace (host g))
                 (bases_of g) (brk_of g) in
      fits fuel rl c /\ sim (Z.of_nat (length ct)) rl (in_stack r) (engine_area r) c g.
Proof. by apply start_run. Qed.
End Start.
