(* ===== verification/EndSpec.v ===== *)
(** * The end of the guest

    When the guest ends its process with [exit] or [exit_group], so does the engine, whatever
    the status with 0; and the run of a whole program, from [instrument] to that end. *)

From S2P Require Import Prelude.
From S2P Require Import Pages.
From S2P Require Import Regs.
From S2P Require Import Process.
From S2P Require Import Syscalls.
From S2P Require Import SyscallsSpec.
From S2P Require Import Memory.
From S2P Require Import MemorySpec.
From S2P Require Import Branch.
From S2P Require Import Target.
From S2P Require Import TargetSpec.
From S2P Require Import Cflow.
From S2P Require Import CflowSpec.
From S2P Require Import Engine.
From S2P Require Import EngineSpec.
From S2P Require Import Stubs.
From S2P Require Import Native.
From S2P Require Import StubsSpec.
From S2P Require Import RoundSpec.
From S2P Require Import SysRoundSpec.
From S2P Require Import CallSpec.
From S2P Require Import SimSpec.
From S2P Require Import RunSpec.
From S2P Require Import SetupSpec.
From S2P Require Import StartSpec.

Section End_.
Context `{HK : Kernel} `{HE : RegEnum} `{HD : Disassembler} `{HO : !DisassemblerOk}.
Context `{HY : Layout} `{HL : !LayoutOk} `{HS : Selectors} `{HP : Processor}.

Lemma dispatch_tail_exits fuel q0 st q :
  eval_target (curr_hook (dbi q0)) q0 = Exited st q -> dispatch_tail fuel q0 = Exited st q.
Proof.
  intros E. unfold dispatch_tail, _get_bbl_base, br_emulation, get, mbind, M_bind.
  by rewrite E.
Qed.

Section Ends.
Context (fuel : nat) (dl rl : Z) (ES EA : Z -> Prop).

(** The last block, the dump hook and its stub, and the dispatcher, which ends the process. *)
Inductive ends : machine -> Z -> proc -> Prop :=
| ends_intro g g1 g2 m p st text :
    run_block g = Some g1 ->
    craft_hook_text (dbi (host g)) = Some text ->
    run (dump_hook_text (dump_stub (dbi (host g1)))) g1
      = Some (g2, Some (dump_stub (dbi (host g1)))) ->
    run text g2 = Some (m, Some addr__dispatcher) ->
    _dispatcher test fuel (host m) = Exited st p ->
    ends g st p.

#[local] Opaque snapshot.

Lemma exit_round c g st m :
  sim dl rl ES EA c g -> covered fuel dl rl EA c -> native_exits c st m ->
  exists p, ends g 0 p /\ (forall st' p', ends g st' p' -> st' = 0 /\ p' = p) /\
    trace p = g_trace c /\ hosts m (mem p) /\ bbl_count p = s32 (bbl_count (host g) + 1).
Proof.
  intros Hs Hc [s v x m1 insn Er Hdec Hk _ Hn].
  destruct (texts_exist g (sm_ready _ _ _ _ _ _ Hs)) as (text & _ & Ht & _).
  destruct (run_block_ok _ _ _ _ _ c g s v x m1 Hs Hc Er) as (g1 & Eb & Ha).
  destruct (end_at_hook _ _ _ _ _ c g g1 s v x m1 insn Hs Hc Er Ha Hdec) as (m0 & Hh & Hst & Hb & Hsh).
  destruct (at_end_dbi _ _ _ _ _ _ _ _ _ Ha) as (Hdbi & _ & _ & Hbb & Htr).
  pose proof Ht as Ht1. rewrite <- Hdbi in Ht1.
  destruct (round_syscall fuel m0 g1 insn text Hb Ht1)
    as (g2 & mc & mb & mg & E1 & E2 & _ & B & G & q0 & qe & Ed & E5 & Hqe & Hbo).
  destruct (evaluated_hosts ES EA m1 m0 mb mg _ Hh Hst B G) as [Hhg _].
  assert (Hax : rax (snapshot g1) = rax s).
  { symmetry. apply (same_user_get (user_state s (at_ c + len c)) _ F_rax (proj1 Hsh)).
    apply (bool_decide_unpack _). by vm_compute. }
  assert (Ed' : _dispatcher test fuel (host mc) = Exited 0 (guest_bases qe)).
  { rewrite Ed. apply dispatch_tail_exits. rewrite E5.
    apply (exit_evaluates g1 insn qe mg Hk Hbo Hqe). by rewrite Hax. }
  exists (guest_bases qe). split; [ by eapply ends_intro | split ].
  - intros st' p' He. inversion He as [? g1' g2' mc' ? ? text' R1 R2 R3 R4 R5]; subst.
    rewrite Eb in R1. injection R1 as <-.
    rewrite Ht in R2. injection R2 as <-. rewrite E1 in R3. injection R3 as <-.
    rewrite E2 in R4. injection R4 as <-. rewrite Ed' in R5. by injection R5.
  - split_and!; simpl.
    + by rewrite (br_trace _ _ _ _ _ _ _ Hqe), Htr, (sm_trace _ _ _ _ _ _ Hs).
    + by rewrite (br_mem _ _ _ _ _ _ _ Hqe).
    + by rewrite (br_count _ _ _ _ _ _ _ Hqe), Hbb.
Qed.

(** C3: The engine ends where the guest ends. In a state of the simulation in which the
    block of the guest ends in exit or exit_group, the engine goes through the dump hook
    into the dispatcher, which ends the process, after the system calls of the guest and no
    other, with the memory of the guest as the guest leaves it; its status is 0, whatever
    the status of the guest. *)
Theorem engine_exits (c : guest) (g : machine) (st : Z) (m : aspace)
    (Hs : sim dl rl ES EA c g) (Hc : covered fuel dl rl EA c) (Hn : native_exits c st m) :
  exists p, ends g 0 p /\ (forall st' p', ends g st' p' -> st' = 0 /\ p' = p) /\
    trace p = g_trace c /\ hosts m (mem p) /\ bbl_count p = s32 (bbl_count (host g) + 1).
Proof. by apply (exit_round c g st m). Qed.

(** The guest runs [n] blocks within what the engine covers, and ends with the next one. *)
Record halts (n : nat) (c : guest) : Prop := {
  ha_safe : safe fuel dl rl EA n c;
  ha_exits c' : nsteps native n c c' ->
    covered fuel dl rl EA c' /\ exists st m, native_exits c' st m
}.

Lemma halts_run n c g :
  halts n c -> sim dl rl ES EA c g -> (exists sp, ES sp) ->
  s32 (bbl_count (host g)) = bbl_count (host g) ->
  (exists g' q, nsteps (round fuel ES) n g g' /\ ends g' 0 q) /\
  forall g' st q, nsteps (round fuel ES) n g g' -> ends g' st q ->
    st = 0 /\ exists c' st' m', nsteps native n c c' /\ native_exits c' st' m' /\
      trace q = g_trace c' /\ hosts m' (mem q) /\
      bbl_count q = s32 (bbl_count (host g) + Z.of_nat (S n)).
Proof.
  intros [Hsf Hex] Hs Hsp Hb.
  destruct (rounds_sim fuel dl rl ES EA n c g Hsf Hs Hsp Hb) as [[g' Hr] Hall].
  assert (Hend : forall g', nsteps (round fuel ES) n g g' ->
    exists c' st m p, nsteps native n c c' /\ native_exits c' st m /\ ends g' 0 p /\
      (forall st' p', ends g' st' p' -> st' = 0 /\ p' = p) /\ trace p = g_trace c' /\
      hosts m (mem p) /\ bbl_count p = s32 (bbl_count (host g) + Z.of_nat (S n))).
  { intros g1 Hr1. destruct (Hall g1 Hr1) as (c' & Hn & Hs' & Hb').
    destruct (Hex c' Hn) as [Hc (st & m & Hx)].
    destruct (exit_round c' g1 st m Hs' Hc Hx) as (p & He & Hu & Ht & Hm & Hp).
    exists c', st, m, p. split_and!; try done. rewrite Hp, Hb', s32_add_l. f_equal. lia. }
  split.
  - destruct (Hend g' Hr) as (_ & _ & _ & p & _ & _ & He & _). by exists g', p.
  - intros g1 st q Hr1 He. destruct (Hend g1 Hr1) as (c' & st' & m & p & Hn & Hx & _ & Hu & Ht & Hm & Hp).
    destruct (Hu st q He) as [-> ->]. split; [ done | ]. by exists c', st', m.
Qed.
End Ends.
End End_.
