(* ===== verification/Elf.v ===== *)
(** * ELF analysis (src/elf_parsing.c)

    The reading of the headers of a binary from the bytes of its file and the construction
    of the binary object.  A header is the record of the members the sources use; a
    pointer into the file is its offset.  A read outside of the file leaves defined
    behaviour and is [None]. *)

From S2P Require Import Prelude.
From S2P Require Import Pages.
From S2P Require Import Regs.
From S2P Require Import Process.
From S2P Require Import Memory.

(** ** The headers of the ELF format *)

Record Elf64_Ehdr := mk_ehdr {
  e_type : Z;
  e_entry : Z;
  e_phoff : Z;
  e_shoff : Z;
  e_phentsize : Z;
  e_phnum : Z;
  e_shentsize : Z;
  e_shnum : Z;
  e_shstrndx : Z
}.

Record Elf64_Phdr := mk_phdr {
  p_type : Z;
  p_flags : Z;
  p_offset : Z;
  p_vaddr : Z;
  p_filesz : Z;
  p_memsz : Z
}.

Definition PT_LOAD : Z := 1.
Definition PT_DYNAMIC : Z := 2.
Definition PT_INTERP : Z := 3.
Definition PF_X : Z := 1.
Definition PF_W : Z := 2.
Definition ET_DYN : Z := 3.

(** A little-endian member of [n] bytes. *)
Definition rd (n : Z) (file : list Z) (off : Z) : option Z :=
  le_combine <$> buf_read file off n.

Definition read_ehdr (file : list Z) : option Elf64_Ehdr :=
  _ ← buf_read file 0 64;
  t ← rd 2 file 16; entry ← rd 8 file 24; phoff ← rd 8 file 32; shoff ← rd 8 file 40;
  phentsize ← rd 2 file 54; phnum ← rd 2 file 56; shentsize ← rd 2 file 58;
  shnum ← rd 2 file 60; shstrndx ← rd 2 file 62;
  Some (mk_ehdr t entry phoff shoff phentsize phnum shentsize shnum shstrndx).

Definition read_phdr (file : list Z) (off : Z) : option Elf64_Phdr :=
  t ← rd 4 file off; flags ← rd 4 file (off + 4); o ← rd 8 file (off + 8);
  vaddr ← rd 8 file (off + 16); filesz ← rd 8 file (off + 32); memsz ← rd 8 file (off + 40);
  Some (mk_phdr t flags o vaddr filesz memsz).

(** ** The functions on headers *)

Definition is_elf (eh_ptr : list Z) : option bool :=
  a ← eh_ptr !! 0%nat;
  if negb (a =? 0x7f) then Some false
  else
    b ← eh_ptr !! 1%nat;
    if negb (b =? 0x45) then Some false
    else
      c ← eh_ptr !! 2%nat;
      if negb (c =? 0x4c) then Some false
      else d ← eh_ptr !! 3%nat; Some (d =? 0x46).

Definition search_pt_dyn (buffer_mdata_ph : list Elf64_Phdr) : option Elf64_Phdr :=
  list_find (fun ph => p_type ph = PT_DYNAMIC) buffer_mdata_ph ≫= fun x => Some x.2.

Definition is_pie (eh_ptr : Elf64_Ehdr) : bool := e_type eh_ptr =? ET_DYN.

(** [None] when there is no program header, which is read before the loop. *)
Definition search_base_addr (buffer_mdata_phdr : list Elf64_Phdr) : option Z :=
  first ← buffer_mdata_phdr !! 0%nat;
  Some (foldl (fun min ph => if (p_type ph =? PT_LOAD) && (p_vaddr ph <? min)
                             then p_vaddr ph else min)
          (p_vaddr first) buffer_mdata_phdr).

(** The program header table: the offset of each entry. *)
Definition parse_phdr (ptr : Elf64_Ehdr) : list Z :=
  (fun i => u64 (e_phoff ptr + e_phentsize ptr * Z.of_nat i)) <$> seq 0 (Z.to_nat (e_phnum ptr)).

Definition parse_shdr (ptr : Elf64_Ehdr) : list Z :=
  (fun i => u64 (e_shoff ptr + e_shentsize ptr * Z.of_nat i)) <$> seq 0 (Z.to_nat (e_shnum ptr)).

(** The members [sh_name] and [sh_offset] of a section header. *)
Definition sh_name (file : list Z) (off : Z) : option Z := rd 4 file off.
Definition sh_offset (file : list Z) (off : Z) : option Z := rd 8 file (off + 24).

Definition parse_sh_name (file : list Z) (ptr : Elf64_Ehdr) (buffer_mdata_sh : list Z)
  : option (list Z) :=
  str ← sh_offset file (u64 (e_shoff ptr + e_shentsize ptr * e_shstrndx ptr));
  mapM (fun sh => n ← sh_name file sh; Some (u64 (str + n)))
    (take (Z.to_nat (e_shnum ptr)) buffer_mdata_sh).

(** [init_struct]: the tables that are asked for, and the returned value. *)
Definition init_struct (file : list Z) (sh ph name : bool) (ptr : Elf64_Ehdr)
  : option (Z * list Z * list Z * list Z) :=
  let phs := if ph then parse_phdr ptr else [] in
  let shs := if sh then parse_shdr ptr else [] in
  names ← (if name && sh then parse_sh_name file ptr shs else Some []);
  Some (0, shs, phs, names).

(** ** The binary object

    [mdata_binary_t], the members the modelled functions use; [interp] is [None] when
    NULL, and every object has a [dbi_handler] of its own. *)
Inductive mdata_binary := mk_binary {
  fbinary : list Z;
  fd : Z;
  s_ph : list Z;
  eh : Elf64_Ehdr;
  pie : bool;
  interp : option mdata_binary;
  base : Z;
  dbi_handler : dbi_instr;
  exec_entry : Z
}.
#[global] Instance eta_binary : Eta mdata_binary := fun b =>
  mk_binary (fbinary b) (fd b) (s_ph b) (eh b) (pie b) (interp b) (base b) (dbi_handler b)
    (exec_entry b).

(** What the process finds on the machine: the files (descriptor and contents) and the five
    bytes the random device gives at a moment (told by the address space), both of which an
    [open] may refuse by the number of the files that are open, the vector extensions of the
    processor and whether Capstone can be opened. *)
Class Machine := {
  h_open : nat -> list Z -> option (Z * list Z);
  h_random : nat -> aspace -> option Z;
  cpu_sse : bool;
  cpu_avx2 : bool;
  cpu_avx512f : bool;
  cs_open_ok : bool;
  cs_malloc_ok : bool
}.

Definition zero_state : state_rtime :=
  mk_state 0 0 0 0 0 0 0 0 0 0 0 0 0 0 0 0 0 0 0 0 0 0 0 0 None None None 0.

Definition zero_hook : hook := mk_hook [] (replicate 64 0) 0 0 0 0.

Section Init.
Context `{Machine} `{RegEnum}.

(** The vector area for the extensions of the processor; its contents are indeterminate
    but for AVX2, where they are cleared. *)
Definition vector_state : state_rtime :=
  if cpu_sse && negb cpu_avx2 then zero_state <| sse := Some (replicate 16 0) |>
  else if cpu_avx2 && negb cpu_avx512f then zero_state <| avx2 := Some (replicate 16 0) |>
  else if cpu_avx512f then zero_state <| avx512 := Some (replicate 31 0) |>
  else zero_state.

Definition fresh_dbi (h : hashmap) : dbi_instr :=
  mk_dbi false vector_state zero_state zero_hook zero_hook 0 h 0 0 0 0 0 0 0 0 0
    (mk_persistent 0 0).

(** [fatal_dump] of an object that is not yet the one of the process. *)
Definition fatal_dump_of {A} (d : dbi_instr) : M A :=
  modify (fun p => p <| dbi := d |>);; fatal_dump.

(** [init_analysis]; [None] is the error value -1.  The file stays open, also when it is
    refused.  The number of program headers is read before the magic number is checked, the
    rest of the header after it. *)
Definition init_analysis (s : list Z) : M (option mdata_binary) :=
  r ← get (fun p => h_open (descriptors p) s);
  match r with
  | None => mret None
  | Some (fd, file) =>
      modify (opens 1);;
      h ← lift_option (fun _ => init_hashmap);
      _ ← lift_option (fun _ => rd 2 file 56);
      let d := fresh_dbi h in
      (if negb cs_open_ok then fatal_dump_of d else mret ());;
      if negb cs_malloc_ok then mret None
      else
        elf ← lift_option (fun _ => is_elf file);
        if negb elf then mret None
        else
          eh ← lift_option (fun _ => read_ehdr file);
          '(r, _, phs, _) ← lift_option (fun _ => init_struct file false true false eh);
          if r =? -1 then mret None
          else
            mret (Some (mk_binary file fd phs eh (is_pie eh) None 0 d 0))
  end.
End Init.
