(* ===== verification/Stack.v ===== *)
(** * The guest stack (src/core_mapper.c: [setup_stack] and its copies; src/elf_parsing.c:
    [add_auxvt])

    The arguments, the environment and the auxiliary vector of the guest, copied from the
    initial stack of the process as the words they are. *)

From S2P Require Import Prelude.
From S2P Require Import Pages.
From S2P Require Import Regs.
From S2P Require Import Process.
From S2P Require Import Syscalls.
From S2P Require Import Memory.
From S2P Require Import Branch.
From S2P Require Import Target.
From S2P Require Import Cflow.
From S2P Require Import Engine.
From S2P Require Import Stubs.
From S2P Require Import Elf.

(** [a[i]] for an array of [uint64_t] at [a]. *)
Definition word (a i : Z) : Z := u64 (a + 8 * i).

Definition load_word (a i : Z) : M Z := lift_option (fun p => load64 (mem p) (word a i)).
Definition store_word (a i v : Z) : M unit := lift_mem (fun m => store64 m (word a i) v).

(** [map_val]: [fuel] bounds the number of words. *)
Fixpoint map_val (fuel : nat) (arg stack i : Z) : M Z :=
  match fuel with
  | O => out_of_fuel
  | S fuel' =>
      v ← load_word arg i;
      if v =? 0 then mret 0
      else store_word stack i v;; map_val fuel' arg stack (i + 1)
  end.

(** The condition [a[i] || a[i+1]]. *)
Definition more_auxv (a i : Z) : M bool :=
  v ← load_word a i;
  if negb (v =? 0) then mret true else w ← load_word a (i + 1); mret (negb (w =? 0)).

Fixpoint map_auxvt (fuel : nat) (arg stack i : Z) : M Z :=
  match fuel with
  | O => out_of_fuel
  | S fuel' =>
      more ← more_auxv arg i;
      if (more : bool) then
        v ← load_word arg i; store_word stack i v;; map_auxvt fuel' arg stack (i + 1)
      else mret 0
  end.

(** The value of the entry [id]; the scan advances by one word. *)
Fixpoint auxvt (fuel : nat) (orig id i_orig : Z) : M Z :=
  match fuel with
  | O => out_of_fuel
  | S fuel' =>
      v ← load_word orig i_orig;
      go ← (if v =? id then mret false else more_auxv orig i_orig);
      if (go : bool) then auxvt fuel' orig id (i_orig + 1) else load_word orig (i_orig + 1)
  end.

(** [add_auxvt]: the first place where two words are zero. *)
Fixpoint add_auxvt_loop (fuel : nat) (id base_auxvt val i_target : Z) : M Z :=
  match fuel with
  | O => out_of_fuel
  | S fuel' =>
      more ← more_auxv base_auxvt i_target;
      if (more : bool) then add_auxvt_loop fuel' id base_auxvt val (i_target + 1)
      else
        store_word base_auxvt i_target id;;
        store_word base_auxvt (i_target + 1) val;;
        mret 0
  end.

Definition add_auxvt (fuel : nat) (id base_auxvt val : Z) : M Z :=
  add_auxvt_loop fuel id base_auxvt val 0.

(** [for ( ; iter[idx]; idx++)] *)
Fixpoint skip_words (fuel : nat) (iter idx : Z) : M Z :=
  match fuel with
  | O => out_of_fuel
  | S fuel' =>
      v ← load_word iter idx;
      if v =? 0 then mret idx else skip_words fuel' iter (idx + 1)
  end.

Definition AT_NULL : Z := 0.
Definition AT_EXECFD : Z := 2.
Definition AT_PHDR : Z := 3.
Definition AT_PHENT : Z := 4.
Definition AT_PHNUM : Z := 5.
Definition AT_PAGESZ : Z := 6.
Definition AT_BASE : Z := 7.
Definition AT_ENTRY : Z := 9.
Definition AT_UID : Z := 11.
Definition AT_EUID : Z := 12.
Definition AT_GID : Z := 13.
Definition AT_EGID : Z := 14.
Definition AT_PLATFORM : Z := 15.
Definition AT_SECURE : Z := 23.
Definition AT_RANDOM : Z := 25.
Definition AT_EXECFN : Z := 31.

(** The addresses of the variables [_random] and [s_arch]. *)
Class Globals := { addr__random : Z; addr_s_arch : Z }.

Section Stack.
Context `{Kernel} `{MmapChoice} `{Globals}.

(** The entries of the auxiliary vector before [AT_EXECFN], in the order of the calls. *)
Definition auxv_entries (b : mdata_binary) : list (Z * Z) :=
  [(AT_ENTRY, if pie b then u64 (base b + e_entry (eh b)) else e_entry (eh b));
   (AT_EXECFD, u64 (fd b));
   (AT_PHENT, e_phentsize (eh b));
   (AT_PHNUM, e_phnum (eh b));
   (AT_BASE, match interp b with None => base b | Some i => base i end);
   (AT_RANDOM, addr__random);
   (AT_PHDR, u64 (base b + e_phoff (eh b)));
   (AT_PLATFORM, addr_s_arch);
   (AT_EGID, 1000); (AT_EUID, 1000); (AT_GID, 1000); (AT_UID, 1000);
   (AT_PAGESZ, 0x1000)].

Fixpoint add_entries (fuel : nat) (base_auxvt : Z) (l : list (Z * Z)) : M unit :=
  match l with
  | [] => mret ()
  | (id, v) :: l' => _ ← add_auxvt fuel id base_auxvt v; add_entries fuel base_auxvt l'
  end.

(** [setup_stack]; the members it sets belong to the object [b].  The result is the
    pointer returned with the object. *)
Definition setup_stack (fuel : nat) (argv : Z) (b : mdata_binary) (argc : Z)
  : M (Z * mdata_binary) :=
  stack ← map_stack;
  if stack =? minus1 then mret (minus1, b)
  else
    let b := b <| dbi_handler := (dbi_handler b)
               <| base_guest_stack := u64 (stack - 0x200000) |>
               <| state := (state (dbi_handler b)) <| rsp := stack |> |> |> in
    store_word stack 0 (u64 (argc - 1));;
    _ ← map_val fuel (word argv 1) (word stack 1) 0;
    idx ← skip_words fuel argv 1;
    let idx := idx + 1 in
    _ ← map_val fuel (word argv idx) (word stack idx) 0;
    idx ← skip_words fuel argv idx;
    let idx := idx + 1 in
    add_entries fuel (word stack idx) (auxv_entries b);;
    execfn ← load_word argv 1;
    add_entries fuel (word stack idx) [(AT_EXECFN, execfn); (AT_SECURE, 0); (AT_NULL, 0)];;
    mret (stack, b).
End Stack.
