(* ===== verification/StackSpec.v ===== *)
(** * The layout of the guest stack

    From an initial stack with the arguments and the environment, [setup_stack] leaves the
    layout of the System V convention: the count, the arguments and the environment, each
    closed by a null word, and the auxiliary vector as pairs. *)

From S2P Require Import Prelude.
From S2P Require Import Pages.
From S2P Require Import Regs.
From S2P Require Import Process.
From S2P Require Import Syscalls.
From S2P Require Import Memory.
From S2P Require Import MemorySpec.
From S2P Require Import Branch.
From S2P Require Import Target.
From S2P Require Import TargetSpec.
From S2P Require Import Cflow.
From S2P Require Import CflowSpec.
From S2P Require Import Engine.
From S2P Require Import EngineSpec.
From S2P Require Import Stubs.
From S2P Require Import StubsSpec.
From S2P Require Import SetupSpec.
From S2P Require Import Elf.
From S2P Require Import Stack.

(** ** Arrays of words *)

(** The words [l] are at [a]. *)
Definition words (m : aspace) (a : Z) (l : list Z) : Prop :=
  forall i x, l !! i = Some x -> load64 m (a + 8 * Z.of_nat i) = Some x.

Lemma words_app m a l1 l2 :
  words m a (l1 ++ l2) <-> words m a l1 /\ words m (a + 8 * Z.of_nat (length l1)) l2.
Proof.
  split.
  - intros Hw. split; intros i x Hi.
    + apply Hw. by apply lookup_app_l_Some.
    + replace (a + 8 * Z.of_nat (length l1) + 8 * Z.of_nat i)
        with (a + 8 * Z.of_nat (length l1 + i)) by lia.
      apply Hw. by rewrite lookup_app_r, Nat.add_comm, Nat.add_sub by lia.
  - intros [H1 H2] i x [Hi | [Hl Hi]]%lookup_app_Some; [ by apply H1 | ].
    replace (a + 8 * Z.of_nat i)
      with (a + 8 * Z.of_nat (length l1) + 8 * Z.of_nat (i - length l1)) by lia.
    by apply H2.
Qed.

Lemma words_frame m m' a l :
  (forall i, (i < length l)%nat ->
     load64 m' (a + 8 * Z.of_nat i) = load64 m (a + 8 * Z.of_nat i)) ->
  words m a l -> words m' a l.
Proof. intros Hf Hw i x Hi. rewrite Hf by (by eapply lookup_lt_Some). auto. Qed.

(** Writing one word of an array. *)
Lemma words_store m m' a l k v :
  0 <= a -> a + 8 * Z.of_nat (length l) <= 2 ^ 64 -> (k < length l)%nat ->
  store64 m (a + 8 * Z.of_nat k) v = Some m' ->
  load64 m' (a + 8 * Z.of_nat k) = Some v ->
  words m a l -> words m' a (<[k := v]> l).
Proof.
  intros H0 H1 Hk Es El Hw i x Hi. destruct (decide (i = k)) as [-> | Hne].
  - rewrite list_lookup_insert_eq in Hi by done. by simplify_eq.
  - rewrite list_lookup_insert_ne in Hi by done.
    pose proof (lookup_lt_Some _ _ _ Hi).
    rewrite (load64_after_push m m' (a + 8 * Z.of_nat k) v); [ auto | lia.. | done ].
Qed.

Lemma word_small a i : is_u64 (a + 8 * i) -> word a i = a + 8 * i.
Proof. intros Hu. unfold word. by rewrite u64_small. Qed.

(** Words and pairs of words that are not zero. *)

Definition nonzero_words (l : list Z) : Prop := Forall (fun x => x <> 0 /\ is_u64 x) l.

Definition flat (l : list (Z * Z)) : list Z := concat (map (fun e => [e.1; e.2]) l).

Lemma flat_cons e l : flat (e :: l) = e.1 :: e.2 :: flat l.
Proof. done. Qed.

Definition nonzero_entries (l : list (Z * Z)) : Prop :=
  Forall (fun e => (e.1 <> 0 /\ is_u64 e.1) /\ e.2 <> 0 /\ is_u64 e.2) l.

Lemma nonzero_flat l : nonzero_entries l -> nonzero_words (flat l).
Proof.
  induction 1 as [| [i v] l [H1 H2] _ IH]; [ by constructor | ].
  rewrite flat_cons. apply Forall_cons_2; [ done | ]. by apply Forall_cons_2.
Qed.

Lemma length_flat l : length (flat l) = (2 * length l)%nat.
Proof. induction l as [| e l IH]; [ done | ]. rewrite flat_cons. simpl. lia. Qed.

Lemma flat_app l l' : flat (l ++ l') = flat l ++ flat l'.
Proof. unfold flat. by rewrite map_app, concat_app. Qed.

Lemma flat_snoc l i v : flat (l ++ [(i, v)]) = flat l ++ [i; v].
Proof. apply flat_app. Qed.

(** ** The stack under construction

    [N] words from [sp], the first ones being [done_] and the others zero; the source
    words [src] at [argv] are elsewhere. *)
Section StackSpec.
Context (sp argv : Z) (src : list Z) (N : nat).
Context (Hsp : 0 <= sp) (Hspn : sp + 8 * Z.of_nat N < 2 ^ 64).
Context (Hav : 0 <= argv) (Havn : argv + 8 * Z.of_nat (length src) < 2 ^ 64).
Context (Hdis : argv + 8 * Z.of_nat (length src) <= sp \/ sp + 8 * Z.of_nat N <= argv).

Record stack_at (m : aspace) (done_ : list Z) : Prop := {
  sa_len : (length done_ <= N)%nat;
  sa_words : words m sp (done_ ++ replicate (N - length done_) 0);
  sa_src : words m argv src;
  sa_read : range_has PROT_READ m sp (8 * Z.of_nat N);
  sa_write : range_has PROT_WRITE m sp (8 * Z.of_nat N)
}.

Lemma stack_at_zero m done_ :
  stack_at m done_ -> (length done_ < N)%nat -> stack_at m (done_ ++ [0]).
Proof.
  intros [Hl Hw Hs Hr Hwr] Hlt. split; try done; rewrite length_app; simpl; [ lia | ].
  replace (N - length done_)%nat with (S (N - (length done_ + 1))) in Hw by lia.
  by rewrite <- (assoc_L (++)).
Qed.

Lemma stack_at_strip m done_ : stack_at m (done_ ++ [0]) -> stack_at m done_.
Proof.
  intros [Hl Hw Hs Hr Hwr]. rewrite length_app in Hl, Hw; simpl in Hl, Hw.
  split; try done; [ lia | ].
  replace (N - length done_)%nat with (S (N - (length done_ + 1))) by lia.
  by rewrite <- (assoc_L (++)) in Hw.
Qed.

Lemma stack_at_store m done_ v :
  stack_at m done_ -> (length done_ < N)%nat -> is_u64 v ->
  exists m', store64 m (sp + 8 * Z.of_nat (length done_)) v = Some m' /\
    stack_at m' (done_ ++ [v]) /\ prots m' = prots m /\
    forall x, ~ (sp <= x < sp + 8 * Z.of_nat N) -> byte_at m' x = byte_at m x.
Proof.
  intros [Hl Hw Hs Hr Hwr] Hlt Hv. set (k := length done_) in *.
  destruct (load64_store64 m (sp + 8 * Z.of_nat k) v) as (m' & Es & El); [ lia | lia | | | ].
  { intros x Hx. apply Hwr. lia. }
  { intros x Hx. apply Hr. lia. }
  rewrite u64_small in El by done.
  pose proof Es as Ef. unfold store64 in Ef.
  apply store_bytes_frame in Ef as [Hp Hb]; rewrite ?length_le_split in *; try lia.
  assert (Hlen : length (done_ ++ replicate (N - k) 0) = N)
    by (rewrite length_app, length_replicate; fold k; lia).
  exists m'. split; [ done | ]. split; [ | split; [ done | intros x Hx; apply Hb; lia ] ].
  split; rewrite ?length_app; simpl; fold k; try lia.
  - pose proof (words_store m m' sp (done_ ++ replicate (N - k) 0) k v Hsp ltac:(lia) ltac:(lia) Es El Hw) as Hw'.
    replace (N - k)%nat with (S (N - (k + 1))) in Hw' by lia. cbn [replicate] in Hw'.
    unfold k in Hw' at 1. rewrite insert_app_r_alt, Nat.sub_diag in Hw' by done.
    by rewrite <- (assoc_L (++)).
  - eapply words_frame; [ | exact Hs ]. intros i Hi.
    eapply (load64_after_push m m' (sp + 8 * Z.of_nat k) v); try lia; done.
  - intros x Hx. rewrite (has_prot_ext m' m) by done. auto.
  - intros x Hx. rewrite (has_prot_ext m' m) by done. auto.
Qed.

(** Nothing changes outside of the stack. *)
Record outside (m m' : aspace) : Prop := {
  os_prots : prots m' = prots m;
  os_bytes : forall x, ~ (sp <= x < sp + 8 * Z.of_nat N) -> byte_at m' x = byte_at m x
}.

#[local] Instance outside_preorder : PreOrder outside.
Proof.
  split; [ by split | ]. intros m1 m2 m3 [P1 B1] [P2 B2]. split; [ congruence | ].
  intros x Hx. rewrite B2 by done. auto.
Qed.

(** An operation on the stack: it returns [a] and turns [done_] into [done']. *)
Definition grows {A} (op : M A) (done_ : list Z) (a : A) (done' : list Z) : Prop :=
  forall p, stack_at (mem p) done_ ->
    exists m', op p = Ret a (p <| mem := m' |>) /\ stack_at m' done' /\ outside (mem p) m'.

Lemma grows_ret {A} (a : A) l : grows (mret a) l a l.
Proof. intros p Hp. exists (mem p). split_and!; [ by destruct p | done | done ]. Qed.

Lemma grows_bind {A B} (op : M A) (k : A -> M B) l1 l2 l3 a b :
  grows op l1 a l2 -> grows (k a) l2 b l3 -> grows (op ≫= k) l1 b l3.
Proof.
  intros H1 H2 p Hp. destruct (H1 p Hp) as (m1 & E1 & S1 & O1).
  destruct (H2 (p <| mem := m1 |>)) as (m2 & E2 & S2 & O2); [ exact S1 | ].
  exists m2. split_and!; [ | done | by etrans ]. erewrite bind_Ret by exact E1. exact E2.
Qed.

Lemma grows_zero {A} (op : M A) l a l' :
  grows op l a l' -> (length l' < N)%nat -> grows op l a (l' ++ [0]).
Proof.
  intros H1 Hl p Hp. destruct (H1 p Hp) as (m1 & E1 & S1 & O1).
  exists m1. split_and!; [ done | by apply stack_at_zero | done ].
Qed.

Lemma grows_strip {A} (op : M A) l a l' : grows op l a (l' ++ [0]) -> grows op l a l'.
Proof.
  intros H1 p Hp. destruct (H1 p Hp) as (m1 & E1 & S1 & O1).
  exists m1. split_and!; [ done | by apply stack_at_strip | done ].
Qed.

Lemma word_word a j i :
  0 <= a -> 0 <= j -> 0 <= i -> a + 8 * (j + i) < 2 ^ 64 -> word (word a j) i = a + 8 * (j + i).
Proof.
  intros H0 H1 H2 H3. rewrite (word_small a j) by (unfold is_u64; lia).
  rewrite word_small by (unfold is_u64; lia). lia.
Qed.

Lemma grows_store l j i v :
  0 <= j -> 0 <= i -> j + i = Z.of_nat (length l) -> (length l < N)%nat -> is_u64 v ->
  grows (store_word (word sp j) i v) l () (l ++ [v]).
Proof.
  intros Hj Hi Hji Hl Hv p Hp.
  destruct (stack_at_store (mem p) l v Hp Hl Hv) as (m' & E & S' & Hpr & Hb).
  exists m'. split_and!; [ | done | by split ]. unfold store_word, lift_mem.
  rewrite word_word by lia. rewrite Hji. by rewrite E.
Qed.

Lemma grows_load l j i v :
  0 <= j -> 0 <= i -> (Z.to_nat (j + i) < N)%nat -> nth (Z.to_nat (j + i)) l 0 = v ->
  grows (load_word (word sp j) i) l v l.
Proof.
  intros Hj Hi Hn Hv p Hp. exists (mem p). split_and!; [ | done | done ].
  unfold load_word, lift_option. rewrite word_word by lia.
  destruct Hp as [Hl Hw _ _ _].
  rewrite <- (Z2Nat.id (j + i)) by lia. rewrite (Hw (Z.to_nat (j + i)) v); [ by destruct p | ].
  subst v. rewrite nth_lookup.
  destruct (l !! Z.to_nat (j + i)) as [x |] eqn:E; [ by apply lookup_app_l_Some | ].
  apply lookup_ge_None in E. rewrite lookup_app_r by done. apply lookup_replicate. split; [ done | lia ].
Qed.

(** Reading the source leaves everything. *)
Lemma grows_src l j i v pre post :
  src = pre ++ v :: post -> 0 <= j -> 0 <= i -> j + i = Z.of_nat (length pre) ->
  grows (load_word (word argv j) i) l v l.
Proof.
  intros Hs Hj Hi Hji p Hp. exists (mem p). split_and!; [ | done | done ].
  assert (Hlen : (length pre < length src)%nat) by (rewrite Hs, length_app; simpl; lia).
  unfold load_word, lift_option. rewrite word_word by lia. rewrite Hji.
  rewrite (sa_src _ _ Hp (length pre) v); [ by destruct p | ].
  by rewrite Hs, lookup_app_r, Nat.sub_diag by done.
Qed.

(** ** The copies *)

Lemma map_val_grows fuel l pre post ja js i done_ :
  src = pre ++ l ++ 0 :: post -> nonzero_words l -> 0 <= ja -> 0 <= js -> 0 <= i ->
  ja + i = Z.of_nat (length pre) -> js + i = Z.of_nat (length done_) ->
  (length done_ + length l <= N)%nat -> (length l < fuel)%nat ->
  grows (map_val fuel (word argv ja) (word sp js) i) done_ 0 (done_ ++ l).
Proof.
  revert l pre i done_. induction fuel as [| fuel IH]; intros l pre i done_ Hs Hnz Hja Hjs Hi Ha Hd HN Hf;
    [ lia | ]. cbn [map_val].
  destruct l as [| x l].
  - eapply grows_bind; [ by eapply (grows_src _ _ _ 0 pre post) | ]. simpl.
    rewrite app_nil_r. apply grows_ret.
  - apply Forall_cons in Hnz as [[Hx Hu] Hnz]. simpl in *.
    eapply grows_bind; [ by eapply (grows_src _ _ _ x pre (l ++ 0 :: post)) | ].
    rewrite (proj2 (Z.eqb_neq x 0)) by done.
    eapply grows_bind; [ apply grows_store; try done; lia | ].
    replace (done_ ++ x :: l) with ((done_ ++ [x]) ++ l) by (by rewrite <- (assoc_L (++))).
    apply (IH l (pre ++ [x])); try done; try lia.
    + by rewrite Hs, <- !(assoc_L (++)).
    + rewrite length_app. simpl. lia.
    + rewrite length_app. simpl. lia.
    + rewrite length_app. simpl. lia.
Qed.

Lemma skip_words_grows fuel l pre post idx done_ :
  src = pre ++ l ++ 0 :: post -> nonzero_words l -> idx = Z.of_nat (length pre) ->
  (length l < fuel)%nat ->
  grows (skip_words fuel argv idx) done_ (idx + Z.of_nat (length l)) done_.
Proof.
  assert (Hw : forall pre' v post' i, src = pre' ++ v :: post' -> i = Z.of_nat (length pre') ->
            grows (load_word argv i) done_ v done_).
  { intros pre' v post' i Hs Hi. replace argv with (word argv 0) by (rewrite word_small; unfold is_u64; lia).
    by eapply (grows_src _ _ _ _ pre' post'); try lia. }
  revert l pre idx. induction fuel as [| fuel IH]; intros l pre idx Hs Hnz Hi Hf; [ lia | ].
  cbn [skip_words]. destruct l as [| x l].
  - eapply grows_bind; [ by eapply (Hw pre 0 post) | ]. simpl. rewrite Z.add_0_r.
    apply grows_ret.
  - apply Forall_cons in Hnz as [[Hx Hu] Hnz]. simpl in *.
    eapply grows_bind; [ by eapply (Hw pre x (l ++ 0 :: post)) | ].
    rewrite (proj2 (Z.eqb_neq x 0)) by done.
    replace (idx + Z.of_nat (S (length l))) with (idx + 1 + Z.of_nat (length l)) by lia.
    apply (IH l (pre ++ [x])); try done; try lia.
    + by rewrite Hs, <- !(assoc_L (++)).
    + rewrite length_app. simpl. lia.
Qed.

(** ** The auxiliary vector *)

(** [add_auxvt] passes the words that are not zero and writes at the end. *)
Lemma add_auxvt_loop_grows fuel id val hd aux js i :
  nonzero_words aux -> js = Z.of_nat (length hd) -> 0 <= i <= Z.of_nat (length aux) ->
  (length hd + length aux + 2 <= N)%nat -> is_u64 id -> is_u64 val ->
  Z.of_nat (length aux) - i < Z.of_nat fuel ->
  grows (add_auxvt_loop fuel id (word sp js) val i) (hd ++ aux) 0 (hd ++ aux ++ [id; val]).
Proof.
  intros Hnz -> Hi HN Hid Hval. revert i Hi.
  induction fuel as [| fuel IH]; intros i Hi Hf; [ lia | ]. cbn [add_auxvt_loop].
  unfold more_auxv. set (js := Z.of_nat (length hd)).
  assert (Hk : Z.to_nat (js + i) = (length hd + Z.to_nat i)%nat) by lia.
  destruct (decide (i = Z.of_nat (length aux))) as [-> | Hne].
  - eapply (grows_bind _ _ _ (hd ++ aux) _ false).
    + eapply grows_bind; [ apply (grows_load _ _ _ 0); try lia | ].
      { apply nth_overflow. rewrite length_app. lia. }
      cbn [negb Z.eqb]. eapply grows_bind; [ apply (grows_load _ _ _ 0); try lia | ].
      { apply nth_overflow. rewrite length_app. lia. }
      apply grows_ret.
    + eapply (grows_bind _ _ _ ((hd ++ aux) ++ [id])).
      { apply grows_store; rewrite ?length_app; try lia; done. }
      eapply (grows_bind _ _ _ (((hd ++ aux) ++ [id]) ++ [val])).
      { apply grows_store; rewrite ?length_app; simpl; try lia; done. }
      rewrite <- !(assoc_L (++)). apply grows_ret.
  - destruct (lookup_lt_is_Some_2 aux (Z.to_nat i)) as [x Hx]; [ lia | ].
    assert (Hx0 : x <> 0) by (by eapply (proj1 (Forall_lookup _ _) Hnz)).
    eapply (grows_bind _ _ _ (hd ++ aux) _ true).
    + eapply grows_bind; [ apply (grows_load _ _ _ x); try lia | ].
      { rewrite Hk, nth_lookup, lookup_app_r, Nat.add_comm, Nat.add_sub by lia. by rewrite Hx. }
      rewrite (proj2 (Z.eqb_neq x 0)) by done. apply grows_ret.
    + apply IH; lia.
Qed.

Lemma add_entries_grows fuel l hd old js :
  nonzero_entries old -> nonzero_entries l -> js = Z.of_nat (length hd) ->
  (length hd + 2 * (length old + length l) <= N)%nat ->
  (2 * (length old + length l) < fuel)%nat ->
  grows (add_entries fuel (word sp js) l) (hd ++ flat old) () (hd ++ flat (old ++ l)).
Proof.
  intros Ho Hl Hjs HN Hf. revert old Ho HN Hf. induction Hl as [| [i v] l He Hl IH]; intros old Ho HN Hf.
  { rewrite app_nil_r. apply grows_ret. }
  pose proof He as [[? ?] [? ?]]. simpl in *.
  eapply (grows_bind _ _ _ (hd ++ flat (old ++ [(i, v)])) _ 0).
  - rewrite flat_snoc. unfold add_auxvt. pose proof (length_flat old).
    apply add_auxvt_loop_grows; try done; try lia; by apply nonzero_flat.
  - replace (old ++ (i, v) :: l) with ((old ++ [(i, v)]) ++ l) by (by rewrite <- (assoc_L (++))).
    apply IH; rewrite ?length_app; simpl; try lia.
    apply Forall_app; split; [ done | by constructor ].
Qed.

(** The last three entries: two of them have the value 0, and the scan of the third one
    stops at the value of the second. *)
Lemma add_last_entries_grows fuel old hd js x :
  nonzero_entries old -> x <> 0 -> is_u64 x -> js = Z.of_nat (length hd) ->
  (length hd + 2 * length old + 6 <= N)%nat -> (2 * length old + 4 < fuel)%nat ->
  grows (add_entries fuel (word sp js) [(AT_EXECFN, x); (AT_SECURE, 0); (AT_NULL, 0)])
    (hd ++ flat old) ()
    (hd ++ flat (old ++ [(AT_EXECFN, x); (AT_SECURE, 0); (AT_NULL, 0)])).
Proof.
  intros Ho Hx Hu Hjs HN Hf. pose proof (length_flat old).
  assert (Hf1 : nonzero_words (flat (old ++ [(AT_EXECFN, x)]))).
  { apply nonzero_flat, Forall_app. split; [ done | ]. by apply Forall_singleton. }
  assert (Hf2 : nonzero_words (flat (old ++ [(AT_EXECFN, x)]) ++ [AT_SECURE])).
  { apply Forall_app. split; [ done | ]. by apply Forall_singleton. }
  assert (Hl1 : length (flat (old ++ [(AT_EXECFN, x)])) = (2 * length old + 2)%nat)
    by (rewrite length_flat, length_app; simpl; lia).
  cbn [add_entries]. unfold add_auxvt.
  eapply (grows_bind _ _ _ (hd ++ flat (old ++ [(AT_EXECFN, x)])) _ 0).
  { rewrite flat_snoc. apply add_auxvt_loop_grows; try done; try lia; by apply nonzero_flat. }
  eapply (grows_bind _ _ _ (hd ++ flat (old ++ [(AT_EXECFN, x)]) ++ [AT_SECURE]) _ 0).
  { apply grows_strip. rewrite <- !(assoc_L (++)). cbn [app].
    apply add_auxvt_loop_grows; try done; lia. }
  eapply (grows_bind _ _ _ _ _ 0); [ | apply grows_ret ].
  replace (hd ++ flat (old ++ [(AT_EXECFN, x); (AT_SECURE, 0); (AT_NULL, 0)]))
    with ((hd ++ (flat (old ++ [(AT_EXECFN, x)]) ++ [AT_SECURE]) ++ [AT_NULL; 0]) ++ [0]).
  - apply grows_zero; [ apply add_auxvt_loop_grows; try done; rewrite ?length_app; simpl; lia | ].
    rewrite !length_app. simpl. lia.
  - change [(AT_EXECFN, x); (AT_SECURE, 0); (AT_NULL, 0)]
      with ([(AT_EXECFN, x)] ++ [(AT_SECURE, 0); (AT_NULL, 0)]).
    rewrite (assoc_L (++) old), (flat_app (old ++ _)). by rewrite <- !(assoc_L (++)).
Qed.
(** The count and the two copies; [k] is the rest, from the index of the vector on. *)
Lemma copies_grow {A} (k : Z -> M A) (res : A) final fuel prog args envs c :
  let hd := c :: args ++ 0 :: envs ++ [0] in
  src = (prog :: args) ++ 0 :: envs ++ [0] -> is_u64 c ->
  nonzero_words args -> nonzero_words envs ->
  (length hd < N)%nat -> (length hd < fuel)%nat ->
  grows (k (Z.of_nat (length hd))) hd res final ->
  grows
    (store_word sp 0 c;;
     _ ← map_val fuel (word argv 1) (word sp 1) 0;
     i ← skip_words fuel argv 1;
     let i := i + 1 in
     _ ← map_val fuel (word argv i) (word sp i) 0;
     i ← skip_words fuel argv i;
     k (i + 1))
    [] res final.
Proof.
  intros hd Hsrc Hc Ha He HN Hf Hk.
  set (hd1 := c :: args ++ [0]).
  assert (Hh : hd = hd1 ++ envs ++ [0]) by (unfold hd, hd1; simpl; by rewrite <- !(assoc_L (++))).
  assert (Hl1 : length hd1 = (length args + 2)%nat)
    by (unfold hd1; cbn [length]; rewrite length_app; simpl; lia).
  assert (Hhl : length hd = (length args + length envs + 3)%nat)
    by (rewrite Hh, !length_app, Hl1; simpl; lia).
  assert (Es1 : src = [prog] ++ args ++ 0 :: (envs ++ [0])) by (by rewrite Hsrc).
  assert (Es2 : src = (prog :: args ++ [0]) ++ envs ++ 0 :: [])
    by (rewrite Es1; simpl; by rewrite <- !(assoc_L (++))).
  assert (Hl2 : length (prog :: args ++ [0]) = (length args + 2)%nat)
    by (cbn [length]; rewrite length_app; simpl; lia).
  assert (Hwsp : word sp 0 = sp) by (rewrite word_small; unfold is_u64; lia).
  eapply (grows_bind _ _ _ [c]).
  { rewrite <- Hwsp. apply (grows_store [] 0 0); simpl; try lia; done. }
  eapply (grows_bind _ _ _ hd1).
  { unfold hd1. change (c :: args ++ [0]) with (([c] ++ args) ++ [0]).
    apply grows_zero; [ | rewrite length_app; simpl; lia ].
    eapply map_val_grows; try done; simpl; lia. }
  eapply (grows_bind _ _ _ hd1).
  { eapply (skip_words_grows _ args [prog]); try done; lia. }
  cbv beta iota zeta. replace (1 + Z.of_nat (length args) + 1) with (Z.of_nat (length args + 2)) by lia.
  eapply (grows_bind _ _ _ hd).
  { rewrite Hh, (assoc_L (++)). apply grows_zero; [ | rewrite length_app; lia ].
    eapply (map_val_grows _ envs (prog :: args ++ [0])); try done; lia. }
  eapply (grows_bind _ _ _ hd).
  { eapply (skip_words_grows _ envs (prog :: args ++ [0])); try done; lia. }
  by replace (Z.of_nat (length args + 2) + Z.of_nat (length envs) + 1) with (Z.of_nat (length hd)) by lia.
Qed.

Context `{HK : Kernel} `{HC : MmapChoice} `{HG : Globals}.

(** The copies and the vector on a fresh stack. *)
Lemma setup_stack_grows {A} (res : A) fuel (b : mdata_binary) prog file args envs :
  let hd := u64 (Z.of_nat (length args + 2) - 1) :: (file :: args) ++ 0 :: envs ++ [0] in
  let idx := Z.of_nat (length hd) in
  src = (prog :: file :: args) ++ 0 :: envs ++ [0] ->
  nonzero_words (prog :: file :: args) -> nonzero_words envs ->
  nonzero_entries (auxv_entries b) ->
  (length args + length envs + 40 <= N)%nat -> (length args + length envs + 40 < fuel)%nat ->
  grows
    (store_word sp 0 (u64 (Z.of_nat (length args + 2) - 1));;
     _ ← map_val fuel (word argv 1) (word sp 1) 0;
     i ← skip_words fuel argv 1;
     let i := i + 1 in
     _ ← map_val fuel (word argv i) (word sp i) 0;
     i ← skip_words fuel argv i;
     let i := i + 1 in
     add_entries fuel (word sp i) (auxv_entries b);;
     execfn ← load_word argv 1;
     add_entries fuel (word sp i) [(AT_EXECFN, execfn); (AT_SECURE, 0); (AT_NULL, 0)];;
     mret res)
    [] res
    (hd ++ flat (auxv_entries b ++ [(AT_EXECFN, file); (AT_SECURE, 0); (AT_NULL, 0)])).
Proof.
  intros hd idx Hsrc Ha He Hx HN Hf.
  pose proof (length_flat (auxv_entries b)) as Hfl.
  assert (Hxl : length (auxv_entries b) = 13%nat) by done.
  assert (Hargs : nonzero_words (file :: args)) by (by apply Forall_cons in Ha as [_ ?]).
  assert (Hfile : file <> 0 /\ is_u64 file) by (by apply Forall_cons in Hargs as [? _]).
  assert (Hhl : length hd = (length args + length envs + 4)%nat)
    by (unfold hd; cbn [length]; rewrite !length_app; cbn [length]; rewrite length_app; simpl; lia).
  assert (Hwav : word argv 0 = argv) by (rewrite word_small; unfold is_u64; lia).
  apply (copies_grow (fun idx =>
           add_entries fuel (word sp idx) (auxv_entries b);;
           execfn ← load_word argv 1;
           add_entries fuel (word sp idx) [(AT_EXECFN, execfn); (AT_SECURE, 0); (AT_NULL, 0)];;
           mret res) res _ fuel prog (file :: args) envs);
    try done; [ apply u64_range | fold hd; lia | fold hd; lia | ].
  fold hd. fold idx.
  eapply (grows_bind _ _ _ (hd ++ flat (auxv_entries b))).
  { rewrite <- (app_nil_r hd) at 1. change (hd ++ []) with (hd ++ flat []).
    apply (add_entries_grows _ _ hd []); try done.
    { constructor. } all: change (length (@nil (Z * Z))) with 0%nat; lia. }
  eapply (grows_bind _ _ _ (hd ++ flat (auxv_entries b))).
  { rewrite <- Hwav at 1.
    apply (grows_src _ 0 1 file [prog] (args ++ 0 :: envs ++ [0])); [ exact Hsrc | done.. ]. }
  eapply grows_bind; [ | apply grows_ret ].
  apply add_last_entries_grows; try done; try lia; apply Hfile.
Qed.

End StackSpec.

(** ** The fresh stack *)

Lemma load_bytes_same m m' a n :
  0 <= a -> a + Z.of_nat n <= 2 ^ 64 ->
  (forall x, a <= x < a + Z.of_nat n -> has_prot m' x PROT_READ = has_prot m x PROT_READ /\
                                     byte_at m' x = byte_at m x) ->
  load_bytes m' a n = load_bytes m a n.
Proof.
  revert a. induction n as [| n IH]; intros a H0 H1 Hx; [ done | ].
  cbn [load_bytes]. rewrite u64_small by (unfold is_u64; lia). unfold load8.
  destruct (Hx a) as [-> ->]; [ lia | ]. rewrite IH; [ done | lia | lia | ].
  intros x Hr. apply Hx. lia.
Qed.

Lemma placed_words m m' addr len prot code a l :
  placed m m' addr len prot code -> 0 <= a -> a + 8 * Z.of_nat (length l) <= 2 ^ 64 ->
  a + 8 * Z.of_nat (length l) <= addr \/ addr + len <= a -> words m a l -> words m' a l.
Proof.
  intros [Hp Hb] H0 H1 Hd. apply words_frame. intros i Hi. unfold load64. f_equal.
  apply load_bytes_same; [ lia | lia | ]. intros x Hx. unfold has_prot. rewrite Hp, Hb.
  destruct (in_range_spec addr len x); [ lia | done ].
Qed.

Lemma load64_zero m a :
  0 <= a -> a + 8 <= 2 ^ 64 -> range_has PROT_READ m a 8 ->
  (forall x, a <= x < a + 8 -> byte_at m x = 0) -> load64 m a = Some 0.
Proof.
  intros H0 H1 Hr Hz. unfold load64. rewrite (load_bytes_ok m a 8) by done.
  pose proof (mem_bytes_eq m a (replicate 8 0)) as E. rewrite length_replicate in E.
  rewrite E; [ done | ].
  intros x Hx. rewrite Hz by lia. rewrite nth_lookup.
  destruct (replicate 8 0 !! Z.to_nat (x - a)) eqn:E2; [ by apply lookup_replicate in E2 as [-> _] | done ].
Qed.

Section SetupStack.
Context `{HK : Kernel} `{HC : MmapChoice} `{HG : Globals}.

(** The words of the finished stack. *)
Definition stack_layout (argc : Z) (args envs : list Z) (aux : list (Z * Z)) : list Z :=
  u64 (argc - 1) :: args ++ 0 :: envs ++ 0 :: flat aux.

Lemma stack_layout_split argc args envs aux :
  stack_layout argc args envs aux = (u64 (argc - 1) :: args ++ 0 :: envs ++ [0]) ++ flat aux.
Proof.
  unfold stack_layout. simpl. f_equal. rewrite <- (assoc_L (++)). simpl.
  by rewrite <- (assoc_L (++)).
Qed.

(** The initial stack of the process: [prog] and the arguments, the environment, at
    [argv], apart from the mapping of the new stack at [r]; the values that go into the
    auxiliary vector are not zero. *)
Record stack_ready (p : proc) (argv r : Z) (b : mdata_binary) (prog file : Z) (args envs : list Z)
  : Prop := {
  sk_args : nonzero_words (prog :: file :: args);
  sk_envs : nonzero_words envs;
  sk_src : words (mem p) argv ((prog :: file :: args) ++ 0 :: envs ++ [0]);
  sk_aux : nonzero_entries (auxv_entries b);
  sk_choose : k_choose (mem p) STACK_SZ = Some r;
  sk_base : r mod PAGE_SZ = 0 /\ 0 <= r /\ r + STACK_SZ < 2 ^ 64;
  sk_allowed : k_map_refused (mem p) r STACK_SZ (Z.lor PROT_READ PROT_WRITE) = false;
  sk_argv : 0 <= argv /\ argv + 8 * Z.of_nat (length args + length envs + 4) < 2 ^ 64;
  sk_apart : argv + 8 * Z.of_nat (length args + length envs + 4) <= r \/ r + STACK_SZ <= argv;
  sk_room : Z.of_nat (length args + length envs) < 5000
}.

Lemma fresh_stack_at m m' r argv src N :
  placed m m' r STACK_SZ (Z.lor PROT_READ PROT_WRITE) [] -> 0 <= r -> r + STACK_SZ < 2 ^ 64 ->
  words m argv src -> 0 <= argv -> argv + 8 * Z.of_nat (length src) < 2 ^ 64 ->
  argv + 8 * Z.of_nat (length src) <= r \/ r + STACK_SZ <= argv -> Z.of_nat N = 0x5000 ->
  stack_at (r + 0x28000) argv src N m' [].
Proof.
  intros P H0 H1 Hs Ha Hb Hd HN. unfold STACK_SZ in *.
  assert (Hrd : range_has PROT_READ m' (r + 0x28000) 0x28000)
    by (eapply placed_has; [ exact P | done | lia | lia ]).
  split.
  - apply Nat.le_0_l.
  - intros i x Hi. rewrite app_nil_l in Hi. cbn [length] in Hi. rewrite Nat.sub_0_r in Hi.
    apply lookup_replicate in Hi as [-> Hi].
    apply load64_zero; [ lia | lia | | ].
    + intros y Hy. apply Hrd. lia.
    + intros y Hy. rewrite (pl_byte _ _ _ _ _ _ P).
      destruct (in_range_spec r 0x50000 y) as [|]; [ | lia ].
      by destruct (Z.to_nat (y - r)).
  - eapply placed_words; [ exact P | done | lia | lia | done ].
  - intros y Hy. apply Hrd. lia.
  - eapply placed_has; [ exact P | done | lia | lia ].
Qed.

(** C21: From an initial stack with arguments and environment, setup_stack maps a new stack
    whose words are the count, the arguments and the environment, each closed by a null
    word, and the auxiliary vector as pairs; it points the guest stack pointer there and
    changes nothing outside the mapping. *)
Theorem setup_stack_layout (fuel : nat) (p : proc) (argv r : Z) (b : mdata_binary)
    (prog file : Z) (args envs : list Z)
    (Hr : stack_ready p argv r b prog file args envs) (Hf : 10000 < Z.of_nat fuel) :
  let argc := Z.of_nat (length args + 2) in
  let sp := r + 0x28000 in
  exists m' b', setup_stack fuel argv b argc p = Ret (sp, b') (p <| mem := m' |>) /\
    words m' sp (stack_layout argc (file :: args) envs
      (auxv_entries b ++ [(AT_EXECFN, file); (AT_SECURE, 0); (AT_NULL, 0)])) /\
    rsp (state (dbi_handler b')) = sp /\
    (forall x, ~ (r <= x < r + STACK_SZ) -> byte_at m' x = byte_at (mem p) x).
Proof.
  destruct Hr as [Ha He Hs Hx Hc [Hb1 [Hb2 Hb3]] Hal [Hv1 Hv2] Hap Hroom]. intros argc sp.
  set (src := (prog :: file :: args) ++ 0 :: envs ++ [0]) in *.
  assert (Hsl : length src = (length args + length envs + 4)%nat)
    by (unfold src; rewrite !length_app; simpl; rewrite length_app; simpl; lia).
  destruct (map_stack_run p r) as (m1 & E1 & P1); try done.
  assert (HSZ : STACK_SZ = 0x50000) by done.
  remember (Z.to_nat 0x5000) as N eqn:EN. assert (HN : Z.of_nat N = 0x5000) by (subst N; lia).
  assert (S1 : stack_at sp argv src N m1 []) by (eapply fresh_stack_at; done || lia).
  set (b' := b <| dbi_handler := (dbi_handler b) <| base_guest_stack := u64 (sp - 0x200000) |>
               <| state := (state (dbi_handler b)) <| rsp := sp |> |> |>).
  assert (G := setup_stack_grows sp argv src N).
  edestruct (G ltac:(lia) ltac:(lia) ltac:(lia) ltac:(lia) ltac:(lia) _ _ (sp, b') fuel b' prog file args envs)
    with (p := p <| mem := m1 |>) as (m2 & E2 & S2 & O2); try done; try lia.
  exists m2, b'. split_and!.
  - unfold setup_stack. erewrite bind_Ret by exact E1. cbv beta iota.
    rewrite (proj2 (Z.eqb_neq (r + 163840) minus1)) by (change minus1 with 0xffffffffffffffff; lia).
    exact E2.
  - apply sa_words, words_app in S2 as [S2 _]. rewrite stack_layout_split. exact S2.
  - done.
  - intros x Hout. rewrite (os_bytes _ _ _ _ O2) by (unfold sp; lia).
    rewrite (pl_byte _ _ _ _ _ _ P1). destruct (in_range_spec r STACK_SZ x) as [|]; [ lia | done ].
Qed.
End SetupStack.
