(* ===== verification/Loader.v ===== *)
(** * The segment loader (src/core_mapper.c: [base_address] to [map_binary]; src/main.c:
    [main])

    A binary and its interpreter are mapped segment by segment.  A private mapping of a
    file gives the bytes of the file; a page that lies wholly beyond the end of the file
    raises SIGBUS on an access, and the process is taken to be lost at such a mapping. *)

From S2P Require Import Prelude.
From S2P Require Import Pages.
From S2P Require Import Regs.
From S2P Require Import Process.
From S2P Require Import Syscalls.
From S2P Require Import Memory.
From S2P Require Import Branch.
From S2P Require Import Target.
From S2P Require Import Cflow.
From S2P Require Import Engine.
From S2P Require Import Stubs.
From S2P Require Import Elf.
From S2P Require Import Stack.

(** ** The mappings *)

Fixpoint put_bytes (bm : gmap Z Z) (a : Z) (l : list Z) : gmap Z Z :=
  match l with [] => bm | b :: l' => put_bytes (<[a := b]> bm) (a + 1) l' end.

(** The bytes of a file from [off], at most [n]. *)
Definition file_at (file : list Z) (off : Z) (n : nat) : list Z :=
  take n (drop (Z.to_nat off) file).

Definition IS_INTERP (ph : Elf64_Phdr) : bool := p_type ph =? PT_INTERP.
Definition IS_LOAD (ph : Elf64_Phdr) : bool := p_type ph =? PT_LOAD.

Definition _PROT_WRITE (flags : Z) : Z := if truth (Z.land flags PF_W) then PROT_WRITE else 0.
Definition _PROT_EXEC (flags : Z) : Z := if truth (Z.land flags PF_X) then PROT_EXEC else 0.

(** [PAGE_ROUND((PAGE_ROUND((curr_map + filesz)) - PAGE_ALIGN(curr_map))) + 1] *)
Definition map_len (curr_map filesz : Z) : Z :=
  u64 (PAGE_ROUND (u64 (PAGE_ROUND (u64 (curr_map + filesz)) - PAGE_ALIGN curr_map)) + 1).

Section Loader.
Context `{Kernel} `{RegEnum} `{Disassembler} `{Layout} `{Assembler} `{MmapChoice}.
Context `{Globals} `{Machine}.

(** [mmap] of a file with [MAP_FIXED | MAP_PRIVATE]; [false] is [MAP_FAILED]. *)
Definition mmap_file (addr len prot : Z) (file : list Z) (off : Z) : M bool := fun p =>
  let n := Z.of_nat (page_count len) * PAGE_SZ in
  if truth (PAGE_OFFT addr) || truth (PAGE_OFFT off) || (len =? 0)
     || k_map_refused (mem p) addr len prot then Ret false p
  else if Z.of_nat (length file) <=? off + n - PAGE_SZ then Crashed p
  else
    let clean := filter (fun x => in_range addr n x.1 = false) (bytes (mem p)) in
    Ret true (p <| mem := mk_aspace (set_pages (prots (mem p)) addr (page_count len) prot)
                            (put_bytes clean addr (file_at file off (Z.to_nat n))) |>).

(** The same without a file. *)
Definition mmap_zero (addr len prot : Z) : M bool := fun p =>
  match mmap_anon_fixed (mem p) addr len prot with
  | None => Ret false p
  | Some m => Ret true (p <| mem := m |>)
  end.

Definition memset (a v n : Z) : M unit :=
  lift_mem (fun m => store_bytes m a (replicate (Z.to_nat n) v)).

(** ** The segments *)

(** [base_address]; the random device stays open. *)
Definition base_address : M Z :=
  r ← get (fun p => h_random (descriptors p) (mem p));
  match r with
  | None => mret minus1
  | Some r => modify (opens 1);; mret (PAGE_ALIGN r)
  end.

Definition set_vbrk (v : Z) (b : mdata_binary) : mdata_binary :=
  b <| dbi_handler := (dbi_handler b) <| vbrk := v |> |>.

(** The mapping of the file: its success, [curr_map] and the object, whose base is set by
    the first segment. *)
Definition map_file_part (s_ph : Elf64_Phdr) (b : mdata_binary) : M (bool * Z * mdata_binary) :=
  let prot := Z.lor (Z.lor PROT_READ PROT_WRITE) (_PROT_EXEC (p_flags s_ph)) in
  let off := PAGE_ALIGN (p_offset s_ph) in
  if base b =? 0 then
    at_ ← (if pie b then base_address else mret (p_vaddr s_ph));
    ok ← mmap_file at_ (map_len 0 (p_filesz s_ph)) prot (fbinary b) off;
    mret (ok, 0, b <| base := if (ok : bool) then at_ else minus1 |>)
  else
    let curr_map := if pie b then u64 (base b + p_vaddr s_ph) else p_vaddr s_ph in
    ok ← mmap_file (PAGE_ALIGN curr_map) (map_len curr_map (p_filesz s_ph)) prot (fbinary b) off;
    mret (ok, curr_map, b).

(** The rest of the segment, zero, and the break; [None] when a mapping fails. *)
Definition map_bss (s_ph : Elf64_Phdr) (curr_map : Z) (b : mdata_binary)
  : M (option mdata_binary) :=
  let flags := p_flags s_ph in
  if (p_filesz s_ph <? p_memsz s_ph) && truth curr_map then
    let map_filesz := u64 (curr_map + p_filesz s_ph) in
    let map_end := u64 (PAGE_ROUND map_filesz + 1) in
    let bss_end := u64 (PAGE_ROUND (u64 (curr_map + p_memsz s_ph)) + 1) in
    memset map_filesz 0 (u64 (map_end - map_filesz));;
    if map_end <? bss_end then
      let len := u64 (PAGE_ROUND (u64 (bss_end - map_end)) + 1) in
      ok ← mmap_zero map_end len (Z.lor (Z.lor PROT_READ (_PROT_WRITE flags)) (_PROT_EXEC flags));
      mret (if (ok : bool) then Some (set_vbrk (u64 (map_end + len)) b) else None)
    else mret (Some (if truth (Z.land flags PF_W) then set_vbrk map_end b else b))
  else
    let start := if truth curr_map then PAGE_ALIGN curr_map else base b in
    mret (Some (if truth (Z.land flags PF_W)
                then set_vbrk (u64 (start + map_len 0 (p_filesz s_ph) + 1)) b else b)).

(** [map_load]; [None] is the error value -1. *)
Definition map_load (s_ph : Elf64_Phdr) (b : mdata_binary) : M (option mdata_binary) :=
  let flags := p_flags s_ph in
  '(ok, curr_map, b) ← map_file_part s_ph b;
  if negb ok then mret None
  else
    b ← map_bss s_ph curr_map b;
    match b with
    | None => mret None
    | Some b =>
        r ← sys_mprotect (if truth curr_map then PAGE_ALIGN curr_map else base b)
              (PAGE_ROUND (p_memsz s_ph))
              (Z.lor (Z.lor PROT_READ (_PROT_EXEC flags)) (_PROT_WRITE flags));
        mret (if truth r then None else Some b)
    end.

(** ** The binary *)

(** The C string at [off] in the file. *)
Fixpoint until_nul (l : list Z) : option (list Z) :=
  match l with
  | [] => None
  | c :: l' => if c =? 0 then Some [] else s ← until_nul l'; Some (c :: s)
  end.

Definition file_cstr (file : list Z) (off : Z) : option (list Z) :=
  if off <? Z.of_nat (length file) then until_nul (drop (Z.to_nat off) file) else None.

(** [load_interp], with the function that maps a binary. *)
Definition load_interp (map : list Z -> M (option mdata_binary)) (s_ph : Elf64_Phdr)
    (b : mdata_binary) : M (option mdata_binary) :=
  s ← lift_option (fun _ =>
        file_cstr (fbinary b) (if pie b then p_vaddr s_ph else p_offset s_ph));
  map s.

(** The loop over the program headers. *)
Fixpoint map_segments (map : list Z -> M (option mdata_binary)) (phs : list Z)
    (b : mdata_binary) : M (option mdata_binary) :=
  match phs with
  | [] => mret (Some b)
  | off :: phs' =>
      ph ← lift_option (fun _ => read_phdr (fbinary b) off);
      if IS_INTERP ph then
        i ← load_interp map ph b;
        match i with
        | None => mret None
        | Some i => map_segments map phs' (b <| interp := Some i |>)
        end
      else if IS_LOAD ph then
        r ← map_load ph b;
        match r with None => mret None | Some b => map_segments map phs' b end
      else map_segments map phs' b
  end.

Definition own_entry (b : mdata_binary) : Z :=
  if pie b then u64 (base b + e_entry (eh b)) else e_entry (eh b).

Definition entry_of (b : mdata_binary) : Z :=
  match interp b with Some i => own_entry i | None => own_entry b end.

(** [map_binary]: [fuel] bounds the nesting of interpreters, [words] the arrays of the
    initial stack; the arguments are [argv] and [argc]. *)
Fixpoint map_binary (fuel words : nat) (filename : list Z) (arguments : option (Z * Z))
  : M (option mdata_binary) :=
  match fuel with
  | O => out_of_fuel
  | S fuel' =>
      s ← init_analysis filename;
      match s with
      | None => mret None
      | Some b =>
          r ← map_segments (fun f => map_binary fuel' words f None) (s_ph b) b;
          match r with
          | None => mret None
          | Some b =>
              b ← (match arguments with
                   | None => mret b
                   | Some (argv, argc) => x ← setup_stack words argv b argc; mret x.2
                   end);
              mret (Some (b <| exec_entry := entry_of b |>))
          end
      end
  end.

(** The C string at an address of the process. *)
Fixpoint load_cstr (fuel : nat) (a : Z) : M (list Z) :=
  match fuel with
  | O => out_of_fuel
  | S fuel' =>
      c ← lift_option (fun p => load8 (mem p) (u64 a));
      if c =? 0 then mret [] else l ← load_cstr fuel' (a + 1); mret (c :: l)
  end.

(** [main], up to the call of [exec_binary] in [instrument]; [false] is the status -1. *)
Definition main (fuel words scan : nat) (argc argv : Z) : M bool :=
  if argc <? 2 then mret false
  else
    a ← load_word argv 1;
    s ← load_cstr words a;
    r ← map_binary fuel words s (Some (argv, argc));
    match r with
    | None => mret false
    | Some b =>
        modify (fun p => p <| dbi := dbi_handler b |>);;
        instrument scan (exec_entry b);;
        mret true
    end.

(** [end_analysis]: the mappings it removes, the file it closes and the values it returns;
    the objects on the heap it frees are not part of the model. *)
Fixpoint end_analysis (b : mdata_binary) : M Z :=
  match b with
  | mk_binary _ _ _ _ _ interp _ d _ =>
      r ← unmap (restore_stub d) LENGTH_STUB;
      if r =? -1 then mret (-1)
      else
        r ← unmap (dump_stub d) LENGTH_STUB;
        if r =? -1 then mret (-1)
        else
          r ← unmap (host_rsp d) 0x10000;
          if r =? -1 then mret (-1)
          else
            modify (fun p => p <| descriptors := pred (descriptors p) |>);;
            (match interp with Some i => _ ← end_analysis i; mret () | None => mret () end);;
            mret 0
  end.
End Loader.
