(* ===== verification/LoaderSpec.v ===== *)
(** * The mapping of a segment

    What [map_load] leaves in memory: the bytes of the file, the zeros after them, the
    protections of the pages and the break; and what it does to the first segment. *)

From S2P Require Import Prelude.
From S2P Require Import Pages.
From S2P Require Import Regs.
From S2P Require Import Process.
From S2P Require Import Syscalls.
From S2P Require Import Memory.
From S2P Require Import MemorySpec.
From S2P Require Import Branch.
From S2P Require Import Target.
From S2P Require Import TargetSpec.
From S2P Require Import Cflow.
From S2P Require Import CflowSpec.
From S2P Require Import Engine.
From S2P Require Import EngineSpec.
From S2P Require Import Stubs.
From S2P Require Import StubsSpec.
From S2P Require Import SetupSpec.
From S2P Require Import Elf.
From S2P Require Import Stack.
From S2P Require Import Loader.

(** ** The mapping of a file *)

Lemma put_bytes_lookup bm a l x :
  put_bytes bm a l !! x
  = if in_range a (Z.of_nat (length l)) x then Some (nth (Z.to_nat (x - a)) l 0) else bm !! x.
Proof.
  revert bm a. induction l as [| b l IH]; intros bm a; cbn [put_bytes length].
  { destruct (in_range_spec a (Z.of_nat 0) x); [ lia | done ]. }
  rewrite IH.
  destruct (in_range_spec (a + 1) (Z.of_nat (length l)) x) as [H2 | H2],
    (in_range_spec a (Z.of_nat (S (length l))) x) as [H3 | H3]; try lia.
  - by replace (Z.to_nat (x - a)) with (S (Z.to_nat (x - (a + 1)))) by lia.
  - replace x with a by lia. by rewrite lookup_insert_eq, Z.sub_diag.
  - by rewrite lookup_insert_ne by lia.
Qed.

Lemma mprotect_run `{Kernel} m a len prot :
  a mod PAGE_SZ = 0 -> k_map_refused m a len prot = false ->
  (forall x, a <= x < a + Z.of_nat (page_count len) * PAGE_SZ -> is_Some (page_prot m x)) ->
  exists m', mprotect m a len prot = (0, m') /\
    (forall x, page_prot m' x = if in_range a (Z.of_nat (page_count len) * PAGE_SZ) x
                                then Some prot else page_prot m x) /\
    (forall x, byte_at m' x = byte_at m x).
Proof.
  intros Ha Hr Hm. eexists. unfold mprotect, truth. rewrite PAGE_OFFT_mod, Ha, Hr. simpl.
  rewrite protect_pages_mapped; [ split_and!; [ reflexivity | | done ] | ].
  - intros x. unfold page_prot. simpl. by rewrite set_pages_lookup, is_page_of_align by done.
  - intros q Hq. pose proof Hq as Hq'. unfold is_page_of in Hq'.
    apply andb_true_iff in Hq' as [[H1%Z.leb_le H2%Z.ltb_lt]%andb_true_iff H3%Z.eqb_eq].
    destruct (Hm q) as [v Hv]; [ lia | ]. exists v. unfold page_prot in Hv.
    rewrite PAGE_ALIGN_id in Hv; [ done | ].
    replace q with (q - a + a) by lia. by rewrite Z.add_mod, H3, Ha.
Qed.

(** A hole in the range makes [mprotect] fail. *)
Lemma protect_pages_hole pm a n prot q :
  is_page_of a n q = true -> pm !! q = None -> (protect_pages pm a n prot).1 = -1.
Proof.
  revert pm a. induction n as [| n IH]; intros pm a Hq Hn; [ by rewrite is_page_of_0 in Hq | ].
  rewrite is_page_of_S in Hq. cbn [protect_pages].
  destruct (Z.eqb_spec q a) as [-> | Hne]; [ by rewrite Hn | ]. simpl in Hq.
  destruct (pm !! a); [ | done ]. apply IH; [ done | ]. by rewrite lookup_insert_ne by done.
Qed.

Lemma mprotect_hole `{Kernel} m a len prot q :
  a mod PAGE_SZ = 0 -> q mod PAGE_SZ = 0 ->
  a <= q < a + Z.of_nat (page_count len) * PAGE_SZ -> page_prot m q = None ->
  exists m', mprotect m a len prot = (-1, m').
Proof.
  intros Ha Hq Hr Hn. unfold mprotect. destruct (truth _ || _); [ by eexists | ].
  assert (Hp : is_page_of a (page_count len) q = true).
  { rewrite <- (PAGE_ALIGN_id q Hq), is_page_of_align by done.
    by destruct (in_range_spec a (Z.of_nat (page_count len) * PAGE_SZ) q). }
  unfold page_prot in Hn. rewrite PAGE_ALIGN_id in Hn by done.
  pose proof (protect_pages_hole (prots m) a (page_count len) prot q Hp Hn) as E.
  destruct (protect_pages _ _ _ _) as [r pm]. simpl in E. subst r. by eexists.
Qed.

Lemma truth_pos x : 0 < x -> truth x = true.
Proof. intros Hx. unfold truth. by rewrite (proj2 (Z.eqb_neq x 0)) by lia. Qed.

Lemma page_prot_ext m m' x : prots m = prots m' -> page_prot m x = page_prot m' x.
Proof. unfold page_prot. by intros ->. Qed.

Section LoaderSpec.
Context `{HK : Kernel} `{HE : RegEnum} `{HD : Disassembler} `{HO : !DisassemblerOk}.
Context `{HY : Layout} `{HA : Assembler} `{HC : MmapChoice} `{HG : Globals} `{HM : Machine}.

Lemma mmap_file_run p addr len prot file off :
  addr mod PAGE_SZ = 0 -> off mod PAGE_SZ = 0 -> 0 <= off -> 0 < len -> len mod PAGE_SZ = 0 ->
  k_map_refused (mem p) addr len prot = false -> off + len - PAGE_SZ < Z.of_nat (length file) ->
  exists m', mmap_file addr len prot file off p = Ret true (p <| mem := m' |>) /\
    placed (mem p) m' addr len prot (file_at file off (Z.to_nat len)).
Proof.
  intros Ha Ho H0 Hl Hm Hr Hf. unfold mmap_file, truth.
  rewrite !PAGE_OFFT_mod, Ha, Ho, Hr, (proj2 (Z.eqb_neq len 0)), page_count_mult by lia.
  cbn [negb orb Z.eqb]. rewrite (proj2 (Z.leb_gt _ _)) by lia.
  eexists. split; [ reflexivity | ]. split; intros x.
  - unfold page_prot. simpl. by rewrite set_pages_lookup, is_page_of_align, page_count_mult by lia.
  - unfold byte_at. simpl. rewrite put_bytes_lookup.
    assert (Hle : Z.of_nat (length (file_at file off (Z.to_nat len))) <= len)
      by (unfold file_at; rewrite length_take; lia).
    destruct (in_range_spec addr (Z.of_nat (length (file_at file off (Z.to_nat len)))) x),
      (in_range_spec addr len x) as [Hx | Hx]; try done; try lia.
    + rewrite nth_overflow by lia. rewrite map_lookup_filter.
      destruct (bytes (mem p) !! x); simpl; [ | done ]. case_guard as Hg; [ | done ].
      simpl in Hg. destruct (in_range_spec addr len x); done.
    + rewrite map_lookup_filter. destruct (bytes (mem p) !! x); simpl; [ | done ].
      case_guard as Hg; [ done | ]. simpl in Hg. destruct (in_range_spec addr len x); [ lia | done ].
Qed.

Lemma mmap_zero_run p addr len prot :
  addr mod PAGE_SZ = 0 -> 0 < len -> len mod PAGE_SZ = 0 ->
  k_map_refused (mem p) addr len prot = false ->
  exists m', mmap_zero addr len prot p = Ret true (p <| mem := m' |>) /\
    placed (mem p) m' addr len prot [].
Proof.
  intros Ha Hl Hm Hr. destruct (mmap_placed (mem p) addr len prot) as (m' & E & P); try done.
  exists m'. split; [ | done ]. unfold mmap_zero. by rewrite E.
Qed.

Lemma memset_run p a n :
  0 <= a -> 0 <= n -> a + n <= 2 ^ 64 -> range_has PROT_WRITE (mem p) a n ->
  exists m', memset a 0 n p = Ret () (p <| mem := m' |>) /\ prots m' = prots (mem p) /\
    forall x, byte_at m' x = if in_range a n x then 0 else byte_at (mem p) x.
Proof.
  intros H0 H1 H2 Hw.
  destruct (store_bytes_ok (mem p) a (replicate (Z.to_nat n) 0)) as (m' & E & Hp & Hb);
    rewrite ?length_replicate, ?Z2Nat.id in * by lia; try done.
  exists m'. split_and!; [ | done | ].
  - unfold memset, lift_mem. by rewrite E.
  - intros x. rewrite Hb. destruct (in_range a n x); [ | done ].
    rewrite nth_lookup. destruct (replicate (Z.to_nat n) 0 !! Z.to_nat (x - a)) eqn:El; [ | done ].
    by apply lookup_replicate in El as [-> _].
Qed.

(** ** Page arithmetic of a segment *)

Lemma PAGE_ALIGN_multiple x : exists k, PAGE_ALIGN x = PAGE_SZ * k.
Proof. eexists. apply PAGE_ALIGN_quot. Qed.

Lemma PAGE_ROUND_add k x : PAGE_ALIGN (PAGE_SZ * k + x) = PAGE_SZ * k + PAGE_ALIGN x.
Proof. rewrite !PAGE_ALIGN_quot. unfold PAGE_SZ. replace (0x1000 * k + x) with (x + k * 0x1000) by lia.
  rewrite Z.div_add by lia. lia.
Qed.

Lemma map_len_eq c f :
  0 <= c -> 0 <= f -> c + f + 0x2000 <= 2 ^ 64 ->
  map_len c f = PAGE_ALIGN (c + f) + PAGE_SZ - PAGE_ALIGN c.
Proof.
  intros Hc Hf Hs. pose proof (PAGE_ALIGN_bounds c). pose proof (PAGE_ALIGN_bounds (c + f)).
  pose proof (PAGE_ALIGN_mono c (c + f) ltac:(lia)).
  assert (Hu : is_u64 (PAGE_ALIGN c)) by (apply PAGE_ALIGN_range; unfold is_u64; lia).
  destruct (PAGE_ALIGN_multiple c) as [k Hk], (PAGE_ALIGN_multiple (c + f)) as [j Hj].
  unfold is_u64, PAGE_SZ in *. unfold map_len, PAGE_ROUND at 2.
  rewrite (u64_small (c + f)) by (unfold is_u64; lia).
  rewrite (u64_small (PAGE_ALIGN (c + f) + 0xfff - PAGE_ALIGN c)) by (unfold is_u64; lia).
  replace (PAGE_ALIGN (c + f) + 0xfff - PAGE_ALIGN c) with (PAGE_SZ * (j - k) + 0xfff)
    by (unfold PAGE_SZ; lia).
  rewrite PAGE_ROUND_succ, PAGE_ROUND_add. change (PAGE_ALIGN 0xfff) with 0. unfold PAGE_SZ.
  rewrite u64_small by (unfold is_u64; lia). lia.
Qed.

Lemma page_count_round n :
  0 <= n -> Z.of_nat (page_count (PAGE_ROUND n)) * PAGE_SZ = PAGE_ALIGN n + PAGE_SZ.
Proof.
  intros Hn. destruct (PAGE_ALIGN_multiple n) as [k Hk]. pose proof (PAGE_ALIGN_bounds n).
  unfold page_count, PAGE_ROUND, PAGE_SZ in *. rewrite Hk.
  replace (0x1000 * k + 0xfff + 0x1000 - 1) with (0xffe + (k + 1) * 0x1000) by lia.
  rewrite Z.div_add by done. change (0xffe / 0x1000) with 0. lia.
Qed.

(** ** The shape of a loaded segment *)

(** [curr_map] of a segment that is not the first one. *)
Definition seg_addr (b : mdata_binary) (ph : Elf64_Phdr) : Z :=
  if pie b then u64 (base b + p_vaddr ph) else p_vaddr ph.

(** The end of the mapping of the file, and that of all the mappings. *)
Definition file_end (c : Z) (ph : Elf64_Phdr) : Z := PAGE_ALIGN (c + p_filesz ph) + PAGE_SZ.
Definition bss_end (c : Z) (ph : Elf64_Phdr) : Z := PAGE_ALIGN (c + p_memsz ph) + PAGE_SZ.
Definition has_bss_pages (c : Z) (ph : Elf64_Phdr) : bool :=
  (p_filesz ph <? p_memsz ph) && (file_end c ph <? bss_end c ph).
Definition seg_end (c : Z) (ph : Elf64_Phdr) : Z :=
  if has_bss_pages c ph then bss_end c ph + PAGE_SZ else file_end c ph.

Definition mid_prot (ph : Elf64_Phdr) : Z :=
  Z.lor (Z.lor PROT_READ PROT_WRITE) (_PROT_EXEC (p_flags ph)).
Definition seg_prot (ph : Elf64_Phdr) : Z :=
  Z.lor (Z.lor PROT_READ (_PROT_EXEC (p_flags ph))) (_PROT_WRITE (p_flags ph)).
Definition writes (ph : Elf64_Phdr) : bool := truth (Z.land (p_flags ph) PF_W).

(** The protection and the contents at [x] of a segment at [c]: the last [mprotect] covers
    the pages of [p_memsz] bytes from the first page, not from [c]. *)
Definition seg_prot_at (c : Z) (ph : Elf64_Phdr) (x : Z) : Z :=
  if (x <? PAGE_ALIGN c + PAGE_ALIGN (p_memsz ph) + PAGE_SZ) || (file_end c ph <=? x)
  then seg_prot ph else mid_prot ph.

Definition seg_byte_at (file : list Z) (c : Z) (ph : Elf64_Phdr) (x : Z) : Z :=
  if (p_filesz ph <? p_memsz ph) && (c + p_filesz ph <=? x) then 0
  else nth (Z.to_nat (PAGE_ALIGN (p_offset ph) + (x - PAGE_ALIGN c))) file 0.

(** The break after the segment; a segment without zeros leaves it one byte into a page. *)
Definition seg_break (c : Z) (ph : Elf64_Phdr) (old : Z) : Z :=
  if p_filesz ph <? p_memsz ph then
    if file_end c ph <? bss_end c ph then bss_end c ph + PAGE_SZ
    else if writes ph then file_end c ph else old
  else if writes ph then PAGE_ALIGN c + PAGE_ALIGN (p_filesz ph) + PAGE_SZ + 1 else old.

Record segment_loaded (m m' : aspace) (file : list Z) (c : Z) (ph : Elf64_Phdr) : Prop := {
  sl_prot : forall x, page_prot m' x = if in_range (PAGE_ALIGN c) (seg_end c ph - PAGE_ALIGN c) x
                                       then Some (seg_prot_at c ph x) else page_prot m x;
  sl_byte : forall x, byte_at m' x = if in_range (PAGE_ALIGN c) (seg_end c ph - PAGE_ALIGN c) x
                                     then seg_byte_at file c ph x else byte_at m x
}.

(** The object has its base, the segment does not wrap around, the file is not too short
    for the last page of the mapping and nothing is refused. *)
Record segment_ready (p : proc) (b : mdata_binary) (ph : Elf64_Phdr) (c : Z) : Prop := {
  sr_base : base b <> 0;
  sr_addr : seg_addr b ph = c;
  sr_pos : 0 < c;
  sr_sizes : 0 <= p_filesz ph <= p_memsz ph;
  sr_wrap : c + p_memsz ph + 0x4000 <= 2 ^ 64;
  sr_off : 0 <= p_offset ph;
  sr_file : PAGE_ALIGN (p_offset ph) + (file_end c ph - PAGE_ALIGN c) - PAGE_SZ
            < Z.of_nat (length (fbinary b));
  sr_allowed : forall m a n prot, k_map_refused m a n prot = false
}.

Lemma bss_prot_eq ph :
  Z.lor (Z.lor PROT_READ (_PROT_WRITE (p_flags ph))) (_PROT_EXEC (p_flags ph)) = seg_prot ph.
Proof.
  unfold seg_prot. rewrite <- !Z.lor_assoc. f_equal. apply Z.lor_comm.
Qed.

Lemma set_vbrk_same b : set_vbrk (vbrk (dbi_handler b)) b = b.
Proof. destruct b as [a1 a2 a3 a4 a5 a6 a7 d a9]. by destruct d. Qed.

Section Segment.
Context (p : proc) (b : mdata_binary) (ph : Elf64_Phdr) (c : Z).
Context (Hr : segment_ready p b ph c).

Lemma seg_facts :
  0 < c /\ 0 <= p_filesz ph <= p_memsz ph /\ c + p_memsz ph + 0x4000 <= 2 ^ 64 /\
  (exists k j i, PAGE_ALIGN c = 0x1000 * k /\ PAGE_ALIGN (c + p_filesz ph) = 0x1000 * j /\
                 PAGE_ALIGN (c + p_memsz ph) = 0x1000 * i) /\
  0 <= PAGE_ALIGN c <= c /\ c < PAGE_ALIGN c + 0x1000 /\
  PAGE_ALIGN (c + p_filesz ph) <= c + p_filesz ph < PAGE_ALIGN (c + p_filesz ph) + 0x1000 /\
  PAGE_ALIGN (c + p_memsz ph) <= c + p_memsz ph < PAGE_ALIGN (c + p_memsz ph) + 0x1000 /\
  PAGE_ALIGN c <= PAGE_ALIGN (c + p_filesz ph) <= PAGE_ALIGN (c + p_memsz ph).
Proof.
  destruct Hr as [_ _ H1 H2 H3 _ _ _].
  pose proof (PAGE_ALIGN_bounds c). pose proof (PAGE_ALIGN_bounds (c + p_filesz ph)).
  pose proof (PAGE_ALIGN_bounds (c + p_memsz ph)). unfold PAGE_SZ in *.
  pose proof (PAGE_ALIGN_mono 0 c ltac:(lia)) as Hp. change (PAGE_ALIGN 0) with 0 in Hp.
  pose proof (PAGE_ALIGN_mono c (c + p_filesz ph) ltac:(lia)).
  pose proof (PAGE_ALIGN_mono (c + p_filesz ph) (c + p_memsz ph) ltac:(lia)).
  split_and!; try lia.
  exists (c / PAGE_SZ), ((c + p_filesz ph) / PAGE_SZ), ((c + p_memsz ph) / PAGE_SZ).
  by rewrite !PAGE_ALIGN_quot.
Qed.

Lemma map_file_part_run :
  exists m', map_file_part ph b p = Ret (true, c, b) (p <| mem := m' |>) /\
    placed (mem p) m' (PAGE_ALIGN c) (file_end c ph - PAGE_ALIGN c) (mid_prot ph)
      (file_at (fbinary b) (PAGE_ALIGN (p_offset ph)) (Z.to_nat (file_end c ph - PAGE_ALIGN c))).
Proof.
  destruct seg_facts as (H1 & H2 & H3 & (k & j & i & Hk & Hj & Hi) & H4 & H5 & H6 & H7 & H8).
  assert (Hl : map_len c (p_filesz ph) = file_end c ph - PAGE_ALIGN c)
    by (apply map_len_eq; lia).
  pose proof (PAGE_ALIGN_mono 0 (p_offset ph) (sr_off _ _ _ _ Hr)) as Ho.
  change (PAGE_ALIGN 0) with 0 in Ho.
  destruct (mmap_file_run p (PAGE_ALIGN c) (file_end c ph - PAGE_ALIGN c) (mid_prot ph)
    (fbinary b) (PAGE_ALIGN (p_offset ph))) as (m' & E & P); try apply PAGE_ALIGN_mod; try lia.
  - unfold file_end, PAGE_SZ. lia.
  - unfold file_end. rewrite Hk, Hj. unfold PAGE_SZ.
    replace (0x1000 * j + 0x1000 - 0x1000 * k) with ((j + 1 - k) * 0x1000) by lia.
    by apply Z.mod_mul.
  - apply (sr_allowed _ _ _ _ Hr).
  - pose proof (sr_file _ _ _ _ Hr). lia.
  - exists m'. split; [ | exact P ]. unfold map_file_part.
    rewrite (proj2 (Z.eqb_neq _ _) (sr_base _ _ _ _ Hr)).
    pose proof (sr_addr _ _ _ _ Hr) as Hc. unfold seg_addr in Hc. rewrite Hc, Hl.
    erewrite bind_Ret by exact E. reflexivity.
Qed.

(** The mappings before the last [mprotect]. *)
Record segment_mapped (m m' : aspace) : Prop := {
  sm_prot : forall x, page_prot m' x = if in_range (PAGE_ALIGN c) (seg_end c ph - PAGE_ALIGN c) x
                then Some (if file_end c ph <=? x then seg_prot ph else mid_prot ph)
                else page_prot m x;
  sm_byte : forall x, byte_at m' x = if in_range (PAGE_ALIGN c) (seg_end c ph - PAGE_ALIGN c) x
                then seg_byte_at (fbinary b) c ph x else byte_at m x
}.

Lemma file_byte x :
  PAGE_ALIGN c <= x < file_end c ph ->
  nth (Z.to_nat (x - PAGE_ALIGN c))
    (file_at (fbinary b) (PAGE_ALIGN (p_offset ph)) (Z.to_nat (file_end c ph - PAGE_ALIGN c))) 0
  = nth (Z.to_nat (PAGE_ALIGN (p_offset ph) + (x - PAGE_ALIGN c))) (fbinary b) 0.
Proof.
  intros Hx. pose proof (PAGE_ALIGN_mono 0 (p_offset ph) (sr_off _ _ _ _ Hr)) as Ho.
  change (PAGE_ALIGN 0) with 0 in Ho. unfold file_at.
  rewrite !nth_lookup, lookup_take_lt, lookup_drop by lia. do 3 f_equal. lia.
Qed.

Lemma mid_prot_writable : truth (Z.land (mid_prot ph) PROT_WRITE) = true.
Proof. unfold mid_prot, _PROT_EXEC. by destruct (truth (Z.land (p_flags ph) PF_X)). Qed.

(** The mapping of the file alone is the whole segment when there are no more pages. *)
Lemma file_only_mapped m m1 m2 :
  placed m m1 (PAGE_ALIGN c) (file_end c ph - PAGE_ALIGN c) (mid_prot ph)
    (file_at (fbinary b) (PAGE_ALIGN (p_offset ph)) (Z.to_nat (file_end c ph - PAGE_ALIGN c))) ->
  prots m2 = prots m1 ->
  (forall x, byte_at m2 x
     = if (p_filesz ph <? p_memsz ph) && in_range (c + p_filesz ph) (file_end c ph - (c + p_filesz ph)) x
       then 0 else byte_at m1 x) ->
  has_bss_pages c ph = false -> segment_mapped m m2.
Proof.
  intros [Pp Pb] Hp Hb Hn.
  destruct seg_facts as (H1 & H2 & H3 & _ & H4 & H5 & H6 & H7 & H8).
  assert (Hend : seg_end c ph = file_end c ph) by (unfold seg_end; by rewrite Hn).
  split; intros x; rewrite Hend.
  - rewrite (page_prot_ext m2 m1), Pp by done.
    destruct (in_range_spec (PAGE_ALIGN c) (file_end c ph - PAGE_ALIGN c) x); [ | done ].
    by rewrite (proj2 (Z.leb_gt _ _)) by lia.
  - rewrite Hb, Pb. unfold seg_byte_at.
    destruct (in_range_spec (PAGE_ALIGN c) (file_end c ph - PAGE_ALIGN c) x) as [Hx | Hx].
    + rewrite file_byte by lia. f_equal. f_equal.
      destruct (in_range_spec (c + p_filesz ph) (file_end c ph - (c + p_filesz ph)) x),
        (Z.leb_spec (c + p_filesz ph) x); done || lia.
    + destruct (in_range_spec (c + p_filesz ph) (file_end c ph - (c + p_filesz ph)) x); [ lia | ].
      by rewrite andb_false_r.
Qed.

(** With the zero pages after it. *)
Lemma file_and_bss_mapped m m1 m2 m3 :
  placed m m1 (PAGE_ALIGN c) (file_end c ph - PAGE_ALIGN c) (mid_prot ph)
    (file_at (fbinary b) (PAGE_ALIGN (p_offset ph)) (Z.to_nat (file_end c ph - PAGE_ALIGN c))) ->
  prots m2 = prots m1 ->
  (forall x, byte_at m2 x
     = if in_range (c + p_filesz ph) (file_end c ph - (c + p_filesz ph)) x then 0
       else byte_at m1 x) ->
  placed m2 m3 (file_end c ph) (bss_end c ph + PAGE_SZ - file_end c ph) (seg_prot ph) [] ->
  has_bss_pages c ph = true -> segment_mapped m m3.
Proof.
  intros [Pp Pb] Hp Hb [Qp Qb] Hn.
  destruct seg_facts as (H1 & H2 & H3 & _ & H4 & H5 & H6 & H7 & H8).
  assert (Hend : seg_end c ph = bss_end c ph + PAGE_SZ) by (unfold seg_end; by rewrite Hn).
  unfold has_bss_pages in Hn. apply andb_true_iff in Hn as [Hlt Hn%Z.ltb_lt].
  unfold PAGE_SZ in *.
  split; intros x; rewrite Hend.
  - rewrite Qp, (page_prot_ext m2 m1), Pp by done.
    destruct (in_range_spec (file_end c ph) (bss_end c ph + 0x1000 - file_end c ph) x),
      (in_range_spec (PAGE_ALIGN c) (file_end c ph - PAGE_ALIGN c) x),
      (in_range_spec (PAGE_ALIGN c) (bss_end c ph + 0x1000 - PAGE_ALIGN c) x),
      (Z.leb_spec (file_end c ph) x); unfold file_end, PAGE_SZ in *; done || lia.
  - rewrite Qb, Hb, Pb. unfold seg_byte_at. rewrite Hlt. cbn [andb].
    destruct (in_range_spec (file_end c ph) (bss_end c ph + 0x1000 - file_end c ph) x) as [Hx | Hx].
    + destruct (in_range_spec (PAGE_ALIGN c) (bss_end c ph + 0x1000 - PAGE_ALIGN c) x),
        (Z.leb_spec (c + p_filesz ph) x); unfold file_end, PAGE_SZ in *; try lia.
      match goal with |- nth ?n [] 0 = _ => by destruct n end.
    + destruct (in_range_spec (PAGE_ALIGN c) (file_end c ph - PAGE_ALIGN c) x) as [Hy | Hy].
      * rewrite file_byte by lia.
        destruct (in_range_spec (c + p_filesz ph) (file_end c ph - (c + p_filesz ph)) x),
          (in_range_spec (PAGE_ALIGN c) (bss_end c ph + 0x1000 - PAGE_ALIGN c) x),
          (Z.leb_spec (c + p_filesz ph) x); done || lia.
      * destruct (in_range_spec (c + p_filesz ph) (file_end c ph - (c + p_filesz ph)) x),
          (in_range_spec (PAGE_ALIGN c) (bss_end c ph + 0x1000 - PAGE_ALIGN c) x);
          unfold file_end, PAGE_SZ in *; done || lia.
Qed.

(** The value of [bss_end] and of the lengths as the code computes them. *)
Lemma end_u64 f :
  0 <= f -> c + f + 0x4000 <= 2 ^ 64 ->
  u64 (PAGE_ROUND (u64 (c + f)) + 1) = PAGE_ALIGN (c + f) + PAGE_SZ.
Proof.
  intros H0 H1. pose proof (sr_pos _ _ _ _ Hr). pose proof (PAGE_ALIGN_bounds (c + f)).
  assert (Hu : is_u64 (PAGE_ALIGN (c + f))) by (apply PAGE_ALIGN_range; unfold is_u64; lia).
  rewrite (u64_small (c + f)) by (unfold is_u64; lia). rewrite PAGE_ROUND_succ.
  unfold is_u64, PAGE_SZ in *. rewrite u64_small; unfold is_u64; lia.
Qed.

Lemma bss_len :
  u64 (PAGE_ROUND (u64 (bss_end c ph - file_end c ph)) + 1) = bss_end c ph + PAGE_SZ - file_end c ph.
Proof.
  destruct seg_facts as (H1 & H2 & H3 & (k & j & i & Hk & Hj & Hi) & H4 & H5 & H6 & H7 & H8).
  unfold bss_end, file_end, PAGE_SZ in *. rewrite Hi, Hj in *.
  rewrite (u64_small (_ - _)) by (unfold is_u64; lia).
  replace (0x1000 * i + 0x1000 - (0x1000 * j + 0x1000)) with (PAGE_SZ * (i - j) + 0)
    by (unfold PAGE_SZ; lia).
  rewrite PAGE_ROUND_succ, PAGE_ROUND_add. change (PAGE_ALIGN 0) with 0. unfold PAGE_SZ.
  rewrite u64_small; unfold is_u64; lia.
Qed.

Lemma map_bss_run m1 :
  placed (mem p) m1 (PAGE_ALIGN c) (file_end c ph - PAGE_ALIGN c) (mid_prot ph)
    (file_at (fbinary b) (PAGE_ALIGN (p_offset ph)) (Z.to_nat (file_end c ph - PAGE_ALIGN c))) ->
  exists m3, map_bss ph c b (p <| mem := m1 |>)
             = Ret (Some (set_vbrk (seg_break c ph (vbrk (dbi_handler b))) b)) (p <| mem := m3 |>) /\
    segment_mapped (mem p) m3.
Proof.
  intros P. destruct seg_facts as (H1 & H2 & H3 & Hk & H4 & H5 & H6 & H7 & H8).
  unfold map_bss, seg_break. fold (writes ph).
  rewrite (truth_pos c H1), andb_true_r. destruct (p_filesz ph <? p_memsz ph) eqn:Hlt.
  - rewrite !end_u64 by lia. fold (file_end c ph) (bss_end c ph).
    rewrite (u64_small (c + p_filesz ph)) by (unfold is_u64; lia).
    rewrite (u64_small (file_end c ph - _)) by (unfold is_u64, file_end, PAGE_SZ; lia).
    rewrite bss_len.
    destruct (memset_run (p <| mem := m1 |>) (c + p_filesz ph) (file_end c ph - (c + p_filesz ph)))
      as (m2 & E2 & Hp2 & Hb2); [ lia | unfold file_end, PAGE_SZ; lia.. | | ].
    { eapply placed_has; [ exact P | apply mid_prot_writable | lia | unfold file_end, PAGE_SZ; lia ]. }
    erewrite bind_Ret by exact E2. cbv beta.
    destruct (file_end c ph <? bss_end c ph) eqn:Hn.
    + destruct (mmap_zero_run (p <| mem := m2 |>) (file_end c ph)
        (bss_end c ph + PAGE_SZ - file_end c ph) (seg_prot ph)) as (m3 & E3 & P3).
      { unfold file_end. rewrite Z.add_mod, PAGE_ALIGN_mod by done. done. }
      { apply Z.ltb_lt in Hn. unfold PAGE_SZ. lia. }
      { destruct Hk as (k & j & i & _ & Hj & Hi). unfold bss_end, file_end. rewrite Hi, Hj.
        unfold PAGE_SZ. replace (_ - _) with ((i - j + 1) * 0x1000) by lia. by apply Z.mod_mul. }
      { apply (sr_allowed _ _ _ _ Hr). }
      exists m3. split.
      * rewrite bss_prot_eq. erewrite bind_Ret by exact E3. cbv beta iota.
        replace (file_end c ph + (bss_end c ph + PAGE_SZ - file_end c ph))
          with (bss_end c ph + PAGE_SZ) by lia.
        by rewrite u64_small by (unfold is_u64, bss_end, PAGE_SZ in *; lia).
      * eapply file_and_bss_mapped; try done. unfold has_bss_pages. by rewrite Hlt, Hn.
    + exists m2. split; [ by destruct (writes ph); rewrite ?set_vbrk_same | ].
      eapply file_only_mapped; try done.
      * intros x. rewrite Hlt. apply Hb2.
      * unfold has_bss_pages. by rewrite Hlt, Hn.
  - exists m1. split.
    + rewrite map_len_eq by lia. rewrite Z.add_0_l. change (PAGE_ALIGN 0) with 0.
      pose proof (PAGE_ALIGN_bounds (p_filesz ph)).
      pose proof (PAGE_ALIGN_mono 0 (p_filesz ph) ltac:(lia)) as H9. change (PAGE_ALIGN 0) with 0 in H9.
      rewrite Z.sub_0_r, Z.add_assoc.
      rewrite u64_small by (unfold is_u64, PAGE_SZ in *; lia).
      by destruct (writes ph); rewrite ?set_vbrk_same.
    + eapply file_only_mapped; [ exact P | done | intros x; by rewrite Hlt | ].
      unfold has_bss_pages. by rewrite Hlt.
Qed.

Lemma protected_in_segment :
  PAGE_ALIGN c + PAGE_ALIGN (p_memsz ph) + PAGE_SZ <= seg_end c ph.
Proof.
  destruct seg_facts as (H1 & H2 & H3 & (k & j & i & Hk & Hj & Hi) & H4 & H5 & H6 & H7 & H8).
  pose proof (PAGE_ALIGN_bounds (p_memsz ph)) as Hm.
  destruct (PAGE_ALIGN_multiple (p_memsz ph)) as [l Hl]. unfold PAGE_SZ in *.
  assert (k + l <= i) by lia.
  unfold seg_end, has_bss_pages, bss_end, file_end, PAGE_SZ in *.
  destruct (Z.ltb_spec (p_filesz ph) (p_memsz ph)) as [Hlt | Hlt]; cbn [andb]; [ | ].
  - destruct (Z.ltb_spec (PAGE_ALIGN (c + p_filesz ph) + 0x1000) (PAGE_ALIGN (c + p_memsz ph) + 0x1000));
      lia.
  - replace (p_filesz ph) with (p_memsz ph) in * by lia. lia.
Qed.

Lemma map_load_run :
  exists m', map_load ph b p
             = Ret (Some (set_vbrk (seg_break c ph (vbrk (dbi_handler b))) b)) (p <| mem := m' |>) /\
    segment_loaded (mem p) m' (fbinary b) c ph.
Proof.
  destruct map_file_part_run as (m1 & E1 & P1). destruct (map_bss_run m1 P1) as (m2 & E2 & [S2p S2b]).
  destruct seg_facts as (H1 & H2 & H3 & Hk & H4 & H5 & H6 & H7 & H8).
  pose proof protected_in_segment as Hpe.
  destruct (mprotect_run m2 (PAGE_ALIGN c) (PAGE_ROUND (p_memsz ph)) (seg_prot ph))
    as (m3 & E3 & Hp3 & Hb3); [ apply PAGE_ALIGN_mod | apply (sr_allowed _ _ _ _ Hr) | | ].
  { rewrite page_count_round by lia. intros x Hx. rewrite S2p.
    destruct (in_range_spec (PAGE_ALIGN c) (seg_end c ph - PAGE_ALIGN c) x); [ by eexists | lia ]. }
  exists m3. split.
  - unfold map_load. erewrite bind_Ret by exact E1. cbn [negb].
    erewrite bind_Ret by exact E2. cbv beta iota.
    rewrite (truth_pos c H1).
    fold (seg_prot ph). unfold sys_mprotect, mbind, M_bind.
    change (mem (p <| mem := m2 |>)) with m2. rewrite E3. reflexivity.
  - rewrite page_count_round in Hp3 by lia. split; intros x.
    + rewrite Hp3, S2p. unfold seg_prot_at.
      destruct (in_range_spec (PAGE_ALIGN c) (seg_end c ph - PAGE_ALIGN c) x) as [Hx | Hx],
        (in_range_spec (PAGE_ALIGN c) (PAGE_ALIGN (p_memsz ph) + PAGE_SZ) x); try lia; try done.
      * by rewrite (proj2 (Z.ltb_lt _ _)) by lia.
      * by rewrite (proj2 (Z.ltb_ge _ _)) by lia.
    + by rewrite Hb3, S2b.
Qed.
End Segment.

(** What a header promises for an address of its segment at [c], but for the pages that keep
    the write permission of the mapping: [mprotect] counts the pages of [p_memsz] bytes from
    the first page, so that the last one may be left out. *)
Definition keeps_write (c : Z) (ph : Elf64_Phdr) (x : Z) : Prop :=
  PAGE_ALIGN c + PAGE_ALIGN (p_memsz ph) + PAGE_SZ <= x < file_end c ph.

Record segment_shown (m : aspace) (file : list Z) (c : Z) (ph : Elf64_Phdr) (x : Z) : Prop := {
  ss_file : x < c + p_filesz ph -> byte_at m x = nth (Z.to_nat (p_offset ph + (x - c))) file 0;
  ss_zero : c + p_filesz ph <= x -> byte_at m x = 0;
  ss_prot : ~ keeps_write c ph x -> page_prot m x = Some (seg_prot ph);
  ss_wide : keeps_write c ph x -> page_prot m x = Some (mid_prot ph)
}.

(** The pages end behind the segment, at most two pages further. *)
Lemma seg_end_bounds c ph :
  0 <= p_filesz ph <= p_memsz ph ->
  c + p_memsz ph <= seg_end c ph <= PAGE_ALIGN (c + p_memsz ph) + 2 * PAGE_SZ.
Proof.
  intros Hs. pose proof (PAGE_ALIGN_bounds (c + p_filesz ph)).
  pose proof (PAGE_ALIGN_bounds (c + p_memsz ph)).
  pose proof (PAGE_ALIGN_mono (c + p_filesz ph) (c + p_memsz ph) ltac:(lia)).
  unfold seg_end, has_bss_pages, bss_end, file_end, PAGE_SZ in *.
  destruct (Z.ltb_spec (p_filesz ph) (p_memsz ph)); cbn [andb].
  - destruct (Z.ltb_spec (PAGE_ALIGN (c + p_filesz ph) + 0x1000)
      (PAGE_ALIGN (c + p_memsz ph) + 0x1000)); lia.
  - replace (p_filesz ph) with (p_memsz ph) in * by lia. lia.
Qed.

Lemma seg_prot_at_keeps c ph x :
  (keeps_write c ph x -> seg_prot_at c ph x = mid_prot ph) /\
  (~ keeps_write c ph x -> seg_prot_at c ph x = seg_prot ph).
Proof.
  unfold keeps_write, seg_prot_at.
  destruct (Z.ltb_spec x (PAGE_ALIGN c + PAGE_ALIGN (p_memsz ph) + PAGE_SZ)),
    (Z.leb_spec (file_end c ph) x); cbn [orb]; split; intros; done || lia.
Qed.

Lemma seg_byte_at_file file c ph x :
  p_offset ph mod PAGE_SZ = c mod PAGE_SZ -> c <= x < c + p_memsz ph ->
  (x < c + p_filesz ph -> seg_byte_at file c ph x = nth (Z.to_nat (p_offset ph + (x - c))) file 0) /\
  (c + p_filesz ph <= x -> seg_byte_at file c ph x = 0).
Proof.
  intros Hc Hx. unfold seg_byte_at. split; intros Hf.
  - rewrite (proj2 (Z.leb_gt _ _)), andb_false_r by lia. f_equal. f_equal. rewrite !PAGE_ALIGN_sub. lia.
  - by rewrite (proj2 (Z.ltb_lt _ _)), (proj2 (Z.leb_le _ _)) by lia.
Qed.

(** A segment that starts early enough in its page keeps no write permission. *)
Lemma keeps_write_none c ph x :
  0 <= p_filesz ph <= p_memsz ph -> PAGE_OFFT c + PAGE_OFFT (p_memsz ph) < PAGE_SZ ->
  ~ keeps_write c ph x.
Proof.
  intros Hs Ho [H1 H2]. unfold file_end in H2.
  pose proof (PAGE_ALIGN_mono (c + p_filesz ph) (c + p_memsz ph) ltac:(lia)).
  assert (E : PAGE_ALIGN (c + p_memsz ph) = PAGE_ALIGN c + PAGE_ALIGN (p_memsz ph)).
  { apply PAGE_ALIGN_unique; [ by rewrite Z.add_mod, !PAGE_ALIGN_mod | ].
    pose proof (PAGE_ALIGN_OFFT c). pose proof (PAGE_ALIGN_OFFT (p_memsz ph)).
    pose proof (PAGE_OFFT_range c). pose proof (PAGE_OFFT_range (p_memsz ph)). lia. }
  lia.
Qed.

(** C20: map_load puts a segment that is not the first one at its address, when its file
    offset agrees with it modulo the page and the file reaches the last page: its bytes are
    those of the file, then zeros up to p_memsz, and its protections are those of the flags
    and always readable, but for the pages from PAGE_ALIGN(address) + PAGE_ALIGN(p_memsz) +
    PAGE_SZ to the end of the mapping of the file, which keep the write permission of that
    mapping; there are none of them when the offset in the page and the rest of the size
    stay below a page. Nothing changes outside of the pages of the segment and one page
    more, and the break is the one seg_break gives. *)
Theorem map_load_segment (p : proc) (b : mdata_binary) (ph : Elf64_Phdr) (c : Z)
    (Hr : segment_ready p b ph c) (Hc : p_offset ph mod PAGE_SZ = c mod PAGE_SZ) :
  exists m', map_load ph b p
             = Ret (Some (set_vbrk (seg_break c ph (vbrk (dbi_handler b))) b)) (p <| mem := m' |>) /\
    (forall x, c <= x < c + p_memsz ph -> segment_shown m' (fbinary b) c ph x) /\
    (PAGE_OFFT c + PAGE_OFFT (p_memsz ph) < PAGE_SZ -> forall x, ~ keeps_write c ph x) /\
    segment_loaded (mem p) m' (fbinary b) c ph /\
    (forall x, x < PAGE_ALIGN c \/ seg_end c ph <= x ->
       page_prot m' x = page_prot (mem p) x /\ byte_at m' x = byte_at (mem p) x) /\
    seg_end c ph <= PAGE_ALIGN (c + p_memsz ph) + 2 * PAGE_SZ.
Proof.
  destruct (map_load_run p b ph c Hr) as (m' & E & [Hp Hb]).
  pose proof (sr_sizes _ _ _ _ Hr) as Hs. pose proof (seg_end_bounds c ph Hs) as He.
  pose proof (PAGE_ALIGN_bounds c).
  exists m'. split_and!; [ exact E | | by intros; apply keeps_write_none | by split | | lia ];
    intros x Hx; specialize (Hp x); specialize (Hb x);
    destruct (in_range_spec (PAGE_ALIGN c) (seg_end c ph - PAGE_ALIGN c) x); try lia; try done.
  destruct (seg_byte_at_file (fbinary b) c ph x Hc Hx), (seg_prot_at_keeps c ph x) as [K1 K2].
  split; rewrite ?Hb, ?Hp; try done; intros Hk; f_equal; auto.
Qed.

(** C39: After a writable segment without zeros that is not the first one the break is one
    byte past a page boundary, and exactly when the offset of the segment in its page and
    the part of its size beyond whole pages together exceed a page, it is at or below the
    end of the segment. *)
Theorem map_load_break (p : proc) (b : mdata_binary) (ph : Elf64_Phdr) (c : Z)
    (Hr : segment_ready p b ph c) (Hw : writes ph = true) (Hn : p_memsz ph = p_filesz ph) :
  exists b' p', map_load ph b p = Ret (Some b') p' /\
    vbrk (dbi_handler b') mod PAGE_SZ = 1 /\
    (PAGE_SZ < PAGE_OFFT c + PAGE_OFFT (p_filesz ph) <-> vbrk (dbi_handler b') <= c + p_filesz ph).
Proof.
  destruct (map_load_run p b ph c Hr) as (m' & E & _). eexists _, _. split; [ exact E | ].
  cbn -[seg_break]. unfold seg_break. rewrite Hn, Z.ltb_irrefl, Hw. split.
  - rewrite Z.add_mod, (Z.add_mod _ PAGE_SZ), (Z.add_mod (PAGE_ALIGN c)), !PAGE_ALIGN_mod by done. done.
  - rewrite !PAGE_OFFT_mod. rewrite !PAGE_ALIGN_sub. lia.
Qed.

(** ** The first segment *)

(** The object has no base; [a] is the address it will get. *)
Record first_ready (p : proc) (b : mdata_binary) (ph : Elf64_Phdr) (a : Z) : Prop := {
  fr_base : base b = 0;
  fr_addr : if pie b then PAGE_ALIGN <$> h_random (descriptors p) (mem p) = Some a else p_vaddr ph = a;
  fr_page : a mod PAGE_SZ = 0 /\ 0 < a;
  fr_sizes : 0 <= p_filesz ph <= p_memsz ph;
  fr_wrap : a + p_memsz ph + 0x4000 <= 2 ^ 64;
  fr_off : 0 <= p_offset ph;
  fr_file : PAGE_ALIGN (p_offset ph) + PAGE_ALIGN (p_filesz ph) < Z.of_nat (length (fbinary b));
  fr_allowed : forall m a n prot, k_map_refused m a n prot = false
}.

(** A random base leaves the random device open. *)
Definition first_opens (b : mdata_binary) (p : proc) : proc := if pie b then opens 1 p else p.

Lemma first_opens_mem b p : mem (first_opens b p) = mem p.
Proof. unfold first_opens. by destruct (pie b). Qed.

(** The break after the first segment. *)
Definition first_break (a : Z) (ph : Elf64_Phdr) (old : Z) : Z :=
  if writes ph then a + PAGE_ALIGN (p_filesz ph) + PAGE_SZ + 1 else old.

Definition first_object (a : Z) (ph : Elf64_Phdr) (b : mdata_binary) : mdata_binary :=
  set_vbrk (first_break a ph (vbrk (dbi_handler b))) (b <| base := a |>).

Lemma first_mapped p b ph a :
  first_ready p b ph a ->
  exists m', placed (mem p) m' a (PAGE_ALIGN (p_filesz ph) + PAGE_SZ) (mid_prot ph)
      (file_at (fbinary b) (PAGE_ALIGN (p_offset ph)) (Z.to_nat (PAGE_ALIGN (p_filesz ph) + PAGE_SZ))) /\
    map_load ph b p
    = (r ← sys_mprotect a (PAGE_ROUND (p_memsz ph)) (seg_prot ph);
       mret (if truth r then None else Some (first_object a ph b))) ((first_opens b p) <| mem := m' |>).
Proof.
  intros [Hb Ha [Hp1 Hp2] Hs Hw Ho Hf Hr].
  pose proof (PAGE_ALIGN_bounds (p_filesz ph)) as Hbd.
  pose proof (PAGE_ALIGN_mono 0 (p_filesz ph) ltac:(lia)) as H0.
  pose proof (PAGE_ALIGN_mono 0 (p_offset ph) ltac:(lia)) as H1.
  change (PAGE_ALIGN 0) with 0 in *.
  assert (Hlen : map_len 0 (p_filesz ph) = PAGE_ALIGN (p_filesz ph) + PAGE_SZ)
    by (rewrite map_len_eq by lia; rewrite Z.add_0_l; change (PAGE_ALIGN 0) with 0; lia).
  destruct (mmap_file_run (first_opens b p) a (PAGE_ALIGN (p_filesz ph) + PAGE_SZ) (mid_prot ph)
    (fbinary b) (PAGE_ALIGN (p_offset ph))) as (m' & E & P); try done; try apply PAGE_ALIGN_mod.
  { unfold PAGE_SZ. lia. }
  { rewrite Z.add_mod, PAGE_ALIGN_mod by done. done. }
  { unfold PAGE_SZ in *. lia. }
  rewrite first_opens_mem in P. exists m'. split; [ exact P | ].
  assert (Ef : map_file_part ph b p = Ret (true, 0, b <| base := a |>) ((first_opens b p) <| mem := m' |>)).
  { unfold map_file_part. rewrite Hb. cbn [Z.eqb]. rewrite Hlen. unfold first_opens in *.
    destruct (pie b).
    - destruct (h_random _ (mem p)) as [r |] eqn:Er; [ | done ]. simpl in Ha.
      apply (inj Some) in Ha as <-. unfold base_address, get, mbind, M_bind. rewrite Er. simpl.
      unfold mid_prot in E. by rewrite E.
    - rewrite Ha. unfold mid_prot in E. unfold mbind, M_bind. simpl. by rewrite E. }
  unfold map_load. erewrite bind_Ret by exact Ef. cbn [negb].
  assert (Em : map_bss ph 0 (b <| base := a |>) ((first_opens b p) <| mem := m' |>)
               = Ret (Some (first_object a ph b)) ((first_opens b p) <| mem := m' |>)).
  { unfold map_bss. change (truth 0) with false. rewrite andb_false_r, Hlen.
    unfold first_object, first_break, writes. simpl.
    rewrite u64_small by (unfold is_u64, PAGE_SZ in *; lia). rewrite Z.add_assoc.
    destruct (truth (Z.land (p_flags ph) PF_W)); [ done | ].
    by destruct b as [a1 a2 a3 a4 a5 a6 a7 [] a9]. }
  erewrite bind_Ret by exact Em. cbv beta iota. change (truth 0) with false. reflexivity.
Qed.

Lemma first_mapped_run p b ph a :
  first_ready p b ph a -> PAGE_ALIGN (p_memsz ph) = PAGE_ALIGN (p_filesz ph) ->
  exists m', map_load ph b p = Ret (Some (first_object a ph b)) ((first_opens b p) <| mem := m' |>) /\
    (forall x, byte_at m' x = if in_range a (PAGE_ALIGN (p_filesz ph) + PAGE_SZ) x
       then nth (Z.to_nat (PAGE_ALIGN (p_offset ph) + (x - a))) (fbinary b) 0
       else byte_at (mem p) x) /\
    (forall x, page_prot m' x = if in_range a (PAGE_ALIGN (p_filesz ph) + PAGE_SZ) x
       then Some (seg_prot ph) else page_prot (mem p) x).
Proof.
  intros Hr Hm. set (n := PAGE_ALIGN (p_filesz ph) + PAGE_SZ).
  destruct (first_mapped p b ph a Hr) as (m1 & [Pp Pb] & E1). fold n in Pp, Pb.
  destruct Hr as [_ _ [Ha Ha0] Hs Hw Ho Hf Hal].
  pose proof (PAGE_ALIGN_mono 0 (p_offset ph) ltac:(lia)) as H1. change (PAGE_ALIGN 0) with 0 in H1.
  destruct (mprotect_run m1 a (PAGE_ROUND (p_memsz ph)) (seg_prot ph)) as (m2 & E2 & Hp2 & Hb2);
    try done.
  { rewrite page_count_round, Hm by lia. fold n. intros x Hx. rewrite Pp.
    destruct (in_range_spec a n x); [ by eexists | lia ]. }
  rewrite page_count_round, Hm in Hp2 by lia. fold n in Hp2. exists m2. split_and!.
  - rewrite E1. unfold sys_mprotect, mbind, M_bind. simpl mem. by rewrite E2.
  - intros x. rewrite Hb2, Pb. destruct (in_range_spec a n x); [ | done ].
    unfold file_at. rewrite !nth_lookup, lookup_take_lt, lookup_drop by lia. do 3 f_equal. lia.
  - intros x. rewrite Hp2, Pp. by destruct (in_range_spec a n x).
Qed.

(** A first segment without pages of zeros goes to its address, or to the random
    page-aligned base of a position-independent binary: the object gets that base, the
    mapping holds the file from its page on with the protections of the flags, and nothing
    else changes. *)
Theorem map_load_first (p : proc) (b : mdata_binary) (ph : Elf64_Phdr) (a : Z)
    (Hr : first_ready p b ph a) (Hm : PAGE_ALIGN (p_memsz ph) = PAGE_ALIGN (p_filesz ph)) :
  let n := PAGE_ALIGN (p_filesz ph) + PAGE_SZ in
  exists m', map_load ph b p = Ret (Some (first_object a ph b)) ((first_opens b p) <| mem := m' |>) /\
    (forall x, 0 <= x < n ->
       byte_at m' (a + x) = nth (Z.to_nat (PAGE_ALIGN (p_offset ph) + x)) (fbinary b) 0) /\
    (forall x, a <= x < a + n -> page_prot m' x = Some (seg_prot ph)) /\
    (forall x, ~ (a <= x < a + n) -> byte_at m' x = byte_at (mem p) x /\
                                    page_prot m' x = page_prot (mem p) x).
Proof.
  intros n. destruct (first_mapped_run p b ph a Hr Hm) as (m' & E & Hb & Hp). fold n in Hb, Hp.
  exists m'. split_and!; [ exact E | | | ]; intros x Hx; rewrite ?Hb, ?Hp.
  - destruct (in_range_spec a n (a + x)); [ | lia ]. by replace (a + x - a) with x by lia.
  - destruct (in_range_spec a n x); [ done | lia ].
  - by destruct (in_range_spec a n x).
Qed.

(** A first segment whose zeros need pages of their own is refused: they are not mapped, and
    the last [mprotect] runs into the hole. *)
Theorem map_load_first_bss (p : proc) (b : mdata_binary) (ph : Elf64_Phdr) (a : Z)
    (Hr : first_ready p b ph a) (Hm : PAGE_ALIGN (p_filesz ph) < PAGE_ALIGN (p_memsz ph))
    (Hh : page_prot (mem p) (a + PAGE_ALIGN (p_filesz ph) + PAGE_SZ) = None) :
  exists p', map_load ph b p = Ret None p'.
Proof.
  destruct (first_mapped p b ph a Hr) as (m1 & [Pp Pb] & E1). rewrite E1.
  destruct Hr as [_ _ [Ha Ha0] Hs Hw Ho Hf Hal].
  set (q := a + PAGE_ALIGN (p_filesz ph) + PAGE_SZ) in *.
  pose proof (PAGE_ALIGN_mono 0 (p_filesz ph) ltac:(lia)) as H1. change (PAGE_ALIGN 0) with 0 in H1.
  assert (Hq : q mod PAGE_SZ = 0).
  { unfold q. by rewrite Z.add_mod, (Z.add_mod a), Ha, PAGE_ALIGN_mod by done. }
  destruct (mprotect_hole m1 a (PAGE_ROUND (p_memsz ph)) (seg_prot ph) q) as [m2 E2]; try done.
  - rewrite page_count_round by lia. unfold q, PAGE_SZ in *. 
    destruct (PAGE_ALIGN_multiple (p_filesz ph)) as [k Hk], (PAGE_ALIGN_multiple (p_memsz ph)) as [j Hj].
    unfold PAGE_SZ in *. lia.
  - rewrite Pp. destruct (in_range_spec a (PAGE_ALIGN (p_filesz ph) + PAGE_SZ) q); [ lia | done ].
  - eexists. unfold sys_mprotect, mbind, M_bind. simpl mem. rewrite E2. reflexivity.
Qed.
End LoaderSpec.
