(* ===== verification/BinarySpec.v ===== *)
(** * Mapping a binary

    What [map_binary] returns: an object that describes the file it was asked for, with the
    entry point of its interpreter; the files it refuses; and the interpreters that name
    themselves. *)

From S2P Require Import Prelude.
From S2P Require Import Pages.
From S2P Require Import Regs.
From S2P Require Import Process.
From S2P Require Import Syscalls.
From S2P Require Import Memory.
From S2P Require Import Branch.
From S2P Require Import Target.
From S2P Require Import Cflow.
From S2P Require Import Engine.
From S2P Require Import Stubs.
From S2P Require Import Elf.
From S2P Require Import Stack.
From S2P Require Import Loader.

Section BinarySpec.
Context `{HK : Kernel} `{HE : RegEnum} `{HD : Disassembler} `{HY : Layout} `{HA : Assembler}.
Context `{HC : MmapChoice} `{HG : Globals} `{HM : Machine}.

(** ** The analysis of a file *)

Definition object_of (fd : Z) (file : list Z) (h : hashmap) (e : Elf64_Ehdr) : mdata_binary :=
  mk_binary file fd (parse_phdr e) e (is_pie e) None 0 (fresh_dbi h) 0.

Lemma read_ehdr_phnum file e : read_ehdr file = Some e -> is_Some (rd 2 file 56).
Proof.
  unfold read_ehdr. intros E. repeat (apply bind_Some in E as (? & ? & E)). by eexists.
Qed.

Lemma init_analysis_run s fd file h e p :
  h_open (descriptors p) s = Some (fd, file) -> init_hashmap = Some h -> cs_open_ok = true ->
  cs_malloc_ok = true ->
  is_elf file = Some true -> read_ehdr file = Some e ->
  init_analysis s p = Ret (Some (object_of fd file h e)) (opens 1 p).
Proof.
  intros Eo Eh Ec Em El Er. unfold init_analysis, get, modify. rewrite Ec, Em.
  destruct (read_ehdr_phnum _ _ Er) as [n En].
  unfold lift_option, mbind, M_bind. rewrite Eo, Eh, En. cbn [negb mret M_ret]. by rewrite El, Er.
Qed.

Lemma fatal_dump_of_ends {A B} d (k : A -> M B) p b p' :
  (fatal_dump_of d ≫= k) p <> Ret b p'.
Proof.
  unfold fatal_dump_of, modify, mbind, M_bind. rewrite fatal_dump_spec.
  generalize (p <| dbi := d |>). intros q.
  by destruct (sse (gstate q)), (avx2 (gstate q)), (avx512 (gstate q)).
Qed.

Lemma init_analysis_inv s p b p' :
  init_analysis s p = Ret (Some b) p' ->
  exists fd file h e, h_open (descriptors p) s = Some (fd, file) /\ init_hashmap = Some h /\
    is_elf file = Some true /\ read_ehdr file = Some e /\ b = object_of fd file h e /\
    p' = opens 1 p.
Proof.
  unfold init_analysis, get, modify. unfold mbind at 1, M_bind at 1.
  destruct (h_open (descriptors p) s) as [[fd file] |]; [ | done ].
  unfold mbind at 1, M_bind at 1. unfold lift_option, mbind at 1, M_bind at 1.
  destruct init_hashmap as [h |]; [ | done ]. unfold mbind at 1, M_bind at 1.
  destruct (rd 2 file 56) as [n |]; [ | done ].
  destruct cs_open_ok; cbn [negb].
  2: { intros E. exfalso. eapply fatal_dump_of_ends. exact E. }
  unfold mbind at 1, M_bind at 1. destruct cs_malloc_ok; cbn [negb]; [ | done ].
  unfold mbind at 1, M_bind at 1. destruct (is_elf file) as [[] |] eqn:El; [ | done | done ].
  cbn [negb]. unfold mbind at 1, M_bind at 1. destruct (read_ehdr file) as [e |] eqn:Er; [ | done ].
  intros E. exists fd, file, h, e. injection E as <- <-. done.
Qed.

(** A file that cannot be opened, one that is not an ELF file, and a machine without memory
    for Capstone. *)
Definition refused (p : proc) (s : list Z) : Prop :=
  h_open (descriptors p) s = None \/
  exists fd file, h_open (descriptors p) s = Some (fd, file) /\ is_Some init_hashmap /\ is_Some (rd 2 file 56) /\
    cs_open_ok = true /\ (cs_malloc_ok = false \/ is_elf file = Some false).

(** The file stays open when it could be opened. *)
Definition left_open (s : list Z) (p : proc) : proc :=
  match h_open (descriptors p) s with Some _ => opens 1 p | None => p end.

Lemma init_analysis_refused s p : refused p s -> init_analysis s p = Ret None (left_open s p).
Proof.
  unfold init_analysis, left_open, get, modify.
  intros [Eo | (fd & file & Eo & [h Eh] & [n En] & Ec & Hr)]; unfold lift_option, mbind, M_bind;
    rewrite Eo; [ done | ].
  rewrite Eh, En, Ec. cbn [negb mret M_ret].
  destruct Hr as [-> | Hr]; [ done | ]. destruct cs_malloc_ok; [ | done ]. cbn [negb]. by rewrite Hr.
Qed.

(** A file that cannot be opened, that is not an ELF file, or for which Capstone has no memory
    is refused; nothing changes but for the file, which stays open. *)
Theorem map_binary_refuses (fuel words : nat) (s : list Z) (args : option (Z * Z)) (p : proc)
    (Hr : refused p s) :
  map_binary (S fuel) words s args p = Ret None (left_open s p).
Proof. cbn [map_binary]. by erewrite bind_Ret by (by apply init_analysis_refused). Qed.

(** ** What is returned *)

(** The members that neither the segments nor the stack change. *)
Definition same_file (b b' : mdata_binary) : Prop :=
  fbinary b' = fbinary b /\ fd b' = fd b /\ s_ph b' = s_ph b /\ eh b' = eh b /\ pie b' = pie b.

#[local] Instance same_file_preorder : PreOrder same_file.
Proof. unfold same_file. split; [ done | ]. intros x y z ? ?. intuition congruence. Qed.

Definition any : proc -> proc -> Prop := fun _ _ => True.

#[local] Instance any_preorder : PreOrder any.
Proof. by split. Qed.

(** An operation returns, if anything, an object that satisfies [P]. *)
Definition yields (P : mdata_binary -> Prop) (r : option mdata_binary) : Prop :=
  forall b, r = Some b -> P b.

Lemma ensures_any {A} (m : M A) : ensures any (fun _ => True) m.
Proof. done. Qed.

Definition like (b b' : mdata_binary) : Prop := same_file b b' /\ interp b' = interp b.

Lemma map_load_like ph b : ensures any (yields (like b)) (map_load ph b).
Proof.
  unfold map_load. eapply (ensures_bind (fun r => like b r.2)).
  - unfold map_file_part. apply ensures_if.
    + apply ensures_bind_any; [ done | ]. intros a. apply ensures_bind_any; [ done | ].
      intros ok. by apply ensures_mret.
    + apply ensures_bind_any; [ done | ]. intros ok. by apply ensures_mret.
  - intros [[ok c] b1] Hb. simpl in Hb. apply ensures_if; [ by apply ensures_mret | ].
    eapply (ensures_bind (yields (like b))).
    + unfold map_bss. apply ensures_if.
      * apply ensures_bind_any; [ done | ]. intros _. apply ensures_if.
        { apply ensures_bind_any; [ done | ]. intros ok'. apply ensures_mret.
          intros b2 E. by destruct ok'; simplify_eq. }
        { apply ensures_mret. intros b2 E. by destruct (truth _); simplify_eq. }
      * apply ensures_mret. intros b2 E. by destruct (truth (Z.land _ _)); simplify_eq.
    + intros [b2 |] Hb2; [ | by apply ensures_mret ].
      apply ensures_bind_any; [ done | ]. intros r. apply ensures_mret.
      intros b3 E. destruct (truth r); simplify_eq. by apply Hb2.
Qed.

Lemma setup_stack_like words argv b argc :
  ensures any (fun r => like b r.2 /\ base r.2 = base b) (setup_stack words argv b argc).
Proof.
  unfold setup_stack. apply ensures_bind_any; [ done | ]. intros sp.
  apply ensures_if; [ by apply ensures_mret | ].
  do 8 (apply ensures_bind_any; [ done | intros ? ]). by apply ensures_mret.
Qed.

(** A program header that names an interpreter. *)
Definition names_interp (file : list Z) (off : Z) : bool :=
  match read_phdr file off with Some ph => IS_INTERP ph | None => false end.

(** The object describes an ELF file and starts at the entry of its interpreter, or at its
    own entry when it has none; the interpreter is such an object too. *)
Inductive wf_binary (b : mdata_binary) : Prop :=
| wf_intro :
    is_elf (fbinary b) = Some true -> read_ehdr (fbinary b) = Some (eh b) ->
    s_ph b = parse_phdr (eh b) -> pie b = is_pie (eh b) ->
    (is_Some (interp b) <-> existsb (names_interp (fbinary b)) (s_ph b) = true) ->
    exec_entry b = entry_of b ->
    (forall i, interp b = Some i -> wf_binary i) ->
    wf_binary b.

Lemma map_segments_wf map phs b :
  (forall f, ensures any (yields wf_binary) (map f)) ->
  (forall i, interp b = Some i -> wf_binary i) ->
  ensures any (yields (fun b' => same_file b b' /\
      (forall i, interp b' = Some i -> wf_binary i) /\
      (is_Some (interp b') <-> is_Some (interp b) \/ existsb (names_interp (fbinary b)) phs = true)))
    (map_segments map phs b).
Proof.
  intros Hmap. revert b. induction phs as [| off phs IH]; intros b Hi.
  { apply ensures_mret. intros b' [= <-]. split_and!; [ done | done | ]. simpl. naive_solver. }
  cbn [map_segments existsb].
  apply (ensures_bind (fun ph => read_phdr (fbinary b) off = Some ph)).
  { intros p ph p' E. split; [ | done ]. unfold lift_option in E.
    destruct (read_phdr _ _); [ by simplify_eq | done ]. }
  intros ph Eph. unfold names_interp at 1. rewrite Eph.
  destruct (IS_INTERP ph); cbn [orb].
  - apply (ensures_bind (yields wf_binary)).
    { unfold load_interp. apply ensures_bind_any; [ done | ]. intros f. apply Hmap. }
    intros [i |] Hw; [ | by apply ensures_mret ].
    eapply ensures_weaken; [ apply (IH (b <| interp := Some i |>)) | ].
    { intros i' [= <-]. by apply Hw. }
    intros r Hr b' E. destruct (Hr b' E) as (H1 & H2 & H3). split_and!; [ done | done | ].
    rewrite H3. simpl. split; [ by right | ]. intros _. left. by eexists.
  - destruct (IS_LOAD ph); [ | apply IH; done ].
    apply (ensures_bind (yields (like b))); [ apply map_load_like | ].
    intros [b1 |] Hl; [ | by apply ensures_mret ].
    destruct (Hl b1 eq_refl) as [Hs Hi1]. pose proof Hs as (Hf & _).
    eapply ensures_weaken; [ apply (IH b1); rewrite Hi1; done | ].
    intros r Hr b' E. destruct (Hr b' E) as (H1 & H2 & H3).
    rewrite Hi1, Hf in H3. split_and!; [ by etrans | done | done ].
Qed.

Lemma map_binary_wf fuel words s args : ensures any (yields wf_binary) (map_binary fuel words s args).
Proof.
  revert s args. induction fuel as [| fuel IH]; intros s args; [ done | ]. cbn [map_binary].
  apply (ensures_bind (yields (fun b => exists n fd file h e, h_open n s = Some (fd, file) /\
    is_elf file = Some true /\ read_ehdr file = Some e /\ b = object_of fd file h e))).
  { intros p r p' E. split; [ | done ]. intros b ->.
    apply init_analysis_inv in E as (fd & file & h & e & ? & _ & ? & ? & ? & _).
    by exists (descriptors p), fd, file, h, e. }
  intros [b |] Hb; [ | by apply ensures_mret ].
  destruct (Hb b eq_refl) as (n & fd & file & h & e & _ & Hel & Her & ->).
  eapply ensures_bind; [ apply map_segments_wf; [ intros f; apply IH | done ] | ].
  intros [b |] Hs; [ | by apply ensures_mret ].
  destruct (Hs b eq_refl) as ((Hf & Hfd & Hph & Heh & Hpie) & Hi & Hint).
  apply (ensures_bind (fun b' => like b b' /\ base b' = base b)).
  { destruct args as [[argv argc] |]; [ | by apply ensures_mret ].
    eapply ensures_bind; [ apply setup_stack_like | ]. intros [sp b'] Hb'. by apply ensures_mret. }
  intros b' [[(Hf' & Hfd' & Hph' & Heh' & Hpie') Hi'] _]. apply ensures_mret. intros r [= <-].
  split; simpl; rewrite ?Hf', ?Hph', ?Heh', ?Hpie', ?Hi', ?Hf, ?Hph, ?Heh, ?Hpie; try done.
  rewrite Hint. simpl. split; [ intros [[x E] | E]; done | by right ].
Qed.

(** C22: What map_binary returns describes its file: an ELF file, its header and program
    headers, the pie flag of its type, an interpreter (such an object itself) exactly when a
    header names one, and the entry point of the interpreter or else its own. *)
Theorem map_binary_well_formed (fuel words : nat) (s : list Z) (args : option (Z * Z))
    (p p' : proc) (b : mdata_binary) (E : map_binary fuel words s args p = Ret (Some b) p') :
  wf_binary b.
Proof. destruct (map_binary_wf fuel words s args p (Some b) p' E) as [Hb _]. by apply Hb. Qed.

(** ** An interpreter that is its own interpreter *)

(** The first program header of the file [s] names [s] as its interpreter; it can be opened
    as long as less than [limit] files are open. *)
Record self_interp (limit : nat) (s : list Z) (file : list Z) : Prop := {
  si_open n : (n < limit)%nat -> exists fd, h_open n s = Some (fd, file);
  si_limit : h_open limit s = None;
  si_file : exists h e off phs ph,
    init_hashmap = Some h /\ is_elf file = Some true /\
    read_ehdr file = Some e /\ parse_phdr e = off :: phs /\ read_phdr file off = Some ph /\
    IS_INTERP ph = true /\ file_cstr file (if is_pie e then p_vaddr ph else p_offset ph) = Some s;
  si_capstone : cs_open_ok = true /\ cs_malloc_ok = true
}.

Lemma opens_opens n k p : opens n (opens k p) = opens (k + n) p.
Proof. unfold opens. simpl. by rewrite <- Nat.add_assoc. Qed.

Lemma opens_0 p : opens 0 p = p.
Proof. unfold opens. rewrite Nat.add_0_r. by destruct p. Qed.

(** One level: the file is opened and asks for its interpreter. *)
Lemma self_interp_level limit fuel words s file args p :
  self_interp limit s file -> (descriptors p < limit)%nat ->
  exists k, map_binary (S fuel) words s args p = (map_binary fuel words s None ≫= k) (opens 1 p) /\
    forall q, k None q = Ret None q.
Proof.
  intros [Ho _ (h & e & off & phs & ph & Eh & El & Er & Ep & Eph & Hi & Ec) [Hc Hm]] Hd.
  destruct (Ho _ Hd) as [fd Eo]. cbn [map_binary].
  erewrite bind_Ret by (by apply init_analysis_run). cbv iota. cbn [object_of s_ph].
  fold (object_of fd file h e). rewrite Ep. cbn [map_segments]. unfold load_interp. rewrite bind_assoc.
  erewrite bind_Ret by (unfold lift_option; cbn [object_of fbinary]; by rewrite Eph).
  rewrite Hi, bind_assoc, bind_assoc.
  erewrite bind_Ret by (unfold lift_option; cbn [object_of fbinary pie]; by rewrite Ec).
  eexists. split; [ reflexivity | ]. intros q. reflexivity.
Qed.

(** C38: A file whose first program header names the file itself as its interpreter is
    opened again at every level, and never closed, until open refuses it: then map_binary
    returns the error value at every level, with nothing changed but the files that stay
    open. It nests as deep as files can be opened: the fuel for that many levels is enough
    and no smaller one is. *)
Theorem map_binary_self_interp (limit fuel words : nat) (s file : list Z) (args : option (Z * Z))
    (p : proc) (Hs : self_interp limit s file) (Hd : (descriptors p <= limit)%nat) :
  ((limit - descriptors p < fuel)%nat ->
     map_binary fuel words s args p = Ret None (opens (limit - descriptors p) p)) /\
  ((fuel <= limit - descriptors p)%nat -> map_binary fuel words s args p = OutOfFuel).
Proof.
  revert args p Hd. induction fuel as [| fuel IH]; intros args p Hd; [ split; [ lia | done ] | ].
  destruct (decide (descriptors p = limit)) as [El | Hne].
  - split; [ | lia ]. rewrite El, Nat.sub_diag, opens_0. intros _.
    assert (Eo : h_open (descriptors p) s = None) by (rewrite El; apply Hs).
    cbn [map_binary]. erewrite bind_Ret by (apply init_analysis_refused; by left).
    unfold left_open. by rewrite Eo.
  - destruct (self_interp_level limit fuel words s file args p Hs ltac:(lia)) as (k & E & Ek).
    destruct (IH None (opens 1 p) ltac:(simpl; lia)) as [I1 I2]. simpl in I1, I2. rewrite E.
    split; intros Hf.
    + erewrite bind_Ret by (apply I1; lia). rewrite Ek, opens_opens. do 2 f_equal. lia.
    + unfold mbind, M_bind. by rewrite I2 by lia.
Qed.
End BinarySpec.
