(* ===== verification/ImageSpec.v ===== *)
(** * The image of a binary

    The segments of a program without interpreter, mapped one after the other, leave the
    memory an abstract description of the binary gives: at every address the last segment
    whose pages contain it, and outside of them what was there before. *)

From S2P Require Import Prelude.
From S2P Require Import Pages.
From S2P Require Import Regs.
From S2P Require Import Process.
From S2P Require Import Syscalls.
From S2P Require Import Memory.
From S2P Require Import MemorySpec.
From S2P Require Import Branch.
From S2P Require Import Target.
From S2P Require Import Cflow.
From S2P Require Import Engine.
From S2P Require Import Stubs.
From S2P Require Import SetupSpec.
From S2P Require Import Elf.
From S2P Require Import Stack.
From S2P Require Import Loader.
From S2P Require Import LoaderSpec.
From S2P Require Import BinarySpec.

(** ** Pieces of an address space *)

(** Consecutive pages with the protection and the contents of every address. *)
Record piece := mk_piece {
  pc_lo : Z;
  pc_len : Z;
  pc_prot : Z -> Z;
  pc_byte : Z -> Z
}.

Definition covers (pc : piece) (x : Z) : bool := in_range (pc_lo pc) (pc_len pc) x.

(** What pieces put one over the other show at an address: the last one that covers it. *)
Fixpoint image (l : list piece) (x : Z) : option (Z * Z) :=
  match l with
  | [] => None
  | pc :: l' =>
      match image l' x with
      | Some v => Some v
      | None => if covers pc x then Some (pc_prot pc x, pc_byte pc x) else None
      end
  end.

(** The memory [m'] is [m] with [v] on top at every address. *)
Definition on_top (v : Z -> option (Z * Z)) (m m' : aspace) : Prop :=
  forall x, match v x with
            | Some (prot, b) => page_prot m' x = Some prot /\ byte_at m' x = b
            | None => page_prot m' x = page_prot m x /\ byte_at m' x = byte_at m x
            end.

Lemma on_top_nil m : on_top (image []) m m.
Proof. done. Qed.

Lemma on_top_cons pc l m m1 m' :
  on_top (image [pc]) m m1 -> on_top (image l) m1 m' -> on_top (image (pc :: l)) m m'.
Proof.
  intros H1 H2 x. specialize (H1 x). specialize (H2 x). simpl in *.
  destruct (image l x) as [[prot b] |]; [ done | ].
  destruct H2 as [-> ->]. by destruct (covers pc x).
Qed.

(** An address that no later piece covers shows its own piece. *)
Lemma image_shows l1 pc l2 x :
  covers pc x = true -> (forall pc', pc' ∈ l2 -> covers pc' x = false) ->
  image (l1 ++ pc :: l2) x = Some (pc_prot pc x, pc_byte pc x).
Proof.
  intros Hc Hl.
  assert (H2 : image l2 x = None).
  { induction l2 as [| pc' l2 IH]; [ done | ]. simpl. rewrite IH by (intros; apply Hl; by right).
    by rewrite Hl by left. }
  induction l1 as [| pc1 l1 IH]; simpl; [ by rewrite H2, Hc | by rewrite IH ].
Qed.

(** ** The pieces of a binary *)

(** The first segment at [a]. *)
Definition first_piece (file : list Z) (a : Z) (ph : Elf64_Phdr) : piece :=
  mk_piece a (PAGE_ALIGN (p_filesz ph) + PAGE_SZ) (fun _ => seg_prot ph)
    (fun x => nth (Z.to_nat (PAGE_ALIGN (p_offset ph) + (x - a))) file 0).

(** A later segment at [c]. *)
Definition seg_piece (file : list Z) (c : Z) (ph : Elf64_Phdr) : piece :=
  mk_piece (PAGE_ALIGN c) (seg_end c ph - PAGE_ALIGN c) (seg_prot_at c ph) (seg_byte_at file c ph).

(** The address of a later segment in a binary with the base [a]. *)
Definition addr_from (pie : bool) (a : Z) (ph : Elf64_Phdr) : Z :=
  if pie then u64 (a + p_vaddr ph) else p_vaddr ph.

Definition pieces (file : list Z) (pie : bool) (a : Z) (loads : list Elf64_Phdr) : list piece :=
  match loads with
  | [] => []
  | ph :: loads => first_piece file a ph
                   :: map (fun ph => seg_piece file (addr_from pie a ph) ph) loads
  end.

(** The break the segments leave. *)
Definition image_break (pie : bool) (a : Z) (loads : list Elf64_Phdr) (old : Z) : Z :=
  match loads with
  | [] => old
  | ph :: loads => foldl (fun old ph => seg_break (addr_from pie a ph) ph old)
                     (first_break a ph old) loads
  end.

(** A later segment at [c] is in the file and does not wrap around. *)
Record placeable (file : list Z) (c : Z) (ph : Elf64_Phdr) : Prop := {
  pl_pos : 0 < c;
  pl_sizes : 0 <= p_filesz ph <= p_memsz ph;
  pl_wrap : c + p_memsz ph + 0x4000 <= 2 ^ 64;
  pl_off : 0 <= p_offset ph;
  pl_file : PAGE_ALIGN (p_offset ph) + (file_end c ph - PAGE_ALIGN c) - PAGE_SZ
            < Z.of_nat (length file)
}.

Section Image.
Context `{HK : Kernel} `{HE : RegEnum} `{HD : Disassembler} `{HO : !DisassemblerOk}.
Context `{HY : Layout} `{HA : Assembler} `{HC : MmapChoice} `{HG : Globals} `{HM : Machine}.

(** Nothing is refused. *)
Definition maps_allowed : Prop := forall m a n prot, k_map_refused m a n prot = false.

(** The headers at the offsets [offs] of the file. *)
Definition headers (file : list Z) : list Z -> list Elf64_Phdr -> Prop :=
  Forall2 (fun off ph => read_phdr file off = Some ph).

Definition is_load (ph : Elf64_Phdr) : Prop := IS_LOAD ph = true.

#[local] Instance is_load_dec ph : Decision (is_load ph).
Proof. unfold is_load. apply _. Defined.

Lemma map_load_piece p b ph a :
  maps_allowed -> base b = a -> a <> 0 ->
  placeable (fbinary b) (addr_from (pie b) a ph) ph ->
  let c := addr_from (pie b) a ph in
  exists m', map_load ph b p
             = Ret (Some (set_vbrk (seg_break c ph (vbrk (dbi_handler b))) b)) (p <| mem := m' |>) /\
    on_top (image [seg_piece (fbinary b) c ph]) (mem p) m'.
Proof.
  intros Hal Hb Ha [P1 P2 P3 P4 P5] c.
  destruct (map_load_run p b ph c) as (m' & E & [Sp Sb]).
  { split; try done; [ by rewrite Hb | unfold seg_addr, c, addr_from; by rewrite Hb ]. }
  exists m'. split; [ exact E | ]. intros x. rewrite Sp, Sb. simpl. unfold covers. simpl.
  by destruct (in_range _ _ x).
Qed.

(** The headers behind the first segment. *)
Lemma map_segments_rest map offs phs : forall b p a,
  maps_allowed -> headers (fbinary b) offs phs -> Forall (fun ph => IS_INTERP ph = false) phs ->
  base b = a -> a <> 0 ->
  Forall (fun ph => placeable (fbinary b) (addr_from (pie b) a ph) ph) (filter is_load phs) ->
  exists m', map_segments map offs b p
    = Ret (Some (set_vbrk (foldl (fun old ph => seg_break (addr_from (pie b) a ph) ph old)
                             (vbrk (dbi_handler b)) (filter is_load phs)) b)) (p <| mem := m' |>) /\
    on_top (image (fmap (fun ph => seg_piece (fbinary b) (addr_from (pie b) a ph) ph)
                     (filter is_load phs))) (mem p) m'.
Proof.
  revert phs. induction offs as [| off offs IH]; intros phs b p a Hal Hh Hi Hb Ha Hpl;
    inversion Hh as [| ? ph ? phs' Hrd Hh']; subst.
  { exists (mem p). split; [ | apply on_top_nil ]. simpl. rewrite set_vbrk_same. by destruct p. }
  inversion Hi as [| ? ? Hi1 Hi2]; subst. cbn [map_segments].
  erewrite bind_Ret by (unfold lift_option; by rewrite Hrd). cbv beta. rewrite Hi1.
  destruct (IS_LOAD ph) eqn:Hl.
  - rewrite filter_cons_True in Hpl |- * by exact Hl. inversion Hpl as [| ? ? Hp1 Hp2]; subst.
    destruct (map_load_piece p b ph (base b) Hal eq_refl Ha Hp1) as (m1 & E1 & T1).
    erewrite bind_Ret by exact E1. cbv beta iota.
    set (b1 := set_vbrk (seg_break (addr_from (pie b) (base b) ph) ph (vbrk (dbi_handler b))) b).
    destruct (IH phs' b1 (p <| mem := m1 |>) (base b)) as (m2 & E2 & T2); try done.
    exists m2. split; [ exact E2 | ]. simpl. by eapply on_top_cons.
  - rewrite filter_cons_False in Hpl |- * by (unfold is_load; by rewrite Hl).
    by apply (IH phs' b p (base b)).
Qed.

(** The address [a] is the one of the first segment, whose zeros need no pages of their own. *)
Record placed_first (p : proc) (b : mdata_binary) (ph : Elf64_Phdr) (a : Z) : Prop := {
  pf_ready : first_ready p b ph a;
  pf_zeros : PAGE_ALIGN (p_memsz ph) = PAGE_ALIGN (p_filesz ph)
}.

Lemma map_load_first_piece p b ph a :
  placed_first p b ph a ->
  exists m', map_load ph b p = Ret (Some (first_object a ph b)) ((first_opens b p) <| mem := m' |>) /\
    on_top (image [first_piece (fbinary b) a ph]) (mem p) m'.
Proof.
  intros [Hr Hz]. destruct (first_mapped_run p b ph a Hr Hz) as (m' & E & Hb & Hp).
  exists m'. split; [ exact E | ]. intros x. rewrite Hp, Hb. simpl. unfold covers. simpl.
  by destruct (in_range _ _ x).
Qed.

Lemma map_segments_run map offs phs ph loads : forall b p a,
  maps_allowed -> headers (fbinary b) offs phs -> Forall (fun ph => IS_INTERP ph = false) phs ->
  filter is_load phs = ph :: loads -> placed_first p b ph a ->
  Forall (fun ph => placeable (fbinary b) (addr_from (pie b) a ph) ph) loads ->
  exists m', map_segments map offs b p
    = Ret (Some (set_vbrk (image_break (pie b) a (ph :: loads) (vbrk (dbi_handler b)))
                   (b <| base := a |>))) ((first_opens b p) <| mem := m' |>) /\
    on_top (image (pieces (fbinary b) (pie b) a (ph :: loads))) (mem p) m'.
Proof.
  revert phs. induction offs as [| off offs IH]; intros phs b p a Hal Hh Hi Hf Hpf Hpl;
    inversion Hh as [| ? ph1 ? phs' Hrd Hh']; subst; [ done | ].
  inversion Hi as [| ? ? Hi1 Hi2]; subst. cbn [map_segments].
  erewrite bind_Ret by (unfold lift_option; by rewrite Hrd). cbv beta. rewrite Hi1.
  destruct (IS_LOAD ph1) eqn:Hl.
  - rewrite filter_cons_True in Hf by exact Hl. injection Hf as -> <-.
    destruct (map_load_first_piece p b ph a Hpf) as (m1 & E1 & T1).
    erewrite bind_Ret by exact E1. cbv beta iota.
    destruct (map_segments_rest map offs phs' (first_object a ph b) ((first_opens b p) <| mem := m1 |>) a)
      as (m2 & E2 & T2); try done.
    { destruct Hpf as [[_ _ [_ ?] _ _ _ _ _] _]. lia. }
    exists m2. split; [ exact E2 | ]. by eapply on_top_cons.
  - rewrite filter_cons_False in Hf by (unfold is_load; by rewrite Hl). by apply (IH phs').
Qed.
(** ** The binary *)

(** The file [file] of the name [s] is a program without interpreter: its headers are [phs],
    the segments among them [ph] and then [loads], the first one at [a]. *)
Record static_binary (s : list Z) (p : proc) (fd : Z) (file : list Z) (h : hashmap)
    (e : Elf64_Ehdr) (phs : list Elf64_Phdr) (ph : Elf64_Phdr) (loads : list Elf64_Phdr)
    (a : Z) : Prop := {
  sb_open : h_open (descriptors p) s = Some (fd, file);
  sb_table : init_hashmap = Some h;
  sb_capstone : cs_open_ok = true /\ cs_malloc_ok = true;
  sb_elf : is_elf file = Some true;
  sb_ehdr : read_ehdr file = Some e;
  sb_headers : headers file (parse_phdr e) phs;
  sb_interp : Forall (fun ph => IS_INTERP ph = false) phs;
  sb_loads : filter is_load phs = ph :: loads;
  sb_first : placed_first (opens 1 p) (object_of fd file h e) ph a;
  sb_rest : Forall (fun ph => placeable file (addr_from (is_pie e) a ph) ph) loads;
  sb_allowed : maps_allowed
}.

(** The process after the loader: the file is open, and for a random base the random device. *)
Definition loader_opens (e : Elf64_Ehdr) (p : proc) : proc := opens (if is_pie e then 2 else 1) p.

Lemma loader_opens_eq fd file h e p :
  first_opens (object_of fd file h e) (opens 1 p) = loader_opens e p.
Proof.
  unfold first_opens, loader_opens. cbn [object_of pie]. by destruct (is_pie e); rewrite ?opens_opens.
Qed.

(** The object after the segments. *)
Definition mapped_object (fd : Z) (file : list Z) (h : hashmap) (e : Elf64_Ehdr)
    (loads : list Elf64_Phdr) (a : Z) : mdata_binary :=
  set_vbrk (image_break (is_pie e) a loads 0) ((object_of fd file h e) <| base := a |>).

Lemma map_binary_mapped fuel words s args p fd file h e phs ph loads a :
  static_binary s p fd file h e phs ph loads a ->
  exists m', on_top (image (pieces file (is_pie e) a (ph :: loads))) (mem p) m' /\
    map_binary (S fuel) words s args p
    = (b ← (match args with
            | None => mret (mapped_object fd file h e (ph :: loads) a)
            | Some (argv, argc) =>
                x ← setup_stack words argv (mapped_object fd file h e (ph :: loads) a) argc;
                mret x.2
            end);
       mret (Some (b <| exec_entry := entry_of b |>))) ((loader_opens e p) <| mem := m' |>).
Proof.
  intros [Eo Et [Ec Em] El Er Hh Hi Hf Hp Hr Hal].
  destruct (map_segments_run (fun f => map_binary fuel words f None) (parse_phdr e) phs ph loads
              (object_of fd file h e) (opens 1 p) a Hal Hh Hi Hf Hp Hr) as (m' & E & T).
  rewrite loader_opens_eq in E.
  exists m'. split; [ exact T | ]. cbn [map_binary].
  erewrite bind_Ret by (by apply init_analysis_run). cbv iota.
  erewrite bind_Ret by exact E. cbv iota. by destruct args as [[argv argc] |].
Qed.

(** The break is a page behind the zero pages of the last segment. *)
Lemma image_break_zeros pie a ph l q old :
  has_bss_pages (addr_from pie a q) q = true ->
  image_break pie a (ph :: l ++ [q]) old = PAGE_ALIGN (addr_from pie a q + p_memsz q) + 2 * PAGE_SZ.
Proof.
  unfold has_bss_pages. intros [H1 H2]%andb_true_iff. simpl. rewrite foldl_app. simpl.
  unfold seg_break at 1. rewrite H1, H2. unfold bss_end, PAGE_SZ. lia.
Qed.

(** A later segment shows in its piece. *)
Lemma seg_piece_shown m file c ph x :
  placeable file c ph -> p_offset ph mod PAGE_SZ = c mod PAGE_SZ -> c <= x < c + p_memsz ph ->
  (page_prot m x = Some (pc_prot (seg_piece file c ph) x) /\
   byte_at m x = pc_byte (seg_piece file c ph) x) ->
  segment_shown m file c ph x.
Proof.
  intros _ Hc Hx [Hp Hb]. simpl in Hp, Hb.
  destruct (seg_byte_at_file file c ph x Hc Hx), (seg_prot_at_keeps c ph x).
  split; rewrite ?Hb, ?Hp; try done; intros Hk; f_equal; auto.
Qed.

Lemma seg_piece_covers file c ph x :
  placeable file c ph -> c <= x < c + p_memsz ph -> covers (seg_piece file c ph) x = true.
Proof.
  intros [P1 P2 P3 P4 P5] Hx. pose proof (PAGE_ALIGN_bounds c). pose proof (seg_end_bounds c ph P2).
  unfold covers. simpl. by destruct (in_range_spec (PAGE_ALIGN c) (seg_end c ph - PAGE_ALIGN c) x); [ | lia ].
Qed.

Lemma image_none l x : (forall pc, pc ∈ l -> covers pc x = false) -> image l x = None.
Proof.
  induction l as [| pc l IH]; intros Hl; [ done | ]. simpl.
  rewrite IH by (intros; apply Hl; by right). by rewrite Hl by left.
Qed.

(** The pages of the later segments [loads] do not contain [x]. *)
Definition off_segments (file : list Z) (pie : bool) (a : Z) (loads : list Elf64_Phdr) (x : Z) : Prop :=
  Forall (fun q => x < PAGE_ALIGN (addr_from pie a q) \/ seg_end (addr_from pie a q) q <= x) loads.

Lemma off_segments_covers file pie a loads x :
  off_segments file pie a loads x ->
  forall pc, pc ∈ map (fun q => seg_piece file (addr_from pie a q) q) loads -> covers pc x = false.
Proof.
  intros Hl pc Hpc. apply list_elem_of_fmap in Hpc as (q & -> & Hq).
  unfold off_segments in Hl. rewrite Forall_forall in Hl. specialize (Hl q Hq). unfold covers. simpl.
  by destruct (in_range_spec (PAGE_ALIGN (addr_from pie a q))
     (seg_end (addr_from pie a q) q - PAGE_ALIGN (addr_from pie a q)) x); [ lia | ].
Qed.

(** What a program asks of its memory at [x], wherever the pages of no later segment are: the
    bytes of the file in the first segment, every later segment as its header says, and
    nothing else. *)
Record image_shown (file : list Z) (pie : bool) (a : Z) (ph : Elf64_Phdr) (loads : list Elf64_Phdr)
    (m m' : aspace) : Prop := {
  is_first x : a <= x < a + p_memsz ph -> off_segments file pie a loads x ->
    (p_offset ph mod PAGE_SZ = 0 -> x < a + p_filesz ph ->
     byte_at m' x = nth (Z.to_nat (p_offset ph + (x - a))) file 0) /\
    page_prot m' x = Some (seg_prot ph);
  is_later l1 q l2 x : loads = l1 ++ q :: l2 -> let c := addr_from pie a q in
    p_offset q mod PAGE_SZ = c mod PAGE_SZ -> c <= x < c + p_memsz q ->
    off_segments file pie a l2 x -> segment_shown m' file c q x;
  is_else x : x < a \/ a + PAGE_ALIGN (p_filesz ph) + PAGE_SZ <= x ->
    off_segments file pie a loads x ->
    page_prot m' x = page_prot m x /\ byte_at m' x = byte_at m x
}.

Lemma pieces_shown p b ph loads a m m' (file := fbinary b) :
  placed_first p b ph a -> Forall (fun q => placeable file (addr_from (pie b) a q) q) loads ->
  on_top (image (pieces file (pie b) a (ph :: loads))) m m' ->
  image_shown file (pie b) a ph loads m m'.
Proof.
  intros [[_ _ _ Fs _ _ _ _] Hz] Hr T. pose proof (PAGE_ALIGN_bounds (p_memsz ph)).
  split.
  - intros x Hx Hl. specialize (T x). simpl in T. rewrite image_none in T by by apply off_segments_covers.
    unfold covers in T. simpl in T.
    destruct (in_range_spec a (PAGE_ALIGN (p_filesz ph) + PAGE_SZ) x); [ | lia ].
    destruct T as [Tp Tb]. split; [ | done ]. intros Ho _. by rewrite Tb, (PAGE_ALIGN_id _ Ho).
  - intros l1 q l2 x -> c Hc Hx Hl. apply Forall_app in Hr as [_ [Hr _]%Forall_cons].
    specialize (T x).
    replace (pieces file (pie b) a (ph :: l1 ++ q :: l2))
      with ((first_piece file a ph :: map (fun q => seg_piece file (addr_from (pie b) a q) q) l1)
            ++ seg_piece file c q :: map (fun q => seg_piece file (addr_from (pie b) a q) q) l2)
      in T by (simpl; by rewrite map_app).
    rewrite image_shows in T; [ | by apply seg_piece_covers | by apply off_segments_covers ].
    by apply seg_piece_shown.
  - intros x Hx Hl. specialize (T x). simpl in T. rewrite image_none in T by by apply off_segments_covers.
    unfold covers in T. simpl in T.
    by destruct (in_range_spec a (PAGE_ALIGN (p_filesz ph) + PAGE_SZ) x); [ lia | ].
Qed.

(** C24: map_binary maps a program without interpreter whose first segment starts a page and
    needs no pages of zeros of its own (the others are refused when the page behind their
    file pages is free). For segments whose file offsets agree with their addresses modulo
    the page, and wherever the pages of no later segment are: the first segment, at its
    address or at the random base of a position-independent binary, shows the bytes of the
    file (its zeros are not cleared) under the protections of its flags; every later
    segment, at its address, shows the bytes of the file, then zeros, under the protections
    of its flags, but for the pages of map_load_segment that keep the write permission; and
    nothing else of the memory changes. Where segments share pages the later one wins. When
    the last segment has pages of zeros the break is a page past the page after its last
    byte; in general it is the one the segments leave one by one. The object starts at its
    own entry point, on the stack that is set up when there are arguments, and the files
    that were opened stay open. *)
Theorem map_binary_image (fuel words : nat) (s : list Z) (args : option (Z * Z)) (p : proc)
    (fd : Z) (file : list Z) (h : hashmap) (e : Elf64_Ehdr) (phs : list Elf64_Phdr)
    (ph : Elf64_Phdr) (loads : list Elf64_Phdr) (a : Z)
    (Hs : static_binary s p fd file h e phs ph loads a) :
  let b := mapped_object fd file h e (ph :: loads) a in
  exists m', image_shown file (is_pie e) a ph loads (mem p) m' /\
    on_top (image (pieces file (is_pie e) a (ph :: loads))) (mem p) m' /\
    match args with
    | None => map_binary (S fuel) words s args p
              = Ret (Some (b <| exec_entry := own_entry b |>)) ((loader_opens e p) <| mem := m' |>)
    | Some (argv, argc) => forall sp b' p',
        setup_stack words argv b argc ((loader_opens e p) <| mem := m' |>) = Ret (sp, b') p' ->
        map_binary (S fuel) words s args p = Ret (Some (b' <| exec_entry := own_entry b |>)) p'
    end /\
    (forall l q, loads = l ++ [q] -> has_bss_pages (addr_from (is_pie e) a q) q = true ->
       vbrk (dbi_handler b) = PAGE_ALIGN (addr_from (is_pie e) a q + p_memsz q) + 2 * PAGE_SZ).
Proof.
  intros b. destruct (map_binary_mapped fuel words s args p fd file h e phs ph loads a Hs)
    as (m' & T & E). exists m'. split; [ | split; [ exact T | split ] ].
  - apply (pieces_shown (opens 1 p) (object_of fd file h e)); [ apply Hs | apply Hs | exact T ].
  - rewrite E. destruct args as [[argv argc] |]; [ | done ]. intros sp b' p' Es.
    destruct (setup_stack_like words argv b argc ((loader_opens e p) <| mem := m' |>) (sp, b') p' Es)
      as [[[(_ & _ & _ & He & Hp) Hi] Hb] _]. simpl in *.
    erewrite bind_Ret by (erewrite bind_Ret by exact Es; reflexivity). cbv beta. simpl.
    unfold entry_of, own_entry. by rewrite Hi, He, Hp, Hb.
  - intros l q -> Hz. unfold b, mapped_object. cbn -[image_break]. by apply image_break_zeros.
Qed.
End Image.
