(* ===== verification/ElfSpec.v ===== *)
(** * The headers of a file

    The headers written by the ELF format are read back, wherever they are in the file, and
    the program header table is found entry by entry; what the searches over the table find;
    what the destructor of a binary unmaps, and what it leaves mapped. *)

From S2P Require Import Prelude.
From S2P Require Import Pages.
From S2P Require Import Regs.
From S2P Require Import Process.
From S2P Require Import Syscalls.
From S2P Require Import Memory.
From S2P Require Import MemorySpec.
From S2P Require Import Branch.
From S2P Require Import Target.
From S2P Require Import TargetSpec.
From S2P Require Import Cflow.
From S2P Require Import Engine.
From S2P Require Import Stubs.
From S2P Require Import Elf.
From S2P Require Import Stack.
From S2P Require Import Loader.

(** ** The format *)

Definition fits_bytes (n : nat) (v : Z) : Prop := 0 <= v < 2 ^ (8 * Z.of_nat n).

(** The header of a file: [ident] the first 16 bytes, [x1], [x2] and [x3] the members that
    are not read. *)
Definition ehdr_bytes (ident x1 x2 x3 : list Z) (e : Elf64_Ehdr) : list Z :=
  ident ++ le_split 2 (e_type e) ++ x1 ++ le_split 8 (e_entry e) ++ le_split 8 (e_phoff e)
  ++ le_split 8 (e_shoff e) ++ x2 ++ x3 ++ le_split 2 (e_phentsize e) ++ le_split 2 (e_phnum e)
  ++ le_split 2 (e_shentsize e) ++ le_split 2 (e_shnum e) ++ le_split 2 (e_shstrndx e).

Record ehdr_ok (e : Elf64_Ehdr) : Prop := {
  eo_type : fits_bytes 2 (e_type e);
  eo_offs : fits_bytes 8 (e_entry e) /\ fits_bytes 8 (e_phoff e) /\ fits_bytes 8 (e_shoff e);
  eo_ph : fits_bytes 2 (e_phentsize e) /\ fits_bytes 2 (e_phnum e);
  eo_sh : fits_bytes 2 (e_shentsize e) /\ fits_bytes 2 (e_shnum e) /\ fits_bytes 2 (e_shstrndx e)
}.

(** A program header with the physical address [paddr] and the alignment [align]. *)
Definition phdr_bytes (paddr align : Z) (ph : Elf64_Phdr) : list Z :=
  le_split 4 (p_type ph) ++ le_split 4 (p_flags ph) ++ le_split 8 (p_offset ph)
  ++ le_split 8 (p_vaddr ph) ++ le_split 8 paddr ++ le_split 8 (p_filesz ph)
  ++ le_split 8 (p_memsz ph) ++ le_split 8 align.

Record phdr_ok (ph : Elf64_Phdr) : Prop := {
  po_type : fits_bytes 4 (p_type ph) /\ fits_bytes 4 (p_flags ph);
  po_addr : fits_bytes 8 (p_offset ph) /\ fits_bytes 8 (p_vaddr ph);
  po_size : fits_bytes 8 (p_filesz ph) /\ fits_bytes 8 (p_memsz ph)
}.

(** The parts in front of a member are skipped, and the member is read. *)
Lemma rd_skip n a rest off :
  Z.of_nat (length a) <= off -> rd n (a ++ rest) off = rd n rest (off - Z.of_nat (length a)).
Proof.
  intros Ho. unfold rd, buf_read. rewrite length_app.
  destruct (Z.leb_spec 0 off), (Z.leb_spec 0 (off - Z.of_nat (length a))); try lia. simpl.
  rewrite drop_app_ge by lia.
  replace (Z.to_nat off - length a)%nat with (Z.to_nat (off - Z.of_nat (length a))) by lia.
  destruct (Z.leb_spec (off + n) (Z.of_nat (length a + length rest))),
    (Z.leb_spec (off - Z.of_nat (length a) + n) (Z.of_nat (length rest))); lia || done.
Qed.

Lemma rd_here n k v rest off :
  off = 0 -> k = Z.of_nat n -> fits_bytes n v -> rd k (le_split n v ++ rest) off = Some v.
Proof.
  intros -> -> Hv. unfold rd, buf_read. rewrite length_app, length_le_split.
  rewrite (proj2 (Z.leb_le (0 + _) _)) by lia. simpl.
  change (Z.to_nat 0) with 0%nat. rewrite drop_0, Nat2Z.id, take_app_length' by (by rewrite length_le_split).
  rewrite le_combine_split. unfold fits_bytes in Hv. by rewrite Z.mod_small.
Qed.

(** Reads the member at a literal offset of a structure given by its parts. *)
Ltac read_member :=
  rewrite <- ?(assoc_L (++));
  repeat (rewrite rd_skip by (rewrite ?length_le_split; lia));
  rewrite rd_here by (rewrite ?length_le_split; lia || done).

Theorem read_ehdr_bytes ident x1 x2 x3 e rest :
  length ident = 16%nat -> length x1 = 6%nat -> length x2 = 4%nat -> length x3 = 2%nat ->
  ehdr_ok e -> read_ehdr (ehdr_bytes ident x1 x2 x3 e ++ rest) = Some e.
Proof.
  intros Hi H1 H2 H3 [Ht (He & Hp & Hs) (Hp1 & Hp2) (Hs1 & Hs2 & Hs3)].
  unfold read_ehdr, buf_read. rewrite length_app.
  assert (Hl : length (ehdr_bytes ident x1 x2 x3 e) = 64%nat).
  { unfold ehdr_bytes. rewrite !length_app, !length_le_split. lia. }
  rewrite (proj2 (Z.leb_le (0 + 64) _)) by lia. simpl. unfold ehdr_bytes.
  do 9 (read_member; cbn [mbind option_bind]). by destruct e.
Qed.

Theorem read_phdr_bytes pre paddr align ph rest :
  phdr_ok ph -> read_phdr (pre ++ phdr_bytes paddr align ph ++ rest) (Z.of_nat (length pre)) = Some ph.
Proof.
  intros [[H1 H2] [H3 H4] [H5 H6]]. unfold read_phdr, phdr_bytes.
  do 6 (read_member; cbn [mbind option_bind]). by destruct ph.
Qed.

(** ** The tables *)

(** An entry of the program header table, with its physical address and alignment. *)
#[local] Abbreviation entry := (Z * Z * Elf64_Phdr)%type.

Definition entry_bytes (x : entry) : list Z := phdr_bytes x.1.1 x.1.2 x.2.

Lemma length_entries t : length (concat (entry_bytes <$> t)) = (56 * length t)%nat.
Proof.
  induction t as [| x t IH]; [ done | ]. cbn [fmap list_fmap concat]. rewrite length_app, IH.
  unfold entry_bytes, phdr_bytes. rewrite !length_app, !length_le_split. simpl. lia.
Qed.

Lemma parse_phdr_entries pre t rest e :
  e_phoff e = Z.of_nat (length pre) -> e_phentsize e = 56 -> e_phnum e = Z.of_nat (length t) ->
  Z.of_nat (length pre) + 56 * Z.of_nat (length t) < 2 ^ 64 -> Forall (fun x => phdr_ok x.2) t ->
  Forall2 (fun off ph => read_phdr (pre ++ concat (entry_bytes <$> t) ++ rest) off = Some ph)
    (parse_phdr e) (snd <$> t).
Proof.
  intros Hoff Hsz Hn Hu Hok. unfold parse_phdr. rewrite Hn, Nat2Z.id.
  apply Forall2_fmap. apply Forall2_same_length_lookup_2; [ apply length_seq | ].
  intros i k x Hk Hx. apply lookup_seq in Hk as [-> Hi]. rewrite Nat.add_0_l.
  pose proof (Forall_lookup_1 _ _ _ _ Hok Hx) as Hxo.
  rewrite <- (take_drop_middle t i x Hx) at 1. rewrite fmap_app, concat_app. cbn [fmap list_fmap concat].
  pose proof (read_phdr_bytes (pre ++ concat (entry_bytes <$> take i t)) x.1.1 x.1.2 x.2
                (concat (entry_bytes <$> drop (S i) t) ++ rest) Hxo) as E.
  rewrite length_app, length_entries, length_take in E.
  rewrite Hoff, Hsz, u64_small by (unfold is_u64; lia).
  replace (Z.of_nat (length pre) + 56 * Z.of_nat i)
    with (Z.of_nat (length pre + 56 * (i `min` length t)))%nat by lia.
  rewrite <- E. f_equal. unfold entry_bytes at 2. by rewrite <- !(assoc_L (++)).
Qed.

(** C23: The headers of a file are read back: the file header, and through the offset, the
    size and the number of entries it gives, every program header of the table in its order,
    whatever stands between and behind them. *)
Theorem headers_round_trip (ident x1 x2 x3 gap rest : list Z) (e : Elf64_Ehdr) (t : list entry)
    (Hi : length ident = 16%nat /\ length x1 = 6%nat /\ length x2 = 4%nat /\ length x3 = 2%nat)
    (He : ehdr_ok e) (Ht : Forall (fun x => phdr_ok x.2) t)
    (Hoff : e_phoff e = 64 + Z.of_nat (length gap))
    (Hsz : e_phentsize e = 56 /\ e_phnum e = Z.of_nat (length t))
    (Hu : e_phoff e + 56 * Z.of_nat (length t) < 2 ^ 64) :
  let file := ehdr_bytes ident x1 x2 x3 e ++ gap ++ concat (entry_bytes <$> t) ++ rest in
  read_ehdr file = Some e /\
  Forall2 (fun off ph => read_phdr file off = Some ph) (parse_phdr e) (snd <$> t).
Proof.
  destruct Hi as (H0 & H1 & H2 & H3). destruct Hsz as [Hs Hn]. intros file.
  split; [ by apply read_ehdr_bytes | ]. unfold file. rewrite (assoc_L (++)).
  assert (Hl : length (ehdr_bytes ident x1 x2 x3 e ++ gap) = (64 + length gap)%nat).
  { unfold ehdr_bytes. rewrite !length_app, !length_le_split. lia. }
  apply parse_phdr_entries; rewrite ?Hl; try done; lia.
Qed.

(** ** The searches *)

(** The first dynamic segment, if there is one. *)
Theorem search_pt_dyn_first (l : list Elf64_Phdr) :
  match search_pt_dyn l with
  | Some ph => exists l1 l2, l = l1 ++ ph :: l2 /\ p_type ph = PT_DYNAMIC /\
                 Forall (fun q => p_type q <> PT_DYNAMIC) l1
  | None => Forall (fun q => p_type q <> PT_DYNAMIC) l
  end.
Proof.
  unfold search_pt_dyn. destruct (list_find _ l) as [[i ph] |] eqn:E; simpl.
  - apply list_find_Some in E as (Hi & Hd & Hn). exists (take i l), (drop (S i) l).
    split_and!; [ by rewrite take_drop_middle | done | ].
    apply Forall_forall. intros q Hq. apply list_elem_of_lookup in Hq as [j Hj].
    apply lookup_take_Some in Hj as [Hj Hlt]. by eapply Hn.
  - by apply list_find_None in E.
Qed.

(** The least address of a loaded segment; the address of the first header when it is lower
    still, whatever its type. *)
Theorem search_base_addr_least (ph : Elf64_Phdr) (l : list Elf64_Phdr) :
  exists v, search_base_addr (ph :: l) = Some v /\ v <= p_vaddr ph /\
    (forall q, q ∈ ph :: l -> p_type q = PT_LOAD -> v <= p_vaddr q) /\
    (v = p_vaddr ph \/ exists q, q ∈ ph :: l /\ p_type q = PT_LOAD /\ v = p_vaddr q).
Proof.
  unfold search_base_addr. simpl lookup. cbn [mbind option_bind]. eexists. split; [ done | ].
  generalize (ph :: l) as hs. generalize (p_vaddr ph) as v0. intros v0 hs. revert v0.
  induction hs as [| q hs IH]; intros v0; cbn [foldl].
  { split_and!; [ lia | intros q Hq; by apply not_elem_of_nil in Hq | by left ]. }
  destruct (Z.eqb_spec (p_type q) PT_LOAD) as [Hq | Hq]; [ destruct (Z.ltb_spec (p_vaddr q) v0) | ];
    cbn [andb]; match goal with |- context [foldl _ ?v _] => destruct (IH v) as (H1 & H2 & H3) end;
    (split; [ lia | split; [ intros q' [-> | Hq']%elem_of_cons Hl; [ try done; lia | by apply H2 ] | ] ]);
    destruct H3 as [-> | (q' & Hq' & Hl & ->)];
    first [ by left | right; exists q; split_and!; [ left | done | done ]
          | right; exists q'; split_and!; [ by right | done | done ] ].
Qed.

(** The names of the sections: the string table and the offset of each. *)
Theorem parse_sh_name_lookup (file : list Z) (e : Elf64_Ehdr) (shs names : list Z) (i : nat) (off : Z)
    (E : parse_sh_name file e shs = Some names) (Hi : Z.of_nat i < e_shnum e) (Ho : shs !! i = Some off) :
  exists str n, sh_offset file (u64 (e_shoff e + e_shentsize e * e_shstrndx e)) = Some str /\
    sh_name file off = Some n /\ names !! i = Some (u64 (str + n)).
Proof.
  unfold parse_sh_name in E. apply bind_Some in E as (str & Es & E). apply mapM_Some_1 in E.
  assert (Ht : take (Z.to_nat (e_shnum e)) shs !! i = Some off) by (rewrite lookup_take_lt by lia; done).
  destruct (Forall2_lookup_l _ _ _ _ _ E Ht) as (v & Hv & Hn).
  apply bind_Some in Hn as (n & Hn & [= <-]). by exists str, n.
Qed.

(** ** The destructor *)

(** The pages of [n] bytes at [a] are gone from [m]. *)
Definition gone (a n : Z) (m m' : aspace) : Prop :=
  forall x, page_prot m' x = if in_range a n x then None else page_prot m x.

Lemma munmap_run m a n :
  a mod PAGE_SZ = 0 -> 0 < n -> n mod PAGE_SZ = 0 ->
  exists m', munmap m a n = (0, m') /\ gone a n m m'.
Proof.
  intros Ha Hn Hm. unfold munmap, truth. rewrite PAGE_OFFT_mod, Ha, (proj2 (Z.eqb_neq n 0)) by lia.
  simpl. rewrite page_count_mult by lia. eexists. split; [ reflexivity | ]. intros x.
  unfold page_prot. simpl. rewrite map_lookup_filter.
  assert (Hx : in_range a n (PAGE_ALIGN x) = in_range a n x).
  { pose proof (PAGE_ALIGN_bounds x). pose proof (PAGE_ALIGN_quot x) as Hq.
    apply Z.mod_divide in Ha as [i Ha], Hm as [j Hm]; try done. unfold PAGE_SZ in *.
    destruct (in_range_spec a n (PAGE_ALIGN x)), (in_range_spec a n x); done || lia. }
  destruct (prots m !! PAGE_ALIGN x) as [q |]; simpl; [ | by destruct (in_range a n x) ].
  rewrite Hx. by destruct (in_range a n x).
Qed.

Section Destructor.
Context `{HK : Kernel} `{HE : RegEnum} `{HD : Disassembler} `{HY : Layout} `{HA : Assembler}.
Context `{HC : MmapChoice} `{HG : Globals} `{HM : Machine}.

Lemma unmap_run p a n :
  a mod PAGE_SZ = 0 -> 0 < n -> n mod PAGE_SZ = 0 ->
  exists m', unmap a n p = Ret 0 (p <| mem := m' |>) /\ gone a n (mem p) m'.
Proof.
  intros Ha Hn Hm. destruct (munmap_run (mem p) a n Ha Hn Hm) as (m' & E & G).
  exists m'. split; [ | done ]. unfold unmap. by rewrite E.
Qed.

Lemma unmap_returns p a n : exists r m', unmap a n p = Ret r (p <| mem := m' |>).
Proof. unfold unmap. destruct (munmap (mem p) a n) as [r m']. by eexists _, _. Qed.

(** The process with another memory and another number of open files. *)
Definition closed (p : proc) (m : aspace) (n : nat) : proc := p <| mem := m |> <| descriptors := n |>.

Lemma closed_now p m : p <| mem := m |> = closed p m (descriptors p).
Proof. by destruct p. Qed.

(** It always returns, and changes nothing of the process but the memory and the open files. *)
Lemma end_analysis_returns : forall b p, exists r m' n, end_analysis b p = Ret r (closed p m' n).
Proof.
  fix IH 1. intros [f1 f2 f3 f4 f5 i f7 d f9] p. cbn [end_analysis].
  destruct (unmap_returns p (restore_stub d) LENGTH_STUB) as (r1 & m1 & E1).
  erewrite bind_Ret by exact E1. destruct (r1 =? -1); [ rewrite closed_now; by eexists _, _, _ | ].
  destruct (unmap_returns (p <| mem := m1 |>) (dump_stub d) LENGTH_STUB) as (r2 & m2 & E2).
  erewrite bind_Ret by exact E2. destruct (r2 =? -1);
    [ exists (-1), m2, (descriptors p); by destruct p | ].
  destruct (unmap_returns (p <| mem := m2 |>) (host_rsp d) 0x10000) as (r3 & m3 & E3).
  erewrite bind_Ret by exact E3. destruct (r3 =? -1);
    [ exists (-1), m3, (descriptors p); by destruct p | ].
  destruct i as [i |]; [ | by exists 0, m3, (pred (descriptors p)) ].
  destruct (IH i (closed p m3 (pred (descriptors p)))) as (r4 & m4 & n4 & E4). exists 0, m4, n4.
  erewrite bind_Ret by reflexivity. erewrite bind_Ret by (erewrite bind_Ret by exact E4; reflexivity). reflexivity.
Qed.

(** The destructor succeeds on an object whose stubs and stack pointer are page aligned, also
    when the interpreter's fails; without an interpreter it removes the pages of the two stubs
    and 0x10000 bytes above the stack pointer, and nothing else, and closes one file. *)
Theorem end_analysis_unmaps (b : mdata_binary) (p : proc) (d := dbi_handler b)
    (H1 : restore_stub d mod PAGE_SZ = 0) (H2 : dump_stub d mod PAGE_SZ = 0)
    (H3 : host_rsp d mod PAGE_SZ = 0) :
  exists m' n, end_analysis b p = Ret 0 (closed p m' n) /\
    (interp b = None -> n = pred (descriptors p) /\ forall x,
       page_prot m' x = if in_range (restore_stub d) LENGTH_STUB x
                           || in_range (dump_stub d) LENGTH_STUB x
                           || in_range (host_rsp d) 0x10000 x then None else page_prot (mem p) x).
Proof.
  destruct b as [f1 f2 f3 f4 f5 i f7 d' f9]. subst d. simpl in *. cbn [end_analysis].
  destruct (unmap_run p (restore_stub d') LENGTH_STUB H1) as (m1 & E1 & G1); try done.
  erewrite bind_Ret by exact E1. change (0 =? -1) with false. cbv iota.
  destruct (unmap_run (p <| mem := m1 |>) (dump_stub d') LENGTH_STUB H2) as (m2 & E2 & G2); try done.
  erewrite bind_Ret by exact E2. change (0 =? -1) with false. cbv iota.
  destruct (unmap_run (p <| mem := m2 |>) (host_rsp d') 0x10000 H3) as (m3 & E3 & G3); try done.
  erewrite bind_Ret by exact E3. change (0 =? -1) with false. cbv iota.
  destruct i as [i |].
  - destruct (end_analysis_returns i (closed p m3 (pred (descriptors p)))) as (r4 & m4 & n4 & E4).
    exists m4, n4. split; [ | done ]. erewrite bind_Ret by reflexivity.
    erewrite bind_Ret by (erewrite bind_Ret by exact E4; reflexivity). reflexivity.
  - exists m3, (pred (descriptors p)). split; [ reflexivity | ]. intros _. split; [ done | ]. intros x. rewrite G3. simpl. rewrite G2. simpl.
    rewrite G1. by repeat destruct (in_range _ _ x).
Qed.

(** The stack of the engine was mapped at [r], 0x28000 bytes below the stack pointer: the
    pages below it, and those from 0x10000 bytes above it on, stay mapped. *)
Theorem end_analysis_leaves_stack (b : mdata_binary) (p : proc) (r x : Z) (d := dbi_handler b)
    (Hi : interp b = None) (H0 : r mod PAGE_SZ = 0) (H1 : host_rsp d = r + 0x28000)
    (H2 : restore_stub d = STUB_ADDR_RESTORE) (H3 : dump_stub d = STUB_ADDR_DUMP)
    (Ha : forall a, a = STUB_ADDR_DUMP \/ a = STUB_ADDR_RESTORE ->
            a + LENGTH_STUB <= r \/ r + STACK_SZ <= a)
    (Hx : r <= x < r + 0x28000 \/ r + 0x38000 <= x < r + STACK_SZ) :
  exists m', end_analysis b p = Ret 0 (closed p m' (pred (descriptors p))) /\ page_prot m' x = page_prot (mem p) x.
Proof.
  destruct (end_analysis_unmaps b p) as (m' & n & E & G); fold d; rewrite ?H1, ?H2, ?H3; try done.
  { by rewrite Z.add_mod, H0. }
  destruct (G Hi) as [-> Gx]. exists m'. split; [ exact E | ]. rewrite (Gx x). fold d. rewrite H1, H2, H3.
  pose proof (Ha _ (or_introl eq_refl)). pose proof (Ha _ (or_intror eq_refl)). unfold STACK_SZ in *.
  destruct (in_range_spec STUB_ADDR_RESTORE LENGTH_STUB x), (in_range_spec STUB_ADDR_DUMP LENGTH_STUB x),
    (in_range_spec (r + 0x28000) 0x10000 x); done || lia.
Qed.
End Destructor.
