(* ===== verification/MainSpec.v ===== *)
(** * The program

    [main], from the command line to the end of the guest: what the loader leaves in the
    object of the engine, and the composition of [map_binary], [instrument], [exec_binary]
    and the rounds of the engine. *)

From S2P Require Import Prelude.
From S2P Require Import Pages.
From S2P Require Import Regs.
From S2P Require Import Process.
From S2P Require Import Syscalls.
From S2P Require Import SyscallsSpec.
From S2P Require Import Memory.
From S2P Require Import MemorySpec.
From S2P Require Import Branch.
From S2P Require Import Target.
From S2P Require Import TargetSpec.
From S2P Require Import Cflow.
From S2P Require Import CflowSpec.
From S2P Require Import Engine.
From S2P Require Import EngineSpec.
From S2P Require Import Stubs.
From S2P Require Import Native.
From S2P Require Import StubsSpec.
From S2P Require Import RoundSpec.
From S2P Require Import SysRoundSpec.
From S2P Require Import CallSpec.
From S2P Require Import SimSpec.
From S2P Require Import RunSpec.
From S2P Require Import SetupSpec.
From S2P Require Import StartSpec.
From S2P Require Import EndSpec.
From S2P Require Import Elf.
From S2P Require Import Stack.
From S2P Require Import Loader.
From S2P Require Import BinarySpec.

(** ** What the loader changes *)

(** Nothing of the process but its memory and its open files. *)
Definition only_mem (p p' : proc) : Prop :=
  p' = p <| mem := mem p' |> <| descriptors := descriptors p' |>.

#[global] Instance only_mem_preorder : PreOrder only_mem.
Proof.
  unfold only_mem. split; [ by intros [] | ]. intros p1 p2 p3 E1 E2. rewrite E2 at 1. by rewrite E1.
Qed.

Lemma only_mem_set p m : only_mem p (p <| mem := m |>).
Proof. done. Qed.

Lemma only_mem_opens n p : only_mem p (opens n p).
Proof. done. Qed.

Lemma only_mem_rest p p' :
  only_mem p p' -> curr_syscall p' = curr_syscall p /\ cpu_fs p' = cpu_fs p /\
    cpu_gs p' = cpu_gs p /\ bbl_count p' = bbl_count p.
Proof. unfold only_mem. by intros ->. Qed.

(** Of the object of the engine, the break, the base of the stack and the stack pointer. *)
Record same_engine (d d' : dbi_instr) : Prop := {
  se_state : state d' = (state d) <| rsp := rsp (state d') |>;
  se_hooks : (dump d', restore d', curr_hook d', take_callback d')
             = (dump d, restore d, curr_hook d, take_callback d);
  se_objects : (host_state d', table d', instrumented_fs d', instrumented_gs d')
               = (host_state d, table d, instrumented_fs d, instrumented_gs d);
  se_brk : is_u64 (vbrk d) -> is_u64 (vbrk d')
}.

#[global] Instance same_engine_preorder : PreOrder same_engine.
Proof.
  split.
  - intros d. split; try done. by destruct (state d).
  - intros d1 d2 d3 [E1 H1 O1 B1] [E2 H2 O2 B2]. split; [ | congruence | congruence | auto ].
    rewrite E2 at 1. by rewrite E1.
Qed.

Section Main.
Context `{HK : Kernel} `{HE : RegEnum} `{HD : Disassembler} `{HY : Layout} `{HA : Assembler}.
Context `{HC : MmapChoice} `{HG : Globals} `{HM : Machine}.

Lemma only_mem_lift_mem f : ensures only_mem (fun _ => True) (lift_mem f).
Proof. intros p a p'. unfold lift_mem. destruct (f (mem p)); intros [= <- <-]. by split. Qed.

Lemma only_mem_lift_option {A} (f : proc -> option A) : ensures only_mem (fun _ => True) (lift_option f).
Proof. intros p a p'. unfold lift_option. destruct (f p); intros [= <- <-]. by split. Qed.

Lemma only_mem_fatal {A} (Q : A -> Prop) d : ensures only_mem Q (fatal_dump_of d).
Proof.
  intros p a p' E. exfalso. unfold fatal_dump_of, modify, mbind, M_bind in E.
  rewrite fatal_dump_spec in E. revert E. generalize (p <| dbi := d |>). intros q.
  by destruct (sse (gstate q)), (avx2 (gstate q)), (avx512 (gstate q)).
Qed.

Lemma only_mem_mmap_file a n prot f o : ensures only_mem (fun _ => True) (mmap_file a n prot f o).
Proof. intros p r p'. unfold mmap_file. repeat case_match; intros [= <- <-]; by split. Qed.

Lemma only_mem_mmap_zero a n prot : ensures only_mem (fun _ => True) (mmap_zero a n prot).
Proof. intros p r p'. unfold mmap_zero. case_match; intros [= <- <-]; by split. Qed.

Lemma only_mem_mprotect a n prot : ensures only_mem (fun _ => True) (sys_mprotect a n prot).
Proof. intros p r p'. unfold sys_mprotect. case_match; intros [= <- <-]; by split. Qed.

Lemma only_mem_map_stack : ensures only_mem (fun _ => True) map_stack.
Proof.
  unfold map_stack. apply ensures_bind_any; [ apply ensures_get | ]. intros m.
  destruct (k_choose m STACK_SZ); [ | by apply ensures_mret ].
  destruct (mmap_anon_fixed _ _ _ _); [ | by apply ensures_mret ].
  apply ensures_bind_any; [ by apply ensures_modify | ]. intros _. by apply ensures_mret.
Qed.

#[local] Hint Resolve only_mem_lift_mem only_mem_lift_option only_mem_mmap_file only_mem_mmap_zero
  only_mem_mprotect only_mem_map_stack : ensures.

Lemma only_mem_words fuel :
  (forall a s i, ensures only_mem (fun _ => True) (map_val fuel a s i)) /\
  (forall a i, ensures only_mem (fun _ => True) (skip_words fuel a i)) /\
  (forall id a v i, ensures only_mem (fun _ => True) (add_auxvt_loop fuel id a v i)).
Proof.
  induction fuel as [| fuel (IH1 & IH2 & IH3)]; [ done | ].
  split_and!; intros; cbn [map_val skip_words add_auxvt_loop];
    unfold load_word, store_word, more_auxv; ensures_tac; auto.
Qed.

Lemma only_mem_add_entries fuel a l : ensures only_mem (fun _ => True) (add_entries fuel a l).
Proof.
  induction l as [| [id v] l IH]; [ by apply ensures_mret | ]. cbn [add_entries].
  apply ensures_bind_any; [ apply only_mem_words | done ].
Qed.

(** The result of a step of the loader has the engine of [d]. *)
Definition engine_as (d : dbi_instr) (b : mdata_binary) : Prop := same_engine d (dbi_handler b).

Lemma engine_as_brk d b v : engine_as d b -> is_u64 v -> engine_as d (set_vbrk v b).
Proof. intros [H1 H2 H3 H4] Hv. by split. Qed.

Lemma setup_stack_engine words argv b argc d :
  engine_as d b -> ensures only_mem (fun r => engine_as d r.2) (setup_stack words argv b argc).
Proof.
  intros Hb. unfold setup_stack. apply ensures_bind_any; [ apply only_mem_map_stack | ]. intros sp.
  apply ensures_if; [ by apply ensures_mret | ].
  do 8 (apply ensures_bind_any; [ first [ apply only_mem_words | apply only_mem_add_entries
    | unfold load_word, store_word; auto with ensures ] | intros ? ]).
  apply ensures_mret. destruct Hb as [H1 H2 H3 H4]. split; try done. simpl. by rewrite H1.
Qed.

Lemma map_load_engine ph b d :
  engine_as d b -> ensures only_mem (yields (engine_as d)) (map_load ph b).
Proof.
  intros Hb. unfold map_load. eapply (ensures_bind (fun r => engine_as d r.2)).
  - unfold map_file_part. apply ensures_if.
    + apply ensures_bind_any.
      { apply ensures_if; [ | by apply ensures_mret ].
        unfold base_address. apply ensures_bind_any; [ apply ensures_get | ].
        intros [v |]; [ | by apply ensures_mret ].
        apply ensures_bind_any; [ by apply ensures_modify | by intros _; apply ensures_mret ]. }
      intros a. apply ensures_bind_any; [ auto with ensures | ]. intros ok. by apply ensures_mret.
    + apply ensures_bind_any; [ auto with ensures | ]. intros ok. by apply ensures_mret.
  - intros [[ok c] b1] Hb1. simpl in Hb1. apply ensures_if; [ by apply ensures_mret | ].
    assert (Hbrk : forall v, engine_as d (set_vbrk (u64 v) b1))
      by (intros v; apply engine_as_brk; [ done | apply u64_range ]).
    eapply (ensures_bind (yields (engine_as d))).
    + unfold map_bss. apply ensures_if.
      * apply ensures_bind_any; [ unfold memset; auto with ensures | ]. intros _. apply ensures_if.
        { apply ensures_bind_any; [ auto with ensures | ]. intros ok'. apply ensures_mret.
          intros b2 E. destruct ok'; simplify_eq. apply Hbrk. }
        { apply ensures_mret. intros b2 E. destruct (truth _); simplify_eq; [ apply Hbrk | done ]. }
      * apply ensures_mret. intros b2 E. destruct (truth (Z.land _ _)); simplify_eq; [ apply Hbrk | done ].
    + intros [b2 |] Hb2; [ | by apply ensures_mret ].
      apply ensures_bind_any; [ auto with ensures | ]. intros r. apply ensures_mret.
      intros b3 E. destruct (truth r); simplify_eq. by apply Hb2.
Qed.

Lemma map_segments_engine map phs b d :
  (forall f, ensures only_mem (fun _ => True) (map f)) -> engine_as d b ->
  ensures only_mem (yields (engine_as d)) (map_segments map phs b).
Proof.
  intros Hmap. revert b. induction phs as [| off phs IH]; intros b Hb.
  { apply ensures_mret. by intros b' [= <-]. }
  cbn [map_segments]. apply ensures_bind_any; [ auto with ensures | ]. intros ph.
  apply ensures_if.
  - apply ensures_bind_any.
    { unfold load_interp. apply ensures_bind_any; [ auto with ensures | apply Hmap ]. }
    intros [i |]; [ by apply IH | by apply ensures_mret ].
  - apply ensures_if; [ | by apply IH ].
    apply (ensures_bind (yields (engine_as d))); [ by apply map_load_engine | ].
    intros [b' |] Hb'; [ apply IH; by apply Hb' | by apply ensures_mret ].
Qed.

Lemma only_mem_init_analysis s : ensures only_mem (fun _ => True) (init_analysis s).
Proof.
  unfold init_analysis. apply ensures_bind_any; [ apply ensures_get | ].
  intros [[fd file] |]; [ | by apply ensures_mret ].
  apply ensures_bind_any; [ by apply ensures_modify | intros _ ]. ensures_tac.
  1: apply only_mem_fatal.
  destruct a4 as [[[r l] phs] l']. ensures_tac.
Qed.

(** What [map_binary] returns has a fresh engine, and the process only another memory. *)
Lemma map_binary_engine fuel words s args :
  ensures only_mem (yields (fun b => exists h, init_hashmap = Some h /\ engine_as (fresh_dbi h) b))
    (map_binary fuel words s args).
Proof.
  revert s args. induction fuel as [| fuel IH]; intros s args; [ done | ]. cbn [map_binary].
  apply (ensures_bind (yields (fun b => exists h, init_hashmap = Some h /\ engine_as (fresh_dbi h) b))).
  { intros p r p' E. split; [ | by destruct (only_mem_init_analysis s p r p' E) ]. intros b ->.
    apply init_analysis_inv in E as (fd & file & h & e & _ & Eh & _ & _ & -> & _). exists h.
    split; [ done | ]. unfold engine_as. reflexivity. }
  intros [b |] Hb; [ | by apply ensures_mret ]. destruct (Hb b eq_refl) as (h & Eh & Hd).
  eapply ensures_bind; [ apply map_segments_engine; [ | exact Hd ] | ].
  { intros f. eapply ensures_weaken; [ apply IH | done ]. }
  intros [b1 |] Hb1; [ | by apply ensures_mret ].
  apply (ensures_bind (engine_as (fresh_dbi h))).
  { destruct args as [[argv argc] |]; [ | apply ensures_mret; by apply Hb1 ].
    eapply ensures_bind; [ apply setup_stack_engine; by apply Hb1 | ].
    intros [sp b'] Hb'. by apply ensures_mret. }
  intros b2 Hb2. apply ensures_mret. intros b3 [= <-]. exists h. split; [ done | ].
  destruct Hb2 as [H1 H2 H3 H4]. by split.
Qed.
(** Without an argument, or with a file that is refused, [main] returns -1 and nothing has
    changed but for the file, which stays open. *)
Theorem main_refuses (fuel words scan : nat) (argc argv a : Z) (s : list Z) (p : proc)
    (H : argc < 2 \/ load_word argv 1 p = Ret a p /\ load_cstr words a p = Ret s p /\ refused p s) :
  main (S fuel) words scan argc argv p = Ret false (if argc <? 2 then p else left_open s p).
Proof.
  unfold main. destruct (Z.ltb_spec argc 2) as [| Hc]; [ done | ].
  destruct H as [? | (Ew & Es & Hr)]; [ lia | ].
  erewrite bind_Ret by exact Ew. erewrite bind_Ret by exact Es.
  erewrite (bind_Ret _ _ _ None (left_open s p)); [ reflexivity | ]. cbn [map_binary].
  by erewrite bind_Ret by (by apply init_analysis_refused).
Qed.

(** ** The texts of the two stubs *)

(** They depend on which vectors the state has, not on the values of the registers. *)
Lemma same_engine_texts d d' r :
  same_engine d d' ->
  craft_hook_text (d' <| host_rsp := r |>) = craft_hook_text (d <| host_rsp := r |>) /\
  craft_restore_stub_text d' = craft_restore_stub_text d.
Proof.
  intros [E _ _ _]. unfold craft_hook_text, craft_restore_stub_text, hook_vectors, restore_vectors.
  simpl. by rewrite E.
Qed.

End Main.

Section Program.
Context `{HK : Kernel} `{HE : RegEnum} `{HD : Disassembler} `{HO : !DisassemblerOk}.
Context `{HY : Layout} `{HL : !LayoutOk} `{HS : Selectors} `{HP : Processor}.
Context `{HA : Assembler} `{HC : MmapChoice} `{HG : Globals} `{HM : Machine}.
Context (fuel words scan : nat) (r d : Z) (cd cr ct cs : list Z).

#[local] Abbreviation rl := (Z.of_nat (length cs)).
#[local] Abbreviation dl := (Z.of_nat (length ct)).

(** The stack pointer the loader has prepared. *)
Definition start_rsp (b : mdata_binary) : Z := rsp (state (dbi_handler b)).

(** What the setup of the engine asks of the process the loader leaves with the binary [b]:
    what it will map is free, the assembler encodes the two stubs of a fresh engine and the
    two hooks, the first block can be instrumented, and the initial stack has room for the
    two words with which [exec_binary] enters the guest. *)
Record prepared (b : mdata_binary) (p : proc) : Prop := {
  pr_choose : k_choose (mem p) STACK_SZ = Some r;
  pr_base : r mod PAGE_SZ = 0 /\ 0 <= r /\ r + STACK_SZ < 2 ^ 64;
  pr_apart : forall a, a = STUB_ADDR_DUMP \/ a = STUB_ADDR_RESTORE ->
               a + LENGTH_STUB <= r \/ r + STACK_SZ <= a;
  pr_allowed : forall m, k_map_refused m r STACK_SZ PROT_RW = false /\
                 k_map_refused m STUB_ADDR_DUMP LENGTH_STUB PROT_RWX = false /\
                 k_map_refused m STUB_ADDR_RESTORE LENGTH_STUB PROT_RWX = false;
  pr_free x : engine_area r x -> page_prot (mem p) x = None;
  pr_dump : (craft_hook_text ((fresh_dbi []) <| host_rsp := r + 0x28000 |>) ≫= ks_asm) = Some cd;
  pr_restore : (craft_restore_stub_text (fresh_dbi []) ≫= ks_asm) = Some cr;
  pr_sizes : Z.of_nat (length cd) <= LENGTH_STUB /\ Z.of_nat (length cr) <= LENGTH_STUB;
  pr_hooks : ks_asm (dump_hook_text STUB_ADDR_DUMP) = Some ct /\ ks_asm restore_hook_text = Some cs;
  pr_lengths : (0 < length ct <= 64)%nat /\ (0 < length cs <= 64)%nat;
  pr_fits : fits_block scan rl (mem p) (exec_entry b) d;
  pr_room : stack_room (mem p) (start_rsp b) 16;
  pr_high : start_rsp b < 2 ^ 64 - 8;
  pr_below : apart (start_rsp b) 16 (exec_entry b - rl) (rl + d + PAGE_SZ)
}.

(** The process of a program that has just been started: no call of the hooks is under way,
    and its segment bases are accepted. *)
Record started_process (p : proc) : Prop := {
  sp_flag : curr_syscall p = false;
  sp_bases : k_base_ok (cpu_fs p) = true /\ k_base_ok (cpu_gs p) = true
}.

(** The process in which [main] calls [instrument]. *)
Definition handed (b : mdata_binary) (p : proc) : proc := p <| dbi := dbi_handler b |>.

Lemma prepared_loaded s args b p p1 :
  RegEnumOk -> cpu_avx2 = true -> cpu_avx512f = false -> started_process p ->
  map_binary fuel words s args p = Ret (Some b) p1 -> prepared b p1 ->
  loaded scan r (exec_entry b) d cd cr ct cs (mem p1) (handed b p1).
Proof.
  intros Hen Ha2 Ha5 [Hfl Hbs] E Hp.
  destruct (map_binary_engine fuel words s args p _ _ E) as [Hb Hm].
  destruct (Hb b eq_refl) as (h & Eh & He).
  destruct (init_hashmap_table Hen) as (h' & Eh' & Htab & _). rewrite Eh in Eh'. injection Eh' as <-.
  destruct (same_engine_texts _ _ (r + 0x28000) He) as [Td Tr]. pose proof (only_mem_rest _ _ Hm) as (M1 & M2 & M3 & _).
  destruct He as [Hst Hhk Hob Hbrk]. injection Hhk as Hdu Hre _ _. injection Hob as _ Hta Hfs _.
  destruct Hp. split; try done.
  - split; try done; simpl.
    + by rewrite Td.
    + by rewrite Tr.
    + by destruct pr_hooks0.
    + by destruct pr_hooks0.
    + by rewrite Hdu, Hre.
  - simpl. by rewrite Hdu, Hre.
  - simpl. by rewrite M1.
  - simpl. by rewrite M2, M3.
  - simpl. by rewrite Hta.
  - apply Hbrk. unfold is_u64. simpl. lia.
  - unfold gstate, handed. simpl. rewrite Hst. simpl. unfold vector_state. rewrite Ha2, Ha5.
    rewrite andb_false_r. split; [ done | ]. eexists. by split.
Qed.

(** The program runs the guest: [main], from the command line [argv] of [argc] words to the
    end of the guest. *)
Lemma main_run argc argv a s b p p1 :
  RegEnumOk -> cpu_avx2 = true -> cpu_avx512f = false -> started_process p -> 2 <= argc ->
  load_word argv 1 p = Ret a p -> load_cstr words a p = Ret s p ->
  map_binary fuel words s (Some (argv, argc)) p = Ret (Some b) p1 -> prepared b p1 ->
  s32 (bbl_count p) = bbl_count p ->
  exists p2, main fuel words scan argc argv p = Ret true p2 /\
    forall h, host h = p2 -> exists g m',
    run (exec_binary_text (exec_entry b) (start_rsp b)) h = Some (g, Some (exec_entry b)) /\
    entered (start_rsp b) (mem p1) m' h g /\
    let c := mk_guest (exec_entry b) d (cpu g) (vec g) (mxcsr g) m' (trace (host g))
               (bases_of g) (brk_of g) in
    forall n, halts scan dl rl (engine_area r) n c ->
    (exists g' q, nsteps (round scan (in_stack r)) n g g' /\ ends scan g' 0 q) /\
    forall g' st q, nsteps (round scan (in_stack r)) n g g' -> ends scan g' st q ->
      st = 0 /\ exists c' st' mx, nsteps native n c c' /\ native_exits c' st' mx /\
        trace q = g_trace c' /\ hosts mx (mem q) /\
        bbl_count q = s32 (bbl_count p + Z.of_nat (S n)).
Proof.
  intros Hen Ha2 Ha5 Hsp Hc Ew Es Em Hp Hbb.
  pose proof (prepared_loaded s _ b p p1 Hen Ha2 Ha5 Hsp Em Hp) as Hl.
  destruct (map_binary_engine fuel words s _ p _ _ Em) as [_ Hm].
  pose proof (ft_low _ _ _ _ _ (pr_fits _ _ Hp)). pose proof (ft_high _ _ _ _ _ (pr_fits _ _ Hp)).
  pose proof (sweep_nonneg _ _ _ (ft_sweep _ _ _ _ _ (pr_fits _ _ Hp))).
  destruct (start_run scan r (exec_entry b) d cd cr ct cs (handed b p1) (mem p1) (start_rsp b) Hl
              (pr_room _ _ Hp) (pr_high _ _ Hp) (pr_below _ _ Hp))
    as (p2 & Ei & Hex); [ unfold is_u64, PAGE_SZ in *; lia | ].
  exists p2. split.
  - unfold main. rewrite (proj2 (Z.ltb_ge argc 2)) by lia.
    erewrite bind_Ret by exact Ew. erewrite bind_Ret by exact Es. erewrite bind_Ret by exact Em.
    cbv iota. erewrite bind_Ret by reflexivity. by erewrite bind_Ret by exact Ei.
  - intros h Hh. destruct (Hex h Hh) as (g & m' & Er & Hent & Hcnt & _ & Hs).
    change (bbl_count (handed b p1)) with (bbl_count p1) in Hcnt.
    destruct (only_mem_rest _ _ Hm) as (_ & _ & _ & M4). rewrite M4 in Hcnt.
    exists g, m'. split; [ exact Er | split; [ exact Hent | ] ]. intros c n Hn. rewrite <- Hcnt.
    apply (halts_run scan dl rl (in_stack r) (engine_area r) n c g Hn Hs).
    + exists (r + 0x10). unfold in_stack. lia.
    + by rewrite Hcnt.
Qed.

(** C2: The program runs the guest from the command line to its end. When main finds the
    path of a binary in argv, map_binary maps it and the process it leaves is one the setup
    of the engine can work in, main goes through instrument to the call of exec_binary, and
    exec_binary enters the guest at the entry point of the binary on the stack the loader
    has prepared. From there, if the guest on its own runs n blocks within what the engine
    covers and then ends its process, the engine makes n rounds and ends its own, and
    however it does so the guest on its own can end the same way: the same system calls, the
    same memory, one call of the callback per block. The status of the engine is always 0.
    *)
Theorem main_runs (argc argv a : Z) (s : list Z) (b : mdata_binary) (p p1 : proc)
    (Hen : RegEnumOk) (Ha2 : cpu_avx2 = true) (Ha5 : cpu_avx512f = false)
    (Hsp : started_process p) (Hc : 2 <= argc)
    (Ew : load_word argv 1 p = Ret a p) (Es : load_cstr words a p = Ret s p)
    (Em : map_binary fuel words s (Some (argv, argc)) p = Ret (Some b) p1) (Hp : prepared b p1)
    (Hb : s32 (bbl_count p) = bbl_count p) :
  exists p2, main fuel words scan argc argv p = Ret true p2 /\
    forall h, host h = p2 -> exists g m',
    run (exec_binary_text (exec_entry b) (start_rsp b)) h = Some (g, Some (exec_entry b)) /\
    entered (start_rsp b) (mem p1) m' h g /\
    let c := mk_guest (exec_entry b) d (cpu g) (vec g) (mxcsr g) m' (trace (host g))
               (bases_of g) (brk_of g) in
    forall n, halts scan dl rl (engine_area r) n c ->
    (exists g' q, nsteps (round scan (in_stack r)) n g g' /\ ends scan g' 0 q) /\
    forall g' st q, nsteps (round scan (in_stack r)) n g g' -> ends scan g' st q ->
      st = 0 /\ exists c' st' mx, nsteps native n c c' /\ native_exits c' st' mx /\
        trace q = g_trace c' /\ hosts mx (mem q) /\
        bbl_count q = s32 (bbl_count p + Z.of_nat (S n)).
Proof. by apply (main_run argc argv a s b p p1). Qed.
End Program.
