(* ===== verification/Maps.v ===== *)
(** * The memory descriptors (src/core_mapper.c; include/dryadalis_x86.h: [mem_map_t];
    include/kernel_list.h)

    The descriptors of the pages form a circular doubly linked list; the list head is the
    first member of a descriptor, so that a pointer to it is the pointer to the descriptor.
    The heap is explicit: an access through a pointer that is not in it, a freed one
    included, is a fault. *)

From S2P Require Import Prelude.
From S2P Require Import Pages.
From S2P Require Import Process.
From S2P Require Import Log.

Record mem_map := mk_map {
  list_next : Z;
  list_prev : Z;
  map_addr : Z;
  map_size : Z;
  map_prot : Z;
  map_sync : bool
}.
#[global] Instance eta_mem_map : Eta mem_map := fun m =>
  mk_map (list_next m) (list_prev m) (map_addr m) (map_size m) (map_prot m) (map_sync m).

(** The heap, [s_binary->memory_map] (0 for NULL), and that of [s_binary->interp], [None]
    when there is no interpreter. *)
Record maps := mk_maps {
  cells : gmap Z mem_map;
  memory_map : Z;
  interp_map : option Z
}.
#[global] Instance eta_maps : Eta maps := fun s => mk_maps (cells s) (memory_map s) (interp_map s).

(** A function returns, ends the process, fails an [assert], faults or exhausts its fuel. *)
Inductive result (A : Type) :=
| Done (a : A) (s : maps)
| Exit (status : Z)
| Abort
| Fault
| NoFuel.
Arguments Done {A}. Arguments Exit {A}. Arguments Abort {A}. Arguments Fault {A}.
Arguments NoFuel {A}.

Definition L (A : Type) : Type := maps -> result A.

#[global] Instance L_ret : MRet L := fun A a s => Done a s.
#[global] Instance L_bind : MBind L := fun A B k m s =>
  match m s with
  | Done a s' => k a s'
  | Exit c => Exit c
  | Abort => Abort
  | Fault => Fault
  | NoFuel => NoFuel
  end.

Definition state_of {A} (f : maps -> A) : L A := fun s => Done (f s) s.
Definition read_cell (p : Z) : L mem_map := fun s =>
  match cells s !! p with Some m => Done m s | None => Fault end.
Definition write_cell (p : Z) (f : mem_map -> mem_map) : L unit := fun s =>
  match cells s !! p with
  | Some m => Done () (s <| cells := <[p := f m]> (cells s) |>)
  | None => Fault
  end.
Definition free (p : Z) : L unit := fun s =>
  match cells s !! p with
  | Some _ => Done () (s <| cells := delete p (cells s) |>)
  | None => Fault
  end.
Definition exit_with {A} (c : Z) : L A := fun _ => Exit c.
Definition assert_l (b : bool) : L unit := fun s => if b then Done () s else Abort.

(** [s_binary->memory_map ? s_binary->memory_map : s_binary->interp->memory_map] *)
Definition map_head : L Z := fun s =>
  if truth (memory_map s) then Done (memory_map s) s
  else match interp_map s with Some p => Done p s | None => Fault end.

(** ** The list operations of kernel_list.h *)

Definition INIT_LIST_HEAD (p : Z) : L unit :=
  write_cell p (fun m => m <| list_next := p |>);; write_cell p (fun m => m <| list_prev := p |>).

Definition list_empty (head : Z) : L bool := m ← read_cell head; mret (list_next m =? head).

Definition __list_add (new prev next : Z) : L unit :=
  write_cell next (fun m => m <| list_prev := new |>);;
  write_cell new (fun m => m <| list_next := next |>);;
  write_cell new (fun m => m <| list_prev := prev |>);;
  write_cell prev (fun m => m <| list_next := new |>).

Definition list_add (new head : Z) : L unit :=
  m ← read_cell head; __list_add new head (list_next m).

Definition list_add_tail (new head : Z) : L unit :=
  m ← read_cell head; __list_add new (list_prev m) head.

Definition __list_splice (list head : Z) : L unit :=
  l ← read_cell list; h ← read_cell head;
  let first := list_next l in let last := list_prev l in let at_ := list_next h in
  write_cell first (fun m => m <| list_prev := head |>);;
  write_cell head (fun m => m <| list_next := first |>);;
  write_cell last (fun m => m <| list_next := at_ |>);;
  write_cell at_ (fun m => m <| list_prev := last |>).

Definition list_splice (list head : Z) : L unit :=
  e ← list_empty list; if (e : bool) then mret () else __list_splice list head.

Definition __list_del (prev next : Z) : L unit :=
  write_cell next (fun m => m <| list_prev := prev |>);;
  write_cell prev (fun m => m <| list_next := next |>).

Definition list_del (entry : Z) : L unit :=
  m ← read_cell entry;
  __list_del (list_prev m) (list_next m);;
  write_cell entry (fun m => m <| list_next := 0 |>);;
  write_cell entry (fun m => m <| list_prev := 0 |>).

(** ** The descriptors *)

(** The [do ... while] of [get_mem_desc]; [None] when it comes back to the start. *)
Fixpoint find_desc (fuel : nat) (curr addr : Z) : L (option Z) :=
  match fuel with
  | O => fun _ => NoFuel
  | S fuel' =>
      m ← read_cell curr;
      if map_addr m =? PAGE_ALIGN addr then mret (Some curr)
      else
        m ← read_cell curr;
        h ← map_head;
        if list_next m =? h then mret None else find_desc fuel' (list_next m) addr
  end.

(** [get_mem_desc]; [None] is the error value -1. *)
Definition get_mem_desc (fuel : nat) (addr : Z) : L (option Z) :=
  curr ← map_head;
  assert_l (truth curr);;
  find_desc fuel curr addr.

Fixpoint update_loop (pages fuel : nat) (addr i size new_prot : Z) : L Z :=
  match pages with
  | O => fun _ => NoFuel
  | S pages' =>
      if i <? size then
        d ← get_mem_desc fuel (u64 (addr + i));
        match d with
        | None => mret (-1)
        | Some p =>
            write_cell p (fun m => m <| map_prot := new_prot |>);;
            write_cell p (fun m => m <| map_sync := true |>);;
            update_loop pages' fuel addr (u64 (i + PAGE_SZ)) size new_prot
        end
      else mret 0
  end.

(** One iteration per page and one for the exit. *)
Definition pages_fuel (size : Z) : nat := Z.to_nat (size / PAGE_SZ + 2).

Definition update_vprot (fuel : nat) (addr size new_prot : Z) : L Z :=
  if truth (size mod PAGE_SZ) || truth (addr mod PAGE_SZ) then mret (-1)
  else update_loop (pages_fuel size) fuel addr 0 size new_prot.

(** The protection of the descriptor of [addr], and [default] without one. *)
Definition desc_prot {A} (fuel : nat) (addr : Z) (default : A) (f : Z -> A) : L A :=
  d ← get_mem_desc fuel addr;
  match d with
  | None => mret default
  | Some p => m ← read_cell p; mret (f (map_prot m))
  end.

Definition prot (fuel : nat) (addr : Z) : L Z := desc_prot fuel (PAGE_ALIGN addr) (-1) id.
Definition is_w (fuel : nat) (addr : Z) : L Z := desc_prot fuel addr 0 (fun p => Z.land p PROT_WRITE).
Definition is_r (fuel : nat) (addr : Z) : L Z := desc_prot fuel addr 0 (fun p => Z.land p PROT_READ).
Definition is_x (fuel : nat) (addr : Z) : L Z := desc_prot fuel addr 0 (fun p => Z.land p PROT_EXEC).
Definition is_ro (fuel : nat) (addr : Z) : L bool := desc_prot fuel addr false (fun p => p =? PROT_READ).
Definition is_rwx (fuel : nat) (addr : Z) : L bool :=
  desc_prot fuel addr false
    (fun p => truth (Z.land p (Z.lor (Z.lor PROT_READ PROT_EXEC) PROT_READ))).
Definition is_rx (fuel : nat) (addr : Z) : L bool :=
  desc_prot fuel addr false (fun p => truth (Z.land p (Z.lor PROT_EXEC PROT_READ))).

(** [merge_address_space] *)
Definition merge_address_space : L Z :=
  i ← state_of interp_map;
  a ← state_of memory_map;
  match i with
  | None => mret a
  | Some b =>
      ma ← read_cell a;
      mb ← read_cell b;
      let prev_binary := list_prev ma in
      let prev_interp := list_prev mb in
      write_cell a (fun m => m <| list_prev := prev_interp |>);;
      write_cell prev_interp (fun m => m <| list_next := a |>);;
      write_cell b (fun m => m <| list_prev := prev_binary |>);;
      write_cell prev_binary (fun m => m <| list_next := b |>);;
      mret a
  end.

(** [free_memory_map] *)
Fixpoint free_loop (fuel : nat) (curr head : Z) : L Z :=
  match fuel with
  | O => fun _ => NoFuel
  | S fuel' =>
      m ← read_cell curr;
      free curr;;
      if list_next m =? head then mret 0 else free_loop fuel' (list_next m) head
  end.

Definition free_memory_map (fuel : nat) (head : Z) : L Z :=
  assert_l (truth head);; free_loop fuel head head.

(** One iteration of [list_del_map] unlinks and frees a descriptor. *)
Definition unlink (p : Z) : L unit :=
  m ← read_cell p;
  write_cell (list_next m) (fun x => x <| list_prev := list_prev m |>);;
  m ← read_cell p;
  write_cell (list_prev m) (fun x => x <| list_next := list_next m |>);;
  free p.

Fixpoint del_loop (pages fuel : nat) (addr i size : Z) : L Z :=
  match pages with
  | O => fun _ => NoFuel
  | S pages' =>
      if i <? size then
        d ← get_mem_desc fuel (u64 (addr + i));
        match d with
        | None => mret 0
        | Some p => unlink p;; del_loop pages' fuel addr (i + PAGE_SZ) size
        end
      else mret 0
  end.

(** [list_del_map]; [size] is 32 bits wide. *)
Definition list_del_map (fuel : nat) (addr size : Z) : L Z :=
  if truth (size mod PAGE_SZ) || truth (addr mod PAGE_SZ) then exit_with 255
  else del_loop (pages_fuel size) fuel addr 0 size.

(** ** [log_map] *)

(** [fprintf(stream, "[+] %lx %lx / %lx # %x\n", ...)] *)
Definition map_line (g_addr g_size g_prot : Z) : text :=
  str "[+] " ++ fmt_lx g_addr ++ str " " ++ fmt_lx (g_addr + g_size - 1) ++ str " / " ++
  fmt_lx g_size ++ str " # " ++ fmt_x g_prot ++ newline.

(** The [do ... while]; [out] is what the earlier iterations printed. *)
Fixpoint log_loop (fuel : nat) (curr head g_addr g_prot g_size : Z) (out : text) : L text :=
  match fuel with
  | O => fun _ => NoFuel
  | S fuel' =>
      m ← read_cell curr;
      let '(g_addr, g_prot, g_size) :=
        if g_size =? PAGE_SZ then (map_addr m, map_prot m, map_size m)
        else (g_addr, g_prot, g_size) in
      n ← read_cell (list_next m);
      let '(g_size, out) :=
        if (u64 (map_addr m + map_size m) =? map_addr n) && (map_prot m =? map_prot n)
        then (u64 (g_size + PAGE_SZ), out)
        else (map_size m, out ++ map_line g_addr g_size g_prot) in
      if list_next m =? head then mret out
      else log_loop fuel' (list_next m) head g_addr g_prot g_size out
  end.

(** The pointer is read before it is checked. *)
Definition log_map (fuel : nat) (memory_map : Z) : L text :=
  m ← read_cell memory_map;
  assert_l (truth memory_map);;
  log_loop fuel memory_map memory_map (map_addr m) (map_prot m) (map_size m) [].
