(* ===== verification/MapsSpec.v ===== *)
(** * The descriptor list

    The representation predicate of a circular doubly linked list and what the functions
    do to it: the lookup, the update of the protections, the merge of two lists, the removal
    of a node and the release of the whole list. *)

From S2P Require Import Prelude.
From S2P Require Import Pages.
From S2P Require Import Process.
From S2P Require Import Maps.

Lemma L_bind_Done {A B} (m : L A) (k : A -> L B) s a s' :
  m s = Done a s' -> (m ≫= k) s = k a s'.
Proof. intros E. unfold mbind, L_bind. by rewrite E. Qed.

(** ** Segments of a list

    [dseg h pp l nx]: the nodes [l] follow each other in the heap [h]; the first one points
    back to [pp], the last one forward to [nx]. *)

Definition hd_or (nx : Z) (l : list Z) : Z := default nx (head l).
Definition last_or (pp : Z) (l : list Z) : Z := default pp (last l).

Fixpoint dseg (h : gmap Z mem_map) (pp : Z) (l : list Z) (nx : Z) : Prop :=
  match l with
  | [] => True
  | x :: l' => exists m, h !! x = Some m /\ list_prev m = pp /\ list_next m = hd_or nx l' /\
                        dseg h x l' nx
  end.

(** A circular list. *)
Definition ring (h : gmap Z mem_map) (l : list Z) : Prop :=
  NoDup l /\ dseg h (last_or 0 l) l (hd_or 0 l).

Lemma last_or_app pp l1 l2 : last_or pp (l1 ++ l2) = last_or (last_or pp l1) l2.
Proof. unfold last_or. rewrite last_app. by destruct (last l2). Qed.

Lemma hd_or_app nx l1 l2 : hd_or nx (l1 ++ l2) = hd_or (hd_or nx l2) l1.
Proof. by destruct l1. Qed.

Lemma last_or_cons pp x l : last_or pp (x :: l) = last_or x l.
Proof. exact (last_or_app pp [x] l). Qed.

Lemma last_or_snoc pp l x : last_or pp (l ++ [x]) = x.
Proof. by rewrite last_or_app. Qed.

Lemma dseg_app h pp l1 l2 nx :
  dseg h pp (l1 ++ l2) nx <-> dseg h pp l1 (hd_or nx l2) /\ dseg h (last_or pp l1) l2 nx.
Proof.
  revert pp. induction l1 as [| x l1 IH]; intros pp.
  { simpl. unfold last_or. simpl. tauto. }
  cbn [app dseg]. rewrite last_or_cons, hd_or_app. setoid_rewrite IH.
  split; [ intros (m & E & H1 & H2 & H3 & H4) | intros [(m & E & H1 & H2 & H3) H4] ]; eauto 8.
Qed.

Lemma dseg_frame h x m pp l nx : x ∉ l -> dseg h pp l nx -> dseg (<[x := m]> h) pp l nx.
Proof.
  revert pp. induction l as [| y l IH]; intros pp Hx; [ done | ].
  apply not_elem_of_cons in Hx as [Hne Hx]. intros (n & E & H1 & H2 & H3).
  exists n. rewrite lookup_insert_ne by done. auto.
Qed.

Lemma dseg_delete h x pp l nx : x ∉ l -> dseg h pp l nx -> dseg (delete x h) pp l nx.
Proof.
  revert pp. induction l as [| y l IH]; intros pp Hx; [ done | ].
  apply not_elem_of_cons in Hx as [Hne Hx]. intros (n & E & H1 & H2 & H3).
  exists n. rewrite lookup_delete_ne by done. auto.
Qed.

(** Changing the data of a node. *)
Lemma dseg_data h x m m' pp l nx :
  h !! x = Some m -> list_next m' = list_next m -> list_prev m' = list_prev m ->
  dseg h pp l nx -> dseg (<[x := m']> h) pp l nx.
Proof.
  intros Ex Hn Hp. revert pp. induction l as [| y l IH]; intros pp; [ done | ].
  intros (n & E & H1 & H2 & H3). destruct (decide (x = y)) as [-> | Hne].
  - exists m'. rewrite lookup_insert_eq. assert (m = n) as -> by congruence.
    split_and!; [ done | congruence | congruence | auto ].
  - exists n. rewrite lookup_insert_ne by done. auto.
Qed.

(** Moving the back pointer of the first node, and the forward pointer of the last one. *)
Lemma dseg_set_prev h pp pp' x l nx m :
  NoDup (x :: l) -> h !! x = Some m -> dseg h pp (x :: l) nx ->
  dseg (<[x := m <| list_prev := pp' |>]> h) pp' (x :: l) nx.
Proof.
  intros [Hx Hn]%NoDup_cons Ex (n & E & H1 & H2 & H3). assert (n = m) as -> by congruence.
  eexists. rewrite lookup_insert_eq. split_and!; [ done | done | done | ].
  by apply dseg_frame.
Qed.

Lemma dseg_set_next h pp l x nx nx' m :
  NoDup (l ++ [x]) -> h !! x = Some m -> dseg h pp (l ++ [x]) nx ->
  dseg (<[x := m <| list_next := nx' |>]> h) pp (l ++ [x]) nx'.
Proof.
  intros (Hn & Hx & _)%NoDup_app Ex [H1 H2]%dseg_app. apply dseg_app. split.
  - apply dseg_frame; [ | done ]. intros Hin. apply (Hx x Hin). by left.
  - destruct H2 as (n & E & H2 & H3 & _). assert (n = m) as -> by congruence.
    eexists. rewrite lookup_insert_eq. split_and!; done.
Qed.

Lemma dseg_lookup h pp l nx x : dseg h pp l nx -> x ∈ l -> is_Some (h !! x).
Proof.
  revert pp. induction l as [| y l IH]; intros pp Hd Hx; [ by apply not_elem_of_nil in Hx | ].
  destruct Hd as (m & E & _ & _ & Hd). apply elem_of_cons in Hx as [-> | Hx]; [ by eexists | eauto ].
Qed.

(** A ring can be read from any of its nodes. *)
Lemma ring_rotate h l1 l2 : ring h (l1 ++ l2) -> ring h (l2 ++ l1).
Proof.
  intros [Hn Hd]. destruct l1 as [| x l1]; [ by rewrite app_nil_r in * | ].
  destruct l2 as [| y l2]; [ by rewrite app_nil_r in * | ].
  split; [ by rewrite (Permutation_app_comm (y :: l2)) | ].
  rewrite !last_or_app, !hd_or_app in Hd. rewrite !last_or_app, !hd_or_app.
  rewrite !last_or_cons in *. apply dseg_app in Hd as [H1 H2]. apply dseg_app.
  rewrite last_or_cons in *. by split.
Qed.

(** ** Lookup *)

Definition desc_at (h : gmap Z mem_map) (addr p : Z) : bool :=
  match h !! p with Some m => map_addr m =? PAGE_ALIGN addr | None => false end.

(** The first descriptor of the page of [addr]. *)
Definition desc_of (h : gmap Z mem_map) (l : list Z) (addr : Z) : option Z :=
  List.find (desc_at h addr) l.

(** The state holds the list [l], whose head the binary object points to. *)
Record holds (s : maps) (l : list Z) : Prop := {
  ho_ring : ring (cells s) l;
  ho_head : head l = Some (memory_map s);
  ho_null : memory_map s <> 0
}.

Lemma holds_cons s l : holds s l -> exists l', l = memory_map s :: l'.
Proof. intros [_ Hh _]. destruct l as [| a l']; simplify_eq/=. by eexists. Qed.

Lemma map_head_run s l : holds s l -> map_head s = Done (memory_map s) s.
Proof. intros [_ _ H0]. unfold map_head, truth. by rewrite (proj2 (Z.eqb_neq _ 0)). Qed.

Lemma find_desc_run s l fuel addr pp x r :
  holds s l -> dseg (cells s) pp (x :: r) (memory_map s) -> memory_map s ∉ r ->
  (length r < fuel)%nat ->
  find_desc fuel x addr s = Done (desc_of (cells s) (x :: r) addr) s.
Proof.
  intros Hs. revert pp x r. induction fuel as [| fuel IH]; intros pp x r Hd Hm Hf; [ lia | ].
  destruct Hd as (m & E & Hp & Hn & Hd).
  assert (Er : read_cell x s = Done m s) by (unfold read_cell; by rewrite E).
  cbn [find_desc]. erewrite L_bind_Done by exact Er.
  unfold desc_of. cbn [List.find]. unfold desc_at at 1. rewrite E.
  destruct (map_addr m =? PAGE_ALIGN addr); [ done | ].
  erewrite L_bind_Done by exact Er. erewrite L_bind_Done by (by eapply map_head_run).
  rewrite Hn. destruct r as [| y r]; cbn [hd_or head default].
  - by rewrite Z.eqb_refl.
  - apply not_elem_of_cons in Hm as [Hne Hm].
    rewrite (proj2 (Z.eqb_neq y _)) by done. eapply IH; [ exact Hd | done | simpl in Hf; lia ].
Qed.

Lemma get_mem_desc_run s l fuel addr :
  holds s l -> (length l <= fuel)%nat ->
  get_mem_desc fuel addr s = Done (desc_of (cells s) l addr) s.
Proof.
  intros Hs Hf. destruct (holds_cons _ _ Hs) as [l' ->]. pose proof Hs as [[Hn Hd] _ H0].
  unfold get_mem_desc. erewrite L_bind_Done by (by eapply map_head_run).
  erewrite L_bind_Done.
  2: { unfold assert_l, truth. by rewrite (proj2 (Z.eqb_neq _ 0)). }
  apply NoDup_cons in Hn as [Hm _]. eapply find_desc_run; [ done | exact Hd | done | simpl in Hf; lia ].
Qed.

(** What the lookups of protections see. *)
Definition prot_of (h : gmap Z mem_map) (l : list Z) (addr : Z) : option Z :=
  p ← desc_of h l addr; m ← h !! p; Some (map_prot m).

Lemma desc_of_page h l a b : PAGE_ALIGN a = PAGE_ALIGN b -> desc_of h l a = desc_of h l b.
Proof. intros E. unfold desc_of, desc_at. by rewrite E. Qed.

Lemma desc_of_some h l a p :
  desc_of h l a = Some p -> p ∈ l /\ exists m, h !! p = Some m /\ map_addr m = PAGE_ALIGN a.
Proof.
  intros [Hp Hd]%List.find_some. split; [ by apply list_elem_of_In | ].
  unfold desc_at in Hd. destruct (h !! p) as [m |] eqn:E; [ | done ].
  exists m. split; [ done | by apply Z.eqb_eq ].
Qed.

Lemma desc_prot_run {A} s l fuel addr (d : A) f :
  holds s l -> (length l <= fuel)%nat ->
  desc_prot fuel addr d f s
  = Done (match prot_of (cells s) l addr with Some p => f p | None => d end) s.
Proof.
  intros Hs Hf. unfold desc_prot, prot_of. erewrite L_bind_Done by (by apply get_mem_desc_run).
  destruct (desc_of (cells s) l addr) as [p |] eqn:E; [ | done ]. simpl.
  destruct (desc_of_some _ _ _ _ E) as (_ & m & Em & _). rewrite Em. simpl.
  unfold mbind, L_bind, read_cell. by rewrite Em.
Qed.

(** The tests of protections find the first descriptor of the page: [is_r], [is_w] and [is_x]
    give its bit and 0 without one, while [is_rwx] and [is_rx] both hold as soon as the page
    is readable or executable. *)
Theorem prot_tests (s : maps) (l : list Z) (fuel : nat) (addr : Z)
    (Hs : holds s l) (Hf : (length l <= fuel)%nat) :
  prot fuel addr s = Done (default (-1) (prot_of (cells s) l addr)) s /\
  match prot_of (cells s) l addr with
  | None => is_r fuel addr s = Done 0 s /\ is_w fuel addr s = Done 0 s /\ is_x fuel addr s = Done 0 s /\
            is_ro fuel addr s = Done false s /\ is_rx fuel addr s = Done false s /\
            is_rwx fuel addr s = Done false s
  | Some p => is_r fuel addr s = Done (Z.land p PROT_READ) s /\
              is_w fuel addr s = Done (Z.land p PROT_WRITE) s /\
              is_x fuel addr s = Done (Z.land p PROT_EXEC) s /\
              is_ro fuel addr s = Done (p =? PROT_READ) s /\
              is_rx fuel addr s = is_rwx fuel addr s /\
              is_rwx fuel addr s = Done (truth (Z.land p PROT_READ) || truth (Z.land p PROT_EXEC)) s
  end.
Proof.
  assert (Hbits : forall p, truth (Z.land p (Z.lor PROT_EXEC PROT_READ))
                    = truth (Z.land p PROT_READ) || truth (Z.land p PROT_EXEC)).
  { intros p. rewrite Z.land_lor_distr_r. unfold truth.
    rewrite <- negb_andb, (andb_comm (Z.land p PROT_READ =? 0)). f_equal.
    apply eq_true_iff_eq. rewrite andb_true_iff, !Z.eqb_eq. apply Z.lor_eq_0_iff. }
  unfold prot, is_r, is_w, is_x, is_ro, is_rx, is_rwx. rewrite !(desc_prot_run s l) by done.
  split.
  - unfold prot_of. rewrite (desc_of_page _ _ (PAGE_ALIGN addr) addr) by apply PAGE_ALIGN_idem.
    by destruct (_ ≫= _).
  - change (Z.lor (Z.lor PROT_READ PROT_EXEC) PROT_READ) with (Z.lor PROT_EXEC PROT_READ).
    destruct (prot_of (cells s) l addr) as [p |]; rewrite ?Hbits; by split_and!.
Qed.

(** ** Changing the protections *)

Lemma write_cell_run p f s m :
  cells s !! p = Some m -> write_cell p f s = Done () (s <| cells := <[p := f m]> (cells s) |>).
Proof. intros E. unfold write_cell. by rewrite E. Qed.

Lemma read_cell_run p s m : cells s !! p = Some m -> read_cell p s = Done m s.
Proof. intros E. unfold read_cell. by rewrite E. Qed.

Definition protect_cell (pr : Z) (m : mem_map) : mem_map := m <| map_prot := pr |> <| map_sync := true |>.

Lemma holds_data s l p m m' :
  holds s l -> cells s !! p = Some m -> list_next m' = list_next m -> list_prev m' = list_prev m ->
  holds (s <| cells := <[p := m']> (cells s) |>) l.
Proof.
  intros [[Hn Hd] Hh H0] E E1 E2. split; simpl; try done. split; [ done | ]. by eapply dseg_data.
Qed.

Lemma desc_of_data h l p m m' a :
  h !! p = Some m -> map_addr m' = map_addr m -> desc_of (<[p := m']> h) l a = desc_of h l a.
Proof.
  intros E Ea. unfold desc_of. induction l as [| x l IH]; [ done | ]. cbn [List.find].
  assert (Hx : desc_at (<[p := m']> h) a x = desc_at h a x).
  { unfold desc_at. destruct (decide (p = x)) as [-> | Hne].
    - by rewrite lookup_insert_eq, E, Ea.
    - by rewrite lookup_insert_ne by done. }
  by rewrite Hx, IH.
Qed.

(** One descriptor is given the protection [pr]. *)
Lemma prot_of_protect h l a p m pr b :
  desc_of h l a = Some p -> h !! p = Some m ->
  prot_of (<[p := protect_cell pr m]> h) l b
  = if PAGE_ALIGN b =? PAGE_ALIGN a then Some pr else prot_of h l b.
Proof.
  intros Ed E. unfold prot_of. rewrite (desc_of_data h l p m) by done.
  destruct (Z.eqb_spec (PAGE_ALIGN b) (PAGE_ALIGN a)) as [Hab | Hab].
  { rewrite (desc_of_page h l b a Hab), Ed. simpl. by rewrite lookup_insert_eq. }
  destruct (desc_of h l b) as [q |] eqn:Eq; [ | done ]. simpl.
  destruct (decide (p = q)) as [-> | Hne]; [ | by rewrite lookup_insert_ne by done ].
  destruct (desc_of_some _ _ _ _ Ed) as (_ & m1 & E1 & H1).
  destruct (desc_of_some _ _ _ _ Eq) as (_ & m2 & E2 & H2). congruence.
Qed.

Lemma update_step s l fuel a pr :
  holds s l -> (length l <= fuel)%nat -> is_Some (prot_of (cells s) l a) ->
  exists p s', get_mem_desc fuel a s = Done (Some p) s /\
    (forall B (k : L B), (write_cell p (fun m => m <| map_prot := pr |>);;
        write_cell p (fun m => m <| map_sync := true |>);; k) s = k s') /\
    holds s' l /\
    (forall b, prot_of (cells s') l b
       = if PAGE_ALIGN b =? PAGE_ALIGN a then Some pr else prot_of (cells s) l b).
Proof.
  intros Hs Hf [x Hx]. unfold prot_of in Hx. apply bind_Some in Hx as (p & Ed & Hx).
  apply bind_Some in Hx as (m & Em & _).
  exists p, (s <| cells := <[p := protect_cell pr m]> (cells s) |>). split_and!.
  - rewrite (get_mem_desc_run s l) by done. by rewrite Ed.
  - intros B k. erewrite L_bind_Done by (by apply write_cell_run).
    erewrite L_bind_Done by (apply write_cell_run; simpl; apply lookup_insert_eq).
    simpl. unfold set_field. simpl. by rewrite insert_insert_eq.
  - by eapply holds_data.
  - intros b. simpl. by eapply prot_of_protect.
Qed.

Lemma update_loop_run pages fuel l addr i size pr s :
  holds s l -> (length l <= fuel)%nat ->
  addr mod PAGE_SZ = 0 -> i mod PAGE_SZ = 0 -> size mod PAGE_SZ = 0 ->
  0 <= addr -> addr + size < 2 ^ 64 -> 0 <= i <= size -> size - i < PAGE_SZ * Z.of_nat pages ->
  (forall a, addr + i <= a < addr + size -> is_Some (prot_of (cells s) l a)) ->
  exists s', update_loop pages fuel addr i size pr s = Done 0 s' /\ holds s' l /\
    forall b, prot_of (cells s') l b
      = if in_range (addr + i) (size - i) (PAGE_ALIGN b) then Some pr else prot_of (cells s) l b.
Proof.
  intros Hs Hf Ha Hi Hz H0 H1. revert i s Hs Hi.
  induction pages as [| pages IH]; intros i s Hs Hi Hr Hp Hm; [ unfold PAGE_SZ in *; lia | ].
  cbn [update_loop]. destruct (Z.ltb_spec i size) as [Hlt | Hge].
  - assert (Hnext : i + PAGE_SZ <= size).
    { apply Z.mod_divide in Hi as [j ->]; [ | done ]. apply Z.mod_divide in Hz as [k ->]; [ | done ].
      unfold PAGE_SZ in *. lia. }
    assert (Hai : PAGE_ALIGN (addr + i) = addr + i).
    { apply PAGE_ALIGN_id. by rewrite Z.add_mod, Ha, Hi. }
    rewrite (u64_small (addr + i)) by (unfold is_u64; lia).
    rewrite (u64_small (i + PAGE_SZ)) by (unfold is_u64, PAGE_SZ in *; lia).
    destruct (update_step s l fuel (addr + i) pr) as (p & s1 & Eg & Ew & Hs1 & Hp1);
      [ done | done | apply Hm; lia | ].
    erewrite L_bind_Done by exact Eg. cbv iota. rewrite Ew.
    destruct (IH (i + PAGE_SZ) s1) as (s2 & E2 & Hs2 & Hp2); try done; try (unfold PAGE_SZ in *; lia).
    { by rewrite Z.add_mod, Hi. }
    { intros a Hr'. rewrite Hp1. destruct (_ =? _); [ by eexists | ]. apply Hm. unfold PAGE_SZ in *. lia. }
    exists s2. split_and!; [ done | done | ]. intros b. rewrite Hp2, Hp1, Hai.
    pose proof (PAGE_ALIGN_mod b) as Hb.
    destruct (in_range_spec (addr + (i + PAGE_SZ)) (size - (i + PAGE_SZ)) (PAGE_ALIGN b)),
      (in_range_spec (addr + i) (size - i) (PAGE_ALIGN b)),
      (Z.eqb_spec (PAGE_ALIGN b) (addr + i)); try done; try (unfold PAGE_SZ in *; lia).
    exfalso. apply Z.mod_divide in Hb as [k Hk]; [ | done ].
    rewrite <- Hai in *. destruct (Z.mod_divide (addr + i) PAGE_SZ) as [Hd _]; [ done | ].
    destruct Hd as [j Hj]; [ by rewrite Z.add_mod, Ha, Hi | ]. unfold PAGE_SZ in *. lia.
  - exists s. split_and!; [ done | done | ]. intros b.
    destruct (in_range_spec (addr + i) (size - i) (PAGE_ALIGN b)); [ lia | done ].
Qed.

(** C26: When every page of an aligned range has a descriptor, update_vprot succeeds, keeps
    the list, and afterwards the lookups see the new protection exactly on the pages of the
    range. *)
Theorem update_vprot_ok (s : maps) (l : list Z) (fuel : nat) (addr size pr : Z)
    (Hs : holds s l) (Hf : (length l <= fuel)%nat)
    (Ha : addr mod PAGE_SZ = 0) (Hz : size mod PAGE_SZ = 0)
    (Hr : 0 <= addr /\ 0 <= size /\ addr + size < 2 ^ 64)
    (Hm : forall a, addr <= a < addr + size -> is_Some (prot_of (cells s) l a)) :
  exists s', update_vprot fuel addr size pr s = Done 0 s' /\ holds s' l /\
    forall b, prot_of (cells s') l b
      = if in_range addr size (PAGE_ALIGN b) then Some pr else prot_of (cells s) l b.
Proof.
  unfold update_vprot. rewrite Ha, Hz. cbn [truth Z.eqb negb orb].
  destruct (update_loop_run (pages_fuel size) fuel l addr 0 size pr s) as (s' & E & Hs' & Hp); try done; try lia.
  - unfold pages_fuel. pose proof (Z.div_pos size PAGE_SZ). pose proof (Z.mul_succ_div_gt size PAGE_SZ).
    unfold PAGE_SZ in *. lia.
  - intros a. rewrite Z.add_0_r. apply Hm.
  - exists s'. split_and!; [ done | done | ]. intros b. rewrite Hp. by rewrite Z.add_0_r, Z.sub_0_r.
Qed.

(** ** Merging two lists *)

Lemma cons_snoc x l : exists l', x :: l = l' ++ [last_or x l].
Proof.
  revert x. induction l as [| y l IH]; intros x; [ by exists [] | ].
  destruct (IH y) as [l' E]. exists (x :: l'). rewrite last_or_cons. simpl. by rewrite <- E.
Qed.

Lemma last_or_in x l : last_or x l ∈ x :: l.
Proof. destruct (cons_snoc x l) as [l' ->]. apply elem_of_app. right. by left. Qed.

(** The members of the descriptors that are not links. *)
Definition data (m : mem_map) : Z * Z * Z * bool := (map_addr m, map_size m, map_prot m, map_sync m).

Definition same_data (h h' : gmap Z mem_map) : Prop := forall y, data <$> h' !! y = data <$> h !! y.

#[export] Instance same_data_preorder : PreOrder same_data.
Proof. split; [ done | ]. intros h1 h2 h3 H1 H2 y. by rewrite H2, H1. Qed.

Lemma same_data_insert h x m m' :
  h !! x = Some m -> data m' = data m -> same_data h (<[x := m']> h).
Proof.
  intros E Hd y. destruct (decide (x = y)) as [-> | Hne].
  - rewrite lookup_insert_eq, E. simpl. by rewrite Hd.
  - by rewrite lookup_insert_ne by done.
Qed.

(** The two writes that move an end of a segment. *)
Lemma write_prev_run s pp pp' x l nx :
  NoDup (x :: l) -> dseg (cells s) pp (x :: l) nx ->
  exists h', write_cell x (fun m => m <| list_prev := pp' |>) s = Done () (s <| cells := h' |>) /\
    dseg h' pp' (x :: l) nx /\
    (forall p q r, x ∉ q -> dseg (cells s) p q r -> dseg h' p q r) /\
    same_data (cells s) h'.
Proof.
  intros Hn Hd. destruct (dseg_lookup _ _ _ _ x Hd) as [m E]; [ by left | ].
  eexists. split; [ by apply write_cell_run | ]. split_and!.
  - by eapply dseg_set_prev.
  - intros p q r Hx. by apply dseg_frame.
  - by eapply same_data_insert.
Qed.

Lemma write_next_run s pp x l nx nx' :
  NoDup (x :: l) -> dseg (cells s) pp (x :: l) nx ->
  exists h', write_cell (last_or x l) (fun m => m <| list_next := nx' |>) s
             = Done () (s <| cells := h' |>) /\
    dseg h' pp (x :: l) nx' /\
    (forall p q r, last_or x l ∉ q -> dseg (cells s) p q r -> dseg h' p q r) /\
    same_data (cells s) h'.
Proof.
  intros Hn Hd. pose proof (last_or_in x l) as Hin. destruct (cons_snoc x l) as [l' El].
  set (z := last_or x l) in *. destruct (dseg_lookup _ _ _ _ z Hd Hin) as [m E].
  rewrite El in Hn, Hd |- *. eexists. split; [ by apply write_cell_run | ]. split_and!.
  - by eapply dseg_set_next.
  - intros p q r Hx. by apply dseg_frame.
  - by eapply same_data_insert.
Qed.

(** C25: Merging the descriptor lists of a binary and its interpreter gives one circular
    doubly linked list, the nodes of the first followed by those of the second, with the
    descriptors themselves unchanged. *)
Theorem merge_address_space_ok (s : maps) (a b : Z) (la lb : list Z)
    (Ha : ring (cells s) (a :: la)) (Hb : ring (cells s) (b :: lb))
    (Hn : NoDup ((a :: la) ++ b :: lb)) (Hm : memory_map s = a) (Hi : interp_map s = Some b) :
  exists s', merge_address_space s = Done a s' /\ memory_map s' = a /\
    ring (cells s') ((a :: la) ++ b :: lb) /\
    same_data (cells s) (cells s').
Proof.
  destruct Ha as [Na Da], Hb as [Nb Db]. rewrite !last_or_cons in *. cbn [hd_or head default] in *.
  pose proof (last_or_in a la) as Hpa. pose proof (last_or_in b lb) as Hpb.
  set (pa := last_or a la) in *. set (pb := last_or b lb) in *.
  apply NoDup_app in Hn as (_ & Hdis & _).
  assert (Hdis' : forall x, x ∈ b :: lb -> x ∉ a :: la) by (intros x H1 H2; by apply (Hdis x)).
  assert (Ea : exists m, cells s !! a = Some m /\ list_prev m = pa) by (destruct Da as (m & ? & ? & _); eauto).
  assert (Eb : exists m, cells s !! b = Some m /\ list_prev m = pb) by (destruct Db as (m & ? & ? & _); eauto).
  destruct Ea as (ma & Ea & Epa), Eb as (mb & Eb & Epb).
  destruct (write_prev_run s pa pb a la a Na Da) as (h1 & E1 & Da1 & F1 & A1).
  set (s1 := s <| cells := h1 |>) in *.
  assert (Db1 : dseg (cells s1) pb (b :: lb) b) by (apply F1; [ apply Hdis; by left | done ]).
  destruct (write_next_run s1 pb b lb b a Nb Db1) as (h2 & E2 & Db2 & F2 & A2).
  set (s2 := s1 <| cells := h2 |>) in *. fold pb in E2, F2.
  assert (Da2 : dseg (cells s2) pb (a :: la) a) by (apply F2; [ by apply Hdis' | done ]).
  destruct (write_prev_run s2 pb pa b lb a Nb Db2) as (h3 & E3 & Db3 & F3 & A3).
  set (s3 := s2 <| cells := h3 |>) in *.
  assert (Da3 : dseg (cells s3) pb (a :: la) a) by (apply F3; [ apply Hdis'; by left | done ]).
  destruct (write_next_run s3 pb a la a b Na Da3) as (h4 & E4 & Da4 & F4 & A4).
  fold pa in E4, F4.
  assert (Db4 : dseg h4 pa (b :: lb) a) by (apply F4; [ by apply Hdis | done ]).
  exists (s3 <| cells := h4 |>). split_and!; try done.
  - unfold merge_address_space. erewrite !L_bind_Done by reflexivity. rewrite Hi, Hm.
    erewrite L_bind_Done by (by apply read_cell_run).
    erewrite L_bind_Done by (by apply read_cell_run). cbv zeta. rewrite Epa, Epb.
    erewrite L_bind_Done by exact E1. erewrite L_bind_Done by exact E2.
    erewrite L_bind_Done by exact E3. erewrite L_bind_Done by exact E4. done.
  - split; [ apply NoDup_app; by split_and! | ]. simpl cells.
    rewrite last_or_app, last_or_cons. fold pb. cbn [app hd_or head default].
    change (a :: la ++ b :: lb) with ((a :: la) ++ b :: lb).
    apply dseg_app. rewrite last_or_cons. by split.
  - simpl. etrans; [ exact A1 | ]. etrans; [ exact A2 | ]. etrans; [ exact A3 | exact A4 ].
Qed.

(** ** Insertion *)

(** A new node between the last one and the first one. *)
Lemma __list_add_ring s y l new m :
  ring (cells s) (y :: l) -> new ∉ y :: l -> cells s !! new = Some m ->
  exists h', __list_add new (last_or y l) y s = Done () (s <| cells := h' |>) /\
    ring h' (y :: l ++ [new]) /\ same_data (cells s) h'.
Proof.
  intros [Hn Hd] Hnew Em. rewrite last_or_cons in Hd. cbn [hd_or head default] in Hd.
  pose proof (last_or_in y l) as Hz.
  destruct (write_prev_run s _ new y l y Hn Hd) as (h1 & E1 & D1 & F1 & A1).
  set (s1 := s <| cells := h1 |>) in *. set (z := last_or y l) in *.
  assert (Em1 : exists m1, h1 !! new = Some m1).
  { specialize (A1 new). rewrite Em in A1. destruct (h1 !! new); [ by eexists | done ]. }
  destruct Em1 as [m1 Em1].
  set (m2 := m1 <| list_next := y |> <| list_prev := z |>).
  set (s2 := s <| cells := <[new := m2]> h1 |>).
  assert (D2 : dseg (cells s2) new (y :: l) y) by (by apply dseg_frame).
  destruct (write_next_run s2 new y l y new Hn D2) as (h3 & E3 & D3 & F3 & A3).
  fold z in E3, F3. exists h3. split_and!.
  - unfold __list_add. erewrite L_bind_Done by exact E1.
    erewrite L_bind_Done by (by apply write_cell_run).
    erewrite L_bind_Done by (apply write_cell_run; simpl; apply lookup_insert_eq).
    simpl. rewrite insert_insert_eq. exact E3.
  - split.
    { rewrite app_comm_cons. apply NoDup_app. split_and!; [ done | | apply NoDup_singleton ].
      intros x Hx ->%list_elem_of_singleton. done. }
    rewrite last_or_cons, last_or_snoc. cbn [hd_or head default].
    rewrite app_comm_cons. apply dseg_app. split; [ done | ]. rewrite last_or_cons. fold z.
    apply F3; [ intros <-%list_elem_of_singleton; done | ].
    exists m2. simpl. rewrite lookup_insert_eq. by split_and!.
  - etrans; [ exact A1 | ]. etrans; [ | exact A3 ]. simpl. by eapply same_data_insert.
Qed.

(** [list_add_tail] puts the new node at the end, [list_add] after the head. *)
Lemma list_add_tail_ring s head l new m :
  ring (cells s) (head :: l) -> new ∉ head :: l -> cells s !! new = Some m ->
  exists h', list_add_tail new head s = Done () (s <| cells := h' |>) /\
    ring h' (head :: l ++ [new]) /\ same_data (cells s) h'.
Proof.
  intros Hr Hn Em. destruct (__list_add_ring s head l new m Hr Hn Em) as (h' & E & Hr' & Hd).
  exists h'. split_and!; [ | done | done ]. destruct Hr as [_ (mh & Eh & Ep & _)].
  rewrite last_or_cons in Ep. unfold list_add_tail.
  erewrite L_bind_Done by (by apply read_cell_run). by rewrite Ep.
Qed.

Lemma list_add_ring s head l new m :
  ring (cells s) (head :: l) -> new ∉ head :: l -> cells s !! new = Some m ->
  exists h', list_add new head s = Done () (s <| cells := h' |>) /\
    ring h' (head :: new :: l) /\ same_data (cells s) h'.
Proof.
  intros Hr Hn Em. pose proof Hr as [_ (mh & Eh & _ & En & _)].
  assert (Er : read_cell head s = Done mh s) by (by apply read_cell_run).
  destruct l as [| y l].
  - destruct (__list_add_ring s head [] new m Hr Hn Em) as (h' & E & Hr' & Hd).
    exists h'. split_and!; [ | done | done ]. unfold list_add. erewrite L_bind_Done by exact Er.
    rewrite En. exact E.
  - assert (Hrot : ring (cells s) (y :: l ++ [head])) by exact (ring_rotate _ [head] (y :: l) Hr).
    destruct (__list_add_ring s y (l ++ [head]) new m Hrot) as (h' & E & Hr' & Hd); [ | done | ].
    { intros Hin. apply Hn. apply elem_of_cons in Hin as [-> | Hin]; [ right; by left | ].
      apply elem_of_app in Hin as [Hin | ->%list_elem_of_singleton]; [ by do 2 right | by left ]. }
    rewrite last_or_snoc in E. exists h'. split_and!; [ | | done ].
    + unfold list_add. erewrite L_bind_Done by exact Er. rewrite En. exact E.
    + rewrite <- (assoc_L (++)) in Hr'. cbn [app] in Hr'.
      change (y :: l ++ [head; new]) with ((y :: l) ++ [head; new]) in Hr'.
      exact (ring_rotate _ _ _ Hr').
Qed.

(** Splicing: the nodes behind [src] go between [dst] and its successor. *)
Lemma __list_splice_ring s src x l dst h :
  ring (cells s) (src :: x :: l) -> ring (cells s) (dst :: h) ->
  NoDup ((x :: l) ++ dst :: h) ->
  exists h', __list_splice src dst s = Done () (s <| cells := h' |>) /\
    ring h' (dst :: x :: l ++ h) /\ same_data (cells s) h'.
Proof.
  intros [Nl (ml & El & Pl & Fl & Dl)] Hh Hn.
  apply NoDup_cons in Nl as [_ Nl]. rewrite !last_or_cons in Pl. cbn [hd_or head default] in Fl, Dl.
  assert (Hmh : exists mh, cells s !! dst = Some mh /\ list_next mh = hd_or dst h)
    by (destruct Hh as [_ (mh & Eh & _ & En & _)]; eauto).
  destruct Hmh as (mh & Eh & Fh).
  assert (Hc : exists c rest, h ++ [dst] = c :: rest /\ hd_or dst h = c)
    by (destruct h as [| c h]; [ by exists dst, [] | by eexists c, _ ]).
  destruct Hc as (c & rest & Ec & Hc). rewrite Hc in Fh.
  pose proof (ring_rotate _ [dst] h Hh) as [Nc Dc]. rewrite Ec in Nc, Dc.
  assert (Hlc : last_or c rest = dst)
    by (rewrite <- (last_or_cons 0 c rest), <- Ec; apply last_or_snoc).
  rewrite last_or_cons, Hlc in Dc. cbn [hd_or head default] in Dc.
  assert (Hdis : forall y, y ∈ x :: l -> y ∉ c :: rest).
  { intros y Hy. rewrite <- Ec. apply NoDup_app in Hn as (_ & Hd & _). specialize (Hd y Hy).
    rewrite elem_of_app, list_elem_of_singleton. rewrite elem_of_cons in Hd. tauto. }
  assert (Hdis' : forall y, y ∈ c :: rest -> y ∉ x :: l) by (intros y H1 H2; by apply (Hdis y)).
  pose proof (last_or_in x l) as Hz. pose proof (last_or_in c rest) as Hy.
  destruct (write_prev_run s src dst x l src Nl Dl) as (h1 & E1 & L1 & F1 & A1).
  set (s1 := s <| cells := h1 |>) in *.
  assert (C1 : dseg (cells s1) dst (c :: rest) c) by (apply F1; [ apply Hdis; by left | done ]).
  destruct (write_next_run s1 dst c rest c x Nc C1) as (h2 & E2 & C2 & F2 & A2).
  set (s2 := s1 <| cells := h2 |>) in *.
  assert (L2 : dseg (cells s2) dst (x :: l) src) by (apply F2; [ by apply Hdis' | done ]).
  destruct (write_next_run s2 dst x l src c Nl L2) as (h3 & E3 & L3 & F3 & A3).
  set (s3 := s2 <| cells := h3 |>) in *.
  assert (C3 : dseg (cells s3) dst (c :: rest) x) by (apply F3; [ by apply Hdis | done ]).
  destruct (write_prev_run s3 dst (last_or x l) c rest x Nc C3) as (h4 & E4 & C4 & F4 & A4).
  assert (L4 : dseg h4 dst (x :: l) c) by (apply F4; [ apply Hdis'; by left | done ]).
  exists h4. split_and!.
  - unfold __list_splice. erewrite L_bind_Done by (by apply read_cell_run).
    erewrite L_bind_Done by (by apply read_cell_run). cbv zeta. rewrite Fl, Pl, Fh.
    erewrite L_bind_Done by exact E1. rewrite Hlc in E2. erewrite L_bind_Done by exact E2.
    erewrite L_bind_Done by exact E3. exact E4.
  - change (dst :: x :: l ++ h) with ([dst] ++ ((x :: l) ++ h)). apply ring_rotate.
    rewrite <- (assoc_L (++)), Ec. split.
    + apply NoDup_app. by split_and!.
    + rewrite last_or_app, last_or_cons, Hlc. cbn [app hd_or head default].
      change (x :: l ++ c :: rest) with ((x :: l) ++ c :: rest). apply dseg_app.
      rewrite last_or_cons. by split.
  - etrans; [ exact A1 | ]. etrans; [ exact A2 | ]. etrans; [ exact A3 | exact A4 ].
Qed.

(** [list_splice] joins two lists; one without nodes leaves the other as it is. *)
Theorem list_splice_ring (s : maps) (src dst : Z) (l h : list Z)
    (Hl : ring (cells s) (src :: l)) (Hh : ring (cells s) (dst :: h))
    (Hn : NoDup (l ++ dst :: h)) :
  exists h', list_splice src dst s = Done () (s <| cells := h' |>) /\
    ring h' (dst :: l ++ h) /\ same_data (cells s) h'.
Proof.
  pose proof Hl as [Nl (ml & El & _ & Fl & _)]. unfold list_splice, list_empty.
  erewrite L_bind_Done by (erewrite L_bind_Done by (by apply read_cell_run); reflexivity).
  cbv beta. rewrite Fl. destruct l as [| x l].
  - change (hd_or _ []) with src. rewrite Z.eqb_refl. exists (cells s). split_and!; [ by destruct s | done | done ].
  - apply NoDup_cons in Nl as [Hx _]. change (hd_or _ (x :: l)) with x.
    rewrite (proj2 (Z.eqb_neq x src)) by (intros ->; apply Hx; by left).
    by apply __list_splice_ring.
Qed.

(** ** Removing a descriptor *)

(** The two writes around a node leave a ring without it; the node itself is untouched. *)
Lemma del_writes s p y l :
  ring (cells s) (p :: y :: l) ->
  exists m h1 h2, cells s !! p = Some m /\ list_next m = y /\ list_prev m = last_or y l /\
    write_cell y (fun x => (x <| list_prev := last_or y l |>)) s = Done () (s <| cells := h1 |>) /\
    h1 !! p = Some m /\
    write_cell (last_or y l) (fun x => (x <| list_next := y |>)) (s <| cells := h1 |>)
      = Done () (s <| cells := h2 |>) /\
    NoDup (y :: l) /\ p ∉ (y :: l) /\ dseg h2 (last_or y l) (y :: l) y /\ same_data (cells s) h2.
Proof.
  intros [Hn Hd]. rewrite last_or_cons in Hd. cbn [hd_or head default] in Hd.
  apply NoDup_cons in Hn as [Hp Hny]. destruct Hd as (m & E & Epp & En & Hd).
  cbn [hd_or head default] in En. rewrite last_or_cons in Epp.
  destruct (write_prev_run s p (last_or y l) y l p Hny Hd) as (h1 & E1 & D1 & F1 & A1).
  set (s1 := s <| cells := h1 |>) in *.
  destruct (write_next_run s1 (last_or y l) y l p y Hny D1) as (h2 & E2 & D2 & F2 & A2).
  exists m, h1, h2. split_and!; try done; [ | by etrans ].
  unfold write_cell in E1. destruct (cells s !! y) as [my |]; [ | done ].
  apply (f_equal (fun r => match r with Done _ q => cells q | _ => ∅ end)) in E1. simpl in E1.
  rewrite <- E1, lookup_insert_ne; [ done | ]. intros ->. apply Hp. by left.
Qed.

Lemma same_data_lookup h h' p m : same_data h h' -> h !! p = Some m -> is_Some (h' !! p).
Proof. intros Hs E. specialize (Hs p). rewrite E in Hs. destruct (h' !! p); [ by eexists | done ]. Qed.

Lemma unlink_run s p l :
  ring (cells s) (p :: l) -> l <> [] ->
  exists h', unlink p s = Done () (s <| cells := h' |>) /\ ring h' l /\ h' !! p = None /\
    same_data (delete p (cells s)) h'.
Proof.
  intros Hr Hl. destruct l as [| y l]; [ done | clear Hl ].
  destruct (del_writes s p y l Hr) as (m & h1 & h2 & E & En & Ep & E1 & Em1 & E2 & Hn & Hp & D & Hs).
  destruct (same_data_lookup _ _ p m Hs E) as [m2 Em2].
  exists (delete p h2). split_and!.
  - unfold unlink. erewrite L_bind_Done by (by apply read_cell_run). rewrite En, Ep.
    erewrite L_bind_Done by exact E1. erewrite L_bind_Done by (by apply read_cell_run).
    rewrite En, Ep. erewrite L_bind_Done by exact E2. unfold free. simpl. by rewrite Em2.
  - split; [ done | ]. rewrite last_or_cons. cbn [hd_or head default]. by apply dseg_delete.
  - apply lookup_delete_eq.
  - intros x. destruct (decide (p = x)) as [-> | Hne]; [ by rewrite !lookup_delete_eq | ].
    rewrite !lookup_delete_ne by done. apply Hs.
Qed.

(** [list_del] leaves the node in the heap, with null links. *)
Lemma list_del_ring s p l :
  ring (cells s) (p :: l) -> l <> [] ->
  exists h', list_del p s = Done () (s <| cells := h' |>) /\ ring h' l /\ same_data (cells s) h' /\
    exists m, h' !! p = Some m /\ list_next m = 0 /\ list_prev m = 0.
Proof.
  intros Hr Hl. destruct l as [| y l]; [ done | clear Hl ].
  destruct (del_writes s p y l Hr) as (m & h1 & h2 & E & En & Ep & E1 & Em1 & E2 & Hn & Hp & D & Hs).
  destruct (same_data_lookup _ _ p m Hs E) as [m2 Em2].
  eexists (<[p := m2 <| list_next := 0 |> <| list_prev := 0 |>]> h2). split_and!.
  - unfold list_del, __list_del. erewrite L_bind_Done by (by apply read_cell_run). rewrite En, Ep.
    erewrite L_bind_Done.
    2: { erewrite L_bind_Done by exact E1. exact E2. }
    erewrite L_bind_Done by (by apply write_cell_run).
    erewrite write_cell_run by (simpl; apply lookup_insert_eq). simpl. by rewrite insert_insert_eq.
  - split; [ done | ]. rewrite last_or_cons. cbn [hd_or head default]. by apply dseg_frame.
  - etrans; [ exact Hs | ]. by eapply same_data_insert.
  - eexists. rewrite lookup_insert_eq. by split_and!.
Qed.

(** C40: list_del_map of a page with a descriptor unlinks and frees it and leaves a list of
    the others; when it was the head, the object keeps the pointer to the freed descriptor
    and every later lookup goes through it. *)
Theorem list_del_map_page (s : maps) (l1 l2 : list Z) (p : Z) (fuel : nat) (addr : Z)
    (Hs : holds s (l1 ++ p :: l2)) (Hf : (length (l1 ++ p :: l2) <= fuel)%nat)
    (Ha : addr mod PAGE_SZ = 0) (Hu : is_u64 addr) (Hl : l1 ++ l2 <> [])
    (Hp : desc_of (cells s) (l1 ++ p :: l2) addr = Some p) :
  exists s', list_del_map fuel addr PAGE_SZ s = Done 0 s' /\ memory_map s' = memory_map s /\
    ring (cells s') (l1 ++ l2) /\ same_data (delete p (cells s)) (cells s') /\
    (l1 <> [] -> holds s' (l1 ++ l2)) /\
    (l1 = [] -> forall fuel' a, get_mem_desc (S fuel') a s' = Fault).
Proof.
  pose proof Hs as [Hr Hh H0].
  assert (Hr' : ring (cells s) (p :: l2 ++ l1)) by exact (ring_rotate _ _ _ Hr).
  destruct (unlink_run s p (l2 ++ l1)) as (h' & E & Hr2 & Hnone & Hd); [ done | | ].
  { intros E. apply Hl. apply app_eq_nil in E as [-> ->]. done. }
  apply ring_rotate in Hr2. exists (s <| cells := h' |>). split_and!; try done.
  - unfold list_del_map. rewrite Ha. change (truth (PAGE_SZ mod PAGE_SZ)) with false.
    change (pages_fuel PAGE_SZ) with 3%nat. cbn [truth Z.eqb negb orb del_loop].
    change (0 <? PAGE_SZ) with true. change (0 + PAGE_SZ <? PAGE_SZ) with false. cbv iota.
    rewrite Z.add_0_r, u64_small by done.
    erewrite L_bind_Done by (by apply get_mem_desc_run). rewrite Hp.
    erewrite L_bind_Done by exact E. done.
  - intros Hl1. destruct l1 as [| x l1]; [ done | ]. split; simpl; done.
  - intros -> fuel' a. simpl in Hh. injection Hh as Hh.
    assert (Ht : truth (memory_map s) = true) by (unfold truth; by rewrite (proj2 (Z.eqb_neq _ 0) H0)).
    unfold get_mem_desc. erewrite L_bind_Done.
    2: { unfold map_head. simpl. by rewrite Ht. }
    erewrite L_bind_Done by (unfold assert_l; by rewrite Ht).
    cbn [find_desc]. unfold read_cell, mbind, L_bind. simpl. by rewrite <- Hh, Hnone.
Qed.

(** ** Releasing the list *)

Lemma free_loop_run l : forall s head x pp fuel,
  dseg (cells s) pp (x :: l) head -> NoDup (x :: l) -> head ∉ l -> (length l < fuel)%nat ->
  exists h', free_loop fuel x head s = Done 0 (s <| cells := h' |>) /\
    forall y, h' !! y = if decide (y ∈ x :: l) then None else cells s !! y.
Proof.
  induction l as [| y l IH]; intros s head x pp fuel Hd Hn Hh Hf; (destruct fuel as [| fuel]; [ lia | ]).
  - destruct Hd as (m & E & _ & En & _). unfold hd_or in En; simpl in En.
    exists (delete x (cells s)). split.
    + cbn [free_loop]. erewrite L_bind_Done by (by apply read_cell_run).
      unfold free, mbind, L_bind. rewrite E, En, Z.eqb_refl. done.
    + intros y. case_decide as Hy.
      * apply list_elem_of_singleton in Hy as ->. apply lookup_delete_eq.
      * apply lookup_delete_ne. intros ->. apply Hy. by left.
  - destruct Hd as (m & E & _ & En & Hd). unfold hd_or in En; simpl in En.
    apply NoDup_cons in Hn as [Hx Hn]. apply not_elem_of_cons in Hh as [Hne Hh].
    set (s1 := s <| cells := delete x (cells s) |>).
    destruct (IH s1 head y x fuel) as (h' & E' & Hl); [ by apply dseg_delete | done | done | simpl in Hf; lia | ].
    exists h'. split.
    + cbn [free_loop]. erewrite L_bind_Done by (by apply read_cell_run).
      assert (Ef : free x s = Done () s1) by (unfold free; by rewrite E).
      erewrite L_bind_Done by exact Ef. rewrite En, (proj2 (Z.eqb_neq y head)) by done.
      exact E'.
    + intros z. rewrite Hl. unfold s1. simpl. 
      destruct (decide (z = x)) as [-> | Hzx].
      * rewrite (decide_True _ _ (P := x ∈ x :: y :: l)) by left.
        rewrite lookup_delete_eq. by case_decide.
      * rewrite lookup_delete_ne by done.
        destruct (decide (z ∈ y :: l)) as [Hz | Hz], (decide (z ∈ x :: y :: l)) as [Hw | Hw]; try done.
        -- exfalso. apply Hw. by right.
        -- exfalso. apply elem_of_cons in Hw as [|]; done.
Qed.

(** [free_memory_map] releases every node of the list and no other. *)
Theorem free_memory_map_ok (s : maps) (l : list Z) (fuel : nat)
    (Hs : holds s l) (Hf : (length l <= fuel)%nat) :
  exists s', free_memory_map fuel (memory_map s) s = Done 0 s' /\
    forall y, cells s' !! y = if decide (y ∈ l) then None else cells s !! y.
Proof.
  destruct (holds_cons _ _ Hs) as [l' ->]. destruct Hs as [[Hn Hd] _ H0].
  destruct (free_loop_run l' s (memory_map s) (memory_map s) _ fuel Hd Hn) as (h' & E & Hl).
  { by apply NoDup_cons in Hn as [? _]. }
  { simpl in Hf. lia. }
  exists (s <| cells := h' |>). split; [ | done ]. unfold free_memory_map, assert_l, truth.
  unfold mbind, L_bind. rewrite (proj2 (Z.eqb_neq _ 0) H0). exact E.
Qed.
