(* ===== verification/LogMapSpec.v ===== *)
(** * What [log_map] prints

    One line for each maximal run of adjacent pages with the same protection. *)

From S2P Require Import Prelude.
From S2P Require Import Pages.
From S2P Require Import Process.
From S2P Require Import Log.
From S2P Require Import Maps.
From S2P Require Import MapsSpec.

(** A run: its first address, its size and its protection. *)
Definition run : Type := Z * Z * Z.

(** The page at [b] continues the run. *)
Definition joins (r : run) (b q : Z) : bool :=
  let '(a, z, p) := r in (a + z =? b) && (p =? q).

(** The runs of a list of pages (address, protection), the first one begun. *)
Fixpoint group (r : run) (l : list (Z * Z)) : list run :=
  match l with
  | [] => [r]
  | (b, q) :: l' =>
      let '(a, z, p) := r in
      if joins r b q then group (a, z + PAGE_SZ, p) l' else r :: group (b, PAGE_SZ, q) l'
  end.

Definition runs (l : list (Z * Z)) : list run :=
  match l with [] => [] | (a, p) :: l' => group (a, PAGE_SZ, p) l' end.

(** The pages of a run of [k] pages. *)
Definition pages_of (r : run) : list (Z * Z) :=
  let '(a, z, p) := r in (fun i => (a + Z.of_nat i * PAGE_SZ, p)) <$> seq 0 (Z.to_nat (z / PAGE_SZ)).

(** No run continues the one before it. *)
Fixpoint separate (l : list run) : Prop :=
  match l with
  | r :: (((b, _, q) :: _) as l') => joins r b q = false /\ separate l'
  | _ => True
  end.

Definition line_of (r : run) : text := let '(a, z, p) := r in map_line a z p.

Definition page_of (m : mem_map) : Z * Z := (map_addr m, map_prot m).

(** The pages of the nodes [l] of a heap. *)
Definition pages (h : gmap Z mem_map) (l : list Z) : list (Z * Z) :=
  omap (fun x => page_of <$> h !! x) l.

(** Descriptors of one page each, below the end of the address space. *)
Definition page_sized (h : gmap Z mem_map) (l : list Z) : Prop :=
  forall x m, x ∈ l -> h !! x = Some m ->
    map_size m = PAGE_SZ /\ 0 <= map_addr m /\ map_addr m + PAGE_SZ < 2 ^ 64.

(** ** The runs *)

Lemma pages_of_one a p : pages_of (a, PAGE_SZ, p) = [(a, p)].
Proof. unfold pages_of. simpl. by rewrite Z.add_0_r. Qed.

Lemma pages_of_snoc a z p k :
  z = Z.of_nat (S k) * PAGE_SZ ->
  pages_of (a, z + PAGE_SZ, p) = pages_of (a, z, p) ++ [(a + z, p)].
Proof.
  intros ->. unfold pages_of.
  replace (Z.of_nat (S k) * PAGE_SZ + PAGE_SZ) with (Z.of_nat (S (S k)) * PAGE_SZ) by lia.
  rewrite !Z.div_mul, !Nat2Z.id by done. rewrite (seq_S (S k)), fmap_app. done.
Qed.

Lemma group_pages l : forall a z p k,
  z = Z.of_nat (S k) * PAGE_SZ -> concat (pages_of <$> group (a, z, p) l) = pages_of (a, z, p) ++ l.
Proof.
  induction l as [| [b q] l IH]; intros a z p k Hz; [ done | ].
  cbn [group joins]. destruct ((a + z =? b) && (p =? q)) eqn:E.
  - apply andb_true_iff in E as [<-%Z.eqb_eq <-%Z.eqb_eq].
    rewrite (IH _ _ _ (S k)) by lia. rewrite (pages_of_snoc _ _ _ k) by done.
    by rewrite <- app_assoc.
  - cbn [fmap list_fmap concat]. rewrite (IH _ _ _ 0%nat), pages_of_one by lia. done.
Qed.

Lemma runs_pages l : concat (pages_of <$> runs l) = l.
Proof. destruct l as [| [a p] l]; [ done | ]. unfold runs. by rewrite (group_pages l _ _ _ 0%nat), pages_of_one. Qed.

Lemma group_head l : forall a z p, exists z' rs, group (a, z, p) l = (a, z', p) :: rs.
Proof.
  induction l as [| [b q] l IH]; intros a z p; cbn [group]; [ by do 2 eexists | ].
  destruct (joins _ _ _); [ apply IH | by do 2 eexists ].
Qed.

Lemma group_separate l : forall r, separate (group r l).
Proof.
  induction l as [| [b q] l IH]; intros [[a z] p]; cbn [group]; [ done | ].
  destruct (joins _ _ _) eqn:E; [ apply IH | ].
  pose proof (IH (b, PAGE_SZ, q)) as Hs. destruct (group_head l b PAGE_SZ q) as (z' & rs & Eg).
  rewrite Eg in *. by split.
Qed.

Lemma runs_separate l : separate (runs l).
Proof. destruct l as [| [a p] l]; [ done | ]. apply group_separate. Qed.

(** ** The loop *)

(** The runs it prints when the page after the last one is [b]: a last run that continues
    there is left out. *)
Fixpoint printed (l : list run) (b q : Z) : list run :=
  match l with
  | [] => []
  | [r] => if joins r b q then [] else [r]
  | r :: l' => r :: printed l' b q
  end.

Lemma printed_cons r l b q : l <> [] -> printed (r :: l) b q = r :: printed l b q.
Proof. by destruct l. Qed.

Lemma group_nonempty r l : group r l <> [].
Proof. destruct r as [[a z] p]. destruct (group_head l a z p) as (z' & rs & ->). done. Qed.

(** The run at the node [m] when the loop comes to it. *)
Definition run_at (m : mem_map) (g_addr g_prot g_size : Z) : run :=
  if g_size =? PAGE_SZ then (map_addr m, map_size m, map_prot m) else (g_addr, g_size, g_prot).

(** A run of whole pages that ends with the page of [m]. *)
Definition ends_at (r : run) (m : mem_map) : Prop :=
  let '(a, z, p) := r in
  a + z = map_addr m + PAGE_SZ /\ p = map_prot m /\ 0 <= a /\ exists k, z = Z.of_nat (S k) * PAGE_SZ.

Lemma one_page (m : mem_map) :
  map_size m = PAGE_SZ -> 0 <= map_addr m -> ends_at (map_addr m, map_size m, map_prot m) m.
Proof. intros Hz H0. rewrite Hz. split_and!; try done. by exists 0%nat. Qed.

Lemma log_step m n a z p :
  map_size m = PAGE_SZ -> map_addr m + PAGE_SZ < 2 ^ 64 -> 0 <= map_addr m ->
  map_addr n + PAGE_SZ < 2 ^ 64 -> ends_at (a, z, p) m ->
  (u64 (map_addr m + map_size m) =? map_addr n) && (map_prot m =? map_prot n)
  = joins (a, z, p) (map_addr n) (map_prot n) /\
  (joins (a, z, p) (map_addr n) (map_prot n) = true ->
   u64 (z + PAGE_SZ) = z + PAGE_SZ /\ run_at n a p (z + PAGE_SZ) = (a, z + PAGE_SZ, p) /\
   ends_at (a, z + PAGE_SZ, p) n).
Proof.
  intros Hz Hh H0 Hn (Hend & -> & Ha & k & Hk).
  rewrite Hz, u64_small by (unfold is_u64, PAGE_SZ in *; lia).
  unfold joins, run_at. rewrite Hend. split; [ done | ].
  intros [E1%Z.eqb_eq E2%Z.eqb_eq]%andb_true_iff. assert (0 < z) by (unfold PAGE_SZ in *; lia).
  rewrite (proj2 (Z.eqb_neq (z + PAGE_SZ) PAGE_SZ)) by lia.
  split_and!; [ apply u64_small; unfold is_u64, PAGE_SZ in *; lia | done | ].
  split_and!; [ lia | done | done | ]. exists (S k). lia.
Qed.

(** One iteration at a node in a run. *)
Lemma log_loop_step fuel s head m n x g_addr g_prot g_size out a z p :
  cells s !! x = Some m -> cells s !! list_next m = Some n ->
  map_size m = PAGE_SZ -> map_addr m + PAGE_SZ < 2 ^ 64 -> 0 <= map_addr m ->
  map_addr n + PAGE_SZ < 2 ^ 64 ->
  run_at m g_addr g_prot g_size = (a, z, p) -> ends_at (a, z, p) m ->
  log_loop (S fuel) x head g_addr g_prot g_size out s
  = let j := joins (a, z, p) (map_addr n) (map_prot n) in
    let out := if j then out else out ++ line_of (a, z, p) in
    if list_next m =? head then Done out s
    else log_loop fuel (list_next m) head a p (if j then z + PAGE_SZ else PAGE_SZ) out s.
Proof.
  intros Em En Hz H1 H0 Hn Er He. destruct (log_step m n a z p Hz H1 H0 Hn He) as [Ej Hj].
  cbn [log_loop]. erewrite L_bind_Done by (by apply read_cell_run).
  assert (Ew : (if g_size =? PAGE_SZ then (map_addr m, map_prot m, map_size m)
                else (g_addr, g_prot, g_size)) = (a, p, z))
    by (unfold run_at in Er; by destruct (g_size =? PAGE_SZ); simplify_eq).
  rewrite Ew. cbv beta iota. erewrite L_bind_Done by (by apply read_cell_run).
  rewrite Ej. destruct (joins _ _ _) eqn:E; cbv zeta beta iota.
  - destruct (Hj eq_refl) as (-> & _). by destruct (_ =? head).
  - rewrite Hz. by destruct (_ =? head).
Qed.

Lemma log_loop_run s head hm l : forall fuel pp x m g_addr g_prot g_size out,
  cells s !! head = Some hm -> dseg (cells s) pp (x :: l) head -> head ∉ l ->
  page_sized (cells s) (head :: x :: l) -> (length l < fuel)%nat ->
  cells s !! x = Some m -> ends_at (run_at m g_addr g_prot g_size) m ->
  log_loop fuel x head g_addr g_prot g_size out s
  = Done (out ++ concat (line_of <$>
      printed (group (run_at m g_addr g_prot g_size) (pages (cells s) l)) (map_addr hm) (map_prot hm))) s.
Proof.
  induction l as [| y l IH]; intros fuel pp x m ga gp gs out Hhm Hd Hh Hps Hf Hm Hr;
    (destruct fuel as [| fuel]; [ lia | ]); destruct Hd as (m' & E & _ & En & Hd);
    assert (m' = m) as -> by congruence; unfold hd_or in En; simpl in En;
    destruct (Hps x m ltac:(right; left) Hm) as (Hz & H0 & H1);
    destruct (run_at m ga gp gs) as [[a z] p] eqn:Er.
  - destruct (Hps head hm ltac:(left) Hhm) as (_ & _ & H2).
    rewrite (log_loop_step fuel s head m hm x ga gp gs out a z p) by (done || by rewrite En).
    rewrite En, Z.eqb_refl. cbn [group pages omap list_omap printed].
    destruct (joins _ _ _); cbn [fmap list_fmap concat]; by rewrite ?app_nil_r.
  - apply not_elem_of_cons in Hh as [Hne Hh]. destruct Hd as (n & Ey & Hp & Hny & Hd).
    destruct (Hps y n ltac:(right; right; left) Ey) as (Hz2 & H02 & H2).
    rewrite (log_loop_step fuel s head m n x ga gp gs out a z p) by (done || by rewrite En).
    rewrite En, (proj2 (Z.eqb_neq y head)) by done.
    assert (Hpg : pages (cells s) (y :: l) = (map_addr n, map_prot n) :: pages (cells s) l)
      by (unfold pages; cbn [omap list_omap]; by rewrite Ey).
    assert (Hps' : page_sized (cells s) (head :: y :: l)).
    { intros w mw Hw. apply Hps. rewrite !elem_of_cons in *. tauto. }
    assert (Hd' : dseg (cells s) x (y :: l) head) by (by exists n).
    rewrite Hpg. cbn [group]. destruct (joins (a, z, p) _ _) eqn:Ej.
    + destruct (log_step m n a z p Hz H1 H0 H2 Hr) as [_ Hj]. destruct (Hj Ej) as (_ & Ern & Hrn).
      cbv zeta. rewrite (IH fuel x y n a p (z + PAGE_SZ) out) by (done || (by rewrite Ern) || (simpl in Hf; lia)).
      by rewrite Ern.
    + cbv zeta.
      assert (Ern : run_at n a p PAGE_SZ = (map_addr n, PAGE_SZ, map_prot n)) by (unfold run_at; by rewrite Z.eqb_refl, Hz2).
      rewrite (IH fuel x y n a p PAGE_SZ); try done; [ | simpl in Hf; lia | ].
      * rewrite Ern, printed_cons by apply group_nonempty.
        cbn [fmap list_fmap concat]. by rewrite <- app_assoc.
      * rewrite Ern, <- Hz2. by apply one_page.
Qed.

(** The last run goes on at the first page. *)
Definition wraps (rs : list run) : bool :=
  match last rs, rs with Some r, (b, _, q) :: _ => joins r b q | _, _ => false end.

Lemma printed_wraps rs b z q :
  head rs = Some (b, z, q) -> printed rs b q = if wraps rs then removelast rs else rs.
Proof.
  destruct rs as [| r0 rs]; [ done | ]. intros [= ->]. unfold wraps.
  assert (H : forall r, printed (r :: rs) b q
    = if match last (r :: rs) with Some r => joins r b q | None => false end
      then removelast (r :: rs) else r :: rs); [ | apply H ].
  induction rs as [| r1 rs IH]; intros r; [ done | ].
  rewrite printed_cons, IH, last_cons_cons by done. by destruct (last (r1 :: rs)) as [r2 |]; [ destruct (joins r2 b q) | ].
Qed.

(** C37: log_map prints one line for each run of adjacent pages with the same protection, in
    the order of the list: the runs have exactly the pages of the list, and none continues
    the one before it. When the last run continues at the first page of the list, it is not
    printed. *)
Theorem log_map_prints (s : maps) (l : list Z) (fuel : nat)
    (Hs : holds s l) (Hp : page_sized (cells s) l) (Hf : (length l <= fuel)%nat) :
  exists rs, log_map fuel (memory_map s) s
             = Done (concat (line_of <$> (if wraps rs then removelast rs else rs))) s /\
    concat (pages_of <$> rs) = pages (cells s) l /\ separate rs.
Proof.
  destruct (holds_cons _ _ Hs) as [l' ->]. destruct Hs as [[Hn Hd] _ H0].
  pose proof Hd as (m & E & _ & _ & _). destruct (Hp _ m ltac:(left) E) as (Hz & Ha & _).
  exists (runs (pages (cells s) (memory_map s :: l'))).
  split; [ | split; [ apply runs_pages | apply runs_separate ] ].
  assert (Hpg : pages (cells s) (memory_map s :: l') = page_of m :: pages (cells s) l')
    by (unfold pages; cbn [omap list_omap]; by rewrite E).
  rewrite Hpg. unfold runs, page_of.
  destruct (group_head (pages (cells s) l') (map_addr m) PAGE_SZ (map_prot m)) as (z & rs & Eg).
  rewrite <- (printed_wraps _ (map_addr m) z (map_prot m)) by (by rewrite Eg).
  unfold log_map. erewrite L_bind_Done by (by apply read_cell_run).
  erewrite L_bind_Done by (unfold assert_l, truth; by rewrite (proj2 (Z.eqb_neq _ 0))).
  assert (Er : run_at m (map_addr m) (map_prot m) (map_size m) = (map_addr m, PAGE_SZ, map_prot m))
    by (unfold run_at; by rewrite Hz, Z.eqb_refl).
  apply NoDup_cons in Hn as [Hx Hn].
  rewrite (log_loop_run s (memory_map s) m l' fuel _ (memory_map s) m _ _ _ [] E Hd Hx); try done.
  - by rewrite Er.
  - intros w mw Hw. apply Hp. rewrite !elem_of_cons in *. tauto.
  - rewrite Er, <- Hz. by apply one_page.
Qed.
