(* ===== verification/Demo.v ===== *)
(** * Concrete instances

    A kernel that accepts everything, a small disassembler and a process, at which the
    theorems of the development are instantiated. *)

From S2P Require Import Prelude.
From S2P Require Import Pages.
From S2P Require Import Regs.
From S2P Require Import Process.
From S2P Require Import Syscalls.
From S2P Require Import Memory.
From S2P Require Import MemorySpec.
From S2P Require Import Branch.
From S2P Require Import Target.
From S2P Require Import Cflow.
From S2P Require Import CflowSpec.
From S2P Require Import Engine.
From S2P Require Import EngineSpec.
From S2P Require Import Stubs.
From S2P Require Import StubsSpec.

(** Every call returns [raw] and leaves the memory; nothing is refused. *)
Definition demo_kernel (raw : Z) : Kernel :=
  {| k_syscall := fun _ m _ _ => Some (raw, m);
     k_map_refused := fun _ _ _ _ => false;
     k_base_ok := fun _ => true |}.

(** Five opcodes of the processor: [nop], [call rel32], [jmp rel32], [ret], [hlt]. *)
Definition demo_insn (code : list Z) : option cs_insn :=
  match code with
  | [] => None
  | op :: args =>
      if op =? 0x90 then Some (mk_insn (X86_INS_OTHER 0) 1 [] [])
      else if op =? 0xc3 then Some (mk_insn X86_INS_RET 1 [X86_GRP_RET] [])
      else if op =? 0xf4 then Some (mk_insn (X86_INS_OTHER 2) 1 [X86_GRP_PRIVILEGE] [])
      else
        match args with
        | a :: b :: c :: d :: _ =>
            let rel := X86_OP_IMM (5 + sext 32 (le_combine [a; b; c; d])) in
            if op =? 0xe8 then Some (mk_insn X86_INS_CALL 5 [X86_GRP_CALL] [rel])
            else if op =? 0xe9 then Some (mk_insn X86_INS_JMP 5 [X86_GRP_JUMP] [rel])
            else None
        | _ => None
        end
  end.

Definition demo_disassembler : Disassembler := {| cs_decode := fun code _ => demo_insn code |}.

Lemma demo_disassembler_ok : @DisassemblerOk demo_disassembler.
Proof.
  split; simpl.
  - intros [| op [| a [| b [| c [| d rest]]]]] _ i; cbn [demo_insn]; intros E;
      repeat case_match; simplify_eq; simpl; lia.
  - intros [| op args] rest _ i; cbn [demo_insn]; [ done | ].
    destruct (op =? 0x90) eqn:E1; [ intros [= <-]; simpl; by rewrite E1 | ].
    destruct (op =? 0xc3) eqn:E2; [ intros [= <-]; simpl; by rewrite E1, E2 | ].
    destruct (op =? 0xf4) eqn:E3; [ intros [= <-]; simpl; by rewrite E1, E2, E3 | ].
    destruct args as [| a [| b [| c [| d args]]]]; try done.
    destruct (op =? 0xe8) eqn:E4; [ intros [= <-]; simpl; by rewrite E1, E2, E3, E4 | ].
    destruct (op =? 0xe9) eqn:E5; [ intros [= <-]; simpl; by rewrite E1, E2, E3, E4, E5 | done ].
Qed.

(** A memory with [n] pages of protection [prot] from [a]. *)
Definition demo_mem (a : Z) (n : nat) (prot : Z) (content : gmap Z Z) : aspace :=
  mk_aspace (set_pages ∅ a n prot) content.

Lemma demo_mem_has a n prot content x flag :
  a mod PAGE_SZ = 0 -> truth (Z.land prot flag) = true ->
  a <= x < a + Z.of_nat n * PAGE_SZ -> has_prot (demo_mem a n prot content) x flag = true.
Proof.
  intros Ha Hf Hx. unfold has_prot, page_prot. simpl.
  rewrite set_pages_lookup, is_page_of_align by done.
  by destruct (in_range_spec a (Z.of_nat n * PAGE_SZ) x).
Qed.

Lemma demo_mem_mapped a n prot content x :
  a mod PAGE_SZ = 0 -> a <= x < a + Z.of_nat n * PAGE_SZ ->
  is_Some (page_prot (demo_mem a n prot content) x).
Proof.
  intros Ha Hx. unfold page_prot. simpl. rewrite set_pages_lookup, is_page_of_align by done.
  destruct (in_range_spec a (Z.of_nat n * PAGE_SZ) x); [ by eexists | done ].
Qed.

Lemma demo_mem_unmapped a n prot content x :
  a mod PAGE_SZ = 0 -> ~ (a <= x < a + Z.of_nat n * PAGE_SZ) ->
  page_prot (demo_mem a n prot content) x = None.
Proof.
  intros Ha Hx. unfold page_prot. simpl. rewrite set_pages_lookup, is_page_of_align by done.
  by destruct (in_range_spec a (Z.of_nat n * PAGE_SZ) x).
Qed.

Definition demo_state : state_rtime :=
  mk_state 0 0 0 0 0 0 0 0x7008 0x4000 0x202 0 0 0 0 0 0 0 0 0 0 0 0 0 0 None None None 0.

(** 22 and 10 bytes: the lengths of the two trampolines. *)
Definition demo_hook (n : nat) : hook := mk_hook (replicate n 0xcc) (replicate 64 0) (Z.of_nat n) 0 0 0.

Definition demo_table : hashmap := default [] (@init_hashmap index_enum).

Definition demo_dbi (s : state_rtime) (brk : Z) : dbi_instr :=
  mk_dbi true s demo_state (demo_hook 22) (demo_hook 10) 0 demo_table 0x100 0x200 0 0 brk 0 0 0 0
    (mk_persistent 0 0).

Definition demo_proc (m : aspace) (s : state_rtime) (brk : Z) : proc :=
  mk_proc m 0x100 0x200 (demo_dbi s brk) false false 0 [] 0.

Lemma demo_table_ok : @hashmap_ok index_enum demo_table.
Proof.
  intros r Hr. destruct r; solve [ vm_compute; reflexivity | done ].
Qed.

(** The demo kernel allows every RWX request. *)
Lemma demo_allowed raw a n : @rwx_allowed (demo_kernel raw) a n.
Proof. done. Qed.

(** A program at 0x4000: [nop; nop; jmp 0x4100], then [ret] at 0x4100, in RWX pages. *)
Definition demo_code : gmap Z Z :=
  list_to_map [(0x4000, 0x90); (0x4001, 0x90); (0x4002, 0xe9); (0x4003, 0xf9); (0x4004, 0x00);
               (0x4005, 0x00); (0x4006, 0x00); (0x4100, 0xc3)].

Definition demo_text : aspace := demo_mem 0x3000 5 PROT_RWX demo_code.

(** ** The stubs *)

Definition all_fields : list field :=
  [F_rax; F_rbx; F_rcx; F_rdx; F_rsi; F_rdi; F_rbp; F_rsp; F_rip; F_rflags; F_cs; F_ss; F_gs;
   F_es; F_ds; F_fs; F_r8; F_r9; F_r10; F_r11; F_r12; F_r13; F_r14; F_r15; F_null_entry].

Definition field_index (f : field) : nat :=
  default 0%nat (fst <$> list_find (fun g => g = f) all_fields).

(** A layout with the kind of the cell in the low bits of its address. *)
Definition demo_addr (s : slot) : Z :=
  match s with
  | SField f => 4 * Z.of_nat (field_index f)
  | SXmm i => 4 * Z.of_nat i + 1
  | SYmm i => 4 * Z.of_nat i + 2
  | SCurrHook => 3
  end.

Definition demo_slot (a : Z) : option slot :=
  let n := Z.to_nat (a / 4) in
  if a mod 4 =? 0 then SField <$> all_fields !! n
  else if a mod 4 =? 1 then Some (SXmm n)
  else if a mod 4 =? 2 then Some (SYmm n) else Some SCurrHook.

Definition demo_layout : Layout :=
  {| addr_of := demo_addr; slot_at := demo_slot; addr_s_binary := 0x5000000;
     addr__dispatcher := 0x401000; addr_save_mxcsr := 0x402000;
     addr_restore_mxcsr := 0x403000; call_ra := 0xff1d100 |}.

Lemma demo_layout_ok : @LayoutOk demo_layout.
Proof.
  split; [ | done | done ].
  assert (Hd : forall i k, 0 <= k < 4 -> (4 * Z.of_nat i + k) mod 4 = k /\
                                       Z.to_nat ((4 * Z.of_nat i + k) / 4) = i).
  { intros i k Hk. replace (4 * Z.of_nat i + k) with (k + Z.of_nat i * 4) by lia.
    rewrite Z.mod_add, Z.div_add, (Z.mod_small k), (Z.div_small k) by lia.
    split; [ done | by rewrite Z.add_0_l, Nat2Z.id ]. }
  intros [f | i | i |]; simpl; unfold demo_slot; simpl.
  - by destruct f.
  - by destruct (Hd i 1 ltac:(lia)) as [-> ->].
  - by destruct (Hd i 2 ltac:(lia)) as [-> ->].
  - done.
Qed.

Definition demo_selectors : Selectors := {| sel_ok := fun _ _ => true |}.

(** Every instruction is one byte long. *)
Definition demo_assembler : Assembler :=
  {| ks_asm := fun l => Some (replicate (length l) 0x90) |}.

Definition demo_choice : MmapChoice := {| k_choose := fun _ _ => Some 0x20000000 |}.

(** A guest with AVX2 registers, and the stack of the engine at 0x8000. *)
Definition demo_vec : list Z := Z.of_nat <$> seq 1 16.

Definition demo_guest : state_rtime :=
  mk_state 1 2 3 4 5 6 7 0x7008 0x4000 0x246 0x33 0x2b 0 0 0 0 8 9 10 11 12 13 14 15
    None None None 0.

Definition demo_avx_state : state_rtime := demo_state <| avx2 := Some (replicate 16 0) |>.

Definition demo_host : proc :=
  with_dbi (demo_proc (demo_mem 0x7000 1 PROT_RWX ∅) demo_avx_state 0x9000)
    (fun d => d <| host_rsp := 0x8000 |> <| dump_stub := STUB_ADDR_DUMP |>
                <| curr_hook := 0x4002 |>).

Definition demo_machine (c : state_rtime) : machine :=
  mk_machine c demo_vec 0x1f80 0 demo_host.

Lemma demo_stack_room n sp :
  0 <= n -> 0x7000 <= sp - n -> sp <= 0x8000 -> stack_room (mem demo_host) sp n.
Proof.
  intros Hn Hl Hh. split; try lia; intros x Hx; apply demo_mem_has; try done;
    unfold PAGE_SZ; lia.
Qed.

Lemma demo_areas_ok : areas_ok (gstate demo_host).
Proof. split; intros l [= <-]. reflexivity. Qed.
