(* ===== verification/Witnesses.v ===== *)
(** * The properties at concrete inputs *)

From S2P Require Import Prelude.
From S2P Require Import Pages.
From S2P Require Import Regs.
From S2P Require Import Process.
From S2P Require Import Syscalls.
From S2P Require Import SyscallsSpec.
From S2P Require Import Memory.
From S2P Require Import MemorySpec.
From S2P Require Import Branch.
From S2P Require Import Target.
From S2P Require Import TargetSpec.
From S2P Require Import Cflow.
From S2P Require Import CflowSpec.
From S2P Require Import Engine.
From S2P Require Import EngineSpec.
From S2P Require Import Stubs.
From S2P Require Import StubsSpec.
From S2P Require Import SetupSpec.
From S2P Require Import Demo.

#[local] Existing Instance index_enum.
#[local] Existing Instance demo_disassembler.
#[local] Existing Instance demo_disassembler_ok.

(** ** Registers *)

Lemma init_hashmap_ok_witness :
  exists h, init_hashmap = Some h /\ hashmap_ok h /\ length h = length x86_reg_c.
Proof. exact (init_hashmap_ok index_enum_ok). Defined.

Lemma read_reg_value_witness :
  read_reg X86_REG_SP demo_table demo_state = Some (reg_value X86_REG_SP demo_state).
Proof. apply (read_reg_value demo_table demo_state X86_REG_SP); [ exact demo_table_ok | discriminate ]. Defined.

Lemma read_reg_update_reg_witness :
  exists s', update_reg X86_REG_AL demo_table 0x1234 demo_state = Some s' /\
    read_reg X86_REG_AH demo_table s' = Some 0x12.
Proof.
  destruct (read_reg_update_reg demo_table demo_state X86_REG_AL X86_REG_AH 0x1234)
    as (s' & E & R); [ exact demo_table_ok | discriminate | discriminate | ].
  exists s'. split; [ exact E | rewrite R; reflexivity ].
Defined.

(** ** System calls *)


Definition demo_p0 : proc := demo_proc (demo_mem 0x7000 1 PROT_RWX ∅) demo_state 0x9000.
Definition demo_row : frow := mk_row __NR_write __NR_write [AL F_rdi; AL F_rsi; AL F_rdx] [].

Lemma demo_row_in : demo_row ∈ forward_rows.
Proof. apply (list_elem_of_lookup_2 _ 25). reflexivity. Qed.

Lemma forward_rows_spec_witness :
  exists hk p', get_syscall_hook (H := demo_kernel 7) __NR_write = Some hk /\ hk demo_p0 = Ret 0 p' /\
    rax (gstate p') = 7.
Proof.
  destruct (forward_rows_spec (H := demo_kernel 7) demo_row demo_p0) as (hk & Hg & E).
  - exact demo_row_in.
  - repeat split.
  - exists hk. eexists. split; [ exact Hg | ]. rewrite E. split; reflexivity.
Defined.

Lemma forward_rows_conform_witness :
  exists hk, get_syscall_hook (H := demo_kernel 7) __NR_write = Some hk /\
    conforms demo_row = true.
Proof.
  destruct (forward_rows_conform (H := demo_kernel 7) demo_row) as (hk & Hg & _ & Hc).
  - exact demo_row_in.
  - exists hk. split; [ exact Hg | ]. apply Hc. intros Hin. revert Hin.
    apply (bool_decide_unpack _). vm_compute. exact I.
Defined.

Lemma hooks_frame_witness :
  exists p', hook_getpid (H := demo_kernel 7) demo_p0 = Ret 0 p' /\ hook_frame_of false false demo_p0 p'.
Proof.
  eexists. split; [ reflexivity | ].
  eapply (hooks_frame (H := demo_kernel 7) __NR_getpid 0 hook_getpid); reflexivity.
Defined.

Lemma forward_error_rax_witness :
  exists p', (exists hk, get_syscall_hook (H := demo_kernel (- 2)) __NR_write = Some hk /\
                         hk demo_p0 = Ret 0 p') /\ rax (gstate p') = minus1.
Proof.
  destruct (forward_error_rax (H := demo_kernel (- 2)) demo_row demo_p0 2
              (mem demo_p0)) as (hk & p' & Hg & E & Hr & _).
  - exact demo_row_in.
  - repeat split.
  - lia.
  - reflexivity.
  - reflexivity.
  - exists p'. split; [ exists hk; split; [ exact Hg | exact E ] | exact Hr ].
Defined.

(** The break at 0x9000, then at 0x9800, and requests for 0xc000. *)
Definition demo_brk (brk req : Z) : proc :=
  demo_proc (demo_mem 0x7000 1 PROT_RWX ∅) (demo_state <| rdi := req |>) brk.

Lemma hook_brk_aligned_witness :
  exists p', hook_brk (H := demo_kernel 0) (demo_brk 0x9000 0xc000) = Ret 0 p' /\
    vbrk (dbi p') = 0xc000.
Proof.
  destruct (hook_brk_aligned (H := demo_kernel 0) (demo_brk 0x9000 0xc000) eq_refl
              ltac:(simpl; lia) ltac:(simpl; unfold PAGE_SZ; lia)
              ltac:(simpl; unfold PAGE_SZ; lia) eq_refl) as (p' & E & _ & Hv & _).
  exists p'. split; [ exact E | exact Hv ].
Defined.

Lemma hook_brk_unaligned_clobbers_witness :
  exists p', hook_brk (H := demo_kernel 0) (demo_brk 0x9800 0xc000) = Ret 0 p' /\
    byte_at (mem p') 0x9400 = 0.
Proof.
  destruct (hook_brk_unaligned_clobbers (H := demo_kernel 0) (demo_brk 0x9800 0xc000)
              ltac:(simpl; lia) ltac:(simpl; unfold PAGE_SZ; lia)
              eq_refl eq_refl) as (p' & E & _ & Hb).
  exists p'. split; [ exact E | apply Hb; simpl; change (PAGE_ALIGN 0x9800) with 0x9000; lia ].
Defined.

Lemma hook_brk_refuses_witness :
  hook_brk (H := demo_kernel 0) (demo_brk 0x9000 0x8000) = Aborted (demo_brk 0x9000 0x8000).
Proof.
  destruct (hook_brk_refuses (H := demo_kernel 0) (demo_brk 0x9000 0x8000)
              ltac:(simpl; lia) ltac:(simpl; lia)) as [Ha _].
  apply Ha. simpl. lia.
Defined.

(** ** Memory *)

(** Two pages, 0x7000 and 0x8000, readable and writable. *)
Definition demo_rw : aspace := demo_mem 0x7000 2 (Z.lor PROT_READ PROT_WRITE) ∅.
Definition demo_pm : proc := demo_proc demo_rw demo_state 0.

Lemma demo_rw_has flag a n :
  0x7000 <= a -> a + n <= 0x9000 -> flag = PROT_READ \/ flag = PROT_WRITE ->
  range_has flag demo_rw a n.
Proof.
  intros H0 H1 Hf x Hx. apply demo_mem_has; [ done | by destruct Hf as [-> | ->] | ].
  unfold PAGE_SZ. lia.
Qed.

Lemma mem_read_ok_witness :
  exists m', mem_read (H := demo_kernel 0) (replicate 16 1) 0x7ff8 16 demo_pm
    = Ret (8, replicate 16 0) (demo_pm <| mem := m' |>).
Proof.
  destruct (mem_read_ok (H := demo_kernel 0) demo_pm (replicate 16 1) 0x7ff8 16
              ltac:(lia) ltac:(lia) ltac:(lia) ltac:(simpl; lia)
              (demo_rw_has PROT_READ 0x7ff8 16 ltac:(lia) ltac:(lia) (or_introl eq_refl))
              (demo_allowed 0 0x7ff8 16)) as (m' & E & _).
  exists m'. etrans; [ exact E | ]. f_equal.
Defined.

Lemma mem_write_ok_witness :
  exists m', mem_write (H := demo_kernel 0) 0x7ff8 (replicate 16 1) 16 demo_pm
    = Ret 16 (demo_pm <| mem := m' |>).
Proof.
  destruct (mem_write_ok (H := demo_kernel 0) demo_pm 0x7ff8 (replicate 16 1) 16
              ltac:(lia) ltac:(lia) ltac:(lia) ltac:(simpl; lia)
              (demo_rw_has PROT_WRITE 0x7ff8 16 ltac:(lia) ltac:(lia) (or_intror eq_refl))
              (demo_mem_mapped 0x7000 2 _ ∅ (0x7ff8 + 16) eq_refl ltac:(unfold PAGE_SZ; lia))
              (demo_allowed 0 0x7ff8 17)) as (m' & E & _).
  exists m'. exact E.
Defined.

Lemma mem_write_page_end_witness :
  exists m', mem_write (H := demo_kernel 0) 0x8ff0 (replicate 16 1) 16 demo_pm
    = Ret (-1) (demo_pm <| mem := m' |>) /\ byte_at m' 0x8ff0 = 1.
Proof.
  destruct (mem_write_page_end (H := demo_kernel 0) demo_pm 0x8ff0 (replicate 16 1) 16
              ltac:(lia) ltac:(lia) ltac:(lia) ltac:(simpl; lia)
              (demo_rw_has PROT_WRITE 0x8ff0 16 ltac:(lia) ltac:(lia) (or_intror eq_refl))
              eq_refl
              (demo_mem_unmapped 0x7000 2 _ ∅ (0x8ff0 + 16) eq_refl ltac:(unfold PAGE_SZ; lia))
              (demo_allowed 0 0x8ff0 16)) as (m' & E & Hw).
  exists m'. split; [ exact E | rewrite (wr_bytes _ _ _ _ _ _ Hw); reflexivity ].
Defined.

Definition demo_ro : proc := demo_proc (demo_mem 0x7000 1 PROT_READ ∅) demo_state 0.

Lemma mem_write_not_writable_witness :
  mem_write (H := demo_kernel 0) 0x7000 (replicate 16 1) 16 demo_ro = Crashed demo_ro.
Proof.
  exact (mem_write_not_writable (H := demo_kernel 0) demo_ro 0x7000 (replicate 16 1) 16
           ltac:(lia) ltac:(lia) ltac:(lia) ltac:(simpl; lia) eq_refl).
Defined.

(** ** Branches *)

(** The flags of [cmp 1, 2] on 64 bits: CF and SF. *)
Definition demo_cmp : proc := demo_proc demo_rw (demo_state <| rflags := 0x81 |>) 0.

Lemma demo_cmp_flags : cmp_flags 64 1 2 0x81.
Proof. split; reflexivity. Qed.

Lemma is_jmp_taken_cmp_witness :
  is_jmp_taken X86_INS_JB demo_cmp = Ret true demo_cmp /\
  is_jmp_taken X86_INS_JGE demo_cmp = Ret false demo_cmp.
Proof.
  split.
  - apply (is_jmp_taken_cmp 64 1 2 X86_INS_JB true demo_cmp); try lia; try reflexivity.
    + exact demo_table_ok.
    + exact demo_cmp_flags.
  - apply (is_jmp_taken_cmp 64 1 2 X86_INS_JGE false demo_cmp); try lia; try reflexivity.
    + exact demo_table_ok.
    + exact demo_cmp_flags.
Defined.

Lemma is_jmp_taken_cond_witness : is_jmp_taken X86_INS_JS demo_cmp = Ret true demo_cmp.
Proof. rewrite (is_jmp_taken_cond X86_INS_JS demo_cmp demo_table_ok). reflexivity. Defined.

Lemma sign_extend_never_extends_witness : sign_extend 1 0x80 = Some 0x80.
Proof. apply (sign_extend_never_extends 1 0x80); [ by left | lia ]. Defined.

(** ** Branch targets *)

Definition demo_jmp : cs_insn := mk_insn X86_INS_JMP 5 [X86_GRP_JUMP] [X86_OP_IMM 0xfe].

Definition demo_at (rip0 rax0 : Z) : proc :=
  demo_proc demo_text (demo_state <| rip := rip0 |> <| rax := rax0 |>) 0.

Lemma demo_text_has flag a n :
  0x3000 <= a -> a + n <= 0x8000 -> truth (Z.land PROT_RWX flag) = true ->
  range_has flag demo_text a n.
Proof. intros H0 H1 Hf x Hx. apply demo_mem_has; [ done | done | unfold PAGE_SZ; lia ]. Qed.

Lemma eval_target_refines_witness :
  exists p', __eval_target (H := demo_kernel 0) demo_jmp 0x4002 (demo_at 0x4002 0) = Ret 0x4100 p'.
Proof.
  exists (demo_at 0x4002 0).
  exact (eval_target_refines (H := demo_kernel 0) BJump demo_jmp (0, 0) (demo_at 0x4002 0)
           demo_table_ok ltac:(unfold is_u64; simpl; lia) ltac:(unfold is_u64; simpl; lia)
           eq_refl eq_refl).
Defined.

(** [getpid] at a system call instruction of two bytes. *)
Definition demo_sys : cs_insn := mk_insn X86_INS_SYSCALL 2 [X86_GRP_INT] [].

Lemma eval_target_syscall_witness :
  exists p', __eval_target (H := demo_kernel 7) demo_sys 0x4000 (demo_at 0x4000 39) = Ret 0x4002 p'.
Proof.
  eexists.
  exact (proj1 (eval_target_syscall (H := demo_kernel 7) demo_sys 0x4000 0 hook_getpid
                  (demo_at 0x4000 39) _ eq_refl
                  (conj eq_refl (conj eq_refl (conj eq_refl eq_refl))) eq_refl eq_refl)).
Defined.

Lemma eval_target_unknown_syscall_witness :
  __eval_target (H := demo_kernel 7) demo_sys 0x4000 (demo_at 0x4000 999)
  = Ret 0x4000 ((demo_at 0x4000 999) <| curr_syscall := true |>).
Proof. exact (eval_target_unknown_syscall (H := demo_kernel 7) demo_sys 0x4000 (demo_at 0x4000 999) eq_refl eq_refl). Defined.

Definition demo_hlt : cs_insn := mk_insn (X86_INS_OTHER 2) 1 [X86_GRP_PRIVILEGE] [].

Lemma eval_target_unhandled_witness :
  __eval_target (H := demo_kernel 7) demo_hlt 0x4000 (demo_at 0x4000 0) = Exited 1 (demo_at 0x4000 0).
Proof.
  apply (eval_target_unhandled (H := demo_kernel 7) demo_hlt 0x4000 (demo_at 0x4000 0)).
  intros g [-> | []%elem_of_nil]%elem_of_cons _. by left.
Defined.

(** [jmp [0x7000]] *)
Definition demo_jmp_abs : cs_insn :=
  mk_insn X86_INS_JMP 7 [X86_GRP_JUMP]
    [X86_OP_MEM X86_REG_INVALID X86_REG_INVALID X86_REG_INVALID 1 0x7000].

Lemma eval_target_no_base_witness :
  __eval_target (H := demo_kernel 7) demo_jmp_abs 0x4000 (demo_at 0x4000 0)
  = Ret minus1 (demo_at 0x4000 0).
Proof.
  exact (eval_target_no_base (H := demo_kernel 7) demo_jmp_abs X86_REG_INVALID X86_REG_INVALID 1 0x7000
           (demo_at 0x4000 0) demo_table_ok eq_refl eq_refl eq_refl ltac:(discriminate)).
Defined.

(** [ret 16] *)
Definition demo_ret16 : cs_insn :=
  mk_insn X86_INS_RET 3 [X86_GRP_RET] [X86_OP_IMM 16].

Lemma eval_target_ret_imm_witness :
  exists p', __eval_target (H := demo_kernel 7) demo_ret16 0x4000 (demo_at 0x4000 0) = Ret 0 p' /\
    rsp (gstate p') = 0x7010.
Proof.
  destruct (eval_target_ret_imm (H := demo_kernel 7) demo_ret16 0 (0, 0) (demo_at 0x4000 0)
              demo_table_ok ltac:(unfold is_u64; simpl; lia) eq_refl eq_refl (conj eq_refl eq_refl) eq_refl)
    as (p' & s' & m' & E & _ & Hr & _).
  exists p'. split; [ exact E | exact Hr ].
Defined.

(** [call [rsp]] *)
Definition demo_call_rsp : cs_insn :=
  mk_insn X86_INS_CALL 3 [X86_GRP_CALL]
    [X86_OP_MEM X86_REG_INVALID X86_REG_RSP X86_REG_INVALID 1 0].

Lemma eval_target_call_rsp_witness :
  exists p', __eval_target (H := demo_kernel 7) demo_call_rsp 0x4000 (demo_at 0x4000 0) = Ret 0x4003 p'.
Proof.
  destruct (eval_target_call_rsp (H := demo_kernel 7) demo_call_rsp 1 0 (0, 0) (demo_at 0x4000 0)
              demo_table_ok ltac:(unfold is_u64; simpl; lia) ltac:(simpl; lia) eq_refl eq_refl eq_refl
              (demo_text_has PROT_WRITE 0x7000 8 ltac:(lia) ltac:(lia) eq_refl)
              (demo_text_has PROT_READ 0x7000 8 ltac:(lia) ltac:(lia) eq_refl) eq_refl)
    as (p' & s' & m' & E & _).
  exists p'. exact E.
Defined.

(** ** The end of the block *)

Lemma demo_sweep : sweep demo_text 0x4000 2.
Proof.
  apply (sweep_next _ 0x4000 (mk_insn (X86_INS_OTHER 0) 1 [] []) 1); [ reflexivity | reflexivity | ].
  apply (sweep_next _ 0x4001 (mk_insn (X86_INS_OTHER 0) 1 [] []) 0); [ reflexivity | reflexivity | ].
  apply (sweep_here _ 0x4002 demo_jmp); reflexivity.
Qed.

Lemma opcodes_cflow_finds_witness :
  exists p', opcodes_cflow (H := demo_kernel 0) 10 0x4000 true (demo_at 0x4000 0) = Ret 2 p'.
Proof.
  destruct (opcodes_cflow_finds (H := demo_kernel 0) 10 0x4000 2 (demo_at 0x4000 0) demo_sweep
              ltac:(lia) ltac:(unfold PAGE_SZ; lia) ltac:(lia)
              (demo_text_has PROT_READ 0x4000 (2 + PAGE_SZ) ltac:(lia) ltac:(unfold PAGE_SZ; lia) eq_refl)
              (demo_allowed 0 0x4000 (2 + PAGE_SZ)) ltac:(lia)) as (m' & c & E & _).
  eexists. exact E.
Defined.

Lemma insn_len_ok_witness :
  exists p', insn_len (H := demo_kernel 0) 0x4002 (demo_at 0x4000 0) = Ret 5 p'.
Proof.
  destruct (insn_len_ok (H := demo_kernel 0) 0x4002 (demo_at 0x4000 0) ltac:(lia) ltac:(reflexivity)
              (demo_text_has PROT_READ 0x4002 INSTRUCTION_MAX_SZ ltac:(lia) ltac:(reflexivity || (vm_compute; congruence)) eq_refl)
              (demo_allowed 0 0x4002 INSTRUCTION_MAX_SZ)) as (m' & E & _).
  eexists. exact E.
Defined.

(** ** The engine *)

Lemma demo_hook_wf n j : (0 < n <= 64)%nat -> hook_wf ((demo_hook n) <| jmp := j |>).
Proof. intros Hn. split; simpl; rewrite ?length_replicate; unfold PAGE_SZ; lia. Qed.

Lemma write_restore_hook_witness :
  exists p1 p2, write_hook (H := demo_kernel 0) Dump
                  (set_hook Dump (fun h => h <| jmp := 0x4ffa |>) (demo_at 0x4000 0)) = Ret 0 p1 /\
    restore_bytes (H := demo_kernel 0) Dump p1 = Ret 0 p2.
Proof.
  destruct (write_restore_hook (HK := demo_kernel 0) Dump
              (set_hook Dump (fun h => h <| jmp := 0x4ffa |>) (demo_at 0x4000 0)))
    as (p1 & p2 & E1 & E2 & _).
  - apply (demo_hook_wf 22 0x4ffa). lia.
  - split; simpl; try lia.
    + apply demo_text_has; [ lia | lia | reflexivity ].
    + apply demo_mem_mapped; [ reflexivity | unfold PAGE_SZ; lia ].
    + apply demo_allowed.
  - exists p1, p2. split; [ exact E1 | exact E2 ].
Defined.

Lemma demo_can_instrument :
  can_instrument (HK := demo_kernel 0) 10 (demo_at 0x4002 0) 0x4000 2.
Proof.
  split; simpl; try lia; try (unfold PAGE_SZ; lia).
  - apply (demo_hook_wf 22 0). lia.
  - apply (demo_hook_wf 10 0). lia.
  - exact demo_sweep.
  - apply demo_text_has; [ lia | unfold PAGE_SZ; lia | reflexivity ].
  - apply demo_allowed.
Qed.

Lemma instrument_request_ok_witness :
  exists p', instrument_request (H := demo_kernel 0) 10 0x4000 (demo_at 0x4002 0) = Ret 0 p' /\
    jmp (dump (dbi p')) = 0x4002 /\ jmp (restore (dbi p')) = 0x3ff6.
Proof.
  destruct (instrument_request_ok (HK := demo_kernel 0) 10 (demo_at 0x4002 0) 0x4000 2
              demo_can_instrument eq_refl eq_refl) as (p' & E & _ & _ & Hd & Hr).
  exists p'. split; [ exact E | split; [ exact Hd | exact Hr ] ].
Defined.

Lemma eval_target_decodes_witness :
  exists p', eval_target (H := demo_kernel 0) 0x4002 (demo_at 0x4002 0) = Ret 0x4100 p'.
Proof.
  destruct (eval_target_decodes (HK := demo_kernel 0) 0x4002 (demo_at 0x4002 0)
              ltac:(lia) ltac:(reflexivity)
              (demo_text_has PROT_READ 0x4002 16 ltac:(lia) ltac:(lia) eq_refl)
              (demo_allowed 0 0x4002 16)) as (m' & _ & E).
  eexists. etrans; [ exact E | reflexivity ].
Defined.

(** An instrumented process at the first block, and the step to the block at 0x4100. *)
Lemma demo_instrumented :
  exists p, instrumented (HK := demo_kernel 0) demo_text p /\ core p = core (demo_at 0x4002 0) /\
            jmp (dump (dbi p)) = 0x4002.
Proof.
  destruct (instrument_request_run (HK := demo_kernel 0) 10 (demo_at 0x4002 0) 0x4000 2
              demo_can_instrument eq_refl eq_refl) as (p & E & Hc & Hi & Hd & _).
  exists p. split; [ exact Hi | split; [ exact Hc | exact Hd ] ].
Qed.

Lemma demo_sweep_ret m : rwx_grow demo_text m -> sweep m 0x4100 0.
Proof.
  intros G. apply (sweep_ext demo_text); [ apply G | ].
  by apply (sweep_here _ 0x4100 (mk_insn X86_INS_RET 1 [X86_GRP_RET] [])).
Qed.

Lemma demo_jmp_eval q :
  __eval_target (H := demo_kernel 0) demo_jmp 0x4002 q = Ret (u64 (0xfe + rip (gstate q))) q.
Proof. reflexivity. Qed.

(** The branch of the first block, in any process with its memory and registers. *)
Lemma demo_branch p :
  rwx_grow demo_text (mem p) -> rip (gstate p) = 0x4002 ->
  exists m' c, rwx_grow demo_text m' /\
    eval_target (H := demo_kernel 0) 0x4002 p
    = Ret 0x4100 (with_dbi (p <| mem := m' |>) (fun d => d <| count := c |>)).
Proof.
  intros G Hr.
  destruct (eval_target_run (HK := demo_kernel 0) 0x4002 p) as (m' & G' & E); try (unfold INSTRUCTION_MAX_SZ; lia).
  { eapply range_has_grow; [ exact G | left | ].
    apply demo_text_has; [ lia | unfold INSTRUCTION_MAX_SZ; lia | reflexivity ]. }
  { apply demo_allowed. }
  exists m'. eexists. split; [ by etrans | ]. rewrite E.
  rewrite (mem_bytes_ext (mem p) demo_text) by (intros x _; apply G).
  change (cs_decode (mem_bytes demo_text 0x4002 16) 0) with (Some demo_jmp). cbv iota.
  etrans; [ apply demo_jmp_eval | ].
  change (rip (gstate (with_dbi _ _))) with (rip (gstate p)). by rewrite Hr.
Qed.

Lemma demo_next p q :
  instrumented (HK := demo_kernel 0) demo_text p -> core p = core (demo_at 0x4002 0) ->
  rwx_grow demo_text (mem q) -> dump (dbi q) = dump (dbi p) ->
  restore (dbi q) = restore (dbi p) -> curr_syscall q = false ->
  can_instrument (HK := demo_kernel 0) 10 q 0x4100 0.
Proof.
  intros Hi Hc G Hd Hr Hf. destruct (core_hooks _ _ Hc) as (_ & _ & _ & _ & Hl & _).
  simpl in Hl. split; rewrite ?Hd, ?Hr, ?Hl, ?Hf; try lia; try (unfold PAGE_SZ; lia); try apply Hi.
  - by apply demo_sweep_ret.
  - eapply range_has_grow; [ exact G | left | ].
    apply demo_text_has; [ lia | unfold PAGE_SZ; lia | reflexivity ].
  - apply demo_allowed.
Qed.

Lemma dispatcher_step_witness :
  exists p p', instrumented (HK := demo_kernel 0) demo_text p /\
    _dispatcher (H := demo_kernel 0) test 10 p = Ret () p' /\
    rip (gstate p') = 0x40f6 /\ jmp (restore (dbi p')) = 0x40f6.
Proof.
  destruct demo_instrumented as (p & Hi & Hc & Hd).
  destruct (core_rest _ _ Hc) as (Hst & _ & _ & _ & _ & Ht). destruct (core_hooks _ _ Hc) as (_ & _ & Hu1 & _ & Hl & Hu2).
  destruct (dispatcher_step (HK := demo_kernel 0) 10 demo_text p Hi (conj eq_refl eq_refl) Ht)
    as (m & G & Hstep).
  assert (Hrip : rip (gstate (entered p m)) = 0x4002)
    by (change (rip (state (dbi p)) = 0x4002); rewrite Hst; reflexivity).
  destruct (demo_branch (entered p m) G Hrip) as (m' & c & G' & Ev).
  rewrite Hd in Hstep.
  match type of Ev with _ = Ret _ ?q0 => set (q := q0) in Ev end.
  destruct (Hstep 0x4100 q 0 Ev ltac:(discriminate)
              (demo_next p q Hi Hc G' eq_refl eq_refl (in_flag _ _ Hi)) Hu1 Hu2
              (conj eq_refl eq_refl)) as (p' & E & R).
  exists p, p'. split; [ exact Hi | split; [ exact E | ] ].
  rewrite (rs_state _ _ _ R), (rs_entry _ _ _ R). simpl in *. rewrite Hl. split; reflexivity.
Defined.

(** ** The stubs *)

#[local] Existing Instance demo_layout.
#[local] Existing Instance demo_layout_ok.
#[local] Existing Instance demo_selectors.
#[local] Existing Instance demo_assembler.
#[local] Existing Instance demo_choice.

Lemma dump_stub_records_witness :
  exists text g1 m, craft_hook_text (dbi demo_host) = Some text /\
    run text g1 = Some (m, Some 0x401000) /\ rdx (gstate (host m)) = 4 /\
    rip (gstate (host m)) = 0x4002 /\ avx2 (gstate (host m)) = Some demo_vec.
Proof.
  destruct (dump_stub_records (demo_machine demo_guest) _ eq_refl demo_areas_ok eq_refl
              (demo_stack_room 16 0x8000 ltac:(lia) ltac:(lia) ltac:(lia)) ltac:(reflexivity))
    as (g1 & m & mm & _ & E & Hm & _).
  eexists _, g1, m. split; [ reflexivity | ]. split; [ exact E | ]. rewrite Hm.
  split; [ reflexivity | split; reflexivity ].
Defined.

Lemma demo_selectors_ok s :
  0 <= es s < 2 ^ 16 -> 0 <= ss s < 2 ^ 16 -> 0 <= ds s < 2 ^ 16 -> selectors_ok s.
Proof. intros H1 H2 H3. by repeat (apply Forall_cons_2; [ done | ]). Qed.

(** The engine about to resume the guest. *)
Definition demo_resuming : machine := demo_machine (demo_guest <| rsp := 0x7f00 |>).

Lemma demo_resuming_room : stack_room (mem (host demo_resuming)) (reg demo_resuming F_rsp) 16.
Proof.
  replace (reg demo_resuming F_rsp) with 0x7f00 by reflexivity. apply demo_stack_room; lia.
Qed.

Lemma restore_stub_restores_witness :
  exists text m1 m2, craft_restore_stub_text (dbi demo_host) = Some text /\
    run text demo_resuming = Some (m1, Some 0x4000) /\
    run restore_hook_text m1 = Some (m2, None) /\ reg m2 F_rsp = 0x7008 /\
    vec m2 = replicate 16 0.
Proof.
  destruct (restore_stub_restores demo_resuming _ eq_refl demo_areas_ok eq_refl demo_resuming_room
              ltac:(reflexivity)
              (demo_selectors_ok demo_avx_state ltac:(simpl; lia) ltac:(simpl; lia) ltac:(simpl; lia))
              ltac:(done) ltac:(done))
    as (m1 & m2 & mm & E1 & E2 & Hr & _ & Hv & _).
  eexists _, m1, m2. split; [ reflexivity | ]. split; [ exact E1 | ]. split; [ exact E2 | ].
  split; [ | exact Hv ]. rewrite Hr; [ reflexivity | right; left ].
Defined.

(** From the guest through the dispatcher, which moves the instruction pointer to 0x3ff6,
    and back. *)
Lemma stub_round_trip_witness :
  exists g1 m h dt rt m1 m2,
    run (dump_hook_text STUB_ADDR_DUMP) (demo_machine demo_guest)
    = Some (g1, Some STUB_ADDR_DUMP) /\
    run dt g1 = Some (m, Some 0x401000) /\ run rt h = Some (m1, Some 0x3ff6) /\
    run restore_hook_text m1 = Some (m2, None) /\ reg m2 F_rax = 1 /\ reg m2 F_r15 = 15 /\
    vec m2 = demo_vec.
Proof.
  destruct (dump_stub_run (demo_machine demo_guest) _ eq_refl demo_areas_ok eq_refl
              (demo_stack_room 16 0x8000 ltac:(lia) ltac:(lia) ltac:(lia)) ltac:(reflexivity))
    as (g1 & m & mm & E1 & E2 & Hm & Hb & _).
  set (h := mk_machine (demo_guest <| rsp := 0x7f00 |>) demo_vec 0 (mxcsr_var m)
              (with_state (host m) (fun s => s <| rip := 0x3ff6 |>))).
  assert (Hroom : stack_room (mem (host h)) (reg h F_rsp) 16).
  { replace (reg h F_rsp) with 0x7f00 by reflexivity.
    replace (mem (host h)) with mm by (unfold h; simpl; by rewrite Hm).
    destruct (demo_stack_room 16 0x7f00 ltac:(lia) ltac:(lia) ltac:(lia)) as [S1 S2 S3 S4].
    split; [ done | done | intros x Hx | intros x Hx ];
      rewrite (has_prot_ext mm (mem demo_host)) by (apply Hb); auto. }
  assert (Hrt : craft_restore_stub_text (dbi (host h)) = craft_restore_stub_text (dbi demo_host))
    by (unfold h; simpl; by rewrite Hm).
  assert (Hseg : forall f, f ∈ [F_cs; F_fs; F_gs] -> reg h f = reg (demo_machine demo_guest) f).
  { intros f Hf. repeat (apply elem_of_cons in Hf as [-> | Hf]; [ reflexivity | ]).
    by apply not_elem_of_nil in Hf. }
  destruct (stub_round_trip (demo_machine demo_guest) g1 m h 0x3ff6 _ _ demo_areas_ok eq_refl
              (demo_stack_room 16 0x8000 ltac:(lia) ltac:(lia) ltac:(lia)) ltac:(reflexivity)
              ltac:(done)
              (demo_selectors_ok demo_guest ltac:(simpl; lia) ltac:(simpl; lia) ltac:(simpl; lia))
              eq_refl E1 E2 eq_refl eq_refl
              Hseg
              eq_refl Hroom ltac:(reflexivity) Hrt)
    as (m1 & m2 & F1 & F2 & Hr & _ & Hv & _).
  do 5 eexists. exists m1, m2. split; [ exact E1 | ]. split; [ exact E2 | ].
  split; [ exact F1 | ]. split; [ exact F2 | ].
  rewrite !Hr by (apply (bool_decide_unpack _); by vm_compute).
  split; [ reflexivity | split; [ reflexivity | exact Hv ] ].
Defined.

(** ** The setup *)

Definition demo_start : proc :=
  with_dbi (demo_at 0x4000 0) (fun d => d <| instrumented_fs := 0 |>).

Definition demo_code_of (l : option (list asm)) : list Z :=
  replicate (length (default [] l)) 0x90.

Definition demo_cd : list Z :=
  demo_code_of (craft_hook_text ((dbi demo_start) <| host_rsp := 0x20028000 |>)).
Definition demo_cr : list Z := demo_code_of (craft_restore_stub_text (dbi demo_start)).

Lemma demo_setup_ready :
  setup_ready (HK := demo_kernel 0) demo_start 0x20000000 demo_cd demo_cr [0x90; 0x90; 0x90] [0x90].
Proof.
  split; try reflexivity.
  - split; [ reflexivity | unfold STACK_SZ; lia ].
  - intros a [-> | ->]; left; unfold LENGTH_STUB, STUB_ADDR_DUMP, STUB_ADDR_RESTORE; lia.
  - done.
  - by vm_compute.
  - simpl. lia.
  - split; reflexivity.
Qed.

Lemma demo_first_block : first_block (HK := demo_kernel 0) 10 demo_start 0x20000000 0x4000 2 1.
Proof.
  split; try lia; try (unfold PAGE_SZ; lia).
  - exact demo_sweep.
  - apply demo_text_has; [ lia | unfold PAGE_SZ; lia | reflexivity ].
  - apply demo_allowed.
  - intros lo len Hin. left.
    repeat (apply elem_of_cons in Hin as [[= -> ->] | Hin]; [ vm_compute; congruence | ]).
    by apply not_elem_of_nil in Hin.
Qed.

Lemma instrument_ok_witness :
  exists p1 p2, instrument (H := demo_kernel 0) 10 0x4000 demo_start = Ret () p2 /\
    instrumented (HK := demo_kernel 0) (mem p1) p2 /\ rip (gstate p2) = 0x4000 /\
    jmp (dump (dbi p2)) = 0x4002.
Proof.
  destruct (instrument_ok (HK := demo_kernel 0) 10 0x4000 0x20000000 2 demo_start _ _ _ _
              demo_setup_ready eq_refl eq_refl eq_refl demo_first_block)
    as (p1 & p2 & _ & _ & _ & _ & E & Hi & Hs & Hj & _).
  exists p1, p2. split; [ exact E | ]. split; [ exact Hi | ]. split; [ | exact Hj ].
  rewrite Hs. reflexivity.
Defined.

Lemma instrument_avx512_witness :
  exists p', instrument (H := demo_kernel 0) 10 0x4000
    (with_state demo_start (fun s => s <| avx512 := Some [] |>)) = Exited 255 p'.
Proof.
  exact (instrument_avx512 (HK := demo_kernel 0) 10 0x4000
    (with_state demo_start (fun s => s <| avx512 := Some [] |>)) [] eq_refl eq_refl eq_refl).
Defined.

Lemma exec_binary_starts_witness :
  exists m', run (exec_binary_text 0x4000 0x7f00) (demo_machine demo_guest) = Some (m', Some 0x4000) /\
    reg m' F_r15 = 0 /\ reg m' F_rsp = 0x7f00.
Proof.
  destruct (exec_binary_starts (demo_machine demo_guest) 0x4000 0x7f00
              (demo_stack_room 16 0x7f00 ltac:(lia) ltac:(lia) ltac:(lia)) ltac:(lia) ltac:(done))
    as (m' & mm & E & Hc & Hs & _).
  exists m'. split; [ exact E | ]. split; [ | exact Hs ].
  apply Hc. apply (bool_decide_unpack _). by vm_compute.
Defined.
