(* ===== verification/LoadWitnesses.v ===== *)
(** * More properties at concrete inputs

    The termination and progress theorems, the loader, the guest stack and the descriptor
    list. *)

From S2P Require Import Prelude.
From S2P Require Import Pages.
From S2P Require Import Regs.
From S2P Require Import Process.
From S2P Require Import Syscalls.
From S2P Require Import Memory.
From S2P Require Import MemorySpec.
From S2P Require Import Branch.
From S2P Require Import Target.
From S2P Require Import Cflow.
From S2P Require Import CflowSpec.
From S2P Require Import Engine.
From S2P Require Import EngineSpec.
From S2P Require Import ProgressSpec.
From S2P Require Import TerminationSpec.
From S2P Require Import Stubs.
From S2P Require Import StubsSpec.
From S2P Require Import SetupSpec.
From S2P Require Import Elf.
From S2P Require Import Stack.
From S2P Require Import StackSpec.
From S2P Require Import Loader.
From S2P Require Import LoaderSpec.
From S2P Require Import BinarySpec.
From S2P Require Import ImageSpec.
From S2P Require Import ElfSpec.
From S2P Require Import Maps.
From S2P Require Import MapsSpec.
From S2P Require Import Log.
From S2P Require Import LogMapSpec.
From S2P Require Import Demo.

Definition plain_kernel : Kernel := demo_kernel 0.

#[local] Existing Instance plain_kernel.
#[local] Existing Instance index_enum.
#[local] Existing Instance demo_disassembler.
#[local] Existing Instance demo_disassembler_ok.
#[local] Existing Instance demo_layout.
#[local] Existing Instance demo_assembler.
#[local] Existing Instance demo_choice.

(** ** Termination *)

Definition demo_here : proc := demo_proc demo_text demo_state 0.

Lemma copies_terminate_witness :
  mem_read [] 0x3000 0x5000 demo_here <> OutOfFuel /\
  mem_write 0xffffffffffffff00 [] 0x2345 demo_here <> OutOfFuel.
Proof.
  split.
  - exact (proj1 (copies_terminate demo_here 0 0x3000 [] 0x5000 ltac:(lia))).
  - exact (proj2 (copies_terminate demo_here 0xffffffffffffff00 0 [] 0x2345 ltac:(lia))).
Defined.

Lemma sweep_terminates_witness : opcodes_cflow (Z.to_nat 0x6000) 0x7000 true demo_here <> OutOfFuel.
Proof.
  assert (Hs : Z.of_nat (size (prots (mem demo_here))) = 5) by (vm_compute; reflexivity).
  apply (sweep_terminates (Z.to_nat 0x6000) 0x7000 true demo_here); rewrite Hs.
  - reflexivity.
  - rewrite Z2Nat.id by lia. reflexivity.
Defined.

(** ** Progress: [nop; nop; jmp 0x4000] at 0x4000 *)

Definition loop_code : gmap Z Z :=
  list_to_map [(0x4000, 0x90); (0x4001, 0x90); (0x4002, 0xe9); (0x4003, 0xf9); (0x4004, 0xff);
               (0x4005, 0xff); (0x4006, 0xff)].

Definition loop_text : aspace := demo_mem 0x3000 5 PROT_RWX loop_code.
Definition loop_jmp : cs_insn := mk_insn X86_INS_JMP 5 [X86_GRP_JUMP] [X86_OP_IMM (-2)].
Definition loop_regs (k : nat) : state_rtime := demo_state <| rip := 0x4002 |> <| rcx := Z.of_nat k |>.
Definition loop_proc : proc := demo_proc loop_text (loop_regs 0) 0.

Lemma loop_text_has a n :
  0x3000 <= a -> a + n <= 0x8000 -> range_has PROT_READ loop_text a n.
Proof. intros H0 H1 x Hx. apply demo_mem_has; [ done | done | unfold PAGE_SZ; lia ]. Qed.

Lemma loop_tight : tight_loop 10 loop_text 0x4000 2 10.
Proof.
  split; try done.
  - apply (sweep_next _ 0x4000 (mk_insn (X86_INS_OTHER 0) 1 [] []) 1); [ reflexivity | reflexivity | ].
    apply (sweep_next _ 0x4001 (mk_insn (X86_INS_OTHER 0) 1 [] []) 0); [ reflexivity | reflexivity | ].
    apply (sweep_here _ 0x4002 loop_jmp); reflexivity.
  - exists loop_jmp, [], (-2). split_and!; reflexivity.
  - apply loop_text_has; [ lia | unfold PAGE_SZ; lia ].
Qed.

Lemma loop_at_hook : exists p, at_hook 10 loop_text 0x4000 2 p /\ bbl_count p = 0.
Proof.
  assert (Hw : forall n, (0 < n <= 64)%nat -> hook_wf (demo_hook n)).
  { intros n Hn. split; simpl; rewrite ?length_replicate; unfold PAGE_SZ; lia. }
  assert (Hci : can_instrument 10 loop_proc 0x4000 2).
  { destruct loop_tight as [H1 _ H2 H3 H4 H5 H6 H7].
    split; try done; apply Hw; lia. }
  destruct (instrument_request_run 10 loop_proc 0x4000 2 Hci eq_refl eq_refl)
    as (p & E & Hc & Hi & Hd & _).
  destruct (core_rest _ _ Hc) as (Hst & _ & _ & Hb & _ & Ht).
  destruct (core_hooks _ _ Hc) as (_ & _ & _ & _ & Hl & _).
  exists p. split; [ | exact Hb ]. split.
  - exists loop_text. split; [ reflexivity | exact Hi ].
  - exact Hd.
  - change (rip (state (dbi p)) = 0x4002). by rewrite Hst.
  - split; reflexivity.
  - split; reflexivity.
  - by rewrite Ht.
  - rewrite Hl. exact loop_tight.
Qed.

(** Three thousand million rounds, after which the [int] that counts them has wrapped. *)
Lemma loop_progress_witness :
  exists p p', rounds 10 loop_regs (Z.to_nat 3000000000) p p' /\ bbl_count p' = - 1294967296.
Proof.
  destruct loop_at_hook as (p & Hp & Hc).
  destruct (loop_progress 10 loop_text 0x4000 2 loop_regs (Z.to_nat 3000000000) p (fun _ => eq_refl) Hp
              ltac:(by rewrite Hc)) as (p' & Hr & _ & Hb).
  exists p, p'. split; [ exact Hr | ]. rewrite Hb, Hc, Z2Nat.id by lia. reflexivity.
Defined.

(** ** The segment loader *)

Definition demo_globals : Globals := {| addr__random := 0x600000; addr_s_arch := 0x600008 |}.

(** Bytes of a 16-bit word and of a 64-bit word. *)
Definition w16 (v : Z) : list Z := le_split 2 v.
Definition w32 (v : Z) : list Z := le_split 4 v.
Definition w64 (v : Z) : list Z := le_split 8 v.

(** An ELF header of type [t] with [n] program headers after it, and a program header. *)
Definition demo_ehdr (t n : Z) : list Z :=
  [0x7f; 0x45; 0x4c; 0x46] ++ replicate 12 0 ++ w16 t ++ w16 62 ++ w32 1 ++ w64 0x401000
  ++ w64 64 ++ w64 0 ++ w32 0 ++ w16 64 ++ w16 56 ++ w16 n ++ w16 64 ++ w16 0 ++ w16 0.

Definition demo_phdr (t off vaddr : Z) : list Z :=
  w32 t ++ w32 4 ++ w64 off ++ w64 vaddr ++ w64 vaddr ++ w64 2 ++ w64 2 ++ w64 1.

(** The file "a" asks for the interpreter "b", which has none; "c" asks for itself. *)
Definition file_a : list Z := demo_ehdr 2 1 ++ demo_phdr 3 120 0 ++ [98; 0].
Definition file_b : list Z := demo_ehdr 2 0.
Definition file_c : list Z := demo_ehdr 2 1 ++ demo_phdr 3 120 0 ++ [99; 0].

(** The file "f", a program of two segments, the second with 16 bytes of data and zeros. *)
Definition text_phdr : Elf64_Phdr := mk_phdr PT_LOAD 5 0 0x400000 0x200 0x200.
Definition zeros_phdr : Elf64_Phdr := mk_phdr PT_LOAD 6 0x210 0x401210 0x10 0x2000.

Definition file_f : list Z :=
  demo_ehdr 2 2 ++ phdr_bytes 0x400000 0x1000 text_phdr ++ phdr_bytes 0x401210 0x1000 zeros_phdr ++ replicate (Z.to_nat 0x160) 0
  ++ replicate 16 7.

Definition demo_os : Machine :=
  {| h_open := fun n s => if negb (n <? 1021)%nat then None
                          else (fun f => (3 + Z.of_nat n, f)) <$>
                            (if bool_decide (s = [97]) then Some file_a
                             else if bool_decide (s = [98]) then Some file_b
                             else if bool_decide (s = [99]) then Some file_c
                             else if bool_decide (s = [102]) then Some file_f else None);
     h_random := fun n _ => if negb (n <? 1021)%nat then None else Some 0x7f12345678;
     cpu_sse := true; cpu_avx2 := true; cpu_avx512f := false;
     cs_open_ok := true; cs_malloc_ok := true |}.

#[local] Existing Instance demo_globals.
#[local] Existing Instance demo_os.

Lemma map_binary_well_formed_witness :
  exists b p', map_binary 2 0 [97] None demo_here = Ret (Some b) p' /\ wf_binary b /\
    interp b <> None /\ exec_entry b = 0x401000.
Proof.
  assert (E : exists b p', map_binary 2 0 [97] None demo_here = Ret (Some b) p' /\
                           interp b <> None /\ exec_entry b = 0x401000).
  { eexists _, _. split; [ vm_compute; reflexivity | split; [ discriminate | reflexivity ] ]. }
  destruct E as (b & p' & E & Hi & He). exists b, p'.
  split; [ exact E | split; [ | split; [ exact Hi | exact He ] ] ].
  exact (map_binary_well_formed 2 0 [97] None demo_here p' b E).
Defined.

(** With 1021 descriptors to spare. *)
Lemma map_binary_self_interp_witness :
  map_binary 1022 0 [99] None demo_here = Ret None (opens 1021 demo_here) /\
  map_binary 1021 0 [99] None demo_here = OutOfFuel.
Proof.
  assert (Hs : self_interp 1021 [99] file_c).
  { split.
    - intros n Hn. exists (3 + Z.of_nat n). unfold h_open, demo_os.
      by rewrite (proj2 (Nat.ltb_lt _ _)) by exact Hn.
    - reflexivity.
    - do 5 eexists. split; [ vm_compute; reflexivity | ].
      split; [ reflexivity | ]. split; [ vm_compute; reflexivity | ]. split; [ vm_compute; reflexivity | ].
      split; [ vm_compute; reflexivity | ]. split; vm_compute; reflexivity.
    - split; reflexivity. }
  split.
  - apply (map_binary_self_interp 1021 1022 0 [99] file_c None demo_here Hs); simpl; lia.
  - apply (map_binary_self_interp 1021 1021 0 [99] file_c None demo_here Hs); simpl; lia.
Defined.

Lemma map_binary_refuses_witness : map_binary 1 0 [100] None demo_here = Ret None demo_here.
Proof.
  etrans; [ apply (map_binary_refuses 0 0 [100] None demo_here); left | ]; reflexivity.
Defined.

(** A binary mapped at 0x400000, whose data segment is at [vaddr]. *)
Definition demo_elf : Elf64_Ehdr := mk_ehdr 2 0x401000 64 0 56 2 64 0 0.

Definition demo_bin (base0 : Z) : mdata_binary :=
  mk_binary (replicate (Z.to_nat 0x1200) 7) 3 [64; 120] demo_elf false None base0
    (demo_dbi demo_state 0) 0.

Definition data_phdr (vaddr filesz memsz : Z) : Elf64_Phdr :=
  mk_phdr PT_LOAD 6 (vaddr mod 0x1000) vaddr filesz memsz.

Definition empty_proc : proc := demo_proc (demo_mem 0 0 0 ∅) demo_state 0.

Lemma map_load_segment_witness :
  exists m' b', map_load (data_phdr 0x402010 0x100 0x3000) (demo_bin 0x400000) empty_proc
                = Ret (Some b') (empty_proc <| mem := m' |>) /\
    byte_at m' 0x402010 = 7 /\ byte_at m' 0x404fff = 0 /\ page_prot m' 0x403000 = Some 3 /\
    vbrk (dbi_handler b') = 0x407000.
Proof.
  destruct (map_load_segment empty_proc (demo_bin 0x400000) (data_phdr 0x402010 0x100 0x3000) 0x402010)
    as (m' & E & Hs & _).
  - split; done.
  - reflexivity.
  - exists m'. eexists. split; [ exact E | ].
    split; [ rewrite (ss_file _ _ _ _ _ (Hs 0x402010 ltac:(simpl; lia))) by (simpl; lia);
             vm_compute; reflexivity | ].
    split; [ exact (ss_zero _ _ _ _ _ (Hs 0x404fff ltac:(simpl; lia)) ltac:(simpl; lia)) | ].
    split; [ | reflexivity ].
    apply (ss_prot _ _ _ _ _ (Hs 0x403000 ltac:(simpl; lia))). intros [K _]. vm_compute in K. by apply K.
Defined.

(** A read-only segment that starts late in its page: its last page can be written. *)
Lemma map_load_segment_wide :
  exists m' b', map_load (mk_phdr PT_LOAD 4 0xf00 0x402f00 0x200 0x200) (demo_bin 0x400000)
                  empty_proc = Ret (Some b') (empty_proc <| mem := m' |>) /\
    page_prot m' 0x402f00 = Some PROT_READ /\ page_prot m' 0x403000 = Some 3.
Proof.
  destruct (map_load_run empty_proc (demo_bin 0x400000) (mk_phdr PT_LOAD 4 0xf00 0x402f00 0x200 0x200)
              0x402f00) as (m' & E & [Hp _]); [ by split | ].
  exists m'. eexists. split; [ exact E | split ]; (etrans; [ apply Hp | vm_compute; reflexivity ]).
Qed.

(** The data of this segment end at 0x403100, and the break is put at 0x403001. *)
Lemma map_load_break_witness :
  exists b' p', map_load (data_phdr 0x402f00 0x200 0x200) (demo_bin 0x400000) empty_proc
                = Ret (Some b') p' /\
    vbrk (dbi_handler b') mod PAGE_SZ = 1 /\ vbrk (dbi_handler b') <= 0x403100.
Proof.
  destruct (map_load_break empty_proc (demo_bin 0x400000) (data_phdr 0x402f00 0x200 0x200) 0x402f00)
    as (b' & p' & E & H1 & H2).
  - split; done.
  - reflexivity.
  - reflexivity.
  - exists b', p'. split; [ exact E | split; [ exact H1 | apply H2; reflexivity ] ].
Defined.

Lemma demo_first filesz memsz :
  0 <= filesz <= memsz -> memsz <= 0x2000 -> filesz < 0x1200 ->
  first_ready empty_proc (demo_bin 0) (data_phdr 0x400000 filesz memsz) 0x400000.
Proof.
  intros H1 H2 H3. split; try done.
  - simpl. lia.
  - change (fbinary (demo_bin 0)) with (replicate (Z.to_nat 0x1200) 7).
    rewrite length_replicate, Z2Nat.id by done. simpl.
    change (PAGE_ALIGN (0x400000 mod 0x1000)) with 0.
    pose proof (PAGE_ALIGN_bounds filesz). lia.
Qed.

Lemma map_load_first_witness :
  exists m' b', map_load (data_phdr 0x400000 0x1100 0x1180) (demo_bin 0) empty_proc
                = Ret (Some b') (empty_proc <| mem := m' |>) /\
    base b' = 0x400000 /\ byte_at m' 0x400010 = 7.
Proof.
  destruct (map_load_first empty_proc (demo_bin 0) (data_phdr 0x400000 0x1100 0x1180) 0x400000
              (demo_first 0x1100 0x1180 ltac:(lia) ltac:(lia) ltac:(lia)) eq_refl)
    as (m' & E & Hb & _).
  exists m'. eexists. split; [ exact E | split; [ reflexivity | ] ].
  change 0x400010 with (0x400000 + 0x10).
  etrans; [ apply (Hb 0x10); split; [ lia | reflexivity ] | vm_compute; reflexivity ].
Defined.

(** The destructor leaves the lower part of the stack of the engine mapped. *)
Definition engine_bin : mdata_binary :=
  (demo_bin 0) <| dbi_handler := (demo_dbi demo_state 0) <| host_rsp := 0x20028000 |>
    <| restore_stub := STUB_ADDR_RESTORE |> <| dump_stub := STUB_ADDR_DUMP |> |>.

Definition engine_proc : proc := demo_proc (demo_mem 0x20000000 80 PROT_RWX ∅) demo_state 0.

Lemma end_analysis_leaves_stack_witness :
  exists m', end_analysis engine_bin engine_proc = Ret 0 (closed engine_proc m' 0) /\
    page_prot m' 0x20001000 = Some PROT_RWX.
Proof.
  destruct (end_analysis_leaves_stack engine_bin engine_proc 0x20000000 0x20001000
              eq_refl eq_refl eq_refl eq_refl eq_refl) as (m' & E & H).
  - intros a [-> | ->]; left; unfold LENGTH_STUB, STUB_ADDR_DUMP, STUB_ADDR_RESTORE; lia.
  - left. lia.
  - exists m'. split; [ exact E | etrans; [ exact H | vm_compute; reflexivity ] ].
Defined.

Lemma map_load_first_bss_witness :
  exists p', map_load (data_phdr 0x400000 0x100 0x2000) (demo_bin 0) empty_proc = Ret None p'.
Proof.
  apply (map_load_first_bss empty_proc (demo_bin 0) (data_phdr 0x400000 0x100 0x2000) 0x400000
           (demo_first 0x100 0x2000 ltac:(lia) ltac:(lia) ltac:(lia)) eq_refl).
  reflexivity.
Defined.

Definition ehdr_f : Elf64_Ehdr := default demo_elf (read_ehdr file_f).

Lemma segments_static :
  static_binary [102] empty_proc 3 file_f demo_table ehdr_f
    [text_phdr; zeros_phdr] text_phdr [zeros_phdr] 0x400000.
Proof.
  split.
  - reflexivity.
  - vm_compute. reflexivity.
  - split; reflexivity.
  - vm_compute. reflexivity.
  - vm_compute. reflexivity.
  - change (parse_phdr ehdr_f) with [64; 120].
    apply Forall2_cons_2; [ vm_compute; reflexivity | ].
    apply Forall2_cons_2; [ vm_compute; reflexivity | apply Forall2_nil_2 ].
  - repeat (apply Forall_cons_2; [ reflexivity | ]). apply Forall_nil_2.
  - vm_compute. reflexivity.
  - split; [ | reflexivity ]. split; try reflexivity; done.
  - apply Forall_cons_2; [ | apply Forall_nil_2 ]. split; try reflexivity; done.
  - intros m a n prot. reflexivity.
Qed.

Lemma headers_round_trip_witness :
  read_phdr (ehdr_bytes (replicate 16 0) (replicate 6 0) (replicate 4 0) (replicate 2 0)
               (mk_ehdr 2 0x401000 67 0 56 2 64 0 0)
             ++ [1; 2; 3] ++ concat (entry_bytes <$> [(0, 0, text_phdr); (0, 1, zeros_phdr)]) ++ [4]) 123
  = Some zeros_phdr.
Proof.
  destruct (headers_round_trip (replicate 16 0) (replicate 6 0) (replicate 4 0) (replicate 2 0)
              [1; 2; 3] [4] (mk_ehdr 2 0x401000 67 0 56 2 64 0 0)
              [(0, 0, text_phdr); (0, 1, zeros_phdr)]) as [_ H].
  - split_and!; reflexivity.
  - split; split_and!; unfold fits_bytes; simpl; lia.
  - repeat (apply Forall_cons_2; [ split; split_and!; unfold fits_bytes; simpl; unfold PT_LOAD; lia | ]).
    apply Forall_nil_2.
  - reflexivity.
  - split; reflexivity.
  - simpl. lia.
  - exact (Forall2_lookup_lr _ _ _ 1%nat _ _ H eq_refl eq_refl).
Defined.

Lemma map_binary_image_witness :
  exists b m', map_binary 1 0 [102] None empty_proc
               = Ret (Some b) ((opens 1 empty_proc) <| mem := m' |>) /\
    exec_entry b = 0x401000 /\ byte_at m' 0x401215 = 7 /\ byte_at m' 0x402000 = 0 /\
    page_prot m' 0x400000 = Some 5 /\ vbrk (dbi_handler b) = 0x405000.
Proof.
  destruct (map_binary_image 0 0 [102] None empty_proc 3 file_f demo_table ehdr_f
              [text_phdr; zeros_phdr] text_phdr [zeros_phdr] 0x400000 segments_static)
    as (m' & [I1 I2 _] & _ & E & Hv).
  eexists _, m'. split; [ exact E | ]. split; [ vm_compute; reflexivity | ].
  assert (Hz : forall x, 0x401210 <= x < 0x403210 -> segment_shown m' file_f 0x401210 zeros_phdr x).
  { intros x Hx. apply (I2 [] zeros_phdr [] x eq_refl); [ reflexivity | exact Hx | constructor ]. }
  split.
  { etrans; [ apply (ss_file _ _ _ _ _ (Hz 0x401215 ltac:(lia))); simpl; lia | vm_compute; reflexivity ]. }
  split; [ apply (ss_zero _ _ _ _ _ (Hz 0x402000 ltac:(lia))); simpl; lia | ].
  split; [ | exact (Hv [] zeros_phdr eq_refl eq_refl) ].
  refine (proj2 (I1 0x400000 _ _)); [ simpl; lia | ].
  apply Forall_cons_2; [ | apply Forall_nil_2 ]. left. reflexivity.
Defined.

(** ** The guest stack: the program, one argument and one variable *)

Definition demo_argv : list Z := [0x7100; 0x7110; 0x7120; 0; 0x7130; 0].

Definition word_bytes (a : Z) (v : Z) : list (Z * Z) :=
  imap (fun i b => (a + Z.of_nat i, b)) (le_split 8 v).

Definition argv_mem : aspace :=
  demo_mem 0x7000 1 PROT_RWX
    (list_to_map (concat (imap (fun i v => word_bytes (0x7000 + 8 * Z.of_nat i) v) demo_argv))).

Definition argv_proc : proc := demo_proc argv_mem demo_state 0.

Lemma argv_words : words argv_mem 0x7000 demo_argv.
Proof.
  intros i x Hi. do 6 (destruct i as [| i]; [ injection Hi as <-; vm_compute; reflexivity | ]).
  by destruct i.
Qed.

Lemma setup_stack_layout_witness :
  exists m' b', setup_stack (Z.to_nat 20000) 0x7000 (demo_bin 0x400000) 3 argv_proc
                = Ret (0x20028000, b') (argv_proc <| mem := m' |>) /\
    load64 m' 0x20028000 = Some 2 /\ load64 m' 0x20028008 = Some 0x7110 /\
    load64 m' 0x20028030 = Some AT_ENTRY /\ load64 m' 0x20028038 = Some 0x401000.
Proof.
  assert (Hready : stack_ready argv_proc 0x7000 0x20000000 (demo_bin 0x400000) 0x7100 0x7110
                     [0x7120] [0x7130]).
  { split.
    - repeat constructor; done.
    - repeat constructor; done.
    - exact argv_words.
    - repeat constructor; done.
    - reflexivity.
    - split; [ reflexivity | split; [ lia | reflexivity ] ].
    - reflexivity.
    - split; [ lia | reflexivity ].
    - left. simpl. lia.
    - simpl. lia. }
  destruct (setup_stack_layout (Z.to_nat 20000) argv_proc 0x7000 0x20000000 (demo_bin 0x400000)
              0x7100 0x7110 [0x7120] [0x7130] Hready ltac:(rewrite Z2Nat.id by lia; lia))
    as (m' & b' & E & Hw & _ & _).
  exists m', b'. split; [ exact E | ].
  split; [ exact (Hw 0%nat 2 eq_refl) | ]. split; [ exact (Hw 1%nat 0x7110 eq_refl) | ].
  split; [ exact (Hw 6%nat AT_ENTRY eq_refl) | exact (Hw 7%nat 0x401000 eq_refl) ].
Defined.

(** ** The descriptor list: two pages of the binary, two of the interpreter *)

Definition demo_cells : gmap Z mem_map :=
  list_to_map
    [(0x100, mk_map 0x140 0x140 0x400000 PAGE_SZ 5 true);
     (0x140, mk_map 0x100 0x100 0x401000 PAGE_SZ 1 true);
     (0x200, mk_map 0x240 0x240 0x500000 PAGE_SZ 5 true);
     (0x240, mk_map 0x200 0x200 0x501000 PAGE_SZ 3 true)].

Definition demo_maps : maps := mk_maps demo_cells 0x100 (Some 0x200).

Lemma demo_ring a b (pa pb : mem_map) :
  a <> b -> demo_cells !! a = Some pa -> demo_cells !! b = Some pb ->
  list_next pa = b -> list_prev pa = b -> list_next pb = a -> list_prev pb = a ->
  ring demo_cells [a; b].
Proof.
  intros Hab Ea Eb H1 H2 H3 H4. split.
  - apply NoDup_cons. split; [ by intros ->%list_elem_of_singleton | apply NoDup_singleton ].
  - exists pa. split_and!; try done. exists pb. split_and!; done.
Qed.

Lemma demo_holds : holds demo_maps [0x100; 0x140].
Proof. split; [ | done | done ]. eapply demo_ring; vm_compute; done || reflexivity. Qed.

Lemma prot_tests_witness :
  is_rwx 2 0x401234 demo_maps = Done true demo_maps /\ is_w 2 0x401234 demo_maps = Done 0 demo_maps.
Proof.
  destruct (prot_tests demo_maps [0x100; 0x140] 2 0x401234 demo_holds ltac:(simpl; lia)) as [_ H].
  replace (prot_of (cells demo_maps) [0x100; 0x140] 0x401234) with (Some 1) in H by reflexivity.
  destruct H as (_ & H1 & _ & _ & _ & H2). split; [ exact H2 | exact H1 ].
Defined.

Lemma update_vprot_ok_witness :
  exists s', update_vprot 2 0x400000 0x2000 3 demo_maps = Done 0 s' /\
    prot_of (cells s') [0x100; 0x140] 0x401234 = Some 3.
Proof.
  destruct (update_vprot_ok demo_maps [0x100; 0x140] 2 0x400000 0x2000 3 demo_holds)
    as (s' & E & _ & Hp).
  - simpl. lia.
  - reflexivity.
  - reflexivity.
  - split; [ lia | split; [ lia | reflexivity ] ].
  - intros a Ha. unfold prot_of. 
    assert (Hpa : PAGE_ALIGN a = 0x400000 \/ PAGE_ALIGN a = 0x401000).
    { destruct (decide (a < 0x401000)); [ left | right ]; apply PAGE_ALIGN_unique; unfold PAGE_SZ; done || lia. }
    destruct Hpa as [Hpa | Hpa].
    + rewrite (desc_of_page _ _ a 0x400000) by (by rewrite Hpa). by eexists.
    + rewrite (desc_of_page _ _ a 0x401000) by (by rewrite Hpa). by eexists.
  - exists s'. split; [ exact E | ]. rewrite Hp. reflexivity.
Defined.

Lemma merge_address_space_ok_witness :
  exists s', merge_address_space demo_maps = Done 0x100 s' /\
    ring (cells s') [0x100; 0x140; 0x200; 0x240].
Proof.
  destruct (merge_address_space_ok demo_maps 0x100 0x200 [0x140] [0x240]) as (s' & E & _ & Hr & _).
  - apply demo_holds.
  - eapply demo_ring; vm_compute; done || reflexivity.
  - apply (bool_decide_unpack _). vm_compute. exact I.
  - reflexivity.
  - reflexivity.
  - exists s'. split; [ exact E | exact Hr ].
Defined.

(** The removal of the first page. *)
Lemma list_del_map_page_witness :
  exists s', list_del_map 2 0x400000 PAGE_SZ demo_maps = Done 0 s' /\ ring (cells s') [0x140] /\
    get_mem_desc 2 0x401000 s' = Fault.
Proof.
  destruct (list_del_map_page demo_maps [] [0x140] 0x100 2 0x400000 demo_holds)
    as (s' & E & _ & Hr & _ & _ & Hf); try done.
  exists s'. split; [ exact E | split; [ exact Hr | exact (Hf eq_refl 1%nat 0x401000) ] ].
Defined.

Lemma free_memory_map_ok_witness :
  exists s', free_memory_map 2 0x100 demo_maps = Done 0 s' /\ cells s' !! 0x140 = None /\
    is_Some (cells s' !! 0x240).
Proof.
  destruct (free_memory_map_ok demo_maps [0x100; 0x140] 2 demo_holds ltac:(simpl; lia)) as (s' & E & Hc).
  exists s'. split; [ exact E | ]. rewrite !Hc. split; [ reflexivity | by eexists ].
Defined.

Lemma log_map_prints_witness :
  exists rs, log_map 2 0x100 demo_maps
             = Done (concat (line_of <$> (if wraps rs then removelast rs else rs))) demo_maps /\
    concat (pages_of <$> rs) = [(0x400000, 5); (0x401000, 1)] /\ separate rs.
Proof.
  apply (log_map_prints demo_maps [0x100; 0x140] 2 demo_holds); [ | reflexivity ].
  intros x m Hx Hm.
  repeat (apply elem_of_cons in Hx as [-> | Hx];
    [ vm_compute in Hm; injection Hm as <-; split_and!; [ reflexivity | discriminate | reflexivity ] | ]).
  by apply not_elem_of_nil in Hx.
Defined.

(** What it prints there. *)
Example demo_map_text :
  log_map 2 0x100 demo_maps
  = Done (str "[+] 400000 400fff / 1000 # 5" ++ newline ++
          str "[+] 401000 401fff / 1000 # 1" ++ newline) demo_maps.
Proof. vm_compute. reflexivity. Qed.
