(* ===== verification/RoundWitness.v ===== *)
(** * A round at a concrete guest

    The guest loops over [nop; nop; jmp 0x4000], with AVX2 registers and the stack of the
    engine below 0x8000; [engine_round] is applied to one of its rounds. *)

From S2P Require Import Prelude.
From S2P Require Import Pages.
From S2P Require Import Regs.
From S2P Require Import Process.
From S2P Require Import Syscalls.
From S2P Require Import Memory.
From S2P Require Import MemorySpec.
From S2P Require Import Branch.
From S2P Require Import Target.
From S2P Require Import TargetSpec.
From S2P Require Import Cflow.
From S2P Require Import CflowSpec.
From S2P Require Import Engine.
From S2P Require Import EngineSpec.
From S2P Require Import ProgressSpec.
From S2P Require Import Stubs.
From S2P Require Import StubsSpec.
From S2P Require Import RoundSpec.
From S2P Require Import Demo.
From S2P Require Import LoadWitnesses.

#[local] Existing Instance plain_kernel.
#[local] Existing Instance index_enum.
#[local] Existing Instance demo_disassembler.
#[local] Existing Instance demo_disassembler_ok.
#[local] Existing Instance demo_layout.
#[local] Existing Instance demo_layout_ok.
#[local] Existing Instance demo_selectors.

Definition round_proc : proc :=
  with_dbi loop_proc (fun d => d <| state := demo_avx_state |> <| host_rsp := 0x8000 |>
    <| dump_stub := STUB_ADDR_DUMP |> <| restore_stub := STUB_ADDR_RESTORE |>).

Definition round_guest (p : proc) : machine := mk_machine demo_guest demo_vec 0x1f80 0 p.

(** The process with the hooks of the loop in place. *)
Lemma round_start :
  exists p, instrumented loop_text p /\ core p = core round_proc /\ jmp (dump (dbi p)) = 0x4002.
Proof.
  assert (Hw : forall n, (0 < n <= 64)%nat -> hook_wf (demo_hook n)).
  { intros n Hn. split; simpl; rewrite ?length_replicate; unfold PAGE_SZ; lia. }
  assert (Hci : can_instrument 10 round_proc 0x4000 2).
  { destruct loop_tight as [H1 _ H2 H3 H4 H5 H6 H7]. split; try done; apply Hw; lia. }
  destruct (instrument_request_run 10 round_proc 0x4000 2 Hci eq_refl eq_refl)
    as (p & _ & Hc & Hi & Hd & _).
  exists p. split; [ exact Hi | split; [ exact Hc | exact Hd ] ].
Qed.

(** The stack of the engine, in every memory grown from the text. *)
Lemma round_room code m sp :
  prots_grow (demo_mem 0x3000 5 PROT_RWX code) m -> 0x7010 <= sp <= 0x8000 -> stack_room m sp 16.
Proof.
  intros G Hsp. split; try lia; (eapply prots_grow_has; [ exact G | auto with dry | ]);
    intros x Hx; apply demo_mem_has; done || (unfold PAGE_SZ; lia).
Qed.

(** The guest at the hook over an instruction at 0x4002, in whatever program. *)
Lemma round_at_hook (dis : Disassembler) code p insn (text := demo_mem 0x3000 5 PROT_RWX code) :
  instrumented text p -> core p = core round_proc -> jmp (dump (dbi p)) = 0x4002 ->
  cs_decode (mem_bytes text 0x4002 16) 0 = Some insn -> at_hook text (round_guest p) insn.
Proof.
  intros Hi Hc Hj Hin. destruct (core_hooks _ _ Hc) as (_ & Hl1 & _ & _ & Hl2 & _).
  destruct (core_rest _ _ Hc) as (Hst & _ & _ & _ & _ & Htc).
  destruct (core_engine_rest _ _ Hc) as (Hhs & Htab & Hfs & Hgs & Hrsp & _).
  change (hlength (dump (dbi round_proc))) with 22 in Hl1.
  change (hlength (restore (dbi round_proc))) with 10 in Hl2.
  change (host_rsp (dbi round_proc)) with 0x8000 in Hrsp.
  pose proof (in_order _ _ Hi) as Ho. pose proof (in_low _ _ Hi) as Hlow.
  change p with (host (round_guest p)) in Hst, Hj, Hl1, Hl2, Hrsp, Ho, Hlow, Htab, Htc.
  split; unfold apart; rewrite ?Hj, ?Hl1, ?Hl2, ?Hrsp, ?Htab, ?Htc;
    try (unfold INSTRUCTION_MAX_SZ; lia).
  - exact Hi.
  - split; reflexivity.
  - split; reflexivity.
  - reflexivity.
  - exact demo_table_ok.
  - unfold gstate. rewrite Hst. exact demo_areas_ok.
  - reflexivity.
  - apply (round_room code); [ by apply instrumented_grow | lia ].
  - change (is_u64 0x7008). unfold is_u64. lia.
  - repeat (apply Forall_cons_2; [ by split; [ split | ] | ]). apply Forall_nil_2.
  - intros x Hx. apply demo_mem_has; [ done | done | unfold INSTRUCTION_MAX_SZ, PAGE_SZ in *; lia ].
  - apply demo_allowed.
  - exact Hin.
Qed.

Lemma round_at_branch p :
  instrumented loop_text p -> core p = core round_proc -> jmp (dump (dbi p)) = 0x4002 ->
  at_branch loop_text (round_guest p) BJump loop_jmp.
Proof.
  intros Hi Hc Hj. split; [ by apply round_at_hook | reflexivity | reflexivity ].
Qed.

(** A loop can be instrumented again after its branch. *)
Lemma tight_next fuel m0 p base d hr mb mg :
  tight_loop fuel m0 base d (hlength (restore (dbi p))) -> instrumented m0 p ->
  below hr 16 m0 mb -> rwx_grow mb mg -> base + d + 16 <= hr - 16 ->
  can_instrument fuel (p <| mem := mg |>) base d.
Proof.
  intros [Hsw _ H2 H3 H4 H5 H6 H7] Hi B G Hhr.
  split; try done; try apply Hi.
  - change (block_end mg base (curr_syscall p) d). rewrite (in_flag _ _ Hi).
    apply (sweep_local m0 mg base d base (hr - 16)); [ | lia | lia | exact Hsw ].
    intros x Hx. rewrite (rg_bytes _ _ G). apply B. lia.
  - eapply range_has_grow; [ exact G | auto with dry | ].
    eapply below_range; [ exact B | exact H6 ].
Qed.

Lemma round_next p mb mg :
  instrumented loop_text p -> core p = core round_proc ->
  below 0x8000 16 loop_text mb -> rwx_grow mb mg ->
  can_instrument 10 (p <| mem := mg |>) 0x4000 2.
Proof.
  intros Hi Hc B G. destruct (core_hooks _ _ Hc) as (_ & _ & _ & _ & Hl & _).
  eapply (tight_next 10 loop_text p 0x4000 2 0x8000 mb mg); [ | exact Hi | exact B | exact G | lia ].
  rewrite Hl. exact loop_tight.
Qed.

(** The branch of the loop, as the processor takes it. *)
Lemma loop_branch b s m :
  rip s = 0x4002 -> x86_branch BJump loop_jmp b s m = Some (0x4000, s, m).
Proof.
  intros Hrip. unfold x86_branch. cbn [near_branch negb]. change (jcc_cond _ _) with (Some true).
  cbn [mbind option_bind]. change (first_operand loop_jmp) with (X86_OP_IMM (-2)).
  cbn [operand_value mbind option_bind]. by rewrite Hrip.
Qed.

Lemma round_branch p mg :
  instrumented loop_text p -> jmp (dump (dbi p)) = 0x4002 ->
  x86_branch BJump loop_jmp (bases_of (round_guest p)) (snapshot (round_guest p)) mg
  = Some (0x4000, snapshot (round_guest p), mg).
Proof.
  intros Hi Hj. apply loop_branch. rewrite snapshot_rip.
  exact (eq_trans (in_curr _ _ Hi) Hj).
Qed.

Lemma engine_round_witness :
  exists p m p' text h1 g2 g',
    instrumented loop_text p /\ _dispatcher test 10 (host m) = Ret () p' /\
    jmp (restore (dbi p')) = 0x3ff6 /\ jmp (dump (dbi p')) = 0x4002 /\
    craft_restore_stub_text (dbi p) = Some text /\
    run text h1 = Some (g2, Some 0x3ff6) /\ run restore_hook_text g2 = Some (g', None) /\
    reg g' F_r15 = 15 /\ vec g' = demo_vec.
Proof.
  destruct round_start as (p & Hi & Hc & Hj).
  destruct (core_rest _ _ Hc) as (Hst & _). destruct (core_hooks _ _ Hc) as (_ & _ & _ & _ & Hl & _).
  change (hlength (restore (dbi round_proc))) with 10 in Hl.
  assert (Hd : exists dt, craft_hook_text (dbi p) = Some dt)
    by (unfold craft_hook_text; rewrite Hst; eexists; reflexivity).
  assert (Hr : exists rt, craft_restore_stub_text (dbi p) = Some rt)
    by (unfold craft_restore_stub_text; rewrite Hst; eexists; reflexivity).
  destruct Hd as (dt & Hd), Hr as (rt & Hr).
  destruct (engine_round 10 loop_text (round_guest p) BJump loop_jmp dt rt
              (round_at_branch p Hi Hc Hj) Hd Hr) as (g1 & m & mb & mg & _ & _ & B & G & Hb).
  change (host_rsp _) with (host_rsp (dbi p)) in B.
  destruct (core_engine_rest _ _ Hc) as (_ & _ & _ & _ & Hrsp & _).
  pose proof (round_next p mb mg Hi Hc) as Hnext. clear Hc.
  change (host_rsp (dbi round_proc)) with 0x8000 in Hrsp. rewrite Hrsp in B.
  rewrite (round_branch p mg Hi Hj) in Hb.
  destruct (Hb 2 ltac:(discriminate) (Hnext B G))
    as (p' & Ed & Hi' & Hjd & Hjr & _ & _ & Hret).
  change (hlength _) with (hlength (restore (dbi p))) in Hjr. rewrite Hl in Hjr.
  set (h := mk_machine (demo_guest <| rsp := 0x7f00 |>) demo_vec 0 (mxcsr_var m) p').
  assert (Hroom : stack_room (mem p') 0x7f00 16).
  { apply (round_room loop_code); [ | lia ]. etrans; [ | apply (instrumented_grow _ _ Hi') ].
    etrans; [ | apply grow_prots, G ]. intros x. left. exact (below_prot _ _ _ _ x B). }
  destruct (Hret h) as (h1 & g2 & g' & mm & _ & F1 & F2 & [Cr _ Cv] & _).
  { split; [ reflexivity | reflexivity | | reflexivity | exact Hroom
           | change (reg h F_rsp) with 0x7f00; lia ].
    intros f Hf. repeat (apply elem_of_cons in Hf as [-> | Hf]; [ reflexivity | ]).
    by apply not_elem_of_nil in Hf. }
  exists p, m, p', rt, h1, g2, g'.
  split; [ exact Hi | split; [ exact Ed | split; [ exact Hjr | split; [ exact Hjd | ] ] ] ].
  split; [ exact Hr | split; [ by rewrite Hjr in F1 | split; [ exact F2 | ] ] ].
  split; [ rewrite Cr by (apply (bool_decide_unpack _); by vm_compute) | ].
  - etrans; [ apply snapshot_get; apply (bool_decide_unpack _); by vm_compute | reflexivity ].
  - change (gstate (host (round_guest p))) with (state (dbi p)) in Cv. rewrite Hst in Cv.
    exact (proj1 Cv).
Defined.
