(* ===== verification/SysWitness.v ===== *)
(** * A system call at a concrete guest

    The guest runs [nop; nop; syscall; jmp 0x4000] and asks for [write]; the kernel writes
    nothing and returns 0. *)

From S2P Require Import Prelude.
From S2P Require Import Pages.
From S2P Require Import Regs.
From S2P Require Import Process.
From S2P Require Import Syscalls.
From S2P Require Import SyscallsSpec.
From S2P Require Import Memory.
From S2P Require Import MemorySpec.
From S2P Require Import Branch.
From S2P Require Import Target.
From S2P Require Import TargetSpec.
From S2P Require Import Cflow.
From S2P Require Import CflowSpec.
From S2P Require Import Engine.
From S2P Require Import EngineSpec.
From S2P Require Import Stubs.
From S2P Require Import StubsSpec.
From S2P Require Import RoundSpec.
From S2P Require Import SysRoundSpec.
From S2P Require Import Demo.
From S2P Require Import Witnesses.
From S2P Require Import LoadWitnesses.
From S2P Require Import RoundWitness.

(** The demo disassembler with [syscall]. *)
Definition sys_insn_of (code : list Z) : option cs_insn :=
  match code with
  | a :: b :: _ => if (a =? 0x0f) && (b =? 0x05) then Some demo_sys else demo_insn code
  | _ => demo_insn code
  end.

#[local] Instance sys_disassembler : Disassembler := {| cs_decode := fun code _ => sys_insn_of code |}.

Lemma sys_insn_other code : head code <> Some 0x0f -> sys_insn_of code = demo_insn code.
Proof.
  destruct code as [| a [| b code]]; simpl; try done. intros Ha.
  destruct (Z.eqb_spec a 0x0f) as [-> | _]; [ by destruct Ha | done ].
Qed.

Lemma sys_insn_cases code i :
  sys_insn_of code = Some i ->
  (i = demo_sys /\ exists code', code = 0x0f :: 0x05 :: code') \/
  (demo_insn code = Some i /\ head code <> Some 0x0f).
Proof.
  assert (Hd : demo_insn code = Some i -> head code <> Some 0x0f).
  { intros E Hc. destruct code as [| a code]; [ done | ]. injection Hc as ->.
    destruct code as [| ? [| ? [| ? [| ? ?]]]]; discriminate E. }
  destruct code as [| a [| b code]]; simpl sys_insn_of; [ auto .. | ].
  destruct (Z.eqb_spec a 0x0f) as [-> |], (Z.eqb_spec b 0x05) as [-> |]; simpl; [ | auto .. ].
  intros [= <-]. left. split; [ done | by exists code ].
Qed.

#[local] Instance sys_disassembler_ok : @DisassemblerOk sys_disassembler.
Proof.
  split; simpl.
  - intros code a i [[-> (code' & ->)] | [E _]]%sys_insn_cases; [ simpl; lia | ].
    exact (@dec_size _ demo_disassembler_ok code a i E).
  - intros code rest a i [[-> (code' & ->)] | [E Hh]]%sys_insn_cases; [ done | ].
    pose proof (@dec_size _ demo_disassembler_ok code a i E) as [[H1 _] _].
    rewrite sys_insn_other; [ exact (@dec_prefix _ demo_disassembler_ok code rest a i E) | ].
    destruct code as [| b code]; [ done | ].
    destruct (Z.to_nat (insn_size i)) eqn:En; [ lia | exact Hh ].
Qed.

#[local] Existing Instance plain_kernel.
#[local] Existing Instance index_enum.
#[local] Existing Instance demo_layout.
#[local] Existing Instance demo_layout_ok.
#[local] Existing Instance demo_selectors.

(** [nop; nop; syscall; jmp 0x4000] *)
Definition sys_code : gmap Z Z :=
  list_to_map [(0x4000, 0x90); (0x4001, 0x90); (0x4002, 0x0f); (0x4003, 0x05); (0x4004, 0xe9);
               (0x4005, 0xf7); (0x4006, 0xff); (0x4007, 0xff); (0x4008, 0xff)].

Definition sys_text : aspace := demo_mem 0x3000 5 PROT_RWX sys_code.

Lemma sys_text_has a n :
  0x3000 <= a -> a + n <= 0x8000 -> range_has PROT_READ sys_text a n.
Proof. intros H0 H1 x Hx. apply demo_mem_has; [ done | done | unfold PAGE_SZ; lia ]. Qed.

(** Its two blocks. *)
Definition sys_block (t d : Z) : Prop := t = 0x4000 /\ d = 2 \/ t = 0x4004 /\ d = 0.

Lemma sys_sweep t d : sys_block t d -> sweep sys_text t d.
Proof.
  intros [[-> ->] | [-> ->]].
  - apply (sweep_next _ 0x4000 (mk_insn (X86_INS_OTHER 0) 1 [] []) 1); [ reflexivity | reflexivity | ].
    apply (sweep_next _ 0x4001 (mk_insn (X86_INS_OTHER 0) 1 [] []) 0); [ reflexivity | reflexivity | ].
    apply (sweep_here _ 0x4002 demo_sys); reflexivity.
  - apply (sweep_here _ 0x4004 (mk_insn X86_INS_JMP 5 [X86_GRP_JUMP] [X86_OP_IMM (-4)])); reflexivity.
Qed.

(** A memory with the bytes and the pages of the text can be instrumented at both blocks. *)
Lemma sys_can_instrument p m t d :
  hook_wf (dump (dbi p)) -> hook_wf (restore (dbi p)) -> hlength (restore (dbi p)) = 10 ->
  curr_syscall p = false ->
  (forall x, 0x3000 <= x < 0x7000 -> byte_at m x = byte_at sys_text x) ->
  (forall x, 0x3000 <= x < 0x7000 -> has_prot m x PROT_READ = true) ->
  sys_block t d -> can_instrument 10 (p <| mem := m |>) t d.
Proof.
  intros Hd Hr Hl Hf Hb Hp Ht. pose proof (sys_sweep t d Ht) as Hsw. unfold sys_block in Ht.
  split; simpl; rewrite ?Hl, ?Hf; try done; try (unfold PAGE_SZ; lia).
  - apply (sweep_local sys_text m t d 0x3000 0x7000); [ exact Hb | lia | lia | exact Hsw ].
  - intros x Hx. apply Hp. unfold PAGE_SZ in Hx. lia.
Qed.

Lemma core_mem p m : core (p <| mem := m |>) = core p.
Proof. done. Qed.

(** The process with the hooks of the first block in place. *)
Lemma sys_start :
  exists p, instrumented sys_text p /\ core p = core round_proc /\ jmp (dump (dbi p)) = 0x4002.
Proof.
  assert (Hw : forall n, (0 < n <= 64)%nat -> hook_wf (demo_hook n)).
  { intros n Hn. split; simpl; rewrite ?length_replicate; unfold PAGE_SZ; lia. }
  assert (Hci : can_instrument 10 (round_proc <| mem := sys_text |>) 0x4000 2).
  { apply sys_can_instrument; try done; try (apply Hw; lia); [ | by left ].
    intros x Hx. apply demo_mem_has; [ done | done | unfold PAGE_SZ; lia ]. }
  destruct (instrument_request_run 10 _ 0x4000 2 Hci eq_refl eq_refl)
    as (p & _ & Hc & Hi & Hd & _).
  rewrite core_mem in Hc. exists p. split; [ exact Hi | split; [ exact Hc | exact Hd ] ].
Qed.

Definition write_row : frow := mk_row __NR_write __NR_write [AL F_rdi; AL F_rsi; AL F_rdx] [].

Lemma write_row_in : write_row ∈ forward_rows.
Proof. unfold forward_rows. repeat first [ apply list_elem_of_here | apply list_elem_of_further ]. Qed.

Lemma get_rax_result s f v :
  field_get (s <| rax := v |>) f = if decide (f = F_rax) then v else field_get s f.
Proof. by destruct f. Qed.

Lemma syscall_round_witness :
  exists p m p' h g2 g' text ev,
    instrumented sys_text p /\ _dispatcher test 10 (host m) = Ret () p' /\
    trace p' = [ev] /\ ev_nr ev = __NR_write /\ ev_args ev = [VLong 6; VLong 5; VLong 4] /\
    jmp (dump (dbi p')) = 0x4004 /\ jmp (restore (dbi p')) = 0x3ffa /\
    run text h = Some (g2, Some 0x3ffa) /\ run restore_hook_text g2 = Some (g', None) /\
    reg g' F_rax = 0 /\ reg g' F_r15 = 15.
Proof.
  destruct sys_start as (p & Hi & Hc & Hj).
  destruct (core_rest _ _ Hc) as (Hst & Hfs & Hgs & _ & Htr & _).
  destruct (core_hooks _ _ Hc) as (_ & _ & _ & _ & Hl & _).
  destruct (core_engine_rest _ _ Hc) as (_ & _ & _ & _ & Hrsp & _).
  change (hlength (restore (dbi round_proc))) with 10 in Hl.
  change (trace round_proc) with (@nil sysevent) in Htr.
  change (host_rsp (dbi round_proc)) with 0x8000 in Hrsp.
  assert (Hd : exists dt, craft_hook_text (dbi p) = Some dt)
    by (unfold craft_hook_text; rewrite Hst; eexists; reflexivity).
  assert (Hr : exists rt, craft_restore_stub_text (dbi p) = Some rt)
    by (unfold craft_restore_stub_text; rewrite Hst; eexists; reflexivity).
  destruct Hd as (dt & Hd), Hr as (rt & Hr).
  pose proof (round_at_hook sys_disassembler sys_code p demo_sys Hi Hc Hj eq_refl) as Hg. clear Hc.
  destruct (syscall_round 10 sys_text (round_guest p) demo_sys write_row dt rt Hg eq_refl write_row_in eq_refl Hd Hr)
    as (g1 & m & mb & mg & _ & _ & B & G & Hb).
  change (k_syscall _ mg _ _) with (Some (0, mg)) in Hb.
  change (jmp (dump (dbi (host (round_guest p))))) with (jmp (dump (dbi p))) in Hb.
  change (host_rsp _) with (host_rsp (dbi p)) in B. rewrite Hj in Hb. rewrite Hrsp in B.
  change (u64 (0x4002 + insn_size demo_sys)) with 0x4004 in Hb.
  change (strings_ok mg _) with true in Hb. cbv iota in Hb.
  destruct (Hb 0 ltac:(discriminate)) as (p' & Ed & Hi' & Hjd & Hjr & _ & _ & Ht & Hret).
  { apply sys_can_instrument; [ apply Hi | apply Hi | exact Hl | apply Hi | | | by right ].
    - intros x Hx. rewrite (rg_bytes _ _ G). apply B. lia.
    - intros x Hx. apply (prots_grow_has PROT_READ mb mg x 1 (grow_prots _ _ G) ltac:(auto with dry));
        [ | lia ]. intros y Hy. rewrite (has_prot_ext mb sys_text) by apply B.
      apply demo_mem_has; [ done | done | unfold PAGE_SZ; lia ]. }
  change (hlength _) with (hlength (restore (dbi p))) in Hjr. rewrite Hl in Hjr.
  change (trace (host (round_guest p))) with (trace p) in Ht. rewrite Htr in Ht.
  set (h := mk_machine (demo_guest <| rsp := 0x7f00 |>) demo_vec 0 (mxcsr_var m) p').
  assert (Hroom : stack_room (mem p') 0x7f00 16).
  { apply (round_room sys_code); [ | lia ]. etrans; [ | apply (instrumented_grow _ _ Hi') ].
    etrans; [ | apply grow_prots, G ]. intros x. left. exact (below_prot _ _ _ _ x B). }
  destruct (Hret h) as (h1 & g2 & g' & mm & _ & F1 & F2 & [Cr _ _] & _).
  { split; [ reflexivity | reflexivity | | reflexivity | exact Hroom
           | change (reg h F_rsp) with 0x7f00; lia ].
    intros f Hf. repeat (apply elem_of_cons in Hf as [-> | Hf]; [ reflexivity | ]).
    by apply not_elem_of_nil in Hf. }
  exists p, m, p', h1, g2, g', rt. eexists.
  split; [ exact Hi | split; [ exact Ed | split; [ exact Ht | ] ] ].
  split; [ reflexivity | split; [ reflexivity | split; [ exact Hjd | split; [ exact Hjr | ] ] ] ].
  split; [ by rewrite Hjr in F1 | split; [ exact F2 | ] ].
  split; rewrite Cr by (apply (bool_decide_unpack _); by vm_compute).
  - apply (get_rax_result (snapshot (round_guest p)) F_rax).
  - rewrite get_rax_result. rewrite decide_False by discriminate.
    apply (snapshot_get (round_guest p) F_r15). apply (bool_decide_unpack _). by vm_compute.
Defined.
