(* ===== verification/SimWitness.v ===== *)
(** * The simulation at a concrete guest

    A guest that runs [nop; nop; syscall; jmp 0x4000] without end: its first block counts in
    [rbx] and in the byte at 0x6000 and asks for [getpid].  From its start the engine runs it
    for as many blocks as one likes. *)

From S2P Require Import Prelude.
From S2P Require Import Pages.
From S2P Require Import Regs.
From S2P Require Import Process.
From S2P Require Import Syscalls.
From S2P Require Import SyscallsSpec.
From S2P Require Import Memory.
From S2P Require Import MemorySpec.
From S2P Require Import Branch.
From S2P Require Import Target.
From S2P Require Import TargetSpec.
From S2P Require Import Cflow.
From S2P Require Import CflowSpec.
From S2P Require Import Engine.
From S2P Require Import EngineSpec.
From S2P Require Import Stubs.
From S2P Require Import Native.
From S2P Require Import StubsSpec.
From S2P Require Import RoundSpec.
From S2P Require Import CallSpec.
From S2P Require Import SimSpec.
From S2P Require Import RunSpec.
From S2P Require Import SetupSpec.
From S2P Require Import StartSpec.
From S2P Require Import Demo.
From S2P Require Import Witnesses.
From S2P Require Import LoadWitnesses.
From S2P Require Import RoundWitness.
From S2P Require Import SysWitness.

#[local] Existing Instance plain_kernel.
#[local] Existing Instance index_enum.
#[local] Existing Instance sys_disassembler.
#[local] Existing Instance sys_disassembler_ok.
#[local] Existing Instance demo_layout.
#[local] Existing Instance demo_layout_ok.
#[local] Existing Instance demo_selectors.
#[local] Existing Instance demo_assembler.
#[local] Existing Instance demo_choice.

(** The processor: the block at 0x4000 counts and asks for [getpid], that of the jump is
    empty. *)
#[local] Instance tick_processor : Processor :=
  {| block_code := fun _ a s v x =>
       if a =? 0x4000 then
         Load 0x6000 (fun b => Store 0x6000 (u8 (b + 1))
           (Done (s <| rbx := u64 (rbx s + 1) |> <| rax := __NR_getpid |>, v, x)))
       else Done (s, v, x) |}.

Definition tick_proc : proc :=
  with_dbi (demo_proc sys_text demo_avx_state 0) (fun d => d <| instrumented_fs := 0 |>).

Definition tick_cd : list Z :=
  demo_code_of (craft_hook_text ((dbi tick_proc) <| host_rsp := 0x20028000 |>)).
Definition tick_cr : list Z := demo_code_of (craft_restore_stub_text (dbi tick_proc)).

Lemma tick_ready :
  setup_ready tick_proc 0x20000000 tick_cd tick_cr [0x90; 0x90; 0x90] [0x90].
Proof.
  split; try reflexivity.
  - split; [ reflexivity | unfold STACK_SZ; lia ].
  - intros a [-> | ->]; left; unfold LENGTH_STUB, STUB_ADDR_DUMP, STUB_ADDR_RESTORE; lia.
  - done.
  - by vm_compute.
  - simpl. lia.
  - split; reflexivity.
Qed.

(** ** The memories of the guest *)

(** It agrees with the text between 0x3000 and 0x5000. *)
Record ticking (m : aspace) : Prop := {
  tk_prots : prots m = prots sys_text;
  tk_bytes x : 0x3000 <= x < 0x5000 -> byte_at m x = byte_at sys_text x
}.

Lemma tick_has m x flag :
  ticking m -> truth (Z.land PROT_RWX flag) = true -> 0x3000 <= x < 0x8000 ->
  has_prot m x flag = true.
Proof.
  intros [Hp _] Hf Hx. rewrite (has_prot_ext m sys_text) by done.
  apply demo_mem_has; [ done | done | unfold PAGE_SZ; lia ].
Qed.

Lemma tick_sweep m t d : ticking m -> sys_block t d -> sweep m t d.
Proof.
  intros [_ Hb] Ht. apply (sweep_local sys_text m t d 0x3000 0x5000);
    [ exact Hb | unfold sys_block in Ht; lia .. | by apply sys_sweep ].
Qed.

Lemma tick_fits m t d : ticking m -> sys_block t d -> fits_block 10 1 m t d.
Proof.
  intros Hm Ht. pose proof (tick_sweep m t d Hm Ht) as Hsw. unfold sys_block in Ht.
  split; try done; try (unfold PAGE_SZ; lia).
  intros x Hx. apply tick_has; [ done | done | unfold PAGE_SZ in Hx; lia ].
Qed.

Definition sys_jmp : cs_insn := mk_insn X86_INS_JMP 5 [X86_GRP_JUMP] [X86_OP_IMM (-4)].

(** The instructions at the ends of the blocks. *)
Lemma tick_decode m a :
  ticking m -> 0x3000 <= a <= 0x4ff0 ->
  cs_decode (mem_bytes m a 16) 0 = cs_decode (mem_bytes sys_text a 16) 0.
Proof. intros [_ Hb] Ha. f_equal. apply mem_bytes_ext. intros x Hx. apply Hb. lia. Qed.

(** What the first block stores. *)
Definition ticked (m : aspace) (b : Z) : aspace := m <| bytes := <[0x6000 := b]> (bytes m) |>.

Lemma tick_store m b : ticking m -> store8 m 0x6000 b = Some (ticked m b) /\ ticking (ticked m b).
Proof.
  intros Hm. split.
  - unfold store8. by rewrite (tick_has m 0x6000 PROT_WRITE Hm) by (done || lia).
  - split; [ apply Hm | ]. intros x Hx. unfold ticked. rewrite byte_at_store.
    rewrite decide_False by lia. by apply Hm.
Qed.

Lemma tick_load m : ticking m -> load8 m 0x6000 = Some (byte_at m 0x6000).
Proof. intros Hm. unfold load8. by rewrite (tick_has m 0x6000 PROT_READ Hm) by (done || lia). Qed.

(** ** The states of the guest *)

(** The guest after [k] rounds of the loop, at its first ([b = false]) or second block. *)
Record ticks (b : bool) (k : nat) (c : guest) : Prop := {
  tc_at : at_ c = if b then 0x4004 else 0x4000;
  tc_len : len c = if b then 0 else 2;
  tc_mem : ticking (g_mem c);
  tc_byte : byte_at (g_mem c) 0x6000 = u8 (Z.of_nat k);
  tc_vec : length (g_vec c) = 16%nat;
  tc_rbx : rbx (g_regs c) = u64 (Z.of_nat k);
  tc_rsp : rsp (g_regs c) = 0x7ff0;
  tc_sel f : f ∈ [F_es; F_ss; F_ds] -> field_get (g_regs c) f = 0
}.

Lemma counted_get s n r f :
  field_get (s <| rbx := n |> <| rax := r |>) f
  = if decide (f = F_rax) then r else if decide (f = F_rbx) then n else field_get s f.
Proof. by destruct f. Qed.

Definition kept_fields : list field := [F_rbx; F_rsp; F_es; F_ss; F_ds].

Lemma after_call_get s raw n r f :
  f ∈ kept_fields -> field_get (after_call s raw n r) f = field_get s f.
Proof.
  intros Hf. repeat (apply elem_of_cons in Hf as [-> | Hf]; [ reflexivity | ]).
  by apply not_elem_of_nil in Hf.
Qed.

Lemma user_get s a f : f ∈ kept_fields -> field_get (user_state s a) f = field_get s f.
Proof.
  intros Hf. repeat (apply elem_of_cons in Hf as [-> | Hf]; [ reflexivity | ]).
  by apply not_elem_of_nil in Hf.
Qed.

Lemma kept_selector f : f ∈ [F_es; F_ss; F_ds] -> f ∈ kept_fields.
Proof. intros Hf. right. right. exact Hf. Qed.

(** The registers at the end of the first block, in the round after [k] rounds. *)
Record counted (k : nat) (s : state_rtime) : Prop := {
  ct_rax : field_get s F_rax = __NR_getpid;
  ct_rbx : field_get s F_rbx = u64 (Z.of_nat (S k));
  ct_rsp : field_get s F_rsp = 0x7ff0;
  ct_sel f : f ∈ [F_es; F_ss; F_ds] -> field_get s f = 0
}.

Lemma counted_kept s n r f :
  f ∈ [F_rsp; F_es; F_ss; F_ds] -> field_get (s <| rbx := n |> <| rax := r |>) f = field_get s f.
Proof.
  intros Hf. repeat (apply elem_of_cons in Hf as [-> | Hf]; [ reflexivity | ]).
  by apply not_elem_of_nil in Hf.
Qed.

Lemma tick_run k c :
  ticks false k c ->
  exists s m', run_code (g_mem c) (block_of c) = Some ((s, g_vec c, u32 (g_mxcsr c)), m') /\
    ticking m' /\ byte_at m' 0x6000 = u8 (Z.of_nat (S k)) /\ counted k s.
Proof.
  intros [Ha _ Hm Hb _ Hc Hr Hs]. unfold block_of. rewrite Ha. cbn [block_code tick_processor].
  rewrite Z.eqb_refl. cbn [run_code]. rewrite (tick_load _ Hm). cbn [mbind option_bind].
  destruct (tick_store _ (u8 (byte_at (g_mem c) 0x6000 + 1)) Hm) as [-> Ht]. cbn [mbind option_bind].
  do 2 eexists. split; [ reflexivity | ]. split; [ done | ]. split.
  - unfold ticked. rewrite byte_at_store, decide_True by done. rewrite Hb. unfold u8.
    rewrite Zplus_mod_idemp_l. f_equal. lia.
  - split.
    + by rewrite counted_get.
    + rewrite counted_get, decide_False, decide_True by done.
      change (rbx (user_state (g_regs c) 0x4000)) with (rbx (g_regs c)).
      rewrite Hc. unfold u64. rewrite Zplus_mod_idemp_l. f_equal. lia.
    + rewrite counted_kept by left. rewrite user_get by (right; left). exact Hr.
    + intros f Hf. rewrite counted_kept by (by right). rewrite user_get by (by apply kept_selector).
      by apply Hs.
Qed.

Lemma tick_idle k c :
  ticks true k c ->
  run_code (g_mem c) (block_of c)
  = Some ((user_state (g_regs c) (at_ c), g_vec c, u32 (g_mxcsr c)), g_mem c).
Proof. intros [Ha _ _ _ _ _ _ _]. unfold block_of. by rewrite Ha. Qed.

Lemma zero_selectors s :
  (forall f, f ∈ [F_es; F_ss; F_ds] -> field_get s f = 0) -> selectors_ok s.
Proof. intros Hs. unfold selectors_ok. rewrite Forall_forall. intros f Hf. by rewrite (Hs f Hf). Qed.

Definition getpid_row : frow := mk_row __NR_getpid __NR_getpid [] [].

Lemma tick_first_end k c :
  ticks false k c -> at_ c + len c = 0x4002.
Proof. intros [-> -> _ _ _ _ _ _]. reflexivity. Qed.

(** The call it ends in. *)
Lemma counted_nr k s : counted k s -> s32 (rax s) = __NR_getpid.
Proof. intros [Hr _ _ _]. change (rax s) with (field_get s F_rax). by rewrite Hr. Qed.

Lemma counted_call k s : counted k s -> guest_call s = Some (__NR_getpid, []).
Proof. intros Hs. unfold guest_call. by rewrite (counted_nr k s Hs). Qed.

Lemma counted_step k c s m raw m' tr b q :
  counted k s -> sys_step c s m raw m' tr b q -> m' = m /\ b = g_bases c /\ q = g_brk c.
Proof.
  intros Hs Hst. destruct Hst as [nr args raw' m1 Eg Ek | raw' b' m1 Hn _ | q' m1 Hn _].
  - rewrite (counted_call k s Hs) in Eg. injection Eg as <- <-. by injection Ek as _ <-.
  - by rewrite (counted_nr k s Hs) in Hn.
  - by rewrite (counted_nr k s Hs) in Hn.
Qed.

(** The first block goes on with the second one. *)
Lemma tick_call k c : ticks false k c -> exists c', native c c'.
Proof.
  intros Hc. destruct (tick_run k c Hc) as (s & m' & Er & Hm & _ & Hs).
  pose proof (tick_first_end k c Hc) as He.
  eexists. eapply (native_syscall c s _ _ m' demo_sys 0 m' _ _ _ 0 0 0); [ exact Er | .. ].
  - rewrite He, tick_decode by (done || lia). reflexivity.
  - reflexivity.
  - reflexivity.
  - apply (sys_kernel _ _ _ __NR_getpid []); [ by eapply counted_call | reflexivity ].
  - rewrite He. apply tick_sweep; [ exact Hm | by right ].
Qed.

Lemma tick_called k c c' : ticks false k c -> native c c' -> ticks true (S k) c'.
Proof.
  intros Hc Hn. destruct (tick_run k c Hc) as (s & m1 & E & Hm & Hb & Hs).
  pose proof (tick_first_end k c Hc) as He. pose proof (tc_vec _ _ _ Hc) as Hv. clear Hc.
  assert (Hd : cs_decode (mem_bytes m1 (at_ c + len c) 16) 0 = Some demo_sys)
    by (rewrite He, tick_decode by (done || lia); reflexivity).
  destruct (native_syscall_inv c c' s _ _ m1 demo_sys Hn E Hd eq_refl)
    as (raw & m' & tr & bs & q & d & a & b & Hst & Hsw & ->).
  destruct (counted_step k _ _ _ _ _ _ _ _ Hs Hst) as (-> & -> & ->). rewrite He in *.
  change (u64 (0x4002 + insn_size demo_sys)) with 0x4004 in *.
  pose proof (sweep_unique _ _ _ Hsw 0 (tick_sweep m1 0x4004 0 Hm ltac:(by right))) as ->.
  split; [ reflexivity | reflexivity | exact Hm | exact Hb | exact Hv | .. ].
  - exact (eq_trans (after_call_get s raw a b F_rbx ltac:(left)) (ct_rbx _ _ Hs)).
  - exact (eq_trans (after_call_get s raw a b F_rsp ltac:(right; left)) (ct_rsp _ _ Hs)).
  - intros f Hf. exact (eq_trans (after_call_get s raw a b f (kept_selector f Hf)) (ct_sel _ _ Hs f Hf)).
Qed.

Lemma tick_branch b s m : rip s = 0x4004 -> x86_branch BJump sys_jmp b s m = Some (0x4000, s, m).
Proof.
  intros Hrip. unfold x86_branch. cbn [near_branch negb]. change (jcc_cond _ _) with (Some true).
  cbn [mbind option_bind]. change (first_operand sys_jmp) with (X86_OP_IMM (-4)).
  cbn [operand_value mbind option_bind]. by rewrite Hrip.
Qed.

Lemma tick_second_end k c : ticks true k c -> at_ c + len c = 0x4004.
Proof. intros [-> -> _ _ _ _ _ _]. reflexivity. Qed.

(** The second one with the first one. *)
Lemma tick_jump k c : ticks true k c -> exists c', native c c'.
Proof.
  intros Hc. pose proof (tick_second_end k c Hc) as He. pose proof (tc_mem _ _ _ Hc) as Hm.
  eexists. eapply (native_branch c _ _ _ _ BJump sys_jmp); [ by eapply tick_idle | .. ].
  - rewrite He, tick_decode by (done || lia). reflexivity.
  - reflexivity.
  - rewrite He. apply tick_branch. reflexivity.
  - apply (tick_sweep _ _ 2); [ exact Hm | by left ].
Qed.

Lemma tick_jumped k c c' : ticks true k c -> native c c' -> ticks false k c'.
Proof.
  intros Hc Hn. pose proof (tick_second_end k c Hc) as He. pose proof (tick_idle k c Hc) as E.
  destruct Hc as [_ _ Hm Hb Hv Hr Hs Hsel].
  assert (Hd : cs_decode (mem_bytes (g_mem c) (at_ c + len c) 16) 0 = Some sys_jmp)
    by (rewrite He, tick_decode by (done || lia); reflexivity).
  destruct (native_branch_inv c c' _ _ _ _ sys_jmp BJump Hn E Hd eq_refl ltac:(discriminate))
    as (t & s' & m' & d & Ex & Hsw & ->).
  rewrite He, tick_branch in Ex by reflexivity. injection Ex as <- <- <-.
  pose proof (sweep_unique _ _ _ Hsw 2 (tick_sweep _ 0x4000 2 Hm ltac:(by left))) as ->.
  split; [ reflexivity | reflexivity | exact Hm | exact Hb | exact Hv | exact Hr | exact Hs | ].
  intros f Hf. cbn [g_regs]. rewrite !user_get by (by apply kept_selector). by apply Hsel.
Qed.

(** ** Every block is covered *)

Lemma tick_end_call k c s m insn kd :
  counted k s -> ticking m -> cs_decode (mem_bytes m 0x4002 16) 0 = Some insn ->
  branch_of (groups insn) = Some kd -> covered_end (engine_area 0x20000000) c s m insn kd.
Proof.
  intros Hs Hm Hd Hk. rewrite tick_decode in Hd by (done || lia).
  change (Some demo_sys = Some insn) in Hd. injection Hd as <-. injection Hk as <-.
  split.
  - intros nr args raw m1 Eg Ek. rewrite (counted_call k s Hs) in Eg. injection Eg as <- <-.
    injection Ek as <- <-. split.
    { unfold hook_forwards. by rewrite (counted_nr k s Hs). }
    split; [ reflexivity | split; [ intros Hn; discriminate Hn | ] ].
    assert (Hgs : guest_strings s = [])
      by (unfold guest_strings; by rewrite (counted_nr k s Hs)).
    intros mg Hg. exists mg. rewrite Hgs. split_and!; try done.
  - intros raw b m1 Hn. by rewrite (counted_nr k s Hs) in Hn.
  - intros Hn. by rewrite (counted_nr k s Hs) in Hn.
Qed.

Lemma tick_end_jump c s m insn kd :
  ticking m -> cs_decode (mem_bytes m 0x4004 16) 0 = Some insn ->
  branch_of (groups insn) = Some kd -> covered_end (engine_area 0x20000000) c s m insn kd.
Proof.
  intros Hm Hd Hk. rewrite tick_decode in Hd by (done || lia).
  change (Some sys_jmp = Some insn) in Hd. injection Hd as <-. injection Hk as <-.
  split; reflexivity.
Qed.

Lemma tick_covered_call k c : ticks false k c -> covered 10 3 1 (engine_area 0x20000000) c.
Proof.
  intros Hc. destruct (tick_run k c Hc) as (s0 & m' & Er & Hm & Hb & Hs0).
  pose proof (tick_first_end k c Hc) as He.
  pose proof (tc_vec _ _ _ Hc) as Hv. destruct Hc as [Ha Hl Ht _ _ _ _ _]. split.
  - unfold fits. rewrite Ha, Hl. apply tick_fits; [ exact Ht | by left ].
  - unfold block_of. rewrite Ha, Hl. cbn [block_code tick_processor]. rewrite Z.eqb_refl.
    cbn [touches]. rewrite (tick_load _ Ht).
    assert (Hoff : off_hooks 1 3 0x4000 (0x4000 + 2) 0x6000) by (unfold off_hooks; lia).
    split; [ exact Hoff | split; [ exact Hoff | ] ]. by destruct (store8 _ _ _).
  - intros s v x m E. rewrite Er in E. injection E as <- <- _ <-.
    split; [ exact Hv | split; [ | split; [ apply zero_selectors, Hs0 | ] ] ].
    + change (is_u64 (field_get s0 F_rsp)). rewrite (ct_rsp _ _ Hs0). unfold is_u64. lia.
    + intros insn kd Hd Hk. rewrite He in Hd. by eapply tick_end_call.
Qed.

Lemma tick_covered_jump k c : ticks true k c -> covered 10 3 1 (engine_area 0x20000000) c.
Proof.
  intros Hc. pose proof (tick_second_end k c Hc) as He. pose proof (tick_idle k c Hc) as Er.
  destruct Hc as [Ha Hl Hm _ Hv _ Hr Hs]. split.
  - unfold fits. rewrite Ha, Hl. apply tick_fits; [ exact Hm | by right ].
  - unfold block_of. by rewrite Ha.
  - intros s v x m E. rewrite Er in E. injection E as <- <- _ <-.
    split; [ exact Hv | split; [ | split ] ].
    + change (is_u64 (rsp (g_regs c))). rewrite Hr. unfold is_u64. lia.
    + apply zero_selectors. intros f Hf. rewrite user_get by (by apply kept_selector). by apply Hs.
    + intros insn kd Hd Hk. rewrite He in Hd. by eapply tick_end_jump.
Qed.

Lemma tick_reaches n : forall b k c c',
  ticks b k c -> nsteps native n c c' -> exists b' k', ticks b' k' c'.
Proof.
  induction n as [| n IH]; intros b k c c' Hc Hn; inversion Hn as [| ? ? c1 ? Hn1 Hn2]; subst;
    [ by exists b, k | ].
  destruct b; eapply IH; [ by eapply tick_jumped | done | by eapply tick_called | done ].
Qed.

Lemma tick_rounds n : forall k c c',
  ticks false k c -> nsteps native (n * 2) c c' -> ticks false (n + k) c'.
Proof.
  induction n as [| n IH]; intros k c c' Hc Hn; inversion Hn as [| ? ? c1 ? Hn1 Hn2]; subst; [ done | ].
  inversion Hn2 as [| ? ? c2 ? Hn3 Hn4]; subst.
  replace (S n + k)%nat with (n + S k)%nat by lia. eapply IH; [ | exact Hn4 ].
  eapply tick_jumped; [ by eapply tick_called | done ].
Qed.

Lemma tick_safe n k c : ticks false k c -> safe 10 3 1 (engine_area 0x20000000) n c.
Proof.
  assert (Hcov : forall b k c, ticks b k c -> covered 10 3 1 (engine_area 0x20000000) c /\ exists c', native c c').
  { intros [] k0 c0 Hc; split; [ by eapply tick_covered_jump | by eapply tick_jump
                               | by eapply tick_covered_call | by eapply tick_call ]. }
  intros Hc. split.
  - intros j c' _ Hn. destruct (tick_reaches j _ _ _ _ Hc Hn) as (b & k' & Hc'). by eapply Hcov.
  - intros c' Hn. destruct (tick_reaches n _ _ _ _ Hc Hn) as (b & k' & Hc').
    apply (proj1 (Hcov _ _ _ Hc')).
Qed.

(** ** The start *)

Lemma tick_loaded :
  loaded 10 0x20000000 0x4000 2 tick_cd tick_cr [0x90; 0x90; 0x90] [0x90] sys_text tick_proc.
Proof.
  assert (Ht : ticking sys_text) by done.
  split; [ exact tick_ready | reflexivity | | apply (tick_fits _ _ _ Ht); by left | reflexivity
         | split; reflexivity | reflexivity | split; reflexivity | exact demo_table_ok | split; reflexivity | ].
  - intros x Hx. apply demo_mem_unmapped; [ done | ].
    unfold engine_area, STUB_ADDR_DUMP, STUB_ADDR_RESTORE, LENGTH_STUB, STACK_SZ, PAGE_SZ in *. lia.
  - split; [ reflexivity | ]. eexists. split; reflexivity.
Qed.

Lemma tick_room : stack_room sys_text 0x7ff0 16.
Proof. apply (round_room sys_code); [ reflexivity | lia ]. Qed.

Lemma tick_apart : apart 0x7ff0 16 (0x4000 - 1) (1 + 2 + PAGE_SZ).
Proof. unfold apart, PAGE_SZ. lia. Qed.

Definition tick_machine (p : proc) : machine := mk_machine demo_state demo_vec 0x1f80 0 p.

(** The guest that [exec_binary] enters has not counted yet. *)
Lemma tick_entered p g m' tr bs k :
  entered 0x7ff0 sys_text m' (tick_machine p) g ->
  ticks false 0 (mk_guest 0x4000 2 (cpu g) (vec g) (mxcsr g) m' tr bs k).
Proof.
  intros [Hc Hk Hr _ Hv [Bp Bb]].
  assert (Hb : forall x, ~ (0x7fe0 <= x < 0x7ff0) -> byte_at m' x = byte_at sys_text x)
    by (intros x Hx; apply Bb; lia).
  split; try reflexivity.
  - split; [ exact Bp | ]. intros x Hx. apply Hb. lia.
  - change (byte_at m' 0x6000 = 0). rewrite Hb by lia. reflexivity.
  - change (length (vec g) = 16%nat). rewrite Hv. reflexivity.
  - change (reg g F_rbx = 0). apply Hc. right. left.
  - exact Hr.
  - intros f Hf. change (reg g f = 0).
    repeat (apply elem_of_cons in Hf as [-> | Hf];
      [ rewrite Hk; [ reflexivity | apply (bool_decide_unpack _); by vm_compute ] | ]).
    by apply not_elem_of_nil in Hf.
Qed.

Lemma engine_starts_witness :
  exists p2 g m' tr bs k, instrument 10 0x4000 tick_proc = Ret () p2 /\
    run (exec_binary_text 0x4000 0x7ff0) (tick_machine p2) = Some (g, Some 0x4000) /\
    rbx (cpu g) = 0 /\
    sim 3 1 (in_stack 0x20000000) (engine_area 0x20000000)
      (mk_guest 0x4000 2 (cpu g) (vec g) (mxcsr g) m' tr bs k) g.
Proof.
  destruct (engine_starts 10 0x20000000 0x4000 2 tick_cd tick_cr [0x90; 0x90; 0x90] [0x90]
              tick_proc sys_text 0x7ff0 tick_loaded tick_room ltac:(lia) tick_apart
              ltac:(unfold is_u64; lia)) as (p2 & E & Hex).
  destruct (Hex (tick_machine p2) eq_refl) as (g & m' & Er & Hen & _ & _ & Hs).
  do 6 eexists. split; [ exact E | split; [ exact Er | split; [ | exact Hs ] ] ].
  exact (tc_rbx _ _ _ (tick_entered _ _ _ [] (0, 0) 0 Hen)).
Defined.

(** From the start of the guest, a million times round its loop. *)
Lemma engine_simulates_witness :
  exists p2 g c g', instrument 10 0x4000 tick_proc = Ret () p2 /\
    run (exec_binary_text 0x4000 0x7ff0) (tick_machine p2) = Some (g, Some 0x4000) /\
    nsteps (round 10 (in_stack 0x20000000)) (Z.to_nat 1000000 * 2) g g' /\
    sim 3 1 (in_stack 0x20000000) (engine_area 0x20000000) c g' /\ rbx (cpu g') = 1000000 /\
    byte_at (g_mem c) 0x6000 = 0x40.
Proof.
  destruct (start_run 10 0x20000000 0x4000 2 tick_cd tick_cr [0x90; 0x90; 0x90] [0x90]
              tick_proc sys_text 0x7ff0 tick_loaded tick_room ltac:(lia) tick_apart
              ltac:(unfold is_u64; lia)) as (p2 & E & Hex).
  destruct (Hex (tick_machine p2) eq_refl) as (g & m' & Er & Hen & Hcnt & _ & Hs).
  pose proof (tick_entered _ _ _ (trace (host g)) (bases_of g) (brk_of g) Hen) as Hc.
  destruct (engine_simulates 10 3 1 (in_stack 0x20000000) (engine_area 0x20000000) (Z.to_nat 1000000 * 2) _ g
              (tick_safe _ _ _ Hc) Hs) as [[g' Hr] Hall].
  { exists 0x20000010. split; lia. }
  { by rewrite Hcnt. }
  destruct (Hall g' Hr) as (c' & Hn & Hs' & _).
  pose proof (tick_rounds _ _ _ _ Hc Hn) as Hc'. rewrite Nat.add_0_r in Hc'.
  exists p2, g, c', g'. split; [ exact E | split; [ exact Er | split; [ exact Hr | ] ] ].
  split; [ exact Hs' | ]. split.
  - transitivity (rbx (g_regs c')).
    + apply (same_user_get _ _ F_rbx (sm_regs _ _ _ _ _ _ Hs')). apply (bool_decide_unpack _). by vm_compute.
    + rewrite (tc_rbx _ _ _ Hc'). rewrite Z2Nat.id by lia. reflexivity.
  - rewrite (tc_byte _ _ _ Hc'). rewrite Z2Nat.id by lia. reflexivity.
Defined.
