(* ===== verification/MainWitness.v ===== *)
(** * A whole program at a concrete guest

    The file "e" is a program of four blocks: it sets the base of [fs], asks for the break
    and for its process, and ends with the status 42. *)

From S2P Require Import Prelude.
From S2P Require Import Pages.
From S2P Require Import Regs.
From S2P Require Import Process.
From S2P Require Import Syscalls.
From S2P Require Import SyscallsSpec.
From S2P Require Import Memory.
From S2P Require Import MemorySpec.
From S2P Require Import Branch.
From S2P Require Import Target.
From S2P Require Import TargetSpec.
From S2P Require Import Cflow.
From S2P Require Import CflowSpec.
From S2P Require Import Engine.
From S2P Require Import EngineSpec.
From S2P Require Import Stubs.
From S2P Require Import Native.
From S2P Require Import StubsSpec.
From S2P Require Import RoundSpec.
From S2P Require Import CallSpec.
From S2P Require Import SimSpec.
From S2P Require Import RunSpec.
From S2P Require Import SetupSpec.
From S2P Require Import StartSpec.
From S2P Require Import EndSpec.
From S2P Require Import Elf.
From S2P Require Import Stack.
From S2P Require Import Loader.
From S2P Require Import MainSpec.
From S2P Require Import Demo.
From S2P Require Import Witnesses.
From S2P Require Import LoadWitnesses.
From S2P Require Import SysWitness.
From S2P Require Import SimWitness.

#[local] Existing Instance plain_kernel.
#[local] Existing Instance index_enum.
#[local] Existing Instance sys_disassembler.
#[local] Existing Instance sys_disassembler_ok.
#[local] Existing Instance demo_layout.
#[local] Existing Instance demo_layout_ok.
#[local] Existing Instance demo_selectors.
#[local] Existing Instance demo_assembler.
#[local] Existing Instance demo_globals.

(** ** The processor *)

(** The number and the first argument of the call of the block at [a]. *)
Definition quad_nr (a : Z) : Z :=
  if a =? 0x800100 then __NR_arch_prctl else if a =? 0x800103 then __NR_brk
  else if a =? 0x800106 then __NR_getpid else __NR_exit_group.

Definition quad_arg (a : Z) : Z :=
  if a =? 0x800100 then ARCH_SET_FS else if a =? 0x800103 then 0 else 42.

Definition asked (a : Z) (s : state_rtime) : state_rtime :=
  s <| rax := quad_nr a |> <| rdi := quad_arg a |> <| rsi := 0x12340 |>.

#[local] Instance quad_processor : Processor :=
  {| block_code := fun _ a s v x => Done (asked a s, v, x) |}.

(** ** The file *)

(** [nop; syscall], four times. *)
Definition quad_text : list Z := concat (replicate 4 [0x90; 0x0f; 0x05]).

Definition quad_ehdr : list Z :=
  [0x7f; 0x45; 0x4c; 0x46] ++ replicate 12 0 ++ w16 2 ++ w16 62 ++ w32 1 ++ w64 0x800100
  ++ w64 64 ++ w64 0 ++ w32 0 ++ w16 64 ++ w16 56 ++ w16 1 ++ w16 64 ++ w16 0 ++ w16 0.

Definition quad_phdr : list Z :=
  w32 1 ++ w32 5 ++ w64 0 ++ w64 0x800000 ++ w64 0x800000 ++ w64 0x1010 ++ w64 0x1010 ++ w64 0x1000.

(** The text at the offset 0x100. *)
Definition quad_file : list Z :=
  quad_ehdr ++ quad_phdr ++ replicate 136 0 ++ quad_text ++ replicate (Z.to_nat 0xf04) 0.

#[local] Instance quad_os : Machine :=
  {| h_open := fun _ s => if bool_decide (s = [101]) then Some (3, quad_file) else None;
     h_random := fun _ _ => None;
     cpu_sse := true; cpu_avx2 := true; cpu_avx512f := false;
     cs_open_ok := true; cs_malloc_ok := true |}.

(** The stack of the guest, then that of the engine. *)
#[local] Instance quad_choice : MmapChoice :=
  {| k_choose := fun m _ => match page_prot m 0x20000000 with
                            | None => Some 0x20000000
                            | Some _ => Some 0x30000000
                            end |}.

(** The command line: the program, the file "e" and an argument. *)
Definition quad_mem : aspace :=
  argv_mem <| bytes := <[0x7110 := 101]> (bytes argv_mem) |>.

Definition quad_proc : proc := demo_proc quad_mem demo_state 0.

Definition quad_cd : list Z :=
  demo_code_of (craft_hook_text ((fresh_dbi []) <| host_rsp := 0x30028000 |>)).
Definition quad_cr : list Z := demo_code_of (craft_restore_stub_text (fresh_dbi [])).

(** ** What the loader leaves *)

(** A memory with the text at its entry point. *)
Definition quad_ref : aspace :=
  demo_mem 0x800000 2 PROT_RWX
    (list_to_map (imap (fun i b => (0x800100 + Z.of_nat i, b)) quad_text)).

(** The page at [k] is away from what the engine maps. *)
Definition outside (k : Z) : bool :=
  negb (in_range 0x30000000 STACK_SZ k || in_range STUB_ADDR_DUMP LENGTH_STUB k
        || in_range STUB_ADDR_RESTORE LENGTH_STUB k).

Definition quad_mem_ok (m : aspace) : bool :=
  forallb (fun kp => outside kp.1) (map_to_list (prots m))
  && forallb (fun i => byte_at m (0x800100 + Z.of_nat i) =? byte_at quad_ref (0x800100 + Z.of_nat i))
       (seq 0 0x40)
  && has_prot m 0x800000 PROT_READ && has_prot m 0x801000 PROT_READ
  && has_prot m 0x20027000 PROT_READ && has_prot m 0x20027000 PROT_WRITE.

Definition quad_ok (b : mdata_binary) (p : proc) : bool :=
  (exec_entry b =? 0x800100) && (start_rsp b =? 0x20028000)
  && bool_decide (k_choose (mem p) STACK_SZ = Some 0x30000000) && quad_mem_ok (mem p).

Lemma quad_load_ok :
  exists b p1, map_binary 1 (Z.to_nat 1000) [101] (Some (0x7000, 3)) quad_proc = Ret (Some b) p1 /\
    quad_ok b p1 = true.
Proof.
  assert (H : match map_binary 1 (Z.to_nat 1000) [101] (Some (0x7000, 3)) quad_proc with
              | Ret (Some b) p1 => quad_ok b p1
              | _ => false
              end = true) by (vm_compute; reflexivity).
  destruct (map_binary _ _ _ _ _) as [[b |] p1 | | | | |]; try discriminate H. by exists b, p1.
Qed.

(** A memory with the text, mapped for two pages. *)
Record texted (m : aspace) : Prop := {
  tx_prot x : 0x800000 <= x < 0x802000 -> has_prot m x PROT_READ = true;
  tx_bytes x : 0x800100 <= x < 0x800140 -> byte_at m x = byte_at quad_ref x
}.

Lemma has_prot_page m k x flag :
  k mod PAGE_SZ = 0 -> k <= x < k + PAGE_SZ -> has_prot m k flag = true -> has_prot m x flag = true.
Proof.
  intros Hk Hx. unfold has_prot, page_prot.
  rewrite (PAGE_ALIGN_id k Hk), (PAGE_ALIGN_unique x k); [ done | done | lia ].
Qed.

Lemma outside_free m x :
  forallb (fun kp => outside kp.1) (map_to_list (prots m)) = true ->
  engine_area 0x30000000 x -> page_prot m x = None.
Proof.
  intros Hf Hx. unfold page_prot. destruct (prots m !! PAGE_ALIGN x) as [q |] eqn:E; [ exfalso | done ].
  rewrite forallb_forall in Hf.
  assert (Hin : In (PAGE_ALIGN x, q) (map_to_list (prots m)))
    by (apply list_elem_of_In, elem_of_map_to_list, E).
  specialize (Hf _ Hin). unfold outside, in_range in Hf. simpl in Hf.
  apply negb_true_iff in Hf. rewrite !orb_false_iff, !andb_false_iff, !Z.leb_gt, !Z.ltb_ge in Hf.
  pose proof (PAGE_ALIGN_bounds x). pose proof (PAGE_ALIGN_mod x) as Hm.
  apply Z.mod_divide in Hm as [j Hj]; [ | done ]. rewrite Hj in *.
  unfold engine_area, STUB_ADDR_DUMP, STUB_ADDR_RESTORE, LENGTH_STUB, STACK_SZ, PAGE_SZ in *. lia.
Qed.

Lemma quad_mem_inv m :
  quad_mem_ok m = true ->
  texted m /\ stack_room m 0x20028000 16 /\ (forall x, engine_area 0x30000000 x -> page_prot m x = None).
Proof.
  unfold quad_mem_ok. rewrite !andb_true_iff. intros [[[[[Ho Hb] H0] H1] Hr] Hw]. split_and!.
  - split.
    + intros x Hx. destruct (Z.lt_ge_cases x 0x801000).
      * apply (has_prot_page m 0x800000); [ done | unfold PAGE_SZ; lia | done ].
      * apply (has_prot_page m 0x801000); [ done | unfold PAGE_SZ; lia | done ].
    + intros x Hx. rewrite forallb_forall in Hb.
      specialize (Hb (Z.to_nat (x - 0x800100)) ltac:(apply in_seq; lia)).
      apply Z.eqb_eq in Hb. by replace (0x800100 + Z.of_nat (Z.to_nat (x - 0x800100))) with x in Hb by lia.
  - split; [ lia | lia | | ]; intros x Hx;
      (apply (has_prot_page m 0x20027000); [ done | unfold PAGE_SZ; lia | done ]).
  - intros x. by apply outside_free.
Qed.

(** The address of the block [i]. *)
Definition quad_at (i : nat) : Z := 0x800100 + 3 * Z.of_nat i.

Lemma quad_sweep m i : texted m -> (i < 4)%nat -> sweep m (quad_at i) 1.
Proof.
  intros Ht Hi. apply (sweep_local quad_ref m _ _ 0x800100 0x800140);
    [ apply Ht | unfold quad_at; lia .. | ].
  do 4 (destruct i as [| i];
    [ apply (sweep_next _ _ (mk_insn (X86_INS_OTHER 0) 1 [] []) 0); [ reflexivity | reflexivity | ];
      apply (sweep_here _ _ demo_sys); reflexivity | ]). lia.
Qed.

Lemma quad_decode m i :
  texted m -> (i < 4)%nat -> cs_decode (mem_bytes m (quad_at i + 1) 16) 0 = Some demo_sys.
Proof.
  intros Ht Hi. rewrite (mem_bytes_ext m quad_ref).
  - do 4 (destruct i as [| i]; [ reflexivity | ]). lia.
  - intros x Hx. apply Ht. unfold quad_at in Hx. lia.
Qed.

Lemma quad_fits m i : texted m -> (i < 4)%nat -> fits_block 10 1 m (quad_at i) 1.
Proof.
  intros Ht Hi. pose proof (quad_sweep m i Ht Hi) as Hs. unfold quad_at in *.
  split; try done; try (unfold PAGE_SZ; lia).
  intros x Hx. apply Ht. unfold PAGE_SZ in Hx. lia.
Qed.

Lemma texted_below m m' : texted m -> below 0x20028000 16 m m' -> texted m'.
Proof.
  intros [Hp Hb] [Bp Bb]. split.
  - intros x Hx. rewrite (has_prot_ext m' m) by done. by apply Hp.
  - intros x Hx. rewrite Bb by lia. by apply Hb.
Qed.

Lemma quad_prepared b p :
  quad_ok b p = true ->
  prepared 10 0x30000000 1 quad_cd quad_cr [0x90; 0x90; 0x90] [0x90] b p.
Proof.
  unfold quad_ok. rewrite !andb_true_iff, !Z.eqb_eq. intros [[[He Hs] Hc] Hm].
  apply bool_decide_eq_true in Hc. destruct (quad_mem_inv _ Hm) as (Ht & Hr & Hf).
  split; rewrite ?He, ?Hs; try done.
  - intros a [-> | ->]; left; unfold LENGTH_STUB, STUB_ADDR_DUMP, STUB_ADDR_RESTORE; lia.
  - simpl. lia.
  - apply (quad_fits _ 0 Ht). lia.
  - unfold apart, PAGE_SZ. simpl. lia.
Qed.

(** ** The run of the guest *)

Record quad (i : nat) (c : guest) : Prop := {
  qu_at : at_ c = quad_at i;
  qu_len : len c = 1;
  qu_mem : texted (g_mem c);
  qu_vec : length (g_vec c) = 16%nat;
  qu_rsp : field_get (g_regs c) F_rsp = 0x20028000;
  qu_sel f : f ∈ [F_es; F_ss; F_ds] -> field_get (g_regs c) f = 0
}.

Lemma asked_get a s f : f ∈ kept_fields -> field_get (asked a s) f = field_get s f.
Proof.
  intros Hf. repeat (apply elem_of_cons in Hf as [-> | Hf]; [ reflexivity | ]).
  by apply not_elem_of_nil in Hf.
Qed.

(** The registers at the end of the block. *)
Definition quad_end (c : guest) : state_rtime := asked (at_ c) (user_state (g_regs c) (at_ c)).

Lemma quad_end_get c f : f ∈ kept_fields -> field_get (quad_end c) f = field_get (g_regs c) f.
Proof. intros Hf. unfold quad_end. by rewrite asked_get, user_get. Qed.

Lemma quad_end_sel i c f : quad i c -> f ∈ [F_es; F_ss; F_ds] -> field_get (quad_end c) f = 0.
Proof. intros Hc Hf. rewrite quad_end_get by (by apply kept_selector). by apply (qu_sel i). Qed.

Lemma quad_run c :
  run_code (g_mem c) (block_of c) = Some ((quad_end c, g_vec c, u32 (g_mxcsr c)), g_mem c).
Proof. reflexivity. Qed.

Lemma quad_insn i c :
  quad i c -> (i < 4)%nat -> cs_decode (mem_bytes (g_mem c) (at_ c + len c) 16) 0 = Some demo_sys.
Proof. intros [-> -> Ht _ _ _] Hi. by apply quad_decode. Qed.

(** The calls of the four blocks. *)
Lemma quad_calls i c :
  quad i c -> (i < 4)%nat ->
  guest_call (quad_end c) = (if Nat.eqb i 2 then Some (__NR_getpid, []) else None) /\
  (s32 (rax (quad_end c)) = __NR_arch_prctl -> i = 0%nat) /\
  (s32 (rax (quad_end c)) = __NR_brk -> rdi (quad_end c) = 0).
Proof.
  intros [Ha _ _ _ _ _] Hi. unfold quad_end. rewrite Ha.
  do 4 (destruct i as [| i];
    [ split; [ reflexivity | split; [ intros H; done || discriminate H
                                    | intros H; reflexivity || discriminate H ] ] | ]).
  lia.
Qed.

Lemma quad_sys i c raw m tr b k :
  quad i c -> (i < 4)%nat -> sys_step c (quad_end c) (g_mem c) raw m tr b k -> m = g_mem c.
Proof.
  intros Hc Hi Hs. destruct (quad_calls i c Hc Hi) as (Hg & Hp & Hb).
  destruct Hs as [nr args raw m Eg Ek | raw b m Hn E | k m Hn Hcall].
  - by injection Ek as _ <-.
  - pose proof (qu_at _ _ Hc) as Ha. rewrite (Hp Hn) in Ha. unfold quad_end in E. rewrite Ha in E.
    injection E as _ _ <-. done.
  - rewrite (Hb Hn) in Hcall. destruct Hcall as [? | ? ? | ? ? ? ?]; [ done | lia .. ].
Qed.

(** Every block is covered. *)
Lemma quad_covered i c :
  quad i c -> (i < 4)%nat -> covered 10 3 1 (engine_area 0x30000000) c.
Proof.
  intros Hc Hi. destruct (quad_calls i c Hc Hi) as (Hg & Hp & Hb).
  pose proof (quad_insn i c Hc Hi) as Hd. split.
  - unfold fits. rewrite (qu_at _ _ Hc), (qu_len _ _ Hc). exact (quad_fits _ _ (qu_mem _ _ Hc) Hi).
  - done.
  - intros s v x m E. rewrite quad_run in E. injection E as <- <- _ <-.
    split; [ apply Hc | split; [ | split ] ].
    + change (is_u64 (field_get (quad_end c) F_rsp)).
      rewrite quad_end_get by (right; left). rewrite (qu_rsp _ _ Hc). unfold is_u64. lia.
    + apply zero_selectors. intros f Hf. by eapply quad_end_sel.
    + intros insn kd Ed Ek. rewrite Hd in Ed. injection Ed as <-. injection Ek as <-. split.
      * intros nr args raw m' Eg E. rewrite Hg in Eg. destruct (Nat.eqb_spec i 2) as [-> |]; [ | done ].
        injection Eg as <- <-. injection E as <- <-. pose proof (qu_at _ _ Hc) as Ha.
        unfold quad_end. rewrite Ha. split; [ reflexivity | ]. split; [ reflexivity | ].
        split; [ intros Hn; discriminate Hn | ]. intros mg Hmg. exists mg. by split_and!.
      * intros raw b m' Hn E. pose proof (qu_at _ _ Hc) as Ha. rewrite (Hp Hn) in Ha.
        unfold quad_end in E. rewrite Ha in E. by injection E as <- _ _.
      * intros Hn Hne. by destruct Hne; apply Hb.
Qed.

(** The first three are followed by the next one. *)
Lemma quad_next i c : quad i c -> (i < 3)%nat -> exists c', native c c'.
Proof.
  intros Hc Hi. pose proof (quad_insn i c Hc ltac:(lia)) as Hd.
  assert (Hs : exists raw tr b k, sys_step c (quad_end c) (g_mem c) raw (g_mem c) tr b k).
  { pose proof (qu_at _ _ Hc) as Ha.
    destruct i as [| [| [| i]]]; [ | | | lia ]; do 4 eexists.
    - apply sys_prctl; unfold quad_end; rewrite Ha; reflexivity.
    - apply sys_brk; unfold quad_end; rewrite Ha; [ reflexivity | by apply brk_query ].
    - apply (sys_kernel _ _ _ __NR_getpid []); [ unfold quad_end; rewrite Ha; reflexivity | reflexivity ]. }
  destruct Hs as (raw & tr & b & k & Hs).
  eexists. eapply (native_syscall c _ _ _ _ demo_sys raw _ _ _ _ 1 0 0);
    [ apply quad_run | exact Hd | reflexivity | reflexivity | exact Hs | ].
  rewrite (qu_at _ _ Hc), (qu_len _ _ Hc).
  replace (u64 (quad_at i + 1 + insn_size demo_sys)) with (quad_at (S i)).
  - apply quad_sweep; [ apply Hc | lia ].
  - destruct i as [| [| [| i]]]; [ reflexivity .. | lia ].
Qed.

Lemma quad_step i c c' : quad i c -> (i < 3)%nat -> native c c' -> quad (S i) c'.
Proof.
  intros Hc Hi Hn. assert (Hi4 : (i < 4)%nat) by lia.
  destruct (native_syscall_inv c c' _ _ _ _ demo_sys Hn (quad_run c) (quad_insn i c Hc Hi4) eq_refl)
    as (raw & m' & tr & b & k & d & x & y & Hs & Hsw & ->).
  pose proof (quad_sys i c _ _ _ _ _ Hc Hi4 Hs) as ->.
  assert (Hat : u64 (at_ c + len c + insn_size demo_sys) = quad_at (S i)).
  { rewrite (qu_at _ _ Hc), (qu_len _ _ Hc). destruct i as [| [| [| i]]]; [ reflexivity .. | lia ]. }
  rewrite Hat in *.
  assert (Hi5 : (S i < 4)%nat) by lia.
  pose proof (sweep_unique _ _ _ Hsw 1 (quad_sweep _ _ (qu_mem _ _ Hc) Hi5)) as ->.
  split; [ done | done | apply Hc | apply Hc | | ]; simpl g_regs.
  - rewrite after_call_get by (right; left). rewrite quad_end_get by (right; left). apply (qu_rsp _ _ Hc).
  - intros f Hf. rewrite after_call_get by (by apply kept_selector). by eapply quad_end_sel.
Qed.

Lemma quad_reaches n : forall i c c',
  quad i c -> (i + n <= 3)%nat -> nsteps native n c c' -> quad (i + n) c'.
Proof.
  induction n as [| n IH]; intros i c c' Hc Hi Hn; inversion Hn as [| ? ? c1 ? Hn1 Hn2]; subst.
  - by rewrite Nat.add_0_r.
  - replace (i + S n)%nat with (S i + n)%nat by lia. eapply IH; [ | lia | exact Hn2 ].
    eapply quad_step; [ exact Hc | lia | done ].
Qed.

(** The last one ends the process. *)
Lemma quad_exits c st m : quad 3 c -> native_exits c st m <-> st = 42 /\ m = g_mem c.
Proof.
  intros Hc. pose proof (quad_insn 3 c Hc ltac:(lia)) as Hd. pose proof (qu_at _ _ Hc) as Ha.
  assert (Hst : Z.land (rdi (quad_end c)) 0xff = 42) by (unfold quad_end; rewrite Ha; reflexivity).
  split.
  - intros [s v x m1 insn Er Ei _ _ _]. rewrite quad_run in Er. injection Er as <- _ _ <-. done.
  - intros [-> ->]. rewrite <- Hst. eapply native_exits_intro;
      [ apply quad_run | exact Hd | reflexivity | reflexivity | ].
    unfold quad_end. rewrite Ha. reflexivity.
Qed.

Lemma quad_halts c : quad 0 c -> halts 10 3 1 (engine_area 0x30000000) 3 c.
Proof.
  intros Hc. split.
  - split.
    + intros k c' Hk Hn. pose proof (quad_reaches k 0 c c' Hc ltac:(lia) Hn) as Hq.
      split; [ eapply quad_covered; [ exact Hq | lia ] | eapply quad_next; [ exact Hq | done ] ].
    + intros c' Hn. pose proof (quad_reaches 3 0 c c' Hc ltac:(lia) Hn) as Hq.
      apply (quad_covered 3 c' Hq). lia.
  - intros c' Hn. pose proof (quad_reaches 3 0 c c' Hc ltac:(lia) Hn) as Hq.
    split; [ apply (quad_covered 3 c' Hq); lia | ]. exists 42, (g_mem c'). by apply quad_exits.
Qed.

Lemma quad_entered m p g m' tr bs k :
  texted m -> entered 0x20028000 m m' (tick_machine p) g ->
  quad 0 (mk_guest 0x800100 1 (cpu g) (vec g) (mxcsr g) m' tr bs k).
Proof.
  intros Ht [_ Hk Hr _ Hv Hb]. split; try reflexivity.
  - by eapply texted_below.
  - simpl. rewrite Hv. reflexivity.
  - exact Hr.
  - intros f Hf. change (reg g f = 0).
    repeat (apply elem_of_cons in Hf as [-> | Hf];
      [ rewrite Hk; [ reflexivity | apply (bool_decide_unpack _); by vm_compute ] | ]).
    by apply not_elem_of_nil in Hf.
Qed.

(** ** The theorems *)

Lemma quad_command :
  load_word 0x7000 1 quad_proc = Ret 0x7110 quad_proc /\
  load_cstr (Z.to_nat 1000) 0x7110 quad_proc = Ret [101] quad_proc.
Proof. split; vm_compute; reflexivity. Qed.

Lemma quad_started : started_process quad_proc.
Proof. by split. Qed.

(** The main theorem: the guest ends with 42, the engine with 0. *)
Lemma main_runs_witness :
  exists p2 g g' q c', main 1 (Z.to_nat 1000) 10 3 0x7000 quad_proc = Ret true p2 /\
    run (exec_binary_text 0x800100 0x20028000) (tick_machine p2) = Some (g, Some 0x800100) /\
    nsteps (round 10 (in_stack 0x30000000)) 3 g g' /\ ends 10 g' 0 q /\
    native_exits c' 42 (g_mem c') /\ trace q = g_trace c' /\ bbl_count q = 4.
Proof.
  destruct quad_load_ok as (b & p1 & El & Hok). pose proof (quad_prepared b p1 Hok) as Hp.
  destruct quad_command as [Ew Es].
  destruct (main_runs 1 (Z.to_nat 1000) 10 0x30000000 1 quad_cd quad_cr [0x90; 0x90; 0x90] [0x90]
              3 0x7000 0x7110 [101] b quad_proc p1 index_enum_ok (eq_refl : @cpu_avx2 quad_os = true)
              (eq_refl : @cpu_avx512f quad_os = false) quad_started
              ltac:(lia) Ew Es El Hp eq_refl) as (p2 & Em & Hex).
  destruct (Hex (tick_machine p2) eq_refl) as (g & m' & Er & Hen & Hall).
  unfold quad_ok in Hok. rewrite !andb_true_iff, !Z.eqb_eq in Hok. destruct Hok as [[[He Hs] _] Hm].
  rewrite He, Hs in *. destruct (quad_mem_inv _ Hm) as (Ht & _ & _).
  pose proof (quad_entered _ _ _ _ (trace (host g)) (bases_of g) (brk_of g) Ht Hen) as Hq.
  destruct (Hall 3%nat (quad_halts _ Hq)) as [(g' & q & Hr & Hends) Hev].
  destruct (Hev g' 0 q Hr Hends) as (_ & c' & st & mx & Hn & Hx & Htr & _ & Hc).
  pose proof (quad_reaches 3 0 _ c' Hq ltac:(lia) Hn) as Hq3.
  exists p2, g, g', q, c'. split; [ exact Em | split; [ exact Er | split; [ exact Hr | ] ] ].
  split; [ exact Hends | split; [ | split; [ exact Htr | exact Hc ] ] ].
  apply (quad_exits c' 42 (g_mem c') Hq3). split; reflexivity.
Defined.

(** Its last block. *)
Lemma engine_exits_witness :
  exists c g p, sim 3 1 (in_stack 0x30000000) (engine_area 0x30000000) c g /\
    native_exits c 42 (g_mem c) /\ ends 10 g 0 p /\ trace p = g_trace c.
Proof.
  destruct quad_load_ok as (b & p1 & El & Hok). pose proof (quad_prepared b p1 Hok) as Hp.
  pose proof (prepared_loaded 1 (Z.to_nat 1000) 10 0x30000000 1 quad_cd quad_cr [0x90; 0x90; 0x90]
                [0x90] [101] (Some (0x7000, 3)) b quad_proc p1 index_enum_ok (eq_refl : @cpu_avx2 quad_os = true)
              (eq_refl : @cpu_avx512f quad_os = false) quad_started El Hp) as Hl.
  unfold quad_ok in Hok. rewrite !andb_true_iff, !Z.eqb_eq in Hok. destruct Hok as [[[He Hs] _] Hm].
  rewrite He in Hl. destruct (quad_mem_inv _ Hm) as (Ht & Hroom & _).
  destruct (start_run 10 0x30000000 0x800100 1 quad_cd quad_cr [0x90; 0x90; 0x90] [0x90]
              (handed b p1) (mem p1) 0x20028000 Hl Hroom ltac:(lia)
              ltac:(unfold apart, PAGE_SZ; simpl; lia) ltac:(unfold is_u64; lia)) as (p2 & _ & Hex).
  destruct (Hex (tick_machine p2) eq_refl) as (g & m' & _ & Hen & Hcnt & _ & Hsim).
  pose proof (quad_entered _ _ _ _ (trace (host g)) (bases_of g) (brk_of g) Ht Hen) as Hq.
  destruct (rounds_sim 10 3 1 (in_stack 0x30000000) (engine_area 0x30000000) 3 _ g
              (ha_safe _ _ _ _ _ _ (quad_halts _ Hq)) Hsim) as [[g' Hr] Hall].
  { exists 0x30000010. split; lia. }
  { rewrite Hcnt. change (bbl_count (handed b p1)) with (bbl_count p1).
    destruct (map_binary_engine 1 (Z.to_nat 1000) [101] (Some (0x7000, 3)) quad_proc _ _ El) as [_ Ho].
    destruct (only_mem_rest _ _ Ho) as (_ & _ & _ & ->). reflexivity. }
  destruct (Hall g' Hr) as (c' & Hn & Hs' & _).
  pose proof (quad_reaches 3 0 _ c' Hq ltac:(lia) Hn) as Hq3.
  pose proof (proj2 (quad_exits c' 42 (g_mem c') Hq3) (conj eq_refl eq_refl)) as Hx.
  destruct (engine_exits 10 3 1 (in_stack 0x30000000) (engine_area 0x30000000) c' g' 42 (g_mem c') Hs'
              (quad_covered 3 c' Hq3 ltac:(lia)) Hx) as (p & He' & _ & Htr & _).
  exists c', g', p. split; [ exact Hs' | split; [ exact Hx | split; [ exact He' | exact Htr ] ] ].
Defined.
